(* ===== verification/_CoqProject ===== *)
-Q . S2P
Prelude.v
Mem.v
Memory.v
MemoryFacts.v
MemorySpec.v
Paging.v
PagingFacts.v
PagingSpec.v
Process.v
ProcessSpec.v
Syscall.v
SyscallSpec.v
BlockDev.v
Ports.v
Ata.v
AtaSpec.v
Fat16.v
Fat16Facts.v
Fat16Dir.v
Fat16Spec.v
Fat16Mount.v
Fat16Examples.v
Screen.v
ScreenSpec.v
TarFs.v
TarFsSpec.v
Descriptors.v
Devices.v
DevicesSpec.v
UserMem.v
Elf.v
ElfSpec.v
Keyboard.v
KeyboardSpec.v
Shell.v
ShellSpec.v
ShellFiles.v
ShellSafe.v
RunSpec.v
ShellExamples.v
Kernel.v
KernelSpec.v
KernelExamples.v
SpawnSpec.v
FirstSpawn.v
