(* ===== verification/Prelude.v ===== *)
(** * CIndy-OS: a verification of the kernel's C code

    CIndy-OS is a 32-bit x86 kernel: it boots from GRUB, sets up interrupts,
    memory and paging, mounts a FAT16 disk and a tar RAM disk, and runs a shell
    that reads and writes files and starts programs in user mode.  This
    library translates the C files under src/src/ and src/include/ into
    executable definitions and proves what they do.  This file is the root; its
    second half is the prelude all other files use.

    ** How C is modelled

    - An integer of the source is a [Z]; the wrap-around of its width is written
      out ([u8], [u16], [u32], [i32]) wherever an operation can leave the range.
      Characters are unsigned bytes.
    - A function with effects is [M S A]: from a state it gives a value, the next
      state and the calls of the console it made ([event]), or [Fault va] when
      the processor raises a page fault, or [Spin] when the fuel of an unbounded
      loop runs out.  [wp m s Q] is total correctness: [m] comes back, without
      fault and within its fuel, and [Q] holds.
    - Each component has its globals in a Record of its own; [zoom] runs its
      operations inside the larger states of its callers.
    - Physical memory is a finite map of bytes ([Mem.mem]).  C code reads and
      writes through [AddrSpace], which physical memory implements before paging
      is on and the processor's two-level page walk after ([Paging.translate]).
      Aliasing between page tables, buffers and mapped pages is therefore real.

    ** The parts and their files

    - Mem: memory, little-endian access, string.c.
    - Memory, MemoryFacts, MemorySpec: memory.c.  [pmm] is the bump pointer, the
      counters and the frame bitmap; [kmalloc], [kmalloc_a], [pmm_alloc_block],
      [pmm_free_block], [init_memory] and [init_pmm] with the walk of GRUB's map.
    - Paging, PagingFacts, PagingSpec: paging.c.  [vm] is memory, the allocator,
      [page_direc], CR3 and CR0.
    - Process, ProcessSpec: process.c's ready queue and scheduler.c.
    - Syscall, SyscallSpec: syscall.c, on the interrupt frame of the stub.
    - BlockDev: the sector interface between the disk and its users.  Ports:
      ports.c.  Ata, AtaSpec: ata.c, which implements the interface over a drive.
    - Fat16, Fat16Facts, Fat16Dir, Fat16Spec, Fat16Mount, Fat16Examples: fat16.c,
      proved over any device of the interface.
    - Screen, ScreenSpec: screen.c; [Screen.run_event] executes the events.
    - TarFs, TarFsSpec: fs.c, the RAM disk.
    - Descriptors: gdt.c and idt.c.  Devices: pic.c and timer.c.  DevicesSpec:
      both, over the 8259 and 8253 as documented.
    - Elf, UserMem, ElfSpec: the ELF loader and the jump to user mode of
      keyboard.c.
    - Keyboard, KeyboardSpec: the line editor and the splitting of a line.
    - Shell: [execute_command] with every command, and process.c's
      [task_create_from_elf].  ShellSpec, ShellFiles, ShellSafe, RunSpec,
      SpawnSpec: its properties; ShellExamples: a concrete machine.
    - Kernel, KernelSpec, KernelExamples: kernel.c, [kernel_main] up to its idle
      loop and the two interrupt handlers.
    - FirstSpawn: creating a process in the state [kernel_main] leaves.

    The components meet as in the code.  [Kernel.machine] contains
    [Shell.shell], which contains the states of the editor, the memory system,
    the processes, the file system and the hardware; a key pressed goes from
    [Kernel.keyboard_handler] to [handle_keyboard_interrupt], on Enter to
    [execute_command], and from there to the file systems, the allocator, the
    loader and user mode.

    ** What the theorems show

    - Booting: the kernel reaches its idle loop in a consistent state
      ([kernel_boots]) with every interrupt that can arrive handled
      ([boot_interrupts]).
    - Memory: a frame [pmm_alloc_block] returns was never handed out before by
      either allocator and not freed since ([alloc_never_reuses]); [kmalloc_a]
      gives no such promise ([kmalloc_a_reuses_pmm_frame]); which frames
      [init_pmm] frees, and when it stays inside its array.
    - Paging: [map_page] changes the translation of one page and of no other;
      the user-region check accepts exactly the regions whose probed pages are
      open to user mode, and system calls built on it are safe for page-aligned
      addresses and fault for others.
    - Processes: the linked queue and the scheduler refine a list of processes;
      yielding is fair and resumes a process where it stopped; a created process
      is ready behind the others; what an exited process leaves behind; and that
      the first process spawned after booting has its structure on a frame of its
      own program ([first_spawn_overwrites]).
    - Disk: the driver implements the sector interface; a file written is read
      back, other files and the FAT's other chains are kept, the copies of the
      FAT stay equal; which sizes are returned, and what a duplicate name does.
    - RAM disk: files print as the archive says; a header that wraps the walk
      makes it endless.
    - Console: the VGA window refines a terminal, and no printing goes on for
      ever.
    - Loader and shell: a well-formed image is loaded as ELF prescribes and
      malformed headers are rejected; the editor refines an abstract editor and
      keeps its buffer safe whatever is typed; a line is split into its words;
      whole sessions, from keys to printed text, for echo, the file commands, the
      sector commands and run, and how a failing run spoils the next line.

    ** Bounds and fuel

    [execute_command] splits a line in 258 rounds, enough for any 256-byte
    buffer ([KeyboardSpec.split_args_words]); the loader walks at most 65536
    program headers, more than a 16-bit count allows; a file's clusters are
    followed for as many rounds as bytes are wanted.  Loops that may be endless
    take a fuel argument, and their theorems ask for enough of it and then prove
    that the code returns: [tar_chars] and [tar_fuel] (101 characters of a name,
    one more header than files), [map_fuel] (entries of the memory map), the
    polls of the ATA driver (the drive's [max_busy]) and of the serial line, the
    length of the process list.

    ** Parameters

    Not code of the kernel, and so arguments with stated laws where a theorem
    needs them: the hardware behind the ports ([Ports], [AtaDrive], [IrqHw]), the
    block device under the file system ([BlockDevSpec], discharged by the driver
    and by a RAM disk), what a user program does between the jump to ring 3 and
    its exit ([user_mode]), the bytes of an uninitialised array on the stack
    ([junk]), and the addresses the linker chooses.

    ** Not modelled

    - The assembler files (boot.asm, isr.asm, usermode.asm, gdt_flush.asm and the
      like): what C relies on, the interrupt frame and the switch of rings, is
      stated where it is used.  The processor's cache of translations is left
      out: [map_page] flushes the entry it changes (INVLPG), and the model lets a
      changed page table act at once.
    - Interrupts that arrive inside other code, in particular while the machine
      boots: handlers run to completion, one after the other.
    - Process structures, FAT buffers, the kernel's own variables and the VGA
      window are states of their own, apart from the byte memory; a program that
      writes them through a mapping of kernel memory is outside the model.  Of a
      new process's structure the byte memory has the clearing, not the fields
      stored after it.
    - User programs, disk images, the GRUB configuration and the documentation
      are inputs of the kernel, not part of it. *)
From Stdlib Require Import ZArith Lia ZifyBool Ascii String.
From stdpp Require Import base numbers list gmap.

#[global] Open Scope Z_scope.
#[export] Set Warnings "-clear-no-such-hyp".

(** ** Machine words

    C's fixed-width types as [Z] with the wrap-around written out.  [char] is
    signed for this target, but every comparison the kernel makes on characters
    ('a'..'z', '0'..'7', equality) gives the same answer on the unsigned
    byte, so characters are unsigned bytes throughout. *)
Definition u8 (z : Z) : Z := z mod 0x100.

Definition u16 (z : Z) : Z := z mod 0x10000.

Definition u32 (z : Z) : Z := z mod 0x100000000.

(** [int32_t]: two's complement reading of the low 32 bits. *)
Definition i32 (z : Z) : Z :=
  let w := u32 z in if bool_decide (w < 0x80000000) then w else w - 0x100000000.

Definition is_u8 (z : Z) : Prop := 0 <= z < 0x100.
Definition is_u16 (z : Z) : Prop := 0 <= z < 0x10000.
Definition is_u32 (z : Z) : Prop := 0 <= z < 0x100000000.

#[global] Instance is_u8_dec z : Decision (is_u8 z).
Proof. unfold is_u8. apply _. Defined.
#[global] Instance is_u16_dec z : Decision (is_u16 z).
Proof. unfold is_u16. apply _. Defined.
#[global] Instance is_u32_dec z : Decision (is_u32 z).
Proof. unfold is_u32. apply _. Defined.

(** [x & (1 << n)] as a truth value. *)
Definition bit (x n : Z) : bool := Z.testbit x n.

#[global] Arguments u8 : simpl never.
#[global] Arguments u16 : simpl never.
#[global] Arguments u32 : simpl never.
#[global] Arguments i32 : simpl never.
#[global] Arguments bit : simpl never.

(** ** Characters and strings *)
Definition ch (c : ascii) : Z := Z.of_N (N_of_ascii c).

Definition str (s : string) : list Z := ch <$> list_ascii_of_string s.

#[global] Arguments str : simpl never.
#[global] Arguments ch : simpl never.

(** ** Calls of the console interface

    Every component prints through [screen.h]; nothing else reads the
    console's state, so a component's printing is recorded as the sequence of
    its calls, which [Screen.run_event] executes. *)
Inductive event : Type :=
| Print (s : list Z)
| PrintInt (n : Z)
| PrintHex (n : Z)
| PrintColored (s : list Z) (color : Z)
| ClearScreen
| InitSerial
| EnableCursor (cursor_start cursor_end : Z).

#[global] Instance event_eq_dec : EqDecision event.
Proof. solve_decision. Defined.

(** ** Outcomes and the kernel monad

    [Fault va]: the CPU raises a page fault at [va] and control goes to
    [fault_handler], which halts.  [Undefined u]: the code does what C leaves
    undefined, an access outside one of its arrays or a division by zero; what
    the machine does from there on is outside the model.  [Spin]: the fuel of an
    unbounded loop ran out; the termination theorems say when it does not. *)
Inductive undefined : Type :=
| OutOfBounds (array : string)
| DivideByZero.

#[global] Instance undefined_eq_dec : EqDecision undefined.
Proof. solve_decision. Defined.

Inductive outcome (A : Type) : Type :=
| Done (a : A)
| Fault (va : Z)
| Undefined (u : undefined)
| Spin.
Arguments Done {A} _.
Arguments Fault {A} _.
Arguments Undefined {A} _.
Arguments Spin {A}.

Definition M (S A : Type) : Type := S -> outcome (A * S * list event).

#[global] Instance outcome_ret : MRet outcome := fun A a => Done a.
#[global] Instance outcome_bind : MBind outcome := fun A B f o =>
  match o with Done a => f a | Fault va => Fault va | Undefined u => Undefined u | Spin => Spin end.

#[global] Instance M_ret S : MRet (M S) := fun A a s => Done (a, s, []).
#[global] Instance M_bind S : MBind (M S) := fun A B f m s =>
  match m s with
  | Done (a, s1, o1) =>
      match f a s1 with
      | Done (b, s2, o2) => Done (b, s2, o1 ++ o2)
      | Fault va => Fault va
      | Undefined u => Undefined u
      | Spin => Spin
      end
  | Fault va => Fault va
  | Undefined u => Undefined u
  | Spin => Spin
  end.

Definition mget {S} : M S S := fun s => Done (s, s, []).
Definition mput {S} (s : S) : M S unit := fun _ => Done (tt, s, []).
Definition mmodify {S} (f : S -> S) : M S unit := fun s => Done (tt, f s, []).
Definition emit {S} (e : event) : M S unit := fun s => Done (tt, s, [e]).
Definition spin {S A} : M S A := fun _ => Spin.

Definition lift {S A} (o : outcome A) : M S A := fun s =>
  match o with
  | Done a => Done (a, s, []) | Fault va => Fault va | Undefined u => Undefined u | Spin => Spin
  end.

(** Run a component's operation inside a larger state. *)
Definition zoom {S T A} (get : S -> T) (set : T -> S -> S) (m : M T A) : M S A :=
  fun s =>
    match m (get s) with
    | Done (a, t, o) => Done (a, set t s, o)
    | Fault va => Fault va
    | Undefined u => Undefined u
    | Spin => Spin
    end.

(** ** Total correctness

    [wp m s Q]: started in [s], [m] returns (no fault, no exhausted loop) and
    its value, final state and printed events satisfy [Q]. *)
Definition wp {S A} (m : M S A) (s : S) (Q : A -> S -> list event -> Prop) : Prop :=
  match m s with Done (a, s', o) => Q a s' o | _ => False end.

Lemma wp_ret {S A} (a : A) (s : S) Q : Q a s [] -> wp (mret a) s Q.
Proof. done. Qed.

Lemma wp_get {S} (s : S) Q : Q s s [] -> wp mget s Q.
Proof. done. Qed.

Lemma wp_put {S} (s s' : S) Q : Q tt s' [] -> wp (mput s') s Q.
Proof. done. Qed.

Lemma wp_modify {S} (f : S -> S) s Q : Q tt (f s) [] -> wp (mmodify f) s Q.
Proof. done. Qed.

Lemma wp_emit {S} e (s : S) Q : Q tt s [e] -> wp (emit e) s Q.
Proof. done. Qed.

Lemma wp_mono {S A} (m : M S A) s (Q Q' : A -> S -> list event -> Prop) :
  wp m s Q -> (forall a s' o, Q a s' o -> Q' a s' o) -> wp m s Q'.
Proof. unfold wp. destruct (m s) as [[[a s'] o]| | |]; naive_solver. Qed.

Lemma wp_bind {S A B} (m : M S A) (f : A -> M S B) s Q :
  wp m s (fun a s1 o1 => wp (f a) s1 (fun b s2 o2 => Q b s2 (o1 ++ o2))) ->
  wp (m ≫= f) s Q.
Proof.
  unfold wp, mbind, M_bind. destruct (m s) as [[[a s1] o1]| | |]; [|done..].
  destruct (f a s1) as [[[b s2] o2]| | |]; done.
Qed.

Lemma wp_zoom {S T A} (get : S -> T) set (m : M T A) s Q :
  wp m (get s) (fun a t o => Q a (set t s) o) -> wp (zoom get set m) s Q.
Proof. unfold wp, zoom. destruct (m (get s)) as [[[a t] o]| | |]; done. Qed.

Lemma wp_lift {S A} (a : A) o (s : S) Q : o = Done a -> Q a s [] -> wp (lift o) s Q.
Proof. by intros ->. Qed.

Lemma wp_run {S A} (m : M S A) s a s' o Q :
  m s = Done (a, s', o) -> Q a s' o -> wp m s Q.
Proof. unfold wp. by intros ->. Qed.

Lemma wp_inv {S A} (m : M S A) s Q :
  wp m s Q -> exists a s' o, m s = Done (a, s', o) /\ Q a s' o.
Proof. unfold wp. destruct (m s) as [[[a s'] o]| | |]; naive_solver. Qed.

#[global] Instance wp_proper {S A} (m : M S A) s :
  Proper (pointwise_relation A (pointwise_relation S
            (pointwise_relation (list event) iff)) ==> iff) (wp m s).
Proof.
  intros Q Q' HQ. unfold wp. destruct (m s) as [[[a s'] o]| | |]; [|done..].
  apply HQ.
Qed.

Create HintDb kernel.
#[export] Hint Resolve wp_ret wp_get wp_put wp_modify wp_emit : kernel.

(** Step through the primitive operations of a monadic goal. *)
Ltac wp_prim :=
  first [ apply wp_bind | apply wp_ret | apply wp_get | apply wp_put
        | apply wp_modify | apply wp_emit | apply wp_zoom ].
Ltac wp_step := wp_prim; cbv beta.
Ltac wp_steps := repeat wp_step.

(** ** Counted loops

    [for_to n i body s]: [for (; n iterations; i++) s = body(i, s)]. *)
Fixpoint for_to {S : Type} (n : nat) (i : Z) (body : Z -> S -> S) (s : S) : S :=
  match n with
  | O => s
  | Datatypes.S n' => for_to n' (i + 1) body (body i s)
  end.

(** [for (i = lo; i < hi; i++) s = body(i, s)] *)
Definition for_ {S : Type} (lo hi : Z) (body : Z -> S -> S) (s : S) : S :=
  for_to (Z.to_nat (hi - lo)) lo body s.

Lemma for_to_inv {S} (P : Z -> S -> Prop) n lo body s :
  P lo s ->
  (forall i t, lo <= i < lo + Z.of_nat n -> P i t -> P (i + 1) (body i t)) ->
  P (lo + Z.of_nat n) (for_to n lo body s).
Proof.
  revert lo s. induction n as [|n IH]; intros lo s Hs Hstep; simpl.
  - by replace (lo + Z.of_nat 0) with lo by lia.
  - replace (lo + Z.of_nat (Datatypes.S n)) with ((lo + 1) + Z.of_nat n) by lia.
    apply IH; [apply Hstep; [lia|done]|]. intros; apply Hstep; [lia|done].
Qed.

Lemma for_inv {S} (P : Z -> S -> Prop) lo hi body s :
  lo <= hi ->
  P lo s ->
  (forall i t, lo <= i < hi -> P i t -> P (i + 1) (body i t)) ->
  P hi (for_ lo hi body s).
Proof.
  intros Hle Hs Hstep. unfold for_.
  replace hi with (lo + Z.of_nat (Z.to_nat (hi - lo))) at 1 by lia.
  apply for_to_inv; [done|]. intros i t ?; apply Hstep; lia.
Qed.

Lemma for_empty {S} lo hi body (s : S) : hi <= lo -> for_ lo hi body s = s.
Proof. intros. unfold for_. by replace (Z.to_nat (hi - lo)) with 0%nat by lia. Qed.

Lemma for_step {S} lo hi body (s : S) :
  lo < hi -> for_ lo hi body s = for_ (lo + 1) hi body (body lo s).
Proof.
  intros. unfold for_.
  by replace (Z.to_nat (hi - lo)) with (Datatypes.S (Z.to_nat (hi - (lo + 1)))) by lia.
Qed.

(** A property of the state that every iteration keeps. *)
Lemma for_keep {S} (P : S -> Prop) lo hi body s :
  P s -> (forall i t, lo <= i < hi -> P t -> P (body i t)) -> P (for_ lo hi body s).
Proof.
  intros Hs Hstep. destruct (decide (lo <= hi)) as [Hle|?].
  - by apply (for_inv (fun _ => P)).
  - rewrite for_empty by lia. done.
Qed.

(** A counted loop as a fold over its indices. *)
Lemma for_to_fold {S} n lo (body : Z -> S -> S) s :
  for_to n lo body s = fold_left (fun s i => body i s) (seqZ lo (Z.of_nat n)) s.
Proof.
  revert lo s. induction n as [|n IH]; intros lo s; [done|].
  cbn [for_to]. rewrite IH, (seqZ_cons lo) by lia. cbn [fold_left].
  replace (lo + 1) with (Z.succ lo) by lia.
  by replace (Z.pred (Z.of_nat (Datatypes.S n))) with (Z.of_nat n) by lia.
Qed.

Lemma for_fold {S} lo hi (body : Z -> S -> S) s :
  lo <= hi -> for_ lo hi body s = fold_left (fun s i => body i s) (seqZ lo (hi - lo)) s.
Proof. intros. unfold for_. rewrite for_to_fold. do 2 f_equal. lia. Qed.

(** Reason about counted loops with the lemmas above; unfolding a loop of 8192
    iterations is never what a proof wants.  [vm_compute] still runs them. *)
#[global] Opaque for_.

(** ** Word lemmas *)
Lemma u8_range z : is_u8 (u8 z).
Proof. unfold is_u8, u8. apply Z.mod_pos_bound. lia. Qed.
Lemma u16_range z : is_u16 (u16 z).
Proof. unfold is_u16, u16. apply Z.mod_pos_bound. lia. Qed.
Lemma u32_range z : is_u32 (u32 z).
Proof. unfold is_u32, u32. apply Z.mod_pos_bound. lia. Qed.

Lemma u8_small z : is_u8 z -> u8 z = z.
Proof. apply Z.mod_small. Qed.
Lemma u16_small z : is_u16 z -> u16 z = z.
Proof. apply Z.mod_small. Qed.
Lemma u32_small z : is_u32 z -> u32 z = z.
Proof. apply Z.mod_small. Qed.

#[export] Hint Resolve u8_range u16_range u32_range : kernel.

(** Arithmetic on words: unfold the wrap-arounds and let [lia] see the
    divisions by constants. *)
Ltac word_unfold := unfold u8, u16, u32, is_u8, is_u16, is_u32 in *.
Ltac word := word_unfold; Z.to_euclidean_division_equations; lia.

(** Resolve every [decide] of the goal whose side is provable by [word]. *)
Ltac simpl_decide :=
  repeat match goal with
  | |- context [decide ?P] =>
      first [ rewrite (decide_True (P := P)) by (done || word)
            | rewrite (decide_False (P := P)) by word ]
  end.

Lemma u32_u32 z : u32 (u32 z) = u32 z.
Proof. apply u32_small, u32_range. Qed.

Lemma u32_add_l a b : u32 (u32 a + b) = u32 (a + b).
Proof. unfold u32. by rewrite Zplus_mod_idemp_l. Qed.

Lemma u32_add_r a b : u32 (a + u32 b) = u32 (a + b).
Proof. unfold u32. by rewrite Zplus_mod_idemp_r. Qed.

Lemma u32_sub_l a b : u32 (u32 a - b) = u32 (a - b).
Proof. unfold u32. by rewrite Zminus_mod_idemp_l. Qed.

Create Rewrite HintDb word.
#[export] Hint Rewrite u32_u32 u32_add_l u32_add_r u32_sub_l : word.

(** ** Bits *)
Lemma bit_u32 x n : bit (u32 x) n = bool_decide (n < 32) && bit x n.
Proof.
  unfold bit, u32. change 0x100000000 with (2 ^ 32).
  destruct (decide (n < 0)) as [?|?].
  { rewrite !Z.testbit_neg_r by lia. by rewrite andb_false_r. }
  case_bool_decide.
  - by rewrite Z.mod_pow2_bits_low by lia.
  - by rewrite Z.mod_pow2_bits_high by lia.
Qed.

Lemma bit_one_shl b n : 0 <= b -> bit (Z.shiftl 1 b) n = bool_decide (n = b).
Proof.
  intros Hb. unfold bit. destruct (decide (n < 0)) as [?|?].
  { rewrite Z.testbit_neg_r by lia. symmetry. apply bool_decide_eq_false. lia. }
  rewrite Z.shiftl_spec by lia. case_bool_decide as Hn.
  - subst. by replace (b - b) with 0 by lia.
  - destruct (decide (n < b)); [by rewrite Z.testbit_neg_r by lia|].
    destruct (n - b) as [|q|q] eqn:E; [lia| |lia].
    rewrite <- E. apply (Z.bits_above_log2 1); simpl; lia.
Qed.

Lemma bit_lor x y n : bit (Z.lor x y) n = bit x n || bit y n.
Proof. apply Z.lor_spec. Qed.
Lemma bit_land x y n : bit (Z.land x y) n = bit x n && bit y n.
Proof. apply Z.land_spec. Qed.
Lemma bit_lnot x n : 0 <= n -> bit (Z.lnot x) n = negb (bit x n).
Proof. apply Z.lnot_spec. Qed.

Lemma u32_bits_inj x y :
  (forall n, 0 <= n < 32 -> bit x n = bit y n) -> u32 x = u32 y.
Proof.
  intros H. apply Z.bits_inj'. intros n Hn.
  change (bit (u32 x) n = bit (u32 y) n). rewrite !bit_u32.
  case_bool_decide; [|done]. apply H. lia.
Qed.

(** Masks of the page size. *)
Lemma land_0xFFF a : Z.land a 0xFFF = a mod 4096.
Proof. change 0xFFF with (Z.ones 12). by rewrite Z.land_ones. Qed.

Lemma bit_high a n : is_u32 a -> 32 <= n -> bit a n = false.
Proof.
  intros Ha Hn. rewrite <- (u32_small a Ha), bit_u32. by rewrite bool_decide_false by lia.
Qed.

Lemma land_page a : is_u32 a -> Z.land a 0xFFFFF000 = a / 4096 * 4096.
Proof.
  intros Ha. change 4096 with (2 ^ 12). rewrite <- Z.shiftr_div_pow2, <- Z.shiftl_mul_pow2 by lia.
  rewrite <- Z.ldiff_ones_r by lia. change 0xFFFFF000 with (Z.ldiff (Z.ones 32) (Z.ones 12)).
  apply Z.bits_inj'. intros n Hn. rewrite Z.land_spec, !Z.ldiff_spec, !Z.testbit_ones_nonneg by lia.
  destruct (n <? 32) eqn:?; [by rewrite andb_true_l|].
  change (Z.testbit a n) with (bit a n). by rewrite bit_high by (done || lia).
Qed.

(** ** Buffers as lists

    A C buffer read at an index; past the modelled bytes it reads 0. *)
Definition at_ (l : list Z) (i : Z) : Z :=
  if bool_decide (0 <= i) then default 0 (l !! Z.to_nat i) else 0.

(** An array of the source, with the bounds C leaves to the programmer: an access
    outside is undefined. *)
Definition load (array : string) (l : list Z) (i : Z) : outcome Z :=
  if bool_decide (0 <= i < Z.of_nat (length l)) then Done (at_ l i)
  else Undefined (OutOfBounds array).

Definition store (array : string) (l : list Z) (i v : Z) : outcome (list Z) :=
  if bool_decide (0 <= i < Z.of_nat (length l)) then Done (<[Z.to_nat i := v]> l)
  else Undefined (OutOfBounds array).

(** [c] written behind the first [length acc] of the [size] bytes of an array. *)
Definition append (array : string) (size : nat) (acc : list Z) (c : Z) : outcome (list Z) :=
  if bool_decide (length acc < size)%nat then Done (acc ++ [c]) else Undefined (OutOfBounds array).

(** Unsigned division, which C leaves undefined for a zero divisor. *)
Definition udiv (a b : Z) : outcome Z :=
  if bool_decide (b = 0) then Undefined DivideByZero else Done (a / b).

Definition umod (a b : Z) : outcome Z :=
  if bool_decide (b = 0) then Undefined DivideByZero else Done (a mod b).

(** What [print] shows of a character array: up to the terminator. *)
Fixpoint c_string (l : list Z) : list Z :=
  match l with
  | [] => []
  | c :: l' => if bool_decide (c = 0) then [] else c :: c_string l'
  end.

Lemma c_string_nonzero l : Forall (fun c => c <> 0) l -> c_string l = l.
Proof. induction 1 as [|c l Hc _ IH]; cbn; [done|]. by rewrite bool_decide_false, IH. Qed.

Lemma c_string_snoc l : c_string (l ++ [0]) = c_string l.
Proof. induction l as [|c l IH]; cbn; [done|]. case_bool_decide; [done|]. by rewrite IH. Qed.

(** [n] bytes of [l] from index [i] on. *)
Definition sub_ (l : list Z) (i n : Z) : list Z := (fun k => at_ l (i + k)) <$> seqZ 0 n.

(** Overwrite [l] with [x] from index [i] on. *)
Definition splice (i : Z) (x l : list Z) : list Z :=
  take (Z.to_nat i) l ++ x ++ drop (Z.to_nat i + length x) l.

(** Little-endian fields of a buffer. *)
Definition get16 (l : list Z) (i : Z) : Z := at_ l i + 0x100 * at_ l (i + 1).

Definition get32 (l : list Z) (i : Z) : Z :=
  at_ l i + 0x100 * at_ l (i + 1) + 0x10000 * at_ l (i + 2) + 0x1000000 * at_ l (i + 3).

Definition put16 (i v : Z) : list Z -> list Z := splice i [u8 v; u8 (v / 0x100)].

Definition put32 (i v : Z) : list Z -> list Z :=
  splice i [u8 v; u8 (v / 0x100); u8 (v / 0x10000); u8 (v / 0x1000000)].

Lemma at_nth l i : 0 <= i -> at_ l i = nth (Z.to_nat i) l 0.
Proof.
  intros Hi. unfold at_. rewrite bool_decide_true by done. by rewrite nth_lookup.
Qed.

Lemma at_overflow l i : Z.of_nat (length l) <= i -> at_ l i = 0.
Proof. intros Hi. rewrite at_nth by lia. apply nth_overflow. lia. Qed.

Lemma load_in array l i : 0 <= i < Z.of_nat (length l) -> load array l i = Done (at_ l i).
Proof. intros Hi. unfold load. by rewrite bool_decide_true. Qed.

Lemma store_in array l i v :
  0 <= i < Z.of_nat (length l) -> store array l i v = Done (<[Z.to_nat i := v]> l).
Proof. intros Hi. unfold store. by rewrite bool_decide_true. Qed.

Lemma append_in array size acc c :
  (length acc < size)%nat -> append array size acc c = Done (acc ++ [c]).
Proof. intros Hl. unfold append. by rewrite bool_decide_true. Qed.

Lemma udiv_nonzero a b : b <> 0 -> udiv a b = Done (a / b).
Proof. intros Hb. unfold udiv. by rewrite bool_decide_false. Qed.

Lemma umod_nonzero a b : b <> 0 -> umod a b = Done (a mod b).
Proof. intros Hb. unfold umod. by rewrite bool_decide_false. Qed.

Lemma at_app_l l k i : i < Z.of_nat (length l) -> at_ (l ++ k) i = at_ l i.
Proof.
  intros Hi. unfold at_. case_bool_decide; [|done]. by rewrite lookup_app_l by lia.
Qed.

Lemma at_app_r l k i : Z.of_nat (length l) <= i -> at_ (l ++ k) i = at_ k (i - Z.of_nat (length l)).
Proof.
  intros Hi. unfold at_. rewrite !bool_decide_true by lia. rewrite lookup_app_r by lia.
  do 2 f_equal. lia.
Qed.

Lemma at_drop l n i : 0 <= i -> at_ (drop n l) i = at_ l (Z.of_nat n + i).
Proof.
  intros Hi. unfold at_. rewrite !bool_decide_true by lia. rewrite lookup_drop. do 2 f_equal. lia.
Qed.

Lemma at_take l n i : i < Z.of_nat n -> at_ (take n l) i = at_ l i.
Proof. intros Hi. unfold at_. case_bool_decide; [|done]. by rewrite lookup_take_lt by lia. Qed.

(** Bytes and the fields made of them. *)
Lemma at_u8 l i : Forall is_u8 l -> is_u8 (at_ l i).
Proof.
  intros Hl. unfold at_. case_bool_decide; [|unfold is_u8; lia].
  destruct (l !! Z.to_nat i) as [c|] eqn:E; [|unfold is_u8; cbn; lia]. by eapply Forall_lookup_1 in Hl.
Qed.

Lemma get16_u16 l i : Forall is_u8 l -> is_u16 (get16 l i).
Proof.
  intros Hl. unfold get16. pose proof (at_u8 l i Hl). pose proof (at_u8 l (i + 1) Hl). unfold is_u8, is_u16 in *. lia.
Qed.

Lemma get32_u32 l i : Forall is_u8 l -> is_u32 (get32 l i).
Proof.
  intros Hl. unfold get32. pose proof (at_u8 l i Hl). pose proof (at_u8 l (i + 1) Hl).
  pose proof (at_u8 l (i + 2) Hl). pose proof (at_u8 l (i + 3) Hl). unfold is_u8, is_u32 in *. lia.
Qed.

Lemma length_sub l i n : length (sub_ l i n) = Z.to_nat n.
Proof. unfold sub_. by rewrite length_fmap, length_seqZ. Qed.

Lemma at_sub l i n k : 0 <= k < n -> at_ (sub_ l i n) k = at_ l (i + k).
Proof.
  intros Hk. unfold at_ at 1. rewrite bool_decide_true by lia. unfold sub_.
  rewrite list_lookup_fmap, (proj2 (lookup_seqZ 0 n (Z.to_nat k) k)) by lia. done.
Qed.

Lemma length_splice i x l :
  0 <= i -> i + Z.of_nat (length x) <= Z.of_nat (length l) -> length (splice i x l) = length l.
Proof. intros. unfold splice. rewrite !length_app, length_take, length_drop. lia. Qed.

Lemma at_splice i x l k :
  0 <= i -> i + Z.of_nat (length x) <= Z.of_nat (length l) ->
  at_ (splice i x l) k
  = if bool_decide (i <= k < i + Z.of_nat (length x)) then at_ x (k - i) else at_ l k.
Proof.
  intros Hi Hl. unfold splice.
  assert (Hlen : Z.of_nat (length (take (Z.to_nat i) l)) = i) by (rewrite length_take; lia).
  case_bool_decide as Hk.
  - rewrite at_app_r, Hlen by lia. by rewrite at_app_l by lia.
  - destruct (decide (k < i)).
    + rewrite at_app_l by lia. destruct (decide (0 <= k)); [by rewrite at_take by lia|].
      unfold at_. by rewrite bool_decide_false by lia.
    + rewrite at_app_r, Hlen by lia. rewrite at_app_r by lia. rewrite at_drop by lia.
      f_equal. lia.
Qed.

(** Lists of the same length that agree at every index. *)
Lemma at_ext l k :
  length l = length k -> (forall i, 0 <= i < Z.of_nat (length l) -> at_ l i = at_ k i) -> l = k.
Proof.
  intros Hlen Hat. apply (nth_ext l k 0 0); [done|]. intros n Hn.
  specialize (Hat (Z.of_nat n)). rewrite !at_nth, Nat2Z.id in Hat by lia. apply Hat. lia.
Qed.

Lemma get16_put16 i v l :
  0 <= i -> i + 2 <= Z.of_nat (length l) -> get16 (put16 i v l) i = u16 v.
Proof.
  intros Hi Hl. unfold get16, put16. rewrite !at_splice by (cbn; lia). cbn [length].
  rewrite !bool_decide_true by lia. replace (i - i) with 0 by lia. replace (i + 1 - i) with 1 by lia.
  change (at_ [u8 v; u8 (v / 0x100)] 0) with (u8 v).
  change (at_ [u8 v; u8 (v / 0x100)] 1) with (u8 (v / 0x100)). word.
Qed.

Lemma get16_put16_ne i j v l :
  0 <= i -> i + 2 <= Z.of_nat (length l) -> j + 2 <= i \/ i + 2 <= j ->
  get16 (put16 i v l) j = get16 l j.
Proof.
  intros Hi Hl Hj. unfold get16, put16. rewrite !at_splice by (cbn; lia). cbn [length].
  by rewrite !bool_decide_false by lia.
Qed.
