(* ===== verification/Mem.v ===== *)
(** * Memory and string.c

    Physical memory as a finite map from addresses to bytes, little-endian
    loads and stores, and the address-space interface ([AddrSpace]) through
    which C code reads and writes: physical memory implements it here, the
    paged virtual address space in [Paging].  The functions of [string.c] are
    written against the interface (memset, memcpy) or against a source of
    characters (strcmp, strlen, which fault when a read does; strncmp, whose
    callers compare arrays of their own). *)
From stdpp Require Import base numbers list gmap.
From Stdlib Require Import ZArith Lia ZifyBool.
From S2P Require Import Prelude.

(** ** Physical memory *)
Abbreviation mem := (gmap Z Z).

Definition rd8 (m : mem) (a : Z) : Z := u8 (default 0 (m !! u32 a)).

Definition wr8 (m : mem) (a v : Z) : mem := <[u32 a := u8 v]> m.

Definition rd16 (m : mem) (a : Z) : Z := rd8 m a + 0x100 * rd8 m (a + 1).

Definition rd32 (m : mem) (a : Z) : Z :=
  rd8 m a + 0x100 * rd8 m (a + 1) + 0x10000 * rd8 m (a + 2) + 0x1000000 * rd8 m (a + 3).

Definition wr32 (m : mem) (a v : Z) : mem :=
  wr8 (wr8 (wr8 (wr8 m a v) (a + 1) (v / 0x100)) (a + 2) (v / 0x10000))
      (a + 3) (v / 0x1000000).

(** ** The address-space interface *)
Class AddrSpace (St : Type) := {
  ld8 : Z -> St -> outcome Z;
  st8 : Z -> Z -> St -> outcome St;
}.

#[global] Instance phys_space : AddrSpace mem := {
  ld8 a m := Done (rd8 m a);
  st8 a v m := Done (wr8 m a v);
}.

(** Loads of 16 and 32 bits through a pointer, little-endian. *)
Section Loads.
Context {St : Type} `{AddrSpace St}.

Definition ld16 (va : Z) (s : St) : outcome Z :=
  a ← ld8 (u32 va) s; b ← ld8 (u32 (va + 1)) s; Done (a + 0x100 * b).

Definition ld32 (va : Z) (s : St) : outcome Z :=
  a ← ld8 (u32 va) s; b ← ld8 (u32 (va + 1)) s; c ← ld8 (u32 (va + 2)) s; d ← ld8 (u32 (va + 3)) s;
  Done (a + 0x100 * b + 0x10000 * c + 0x1000000 * d).
End Loads.

(** What a client may rely on in a region [R] of addresses, as long as the
    invariant [Inv] holds: every access succeeds and the bytes of the region
    are independent cells, read by [peek]. *)
Class AddrRegion (St : Type) `{AddrSpace St} (R : Z -> Prop) (Inv : St -> Prop)
    (peek : St -> Z -> Z) := {
  region_ld : forall s a, Inv s -> R a -> ld8 a s = Done (peek s a);
  region_st : forall s a v, Inv s -> R a ->
    exists s', st8 a v s = Done s' /\ Inv s' /\ peek s' a = u8 v /\
      forall b, R b -> b <> a -> peek s' b = peek s b;
}.

(** ** string.c *)
Module CString.

(** A [const char *] as the function from index to the outcome of reading that
    character; an array, where no read fails. *)
Abbreviation source := (Z -> outcome Z).

Abbreviation reader := (Z -> Z).

(** A string the kernel holds as a list. *)
Definition of_list (l : list Z) : source := fun i => Done (at_ l i).

(** [strcmp]: the loop advances while both characters agree and are not the
    terminator. *)
Fixpoint strcmp_from (fuel : nat) (s1 s2 : source) (i : Z) : outcome Z :=
  match fuel with
  | O => Spin
  | S fuel' =>
      a ← s1 i; b ← s2 i;
      if bool_decide (a <> 0 /\ a = b) then strcmp_from fuel' s1 s2 (i + 1) else Done (a - b)
  end.

Definition strcmp (fuel : nat) (s1 s2 : source) : outcome Z := strcmp_from fuel s1 s2 0.

(** [strncmp]: at most [n] characters. *)
Fixpoint strncmp_from (n : nat) (s1 s2 : reader) (i : Z) : Z :=
  match n with
  | O => 0
  | S n' =>
      if bool_decide (s1 i <> 0 /\ s1 i = s2 i)
      then strncmp_from n' s1 s2 (i + 1)
      else s1 i - s2 i
  end.

Definition strncmp (s1 s2 : reader) (n : Z) : Z := strncmp_from (Z.to_nat n) s1 s2 0.

Fixpoint strlen_from (fuel : nat) (s : source) (len : Z) : outcome Z :=
  match fuel with
  | O => Spin
  | S fuel' => c ← s len; if bool_decide (c <> 0) then strlen_from fuel' s (len + 1) else Done len
  end.

Definition strlen (fuel : nat) (s : source) : outcome Z := strlen_from fuel s 0.

Section Bytes.
Context {St : Type} `{AddrSpace St}.

(** [while (n--) *p++ = (unsigned char)val;] *)
Fixpoint memset_loop (n : nat) (p val : Z) (s : St) : outcome St :=
  match n with
  | O => Done s
  | S n' => s' ← st8 (u32 p) (u8 val) s; memset_loop n' (p + 1) val s'
  end.

Definition memset (dest val n : Z) (s : St) : outcome St :=
  memset_loop (Z.to_nat n) dest val s.

(** [while (n--) *d++ = *s++;] *)
Fixpoint memcpy_loop (n : nat) (d sr : Z) (s : St) : outcome St :=
  match n with
  | O => Done s
  | S n' =>
      c ← ld8 (u32 sr) s;
      s' ← st8 (u32 d) c s;
      memcpy_loop n' (d + 1) (sr + 1) s'
  end.

Definition memcpy (dest src n : Z) (s : St) : outcome St :=
  memcpy_loop (Z.to_nat n) dest src s.
End Bytes.

(** ** Specifications *)

(** [r] reads the C string [l]: its characters, none of them 0, and then the
    terminator. *)
Definition cstr (r : source) (l : list Z) : Prop :=
  (forall i c, l !! i = Some c -> c <> 0 /\ r (Z.of_nat i) = Done c) /\ r (Z.of_nat (length l)) = Done 0.

(** Lexicographic order on strings. *)
Fixpoint lex_lt (x y : list Z) : Prop :=
  match x, y with
  | _, [] => False
  | [], _ :: _ => True
  | a :: x', b :: y' => a < b \/ (a = b /\ lex_lt x' y')
  end.

Definition shift (r : source) : source := fun i => r (i + 1).

Lemma cstr_nil r : cstr r [] <-> r 0 = Done 0.
Proof. unfold cstr. simpl. split; [tauto|]. intros ?. split; [|done]. intros i c. by rewrite lookup_nil. Qed.

Lemma cstr_cons r c l : cstr r (c :: l) <-> c <> 0 /\ r 0 = Done c /\ cstr (shift r) l.
Proof.
  unfold cstr, shift. split.
  - intros [Hl Hend]. destruct (Hl 0%nat c) as [Hc Hr]; [done|]. split_and!; [done..| |].
    + intros i d Hd. destruct (Hl (S i) d) as [? <-]; [done|].
      split; [done|]. f_equal; lia.
    + rewrite <- Hend. f_equal. simpl. lia.
  - intros (Hc & Hr & Hl & Hend). split.
    + intros [|i] d; simpl; [by intros [= <-]|]. intros Hd.
      destruct (Hl i d) as [? <-]; [done|]. split; [done|]. f_equal; lia.
    + rewrite <- Hend. f_equal. simpl. lia.
Qed.

(** A list without a terminator inside is a C string: past its end it reads 0. *)
Lemma cstr_of_list l : Forall (fun c => c <> 0) l -> cstr (of_list l) l.
Proof.
  intros Hl. split; [|unfold of_list; by rewrite at_overflow by lia]. intros i c Hc. split.
  - rewrite Forall_lookup in Hl. by eapply Hl.
  - unfold of_list, at_. by rewrite bool_decide_true, Nat2Z.id, Hc by lia.
Qed.

Lemma strcmp_from_shift fuel s1 s2 i :
  strcmp_from fuel s1 s2 (i + 1) = strcmp_from fuel (shift s1) (shift s2) i.
Proof.
  revert i. induction fuel as [|fuel IH]; intros i; cbn [strcmp_from]; [done|].
  change (shift s1 i) with (s1 (i + 1)). change (shift s2 i) with (s2 (i + 1)).
  destruct (s1 (i + 1)); [|done..]. cbn [mbind outcome_bind].
  destruct (s2 (i + 1)); [|done..]. cbn [mbind outcome_bind]. by rewrite IH.
Qed.

Lemma strcmp_from_spec fuel s1 s2 x y :
  cstr s1 x -> cstr s2 y -> (length x < fuel)%nat ->
  (forall c, c ∈ x -> 0 < c) -> (forall c, c ∈ y -> 0 < c) ->
  exists c, strcmp_from fuel s1 s2 0 = Done c /\ (c = 0 <-> x = y) /\ (c < 0 <-> lex_lt x y).
Proof.
  revert s1 s2 x y. induction fuel as [|fuel IH]; intros s1 s2 x y Hx Hy Hf Px Py; [lia|].
  cbn [strcmp_from]. destruct x as [|a x].
  { apply cstr_nil in Hx. rewrite Hx. cbn [mbind outcome_bind].
    destruct y as [|b y].
    { apply cstr_nil in Hy. rewrite Hy. cbn [mbind outcome_bind]. rewrite bool_decide_false by tauto.
      eexists; split; [done|]. simpl. naive_solver lia. }
    apply cstr_cons in Hy as (? & -> & _). specialize (Py b ltac:(set_solver)). cbn [mbind outcome_bind].
    rewrite bool_decide_false by tauto. eexists; split; [done|]. simpl. naive_solver lia. }
  apply cstr_cons in Hx as (Ha & -> & Hx). specialize (Px a ltac:(set_solver)) as Pa. cbn [mbind outcome_bind].
  destruct y as [|b y].
  { apply cstr_nil in Hy. rewrite Hy. cbn [mbind outcome_bind]. rewrite bool_decide_false by lia.
    eexists; split; [done|]. simpl. naive_solver lia. }
  apply cstr_cons in Hy as (Hb & -> & Hy). specialize (Py b ltac:(set_solver)) as Pb. cbn [mbind outcome_bind].
  case_bool_decide as Hd.
  - change 1 with (0 + 1) at 1. rewrite strcmp_from_shift.
    destruct (IH _ _ x y Hx Hy) as (c & Hc & H0 & Hlt); [simpl in *; lia|set_solver..|].
    exists c. split; [done|]. simpl. destruct Hd as [_ ->].
    rewrite H0, Hlt. naive_solver (congruence || lia).
  - eexists; split; [done|]. simpl. naive_solver (congruence || lia).
Qed.

Lemma strncmp_from_zero n s1 s2 i :
  (forall j, i <= j < i + Z.of_nat n -> s1 j <> 0) ->
  strncmp_from n s1 s2 i = 0 <-> forall j, i <= j < i + Z.of_nat n -> s1 j = s2 j.
Proof.
  revert i. induction n as [|n IH]; intros i Hnz; simpl; [naive_solver lia|].
  specialize (Hnz i ltac:(lia)) as Hi.
  case_bool_decide as Hd.
  - rewrite IH by (intros; apply Hnz; lia). split; [|naive_solver lia].
    intros Hall j Hj. destruct (decide (j = i)) as [->|]; [tauto|]. apply Hall. lia.
  - split; [lia|]. intros Hall. specialize (Hall i ltac:(lia)). tauto.
Qed.

Lemma strlen_from_spec fuel s l n :
  cstr (fun i => s (n + i)) l -> (length l < fuel)%nat ->
  strlen_from fuel s n = Done (n + Z.of_nat (length l)).
Proof.
  revert n l. induction fuel as [|fuel IH]; intros n l Hl Hf; [lia|]. cbn [strlen_from].
  destruct l as [|a l].
  - apply cstr_nil in Hl. rewrite Z.add_0_r in Hl. rewrite Hl. cbn [mbind outcome_bind].
    rewrite bool_decide_false by tauto. f_equal; simpl; lia.
  - apply cstr_cons in Hl as (Ha & Ha' & Hl). rewrite Z.add_0_r in Ha'. rewrite Ha'. cbn [mbind outcome_bind].
    rewrite bool_decide_true by congruence.
    rewrite (IH _ l); [f_equal; simpl; lia| |simpl in *; lia].
    destruct Hl as [Hl Hend]. split; [|rewrite <- Hend; unfold shift; f_equal; lia].
    intros i c Hc. destruct (Hl i c Hc) as [? <-]. split; [done|]. unfold shift; f_equal; lia.
Qed.

Section BytesFacts.
Context {St : Type} `{AddrRegion St R Inv peek}.

(** memset fills exactly [p, p+n) of a region. *)
Lemma memset_loop_spec n p val s :
  Inv s -> 0 <= p -> p + Z.of_nat n <= 0x100000000 ->
  (forall a, p <= a < p + Z.of_nat n -> R a) ->
  exists s', memset_loop n p val s = Done s' /\ Inv s' /\
    (forall a, p <= a < p + Z.of_nat n -> peek s' a = u8 val) /\
    (forall a, R a -> ~ (p <= a < p + Z.of_nat n) -> peek s' a = peek s a).
Proof.
  revert p s. induction n as [|n IH]; intros p s Hinv Hp Hw HR; simpl.
  { exists s. naive_solver lia. }
  rewrite u32_small by (unfold is_u32; lia).
  destruct (region_st s p (u8 val) Hinv) as (s1 & -> & Hinv1 & Hat & Hne); [apply HR; lia|].
  rewrite u8_small in Hat by apply u8_range. simpl.
  destruct (IH (p + 1) s1 Hinv1) as (s2 & Hs2 & Hinv2 & Hin & Hout);
    [lia..|intros; apply HR; lia|].
  exists s2. split_and!; [done..| |].
  - intros a Ha. destruct (decide (a = p)) as [->|]; [|apply Hin; lia].
    rewrite Hout; [done|apply HR; lia|lia].
  - intros a Ra Ha. rewrite Hout by (done || lia). apply Hne; [done|lia].
Qed.

(** memcpy copies [n] bytes of a region when source and destination do not
    overlap. *)
Lemma memcpy_loop_spec n d sr s :
  Inv s -> 0 <= d -> 0 <= sr -> d + Z.of_nat n <= 0x100000000 ->
  sr + Z.of_nat n <= 0x100000000 ->
  (forall a, d <= a < d + Z.of_nat n -> R a) ->
  (forall a, sr <= a < sr + Z.of_nat n -> R a) ->
  (d + Z.of_nat n <= sr \/ sr + Z.of_nat n <= d) ->
  (forall s a, Inv s -> is_u8 (peek s a)) ->
  exists s', memcpy_loop n d sr s = Done s' /\ Inv s' /\
    (forall i, 0 <= i < Z.of_nat n -> peek s' (d + i) = peek s (sr + i)) /\
    (forall a, R a -> ~ (d <= a < d + Z.of_nat n) -> peek s' a = peek s a).
Proof.
  revert d sr s. induction n as [|n IH]; intros d sr s Hinv Hd Hs Hdw Hsw HRd HRs Hdis Hby; simpl.
  { exists s. naive_solver lia. }
  rewrite !u32_small by (unfold is_u32; lia).
  rewrite (region_ld s sr Hinv) by (apply HRs; lia). simpl.
  destruct (region_st s d (peek s sr) Hinv) as (s1 & -> & Hinv1 & Hat & Hne); [apply HRd; lia|].
  rewrite u8_small in Hat by by apply Hby. simpl.
  destruct (IH (d + 1) (sr + 1) s1 Hinv1) as (s2 & Hs2 & Hinv2 & Hin & Hout);
    [lia..|intros; apply HRd; lia|intros; apply HRs; lia|lia|done|].
  exists s2. split_and!; [done..| |].
  - intros i Hi. destruct (decide (i = 0)) as [->|].
    + rewrite !Z.add_0_r, Hout; [done|apply HRd; lia|lia].
    + replace (d + i) with (d + 1 + (i - 1)) by lia. rewrite Hin by lia.
      replace (sr + 1 + (i - 1)) with (sr + i) by lia. apply Hne; [apply HRs; lia|lia].
  - intros a Ra Ha. rewrite Hout by (done || lia). apply Hne; [done|lia].
Qed.
End BytesFacts.

End CString.

(** ** Facts about loads and stores *)
Lemma rd8_range m a : is_u8 (rd8 m a).
Proof. apply u8_range. Qed.
#[export] Hint Resolve rd8_range : kernel.

Lemma rd8_wr8 m a b v :
  rd8 (wr8 m a v) b = if decide (u32 b = u32 a) then u8 v else rd8 m b.
Proof.
  unfold rd8, wr8. case_decide as E.
  - rewrite E, lookup_insert_eq. simpl. apply u8_small, u8_range.
  - by rewrite lookup_insert_ne by congruence.
Qed.

Lemma rd8_wr8_eq m a v : rd8 (wr8 m a v) a = u8 v.
Proof. rewrite rd8_wr8. by rewrite decide_True. Qed.

Lemma rd8_wr8_ne m a b v : u32 a <> u32 b -> rd8 (wr8 m a v) b = rd8 m b.
Proof. intros. rewrite rd8_wr8. by rewrite decide_False. Qed.

Lemma u32_ne a d1 d2 : 0 <= d1 < 0x100000000 -> 0 <= d2 < 0x100000000 -> d1 <> d2 ->
  u32 (a + d1) <> u32 (a + d2).
Proof. intros. word. Qed.

Lemma rd32_range m a : is_u32 (rd32 m a).
Proof.
  unfold rd32.
  pose proof (rd8_range m a). pose proof (rd8_range m (a + 1)).
  pose proof (rd8_range m (a + 2)). pose proof (rd8_range m (a + 3)).
  unfold is_u8, is_u32 in *. lia.
Qed.
#[export] Hint Resolve rd32_range : kernel.

Lemma rd16_range m a : is_u16 (rd16 m a).
Proof.
  unfold rd16. pose proof (rd8_range m a). pose proof (rd8_range m (a + 1)).
  unfold is_u8, is_u16 in *. lia.
Qed.

Lemma le32_bytes v :
  u8 v + 0x100 * u8 (v / 0x100) + 0x10000 * u8 (v / 0x10000) + 0x1000000 * u8 (v / 0x1000000)
  = u32 v.
Proof.
  replace (v / 0x10000) with (v / 0x100 / 0x100) by (rewrite Z.div_div by lia; done).
  replace (v / 0x1000000) with (v / 0x100 / 0x100 / 0x100) by (rewrite !Z.div_div by lia; done).
  word.
Qed.

Lemma rd32_wr32_eq m a v : rd32 (wr32 m a v) a = u32 v.
Proof.
  unfold rd32, wr32. rewrite !rd8_wr8.
  simpl_decide.
  apply le32_bytes.
Qed.

Lemma rd8_u32 m a : rd8 m (u32 a) = rd8 m a.
Proof. unfold rd8. by rewrite u32_u32. Qed.

Lemma ld32_phys a (m : mem) : ld32 a m = Done (rd32 m a).
Proof. unfold ld32, rd32. cbn [ld8 phys_space mbind outcome_bind]. by rewrite !rd8_u32. Qed.

(** A 32-bit store does not touch bytes outside its four. *)
Lemma rd8_wr32_ne m a v b :
  (forall i, 0 <= i < 4 -> u32 (a + i) <> u32 b) -> rd8 (wr32 m a v) b = rd8 m b.
Proof.
  intros Hne. unfold wr32. specialize (Hne 0 ltac:(lia)) as H0. rewrite Z.add_0_r in H0.
  rewrite !rd8_wr8_ne; auto with lia.
Qed.

Lemma rd32_wr32_ne m a v b :
  (forall i j, 0 <= i < 4 -> 0 <= j < 4 -> u32 (a + i) <> u32 (b + j)) ->
  rd32 (wr32 m a v) b = rd32 m b.
Proof.
  intros Hne. unfold rd32.
  rewrite !rd8_wr32_ne; [done|..]; intros i Hi; try (apply Hne; lia).
  rewrite <- (Z.add_0_r b). apply Hne; lia.
Qed.

(** Word accesses at distinct word-aligned addresses are independent. *)
Lemma rd32_wr32_aligned m a b v :
  is_u32 a -> is_u32 b -> a mod 4 = 0 -> b mod 4 = 0 -> a <> b ->
  rd32 (wr32 m a v) b = rd32 m b.
Proof. intros. apply rd32_wr32_ne. intros. word. Qed.

#[export] Hint Rewrite rd8_wr8_eq rd32_wr32_eq : word.

(** Physical memory is a region everywhere. *)
#[global] Instance phys_region :
  AddrRegion mem is_u32 (fun _ => True) rd8.
Proof.
  split; [done|]. intros s a v _ Ha. eexists. split_and!; [done..| |].
  - apply rd8_wr8_eq.
  - intros b Hb Hne. apply rd8_wr8_ne. rewrite !u32_small by done. congruence.
Qed.

(** Memory with [l] stored from [addr] on. *)
Fixpoint poke (m : mem) (addr : Z) (l : list Z) : mem :=
  match l with [] => m | c :: l' => poke (wr8 m addr c) (addr + 1) l' end.

Lemma rd8_poke l m addr a :
  0 <= addr -> addr + Z.of_nat (length l) <= 0x100000000 -> is_u32 a ->
  rd8 (poke m addr l) a =
    if bool_decide (addr <= a < addr + Z.of_nat (length l)) then u8 (at_ l (a - addr)) else rd8 m a.
Proof.
  revert m addr. induction l as [|c l IH]; intros m addr H0 Hl Ha; cbn [poke length] in *.
  { by rewrite bool_decide_false by lia. }
  rewrite IH by (done || lia). destruct (decide (a = addr)) as [->|Hne].
  - rewrite bool_decide_false, bool_decide_true by lia. rewrite rd8_wr8_eq. by replace (addr - addr) with 0 by lia.
  - rewrite rd8_wr8_ne by (rewrite !u32_small; unfold is_u32 in *; lia).
    destruct (decide (addr + 1 <= a < addr + 1 + Z.of_nat (length l))).
    + rewrite !bool_decide_true by lia. change (c :: l) with ([c] ++ l). rewrite at_app_r by (cbn; lia).
      cbn [length]. do 2 f_equal. lia.
    + by rewrite !bool_decide_false by lia.
Qed.
