(* ===== verification/Memory.v ===== *)
(** * memory.c: the bump allocator and the physical memory manager

    [pmm] holds the five globals of [memory.c].  The bitmap is a map from word
    index to 32-bit word; an index that is absent reads 0 (the array is in
    .bss).  The C array has the indices 0..8191: a store at any other index hits
    what the linker put behind it, and [bitmap_escaped] records that one has
    happened.  The multiboot record and the memory map are read through the
    address space the processor has at that point: physical memory in
    [init_memory], the paged one in [init_pmm]. *)
From stdpp Require Import base numbers list gmap.
From Stdlib Require Import ZArith Lia String.
From S2P Require Import Prelude Mem.

(** ** multiboot.h: the boot information as GRUB leaves it in memory

    Offsets of the fields of [struct multiboot_info] and of
    [struct multiboot_mmap_entry]. *)
Definition MULTIBOOT_MAGIC : Z := 0x2BADB002.

Definition flags_offset : Z := 0.

Definition mods_count_offset : Z := 20.

Definition mods_addr_offset : Z := 24.

Definition mmap_length_offset : Z := 44.

Definition mmap_addr_offset : Z := 48.

Definition size_offset : Z := 0.

Definition base_low_offset : Z := 4.

Definition base_high_offset : Z := 8.

Definition length_low_offset : Z := 12.

Definition type_offset : Z := 20.

(** ** State *)
Record pmm := {
  free_mem_addr : Z;
  total_memory : Z;
  allocated_memory : Z;
  mem_bitmap : gmap Z Z;
  max_frames : Z;
  bitmap_escaped : bool;
}.

Definition pmm0 : pmm := {|
  free_mem_addr := 0x200000; total_memory := 0; allocated_memory := 0;
  mem_bitmap := ∅; max_frames := 0; bitmap_escaped := false;
|}.

(** [mem_bitmap[i]] *)
Definition bitmap_word (p : pmm) (i : Z) : Z := u32 (default 0 (mem_bitmap p !! i)).

Definition set_word (i w : Z) (p : pmm) : pmm := {|
  free_mem_addr := free_mem_addr p; total_memory := total_memory p;
  allocated_memory := allocated_memory p; mem_bitmap := <[i := u32 w]> (mem_bitmap p);
  max_frames := max_frames p;
  bitmap_escaped := bitmap_escaped p || negb (bool_decide (0 <= i < 8192));
|}.

Definition set_free_mem (a : Z) (p : pmm) : pmm := {|
  free_mem_addr := u32 a; total_memory := total_memory p;
  allocated_memory := allocated_memory p; mem_bitmap := mem_bitmap p;
  max_frames := max_frames p; bitmap_escaped := bitmap_escaped p;
|}.

Definition add_allocated (d : Z) (p : pmm) : pmm := {|
  free_mem_addr := free_mem_addr p; total_memory := total_memory p;
  allocated_memory := u32 (allocated_memory p + d); mem_bitmap := mem_bitmap p;
  max_frames := max_frames p; bitmap_escaped := bitmap_escaped p;
|}.

Definition add_total (d : Z) (p : pmm) : pmm := {|
  free_mem_addr := free_mem_addr p; total_memory := u32 (total_memory p + d);
  allocated_memory := allocated_memory p; mem_bitmap := mem_bitmap p;
  max_frames := max_frames p; bitmap_escaped := bitmap_escaped p;
|}.

Definition set_max_frames (n : Z) (p : pmm) : pmm := {|
  free_mem_addr := free_mem_addr p; total_memory := total_memory p;
  allocated_memory := allocated_memory p; mem_bitmap := mem_bitmap p;
  max_frames := n; bitmap_escaped := bitmap_escaped p;
|}.

(** ** Bitmap helpers *)
Definition pmm_set_bit (frame_idx : Z) (p : pmm) : pmm :=
  set_word (frame_idx / 32)
    (Z.lor (bitmap_word p (frame_idx / 32)) (Z.shiftl 1 (frame_idx mod 32))) p.

Definition pmm_clear_bit (frame_idx : Z) (p : pmm) : pmm :=
  set_word (frame_idx / 32)
    (Z.land (bitmap_word p (frame_idx / 32)) (Z.lnot (Z.shiftl 1 (frame_idx mod 32)))) p.

Definition pmm_test_bit (frame_idx : Z) (p : pmm) : Z :=
  Z.land (bitmap_word p (frame_idx / 32)) (Z.shiftl 1 (frame_idx mod 32)).

(** ** Allocators *)
Definition pmm_mark_used (phys_addr size : Z) (p : pmm) : pmm :=
  if bool_decide (size = 0) then p else
  let first_frame := phys_addr / 4096 in
  let last_frame := u32 (phys_addr + size - 1) / 4096 in
  for_ first_frame (last_frame + 1) pmm_set_bit p.

Definition kmalloc (size : Z) (p : pmm) : Z * pmm :=
  let size := if bool_decide (size mod 4 <> 0) then u32 (size + (4 - size mod 4)) else size in
  (free_mem_addr p, add_allocated size (set_free_mem (free_mem_addr p + size) p)).

(** The alignment step of [kmalloc_a]. *)
Definition align_up (a : Z) : Z :=
  if bool_decide (Z.land a 0xFFF <> 0) then u32 (Z.land a 0xFFFFF000 + 0x1000) else a.

Definition kmalloc_a (size : Z) (p : pmm) : Z * pmm :=
  let ptr := align_up (free_mem_addr p) in
  (ptr, pmm_mark_used ptr size (add_allocated size (set_free_mem (ptr + size) p))).

(** [for (bit = 0; bit < 32; bit++) if (!(mem_bitmap[i] & (1 << bit)))] *)
Fixpoint find_zero_bit (w b : Z) (n : nat) : option Z :=
  match n with
  | O => None
  | S n' => if bit w b then find_zero_bit w (b + 1) n' else Some b
  end.

(** The frame index both loops of [pmm_alloc_block] stop at. *)
Fixpoint pmm_scan (p : pmm) (i : Z) (n : nat) : option Z :=
  match n with
  | O => None
  | S n' =>
      if bool_decide (bitmap_word p i <> 0xFFFFFFFF) then
        match find_zero_bit (bitmap_word p i) 0 32 with
        | Some b => Some (u32 (i * 32 + b))
        | None => pmm_scan p (i + 1) n'
        end
      else pmm_scan p (i + 1) n'
  end.

Definition pmm_alloc_block (p : pmm) : Z * pmm :=
  match pmm_scan p 0 (Z.to_nat 8192) with
  | Some frame =>
      if bool_decide (frame >= max_frames p) then (0, p)
      else (u32 (frame * 4096), add_allocated 4096 (pmm_set_bit frame p))
  | None => (0, p)
  end.

Definition pmm_free_block (p_addr : Z) (p : pmm) : pmm :=
  add_allocated (-4096) (pmm_clear_bit (p_addr / 4096) p).

Definition get_total_memory (p : pmm) : Z := total_memory p.

Definition get_allocated_memory (p : pmm) : Z := allocated_memory p.

(** ** Walking GRUB's memory map *)
Section Map.
Context {St : Type} `{AddrSpace St}.

(** [while ((uint32_t)mmap < mbd->mmap_addr + mbd->mmap_length)
      { body; mmap += mmap->size + sizeof(mmap->size) }] *)
Fixpoint mmap_walk (fuel : nat) (s : St) (mbd : Z) (body : Z -> pmm -> outcome pmm) (mmap : Z) (p : pmm)
    : outcome pmm :=
  match fuel with
  | O => Spin
  | S fuel' =>
      addr ← ld32 (mbd + mmap_addr_offset) s;
      len ← ld32 (mbd + mmap_length_offset) s;
      if bool_decide (mmap < u32 (addr + len)) then
        p ← body mmap p;
        size ← ld32 (mmap + size_offset) s;
        mmap_walk fuel' s mbd body (u32 (mmap + size + 4)) p
      else Done p
  end.

(** The loop body of [init_memory]. *)
Definition count_region (s : St) (mmap : Z) (p : pmm) : outcome pmm :=
  type ← ld32 (mmap + type_offset) s;
  if bool_decide (type = 1) then len ← ld32 (mmap + length_low_offset) s; Done (add_total len p) else Done p.

(** [for (i = 0; i < num_frames; i++) pmm_clear_bit(first_frame + i)] and the
    update of [max_frames]. *)
Definition free_frames (first_frame num_frames : Z) (p : pmm) : pmm :=
  let p := for_ 0 num_frames (fun i => pmm_clear_bit (u32 (first_frame + i))) p in
  if bool_decide (first_frame + num_frames > max_frames p)
  then set_max_frames (first_frame + num_frames) p else p.

(** The loop body of [init_pmm]. *)
Definition free_region (s : St) (mmap : Z) (p : pmm) : outcome pmm :=
  type ← ld32 (mmap + type_offset) s;
  if bool_decide (type = 1) then
    high ← ld32 (mmap + base_high_offset) s;
    if bool_decide (high = 0) then
      base ← ld32 (mmap + base_low_offset) s;
      len ← ld32 (mmap + length_low_offset) s;
      Done (free_frames (base / 4096) (len / 4096) p)
    else Done p
  else Done p.

Definition init_memory (fuel : nat) (s : St) (mbd magic : Z) : M pmm unit :=
  emit (Print (str "Init Mem - Magic: "));; emit (PrintHex magic);;
  emit (Print (str " Flags: "));;
  flags ← lift (ld32 (mbd + flags_offset) s);
  emit (PrintHex flags);;
  emit (Print [10]);;
  p ← mget;
  let '(test_ptr, p) := kmalloc 10 p in
  mput p;;
  emit (Print (str "Test Alloc: "));; emit (PrintHex test_ptr);; emit (Print [10]);;
  if bool_decide (magic <> MULTIBOOT_MAGIC) then
    emit (Print (str "Invalid multiboot magic number " ++ [10]))
  else
    flags ← lift (ld32 (mbd + flags_offset) s);
    if negb (bit flags 6) then
      emit (Print (str "Error in memory mapping (Bit 6 not set!)" ++ [10]))
    else
      addr ← lift (ld32 (mbd + mmap_addr_offset) s);
      len ← lift (ld32 (mbd + mmap_length_offset) s);
      emit (Print (str "MMap Addr: "));; emit (PrintHex addr);;
      emit (Print (str " Len: "));; emit (PrintHex len);; emit (Print [10]);;
      p ← mget;
      p ← lift (mmap_walk fuel s mbd (count_region s) addr p);
      mput p;;
      emit (Print (str "Total Memory Calculated: "));; emit (PrintHex (total_memory p));;
      emit (Print [10]).

Definition init_pmm (fuel : nat) (s : St) (mbd : Z) (p : pmm) : outcome pmm :=
  let p := for_ 0 8192 (fun i => set_word i 0xFFFFFFFF) p in
  flags ← ld32 (mbd + flags_offset) s;
  p ← (if bit flags 6
       then addr ← ld32 (mbd + mmap_addr_offset) s; mmap_walk fuel s mbd (free_region s) addr p
       else Done p);
  let p := pmm_set_bit 0 p in
  let kernel_frames := u32 (free_mem_addr p + 4095) / 4096 in
  Done (for_ 0 kernel_frames pmm_set_bit p).
End Map.
