(* ===== verification/MemoryFacts.v ===== *)
(** * Facts about memory.c *)
From stdpp Require Import base numbers list gmap.
From Stdlib Require Import ZArith Lia ZifyBool.
From S2P Require Import Prelude Mem Memory.

(** ** The bitmap as a set of used frames *)
Definition used (p : pmm) (f : Z) : bool := bit (bitmap_word p (f / 32)) (f mod 32).

(** The frames the bitmap array can describe. *)
Definition tracked (f : Z) : Prop := 0 <= f < 262144.

Lemma bitmap_word_set i w p j :
  bitmap_word (set_word i w p) j = if decide (j = i) then u32 w else bitmap_word p j.
Proof.
  unfold bitmap_word, set_word; simpl. case_decide as E.
  - rewrite E, lookup_insert_eq. apply u32_u32.
  - by rewrite lookup_insert_ne by congruence.
Qed.

(** Storing a word changes exactly the 32 frames it describes. *)
Lemma used_set_word i w p g :
  used (set_word i w p) g = if decide (g / 32 = i) then bit w (g mod 32) else used p g.
Proof.
  unfold used. rewrite bitmap_word_set. case_decide; [|done].
  rewrite bit_u32, bool_decide_true by word. done.
Qed.

Lemma frame_split f g : f / 32 = g / 32 -> f mod 32 = g mod 32 -> f = g.
Proof. intros. Z.to_euclidean_division_equations. lia. Qed.

Lemma used_set_bit f p g : used (pmm_set_bit f p) g = (g =? f) || used p g.
Proof.
  unfold pmm_set_bit. rewrite used_set_word. case_decide as E.
  - rewrite bit_lor, bit_one_shl by word. unfold used. rewrite E, orb_comm. f_equal.
    case_bool_decide; [rewrite (frame_split g f) by done|]; lia || (symmetry; apply Z.eqb_neq; congruence).
  - by replace (g =? f) with false by (symmetry; apply Z.eqb_neq; congruence).
Qed.

Lemma used_clear_bit f p g : used (pmm_clear_bit f p) g = negb (g =? f) && used p g.
Proof.
  unfold pmm_clear_bit. rewrite used_set_word. case_decide as E.
  - rewrite bit_land, bit_lnot, bit_one_shl by word. unfold used. rewrite E, andb_comm.
    do 2 f_equal.
    case_bool_decide; [rewrite (frame_split g f) by done|]; lia || (symmetry; apply Z.eqb_neq; congruence).
  - by replace (g =? f) with false by (symmetry; apply Z.eqb_neq; congruence).
Qed.

(** A loop that marks [lo, hi), and one that frees [f, f + n). *)
Lemma used_for_set lo hi p g :
  used (for_ lo hi pmm_set_bit p) g = (lo <=? g) && (g <? hi) || used p g.
Proof.
  destruct (decide (lo <= hi)) as [Hle|?]; [|rewrite for_empty by lia; lia].
  apply (for_inv (fun k q => used q g = (lo <=? g) && (g <? k) || used p g)); [done|lia|].
  intros i q Hi Hq. rewrite used_set_bit. lia.
Qed.

Lemma used_for_clear f n p g :
  0 <= f -> f + n <= 0x100000000 ->
  used (for_ 0 n (fun i => pmm_clear_bit (u32 (f + i))) p) g
  = negb ((f <=? g) && (g <? f + n)) && used p g.
Proof.
  intros Hf Hn. destruct (decide (0 <= n)) as [Hle|?]; [|rewrite for_empty by lia; lia].
  apply (for_inv (fun k q => used q g = negb ((f <=? g) && (g <? f + k)) && used p g)); [done|lia|].
  intros i q Hi Hq. rewrite used_clear_bit, u32_small by (unfold is_u32; lia). lia.
Qed.

(** ** The allocator's search *)
Lemma find_zero_bit_spec w b n :
  match find_zero_bit w b n with
  | Some r => b <= r < b + Z.of_nat n /\ bit w r = false /\ forall j, b <= j < r -> bit w j = true
  | None => forall j, b <= j < b + Z.of_nat n -> bit w j = true
  end.
Proof.
  revert b. induction n as [|n IH]; intros b; simpl; [lia|].
  destruct (bit w b) eqn:E.
  - specialize (IH (b + 1)). destruct (find_zero_bit w (b + 1) n) as [r|].
    + destruct IH as (Hr & Hz & Hall). split_and!; [lia..|done|].
      intros j Hj. destruct (decide (j = b)) as [->|]; [done|]. apply Hall; lia.
    + intros j Hj. destruct (decide (j = b)) as [->|]; [done|]. apply IH; lia.
  - split_and!; [lia..|done|lia].
Qed.

Lemma full_word_used p i g :
  bitmap_word p i = 0xFFFFFFFF -> g / 32 = i -> used p g = true.
Proof.
  intros Hw Hg. unfold used. rewrite Hg, Hw. change 0xFFFFFFFF with (Z.ones 32).
  apply Z.ones_spec_low. word.
Qed.

Lemma pmm_scan_spec p i n :
  0 <= i -> i + Z.of_nat n <= 8192 ->
  match pmm_scan p i n with
  | Some f => i * 32 <= f < (i + Z.of_nat n) * 32 /\ used p f = false /\
              forall g, i * 32 <= g < f -> used p g = true
  | None => forall g, i * 32 <= g < (i + Z.of_nat n) * 32 -> used p g = true
  end.
Proof.
  revert i. induction n as [|n IH]; intros i Hi Hn; cbn [pmm_scan]; [lia|].
  specialize (IH (i + 1) ltac:(lia) ltac:(lia)).
  assert (Hrest : (forall g, i * 32 <= g < i * 32 + 32 -> used p g = true) ->
    match pmm_scan p (i + 1) n with
    | Some f => i * 32 <= f < (i + Z.of_nat (S n)) * 32 /\ used p f = false /\
              forall g, i * 32 <= g < f -> used p g = true
    | None => forall g, i * 32 <= g < (i + Z.of_nat (S n)) * 32 -> used p g = true
    end).
  { intros Hfull. destruct (pmm_scan p (i + 1) n) as [f|].
    - destruct IH as (? & ? & Hall). split_and!; [lia..|done|]. intros g Hg.
      destruct (decide (g < i * 32 + 32)); [apply Hfull; lia|apply Hall; lia].
    - intros g Hg. destruct (decide (g < i * 32 + 32)); [apply Hfull; lia|apply IH; lia]. }
  case_bool_decide as Hw; [|apply Hrest; intros; apply (full_word_used p i); [lia|word]].
  pose proof (find_zero_bit_spec (bitmap_word p i) 0 32) as Hb.
  destruct (find_zero_bit (bitmap_word p i) 0 32) as [b|].
  - destruct Hb as (Hr & Hz & Hall). rewrite u32_small by (unfold is_u32; lia).
    assert (Hub : forall j, 0 <= j < 32 -> used p (i * 32 + j) = bit (bitmap_word p i) j).
    { intros j Hj. unfold used. f_equal; [f_equal|]; word. }
    split_and!; [lia..|rewrite Hub by lia; done|].
    intros g Hg. replace g with (i * 32 + (g - i * 32)) by lia.
    rewrite Hub by lia. apply Hall. lia.
  - apply Hrest. intros g Hg. unfold used. replace (g / 32) with i by word.
    apply Hb. word.
Qed.

(** Only the bitmap decides which frames are used. *)
Lemma used_fields p q g : mem_bitmap q = mem_bitmap p -> used q g = used p g.
Proof. unfold used, bitmap_word. by intros ->. Qed.

(** ** kmalloc_a's alignment *)
Lemma align_up_spec a :
  0 <= a <= 0xFFFFF000 ->
  align_up a mod 4096 = 0 /\ a <= align_up a < a + 4096.
Proof.
  intros Ha. unfold align_up. rewrite land_0xFFF, land_page by (unfold is_u32; lia).
  case_bool_decide; [rewrite u32_small by word|]; word.
Qed.

Lemma used_mark_used a n p g :
  is_u32 a -> 0 < n -> a + n <= 0x100000000 ->
  used (pmm_mark_used a n p) g = (a / 4096 <=? g) && (g <=? (a + n - 1) / 4096) || used p g.
Proof.
  intros Ha Hn Hw. unfold pmm_mark_used. rewrite bool_decide_false by lia.
  rewrite used_for_set, u32_small by (unfold is_u32 in *; lia). lia.
Qed.

(** A loop of bitmap stores changes the bitmap only. *)
Definition same_fields (p q : pmm) : Prop :=
  free_mem_addr q = free_mem_addr p /\ total_memory q = total_memory p /\
  allocated_memory q = allocated_memory p /\ max_frames q = max_frames p.

#[export] Instance same_fields_refl : Reflexive same_fields.
Proof. done. Qed.
#[export] Instance same_fields_trans : Transitive same_fields.
Proof. unfold same_fields. intros ???. intuition congruence. Qed.

Lemma same_fields_set_word i w p : same_fields p (set_word i w p).
Proof. repeat split. Qed.
Lemma same_fields_set_bit f p : same_fields p (pmm_set_bit f p).
Proof. apply same_fields_set_word. Qed.
Lemma same_fields_clear_bit f p : same_fields p (pmm_clear_bit f p).
Proof. apply same_fields_set_word. Qed.
#[export] Hint Resolve same_fields_set_word same_fields_set_bit same_fields_clear_bit : kernel.

Lemma same_fields_for lo hi body p :
  (forall i q, same_fields q (body i q)) -> same_fields p (for_ lo hi body p).
Proof. intros H. apply for_keep; [done|]. intros. etrans; [done|apply H]. Qed.

Lemma same_fields_mark a n p : same_fields p (pmm_mark_used a n p).
Proof. unfold pmm_mark_used. case_bool_decide; [done|]. apply same_fields_for; auto with kernel. Qed.

(** ** Bounds of the bitmap array *)
Definition in_array (p : pmm) : Prop := bitmap_escaped p = false.

Lemma in_array_set_word i w p : 0 <= i < 8192 -> in_array p -> in_array (set_word i w p).
Proof. unfold in_array. intros Hi Hp. cbn. by rewrite Hp, bool_decide_true. Qed.

Lemma in_array_set_bit f p : tracked f -> in_array p -> in_array (pmm_set_bit f p).
Proof. intros Hf. apply in_array_set_word. unfold tracked in Hf. word. Qed.

Lemma in_array_clear_bit f p : tracked f -> in_array p -> in_array (pmm_clear_bit f p).
Proof. intros Hf. apply in_array_set_word. unfold tracked in Hf. word. Qed.

#[export] Hint Resolve in_array_set_bit in_array_clear_bit : kernel.

(** A store outside the array is never forgotten. *)
Lemma escaped_set_word i w p : ~ in_array p \/ ~ 0 <= i < 8192 -> ~ in_array (set_word i w p).
Proof.
  unfold in_array. cbn. intros [Hp|Hi].
  - by apply not_false_is_true in Hp as ->.
  - by rewrite bool_decide_false, orb_true_r by done.
Qed.

Lemma escaped_for lo hi body p :
  (forall i q, ~ in_array q -> ~ in_array (body i q)) -> ~ in_array p -> ~ in_array (for_ lo hi body p).
Proof. intros. apply (for_keep (fun q => ~ in_array q)); auto. Qed.

(** ** Regions of the memory map *)

(** An entry of the map and the fields the kernel uses of the multiboot record. *)
Record multiboot_mmap_entry := {
  me_size : Z; base_addr_low : Z; base_addr_high : Z; length_low : Z; me_type : Z;
}.

Record multiboot_info := {
  mb_flags : Z; mods_count : Z; mods_addr : Z; mmap_length : Z; mmap_addr : Z;
}.

Definition read_mmap_entry (m : mem) (a : Z) : multiboot_mmap_entry := {|
  me_size := rd32 m (a + size_offset); base_addr_low := rd32 m (a + base_low_offset);
  base_addr_high := rd32 m (a + base_high_offset); length_low := rd32 m (a + length_low_offset);
  me_type := rd32 m (a + type_offset);
|}.

Definition read_multiboot_info (m : mem) (mbd : Z) : multiboot_info := {|
  mb_flags := rd32 m (mbd + flags_offset); mods_count := rd32 m (mbd + mods_count_offset);
  mods_addr := rd32 m (mbd + mods_addr_offset); mmap_length := rd32 m (mbd + mmap_length_offset);
  mmap_addr := rd32 m (mbd + mmap_addr_offset);
|}.

Definition usable (e : multiboot_mmap_entry) : Prop := me_type e = 1 /\ base_addr_high e = 0.

Definition first_frame (e : multiboot_mmap_entry) : Z := base_addr_low e / 4096.
Definition num_frames (e : multiboot_mmap_entry) : Z := length_low e / 4096.

#[export] Instance usable_dec e : Decision (usable e).
Proof. unfold usable. apply _. Defined.

(** Does [init_pmm] free frame [g] because of [e]? *)
Definition frees (e : multiboot_mmap_entry) (g : Z) : bool :=
  bool_decide (usable e) && (first_frame e <=? g) && (g <? first_frame e + num_frames e).

Definition wf_entry (e : multiboot_mmap_entry) : Prop :=
  is_u32 (me_size e) /\ is_u32 (base_addr_low e) /\ is_u32 (length_low e).

Lemma wf_read_entry m a : wf_entry (read_mmap_entry m a).
Proof. split_and!; apply rd32_range. Qed.

(** What the loop bodies do with an entry they have read. *)
Definition counted (e : multiboot_mmap_entry) (p : pmm) : pmm :=
  if bool_decide (me_type e = 1) then add_total (length_low e) p else p.

Definition freed (e : multiboot_mmap_entry) (p : pmm) : pmm :=
  if bool_decide (usable e) then free_frames (first_frame e) (num_frames e) p else p.

Section Maps.
Context {St : Type} `{AddrSpace St}.

(** The entry at [a], as the address space shows it. *)
Definition shows_entry (s : St) (a : Z) (e : multiboot_mmap_entry) : Prop :=
  wf_entry e /\ ld32 (a + size_offset) s = Done (me_size e) /\
  ld32 (a + base_low_offset) s = Done (base_addr_low e) /\
  ld32 (a + base_high_offset) s = Done (base_addr_high e) /\
  ld32 (a + length_low_offset) s = Done (length_low e) /\
  ld32 (a + type_offset) s = Done (me_type e).

(** The map at [a] is the list [es], ending at [limit]. *)
Fixpoint mmap_at (s : St) (a limit : Z) (es : list multiboot_mmap_entry) : Prop :=
  match es with
  | [] => limit <= a
  | e :: es' => a < limit /\ shows_entry s a e /\ mmap_at s (u32 (a + me_size e + 4)) limit es'
  end.

Lemma mmap_at_wf s a limit es : mmap_at s a limit es -> Forall wf_entry es.
Proof.
  revert a. induction es as [|e es IH]; intros a; simpl; [done|].
  intros (_ & [He _] & Hes). constructor; eauto.
Qed.

Lemma count_region_shown s a e p : shows_entry s a e -> count_region s a p = Done (counted e p).
Proof.
  intros (_ & _ & _ & _ & Hl & Ht). unfold count_region, counted. rewrite Ht. cbn [mbind outcome_bind].
  case_bool_decide; [|done]. by rewrite Hl.
Qed.

Lemma free_region_shown s a e p : shows_entry s a e -> free_region s a p = Done (freed e p).
Proof.
  intros (_ & _ & Hb & Hh & Hl & Ht). unfold free_region, freed, usable. rewrite Ht. cbn [mbind outcome_bind].
  destruct (decide (me_type e = 1)) as [E|E]; [rewrite (bool_decide_true (me_type e = 1)) by done|].
  2:{ by rewrite !bool_decide_false by tauto. }
  rewrite Hh. cbn [mbind outcome_bind].
  destruct (decide (base_addr_high e = 0)) as [E2|E2]; [|by rewrite !bool_decide_false by tauto].
  rewrite !bool_decide_true by done. by rewrite Hb, Hl.
Qed.

Lemma mmap_walk_spec fuel s mbd addr len (body : Z -> pmm -> outcome pmm) f a es p :
  ld32 (mbd + mmap_addr_offset) s = Done addr -> ld32 (mbd + mmap_length_offset) s = Done len ->
  (forall a e p, shows_entry s a e -> body a p = Done (f e p)) ->
  mmap_at s a (u32 (addr + len)) es -> (length es < fuel)%nat ->
  mmap_walk fuel s mbd body a p = Done (foldl (fun q e => f e q) p es).
Proof.
  intros Ha Hl Hbody. revert a es p. induction fuel as [|fuel IH]; intros a es p Hes Hf; [lia|].
  cbn [mmap_walk]. rewrite Ha, Hl. cbn [mbind outcome_bind].
  destruct es as [|e es]; cbn [mmap_at foldl length] in *.
  - by rewrite bool_decide_false by lia.
  - destruct Hes as (Hlt & He & Hes). rewrite bool_decide_true by done. rewrite (Hbody a e p He).
    destruct He as (_ & He & _). cbn [mbind outcome_bind]. rewrite He. cbn [mbind outcome_bind].
    apply IH; [done|lia].
Qed.
End Maps.

(** In physical memory every address shows something. *)
Lemma shows_entry_phys (m : mem) a : shows_entry m a (read_mmap_entry m a).
Proof. split; [apply wf_read_entry|]. by rewrite !ld32_phys. Qed.

Lemma used_freed e p g : wf_entry e -> used (freed e p) g = negb (frees e g) && used p g.
Proof.
  intros (Hs & Hb & Hl). unfold freed, frees.
  destruct (decide (usable e)) as [Hus|Hus].
  2:{ by rewrite !bool_decide_false by exact Hus. }
  rewrite !(bool_decide_true (usable e)) by exact Hus. unfold free_frames. cbv zeta.
  assert (Hu : forall b (q : pmm) n,
    used (if b : bool then set_max_frames n q else q) g = used q g) by by intros [].
  rewrite Hu, used_for_clear; [by rewrite andb_true_l|unfold first_frame; word|].
  unfold first_frame, num_frames. word.
Qed.

Lemma used_freed_all es p g :
  Forall wf_entry es ->
  used (foldl (fun q e => freed e q) p es) g
  = negb (existsb (fun e => frees e g) es) && used p g.
Proof.
  intros Hes. revert p. induction Hes as [|e es He _ IH]; intros p; simpl; [done|].
  rewrite IH, used_freed by done. destruct (frees e g), (existsb _ es); done.
Qed.
