(* ===== verification/MemorySpec.v ===== *)
(** * Properties of memory.c: allocation, initialisation, aliasing *)
From stdpp Require Import base numbers list gmap relations.
From Stdlib Require Import ZArith Lia ZifyBool.
From S2P Require Import Prelude Mem Memory MemoryFacts.

(** ** init_pmm, region by region *)
Lemma same_fields_clear_frames first n p :
  same_fields p (for_ 0 n (fun i => pmm_clear_bit (u32 (first + i))) p).
Proof. apply same_fields_for; auto with kernel. Qed.

Lemma free_mem_freed e p : free_mem_addr (freed e p) = free_mem_addr p.
Proof.
  unfold freed, free_frames. case_bool_decide; [|done]. cbv zeta.
  case_bool_decide; apply (same_fields_clear_frames (first_frame e) (num_frames e) p).
Qed.

Lemma max_frames_freed e p :
  max_frames p <= max_frames (freed e p) /\
  (usable e -> first_frame e + num_frames e <= max_frames (freed e p)).
Proof.
  unfold freed, free_frames. case_bool_decide; [|by split]. cbv zeta.
  destruct (same_fields_clear_frames (first_frame e) (num_frames e) p) as (_ & _ & _ & Hfor). rewrite <- Hfor.
  case_bool_decide; simpl; lia.
Qed.

(** No more than the regions reach. *)
Lemma max_frames_freed_le e p n :
  max_frames p <= n -> (usable e -> first_frame e + num_frames e <= n) -> max_frames (freed e p) <= n.
Proof.
  intros Hp He. unfold freed, free_frames. case_bool_decide; [|done]. cbv zeta.
  destruct (same_fields_clear_frames (first_frame e) (num_frames e) p) as (_ & _ & _ & Hfor).
  case_bool_decide; simpl; [by apply He|]. lia.
Qed.

Lemma freed_fields es p :
  let q := foldl (fun q e => freed e q) p es in
  free_mem_addr q = free_mem_addr p /\ max_frames p <= max_frames q /\
  forall e, e ∈ es -> usable e -> first_frame e + num_frames e <= max_frames q.
Proof.
  revert p. induction es as [|e es IH]; intros p; simpl; [set_solver by lia|].
  destruct (IH (freed e p)) as (IH1 & IH2 & IH3).
  rewrite free_mem_freed in IH1.
  destruct (max_frames_freed e p) as [Hm Hu].
  split_and!; [done|lia|]. intros e' [->|He']%elem_of_cons Hus; [specialize (Hu Hus); lia|eauto].
Qed.

Lemma in_array_freed e p :
  wf_entry e -> in_array p ->
  in_array (freed e p) <-> (usable e -> 0 < num_frames e -> first_frame e + num_frames e <= 262144).
Proof.
  intros (_ & Hb & Hl) Hp. unfold freed, free_frames.
  destruct (decide (usable e)) as [Hus|Hus]; [|by rewrite bool_decide_false by exact Hus].
  rewrite bool_decide_true by exact Hus. cbv zeta.
  assert (Hu : forall b n (q : pmm),
    in_array (if b : bool then set_max_frames n q else q) <-> in_array q) by by intros [].
  rewrite Hu. assert (0 <= first_frame e <= 0xFFFFF) by (unfold first_frame; word).
  assert (0 <= num_frames e <= 0xFFFFF) by (unfold num_frames; word).
  clear Hu. split.
  - intros Ha _ Hn. apply Z.nlt_ge. intros Hbig. revert Ha. change (~ in_array (for_ 0 (num_frames e)
      (fun i => pmm_clear_bit (u32 (first_frame e + i))) p)).
    apply (for_inv (fun k q => k = num_frames e -> ~ in_array q)); [lia|lia| |done].
    intros i q Hi _ Hk. unfold pmm_clear_bit. rewrite u32_small by (unfold is_u32; lia).
    apply escaped_set_word. right. word.
  - intros Hle. specialize (Hle Hus). apply for_keep; [done|].
    intros i q Hi Hq. apply in_array_clear_bit; [|done].
    rewrite u32_small by (unfold is_u32; lia). unfold tracked. lia.
Qed.

Lemma escaped_freed e p : ~ in_array p -> ~ in_array (freed e p).
Proof.
  intros Hp. unfold freed, free_frames. case_bool_decide; [|done]. cbv zeta.
  assert (Hu : forall b n (q : pmm),
    in_array (if b : bool then set_max_frames n q else q) <-> in_array q) by by intros [].
  rewrite Hu. apply escaped_for; [|done]. intros i q Hq. apply escaped_set_word. by left.
Qed.

Lemma escaped_freed_all es p : ~ in_array p -> ~ in_array (foldl (fun q e => freed e q) p es).
Proof. revert p. induction es as [|e es IH]; intros p Hp; simpl; [done|]. by apply IH, escaped_freed. Qed.

Lemma in_array_freed_all es p :
  Forall wf_entry es -> in_array p ->
  in_array (foldl (fun q e => freed e q) p es) <->
  forall e, e ∈ es -> usable e -> 0 < num_frames e -> first_frame e + num_frames e <= 262144.
Proof.
  intros Hes Hp. revert p Hp. induction Hes as [|e es He Hes IH]; intros p Hp; simpl.
  { split; [set_solver|done]. }
  destruct (in_array_freed e p He Hp) as [H1 H2].
  destruct (decide (in_array (freed e p))) as [Hd|Hd].
  - rewrite (IH _ Hd). setoid_rewrite elem_of_cons. specialize (H1 Hd). naive_solver.
  - split; [|set_solver]. intros Ha. by apply escaped_freed_all in Ha.
Qed.

(** *** What [init_pmm] computes *)
Section InitPmm.
Context {St : Type} `{AddrSpace St}.
Context (fuel : nat) (s : St) (mbd : Z) (p : pmm) (es : list multiboot_mmap_entry).

(** GRUB passed a memory map (flag bit 6) whose entries are [es], and the loop
    bound of the model exceeds their number. *)
Definition valid_map : Prop :=
  exists flags addr len,
    ld32 (mbd + flags_offset) s = Done flags /\ bit flags 6 = true /\
    ld32 (mbd + mmap_addr_offset) s = Done addr /\ ld32 (mbd + mmap_length_offset) s = Done len /\
    mmap_at s addr (u32 (addr + len)) es /\ (length es < fuel)%nat.

Lemma valid_map_wf : valid_map -> Forall wf_entry es.
Proof. intros (? & ? & ? & _ & _ & _ & _ & Hm & _). by eapply mmap_at_wf. Qed.

(** The bitmap with every word 0xFFFFFFFF: step 1 of [init_pmm]. *)
Definition all_used : pmm := for_ 0 8192 (fun i => set_word i 0xFFFFFFFF) p.

Lemma all_used_spec :
  same_fields p all_used /\ (forall f, tracked f -> used all_used f = true).
Proof.
  split; [apply same_fields_for; auto with kernel|]. intros f Hf. unfold all_used.
  apply (for_inv (fun k q => f / 32 < k -> used q f = true)); [lia|unfold tracked in *; word| |unfold tracked in *; word].
  intros i q Hi Hq Hk. rewrite used_set_word. case_decide as E; [|apply Hq; lia].
  change 0xFFFFFFFF with (Z.ones 32). apply Z.ones_spec_low. word.
Qed.

Lemma in_array_all_used : in_array p -> in_array all_used.
Proof. intros. unfold all_used. apply for_keep; [done|]. intros. by apply in_array_set_word. Qed.

Definition kernel_frames : Z := u32 (free_mem_addr p + 4095) / 4096.

Lemma init_pmm_eq :
  valid_map ->
  init_pmm fuel s mbd p =
    Done (for_ 0 kernel_frames pmm_set_bit
      (pmm_set_bit 0 (foldl (fun q e => freed e q) all_used es))).
Proof.
  intros (flags & addr & len & Efl & Hfl & Ea & El & Hmap & Hf). unfold init_pmm. cbv zeta.
  rewrite Efl. cbn [mbind outcome_bind]. rewrite Hfl, Ea. fold all_used. cbn [mbind outcome_bind].
  rewrite (mmap_walk_spec fuel s mbd addr len _ freed addr es all_used Ea El) by
    (done || (intros; by apply free_region_shown)). cbn [mbind outcome_bind]. unfold kernel_frames.
  set (q := foldl _ _ _).
  assert (Hq : free_mem_addr (pmm_set_bit 0 q) = free_mem_addr p); [|by rewrite Hq].
  unfold q. change (free_mem_addr (pmm_set_bit 0 ?x)) with (free_mem_addr x).
  destruct (freed_fields es all_used) as (-> & _ & _).
  by destruct all_used_spec as [(-> & _) _].
Qed.
End InitPmm.


(** *** The theorems about [init_pmm] *)

Lemma init_pmm_outcome {St} `{AddrSpace St} fuel (s : St) mbd p es :
  valid_map fuel s mbd es -> 0 <= max_frames p ->
  exists p', init_pmm fuel s mbd p = Done p' /\
    free_mem_addr p' = free_mem_addr p /\
    forall f, tracked f ->
      (used p' f = false <->
         f <> 0 /\ kernel_frames p <= f /\
         exists e, e ∈ es /\ usable e /\ first_frame e <= f < first_frame e + num_frames e) /\
      (used p' f = false -> f < max_frames p').
Proof.
  intros Hv Hmax. rewrite (init_pmm_eq _ _ _ _ _ Hv).
  pose proof (valid_map_wf _ _ _ _ Hv) as Hwf.
  destruct (freed_fields es (all_used p)) as (Hfree & Hm1 & Hm2).
  destruct (all_used_spec p) as [(Hfm & _ & _ & _) Hau].
  pose proof (fun g => used_freed_all es (all_used p) g Hwf) as Hused.
  revert Hfree Hm1 Hm2 Hused. generalize (foldl (fun q e => freed e q) (all_used p) es).
  intros q Hfree Hm1 Hm2 Hused. eexists. split; [done|].
  assert (Hsf : same_fields (pmm_set_bit 0 q) (for_ 0 (kernel_frames p) pmm_set_bit (pmm_set_bit 0 q)))
    by (apply same_fields_for; auto with kernel).
  destruct Hsf as (Hsf1 & _ & _ & Hsf4). simpl in Hsf1, Hsf4. split; [congruence|].
  intros f Hf.
  assert (Hiff : used (for_ 0 (kernel_frames p) pmm_set_bit (pmm_set_bit 0 q)) f = false <->
      f <> 0 /\ kernel_frames p <= f /\ existsb (fun e => frees e f) es = true).
  { rewrite used_for_set, used_set_bit, Hused, Hau by done. unfold tracked in Hf.
    destruct (existsb _ _); lia. }
  assert (Hex : existsb (fun e => frees e f) es = true <->
      exists e, e ∈ es /\ usable e /\ first_frame e <= f < first_frame e + num_frames e).
  { rewrite existsb_exists. setoid_rewrite <- list_elem_of_In. unfold frees.
    split; intros (e & He & Hr); exists e; (split; [done|]).
    - apply andb_prop in Hr as [[Hu%bool_decide_eq_true ?]%andb_prop ?]. split; [done|lia].
    - destruct Hr as [Hu Hr]. rewrite bool_decide_true by done. lia. }
  rewrite Hiff, Hex. split; [done|]. intros (_ & _ & e & He & Hu & Hr).
  rewrite Hsf4. specialize (Hm2 e He Hu). lia.
Qed.

Lemma init_pmm_in_array {St} `{AddrSpace St} fuel (s : St) mbd p es p' :
  valid_map fuel s mbd es -> in_array p -> kernel_frames p <= 262144 ->
  init_pmm fuel s mbd p = Done p' ->
  in_array p' <->
    (forall e, e ∈ es -> usable e -> 0 < num_frames e -> first_frame e + num_frames e <= 262144).
Proof.
  intros Hv Hp Hk Hinit. rewrite (init_pmm_eq _ _ _ _ _ Hv) in Hinit. injection Hinit as <-.
  pose proof (in_array_freed_all es _ (valid_map_wf _ _ _ _ Hv) (in_array_all_used p Hp)) as Hiff.
  revert Hiff. generalize (foldl (fun q e => freed e q) (all_used p) es). intros q Hiff.
  rewrite <- Hiff. split.
  - intros Ha. destruct (decide (in_array q)) as [?|Hq]; [done|]. exfalso. revert Ha.
    apply escaped_for; [intros; by apply escaped_set_word; left|]. apply escaped_set_word. by left.
  - intros Ha. apply for_keep; [by apply in_array_set_bit|].
    intros i t Hi Ht. apply in_array_set_bit; [unfold tracked; lia|done].
Qed.

(** [max_frames] is the end of the highest usable region. *)
Lemma init_pmm_max {St} `{AddrSpace St} fuel (s : St) mbd p es p' n :
  valid_map fuel s mbd es -> init_pmm fuel s mbd p = Done p' -> max_frames p <= n ->
  (forall e, e ∈ es -> usable e -> first_frame e + num_frames e <= n) -> max_frames p' <= n.
Proof.
  intros Hv Hinit Hp Hes. rewrite (init_pmm_eq _ _ _ _ _ Hv) in Hinit. injection Hinit as <-.
  assert (Hx : forall l q, max_frames q <= n -> (forall e, e ∈ l -> usable e -> first_frame e + num_frames e <= n) ->
    max_frames (foldl (fun q e => freed e q) q l) <= n).
  { induction l as [|e l IH]; intros q Hq Hl; [done|]. cbn [foldl]. apply IH.
    - apply max_frames_freed_le; [done|]. apply Hl. by left.
    - intros e' He'. apply Hl. by right. }
  set (q := foldl _ _ _). assert (Hq : max_frames q <= n).
  { apply Hx; [|done]. destruct (all_used_spec p) as [(_ & _ & _ & ->) _]. done. }
  assert (Hsf : same_fields (pmm_set_bit 0 q) (for_ 0 (kernel_frames p) pmm_set_bit (pmm_set_bit 0 q)))
    by (apply same_fields_for; auto with kernel).
  destruct Hsf as (_ & _ & _ & ->). exact Hq.
Qed.

(** C31: [init_pmm] on a well-formed memory map terminates, and afterwards a
    frame of the bitmap is free exactly when it is not frame 0, lies at or
    above the bump allocator's next free byte, and a usable region of the map
    (type 1, base below 4 GiB) gives it; every free frame is below
    [max_frames], so the allocator's range check never hides one.  (The
    statement is about the frames of the bitmap; that regions above 1 GiB also
    make it store past the bitmap is [init_pmm_in_array_iff].) *)
Theorem init_pmm_spec {St} `{AddrSpace St} fuel (s : St) mbd p es :
  valid_map fuel s mbd es -> 0 <= max_frames p ->
  exists p', init_pmm fuel s mbd p = Done p' /\
    free_mem_addr p' = free_mem_addr p /\
    forall f, tracked f ->
      (used p' f = false <->
         f <> 0 /\ kernel_frames p <= f /\
         exists e, e ∈ es /\ usable e /\ first_frame e <= f < first_frame e + num_frames e) /\
      (used p' f = false -> f < max_frames p').
Proof. apply init_pmm_outcome. Qed.

(** A memory map at address 16 with one usable region [0x100000, 0x400000), and
    the multiboot record at address 64 that points to it. *)
Definition one_region_mem : mem :=
  wr32 (wr32 (wr32 (wr32 (wr32 (wr32 (wr32 ∅
    16 20) 20 0x100000) 28 0x300000) 36 1) 64 0x40) 108 24) 112 16.

Definition one_region : multiboot_mmap_entry := {|
  me_size := 20; base_addr_low := 0x100000; base_addr_high := 0;
  length_low := 0x300000; me_type := 1 |}.

Lemma one_region_valid : valid_map 2 one_region_mem 64 [one_region].
Proof.
  exists 0x40, 16, 24. split_and!; try reflexivity; [|cbn; lia].
  split; [reflexivity|]. split; [exact (shows_entry_phys one_region_mem 16)|]. vm_compute. discriminate.
Qed.

Lemma init_pmm_spec_witness :
  valid_map 2 one_region_mem 64 [one_region] /\
  exists p', init_pmm 2 one_region_mem 64 pmm0 = Done p' /\ used p' 0x200 = false.
Proof.
  split; [exact one_region_valid|].
  destruct (init_pmm_spec 2 one_region_mem 64 pmm0 [one_region] one_region_valid)
    as (p' & Hp & _ & Hf); [simpl; lia|].
  exists p'. split; [exact Hp|]. apply Hf; [unfold tracked; lia|].
  split; [lia|]. split; [vm_compute; congruence|].
  exists one_region. split; [apply list_elem_of_here|].
  split; [split; reflexivity|vm_compute; split; congruence].
Defined.

(** C35: [init_pmm] stores outside the 8192-word bitmap array exactly when some
    usable, non-empty region of the map reaches past frame 262144 (1 GiB); the
    kernel itself must end below that, or marking its own frames would leave the
    array too. *)
Theorem init_pmm_in_array_iff {St} `{AddrSpace St} fuel (s : St) mbd p es p' :
  valid_map fuel s mbd es -> in_array p -> kernel_frames p <= 262144 ->
  init_pmm fuel s mbd p = Done p' ->
  in_array p' <->
    (forall e, e ∈ es -> usable e -> 0 < num_frames e -> first_frame e + num_frames e <= 262144).
Proof. apply init_pmm_in_array. Qed.

Lemma in_array_pmm0 : in_array pmm0.
Proof. done. Qed.

Lemma init_pmm_in_array_iff_witness :
  valid_map 2 one_region_mem 64 [one_region] /\
  exists p', init_pmm 2 one_region_mem 64 pmm0 = Done p' /\ in_array p'.
Proof.
  split; [exact one_region_valid|]. eexists. split; [apply (init_pmm_eq _ _ _ _ _ one_region_valid)|].
  eapply (init_pmm_in_array_iff 2 one_region_mem 64 pmm0 [one_region]);
    [exact one_region_valid|exact in_array_pmm0|vm_compute; discriminate
    |apply (init_pmm_eq _ _ _ _ _ one_region_valid)|].
  intros e He _ _. apply list_elem_of_singleton in He as ->. vm_compute. discriminate.
Defined.

(** ** Allocation *)

(** The two outcomes of an allocation. *)
Definition alloc_outcome (p : pmm) (a : Z) (p' : pmm) : Prop :=
  (exists f, a = f * 4096 /\ tracked f /\ f < max_frames p /\ used p f = false /\
     (forall g, 0 <= g < f -> used p g = true) /\
     (forall g, used p' g = (g =? f) || used p g) /\
     allocated_memory p' = u32 (allocated_memory p + 4096) /\
     free_mem_addr p' = free_mem_addr p /\ max_frames p' = max_frames p) \/
  (a = 0 /\ p' = p /\ forall f, tracked f -> f < max_frames p -> used p f = true).

Lemma alloc_block_cases p : alloc_outcome p (fst (pmm_alloc_block p)) (snd (pmm_alloc_block p)).
Proof.
  unfold alloc_outcome, pmm_alloc_block. pose proof (pmm_scan_spec p 0 (Z.to_nat 8192) ltac:(lia) ltac:(lia)) as Hs.
  destruct (pmm_scan p 0 (Z.to_nat 8192)) as [f|].
  - destruct Hs as (Hr & Hfree & Hall). case_bool_decide as Hmax.
    + right. split_and!; [done..|]. intros g Hg Hlt. apply Hall. unfold tracked in Hg. lia.
    + left. exists f. unfold tracked. rewrite u32_small by (unfold is_u32; lia).
      split_and!; try done; try lia.
      intros g. rewrite <- used_set_bit. by apply used_fields.
  - right. split_and!; [done..|]. intros f Hf _. apply Hs. unfold tracked in Hf. lia.
Qed.

(** [pmm_alloc_block] returns the lowest free frame below [max_frames] and
    marks it, and only it, used; when there is none it returns 0 and changes
    nothing. *)
Theorem pmm_alloc_block_spec p :
  let '(a, p') := pmm_alloc_block p in alloc_outcome p a p'.
Proof. pose proof (alloc_block_cases p) as H. by destruct (pmm_alloc_block p). Qed.

(** freeing the block [pmm_alloc_block] has just returned restores the
    allocator: every frame is used or free as before, and so is the count of
    allocated bytes. *)
Theorem pmm_free_alloc_roundtrip p :
  is_u32 (allocated_memory p) ->
  fst (pmm_alloc_block p) <> 0 ->
  let q := pmm_free_block (fst (pmm_alloc_block p)) (snd (pmm_alloc_block p)) in
  (forall g, used q g = used p g) /\ allocated_memory q = allocated_memory p.
Proof.
  intros Hu Ha. pose proof (alloc_block_cases p) as Hs.
  destruct (pmm_alloc_block p) as [a p']. simpl in *.
  destruct Hs as [(f & -> & Hf & _ & Hfree & _ & Hused & Hal & _)|(? & _)]; [|done].
  split.
  - intros g. rewrite (used_fields (pmm_clear_bit (f * 4096 / 4096) p')) by done.
    rewrite used_clear_bit, Hused, Z.div_mul by lia.
    destruct (Z.eqb_spec g f) as [->|]; simpl; [by rewrite Hfree|by destruct (used p g)].
  - rewrite Hal. autorewrite with word. rewrite u32_small; [lia|]. unfold is_u32 in *. lia.
Qed.

(** A small machine: 16 frames, frame 0 used, the bump allocator at 0x1000. *)
Definition small_pmm : pmm := {|
  free_mem_addr := 0x1000; total_memory := 0x10000; allocated_memory := 0;
  mem_bitmap := {[0 := 1]}; max_frames := 16; bitmap_escaped := false |}.

Lemma pmm_free_alloc_roundtrip_witness :
  let q := pmm_free_block (fst (pmm_alloc_block small_pmm)) (snd (pmm_alloc_block small_pmm)) in
  fst (pmm_alloc_block small_pmm) = 0x1000 /\ allocated_memory q = 0.
Proof.
  split; [vm_compute; reflexivity|].
  apply (pmm_free_alloc_roundtrip small_pmm); vm_compute; [split; congruence|discriminate].
Defined.

(** ** kmalloc_a *)

(** The frames that [n > 0] bytes at [a] overlap. *)
Definition overlaps (a n g : Z) : Prop := a / 4096 <= g <= (a + n - 1) / 4096.

Lemma kmalloc_a_cases n p :
  is_u32 (free_mem_addr p) -> 0 < n -> free_mem_addr p + 4095 + n <= 0xFFFFF000 ->
  let '(a, p') := kmalloc_a n p in
  a mod 4096 = 0 /\ free_mem_addr p <= a < free_mem_addr p + 4096 /\
  free_mem_addr p' = a + n /\ allocated_memory p' = u32 (allocated_memory p + n) /\
  max_frames p' = max_frames p /\
  forall g, used p' g = true <-> overlaps a n g \/ used p g = true.
Proof.
  intros Hu Hn Hw. unfold kmalloc_a.
  destruct (align_up_spec (free_mem_addr p)) as [Hm Hr]; [unfold is_u32 in *; lia|].
  revert Hm Hr. generalize (align_up (free_mem_addr p)). intros a Hm Hr.
  set (p1 := add_allocated n (set_free_mem (a + n) p)).
  destruct (same_fields_mark a n p1) as (-> & _ & -> & ->).
  unfold p1, is_u32 in *. simpl. rewrite u32_small by (unfold is_u32; lia).
  split_and!; try done; try lia.
  intros g. rewrite used_mark_used by (unfold is_u32; lia).
  rewrite (used_fields p _ g) by done. unfold overlaps. lia.
Qed.

(** [kmalloc_a] returns the next page boundary at or above the bump
    pointer, moves the bump pointer just past the block, counts the bytes, and
    marks used exactly the frames the block overlaps. *)
Theorem kmalloc_a_spec n p :
  is_u32 (free_mem_addr p) -> 0 < n -> free_mem_addr p + 4095 + n <= 0xFFFFF000 ->
  let '(a, p') := kmalloc_a n p in
  a mod 4096 = 0 /\ free_mem_addr p <= a < free_mem_addr p + 4096 /\
  free_mem_addr p' = a + n /\ allocated_memory p' = u32 (allocated_memory p + n) /\
  max_frames p' = max_frames p /\
  forall g, used p' g = true <-> overlaps a n g \/ used p g = true.
Proof. apply kmalloc_a_cases. Qed.

Lemma kmalloc_a_spec_witness :
  fst (kmalloc_a 8192 small_pmm) = 0x1000 /\ used (snd (kmalloc_a 8192 small_pmm)) 2 = true.
Proof.
  pose proof (kmalloc_a_spec 8192 small_pmm) as H.
  destruct (kmalloc_a 8192 small_pmm) as [a p'] eqn:E.
  destruct H as (_ & _ & _ & _ & _ & Hu); [vm_compute; split; congruence|lia|vm_compute; congruence|].
  assert (Ha : a = 0x1000) by (vm_compute in E; congruence).
  split; [exact Ha|]. apply Hu. left. rewrite Ha. vm_compute. split; congruence.
Defined.

(** ** Both allocators together

    The kernel's view of physical memory: the allocator's state, the frames
    [pmm_alloc_block] has handed out and not taken back, and the blocks of
    [kmalloc_a], which are never freed. *)
Record world := { w_pmm : pmm; w_frames : list Z; w_blocks : list (Z * Z) }.

Inductive heap_step : world -> world -> Prop :=
| step_alloc p fs bs a p' :
    pmm_alloc_block p = (a, p') -> a <> 0 ->
    heap_step {| w_pmm := p; w_frames := fs; w_blocks := bs |}
              {| w_pmm := p'; w_frames := a :: fs; w_blocks := bs |}
| step_kmalloc_a p fs bs n a p' :
    kmalloc_a n p = (a, p') -> 0 < n -> free_mem_addr p + 4095 + n <= 0x40000000 ->
    heap_step {| w_pmm := p; w_frames := fs; w_blocks := bs |}
              {| w_pmm := p'; w_frames := fs; w_blocks := (a, n) :: bs |}
| step_free p fs bs a :
    a ∈ fs -> (forall b n, (b, n) ∈ bs -> ~ overlaps b n (a / 4096)) ->
    heap_step {| w_pmm := p; w_frames := fs; w_blocks := bs |}
              {| w_pmm := pmm_free_block a p; w_frames := filter (.≠ a) fs; w_blocks := bs |}.

Definition world_ok (w : world) : Prop :=
  is_u32 (free_mem_addr (w_pmm w)) /\ NoDup (w_frames w) /\
  (forall a, a ∈ w_frames w -> a mod 4096 = 0 /\ tracked (a / 4096) /\ used (w_pmm w) (a / 4096) = true) /\
  (forall b n g, (b, n) ∈ w_blocks w -> overlaps b n g -> used (w_pmm w) g = true).

(** Neither allocator stores outside the bitmap, below 1 GiB. *)
Lemma in_array_alloc p : in_array p -> in_array (snd (pmm_alloc_block p)).
Proof.
  intros Hp. unfold pmm_alloc_block. pose proof (pmm_scan_spec p 0 (Z.to_nat 8192) ltac:(lia) ltac:(lia)) as Hs.
  destruct (pmm_scan p 0 (Z.to_nat 8192)) as [f|]; [|done]. destruct Hs as (Hr & _). case_bool_decide; [done|].
  change (in_array (pmm_set_bit f p)). apply in_array_set_bit; [unfold tracked; lia|done].
Qed.

Lemma in_array_kmalloc_a n p :
  is_u32 (free_mem_addr p) -> 0 < n -> free_mem_addr p + 4095 + n <= 0x40000000 ->
  in_array p -> in_array (snd (kmalloc_a n p)).
Proof.
  intros Hu Hn Hw Hp. unfold kmalloc_a. destruct (align_up_spec (free_mem_addr p)) as [Hm Hr]; [unfold is_u32 in *; lia|].
  cbn [snd]. unfold pmm_mark_used. rewrite bool_decide_false by lia.
  apply for_keep; [done|]. intros i q Hi Hq. apply in_array_set_bit; [|done].
  rewrite u32_small in Hi by (unfold is_u32 in *; lia). unfold tracked, is_u32 in *. word.
Qed.

Lemma heap_step_ok w w' :
  heap_step w w' -> world_ok w -> world_ok w' /\ (in_array (w_pmm w) -> in_array (w_pmm w')).
Proof.
  destruct 1 as [p fs bs a p' Ha Hnz|p fs bs n a p' Ha Hn Hw|p fs bs a Hin Hno];
    intros (Hu & Hnd & Hf & Hb); simpl in *.
  - pose proof (in_array_alloc p) as Hia. pose proof (alloc_block_cases p) as Hs. rewrite Ha in Hs, Hia. cbn [fst snd] in Hs, Hia.
    destruct Hs as [(f & -> & Ht & _ & Hfree & _ & Hused & _ & Hfm & _)|(? & _)]; [|done].
    split; [|exact Hia]. simpl in *. split_and!; simpl; [by rewrite Hfm| | |].
    + constructor; [|done]. intros Hin. apply Hf in Hin as (_ & _ & Hin).
      rewrite Z.div_mul in Hin by lia. congruence.
    + intros b [->|Hb']%elem_of_cons; rewrite Hused.
      * rewrite Z.div_mul by lia. split_and!; [apply Z.mod_mul; lia|done|lia].
      * destruct (Hf b Hb') as (? & ? & ->). by rewrite orb_true_r.
    + intros b n g Hbn Hov. rewrite Hused, (Hb b n g) by done. by rewrite orb_true_r.
  - pose proof (in_array_kmalloc_a n p Hu Hn Hw) as Hia.
    pose proof (kmalloc_a_cases n p Hu Hn ltac:(lia)) as Hs. rewrite Ha in Hs, Hia.
    destruct Hs as (Hm & Hr & Hfm & _ & _ & Hused). split; [|exact Hia].
    split_and!; simpl; [rewrite Hfm; unfold is_u32 in *; lia|done| |].
    + intros b Hb'. destruct (Hf b Hb') as (? & ? & ?). split_and!; [done..|]. apply Hused. by right.
    + intros b k g [[= -> ->]|Hbn]%elem_of_cons Hov; apply Hused; [by left|right; eauto].
  - destruct (Hf a Hin) as (Ham & Hat & _). split.
    2:{ intros Hp. change (in_array (pmm_clear_bit (a / 4096) p)). by apply in_array_clear_bit. }
    split_and!; simpl; [done|by apply NoDup_filter| |].
    + intros b [Hne Hb']%list_elem_of_filter. destruct (Hf b Hb') as (Hbm & Hbt & Hbu). split_and!; [done..|].
      rewrite (used_fields (pmm_clear_bit (a / 4096) p)) by done.
      rewrite used_clear_bit, Hbu. replace (b / 4096 =? a / 4096) with false; [done|].
      symmetry. apply Z.eqb_neq. intros ?. apply Hne. word.
    + intros b n g Hbn Hov.
      rewrite (used_fields (pmm_clear_bit (a / 4096) p)) by done.
      rewrite used_clear_bit, (Hb b n g) by done.
      replace (g =? a / 4096) with false; [done|]. symmetry. apply Z.eqb_neq.
      intros ->. by apply (Hno b n).
Qed.

(** C6: a frame [pmm_alloc_block] returns is not one it has handed out already
    and not taken back, and overlaps no block of [kmalloc_a], whatever
    interleaving ran before of allocations, [kmalloc_a] calls that stay below
    1 GiB, and frees of frames that are owned and that no [kmalloc_a] block
    overlaps; none of them stores outside the bitmap.  The last condition on
    frees is needed: [kmalloc_a] may have handed out an owned frame again
    ([kmalloc_a_reuses_pmm_frame]), and freeing that one gives away a live
    block. *)
Theorem alloc_never_reuses w0 w :
  world_ok w0 -> rtc heap_step w0 w ->
  (in_array (w_pmm w0) -> in_array (w_pmm w)) /\
  let a := fst (pmm_alloc_block (w_pmm w)) in
  a <> 0 ->
  (a ∉ w_frames w) /\ (forall b n, (b, n) ∈ w_blocks w -> ~ overlaps b n (a / 4096)).
Proof.
  intros Hok Hrtc. cbv zeta.
  assert (Hw : world_ok w /\ (in_array (w_pmm w0) -> in_array (w_pmm w))).
  { induction Hrtc as [|w0 w1 w Hst _ IH]; [done|]. destruct (heap_step_ok _ _ Hst Hok) as [Hok1 Hia].
    destruct (IH Hok1) as [? ?]. auto. }
  destruct Hw as [(_ & _ & Hf & Hb) Hia]. split; [exact Hia|]. intros Ha.
  destruct (alloc_block_cases (w_pmm w)) as [(f & Hfa & _ & _ & Hfree & _)|(? & _)]; [|done].
  rewrite Hfa. rewrite Z.div_mul by lia. split.
  - intros Hin. destruct (Hf _ Hin) as (_ & _ & Hu). rewrite Z.div_mul in Hu by lia. congruence.
  - intros b n Hbn Hov. specialize (Hb b n f Hbn Hov). congruence.
Qed.

Lemma alloc_never_reuses_witness :
  fst (pmm_alloc_block (snd (kmalloc_a 4096 small_pmm))) = 0x2000 /\
  ~ overlaps 0x1000 4096 2.
Proof.
  split; [vm_compute; reflexivity|].
  set (w0 := {| w_pmm := small_pmm; w_frames := []; w_blocks := [] |}).
  set (w1 := {| w_pmm := snd (kmalloc_a 4096 small_pmm); w_frames := []; w_blocks := [(0x1000, 4096)] |}).
  destruct (alloc_never_reuses w0 w1) as [_ Hr].
  2:{ apply rtc_once, step_kmalloc_a; [vm_compute; reflexivity|lia|vm_compute; congruence]. }
  - split; [vm_compute; split; congruence|]. split; [constructor|].
    split; [intros a Ha; by apply not_elem_of_nil in Ha|intros b n g Ha; by apply not_elem_of_nil in Ha].
  - destruct Hr as [_ H]; [vm_compute; discriminate|].
    replace 2 with (fst (pmm_alloc_block (w_pmm w1)) / 4096) by (vm_compute; reflexivity).
    apply H. apply list_elem_of_here.
Defined.

(** C33: the other direction is not protected: [kmalloc_a] never looks at the
    bitmap.  When the bump pointer is page aligned and its frame is the lowest
    free one (the state [init_pmm] leaves when the kernel lies in usable RAM),
    [pmm_alloc_block] followed by [kmalloc_a] hands out the same memory
    twice. *)
Theorem kmalloc_a_reuses_pmm_frame n p :
  is_u32 (free_mem_addr p) -> free_mem_addr p mod 4096 = 0 ->
  let f := free_mem_addr p / 4096 in
  tracked f -> f < max_frames p -> used p f = false ->
  (forall g, 0 <= g < f -> used p g = true) ->
  let '(a, p1) := pmm_alloc_block p in
  fst (kmalloc_a n p1) = a.
Proof.
  intros Hu Hal f Hf Hmax Hfree Hall. pose proof (alloc_block_cases p) as Hs.
  destruct (pmm_alloc_block p) as [a p1]. cbn [fst snd] in Hs.
  destruct Hs as [(f' & -> & Hf' & _ & Hfree' & Hall' & _ & _ & Hfm & _)|(_ & _ & Hno)].
  - assert (f' = f) as ->.
    { destruct (Z.lt_total f' f) as [Hlt|[->|Hlt]]; [|done|].
      - unfold tracked in *. rewrite Hall in Hfree' by lia. done.
      - unfold tracked in *. rewrite Hall' in Hfree by lia. done. }
    unfold kmalloc_a. simpl. rewrite Hfm. unfold align_up.
    rewrite land_0xFFF, Hal. rewrite bool_decide_false by lia. unfold f. word.
  - rewrite Hno in Hfree by done. done.
Qed.

Lemma kmalloc_a_reuses_pmm_frame_witness :
  fst (pmm_alloc_block small_pmm) = 0x1000 /\
  fst (kmalloc_a 4096 (snd (pmm_alloc_block small_pmm))) = 0x1000.
Proof.
  pose proof (kmalloc_a_reuses_pmm_frame 4096 small_pmm) as H. cbv zeta in H.
  assert (E : fst (pmm_alloc_block small_pmm) = 0x1000) by (vm_compute; reflexivity).
  split; [exact E|]. rewrite <- E at 2.
  destruct (pmm_alloc_block small_pmm) as [a p1]. apply H.
  - vm_compute. split; congruence.
  - reflexivity.
  - vm_compute. split; congruence.
  - vm_compute. reflexivity.
  - vm_compute. reflexivity.
  - intros g Hg. assert (g = 0) as -> by (change (0 <= g < 1) in Hg; lia). vm_compute. reflexivity.
Defined.

(** ** init_memory *)

(** The sum of the usable regions' lengths, as the code adds them. *)
Definition usable_bytes (es : list multiboot_mmap_entry) : Z :=
  foldr (fun e s => (if bool_decide (me_type e = 1) then length_low e else 0) + s) 0 es.

Lemma counted_all es p :
  let q := foldl (fun q e => counted e q) p es in
  u32 (total_memory q) = u32 (total_memory p + usable_bytes es) /\
  free_mem_addr q = free_mem_addr p /\ mem_bitmap q = mem_bitmap p /\ max_frames q = max_frames p /\
  bitmap_escaped q = bitmap_escaped p /\
  (is_u32 (total_memory p) -> is_u32 (total_memory q)).
Proof.
  revert p. induction es as [|e es IH]; intros p; simpl.
  { by rewrite Z.add_0_r. }
  destruct (IH (counted e p)) as (-> & -> & -> & -> & -> & Hu).
  unfold counted in *. case_bool_decide; simpl in *; (split_and!; [|done..|]).
  - autorewrite with word. f_equal. lia.
  - intros _. apply Hu, u32_range.
  - f_equal.
  - exact Hu.
Qed.

(** [init_memory] returns on every input it accepts: with the multiboot
    magic and a memory map it adds the length of every type-1 region to
    [total_memory]; without them it leaves [total_memory] alone.  In every case
    its test allocation advances the bump pointer by 12 bytes. *)
Theorem init_memory_spec {St} `{AddrSpace St} fuel (s : St) mbd magic p es flags :
  ld32 (mbd + flags_offset) s = Done flags ->
  is_u32 (total_memory p) -> free_mem_addr p < 0x40000000 -> 0 <= free_mem_addr p ->
  (magic = MULTIBOOT_MAGIC -> bit flags 6 = true -> valid_map fuel s mbd es) ->
  wp (init_memory fuel s mbd magic) p (fun _ p' _ =>
    free_mem_addr p' = free_mem_addr p + 12 /\
    u32 (total_memory p') =
      u32 (total_memory p + if bool_decide (magic = MULTIBOOT_MAGIC) && bit flags 6
                            then usable_bytes es else 0) /\
    is_u32 (total_memory p') /\ max_frames p' = max_frames p /\ bitmap_escaped p' = bitmap_escaped p).
Proof.
  intros Efl Ht Hf1 Hf0 Hv. unfold init_memory.
  assert (Hfm : u32 (free_mem_addr p + 12) = free_mem_addr p + 12) by word.
  do 3 (apply wp_bind, wp_emit). apply wp_bind, (wp_lift flags _ _ _ Efl). wp_steps. unfold kmalloc. cbv beta iota zeta.
  destruct (decide (magic = MULTIBOOT_MAGIC)) as [Hm|Hm].
  - rewrite (bool_decide_true (magic = _)), (bool_decide_false (magic <> _)) by tauto.
    wp_steps. apply (wp_lift flags _ _ _ Efl).
    destruct (bit flags 6) eqn:Hb; cbn [negb andb].
    + destruct (Hv Hm eq_refl) as (flags' & addr & len & _ & _ & Ea & El & Hmap & Hfuel).
      apply wp_bind, (wp_lift addr _ _ _ Ea), wp_bind, (wp_lift len _ _ _ El). wp_steps.
      eapply wp_lift.
      { apply (mmap_walk_spec fuel s mbd addr len _ counted addr es _ Ea El); [|done|done].
        intros; by apply count_region_shown. }
      wp_steps.
      destruct (counted_all es (add_allocated 12 (set_free_mem (free_mem_addr p + 12) p)))
        as (Ht' & Hf' & _ & Hx & Hesc & Hu). split_and!; [by etrans; [exact Hf'|]|done|by apply Hu|done|done].
    + wp_steps. by rewrite Z.add_0_r.
  - rewrite (bool_decide_true (magic <> _)), (bool_decide_false (magic = _)) by done.
    wp_steps. by rewrite Z.add_0_r.
Qed.

Lemma init_memory_spec_witness :
  exists p', (exists o, init_memory 2 one_region_mem 64 MULTIBOOT_MAGIC pmm0 = Done (tt, p', o)) /\
    u32 (total_memory p') = 0x300000.
Proof.
  assert (H := init_memory_spec 2 one_region_mem 64 MULTIBOOT_MAGIC pmm0 [one_region] 0x40).
  destruct (wp_inv _ _ _ (H eq_refl ltac:(vm_compute; split; congruence) ltac:(vm_compute; reflexivity)
    ltac:(vm_compute; discriminate) (fun _ _ => one_region_valid))) as ([] & p' & o & E & _ & Ht & _).
  exists p'. split; [exists o; exact E|]. rewrite Ht. vm_compute. reflexivity.
Defined.
