(* ===== verification/Paging.v ===== *)
(** * paging.c: page directory, page tables and the user-region check

    [vm] is the memory system: physical memory, the physical allocator, the
    global [page_direc] and the two control registers the code writes.  Every
    access of C code goes through [translate], the processor's two-level walk,
    the kernel's own accesses to the directory and the tables included: their
    frames are reached at virtual addresses equal to the physical ones only as
    long as they are mapped there, and fault otherwise.  [init_paging] alone
    stores physically, since it runs with paging off. *)
From stdpp Require Import base numbers list gmap.
From Stdlib Require Import ZArith Lia ZifyBool String.
From S2P Require Import Prelude Mem Memory.

Record vm := {
  vm_mem : mem;
  vm_pmm : pmm;
  page_direc : Z;
  cr3 : Z;
  cr0 : Z;
}.

Definition on_mem (f : mem -> mem) (s : vm) : vm := {|
  vm_mem := f (vm_mem s); vm_pmm := vm_pmm s; page_direc := page_direc s;
  cr3 := cr3 s; cr0 := cr0 s |}.

Definition set_pmm (p : pmm) (s : vm) : vm := {|
  vm_mem := vm_mem s; vm_pmm := p; page_direc := page_direc s;
  cr3 := cr3 s; cr0 := cr0 s |}.

(** ** Tables: 1024 entries of 32 bits *)
Definition entry (m : mem) (base i : Z) : Z := rd32 m (base + 4 * i).

Definition set_entry (base i v : Z) (m : mem) : mem := wr32 m (base + 4 * i) v.

Definition pd_index (va : Z) : Z := Z.shiftr va 22.

Definition pt_index (va : Z) : Z := Z.land (Z.shiftr va 12) 0x3FF.

Definition present (e : Z) : bool := bit e 0.

Definition table_of (pde : Z) : Z := Z.land pde 0xFFFFF000.

(** ** The processor's translation of a supervisor access

    With CR0.PG clear addresses are physical.  The walk starts at CR3; an entry
    with its present bit clear makes the access fault. *)
Definition translate (s : vm) (va : Z) : option Z :=
  if bit (cr0 s) 31 then
    let pde := entry (vm_mem s) (table_of (cr3 s)) (pd_index va) in
    if present pde then
      let pte := entry (vm_mem s) (table_of pde) (pt_index va) in
      if present pte then Some (table_of pte + va mod 4096) else None
    else None
  else Some va.

(** Virtual memory as an address space: C code dereferences through it. *)
#[global] Instance vm_space : AddrSpace vm := {
  ld8 va s :=
    match translate s va with Some pa => Done (rd8 (vm_mem s) pa) | None => Fault va end;
  st8 va v s :=
    match translate s va with
    | Some pa => Done (on_mem (fun m => wr8 m pa v) s)
    | None => Fault va
    end;
}.

(** A 32-bit access that does not cross a page: one translation. *)
Definition ld_word (va : Z) (s : vm) : outcome Z :=
  match translate s va with Some pa => Done (rd32 (vm_mem s) pa) | None => Fault va end.

Definition st_word (va v : Z) (s : vm) : outcome vm :=
  match translate s va with
  | Some pa => Done (on_mem (fun m => wr32 m pa v) s)
  | None => Fault va
  end.

(** [table[i]] for a [uint32_t* table]. *)
Definition ld_entry (table i : Z) : vm -> outcome Z := ld_word (u32 (table + 4 * i)).

Definition st_entry (table i v : Z) : vm -> outcome vm := st_word (u32 (table + 4 * i)) v.

(** An expression that reads memory, and a statement that writes it. *)
Definition reads {A} (f : vm -> outcome A) : M vm A := s ← mget; lift (f s).

Definition stores (f : vm -> outcome vm) : M vm unit := s ← mget; s' ← lift (f s); mput s'.

(** ** init_paging: paging is still off, addresses are physical *)

(** [for (p = 0; p < 1024; p++) table[p] = f(p)] *)
Definition fill_table (base : Z) (f : Z -> Z) (m : mem) : mem :=
  for_ 0 1024 (fun i => set_entry base i (f i)) m.

Definition required_pdes (total : Z) : Z :=
  let mapped_bytes := if bool_decide (total = 0) then 0x20000000 else total in
  let required := u32 (mapped_bytes + 0x3FFFFF) / 0x400000 in
  if bool_decide (required > 1024) then 1024 else required.

(** One iteration of the outer loop: allocate and fill the table for PDE [t]. *)
Definition identity_table (t : Z) (s : vm) : vm :=
  let '(table, p) := kmalloc_a 4096 (vm_pmm s) in
  let s := set_pmm p s in
  let s := on_mem (fill_table table (fun p => Z.lor (u32 ((t * 1024 + p) * 0x1000)) 7)) s in
  on_mem (set_entry (page_direc s) t (Z.lor table 7)) s.

Definition init_paging (s : vm) : vm :=
  let '(pd, p) := kmalloc_a 4096 (vm_pmm s) in
  let s := {| vm_mem := vm_mem s; vm_pmm := p; page_direc := pd; cr3 := cr3 s; cr0 := cr0 s |} in
  let s := on_mem (fill_table pd (fun _ => 0)) s in
  let s := for_ 0 (required_pdes (get_total_memory (vm_pmm s))) identity_table s in
  {| vm_mem := vm_mem s; vm_pmm := vm_pmm s; page_direc := page_direc s;
     cr3 := page_direc s; cr0 := Z.lor (cr0 s) 0x80000000 |}.

(** ** map_page, get_pte *)

(** [for (i = 0; i < 1024; i++) page_table[i] = 0] *)
Definition clear_table (table : Z) (s : vm) : outcome vm :=
  for_ 0 1024 (fun i o => o ≫= st_entry table i 0) (Done s).

Definition map_page (physical_addr virtual_addr flags : Z) : M vm unit :=
  let pd_i := pd_index virtual_addr in
  let pt_i := pt_index virtual_addr in
  let pte := Z.lor (Z.lor physical_addr flags) 1 in
  s ← mget;
  pde ← reads (ld_entry (page_direc s) pd_i);
  if negb (present pde) then
    let '(pt_phys, p) := pmm_alloc_block (vm_pmm s) in
    mput (set_pmm p s);;
    if bool_decide (pt_phys = 0) then
      emit (Print (str "map_page: pmm_alloc_block failed for page table" ++ [10]))
    else
      stores (st_entry (page_direc s) pd_i (Z.lor pt_phys 7));;
      stores (clear_table pt_phys);;
      stores (st_entry pt_phys pt_i pte)
  else
    stores (st_entry (table_of pde) pt_i pte).

Definition get_pte (virtual_addr : Z) (s : vm) : outcome Z :=
  pde ← ld_entry (page_direc s) (pd_index virtual_addr) s;
  if negb (present pde) then Done 0 else ld_entry (table_of pde) (pt_index virtual_addr) s.

(** ** validate_user_region *)

(** One iteration: is the page of [addr] mapped with the user bit? *)
Definition user_page (s : vm) (addr : Z) : outcome bool :=
  pde ← ld_entry (page_direc s) (pd_index addr) s;
  if negb (present pde) then Done false else
  pte ← ld_entry (table_of pde) (pt_index addr) s;
  Done (present pte && bit pte 2).

(** [for (addr = user_addr; addr < end; addr += 0x1000)] *)
Fixpoint validate_loop (fuel : nat) (s : vm) (addr end_ : Z) : outcome Z :=
  match fuel with
  | O => Spin
  | S fuel' =>
      if bool_decide (addr < end_) then
        if bool_decide (pd_index addr >= 1024) then Done 0
        else
          ok ← user_page s addr;
          if (ok : bool) then validate_loop fuel' s (u32 (addr + 0x1000)) end_ else Done 0
      else Done 1
  end.

(** The number of iterations is at most [len / 0x1000 + 1]; one more step ends
    the loop. *)
Definition validate_user_region (s : vm) (user_addr len : Z) : outcome Z :=
  if bool_decide (len = 0) then Done 1
  else if bool_decide (user_addr < 0x100000 \/ user_addr >= 0xC0000000) then Done 0
  else
    let end_ := u32 (user_addr + len) in
    if bool_decide (end_ < user_addr \/ end_ > 0xC0000000) then Done 0
    else validate_loop (Z.to_nat (len / 0x1000 + 2)) s user_addr end_.
