(* ===== verification/PagingFacts.v ===== *)
(** * Facts about page tables *)
From stdpp Require Import base numbers list gmap.
From Stdlib Require Import ZArith Lia ZifyBool.
From S2P Require Import Prelude Mem Memory MemoryFacts MemorySpec Paging.

(** ** Addresses *)
Definition is_page (b : Z) : Prop := 0 <= b <= 0xFFFFF000 /\ b mod 4096 = 0.

#[export] Instance is_page_dec b : Decision (is_page b).
Proof. unfold is_page. apply _. Defined.

Lemma pd_index_div va : pd_index va = va / 0x400000.
Proof. unfold pd_index. by rewrite Z.shiftr_div_pow2. Qed.

Lemma pt_index_mod va : pt_index va = va / 4096 mod 1024.
Proof.
  unfold pt_index. change 0x3FF with (Z.ones 10).
  rewrite Z.land_ones, Z.shiftr_div_pow2 by lia. done.
Qed.

Lemma pd_index_range va : is_u32 va -> 0 <= pd_index va < 1024.
Proof. rewrite pd_index_div. word. Qed.

Lemma pt_index_range va : 0 <= pt_index va < 1024.
Proof. rewrite pt_index_mod. apply Z.mod_pos_bound. lia. Qed.

#[export] Hint Resolve pd_index_range pt_index_range : kernel.

(** The two indices determine the page. *)
Lemma same_page va va' :
  pd_index va = pd_index va' -> pt_index va = pt_index va' -> va / 4096 = va' / 4096.
Proof. rewrite !pd_index_div, !pt_index_mod. intros. Z.to_euclidean_division_equations. lia. Qed.

(** A page-aligned address carries flags in its low bits without loss. *)
Lemma lor_flags b f : b mod 4096 = 0 -> 0 <= f < 4096 -> Z.lor b f = b + f.
Proof.
  intros Hb Hf. assert (Hl : Z.land b f = 0).
  { apply Z.bits_inj'. intros n Hn. rewrite Z.land_spec, Z.bits_0.
    destruct (decide (n < 12)).
    - replace b with (b / 4096 * 2 ^ 12) by (change (2 ^ 12) with 4096; word).
      by rewrite Z.mul_pow2_bits_low by lia.
    - rewrite <- (Z.mod_small f (2 ^ 12)) by lia. by rewrite Z.mod_pow2_bits_high, andb_false_r by lia. }
  rewrite <- Z.lxor_lor by done. by rewrite <- Z.add_nocarry_lxor.
Qed.

Lemma table_of_flags b f : is_page b -> 0 <= f < 4096 -> table_of (Z.lor b f) = b.
Proof.
  intros [Hb Hm] Hf. rewrite lor_flags by done. unfold table_of.
  rewrite land_page by (unfold is_u32; lia). word.
Qed.

Lemma table_of_page b : is_u32 b -> is_page (table_of b).
Proof. intros Hb. unfold table_of. rewrite land_page by done. unfold is_page. word. Qed.

Lemma present_lor b f : present f = true -> present (Z.lor b f) = true.
Proof. unfold present. intros H. by rewrite bit_lor, H, orb_true_r. Qed.

Lemma present_lor_false b : is_page b -> present b = false.
Proof.
  intros [Hb Hm]. unfold present, bit. rewrite Z.bit0_odd, <- Z.negb_even.
  apply negb_false_iff, Z.even_spec. exists (b / 2). word.
Qed.

(** ** What the entries say *)

(** [page_direc[pd_index]] and [page_table[pt_index]] for an address, and the
    entry that maps it. *)
Definition pde_of (s : vm) (va : Z) : Z := entry (vm_mem s) (page_direc s) (pd_index va).

Definition pte_of (s : vm) (va : Z) : Z :=
  entry (vm_mem s) (table_of (pde_of s va)) (pt_index va).

Definition pte_entry (s : vm) (va : Z) : Z := if negb (present (pde_of s va)) then 0 else pte_of s va.

(** ** Entries are independent cells *)
Lemma entry_range m b i : is_u32 (entry m b i).
Proof. apply rd32_range. Qed.

Lemma entry_set_entry m b i v b' j :
  is_page b -> is_page b' -> 0 <= i < 1024 -> 0 <= j < 1024 ->
  entry (set_entry b i v m) b' j = if decide (b = b' /\ i = j) then u32 v else entry m b' j.
Proof.
  intros [Hb Hbm] [Hb' Hbm'] Hi Hj. unfold entry, set_entry. case_decide as E.
  - destruct E as [-> ->]. apply rd32_wr32_eq.
  - apply rd32_wr32_aligned; unfold is_u32; [lia|lia|word|word|].
    intros ?. apply E. split; [word|]. word.
Qed.

Lemma entry_fill_table m b f b' j :
  is_page b -> is_page b' -> 0 <= j < 1024 ->
  entry (fill_table b f m) b' j = if decide (b = b') then u32 (f j) else entry m b' j.
Proof.
  intros Hb Hb' Hj. unfold fill_table.
  pose (P := fun k q => entry q b' j
    = if (b =? b') && (j <? k) then u32 (f j) else entry m b' j).
  assert (H : P 1024 (for_ 0 1024 (fun i => set_entry b i (f i)) m)).
  { apply for_inv; unfold P; [lia| |].
    - by replace (j <? 0) with false by lia; rewrite andb_false_r.
    - intros i q Hi Hq. rewrite entry_set_entry, Hq by (done || lia).
      case_decide as E; [destruct E as [-> ->]|].
      + by replace ((b' =? b') && (j <? j + 1)) with true by lia.
      + destruct (Z.eqb_spec b b'); [|done].
        by replace (j <? i + 1) with (j <? i) by naive_solver lia. }
  unfold P in H. rewrite H. replace (j <? 1024) with true by lia. rewrite andb_true_r.
  destruct (Z.eqb_spec b b'), (decide (b = b')); [reflexivity|contradiction|contradiction|reflexivity].
Qed.

(** ** Well-formed page tables

    [tables_wf]: the directory and the tables of its present entries are distinct
    page frames, all marked used in the allocator. *)
Definition in_ram (b : Z) : Prop := is_page b /\ 4096 <= b < 0x40000000.

Record tables_wf (s : vm) : Prop := {
  dir_page : in_ram (page_direc s);
  dir_used : used (vm_pmm s) (page_direc s / 4096) = true;
  table_page : forall i, 0 <= i < 1024 ->
    present (entry (vm_mem s) (page_direc s) i) = true ->
    in_ram (table_of (entry (vm_mem s) (page_direc s) i)) /\
    used (vm_pmm s) (table_of (entry (vm_mem s) (page_direc s) i) / 4096) = true /\
    table_of (entry (vm_mem s) (page_direc s) i) <> page_direc s;
  table_inj : forall i j, 0 <= i < 1024 -> 0 <= j < 1024 ->
    present (entry (vm_mem s) (page_direc s) i) = true ->
    present (entry (vm_mem s) (page_direc s) j) = true ->
    table_of (entry (vm_mem s) (page_direc s) i) = table_of (entry (vm_mem s) (page_direc s) j) ->
    i = j;
  frame0_used : used (vm_pmm s) 0 = true;
}.

Lemma in_ram_page b : in_ram b -> is_page b.
Proof. by intros []. Qed.
#[export] Hint Resolve in_ram_page : kernel.

(** Writing an entry of a table leaves the directory and the other tables as
    they were. *)
Lemma tables_wf_set_pte s i j v :
  tables_wf s -> 0 <= i < 1024 -> 0 <= j < 1024 ->
  present (entry (vm_mem s) (page_direc s) i) = true ->
  let t := table_of (entry (vm_mem s) (page_direc s) i) in
  tables_wf (on_mem (set_entry t j v) s) /\
  forall k, 0 <= k < 1024 ->
    entry (vm_mem (on_mem (set_entry t j v) s)) (page_direc s) k = entry (vm_mem s) (page_direc s) k.
Proof.
  intros Hok Hi Hj Hp t.
  destruct (table_page s Hok i Hi Hp) as (Hram & _ & Hne).
  assert (Hdir : forall k, 0 <= k < 1024 ->
    entry (set_entry t j v (vm_mem s)) (page_direc s) k = entry (vm_mem s) (page_direc s) k).
  { intros k Hk. rewrite entry_set_entry; [|by apply in_ram_page|by apply in_ram_page, Hok|done..].
    rewrite decide_False by (intros [? _]; done). done. }
  split; [|exact Hdir]. destruct Hok as [Hd Hdu Htp Hti H0].
  constructor; simpl; [done..| | |done].
  - intros k Hk. rewrite Hdir by done. auto.
  - intros k l Hk Hl. rewrite !Hdir by done. auto.
Qed.

(** A directory that gains one entry, pointing at a frame that was free. *)
Lemma tables_wf_grow s s' i t f p :
  tables_wf s -> 0 <= i < 1024 -> in_ram t -> t / 4096 = f -> page_direc s <> t ->
  used (vm_pmm s) f = false -> (forall g, used p g = (g =? f) || used (vm_pmm s) g) ->
  page_direc s' = page_direc s -> vm_pmm s' = p ->
  entry (vm_mem s') (page_direc s) i = Z.lor t 7 ->
  (forall k, 0 <= k < 1024 -> k <> i ->
    entry (vm_mem s') (page_direc s) k = entry (vm_mem s) (page_direc s) k) ->
  tables_wf s'.
Proof.
  intros Hok Hi Ht Htf Htd Hfree Hused Hpd Hpm Hnew Hold.
  assert (Hto : table_of (Z.lor t 7) = t) by (apply table_of_flags; [apply Ht|lia]).
  assert (Hmono : forall g, used (vm_pmm s) g = true -> used p g = true).
  { intros g Hg. rewrite Hused, Hg. apply orb_true_r. }
  assert (Hfr : forall k, 0 <= k < 1024 ->
    present (entry (vm_mem s) (page_direc s) k) = true ->
    table_of (entry (vm_mem s) (page_direc s) k) <> t).
  { intros k Hk Hp E. destruct (table_page s Hok k Hk Hp) as (_ & Hu & _).
    rewrite E, Htf in Hu. congruence. }
  constructor; rewrite ?Hpd, ?Hpm.
  - apply Hok.
  - apply Hmono, Hok.
  - intros k Hk Hp. destruct (decide (k = i)) as [->|Hki].
    + rewrite Hnew, Hto. split_and!; [assumption| |congruence]. rewrite Hused, Htf. lia.
    + rewrite Hold in Hp by assumption. rewrite Hold by assumption.
      destruct (table_page s Hok k Hk Hp) as (? & Hu & ?). auto.
  - intros k l Hk Hl Hpk Hpl E.
    destruct (decide (k = i)) as [->|Hki], (decide (l = i)) as [->|Hli]; [reflexivity| | |].
    + rewrite Hnew, Hto, Hold in E by assumption. rewrite Hold in Hpl by assumption.
      by destruct (Hfr l Hl Hpl).
    + rewrite Hnew, Hto, Hold in E by assumption. rewrite Hold in Hpk by assumption.
      by destruct (Hfr k Hk Hpk).
    + rewrite !Hold in E by assumption. rewrite Hold in Hpk, Hpl by assumption.
      by apply (table_inj s Hok).
  - apply Hmono, Hok.
Qed.

(** Installing a fresh zeroed table in an empty directory slot. *)
Lemma tables_wf_new_table s i p f :
  tables_wf s -> 0 <= i < 1024 ->
  present (entry (vm_mem s) (page_direc s) i) = false ->
  tracked f -> used (vm_pmm s) f = false -> (forall g, used p g = (g =? f) || used (vm_pmm s) g) ->
  let t := f * 4096 in
  let s' := on_mem (fill_table t (fun _ => 0))
              (on_mem (set_entry (page_direc s) i (Z.lor t 7)) (set_pmm p s)) in
  tables_wf s' /\ entry (vm_mem s') (page_direc s) i = Z.lor t 7 /\
  (forall k, 0 <= k < 1024 -> k <> i ->
    entry (vm_mem s') (page_direc s) k = entry (vm_mem s) (page_direc s) k) /\
  (forall j, 0 <= j < 1024 -> entry (vm_mem s') t j = 0) /\
  (forall b j, is_page b -> b <> t -> b <> page_direc s -> 0 <= j < 1024 ->
     entry (vm_mem s') b j = entry (vm_mem s) b j).
Proof.
  intros Hok Hi Hnp Hf Hfree Hused t s'.
  assert (Hf0 : f <> 0). { intros ->. by rewrite (frame0_used s Hok) in Hfree. }
  assert (Ht : in_ram t). { unfold in_ram, is_page, t, tracked in *. split; [split; [lia|word]|lia]. }
  assert (Htp : is_page t) by apply Ht.
  assert (Htf : t / 4096 = f) by (unfold t; rewrite Z.div_mul; lia).
  assert (Hdir : is_page (page_direc s)) by apply Hok.
  assert (Htd : page_direc s <> t).
  { intros E. pose proof (dir_used s Hok) as Hu. rewrite E, Htf in Hu. congruence. }
  assert (Hlor : u32 (Z.lor t 7) = Z.lor t 7).
  { rewrite lor_flags; [|apply Htp|lia]. apply u32_small. unfold in_ram, is_page, is_u32 in *. lia. }
  assert (Hall : forall b j, is_page b -> 0 <= j < 1024 ->
    entry (vm_mem s') b j = if decide (t = b) then 0 else
      if decide (page_direc s = b /\ i = j) then Z.lor t 7 else entry (vm_mem s) b j).
  { intros b j Hb Hj. unfold s'. cbn [vm_mem on_mem set_pmm].
    rewrite (entry_fill_table _ _ _ _ _ Htp Hb Hj). case_decide; [reflexivity|].
    rewrite (entry_set_entry _ _ _ _ _ _ Hdir Hb Hi Hj), Hlor. reflexivity. }
  assert (Hpd : page_direc s' = page_direc s) by reflexivity.
  assert (Hpm : vm_pmm s' = p) by reflexivity.
  clearbody s' t.
  assert (Hnew : entry (vm_mem s') (page_direc s) i = Z.lor t 7).
  { rewrite Hall, decide_False, decide_True by auto. reflexivity. }
  assert (Hold : forall k, 0 <= k < 1024 -> k <> i ->
    entry (vm_mem s') (page_direc s) k = entry (vm_mem s) (page_direc s) k).
  { intros k Hk Hki. rewrite Hall, decide_False, decide_False by (auto || intros [_ ?]; congruence).
    reflexivity. }
  split_and!; [|assumption|assumption| |].
  - eapply tables_wf_grow; eauto.
  - intros j Hj. rewrite Hall, decide_True by auto. reflexivity.
  - intros b j Hb Hbt Hbd Hj.
    rewrite Hall, decide_False, decide_False by (auto || intros [? _]; congruence). reflexivity.
Qed.

(** ** The processor sees what the entries say *)
Definition mmu_on (s : vm) : Prop := bit (cr0 s) 31 = true /\ cr3 s = page_direc s.

Lemma pte_entry_range s va : is_u32 (pte_entry s va).
Proof. unfold pte_entry. destruct (negb _); [unfold is_u32; lia|apply entry_range]. Qed.

Lemma translate_pte s va :
  mmu_on s -> is_page (page_direc s) ->
  translate s va =
    if present (pte_entry s va) then Some (table_of (pte_entry s va) + va mod 4096) else None.
Proof.
  intros [Hpg Hcr] Hd. unfold translate. rewrite Hpg, Hcr.
  assert (Ht : table_of (page_direc s) = page_direc s).
  { destruct Hd as [Hd Hm]. unfold table_of. rewrite land_page by (unfold is_u32; lia). word. }
  rewrite Ht. unfold pte_entry, pte_of, pde_of.
  destruct (present (entry (vm_mem s) (page_direc s) (pd_index va))); reflexivity.
Qed.

(** Addresses of one page share their entries. *)
Lemma page_indices va va' :
  va / 4096 = va' / 4096 -> pd_index va = pd_index va' /\ pt_index va = pt_index va'.
Proof.
  rewrite !pd_index_div, !pt_index_mod. intros E. split; [|by rewrite E].
  replace 0x400000 with (4096 * 1024) by lia. rewrite <- !Z.div_div by lia. by rewrite E.
Qed.

Lemma pte_entry_page s va va' : va / 4096 = va' / 4096 -> pte_entry s va = pte_entry s va'.
Proof.
  intros E. destruct (page_indices va va' E) as [E1 E2].
  unfold pte_entry, pte_of, pde_of. by rewrite E1, E2.
Qed.

(** ** Frames the kernel reaches at their physical addresses *)

(** Frame [g] is mapped to itself. *)
Definition ident (s : vm) (g : Z) : Prop := forall a, a / 4096 = g -> translate s a = Some a.

(** Frames that hold page tables. *)
Definition table_frame (s : vm) (g : Z) : Prop :=
  g = page_direc s / 4096 \/
  exists i, 0 <= i < 1024 /\ present (entry (vm_mem s) (page_direc s) i) = true /\
            table_of (entry (vm_mem s) (page_direc s) i) / 4096 = g.

(** Frames [pmm_alloc_block] can hand out. *)
Definition free_frame (s : vm) (g : Z) : Prop :=
  tracked g /\ g < max_frames (vm_pmm s) /\ used (vm_pmm s) g = false.

Definition kernel_frame (s : vm) (g : Z) : Prop := table_frame s g \/ free_frame s g.

(** The page tables can be read and written through the paged space. *)
Record tables_mapped (s : vm) : Prop := {
  tm_dir : is_page (page_direc s);
  tm_ident : forall g, table_frame s g -> ident s g;
}.

(** The invariant of [map_page]: well-formed tables, and every frame that is a
    table or may become one is mapped to itself. *)
Record tables_ok (s : vm) : Prop := {
  ok_wf : tables_wf s;
  ok_ident : forall g, kernel_frame s g -> ident s g;
}.

Coercion ok_wf : tables_ok >-> tables_wf.

Lemma ok_mapped s : tables_ok s -> tables_mapped s.
Proof. intros [W I]. constructor; [apply W|]. intros g Hg. apply I. by left. Qed.

Lemma ident_pte s g :
  mmu_on s -> is_page (page_direc s) -> present (pte_entry s (g * 4096)) = true ->
  table_of (pte_entry s (g * 4096)) = g * 4096 -> ident s g.
Proof.
  intros Hm Hd Hp Ht a Ha. rewrite translate_pte by done.
  rewrite (pte_entry_page s a (g * 4096)) by (rewrite Z.div_mul; lia). rewrite Hp, Ht. f_equal. word.
Qed.

(** A page mapped as before is mapped to itself as before. *)
Lemma ident_ext s s' g :
  mmu_on s -> mmu_on s' -> is_page (page_direc s) -> is_page (page_direc s') ->
  pte_entry s' (g * 4096) = pte_entry s (g * 4096) -> ident s g -> ident s' g.
Proof.
  intros M M' D D' E Hg a Ha. rewrite <- (Hg a Ha). rewrite !translate_pte by done.
  assert (Hx : a / 4096 = g * 4096 / 4096) by (rewrite Z.div_mul; lia).
  by rewrite (pte_entry_page s' a (g * 4096) Hx), (pte_entry_page s a (g * 4096) Hx), E.
Qed.

(** A frame reached at its own address behaves as physical memory. *)
Lemma entry_address b i : is_page b -> 0 <= i < 1024 -> u32 (b + 4 * i) = b + 4 * i /\ (b + 4 * i) / 4096 = b / 4096.
Proof. intros [Hb Hm] Hi. split; [apply u32_small; unfold is_u32; lia|word]. Qed.

Lemma ld_entry_ident b i s :
  is_page b -> 0 <= i < 1024 -> ident s (b / 4096) -> ld_entry b i s = Done (entry (vm_mem s) b i).
Proof.
  intros Hb Hi Hid. destruct (entry_address b i Hb Hi) as [E1 E2]. unfold ld_entry, ld_word.
  by rewrite E1, (Hid _ E2).
Qed.

Lemma st_entry_ident b i v s :
  is_page b -> 0 <= i < 1024 -> ident s (b / 4096) -> st_entry b i v s = Done (on_mem (set_entry b i v) s).
Proof.
  intros Hb Hi Hid. destruct (entry_address b i Hb Hi) as [E1 E2]. unfold st_entry, st_word.
  by rewrite E1, (Hid _ E2).
Qed.

(** What is stored in a frame matters only to the addresses it translates. *)
Lemma ident_on_mem s f b g :
  mmu_on s -> is_page (page_direc s) -> 0 <= g < 0x100000 -> page_direc s <> b -> table_of (pde_of s (g * 4096)) <> b ->
  (forall c j, is_page c -> c <> b -> 0 <= j < 1024 -> entry (f (vm_mem s)) c j = entry (vm_mem s) c j) ->
  ident s g -> ident (on_mem f s) g.
Proof.
  intros M Hd Hg Hdb Htb Hf. apply ident_ext; [done|exact M|done|done|].
  assert (Hpd : pde_of (on_mem f s) (g * 4096) = pde_of s (g * 4096)).
  { apply Hf; [done|done|]. apply pd_index_range. unfold is_u32. lia. }
  unfold pte_entry. rewrite Hpd. destruct (negb _); [done|]. unfold pte_of. rewrite Hpd.
  apply Hf; [apply table_of_page, entry_range|done|apply pt_index_range].
Qed.

Lemma for_snoc {S} k (body : Z -> S -> S) s :
  0 <= k -> for_ 0 (k + 1) body s = body k (for_ 0 k body s).
Proof.
  intros Hk. rewrite !for_fold by lia. rewrite !Z.sub_0_r.
  rewrite seqZ_app by lia. rewrite fold_left_app. change (seqZ (0 + k) 1) with [0 + k].
  cbn [fold_left]. by rewrite Z.add_0_l.
Qed.

(** Zeroing a frame that is reached at its own address. *)
Lemma clear_table_ident b s :
  mmu_on s -> is_page (page_direc s) -> is_page b -> page_direc s <> b -> table_of (pde_of s b) <> b ->
  ident s (b / 4096) -> clear_table b s = Done (on_mem (fill_table b (fun _ => 0)) s).
Proof.
  intros M Hd Hb Hdb Htb Hid. unfold clear_table, fill_table.
  pose (P := fun k o => o = Done (on_mem (for_ 0 k (fun i => set_entry b i 0)) s)).
  apply (for_inv P); unfold P; [lia|unfold on_mem; rewrite for_empty by lia; by destruct s|].
  intros i o Hi ->. cbn [mbind outcome_bind].
  assert (Hbb : b / 4096 * 4096 = b) by (destruct Hb; word).
  rewrite st_entry_ident; [|done|lia|].
  { unfold on_mem. cbn. by rewrite (for_snoc i) by lia. }
  apply (ident_on_mem s _ b); [done|done|destruct Hb; word|done|by rewrite Hbb| |done].
  intros c j Hc Hcb Hj. apply (for_keep (fun q => entry q c j = entry (vm_mem s) c j)); [done|].
  intros k q Hk Hq. rewrite entry_set_entry by (done || lia). by rewrite decide_False by (intros [? _]; congruence).
Qed.
