(* ===== verification/PagingSpec.v ===== *)
(** * Properties of paging.c *)
From stdpp Require Import base numbers list gmap.
From Stdlib Require Import ZArith Lia ZifyBool String.
From S2P Require Import Prelude Mem Memory MemoryFacts MemorySpec Paging PagingFacts.

(** The two entries that map a frame to itself. *)
Lemma ident_walk s g :
  mmu_on s -> is_page (page_direc s) -> ident s g -> is_u32 (g * 4096) ->
  present (pde_of s (g * 4096)) = true /\ table_of (pte_entry s (g * 4096)) = g * 4096.
Proof.
  intros M Hd Hid Hg. specialize (Hid (g * 4096) ltac:(apply Z.div_mul; lia)). rewrite translate_pte in Hid by done.
  destruct (present (pte_entry s (g * 4096))) eqn:Hp; [|done]. injection Hid as Hid. split.
  - unfold pte_entry in Hp. by destruct (present (pde_of s (g * 4096))).
  - rewrite Z.mod_mul in Hid by lia. lia.
Qed.

Lemma table_frame_range s g : is_page (page_direc s) -> table_frame s g -> 0 <= g < 0x100000.
Proof.
  intros Hdir [->|(i & Hi & Hp & <-)]; [destruct Hdir; word|].
  destruct (table_of_page (entry (vm_mem s) (page_direc s) i) (entry_range _ _ _)). word.
Qed.

(** ** Storing into a frame that holds no table *)
Section Data.
Variables (s : vm) (f : mem -> mem) (b : Z).
Hypothesis Hmmu : mmu_on s.
Hypothesis Hdir : is_page (page_direc s).
Hypothesis Hb : is_page b.
Hypothesis Hnt : ~ table_frame s (b / 4096).
Hypothesis Hf : forall c j, is_page c -> c <> b -> 0 <= j < 1024 -> entry (f (vm_mem s)) c j = entry (vm_mem s) c j.

Lemma dir_not_data : page_direc s <> b.
Proof using Hnt. intros E. apply Hnt. left. by rewrite E. Qed.

Lemma data_dir i : 0 <= i < 1024 -> entry (f (vm_mem s)) (page_direc s) i = entry (vm_mem s) (page_direc s) i.
Proof using Hdir Hnt Hf. intros Hi. apply Hf; [done|apply dir_not_data|done]. Qed.

Lemma data_table_frame g : table_frame (on_mem f s) g <-> table_frame s g.
Proof using Hdir Hnt Hf.
  unfold table_frame. cbn [page_direc vm_mem on_mem].
  split; (intros [E|(i & Hi & Hp & E)]; [by left|right; exists i]); rewrite data_dir in * by done; done.
Qed.

Lemma data_pte_entry va : is_u32 va -> pte_entry (on_mem f s) va = pte_entry s va.
Proof using Hdir Hnt Hf.
  intros Hva. pose proof (pd_index_range va Hva) as Hi.
  assert (Hpd : pde_of (on_mem f s) va = pde_of s va) by (unfold pde_of; by apply data_dir).
  unfold pte_entry, pte_of. rewrite Hpd. destruct (present (pde_of s va)) eqn:Hp; [|done]. cbn [negb vm_mem on_mem].
  apply Hf; [apply table_of_page, entry_range| |apply pt_index_range].
  intros E. apply Hnt. right. exists (pd_index va). split_and!; [lia..|done|]. unfold pde_of in E. by rewrite E.
Qed.

Lemma data_translate va : is_u32 va -> translate (on_mem f s) va = translate s va.
Proof using Hmmu Hdir Hnt Hf. intros Hva. by rewrite !translate_pte, data_pte_entry. Qed.

Lemma data_ident g : 0 <= g < 0x100000 -> ident s g -> ident (on_mem f s) g.
Proof using Hmmu Hdir Hnt Hf.
  intros Hg Hid. apply (ident_ext s); [done|exact Hmmu|done|done| |done].
  apply data_pte_entry. unfold is_u32. lia.
Qed.

Lemma data_tables_mapped : tables_mapped s -> tables_mapped (on_mem f s).
Proof using Hmmu Hdir Hnt Hf.
  intros [Hd Hi]. constructor; [done|]. intros g Hg. apply data_table_frame in Hg.
  apply data_ident; [by apply (table_frame_range s)|by apply Hi].
Qed.
End Data.

(** Is the byte at [va] mapped with the user bit? *)
Definition user_ok (s : vm) (va : Z) : bool := present (pte_entry s va) && bit (pte_entry s va) 2.

(** With the tables mapped, the kernel's own reads of them do not fault. *)
Lemma ld_pde s va : tables_mapped s -> is_u32 va -> ld_entry (page_direc s) (pd_index va) s = Done (pde_of s va).
Proof. intros [Hd Hi] Hva. apply ld_entry_ident; [done|by apply pd_index_range|]. apply Hi. by left. Qed.

Lemma table_ident s va :
  tables_mapped s -> is_u32 va -> present (pde_of s va) = true -> ident s (table_of (pde_of s va) / 4096).
Proof. intros [_ Hi] Hva Hp. apply Hi. right. exists (pd_index va). split; [by apply pd_index_range|done]. Qed.

Lemma ld_pte s va :
  tables_mapped s -> is_u32 va -> present (pde_of s va) = true ->
  ld_entry (table_of (pde_of s va)) (pt_index va) s = Done (pte_of s va).
Proof.
  intros T Hva Hp. apply ld_entry_ident; [apply table_of_page, entry_range|apply pt_index_range|].
  by apply table_ident.
Qed.

Lemma get_pte_ok s va : tables_mapped s -> is_u32 va -> get_pte va s = Done (pte_entry s va).
Proof.
  intros T Hva. unfold get_pte, pte_entry. rewrite ld_pde by done. cbn [mbind outcome_bind].
  destruct (present (pde_of s va)) eqn:Hp; [|done]. cbn [negb]. by apply ld_pte.
Qed.

Lemma reads_wp {A} (f : vm -> outcome A) t a Q : f t = Done a -> Q a t [] -> wp (reads f) t Q.
Proof. intros E HQ. unfold reads. apply wp_bind, wp_get. by apply (wp_lift a). Qed.

Lemma user_page_ok s va : tables_mapped s -> is_u32 va -> user_page s va = Done (user_ok s va).
Proof.
  intros T Hva. unfold user_page, user_ok, pte_entry. rewrite ld_pde by done. cbn [mbind outcome_bind].
  destruct (present (pde_of s va)) eqn:Hp; [|done]. cbn [negb]. by rewrite ld_pte.
Qed.

Lemma user_ok_page s va va' : va / 4096 = va' / 4096 -> user_ok s va = user_ok s va'.
Proof. intros E. unfold user_ok. by rewrite (pte_entry_page s va va' E). Qed.

(** ** map_page *)

(** What a successful [map_page] changes: the entry of [va]'s page, nothing
    else. *)
Definition remapped (s s' : vm) (va pte : Z) : Prop :=
  tables_wf s' /\ pte_entry s' va = pte /\
  (forall va', is_u32 va' -> va' / 4096 <> va / 4096 -> pte_entry s' va' = pte_entry s va') /\
  page_direc s' = page_direc s /\ cr3 s' = cr3 s /\ cr0 s' = cr0 s.

Lemma remapped_set_pte s va pte :
  tables_wf s -> is_u32 va -> is_u32 pte -> present (pde_of s va) = true ->
  remapped s (on_mem (set_entry (table_of (pde_of s va)) (pt_index va) pte) s) va pte.
Proof.
  intros Hok Hva Hpte Hp. pose proof (pd_index_range va Hva) as Hi.
  pose proof (pt_index_range va) as Hj.
  destruct (tables_wf_set_pte s (pd_index va) (pt_index va) pte Hok Hi Hj Hp) as [Hok' Hdir].
  fold (pde_of s va) in Hok', Hdir. set (s' := on_mem _ s) in *.
  assert (Hpde : forall w, is_u32 w -> pde_of s' w = pde_of s w).
  { intros w Hw. apply Hdir. by apply pd_index_range. }
  assert (Htp : forall w, is_page (table_of (pde_of s w))) by (intros; apply table_of_page, entry_range).
  split_and!; [exact Hok'| | |reflexivity..].
  - unfold pte_entry. rewrite Hpde, Hp by done. cbn [negb]. unfold pte_of. rewrite Hpde by done.
    unfold s'. cbn [vm_mem on_mem]. rewrite entry_set_entry by done.
    rewrite decide_True by done. by apply u32_small.
  - intros va' Hva' Hne. unfold pte_entry. rewrite Hpde by done.
    destruct (present (pde_of s va')) eqn:Hp'; [|reflexivity]. cbn [negb]. unfold pte_of.
    rewrite Hpde by done. unfold s'. cbn [vm_mem on_mem].
    rewrite entry_set_entry by (done || apply pt_index_range).
    rewrite decide_False; [reflexivity|]. intros [E1 E2]. apply Hne. apply same_page; [|done].
    apply (table_inj s Hok); [by apply pd_index_range|done|exact Hp'|exact Hp|by symmetry].
Qed.

Lemma remapped_new_table s va pte p f :
  tables_wf s -> is_u32 va -> is_u32 pte -> present (pde_of s va) = false ->
  tracked f -> used (vm_pmm s) f = false -> (forall g, used p g = (g =? f) || used (vm_pmm s) g) ->
  remapped s
    (on_mem (set_entry (f * 4096) (pt_index va) pte)
      (on_mem (fill_table (f * 4096) (fun _ => 0))
        (on_mem (set_entry (page_direc s) (pd_index va) (Z.lor (f * 4096) 7)) (set_pmm p s)))) va pte.
Proof.
  intros Hok Hva Hpte Hp Hf Hfree Hused. pose proof (pd_index_range va Hva) as Hi.
  destruct (tables_wf_new_table s (pd_index va) p f Hok Hi Hp Hf Hfree Hused)
    as (Hok1 & Hnew & Hold & Hzero & Hother).
  revert Hok1 Hnew Hold Hzero Hother. set (s1 := on_mem (fill_table _ _) _).
  assert (Hd1 : page_direc s1 = page_direc s /\ cr3 s1 = cr3 s /\ cr0 s1 = cr0 s) by done.
  clearbody s1. destruct Hd1 as (Hd1 & Hc3 & Hc0). intros Hok1 Hnew Hold Hzero Hother.
  assert (Htp : is_page (f * 4096)) by (unfold is_page, tracked in *; split; [lia|word]).
  assert (Hpde1 : pde_of s1 va = Z.lor (f * 4096) 7) by (unfold pde_of; by rewrite Hd1).
  assert (Htab : table_of (pde_of s1 va) = f * 4096).
  { rewrite Hpde1. apply table_of_flags; [done|lia]. }
  assert (Hp1 : present (pde_of s1 va) = true) by (rewrite Hpde1; by apply present_lor).
  pose proof (remapped_set_pte s1 va pte Hok1 Hva Hpte Hp1) as Hm. rewrite Htab in Hm.
  destruct Hm as (Hok2 & Hget & Hrest & Hd2 & Hc3' & Hc0').
  split_and!; [exact Hok2|exact Hget| |congruence..].
  intros va' Hva' Hne. rewrite Hrest by done. unfold pte_entry, pte_of.
  destruct (decide (pd_index va' = pd_index va)) as [E|E].
  - unfold pde_of at 1 2. rewrite Hd1, E, Hnew, table_of_flags by (done || lia).
    rewrite (present_lor _ 7) by done. cbn [negb]. rewrite Hzero by apply pt_index_range.
    unfold pde_of in Hp |- *. rewrite E, Hp. reflexivity.
  - assert (Hpde : pde_of s1 va' = pde_of s va').
    { unfold pde_of. rewrite Hd1. apply Hold; [by apply pd_index_range|done]. }
    rewrite Hpde. destruct (present (pde_of s va')) eqn:Hp'; [|reflexivity]. cbn [negb].
    destruct (table_page s Hok (pd_index va') (pd_index_range va' Hva') Hp') as (Hram & Hu & Hnd).
    apply Hother; [apply Hram| |exact Hnd|apply pt_index_range].
    intros Et. unfold pde_of in Et. rewrite Et, Z.div_mul in Hu by lia. congruence.
Qed.

(** The tables of the new state: at most the new table's frame comes on top. *)
Lemma table_frame_set_pte s va pte g :
  tables_wf s -> is_u32 va -> present (pde_of s va) = true ->
  table_frame (on_mem (set_entry (table_of (pde_of s va)) (pt_index va) pte) s) g -> table_frame s g.
Proof.
  intros Hok Hva Hp. pose proof (pd_index_range va Hva) as Hi. pose proof (pt_index_range va) as Hj.
  destruct (tables_wf_set_pte s (pd_index va) (pt_index va) pte Hok Hi Hj Hp) as [_ Hdir].
  fold (pde_of s va) in Hdir. intros [E|(i & Hi' & Hpi & E)]; [by left|right; exists i].
  cbn [page_direc on_mem] in *. by rewrite Hdir in Hpi, E by done.
Qed.

Lemma table_frame_new_table s va pte p f g :
  tables_wf s -> is_u32 va -> present (pde_of s va) = false ->
  tracked f -> used (vm_pmm s) f = false -> (forall g, used p g = (g =? f) || used (vm_pmm s) g) ->
  table_frame
    (on_mem (set_entry (f * 4096) (pt_index va) pte)
      (on_mem (fill_table (f * 4096) (fun _ => 0))
        (on_mem (set_entry (page_direc s) (pd_index va) (Z.lor (f * 4096) 7)) (set_pmm p s)))) g ->
  g = f \/ table_frame s g.
Proof.
  intros Hok Hva Hp Hf Hfree Hused. pose proof (pd_index_range va Hva) as Hi. pose proof (pt_index_range va) as Hj.
  destruct (tables_wf_new_table s (pd_index va) p f Hok Hi Hp Hf Hfree Hused) as (_ & Hnew & Hold & _ & _).
  assert (Hpg : is_page (f * 4096)) by (unfold is_page, tracked in *; split; [lia|word]).
  assert (Hdir : is_page (page_direc s)) by apply Hok.
  assert (Hff : f * 4096 / 4096 = f) by (apply Z.div_mul; lia).
  assert (Hdf : f * 4096 <> page_direc s).
  { intros E. pose proof (dir_used s Hok) as Hu. rewrite <- E, Hff in Hu. congruence. }
  intros [E|(i & Hi' & Hpi & E)]; [right; by left|]. cbn [page_direc on_mem vm_mem set_pmm] in *.
  revert Hpi E. rewrite entry_set_entry by (assumption || apply Hi').
  rewrite decide_False by (intros [Hx _]; exact (Hdf Hx)). revert Hnew Hold.
  generalize (fill_table (f * 4096) (fun _ => 0)
    (set_entry (page_direc s) (pd_index va) (Z.lor (f * 4096) 7) (vm_mem s))).
  intros m1 Hnew Hold Hpi E. destruct (decide (i = pd_index va)) as [->|Hne].
  - left. rewrite Hnew, table_of_flags in E by (done || lia). congruence.
  - right. right. exists i. by rewrite Hold in Hpi, E by done.
Qed.

Definition mapped (s s' : vm) (va pte : Z) : Prop :=
  tables_ok s' /\ pte_entry s' va = pte /\
  (forall va', is_u32 va' -> va' / 4096 <> va / 4096 -> pte_entry s' va' = pte_entry s va') /\
  page_direc s' = page_direc s /\ cr3 s' = cr3 s /\ cr0 s' = cr0 s.

Lemma kernel_frame_range s g : tables_wf s -> kernel_frame s g -> 0 <= g < 0x40000.
Proof.
  intros W [[->|(i & Hi & Hp & <-)]|(Ht & _)]; [| |by unfold tracked in Ht; lia].
  - destruct (dir_page s W) as [[? ?] ?]. word.
  - destruct (table_page s W i Hi Hp) as ([[? ?] ?] & _). word.
Qed.

(** Changing the entry of a page that is no kernel frame keeps the kernel's
    frames mapped to themselves. *)
Lemma remapped_mapped s s' va pte :
  tables_ok s -> mmu_on s -> ~ kernel_frame s (va / 4096) -> remapped s s' va pte ->
  (forall g, kernel_frame s' g -> kernel_frame s g) -> mapped s s' va pte.
Proof.
  intros Hok M Hva (W' & Hpte & Hrest & Hd & H3 & H0) Hkf. split_and!; [|done..].
  constructor; [done|]. intros g Hg. pose proof (Hkf g Hg) as Hg0.
  pose proof (kernel_frame_range s g Hok Hg0) as Hr. apply (ident_ext s); [done| | | | |by apply (ok_ident s Hok)].
  - unfold mmu_on in *. by rewrite Hd, H3, H0.
  - apply (dir_page s Hok).
  - rewrite Hd. apply (dir_page s Hok).
  - apply Hrest; [unfold is_u32; lia|]. rewrite Z.div_mul by lia. by intros ->.
Qed.

Lemma mapped_set_pte s va pte :
  tables_ok s -> mmu_on s -> ~ kernel_frame s (va / 4096) -> is_u32 va -> is_u32 pte -> present (pde_of s va) = true ->
  mapped s (on_mem (set_entry (table_of (pde_of s va)) (pt_index va) pte) s) va pte.
Proof.
  intros Hok M Hk Hva Hpte Hp. apply remapped_mapped; [done..|by apply remapped_set_pte; [apply Hok|..]|].
  intros g [Hg|Hg]; [left|by right]. revert Hg. by apply table_frame_set_pte; [apply Hok|..].
Qed.

Lemma mapped_new_table s va pte p f :
  tables_ok s -> mmu_on s -> ~ kernel_frame s (va / 4096) -> is_u32 va -> is_u32 pte -> present (pde_of s va) = false ->
  free_frame s f -> (forall g, used p g = (g =? f) || used (vm_pmm s) g) -> max_frames p = max_frames (vm_pmm s) ->
  mapped s
    (on_mem (set_entry (f * 4096) (pt_index va) pte)
      (on_mem (fill_table (f * 4096) (fun _ => 0))
        (on_mem (set_entry (page_direc s) (pd_index va) (Z.lor (f * 4096) 7)) (set_pmm p s)))) va pte.
Proof.
  intros Hok M Hk Hva Hpte Hp Hff Hused Hmax. pose proof Hff as (Hf & _ & Hfree).
  apply remapped_mapped; [done..|by apply remapped_new_table; [apply Hok|..]|].
  intros g [Hg|(Ht & Hm & Hu)].
  - apply table_frame_new_table in Hg as [->|Hg]; [by right|by left|by apply Hok|done..].
  - right. change (g < max_frames p) in Hm. change (used p g = false) in Hu. rewrite Hused in Hu. rewrite Hmax in Hm.
    split_and!; [done..|]. by destruct (used (vm_pmm s) g); [rewrite orb_true_r in Hu|].
Qed.

(** [map_page] when the page has a table already: one store. *)
Lemma map_page_present s pa va flags :
  tables_ok s -> is_u32 va -> present (pde_of s va) = true ->
  map_page pa va flags s =
    Done (tt, on_mem (set_entry (table_of (pde_of s va)) (pt_index va) (Z.lor (Z.lor pa flags) 1)) s, []).
Proof.
  intros Hok Hva Hp. pose proof (ok_mapped s Hok) as T. unfold map_page, reads, stores. cbn [mbind M_bind mget lift].
  unfold mbind, M_bind, mget, lift. rewrite ld_pde by done. rewrite Hp. cbn [negb].
  rewrite st_entry_ident; [done|apply table_of_page, entry_range|apply pt_index_range|by apply table_ident].
Qed.

(** ... and when it has none and no frame is free. *)
Lemma map_page_none s pa va flags p :
  tables_ok s -> is_u32 va -> present (pde_of s va) = false -> pmm_alloc_block (vm_pmm s) = (0, p) ->
  map_page pa va flags s =
    Done (tt, set_pmm p s, [Print (str "map_page: pmm_alloc_block failed for page table" ++ [10])]).
Proof.
  intros Hok Hva Hp Ea. pose proof (ok_mapped s Hok) as T. unfold map_page, reads.
  unfold mbind, M_bind, mget, lift. rewrite ld_pde by done. rewrite Hp. cbn [negb]. rewrite Ea.
  rewrite bool_decide_true by done. done.
Qed.

(** ... and with a free frame for the table: the directory entry, the zeroed
    table, the page's entry, each at the table's own address. *)
Lemma map_page_absent s pa va flags f p :
  tables_ok s -> mmu_on s -> is_u32 va -> present (pde_of s va) = false ->
  pmm_alloc_block (vm_pmm s) = (f * 4096, p) -> free_frame s f ->
  map_page pa va flags s =
    Done (tt, on_mem (set_entry (f * 4096) (pt_index va) (Z.lor (Z.lor pa flags) 1))
      (on_mem (fill_table (f * 4096) (fun _ => 0))
        (on_mem (set_entry (page_direc s) (pd_index va) (Z.lor (f * 4096) 7)) (set_pmm p s))), []).
Proof.
  intros Hok M Hva Hp Ea Hff. pose proof (ok_mapped s Hok) as T. pose proof Hff as (Hf & _ & Hfree).
  pose proof (dir_page s Hok) as [Hd _]. pose proof (pd_index_range va Hva) as Hpi.
  assert (Hf0 : f <> 0) by (intros ->; by rewrite (frame0_used s Hok) in Hfree).
  assert (Hpg : is_page (f * 4096)) by (unfold is_page, tracked in *; split; [lia|word]).
  assert (Hfd : f * 4096 / 4096 = f) by (apply Z.div_mul; lia).
  assert (Hdf : page_direc s <> f * 4096).
  { intros E. pose proof (dir_used s Hok) as Hu. rewrite E, Hfd in Hu. congruence. }
  assert (Hid : ident s f) by (apply (ok_ident s Hok); by right).
  assert (Hfu : is_u32 (f * 4096)) by (unfold tracked, is_u32 in *; lia).
  destruct (ident_walk s f M Hd Hid Hfu) as [Hpf Htf].
  assert (Hne : pd_index (f * 4096) <> pd_index va) by (intros E; unfold pde_of in *; congruence).
  assert (Htn : table_of (pde_of s (f * 4096)) <> f * 4096).
  { intros E. destruct (table_page s Hok (pd_index (f * 4096)) (pd_index_range _ Hfu) Hpf) as (_ & Hu & _).
    unfold pde_of in E. rewrite E, Hfd in Hu. congruence. }
  set (s1 := on_mem (set_entry (page_direc s) (pd_index va) (Z.lor (f * 4096) 7)) (set_pmm p s)).
  assert (Hs1 : forall c j, is_page c -> 0 <= j < 1024 -> c <> page_direc s \/ j <> pd_index va ->
    entry (vm_mem s1) c j = entry (vm_mem s) c j).
  { intros c j Hc Hj Hor. unfold s1. cbn [vm_mem on_mem set_pmm]. rewrite entry_set_entry by done.
    rewrite decide_False; [done|]. intros [<- <-]. by destruct Hor. }
  assert (Hpd1 : pde_of s1 (f * 4096) = pde_of s (f * 4096)).
  { unfold pde_of. apply Hs1; [done|by apply pd_index_range|by right]. }
  assert (Hid1 : ident s1 f).
  { apply (ident_ext s); [done..| |done]. unfold pte_entry. rewrite Hpd1, Hpf. cbn [negb]. unfold pte_of. rewrite Hpd1.
    apply Hs1; [apply table_of_page, entry_range|apply pt_index_range|]. left.
    by apply (table_page s Hok (pd_index (f * 4096)) (pd_index_range _ Hfu) Hpf). }
  assert (E2 : clear_table (f * 4096) s1 = Done (on_mem (fill_table (f * 4096) (fun _ => 0)) s1)).
  { apply clear_table_ident; [done..| |by rewrite Hfd]. by rewrite Hpd1. }
  set (s2 := on_mem (fill_table (f * 4096) (fun _ => 0)) s1) in *.
  assert (Hid2 : ident s2 f).
  { apply (ident_on_mem s1 _ (f * 4096)); [done|done|unfold tracked in *; lia|done|by rewrite Hpd1| |done].
    intros c j Hc Hcb Hj. rewrite entry_fill_table by done. by rewrite decide_False by congruence. }
  unfold map_page, reads, stores. unfold mbind, M_bind, mget, lift, mput. rewrite ld_pde by done. rewrite Hp. cbn [negb]. rewrite Ea.
  rewrite bool_decide_false by lia.
  rewrite st_entry_ident; [|done|done|]. 2:{ apply (ok_ident s Hok). by left; left. }
  fold s1. cbn [page_direc set_pmm]. fold s1. rewrite E2. rewrite st_entry_ident; [done|done|apply pt_index_range|by rewrite Hfd].
Qed.

(** The two outcomes of [map_page]. *)
Lemma map_page_wp s pa va flags :
  tables_ok s -> mmu_on s -> ~ kernel_frame s (va / 4096) -> is_u32 va -> is_u32 (Z.lor (Z.lor pa flags) 1) ->
  wp (map_page pa va flags) s (fun _ s' o =>
    (mapped s s' va (Z.lor (Z.lor pa flags) 1) /\ o = []) \/
    (present (pde_of s va) = false /\ fst (pmm_alloc_block (vm_pmm s)) = 0 /\ s' = s /\
     o = [Print (str "map_page: pmm_alloc_block failed for page table" ++ [10])])).
Proof.
  intros Hok M Hk Hva Hpte. destruct (present (pde_of s va)) eqn:Hp.
  { eapply wp_run; [by apply map_page_present|]. left. split; [|done]. by apply mapped_set_pte. }
  pose proof (alloc_block_cases (vm_pmm s)) as Ha.
  destruct (pmm_alloc_block (vm_pmm s)) as [a p] eqn:Ea. cbn [fst snd] in Ha |- *.
  destruct Ha as [(f & -> & Hf & Hm & Hfree & _ & Hused & _ & _ & Hmax)|(-> & -> & _)].
  - eapply wp_run; [by apply (map_page_absent s pa va flags f p)|]. left. split; [|done]. by apply mapped_new_table.
  - eapply wp_run; [by apply (map_page_none s pa va flags (vm_pmm s))|]. right. split_and!; [done..| |done].
    by destruct s.
Qed.

Lemma flags_range flags : 0 <= flags < 4096 -> 0 <= Z.lor flags 1 < 4096.
Proof.
  intros Hfl. split; [apply Z.lor_nonneg; lia|]. change 4096 with (2 ^ 12).
  destruct (decide (Z.lor flags 1 = 0)) as [->|]; [lia|].
  apply Z.log2_lt_pow2; [pose proof (proj2 (Z.lor_nonneg flags 1)); lia|].
  rewrite Z.log2_lor by lia. change (Z.log2 1) with 0. rewrite Z.max_l by apply Z.log2_nonneg.
  destruct (decide (flags = 0)) as [->|]; [done|]. apply Z.log2_lt_pow2; lia.
Qed.

(** C9: [map_page] either installs exactly the requested entry, the frame with
    the requested flags and the present bit, so that the processor translates
    the page at [va] to the frame and every other address as before, and keeps
    the page tables well formed and mapped; or, when a page table is needed and
    no frame is free, it prints its message and changes nothing.  It never
    faults on its own accesses to the tables, as long as the page is not one of
    the frames the kernel itself reaches at their physical addresses (tables
    and free frames). *)
Theorem map_page_spec s pa va flags :
  tables_ok s -> mmu_on s -> ~ kernel_frame s (va / 4096) -> is_u32 va -> is_page pa -> 0 <= flags < 4096 ->
  wp (map_page pa va flags) s (fun _ s' o =>
    (tables_ok s' /\ mmu_on s' /\ o = [] /\
     (forall w, w / 4096 = va / 4096 ->
        pte_entry s' w = Z.lor (Z.lor pa flags) 1 /\ translate s' w = Some (pa + w mod 4096)) /\
     (forall w, is_u32 w -> w / 4096 <> va / 4096 ->
        pte_entry s' w = pte_entry s w /\ translate s' w = translate s w)) \/
    (present (pde_of s va) = false /\ fst (pmm_alloc_block (vm_pmm s)) = 0 /\ s' = s /\
     o = [Print (str "map_page: pmm_alloc_block failed for page table" ++ [10])])).
Proof.
  intros Hok Hm Hk Hva Hpa Hfl. pose proof (flags_range flags Hfl) as Hf1.
  assert (Hor : Z.lor (Z.lor pa flags) 1 = Z.lor pa (Z.lor flags 1)) by by rewrite Z.lor_assoc.
  assert (Hpte : is_u32 (Z.lor (Z.lor pa flags) 1)).
  { rewrite Hor, lor_flags; [unfold is_page, is_u32 in *; lia|apply Hpa|done]. }
  eapply wp_mono; [by apply map_page_wp|]. intros [] s' o [[Hmap ->]|?]; [left|by right].
  destruct Hmap as (Hok' & Hget & Hrest & Hd & Hc3 & Hc0).
  assert (Hmmu' : mmu_on s') by (unfold mmu_on in *; by rewrite Hd, Hc3, Hc0).
  assert (Hdp : is_page (page_direc s)) by apply (dir_page s Hok).
  assert (Hdp' : is_page (page_direc s')) by by rewrite Hd.
  split_and!; [done..| |].
  - intros w Hw. rewrite translate_pte by done. rewrite (pte_entry_page s' w va Hw), Hget. split; [done|].
    rewrite Hor, table_of_flags by done. rewrite present_lor; [done|]. unfold present. by rewrite bit_lor, orb_comm.
  - intros w Hw Hne. rewrite !translate_pte by done. by rewrite Hrest.
Qed.

(** ** validate_user_region *)
Lemma validate_loop_spec fuel s a e :
  tables_mapped s -> 0 <= a -> e <= 0xC0000000 -> a < 0xC0001000 -> e - a <= (Z.of_nat fuel - 1) * 4096 -> (0 < fuel)%nat ->
  exists r, validate_loop fuel s a e = Done r /\ (r = 0 \/ r = 1) /\
    (r = 1 <-> forall k, 0 <= k -> a + k * 4096 < e -> user_ok s (a + k * 4096) = true).
Proof.
  intros T. revert a. induction fuel as [|fuel IH]; intros a Ha He Ha' Hf Hpos; [lia|]. cbn [validate_loop].
  case_bool_decide as Hlt.
  2:{ exists 1. split_and!; [done|lia|]. split; [|done]. intros _ k Hk Hlt'. lia. }
  pose proof (pd_index_range a ltac:(unfold is_u32; lia)) as Hi.
  rewrite bool_decide_false by lia. rewrite user_page_ok by (done || unfold is_u32; lia). cbn [mbind outcome_bind].
  destruct (user_ok s a) eqn:Hu.
  - rewrite u32_small by (unfold is_u32; lia).
    destruct (IH (a + 0x1000)) as (r & -> & Hr & Hiff); [lia..|].
    exists r. split_and!; [done..|]. rewrite Hiff. split; intros Hall k Hk Hke.
    + destruct (decide (k = 0)) as [->|]; [by rewrite Z.add_0_r|].
      replace (a + k * 4096) with (a + 4096 + (k - 1) * 4096) by lia. apply Hall; lia.
    + replace (a + 4096 + k * 4096) with (a + (k + 1) * 4096) by lia. apply Hall; lia.
  - exists 0. split_and!; [done|lia|]. split; [lia|]. intros Hall.
    specialize (Hall 0 ltac:(lia) ltac:(lia)). rewrite Z.mul_0_l, Z.add_0_r in Hall. congruence.
Qed.

Lemma validate_cases s a len :
  tables_mapped s -> is_u32 a -> is_u32 len ->
  exists r, validate_user_region s a len = Done r /\ (r = 0 \/ r = 1) /\
    (r = 1 <-> len = 0 \/
       (0x100000 <= a /\ a + len <= 0xC0000000 /\
        forall k, 0 <= k -> a + k * 4096 < a + len -> user_ok s (a + k * 4096) = true)).
Proof.
  intros T Ha Hl. unfold validate_user_region, is_u32 in *.
  assert (Hrej : forall P : Prop, (P -> False) ->
    exists r, Done 0 = Done r /\ (r = 0 \/ r = 1) /\ (r = 1 <-> P)).
  { intros P HP. exists 0. split_and!; [done|lia|]. split; [lia|tauto]. }
  case_bool_decide; [exists 1; split_and!; [done|lia|]; tauto|].
  case_bool_decide; [apply Hrej; lia|]. cbv zeta.
  destruct (decide (a + len < 0x100000000)).
  2:{ rewrite bool_decide_true by (left; word). apply Hrej. lia. }
  rewrite u32_small by (unfold is_u32; lia).
  case_bool_decide; [apply Hrej; lia|].
  destruct (validate_loop_spec (Z.to_nat (len / 4096 + 2)) s a (a + len) T) as (r & Hr & Hr1 & Hiff);
    [first [lia|word]..|].
  exists r. split_and!; [done..|]. rewrite Hiff. split; [intros; right; split_and!; [lia..|done]|].
  intros [?|(_ & _ & ?)]; [lia|done].
Qed.

(** C19: [validate_user_region] always returns 0 or 1, and returns 1 exactly for
    an empty region or for one inside [0x100000, 0xC0000000] for which every
    address it probes, that is the start plus each multiple of 4096 before the
    end, is mapped with the user bit.  Its own reads of the page directory and
    the tables go through paging too; they do not fault because those frames are
    mapped to themselves. *)
Theorem validate_user_region_spec s a len :
  tables_mapped s -> is_u32 a -> is_u32 len ->
  exists r, validate_user_region s a len = Done r /\ (r = 0 \/ r = 1) /\
    (r = 1 <-> len = 0 \/
       (0x100000 <= a /\ a + len <= 0xC0000000 /\
        forall k, 0 <= k -> a + k * 4096 < a + len -> user_ok s (a + k * 4096) = true)).
Proof. apply validate_cases. Qed.

(** The region's last page is probed: it does not reach further into its last
    page than its start lies in the first one. *)
Definition probes_last (a len : Z) : Prop := a mod 4096 + (len - 1) mod 4096 < 4096.

Lemma validate_sound s a len b :
  tables_mapped s -> is_u32 a -> is_u32 len -> validate_user_region s a len = Done 1 -> probes_last a len ->
  a <= b < a + len -> user_ok s b = true.
Proof.
  intros T Ha Hl Hv Hp Hb. destruct (validate_cases s a len T Ha Hl) as (r & Hr & _ & Hiff).
  rewrite Hv in Hr. injection Hr as <-. destruct (proj1 Hiff eq_refl) as [?|(Hlo & Hhi & Hall)]; [lia|].
  rewrite (user_ok_page s b (a + (b / 4096 - a / 4096) * 4096)).
  - apply Hall; unfold probes_last in Hp; word.
  - word.
Qed.

(** for a region whose last page is probed (in particular one that starts
    on a page boundary), acceptance means that every byte of it is mapped, with
    the user bit, so the kernel can touch it without a page fault. *)
Theorem validate_user_region_sound s a len b :
  tables_ok s -> mmu_on s -> is_u32 a -> is_u32 len ->
  validate_user_region s a len = Done 1 -> probes_last a len -> a <= b < a + len ->
  user_ok s b = true /\ is_Some (translate s b).
Proof.
  intros Hok Hmmu Ha Hl Hv Hp Hb. pose proof (validate_sound s a len b (ok_mapped s Hok) Ha Hl Hv Hp Hb) as Hu.
  split; [done|]. rewrite translate_pte by (done || apply (dir_page s Hok)).
  unfold user_ok in Hu. apply andb_prop in Hu as [-> _]. by eexists.
Qed.

(** a region that is not page aligned and ends in a page it does not probe
    is accepted whatever that last page holds: the check only needs the pages
    before it. *)
Theorem validate_user_region_gap s a len :
  tables_mapped s -> is_u32 a -> is_u32 len -> 0 < len -> 0x100000 <= a -> a + len <= 0xC0000000 ->
  ~ probes_last a len ->
  (forall b, a <= b < (a + len - 1) / 4096 * 4096 -> user_ok s b = true) ->
  validate_user_region s a len = Done 1.
Proof.
  intros T Ha Hl Hpos Hlo Hhi Hp Hall. destruct (validate_cases s a len T Ha Hl) as (r & -> & _ & Hiff).
  f_equal. apply Hiff. right. split_and!; [done..|]. intros k Hk Hke. apply Hall.
  unfold probes_last in Hp. word.
Qed.

(** ** init_paging *)

Lemma rd8_set_entry m base j v a :
  is_page base -> 0 <= j < 1024 -> is_u32 a -> a / 4096 <> base / 4096 ->
  rd8 (set_entry base j v m) a = rd8 m a.
Proof.
  intros [Hb Hm] Hj Ha Hne. apply rd8_wr32_ne. intros i Hi E. apply Hne.
  rewrite (u32_small a) in E by done. rewrite <- E. word.
Qed.

Lemma rd8_fill_table m base f a :
  is_page base -> is_u32 a -> a / 4096 <> base / 4096 -> rd8 (fill_table base f m) a = rd8 m a.
Proof.
  intros Hb Ha Hne. unfold fill_table.
  apply (for_keep (fun q => rd8 q a = rd8 m a)); [done|]. intros i q Hi <-. by apply rd8_set_entry.
Qed.

(** The state after [t] iterations of the outer loop: [pd] is the directory,
    its table number [k < t] follows it at [pd + 4096 (k + 1)] and maps the
    4 MiB from [k] on to themselves; the memory below is as in [o]. *)
Definition table_at (pd k : Z) : Z := pd + 4096 * (k + 1).

Record identity_inv (o : vm) (pd c0 t : Z) (s : vm) : Prop := {
  inv_dir : page_direc s = pd;
  inv_free : free_mem_addr (vm_pmm s) = table_at pd t;
  inv_pde : forall k, 0 <= k < 1024 ->
    entry (vm_mem s) pd k = if k <? t then Z.lor (table_at pd k) 7 else 0;
  inv_pte : forall k j, 0 <= k < t -> 0 <= j < 1024 ->
    entry (vm_mem s) (table_at pd k) j = Z.lor ((k * 1024 + j) * 4096) 7;
  inv_cr0 : cr0 s = c0;
  inv_low : forall a, is_u32 a -> a < pd -> rd8 (vm_mem s) a = rd8 (vm_mem o) a;
  inv_max : max_frames (vm_pmm s) = max_frames (vm_pmm o);
  inv_array : table_at pd t + 4096 <= 0x40000000 -> in_array (vm_pmm o) -> in_array (vm_pmm s);
}.

Lemma lor7_u32 b : is_page b -> u32 (Z.lor b 7) = Z.lor b 7.
Proof. intros [Hb Hm]. rewrite lor_flags by lia. apply u32_small. unfold is_u32. lia. Qed.

Lemma table_at_page pd k : is_page pd -> 0 <= k -> table_at pd k <= 0xFFFFF000 -> is_page (table_at pd k).
Proof. unfold is_page, table_at. intros [? ?] ? ?. split; [lia|word]. Qed.

Lemma kmalloc_a_max size p : max_frames (snd (kmalloc_a size p)) = max_frames p.
Proof. unfold kmalloc_a. cbn [snd]. apply (same_fields_mark (align_up (free_mem_addr p)) size (add_allocated _ (set_free_mem _ p))). Qed.

Lemma identity_inv_step o pd c0 t s :
  is_page pd -> 0 <= t < 1024 -> table_at pd (t + 1) <= 0xFFFFE000 ->
  identity_inv o pd c0 t s -> identity_inv o pd c0 (t + 1) (identity_table t s).
Proof.
  intros Hpd Ht Hw [Hd Hf Hpde Hpte Hc Hlow Hmax Harr].
  unfold identity_table. pose proof (kmalloc_a_cases 4096 (vm_pmm s)) as Hk.
  pose proof (kmalloc_a_max 4096 (vm_pmm s)) as Hkm.
  pose proof (in_array_kmalloc_a 4096 (vm_pmm s)) as Hka.
  destruct (kmalloc_a 4096 (vm_pmm s)) as [a p].
  assert (Hpt : is_page (table_at pd t)).
  { apply table_at_page; [done|lia|]. unfold table_at in *. lia. }
  destruct Hk as (Hm & Hr & Hfp & _); [rewrite Hf; unfold is_page, is_u32 in *; lia|lia| |].
  { rewrite Hf. unfold table_at in *. lia. }
  assert (Ha : a = table_at pd t) by (rewrite Hf in Hr; destruct Hpt as [_ Hpm]; word).
  clear Hm Hr. subst a. cbv zeta.
  assert (Hne : table_at pd t <> pd) by (unfold table_at; lia).
  assert (Hent : forall b j, is_page b -> 0 <= j < 1024 ->
    entry (set_entry pd t (Z.lor (table_at pd t) 7) (fill_table (table_at pd t)
      (fun p => Z.lor (u32 ((t * 1024 + p) * 4096)) 7) (vm_mem s))) b j =
    if decide (pd = b /\ t = j) then Z.lor (table_at pd t) 7 else
    if decide (table_at pd t = b) then Z.lor ((t * 1024 + j) * 4096) 7 else entry (vm_mem s) b j).
  { intros b j Hb Hj. rewrite entry_set_entry, entry_fill_table by done.
    rewrite (lor7_u32 _ Hpt). case_decide; [done|]. case_decide; [|done].
    rewrite (u32_small ((t * 1024 + j) * 4096)) by (unfold is_u32; lia). apply lor7_u32.
    split; [lia|word]. }
  constructor; cbn [page_direc vm_pmm vm_mem cr0 on_mem set_pmm]; rewrite ?Hd.
  - reflexivity.
  - rewrite Hfp. unfold table_at. lia.
  - intros k Hk. rewrite Hent by done. destruct (decide (t = k)) as [->|].
    + rewrite decide_True by done. by replace (k <? k + 1) with true by lia.
    + rewrite decide_False, decide_False, Hpde by naive_solver.
      by replace (k <? t + 1) with (k <? t) by lia.
  - intros k j Hk Hj. assert (Hpk : is_page (table_at pd k)).
    { apply table_at_page; [done|lia|unfold table_at in *; lia]. }
    rewrite Hent by done. rewrite decide_False by (unfold table_at; lia).
    destruct (decide (t = k)) as [->|].
    + by rewrite decide_True.
    + rewrite decide_False by (unfold table_at; lia). apply Hpte; lia.
  - done.
  - intros a Ha Hlt. rewrite rd8_set_entry, rd8_fill_table by (done || unfold table_at, is_page in *; word). by apply Hlow.
  - cbn [snd] in Hkm. congruence.
  - intros Hb Ho. cbn [snd] in Hka. unfold table_at in *. apply Hka; [|lia| |apply Harr; [lia|exact Ho]]; rewrite Hf.
    + unfold is_page, is_u32 in *. lia.
    + lia.
Qed.

(** The state [init_paging] reaches, for a bump allocator that has room below
    4 GiB for the directory and the tables. *)
Lemma init_paging_inv s :
  is_u32 (free_mem_addr (vm_pmm s)) -> is_u32 (total_memory (vm_pmm s)) ->
  free_mem_addr (vm_pmm s) + 4096 * (required_pdes (total_memory (vm_pmm s)) + 3) <= 0xFFFFE000 ->
  exists pd, is_page pd /\ free_mem_addr (vm_pmm s) <= pd < free_mem_addr (vm_pmm s) + 4096 /\
    identity_inv s pd (Z.lor (cr0 s) 0x80000000) (required_pdes (total_memory (vm_pmm s))) (init_paging s) /\
    cr3 (init_paging s) = pd.
Proof.
  intros Hf Ht Hw. unfold init_paging.
  pose proof (kmalloc_a_cases 4096 (vm_pmm s) Hf) as Hk.
  assert (Htot : total_memory (snd (kmalloc_a 4096 (vm_pmm s))) = total_memory (vm_pmm s)).
  { unfold kmalloc_a. apply (same_fields_mark (align_up (free_mem_addr (vm_pmm s))) 4096
      (add_allocated 4096 (set_free_mem (align_up (free_mem_addr (vm_pmm s)) + 4096) (vm_pmm s)))). }
  assert (Hreq : 0 <= required_pdes (total_memory (vm_pmm s)) <= 1024).
  { unfold required_pdes. cbv zeta. case_bool_decide as E; [lia|]. split; [|lia].
    apply Z.div_pos; [apply u32_range|lia]. }
  pose proof (kmalloc_a_max 4096 (vm_pmm s)) as Hkm. pose proof (in_array_kmalloc_a 4096 (vm_pmm s) Hf) as Hka.
  destruct (kmalloc_a 4096 (vm_pmm s)) as [pd p]. cbn [snd] in Htot, Hkm, Hka.
  destruct Hk as (Hm & Hr & Hfp & _); [lia|lia|]. unfold get_total_memory. cbn [vm_pmm on_mem].
  rewrite Htot. revert Hreq Hw. generalize (required_pdes (total_memory (vm_pmm s))). intros n Hn Hw.
  assert (Hpd : is_page pd) by (unfold is_page, is_u32 in *; lia).
  exists pd. split; [done|]. split; [done|].
  set (s0 := on_mem _ _). assert (Hinv0 : identity_inv s pd (cr0 s) 0 s0).
  { constructor; unfold s0; cbn [page_direc vm_pmm vm_mem cr0 on_mem].
    - done.
    - rewrite Hfp. unfold table_at. lia.
    - intros k Hk. rewrite entry_fill_table by done. rewrite decide_True by done.
      by replace (k <? 0) with false by lia.
    - lia.
    - done.
    - intros a Ha Hlt. apply rd8_fill_table; [done|done|]. unfold is_page in *. word.
    - done.
    - intros Hb Ho. unfold table_at in Hb. apply Hka; [lia|lia|exact Ho]. }
  clearbody s0.
  assert (Hinv : identity_inv s pd (cr0 s) n (for_ 0 n identity_table s0)).
  { apply (for_inv (identity_inv s pd (cr0 s))); [lia|done|]. intros i t Hi Ht'.
    apply identity_inv_step; [done|lia|unfold table_at; lia|done]. }
  destruct Hinv as [H1 H2 H3 H4 H5 H6 H7 H8]. split; [|done]. constructor; cbn; [done..| |done|done|done]. by rewrite H5.
Qed.

Lemma init_paging_translate s va :
  is_u32 (free_mem_addr (vm_pmm s)) -> is_u32 (total_memory (vm_pmm s)) ->
  free_mem_addr (vm_pmm s) + 4096 * (required_pdes (total_memory (vm_pmm s)) + 3) <= 0xFFFFE000 ->
  is_u32 va ->
  translate (init_paging s) va =
    if va <? required_pdes (total_memory (vm_pmm s)) * 0x400000 then Some va else None.
Proof.
  intros Hf Ht Hw Hva.
  destruct (init_paging_inv s Hf Ht Hw) as (pd & Hpd & Hr & [Hd _ Hpde Hpte Hc _ _ _] & Hc3).
  revert Hw Hpde Hpte. generalize (required_pdes (total_memory (vm_pmm s))). intros n Hw Hpde Hpte.
  rewrite translate_pte; [|split; [rewrite Hc|by rewrite Hc3, Hd]|by rewrite Hd].
  2:{ rewrite bit_lor. change (bit 0x80000000 31) with true. apply orb_true_r. }
  pose proof (pd_index_range va Hva) as Hi. pose proof (pt_index_range va) as Hj.
  unfold pte_entry, pte_of, pde_of. rewrite Hd, Hpde by done.
  assert (Hcmp : (va <? n * 0x400000) = (pd_index va <? n)).
  { rewrite pd_index_div. apply eq_bool_prop_intro. rewrite !Is_true_true. word. }
  rewrite Hcmp. destruct (pd_index va <? n) eqn:E; [|reflexivity].
  assert (Htp : is_page (table_at pd (pd_index va))).
  { apply table_at_page; [done|lia|unfold table_at; lia]. }
  rewrite present_lor by done. cbn [negb]. rewrite table_of_flags by (done || lia).
  rewrite Hpte by lia. assert (Hpg : is_page ((pd_index va * 1024 + pt_index va) * 4096)).
  { unfold is_page. split; [lia|word]. }
  rewrite present_lor, table_of_flags by (done || lia). f_equal.
  rewrite pd_index_div, pt_index_mod. word.
Qed.

(** after [init_paging] the processor translates every address below the
    mapped size (a multiple of 4 MiB covering the detected memory) to itself
    and faults on every other one: the kernel keeps running where it was. *)
Theorem init_paging_identity s va :
  is_u32 (free_mem_addr (vm_pmm s)) -> is_u32 (total_memory (vm_pmm s)) ->
  free_mem_addr (vm_pmm s) + 4096 * (required_pdes (total_memory (vm_pmm s)) + 3) <= 0xFFFFE000 ->
  is_u32 va ->
  translate (init_paging s) va =
    if va <? required_pdes (total_memory (vm_pmm s)) * 0x400000 then Some va else None.
Proof. apply init_paging_translate. Qed.

(** the boot order (paging first, then the frame allocator) establishes the
    page-table invariant that [map_page] relies on: when [init_pmm] runs on
    the allocator [init_paging] leaves, the directory and all its tables are
    distinct frames marked used; and when no usable region reaches past the
    mapped size they and every frame the allocator can hand out are mapped to
    themselves. *)
Theorem init_paging_tables_ok {St} `{AddrSpace St} fuel (x : St) mbd s es p :
  let n := required_pdes (total_memory (vm_pmm s)) in
  4096 <= free_mem_addr (vm_pmm s) -> is_u32 (total_memory (vm_pmm s)) ->
  free_mem_addr (vm_pmm s) + 4096 * (n + 3) <= Z.min 0x40000000 (n * 0x400000) ->
  0 <= max_frames (vm_pmm (init_paging s)) <= n * 1024 ->
  (forall e, e ∈ es -> usable e -> first_frame e + num_frames e <= n * 1024) ->
  valid_map fuel x mbd es -> init_pmm fuel x mbd (vm_pmm (init_paging s)) = Done p ->
  tables_ok (set_pmm p (init_paging s)).
Proof.
  intros n Hf Ht Hw Hmax Hreg Hv Hp. subst n.
  destruct (init_pmm_outcome fuel x mbd (vm_pmm (init_paging s)) es Hv (proj1 Hmax)) as (p' & Hp' & _ & Hused).
  rewrite Hp in Hp'. injection Hp' as <-.
  pose proof (init_pmm_max fuel x mbd _ es p _ Hv Hp (proj2 Hmax) Hreg) as Hmx.
  pose proof (fun va => init_paging_translate s va ltac:(unfold is_u32; lia) Ht ltac:(lia)) as Htr.
  assert (Hn : 0 <= required_pdes (total_memory (vm_pmm s)) <= 1024).
  { unfold required_pdes. cbv zeta. case_bool_decide; [lia|]. split; [|lia].
    apply Z.div_pos; [apply u32_range|lia]. }
  destruct (init_paging_inv s) as (pd & Hpd & Hr & [Hd Hfree Hpde Hpte Hc _ _ _] & Hc3);
    [unfold is_u32; lia|done|lia|].
  revert Hw Hn Hpde Hpte Hfree Hmx Htr. clear Hreg Hmax. generalize (required_pdes (total_memory (vm_pmm s))).
  intros n Hw Hn Hpde Hpte Hfree Hmx Htr. unfold kernel_frames in Hused. rewrite Hfree in Hused.
  assert (Hlow : forall b, in_ram b -> b < table_at pd n -> used p (b / 4096) = true).
  { intros b [[Hb Hbm] Hb'] Hlt. destruct (used p (b / 4096)) eqn:E; [done|].
    destruct (Hused (b / 4096) ltac:(unfold tracked; word)) as [[Hx _] _].
    destruct (Hx E) as (_ & Hk & _).
    rewrite u32_small in Hk by (unfold is_u32, table_at in *; lia). unfold table_at in *. word. }
  assert (Hdir : in_ram pd) by (unfold in_ram, table_at in *; split; [done|lia]).
  assert (Hent : forall i, 0 <= i < 1024 ->
    present (entry (vm_mem (init_paging s)) pd i) = true ->
    i < n /\ table_of (entry (vm_mem (init_paging s)) pd i) = table_at pd i).
  { intros i Hi. rewrite Hpde by done. destruct (i <? n) eqn:E; [|done]. intros _. split; [lia|].
    apply table_of_flags; [|lia]. apply table_at_page; [done|lia|unfold table_at; lia]. }
  assert (Hram : forall i, 0 <= i < n -> in_ram (table_at pd i)).
  { intros i Hi. split; [apply table_at_page; [done|lia|]|]; unfold table_at; unfold is_page in *; lia. }
  split.
  2:{ intros g Hg a Ha. change (translate (init_paging s) a = Some a).
      assert (Hgn : 0 <= g < n * 1024).
      { destruct Hg as [[Hg|(i & Hi & Hpi & Hg)]|(Hg1 & Hg2 & _)]; cbn [page_direc vm_pmm vm_mem set_pmm] in *.
        - rewrite Hd in Hg. unfold table_at, is_page in *. word.
        - rewrite Hd in Hpi, Hg. destruct (Hent i Hi Hpi) as [Hin Htt]. rewrite Htt in Hg.
          unfold table_at, is_page in *. word.
        - unfold tracked in Hg1. lia. }
      rewrite Htr by (unfold is_u32; word). by replace (a <? n * 0x400000) with true by word. }
  constructor; cbn [page_direc vm_pmm vm_mem set_pmm]; rewrite ?Hd.
  - done.
  - apply Hlow; [done|unfold table_at; lia].
  - intros i Hi Hpi. destruct (Hent i Hi Hpi) as [Hin ->].
    pose proof (Hram i ltac:(lia)) as Hr'.
    split_and!; [exact Hr'|apply Hlow; [exact Hr'|unfold table_at; lia]|unfold table_at; lia].
  - intros i j Hi Hj Hpi Hpj. destruct (Hent i Hi Hpi) as [_ ->], (Hent j Hj Hpj) as [_ ->].
    unfold table_at. lia.
  - destruct (used p 0) eqn:E; [done|].
    destruct (Hused 0 ltac:(unfold tracked; lia)) as [[Hx _] _]. by destruct (Hx E).
Qed.

(** ** Witnesses *)

(** The directory is frame 1.  Its first entry points at the table in frame 4,
    which maps the first 4 MiB to themselves; its entry for 0x40000000 at the
    table in frame 2, whose first entry points at frame 3. *)
Definition demo_pmm : pmm := {|
  free_mem_addr := 0x5000; total_memory := 0x10000; allocated_memory := 0;
  mem_bitmap := {[0 := 0x1F]}; max_frames := 16; bitmap_escaped := false |}.

Definition demo_mem : mem :=
  set_entry 0x2000 0 0x3007 (set_entry 0x1000 0x100 0x2007 (set_entry 0x1000 0 0x4007
    (fill_table 0x4000 (fun p => Z.lor (p * 4096) 7) ∅))).

Definition demo_vm : vm := {|
  vm_mem := demo_mem; vm_pmm := demo_pmm; page_direc := 0x1000; cr3 := 0x1000; cr0 := 0x80000000 |}.

Lemma entry_empty b i : entry ∅ b i = 0.
Proof. unfold entry, rd32, rd8. by rewrite !lookup_empty. Qed.

Lemma demo_dir i : 0 <= i < 1024 ->
  entry (vm_mem demo_vm) 0x1000 i =
    if decide (i = 0x100) then 0x2007 else if decide (i = 0) then 0x4007 else 0.
Proof.
  intros Hi. unfold demo_vm, demo_mem. cbn [vm_mem].
  rewrite !entry_set_entry, entry_fill_table, entry_empty by (done || (unfold is_page; split; [lia|done])).
  rewrite (decide_False (P := 0x2000 = 0x1000 /\ _)) by (intros [? _]; done).
  repeat case_decide; try reflexivity; naive_solver.
Qed.

Lemma demo_low j : 0 <= j < 1024 -> entry (vm_mem demo_vm) 0x4000 j = Z.lor (j * 4096) 7.
Proof.
  intros Hj. unfold demo_vm, demo_mem. cbn [vm_mem].
  rewrite !entry_set_entry, entry_fill_table by (done || (unfold is_page; split; [lia|done])).
  rewrite !decide_False by (intros [? _]; done). rewrite decide_True by done.
  apply u32_small. rewrite lor_flags; [unfold is_u32; lia|word|lia].
Qed.

Lemma demo_tables_wf : tables_wf demo_vm.
Proof.
  assert (Hp : forall i, 0 <= i < 1024 -> present (entry (vm_mem demo_vm) 0x1000 i) = true -> i = 0x100 \/ i = 0).
  { intros i Hi. rewrite demo_dir by done. repeat case_decide; auto; done. }
  constructor; change (page_direc demo_vm) with 0x1000.
  - vm_compute. split; [split; [split; discriminate|reflexivity]|split; congruence].
  - reflexivity.
  - intros i Hi Hpi. destruct (Hp i Hi Hpi) as [-> | ->];
      vm_compute; split_and!; try congruence; try reflexivity; discriminate.
  - intros i j Hi Hj Hpi Hpj.
    destruct (Hp i Hi Hpi) as [-> | ->], (Hp j Hj Hpj) as [-> | ->]; (reflexivity || (vm_compute; discriminate)).
  - reflexivity.
Qed.

Lemma demo_ident g : 0 <= g < 1024 -> ident demo_vm g.
Proof.
  intros Hg. assert (Hd : is_page (page_direc demo_vm)) by apply demo_tables_wf.
  assert (Hpg : is_page (g * 4096)) by (unfold is_page; split; [lia|word]).
  assert (Hi : pd_index (g * 4096) = 0) by (rewrite pd_index_div; word).
  assert (Hj : pt_index (g * 4096) = g) by (rewrite pt_index_mod; word).
  assert (Hpte : pte_entry demo_vm (g * 4096) = Z.lor (g * 4096) 7).
  { unfold pte_entry, pte_of, pde_of. rewrite Hi, Hj. change (page_direc demo_vm) with 0x1000.
    rewrite demo_dir, decide_False, decide_True by lia.
    change (present 0x4007) with true. change (table_of 0x4007) with 0x4000. by apply demo_low. }
  apply ident_pte; [exact (conj eq_refl eq_refl)|exact Hd| |]; rewrite Hpte.
  - exact (present_lor (g * 4096) 7 eq_refl).
  - exact (table_of_flags (g * 4096) 7 Hpg ltac:(lia)).
Qed.

Lemma demo_kernel_frame g : kernel_frame demo_vm g -> 0 <= g < 1024.
Proof.
  intros [[->|(i & Hi & Hp & <-)]|(Ht & Hm & _)].
  - by vm_compute.
  - change (page_direc demo_vm) with 0x1000 in *. revert Hp. rewrite demo_dir by done.
    repeat case_decide; intros Hp; [vm_compute; split; congruence..|done].
  - change (max_frames (vm_pmm demo_vm)) with 16 in Hm. unfold tracked in Ht. lia.
Qed.

Lemma demo_tables_ok : tables_ok demo_vm.
Proof. split; [exact demo_tables_wf|]. intros g Hg. by apply demo_ident, demo_kernel_frame. Qed.

Lemma demo_mmu_on : mmu_on demo_vm.
Proof. exact (conj eq_refl eq_refl). Qed.

(** The user page's frame, 3, holds no table. *)
Lemma demo_data_page : is_page 0x3000.
Proof. by vm_compute. Qed.

Lemma demo_not_table : ~ table_frame demo_vm (0x3000 / 4096).
Proof.
  intros [E|(i & Hi & Hp & E)]; [discriminate E|]. change (page_direc demo_vm) with 0x1000 in *.
  revert Hp E. rewrite demo_dir by exact Hi.
  repeat case_decide; intros Hp E; [discriminate E|discriminate E|discriminate Hp].
Qed.

Lemma demo_not_kernel va : 0x400000 <= va -> ~ kernel_frame demo_vm (va / 4096).
Proof. intros Hva Hk. apply demo_kernel_frame in Hk. word. Qed.

Lemma map_page_spec_witness :
  exists s', (exists o, map_page 0x5000 0x40001000 7 demo_vm = Done (tt, s', o)) /\
    translate s' 0x40001234 = Some 0x5234 /\ pte_entry s' 0x40001000 = 0x5007.
Proof.
  destruct (wp_inv _ _ _ (map_page_spec demo_vm 0x5000 0x40001000 7 demo_tables_ok
    (conj eq_refl eq_refl) (demo_not_kernel 0x40001000 ltac:(lia)) ltac:(vm_compute; split; congruence)
    ltac:(vm_compute; split; [split; congruence|reflexivity]) ltac:(lia))) as ([] & s' & o & E & H).
  exists s'. split; [exists o; exact E|].
  destruct H as [(_ & _ & _ & Ht & _)|(Hp & _)].
  - split; [apply (Ht 0x40001234); reflexivity|]. apply (Ht 0x40001000). reflexivity.
  - vm_compute in Hp. discriminate Hp.
Defined.

Lemma validate_user_region_spec_witness :
  validate_user_region demo_vm 0x40000010 100 = Done 1.
Proof.
  destruct (validate_user_region_spec demo_vm 0x40000010 100) as (r & Hr & _ & Hiff);
    [exact (ok_mapped _ demo_tables_ok)|vm_compute; split; congruence|vm_compute; split; congruence|].
  rewrite Hr. f_equal. apply Hiff. right. split; [lia|]. split; [lia|].
  intros k Hk Hlt. assert (k = 0) as -> by lia. vm_compute. reflexivity.
Defined.

Lemma validate_user_region_sound_witness :
  validate_user_region demo_vm 0x40000000 4096 = Done 1 /\
  is_Some (translate demo_vm 0x40000FFF).
Proof.
  assert (Hv : validate_user_region demo_vm 0x40000000 4096 = Done 1) by (vm_compute; reflexivity).
  split; [exact Hv|].
  apply (validate_user_region_sound demo_vm 0x40000000 4096 0x40000FFF demo_tables_ok
    (conj eq_refl eq_refl)); [vm_compute; split; congruence|vm_compute; split; congruence|exact Hv
    |vm_compute; reflexivity|lia].
Defined.

Lemma validate_user_region_gap_witness :
  validate_user_region demo_vm 0x40000FFF 2 = Done 1 /\ translate demo_vm 0x40001000 = None.
Proof.
  split; [|vm_compute; reflexivity].
  apply (validate_user_region_gap demo_vm 0x40000FFF 2);
    [exact (ok_mapped _ demo_tables_ok)|vm_compute; split; congruence|vm_compute; split; congruence
    |lia|lia|lia|vm_compute; congruence|].
  intros b Hb. rewrite (user_ok_page demo_vm b 0x40000000); [vm_compute; reflexivity|].
  change ((0x40000FFF + 2 - 1) / 4096 * 4096) with 0x40001000 in Hb. word.
Defined.

(** A kernel booting with 4 MiB detected. *)
Definition boot_vm : vm := {|
  vm_mem := ∅; vm_pmm := {| free_mem_addr := 0x20000C; total_memory := 0x400000;
    allocated_memory := 12; mem_bitmap := ∅; max_frames := 0; bitmap_escaped := false |};
  page_direc := 0; cr3 := 0; cr0 := 0x11 |}.

Lemma init_paging_identity_witness :
  translate (init_paging boot_vm) 0xB8000 = Some 0xB8000 /\
  translate (init_paging boot_vm) 0x400000 = None.
Proof.
  split; rewrite (init_paging_identity boot_vm);
    (reflexivity || (vm_compute; split; congruence) || (vm_compute; congruence)).
Defined.

Lemma init_paging_tables_ok_witness :
  exists p, init_pmm 2 one_region_mem 64 (vm_pmm (init_paging boot_vm)) = Done p /\
    tables_ok (set_pmm p (init_paging boot_vm)).
Proof.
  eexists. split; [apply (init_pmm_eq 2 one_region_mem 64 _ _ one_region_valid)|].
  apply (init_paging_tables_ok 2 one_region_mem 64 boot_vm [one_region]).
  - vm_compute. congruence.
  - vm_compute. split; congruence.
  - vm_compute. congruence.
  - vm_compute. split; congruence.
  - intros e He _. apply list_elem_of_singleton in He as ->. vm_compute. congruence.
  - exact one_region_valid.
  - apply (init_pmm_eq 2 one_region_mem 64 _ _ one_region_valid).
Defined.
