(* ===== verification/Process.v ===== *)
(** * process.c and scheduler.c: process structures and the ready queue

    The process structures live in a heap [procs_heap] from the address of a
    structure to its contents; the queue is linked through [next], as in the
    code, with 0 for NULL.  [struct regs] and the descriptor table are part of
    the structure. *)
From stdpp Require Import base numbers list gmap.
From Stdlib Require Import ZArith Lia ZifyBool String.
From S2P Require Import Prelude.

(** ** regs.h, process.h *)
Record regs := {
  r_edi : Z; r_esi : Z; r_ebp : Z; r_esp : Z;
  r_ebx : Z; r_edx : Z; r_ecx : Z; r_eax : Z;
}.

Definition regs0 : regs := {|
  r_edi := 0; r_esi := 0; r_ebp := 0; r_esp := 0; r_ebx := 0; r_edx := 0; r_ecx := 0; r_eax := 0 |}.

Definition PROC_MAX_FDS : Z := 8.

Inductive fd_type_t : Type := FD_TYPE_NONE | FD_TYPE_STUDIO | FD_TYPE_FAT16.

Record fd_entry := { fd_type : fd_type_t; fd_name8 : list Z; fd_ext3 : list Z; fd_offset : Z }.

Definition fd_entry0 : fd_entry :=
  {| fd_type := FD_TYPE_NONE; fd_name8 := replicate 9 0; fd_ext3 := replicate 4 0; fd_offset := 0 |}.

Inductive proc_state : Type :=
| PROC_NEW | PROC_READY | PROC_RUNNING | PROC_BLOCKED | PROC_EXITED.

#[global] Instance fd_type_eq_dec : EqDecision fd_type_t.
Proof. solve_decision. Defined.
#[global] Instance proc_state_eq_dec : EqDecision proc_state.
Proof. solve_decision. Defined.
#[global] Instance regs_eq_dec : EqDecision regs.
Proof. solve_decision. Defined.

Record process := {
  pid : Z; state : proc_state; p_entry : Z; esp : Z; user_stack_top : Z;
  p_regs : regs; saved_eip : Z; kernel_stack : Z; page_dir : Z; next : Z;
  fds : list fd_entry;
}.

(** A zeroed structure. *)
Definition process0 : process := {|
  pid := 0; state := PROC_NEW; p_entry := 0; esp := 0; user_stack_top := 0;
  p_regs := regs0; saved_eip := 0; kernel_stack := 0; page_dir := 0; next := 0;
  fds := replicate 8 fd_entry0 |}.

Definition set_next (n : Z) (p : process) : process := {|
  pid := pid p; state := state p; p_entry := p_entry p; esp := esp p;
  user_stack_top := user_stack_top p; p_regs := p_regs p; saved_eip := saved_eip p;
  kernel_stack := kernel_stack p; page_dir := page_dir p; next := n; fds := fds p |}.

Definition set_state (st : proc_state) (p : process) : process := {|
  pid := pid p; state := st; p_entry := p_entry p; esp := esp p;
  user_stack_top := user_stack_top p; p_regs := p_regs p; saved_eip := saved_eip p;
  kernel_stack := kernel_stack p; page_dir := page_dir p; next := next p; fds := fds p |}.

(** ** The globals of process.c *)
Record procs := {
  procs_heap : gmap Z process;
  curr_proc : Z;
  ready_head : Z;
  ready_tail : Z;
  next_pid : Z;
}.

Definition procs0 : procs :=
  {| procs_heap := ∅; curr_proc := 0; ready_head := 0; ready_tail := 0; next_pid := 1 |}.

(** [*p] and [p->field = ...] *)
Definition deref (s : procs) (p : Z) : process := default process0 (procs_heap s !! p).

Definition update (p : Z) (f : process -> process) (s : procs) : procs := {|
  procs_heap := <[p := f (deref s p)]> (procs_heap s); curr_proc := curr_proc s;
  ready_head := ready_head s; ready_tail := ready_tail s; next_pid := next_pid s |}.

Definition set_curr (p : Z) (s : procs) : procs := {|
  procs_heap := procs_heap s; curr_proc := p;
  ready_head := ready_head s; ready_tail := ready_tail s; next_pid := next_pid s |}.

Definition set_queue (h t : Z) (s : procs) : procs := {|
  procs_heap := procs_heap s; curr_proc := curr_proc s;
  ready_head := h; ready_tail := t; next_pid := next_pid s |}.

Definition set_next_pid (n : Z) (s : procs) : procs := {|
  procs_heap := procs_heap s; curr_proc := curr_proc s;
  ready_head := ready_head s; ready_tail := ready_tail s; next_pid := u32 n |}.

(** ** The queue *)
Definition queue_push (p : Z) (s : procs) : procs :=
  if bool_decide (p = 0) then s else
  let s := update p (set_next 0) s in
  if bool_decide (ready_head s = 0) then set_queue p p s
  else
    let s := update (ready_tail s) (set_next p) s in
    set_queue (ready_head s) p s.

Definition queue_pop (s : procs) : Z * procs :=
  let p := ready_head s in
  if bool_decide (p = 0) then (0, s) else
  let h := next (deref s p) in
  let s := set_queue h (if bool_decide (h = 0) then 0 else ready_tail s) s in
  (p, update p (set_next 0) s).

Definition process_init (s : procs) : procs := {|
  procs_heap := procs_heap s; curr_proc := 0; ready_head := 0; ready_tail := 0; next_pid := 1 |}.

Definition get_curr_proc (s : procs) : Z := curr_proc s.

Definition proc_next_ready (s : procs) : Z := ready_head s.

(** [while (p) { if (p->pid == pid) return p; p = p->next; }] *)
Fixpoint find_pid (fuel : nat) (s : procs) (n p : Z) : outcome (option Z) :=
  match fuel with
  | O => Spin
  | S fuel' =>
      if bool_decide (p = 0) then Done None
      else if bool_decide (pid (deref s p) = n) then Done (Some p)
      else find_pid fuel' s n (next (deref s p))
  end.

Definition get_proc_by_pid (fuel : nat) (n : Z) (s : procs) : outcome Z :=
  r ← find_pid fuel s n (ready_head s);
  match r with
  | Some p => Done p
  | None =>
      if bool_decide (curr_proc s <> 0 /\ pid (deref s (curr_proc s)) = n)
      then Done (curr_proc s) else Done 0
  end.

Definition proc_enqueue (p : Z) (s : procs) : procs :=
  if bool_decide (p = 0) then s else queue_push p (update p (set_state PROC_READY) s).

Definition proc_dequeue (s : procs) : Z * procs :=
  let '(n, s) := queue_pop s in
  if bool_decide (n = 0) then (0, s)
  else (n, set_curr n (update n (set_state PROC_RUNNING) s)).

Definition proc_yield (s : procs) : procs :=
  if bool_decide (curr_proc s = 0) then s else
  let s := queue_push (curr_proc s) (update (curr_proc s) (set_state PROC_READY) s) in
  let '(n, s) := queue_pop s in
  if bool_decide (n = 0) then set_curr 0 s
  else set_curr n (update n (set_state PROC_RUNNING) s).

(** ** scheduler.c

    [schedule] picks the next process and enters it: the result is the stack
    and entry it passes to [jump_to_usermode], or [None] when it returns. *)
Definition schedule : M procs (option (Z * Z)) :=
  s ← mget;
  let curr := get_curr_proc s in
  (if bool_decide (curr <> 0 /\ state (deref s curr) = PROC_RUNNING)
   then mmodify (proc_enqueue curr) else mret tt);;
  s ← mget;
  let '(n, s) := proc_dequeue s in
  mput s;;
  if bool_decide (n = 0) then mret None else
  emit (Print (str "[sched] switching to pid="));; emit (PrintInt (i32 (pid (deref s n))));;
  emit (Print (str " entry=0x"));; emit (PrintHex (p_entry (deref s n)));; emit (Print [10]);;
  let p := deref s n in
  mret (Some (if bool_decide (user_stack_top p <> 0) then user_stack_top p else esp p, p_entry p)).

Definition yeild_kernel : M procs (option (Z * Z)) := schedule.
