(* ===== verification/ProcessSpec.v ===== *)
(** * Properties of the ready queue and the scheduler

    The linked queue refines a list of processes, the scheduler a pair of the
    running process and that list. *)
From stdpp Require Import base numbers list gmap.
From Stdlib Require Import ZArith Lia ZifyBool.
From S2P Require Import Prelude Process.

(** ** The heap *)
Lemma deref_update p f s q :
  deref (update p f s) q = if decide (q = p) then f (deref s p) else deref s q.
Proof.
  unfold deref, update. cbn [procs_heap]. case_decide as E.
  - subst. by rewrite lookup_insert_eq.
  - by rewrite lookup_insert_ne by congruence.
Qed.

Lemma deref_update_ne p f s q : q <> p -> deref (update p f s) q = deref s q.
Proof. intros. rewrite deref_update. by rewrite decide_False. Qed.

Lemma deref_update_eq p f s : deref (update p f s) p = f (deref s p).
Proof. rewrite deref_update. by rewrite decide_True. Qed.

(** ** The queue as a list *)
Fixpoint linked (s : procs) (p : Z) (l : list Z) : Prop :=
  match l with
  | [] => p = 0
  | x :: l' => p = x /\ x <> 0 /\ linked s (next (deref s x)) l'
  end.

(** The queue of [s] holds the processes [l], first to last. *)
Record queue_is (s : procs) (l : list Z) : Prop := {
  q_linked : linked s (ready_head s) l;
  q_tail : ready_tail s = default 0 (last l);
  q_nodup : NoDup l;
}.

Lemma linked_ext s s' p l :
  (forall x, x ∈ l -> next (deref s' x) = next (deref s x)) -> linked s p l -> linked s' p l.
Proof.
  revert p. induction l as [|x l IH]; intros p Hx; simpl; [done|].
  intros (-> & Hnz & Hl). split_and!; [done..|]. rewrite Hx by set_solver.
  apply IH; [set_solver|done].
Qed.

Lemma linked_nonzero s p l x : linked s p l -> x ∈ l -> x <> 0.
Proof.
  revert p. induction l as [|y l IH]; intros p; simpl; [set_solver|].
  intros (_ & Hy & Hl) [->|Hx]%elem_of_cons; eauto.
Qed.

(** Linking [p] behind the last element. *)
Lemma linked_snoc s l h t p :
  linked s h (l ++ [t]) -> NoDup (l ++ [t]) -> p <> 0 -> p ∉ l ++ [t] -> next (deref s p) = 0 ->
  linked (update t (set_next p) s) h ((l ++ [t]) ++ [p]).
Proof.
  revert h. induction l as [|x l IH]; intros h; simpl.
  - intros (-> & Ht & _) _ Hp Hin Hn. split_and!; [done|done|by rewrite deref_update_eq|done|].
    by rewrite deref_update_ne by set_solver.
  - intros (-> & Hx & Hl) [Hnx Hnd]%NoDup_cons Hp Hin Hn. split_and!; [done..|].
    rewrite deref_update_ne by (intros ->; set_solver).
    apply IH; [done..|set_solver|done].
Qed.

Lemma queue_push_is s l p :
  queue_is s l -> p <> 0 -> p ∉ l -> queue_is (queue_push p s) (l ++ [p]).
Proof.
  intros [Hl Ht Hnd] Hp Hin. unfold queue_push. rewrite bool_decide_false by done.
  set (s1 := update p (set_next 0) s).
  assert (Hl1 : linked s1 (ready_head s) l).
  { apply (linked_ext s); [|done]. intros x Hx. unfold s1. by rewrite deref_update_ne by set_solver. }
  assert (Hn1 : next (deref s1 p) = 0) by (unfold s1; by rewrite deref_update_eq).
  assert (Hnd' : NoDup (l ++ [p])) by (apply NoDup_app; split_and!; [done|set_solver|by apply NoDup_singleton]).
  change (ready_head s1) with (ready_head s). change (ready_tail s1) with (ready_tail s).
  destruct l as [|x l _] using rev_ind.
  - simpl in Hl1. rewrite Hl1, bool_decide_true by done.
    constructor; simpl; [|done|done]. by split_and!.
  - assert (Hhd : ready_head s <> 0).
    { destruct l; simpl in Hl; destruct Hl as (-> & ? & _); done. }
    rewrite bool_decide_false by done. rewrite last_snoc in Ht. simpl in Ht. rewrite Ht.
    constructor; [|by rewrite last_snoc|done].
    apply (linked_ext (update x (set_next p) s1)); [done|]. by apply linked_snoc.
Qed.

Lemma queue_pop_is s x l :
  queue_is s (x :: l) ->
  fst (queue_pop s) = x /\ x <> 0 /\ queue_is (snd (queue_pop s)) l /\
  next (deref (snd (queue_pop s)) x) = 0.
Proof.
  intros [Hl Ht Hnd]. simpl in Hl. destruct Hl as (Hh & Hx & Hl).
  unfold queue_pop. rewrite bool_decide_false by congruence. cbn [fst snd]. rewrite Hh.
  apply NoDup_cons in Hnd as [Hnx Hnd].
  split_and!; [done..| |by rewrite deref_update_eq]. constructor; [| |done].
  - cbn. apply (linked_ext s); [|done]. intros y Hy.
    rewrite deref_update_ne by set_solver. done.
  - cbn [ready_tail update set_queue]. destruct l as [|y l]; simpl in Hl.
    + rewrite Hl. by rewrite bool_decide_true.
    + destruct Hl as (-> & Hy & _). rewrite bool_decide_false by done. by rewrite Ht.
Qed.

Lemma queue_pop_empty s : queue_is s [] -> queue_pop s = (0, s).
Proof. intros [Hl _ _]. simpl in Hl. unfold queue_pop. by rewrite Hl, bool_decide_true. Qed.

(** What the queue operations leave alone in a process structure. *)
Definition same_but_next (p q : process) : Prop := set_next 0 p = set_next 0 q.

#[export] Instance same_but_next_equiv : Equivalence same_but_next.
Proof. split; [done| |]; unfold same_but_next; [by intros ??|by intros ??? -> ->]. Qed.

#[export] Instance state_proper : Proper (same_but_next ==> eq) state.
Proof. intros p q E. by apply (f_equal state) in E. Qed.
#[export] Instance pid_proper : Proper (same_but_next ==> eq) pid.
Proof. intros p q E. by apply (f_equal pid) in E. Qed.
#[export] Instance p_regs_proper : Proper (same_but_next ==> eq) p_regs.
Proof. intros p q E. by apply (f_equal p_regs) in E. Qed.
#[export] Instance saved_eip_proper : Proper (same_but_next ==> eq) saved_eip.
Proof. intros p q E. by apply (f_equal saved_eip) in E. Qed.
#[export] Instance esp_proper : Proper (same_but_next ==> eq) esp.
Proof. intros p q E. by apply (f_equal esp) in E. Qed.
#[export] Instance set_state_proper st : Proper (same_but_next ==> same_but_next) (set_state st).
Proof. intros p q E. by apply (f_equal (set_state st)) in E. Qed.

Lemma set_next_same n p : same_but_next (set_next n p) p.
Proof. done. Qed.

Lemma update_next_same p n s x : same_but_next (deref (update p (set_next n) s) x) (deref s x).
Proof. rewrite deref_update. case_decide; [subst; apply set_next_same|done]. Qed.

Lemma queue_push_same p s x : same_but_next (deref (queue_push p s) x) (deref s x).
Proof.
  unfold queue_push. case_bool_decide; [done|]. case_bool_decide.
  - apply (update_next_same p 0 s x).
  - etrans; [apply (update_next_same _ p (update p (set_next 0) s) x)|apply update_next_same].
Qed.

Lemma queue_pop_same s x : same_but_next (deref (snd (queue_pop s)) x) (deref s x).
Proof.
  unfold queue_pop. case_bool_decide; [done|]. cbn [snd].
  apply (update_next_same (ready_head s) 0 (set_queue _ _ s) x).
Qed.

(** ** The abstract scheduler *)

(** The process that runs and those that wait, first to last. *)
Record sched := { running : option Z; ready : list Z }.

(** Running process first. *)
Definition order (a : sched) : list Z := option_list (running a) ++ ready a.

Definition sched_enqueue (p : Z) (a : sched) : sched :=
  {| running := running a; ready := ready a ++ [p] |}.

Definition sched_dequeue (a : sched) : option Z * sched :=
  match ready a with
  | [] => (None, a)
  | x :: l => (Some x, {| running := Some x; ready := l |})
  end.

Definition sched_yield (a : sched) : sched :=
  match running a with
  | None => a
  | Some p => snd (sched_dequeue (sched_enqueue p a))
  end.

(** The concrete globals hold the abstract scheduler, and every structure's
    [state] field says where it is. *)
Record sched_rel (s : procs) (a : sched) : Prop := {
  sr_queue : queue_is s (ready a);
  sr_curr : curr_proc s = default 0 (running a);
  sr_nodup : NoDup (order a);
  sr_nonzero : forall p, p ∈ order a -> p <> 0;
  sr_ready : forall p, p ∈ ready a -> state (deref s p) = PROC_READY;
  sr_running : forall p, running a = Some p -> state (deref s p) = PROC_RUNNING;
}.

Lemma queue_is_ext s s' l :
  ready_head s' = ready_head s -> ready_tail s' = ready_tail s ->
  (forall x, next (deref s' x) = next (deref s x)) -> queue_is s l -> queue_is s' l.
Proof.
  intros Hh Ht Hn [Hl Hta Hnd]. constructor; [|by rewrite Ht|done].
  rewrite Hh. by apply (linked_ext s).
Qed.

Lemma queue_is_set_state s l p st :
  queue_is s l -> queue_is (update p (set_state st) s) l.
Proof.
  apply queue_is_ext; [done..|]. intros x. rewrite deref_update. by case_decide; subst.
Qed.

Lemma queue_push_curr p s : curr_proc (queue_push p s) = curr_proc s.
Proof. unfold queue_push. by repeat case_bool_decide. Qed.

Lemma queue_pop_curr s : curr_proc (snd (queue_pop s)) = curr_proc s.
Proof. unfold queue_pop. by case_bool_decide. Qed.

(** Putting [p] behind the queue, whatever the running process is. *)
Lemma enqueue_rel s a p r' :
  queue_is s (ready a) -> (forall x, x ∈ ready a -> state (deref s x) = PROC_READY) ->
  p <> 0 -> p ∉ ready a ->
  queue_is (proc_enqueue p s) (ready a ++ [p]) /\
  (forall x, x ∈ ready a ++ [p] -> state (deref (proc_enqueue p s) x) = PROC_READY) /\
  (forall x, x <> p -> r' = state (deref s x) -> state (deref (proc_enqueue p s) x) = r') /\
  curr_proc (proc_enqueue p s) = curr_proc s.
Proof.
  intros Hq Hr Hp Hin. unfold proc_enqueue. rewrite bool_decide_false by done.
  assert (Hst : forall x, state (deref (queue_push p (update p (set_state PROC_READY) s)) x) =
    if decide (x = p) then PROC_READY else state (deref s x)).
  { intros x. rewrite (queue_push_same _ _ x), deref_update. by case_decide. }
  split_and!.
  - by apply queue_push_is; [apply queue_is_set_state| |].
  - intros x Hx. rewrite Hst. case_decide; [done|]. apply Hr. set_solver.
  - intros x Hx ->. rewrite Hst. by case_decide.
  - by rewrite queue_push_curr.
Qed.

Lemma proc_enqueue_rel s a p :
  sched_rel s a -> p <> 0 -> p ∉ order a -> sched_rel (proc_enqueue p s) (sched_enqueue p a).
Proof.
  intros [Hq Hc Hnd Hnz Hr Hrun] Hp Hin. unfold order in *.
  destruct (enqueue_rel s a p PROC_RUNNING Hq Hr Hp) as (Hq' & Hr' & Hs' & Hc'); [set_solver|].
  constructor; unfold order; cbn [running ready sched_enqueue].
  - done.
  - by rewrite Hc'.
  - rewrite (assoc_L (++)). apply NoDup_app. split_and!; [done|set_solver|by apply NoDup_singleton].
  - set_solver.
  - done.
  - intros x Hx. apply Hs'; [|by rewrite Hrun]. intros ->. rewrite Hx in Hin. set_solver.
Qed.

(** Entering the first process of the queue. *)
Lemma dequeue_rel s x l :
  queue_is s (x :: l) -> NoDup (x :: l) -> (forall p, p ∈ x :: l -> p <> 0) ->
  (forall p, p ∈ x :: l -> state (deref s p) = PROC_READY) ->
  fst (proc_dequeue s) = x /\
  sched_rel (snd (proc_dequeue s)) {| running := Some x; ready := l |}.
Proof.
  intros Hq Hnd Hnz Hr. destruct (queue_pop_is s x l Hq) as (Hf & Hx & Hq' & _).
  pose proof (queue_pop_same s) as Hsame. unfold proc_dequeue.
  destruct (queue_pop s) as [n s1]. cbn [fst snd] in *. subst n.
  rewrite bool_decide_false by done. cbn [fst snd]. split; [done|].
  constructor; unfold order; cbn [running ready option_list app].
  - apply (queue_is_ext (update x (set_state PROC_RUNNING) s1)); [done..|].
    by apply queue_is_set_state.
  - done.
  - done.
  - done.
  - intros p Hp. change (deref (set_curr x ?s) p) with (deref s p).
    apply NoDup_cons in Hnd as [Hnx _]. rewrite deref_update_ne by set_solver.
    rewrite (Hsame p). apply Hr. set_solver.
  - intros p [= <-]. change (deref (set_curr x ?s) x) with (deref s x).
    by rewrite deref_update_eq.
Qed.

Lemma proc_dequeue_rel s a :
  sched_rel s a ->
  fst (proc_dequeue s) = default 0 (fst (sched_dequeue a)) /\
  sched_rel (snd (proc_dequeue s)) (snd (sched_dequeue a)).
Proof.
  intros Hrel. pose proof Hrel as [Hq Hc Hnd Hnz Hr _]. destruct a as [r [|x l]]; cbn in *.
  - unfold proc_dequeue. by rewrite (queue_pop_empty s Hq).
  - unfold order in *. cbn [running ready] in *. apply NoDup_app in Hnd as (_ & _ & Hnd).
    apply dequeue_rel; [done|done|set_solver|done].
Qed.

Lemma proc_yield_dequeue s p :
  curr_proc s = p -> p <> 0 -> fst (proc_dequeue (proc_enqueue p s)) <> 0 ->
  proc_yield s = snd (proc_dequeue (proc_enqueue p s)).
Proof.
  intros Hc Hp. unfold proc_yield, proc_dequeue, proc_enqueue. rewrite Hc.
  rewrite !(bool_decide_false (p = 0)) by done.
  destruct (queue_pop _) as [n s1]. case_bool_decide; done.
Qed.

Lemma enqueue_running_rel s p l :
  sched_rel s {| running := Some p; ready := l |} ->
  p <> 0 /\ queue_is (proc_enqueue p s) (l ++ [p]) /\ NoDup (l ++ [p]) /\
  (forall x, x ∈ l ++ [p] -> x <> 0) /\
  (forall x, x ∈ l ++ [p] -> state (deref (proc_enqueue p s) x) = PROC_READY).
Proof.
  intros [Hq Hc Hnd Hnz Hr _]. unfold order in *. cbn in *. apply NoDup_cons in Hnd as [Hin Hnd].
  destruct (enqueue_rel s {| running := None; ready := l |} p PROC_READY) as (? & ? & _ & _);
    [done|done|set_solver|done|].
  split_and!; [set_solver|done| |set_solver|done].
  apply NoDup_app. split_and!; [done|set_solver|apply NoDup_singleton].
Qed.

Lemma schedule_step_rel s p l :
  sched_rel s {| running := Some p; ready := l |} ->
  let a' := sched_yield {| running := Some p; ready := l |} in
  p <> 0 /\ Some (fst (proc_dequeue (proc_enqueue p s))) = running a' /\
  sched_rel (snd (proc_dequeue (proc_enqueue p s))) a'.
Proof.
  intros H. destruct (enqueue_running_rel _ _ _ H) as (Hp & Hq & Hnd & Hnz & Hr).
  cbn [sched_yield running]. unfold sched_dequeue, sched_enqueue. cbn [ready running].
  destruct (l ++ [p]) as [|x l'] eqn:E; [by destruct l|]. cbn [snd running ready].
  destruct (dequeue_rel _ x l' Hq Hnd Hnz Hr) as [-> ?]. done.
Qed.

Lemma proc_yield_rel s a : sched_rel s a -> sched_rel (proc_yield s) (sched_yield a).
Proof.
  destruct a as [[p|] l]; intros Hrel.
  - destruct (schedule_step_rel s p l Hrel) as (Hp & Hf & Hr').
    rewrite (proc_yield_dequeue s p); [done|apply (sr_curr _ _ Hrel)|done|].
    apply (sr_nonzero _ _ Hr'). unfold order. rewrite <- Hf. set_solver.
  - unfold proc_yield. rewrite bool_decide_true; [done|apply (sr_curr _ _ Hrel)].
Qed.

(** ** Properties *)

(** The operations of the scheduler's clients. *)
Inductive sched_op : Type := Enqueue (p : Z) | Dequeue | Yield.

Definition run_op (s : procs) (op : sched_op) : procs :=
  match op with
  | Enqueue p => proc_enqueue p s
  | Dequeue => snd (proc_dequeue s)
  | Yield => proc_yield s
  end.

Definition spec_op (a : sched) (op : sched_op) : sched :=
  match op with
  | Enqueue p => sched_enqueue p a
  | Dequeue => snd (sched_dequeue a)
  | Yield => sched_yield a
  end.

(** A client enqueues structures that are neither queued nor running. *)
Definition op_ok (a : sched) (op : sched_op) : Prop :=
  match op with Enqueue p => p <> 0 /\ p ∉ order a | _ => True end.

Fixpoint ops_ok (a : sched) (ops : list sched_op) : Prop :=
  match ops with [] => True | op :: ops' => op_ok a op /\ ops_ok (spec_op a op) ops' end.

Lemma run_op_rel s a op : sched_rel s a -> op_ok a op -> sched_rel (run_op s op) (spec_op a op).
Proof.
  intros Hr. destruct op as [p| |]; cbn.
  - intros [? ?]. by apply proc_enqueue_rel.
  - intros _. by apply proc_dequeue_rel.
  - intros _. by apply proc_yield_rel.
Qed.

(** C5: the ready queue of process.c implements the abstract scheduler: after any
    sequence of dequeues, yields and enqueues, each enqueue of a non-null
    structure that neither runs nor waits in the queue at that time, the linked
    structures, the queue pointers, curr_proc and every state field agree with
    the abstract pair of running process and FIFO list.  (Enqueuing a queued
    structure again links it to itself; the side condition is needed.) *)
Theorem sched_refines ops s a :
  sched_rel s a -> ops_ok a ops ->
  sched_rel (fold_left run_op ops s) (fold_left spec_op ops a).
Proof.
  revert s a. induction ops as [|op ops IH]; intros s a Hr; [done|]. cbn. intros [Hop Hops].
  apply IH; [|done]. by apply run_op_rel.
Qed.

Lemma sched_rel_init s : sched_rel (process_init s) {| running := None; ready := [] |}.
Proof.
  constructor; unfold order; cbn; [|done|constructor|set_solver|set_solver|done].
  constructor; cbn; [done|done|constructor].
Qed.

Lemma sched_refines_witness :
  sched_rel
    (fold_left run_op [Enqueue 0x1000; Enqueue 0x2000; Dequeue; Yield; Enqueue 0x3000; Yield]
       (process_init procs0))
    {| running := Some 0x1000; ready := [0x3000; 0x2000] |}.
Proof.
  apply (sched_refines [Enqueue 0x1000; Enqueue 0x2000; Dequeue; Yield; Enqueue 0x3000; Yield]
    (process_init procs0) {| running := None; ready := [] |}); [apply sched_rel_init|].
  cbn. unfold order; cbn. split_and!; try done; set_solver by lia.
Defined.

(** One yield rotates the order. *)
Lemma order_yield p l i :
  (i < S (length l))%nat ->
  order (sched_yield {| running := Some p; ready := l |}) !! i
  = (p :: l) !! (S i mod S (length l))%nat.
Proof.
  intros Hi. cbn [sched_yield running]. unfold sched_dequeue, sched_enqueue, order.
  cbn [ready running].
  assert (E : option_list (running (snd (match l ++ [p] with
      | [] => (None, {| running := Some p; ready := l ++ [p] |})
      | x :: l0 => (Some x, {| running := Some x; ready := l0 |}) end)))
    ++ ready (snd (match l ++ [p] with
      | [] => (None, {| running := Some p; ready := l ++ [p] |})
      | x :: l0 => (Some x, {| running := Some x; ready := l0 |}) end)) = l ++ [p])
    by (by destruct l).
  rewrite E. destruct (decide (i = length l)) as [->|].
  - rewrite Nat.Div0.mod_same by lia. rewrite lookup_app_r by lia. by rewrite Nat.sub_diag.
  - rewrite Nat.mod_small by lia. rewrite lookup_app_l by lia. done.
Qed.

Lemma sched_yield_running p l :
  exists q l', sched_yield {| running := Some p; ready := l |} = {| running := Some q; ready := l' |}
    /\ length l' = length l.
Proof.
  destruct l as [|x l]; cbn; [by exists p, []|]. exists x, (l ++ [p]). split; [done|].
  rewrite length_app. simpl. lia.
Qed.

Lemma yields_order n p l s :
  sched_rel s {| running := Some p; ready := l |} ->
  Some (curr_proc (Nat.iter n proc_yield s)) = (p :: l) !! (n mod S (length l))%nat.
Proof.
  revert p l s. induction n as [|n IH]; intros p l s Hr.
  - rewrite Nat.Div0.mod_0_l. cbn. by rewrite (sr_curr _ _ Hr).
  - rewrite Nat.iter_succ_r. pose proof (proc_yield_rel _ _ Hr) as Hr'.
    pose proof (order_yield p l (n mod S (length l))) as Ho.
    destruct (sched_yield_running p l) as (q & l' & E & Hlen). rewrite E in *.
    rewrite (IH q l') by done. rewrite Hlen.
    change (order _) with (q :: l') in Ho. rewrite Ho.
    + f_equal. change (S ?x) with (1 + x)%nat. by rewrite Nat.Div0.add_mod_idemp_r.
    + apply Nat.mod_upper_bound. lia.
Qed.

(** C30: round robin without starvation: with processes p :: l runnable, the n-th voluntary yield hands the CPU to the (n mod |p :: l|)-th of them, so each of them runs once in every |p :: l| yields. *)
Theorem proc_yield_round_robin n p l s :
  sched_rel s {| running := Some p; ready := l |} ->
  Some (curr_proc (Nat.iter n proc_yield s)) = (p :: l) !! (n mod S (length l))%nat.
Proof. apply yields_order. Qed.

Definition three_procs : procs :=
  fold_left run_op [Enqueue 0x1000; Enqueue 0x2000; Enqueue 0x3000; Dequeue] procs0.

Lemma three_procs_rel : sched_rel three_procs {| running := Some 0x1000; ready := [0x2000; 0x3000] |}.
Proof.
  change {| running := Some 0x1000; ready := [0x2000; 0x3000] |} with
    (spec_op (spec_op (spec_op (spec_op {| running := None; ready := [] |}
      (Enqueue 0x1000)) (Enqueue 0x2000)) (Enqueue 0x3000)) Dequeue).
  unfold three_procs. cbn [fold_left].
  repeat (apply run_op_rel; [|cbn; unfold order; cbn; split_and?; try done; set_solver by lia]).
  apply (sched_rel_init procs0).
Qed.

Lemma proc_yield_round_robin_witness :
  Some (curr_proc (Nat.iter 5 proc_yield three_procs)) = Some 0x3000.
Proof. apply (proc_yield_round_robin 5 0x1000 [0x2000; 0x3000]). apply three_procs_rel. Defined.

(** ** Lookup by pid *)
Lemma find_pid_linked s n l p fuel :
  linked s p l -> (length l < fuel)%nat ->
  find_pid fuel s n p = Done (head (filter (fun x => pid (deref s x) = n) l)).
Proof.
  revert p l. induction fuel as [|fuel IH]; intros p l Hl Hf; [lia|].
  destruct l as [|x l]; simpl in Hl.
  - subst. done.
  - destruct Hl as (-> & Hx & Hl). cbn [find_pid]. rewrite bool_decide_false by done.
    rewrite filter_cons. case_bool_decide.
    + by rewrite decide_True.
    + rewrite decide_False by done. apply IH; [done|]. simpl in Hf. lia.
Qed.

(** get_proc_by_pid terminates and returns the first queued process with the pid, else the running process when it has the pid, else NULL. *)
Theorem get_proc_by_pid_spec fuel n s a :
  sched_rel s a -> (length (ready a) < fuel)%nat ->
  get_proc_by_pid fuel n s
  = Done (default 0 (head (filter (fun p => pid (deref s p) = n)
                                  (ready a ++ option_list (running a))))).
Proof.
  intros Hr Hf. unfold get_proc_by_pid.
  rewrite (find_pid_linked s n (ready a)) by (done || apply Hr). cbn.
  rewrite filter_app. destruct (filter _ (ready a)) as [|x l]; [|done]. simpl.
  rewrite (sr_curr _ _ Hr). destruct (running a) as [p|] eqn:E; simpl; [|done].
  assert (p <> 0) by (apply (sr_nonzero _ _ Hr); unfold order; rewrite E; set_solver).
  rewrite filter_cons. case_decide; case_bool_decide; naive_solver.
Qed.

Lemma get_proc_by_pid_spec_witness :
  get_proc_by_pid 4 0 three_procs = Done 0x2000 /\ get_proc_by_pid 4 9 three_procs = Done 0.
Proof.
  split; rewrite (get_proc_by_pid_spec 4 _ _ _ three_procs_rel) by (simpl; lia); vm_compute; done.
Defined.

(** schedule enters the next process of the queue, after re-queueing the running one: it switches to that process's user stack (or its kernel esp when it has none) and entry point, and leaves the globals as one yield of the abstract scheduler does. *)
Theorem schedule_spec s p l :
  sched_rel s {| running := Some p; ready := l |} ->
  let a' := sched_yield {| running := Some p; ready := l |} in
  wp schedule s (fun r s' _ =>
    sched_rel s' a' /\
    exists n, running a' = Some n /\
      r = Some (let q := deref s' n in
                (if bool_decide (user_stack_top q <> 0) then user_stack_top q else esp q, p_entry q))).
Proof.
  intros Hr a'. destruct (schedule_step_rel s p l Hr) as (Hp & Hf & Hr').
  fold a' in Hf, Hr'. unfold schedule.
  wp_step. wp_step. cbv zeta.
  change (get_curr_proc s) with (curr_proc s). rewrite (sr_curr _ _ Hr). cbn [default running from_option id].
  rewrite (sr_running _ _ Hr p) by done. rewrite bool_decide_true by done.
  wp_step. wp_step.
  destruct (proc_dequeue (proc_enqueue p s)) as [n s'] eqn:E. cbn [fst snd] in *.
  assert (n <> 0) by (apply (sr_nonzero _ _ Hr'); unfold order; rewrite <- Hf; set_solver).
  wp_steps. rewrite bool_decide_false by done. wp_steps.
  split; [done|]. by exists n.
Qed.

Lemma schedule_spec_witness :
  exists s' o, schedule three_procs = Done (Some (0, 0), s', o) /\ curr_proc s' = 0x2000.
Proof.
  pose proof (schedule_spec _ _ _ three_procs_rel) as H.
  apply wp_inv in H as (r & s' & o & E & Hr & n & Hn & _). exists s', o.
  pose proof (sr_curr _ _ Hr) as Hc. cbn in Hc. split; [|done].
  assert (Hv : fst <$> (fst <$> (match schedule three_procs with Done v => Some v | _ => None end))
               = Some (Some (0, 0))) by (vm_compute; done).
  rewrite E in Hv |- *. cbn in Hv. by injection Hv as ->.
Defined.
