(* ===== verification/Syscall.v ===== *)
(** * syscall.c: the system-call handler

    [kstate] holds what the handler reaches: the memory system, the process
    globals, its own globals and the interrupt stack of the caller, i.e. the
    registers [pusha] stored at [r] and, right above them, the words the
    processor pushed ([saved_eip_ptr = (uint32_t * )r + 8] is the first). *)
From stdpp Require Import base numbers list gmap.
From Stdlib Require Import ZArith Lia ZifyBool String.
From S2P Require Import Prelude Mem Memory Paging Process.

Definition SYS_EXIT : Z := 0.
Definition SYS_WRITE : Z := 1.
Definition SYS_OPEN : Z := 2.
Definition SYS_CLOSE : Z := 3.
Definition SYS_READ : Z := 4.
Definition SYS_YIELD : Z := 5.
Definition FD_STDIN : Z := 0.
Definition FD_STDOUT : Z := 1.
Definition FD_STDERR : Z := 2.

Record int_frame := {
  f_regs : regs; f_eip : Z; f_cs : Z; f_eflags : Z; f_useresp : Z; f_ss : Z;
}.

Record kstate := {
  k_vm : vm; k_procs : procs; k_frame : int_frame;
  last_exit_status : Z; syscall_exit_requested : Z; syscall_kernel_fallback : Z;
}.

Definition set_eax (v : Z) (r : regs) : regs := {|
  r_edi := r_edi r; r_esi := r_esi r; r_ebp := r_ebp r; r_esp := r_esp r;
  r_ebx := r_ebx r; r_edx := r_edx r; r_ecx := r_ecx r; r_eax := u32 v |}.

Definition set_frame (r : regs) (eip : Z) (f : int_frame) : int_frame := {|
  f_regs := r; f_eip := eip; f_cs := f_cs f; f_eflags := f_eflags f;
  f_useresp := f_useresp f; f_ss := f_ss f |}.

Definition on_frame (f : int_frame -> int_frame) (s : kstate) : kstate := {|
  k_vm := k_vm s; k_procs := k_procs s; k_frame := f (k_frame s);
  last_exit_status := last_exit_status s; syscall_exit_requested := syscall_exit_requested s;
  syscall_kernel_fallback := syscall_kernel_fallback s |}.

Definition set_procs (p : procs) (s : kstate) : kstate := {|
  k_vm := k_vm s; k_procs := p; k_frame := k_frame s;
  last_exit_status := last_exit_status s; syscall_exit_requested := syscall_exit_requested s;
  syscall_kernel_fallback := syscall_kernel_fallback s |}.

Definition request_exit (status : Z) (s : kstate) : kstate := {|
  k_vm := k_vm s; k_procs := k_procs s; k_frame := k_frame s;
  last_exit_status := status; syscall_exit_requested := 1;
  syscall_kernel_fallback := syscall_kernel_fallback s |}.

(** [r->eax = v] *)
Definition return_ (v : Z) : M kstate unit :=
  mmodify (on_frame (fun f => set_frame (set_eax v (f_regs f)) (f_eip f) f)).

(** ** User memory *)
Definition validate_user_ptr (fallback : Z) (s : vm) (ptr len : Z) : outcome Z :=
  if bool_decide (ptr = 0) then Done 0
  else if bool_decide (fallback <> 0) then Done 1
  else validate_user_region s ptr len.

(** [for (i = 0; i < len; ++i) d[i] = s[i]] into a buffer of the kernel: the
    bytes read, one after the other. *)
Fixpoint load_bytes {St} `{AddrSpace St} (n : nat) (va : Z) (s : St) : outcome (list Z) :=
  match n with
  | O => Done []
  | S n' => c ← ld8 (u32 va) s; cs ← load_bytes n' (va + 1) s; Done (c :: cs)
  end.

(** The same loop out of a buffer of the kernel. *)
Fixpoint store_bytes {St} `{AddrSpace St} (va : Z) (l : list Z) (s : St) : outcome St :=
  match l with
  | [] => Done s
  | c :: l' => s' ← st8 (u32 va) c s; store_bytes (va + 1) l' s'
  end.

(** [None] is the error result -1.  The kernel-side buffer of every caller is
    an array of its own frame, never NULL. *)
Definition copy_from_user (fallback : Z) (user_src len : Z) (s : vm) : outcome (option (list Z)) :=
  if bool_decide (user_src = 0) then Done None else
  ok ← validate_user_ptr fallback s user_src len;
  if bool_decide (ok = 0) then Done None else
  l ← load_bytes (Z.to_nat len) user_src s; Done (Some l).

Definition copy_to_user (fallback : Z) (user_dst : Z) (src : list Z) (len : Z) (s : vm)
    : outcome (option vm) :=
  if bool_decide (user_dst = 0) then Done None else
  ok ← validate_user_ptr fallback s user_dst len;
  if bool_decide (ok = 0) then Done None else
  s' ← store_bytes user_dst (take (Z.to_nat len) src) s; Done (Some s').

(** ** The handlers *)

Definition CHUNK : Z := 1024.

(** [while (offset < len)] of SYS_WRITE; the result is [written]. *)
Fixpoint write_loop (fuel : nat) (buf len offset written : Z) : M kstate Z :=
  match fuel with
  | O => spin
  | S fuel' =>
      if bool_decide (offset < len) then
        let take := if bool_decide (len - offset > CHUNK) then CHUNK else len - offset in
        s ← mget;
        tmp ← lift (if bool_decide (syscall_kernel_fallback s <> 0)
                    then l ← load_bytes (Z.to_nat take) (u32 (buf + offset)) (k_vm s); Done (Some l)
                    else copy_from_user (syscall_kernel_fallback s) (u32 (buf + offset)) take (k_vm s));
        match tmp with
        | None => mret written
        | Some tmp =>
            emit (Print (c_string (tmp ++ [0])));;
            write_loop fuel' buf len (offset + take) (written + take)
        end
      else mret written
  end.

(** At most [len / CHUNK + 1] chunks, and one step to leave the loop. *)
Definition sys_write (a b c : Z) : M kstate unit :=
  let fd := i32 a in
  if bool_decide (fd = FD_STDOUT \/ fd = FD_STDERR) then
    written ← write_loop (Z.to_nat (c / CHUNK + 2)) b c 0 0;
    return_ written
  else
    s ← mget;
    let proc := get_curr_proc (k_procs s) in
    if bool_decide (proc <> 0 /\ 0 <= fd < PROC_MAX_FDS) then
      let fde := default fd_entry0 (fds (deref (k_procs s) proc) !! Z.to_nat fd) in
      if bool_decide (fd_type fde = FD_TYPE_FAT16) then return_ (-1) else return_ (-1)
    else return_ (-1).

Definition sys_read (a : Z) : M kstate unit :=
  if bool_decide (i32 a = FD_STDIN) then return_ 0 else return_ (-1).

Definition sys_open (path : Z) : M kstate unit :=
  s ← mget;
  valid ← lift (if bool_decide (path = 0) then Done 0
                else if bool_decide (syscall_kernel_fallback s <> 0) then Done 1
                else validate_user_ptr (syscall_kernel_fallback s) (k_vm s) path 1);
  if bool_decide (valid = 0) then return_ (-1) else
  c ← lift (ld8 path (k_vm s));
  if bool_decide (c = 47 \/ c = 46) then return_ FD_STDOUT else return_ (-1).

Definition sys_close (a : Z) : M kstate unit :=
  let fd := i32 a in
  if bool_decide (fd = FD_STDIN \/ fd = FD_STDOUT \/ fd = FD_STDERR) then return_ 0
  else return_ (-1).

(** [prev->regs = *r; prev->esp = r->esp; prev->saved_eip = *saved_eip_ptr] *)
Definition save_context (f : int_frame) (p : process) : process := {|
  pid := pid p; state := state p; p_entry := p_entry p; esp := r_esp (f_regs f);
  user_stack_top := user_stack_top p; p_regs := f_regs f; saved_eip := f_eip f;
  kernel_stack := kernel_stack p; page_dir := page_dir p; next := next p; fds := fds p |}.

Definition has_regs (r : regs) : Prop :=
  r_edi r <> 0 \/ r_eax r <> 0 \/ r_ebx r <> 0 \/ r_ecx r <> 0 \/
  r_edx r <> 0 \/ r_ebp r <> 0 \/ r_esi r <> 0.

#[global] Instance has_regs_dec r : Decision (has_regs r).
Proof. unfold has_regs. apply _. Defined.

(** The registers the frame gets when [p] is resumed over the registers [r]. *)
Definition resume_regs (p : process) (r : regs) : regs :=
  if bool_decide (has_regs (p_regs p)) then p_regs p
  else {| r_edi := 0; r_esi := 0; r_ebp := 0;
          r_esp := if bool_decide (esp p <> 0) then esp p
                   else if bool_decide (user_stack_top p <> 0) then user_stack_top p else r_esp r;
          r_ebx := 0; r_edx := 0; r_ecx := 0; r_eax := 0 |}.

Definition resume_eip (p : process) : Z :=
  if bool_decide (saved_eip p <> 0) then saved_eip p else p_entry p.

Definition sys_yield : M kstate unit :=
  s ← mget;
  let prev := get_curr_proc (k_procs s) in
  (if bool_decide (prev <> 0)
   then mput (set_procs (proc_enqueue prev (update prev (save_context (k_frame s)) (k_procs s))) s)
   else mret tt);;
  s ← mget;
  let '(next, ps) := proc_dequeue (k_procs s) in
  mput (set_procs ps s);;
  if bool_decide (next = 0) then return_ 0
  else
    let p := deref ps next in
    mmodify (on_frame (fun f => set_frame (resume_regs p (f_regs f)) (resume_eip p) f));;
    return_ 0.

Definition sys_exit (a : Z) : M kstate unit :=
  mmodify (request_exit a);; return_ 0.

Definition handle_syscall : M kstate unit :=
  s ← mget;
  let r := f_regs (k_frame s) in
  let num := r_eax r in
  let a := r_ebx r in
  let b := r_ecx r in
  let c := r_edx r in
  if bool_decide (num = SYS_EXIT) then sys_exit a
  else if bool_decide (num = SYS_WRITE) then sys_write a b c
  else if bool_decide (num = SYS_READ) then sys_read a
  else if bool_decide (num = SYS_OPEN) then sys_open a
  else if bool_decide (num = SYS_CLOSE) then sys_close a
  else if bool_decide (num = SYS_YIELD) then sys_yield
  else return_ (-1).

(** kernel.c *)
Definition syscall_handler : M kstate unit := handle_syscall.
