(* ===== verification/SyscallSpec.v ===== *)
(** * Properties of the system calls *)
From stdpp Require Import base numbers list gmap.
From Stdlib Require Import ZArith Lia ZifyBool.
From S2P Require Import Prelude Mem Memory Paging PagingFacts PagingSpec Process ProcessSpec Syscall.

(** ** Reading user memory *)

(** The byte at a virtual address, and the [n] bytes a pointer [va] runs over. *)
Definition peek (s : vm) (va : Z) : Z :=
  match translate s va with Some pa => rd8 (vm_mem s) pa | None => 0 end.

Definition user_bytes (s : vm) (va n : Z) : list Z :=
  (fun i => peek s (u32 (va + i))) <$> seqZ 0 n.

Lemma user_bytes_cons s va n :
  0 < n -> user_bytes s va n = peek s (u32 va) :: user_bytes s (va + 1) (n - 1).
Proof.
  intros Hn. unfold user_bytes. rewrite seqZ_cons by lia. cbn. rewrite Z.add_0_r. f_equal.
  change (Z.succ 0) with (1 + 0). rewrite <- (fmap_add_seqZ 1 0), <- list_fmap_compose.
  replace (Z.pred n) with (n - 1) by lia. apply list_fmap_ext. intros i x _. cbn. do 2 f_equal. lia.
Qed.

Lemma user_bytes_app s va n k :
  0 <= n -> 0 <= k -> user_bytes s va (n + k) = user_bytes s va n ++ user_bytes s (va + n) k.
Proof.
  intros Hn Hk. unfold user_bytes. rewrite seqZ_app, fmap_app by lia. f_equal.
  replace (seqZ (0 + n) k) with (seqZ (n + 0) k) by (f_equal; lia).
  rewrite <- (fmap_add_seqZ n 0), <- list_fmap_compose.
  apply list_fmap_ext. intros i x _. cbn. do 2 f_equal. lia.
Qed.

Lemma user_bytes_u32 s va n : user_bytes s (u32 va) n = user_bytes s va n.
Proof. apply list_fmap_ext. intros i x _. cbn. by rewrite u32_add_l. Qed.

Lemma length_user_bytes s va n : length (user_bytes s va n) = Z.to_nat n.
Proof. unfold user_bytes. by rewrite length_fmap, length_seqZ. Qed.

Lemma load_bytes_ok n va s :
  0 <= va -> va + Z.of_nat n <= 0x100000000 ->
  (forall b, va <= b < va + Z.of_nat n -> is_Some (translate s b)) ->
  load_bytes n va s = Done (user_bytes s va (Z.of_nat n)).
Proof.
  revert va. induction n as [|n IH]; intros va Hva Hend Hall; [done|].
  cbn [load_bytes]. cbn [ld8 vm_space]. rewrite u32_small by (unfold is_u32; lia).
  destruct (Hall va) as [pa Hpa]; [lia|]. rewrite Hpa. cbn.
  rewrite IH by (lia || (intros; apply Hall; lia)). cbn.
  rewrite (user_bytes_cons s va (Z.of_nat (S n))) by lia. rewrite u32_small by (unfold is_u32; lia).
  unfold peek at 1. rewrite Hpa.
  by replace (Z.of_nat (S n) - 1) with (Z.of_nat n) by lia.
Qed.

Lemma load_bytes_fault n va s b :
  0 <= va -> va + Z.of_nat n <= 0x100000000 -> va <= b < va + Z.of_nat n ->
  translate s b = None -> exists c, load_bytes n va s = Fault c.
Proof.
  revert va. induction n as [|n IH]; intros va Hva Hend Hb Hnone; [lia|].
  cbn [load_bytes]. cbn [ld8 vm_space]. rewrite u32_small by (unfold is_u32; lia).
  destruct (translate s va) eqn:E; cbn; [|by eexists].
  assert (b <> va) by congruence.
  destruct (IH (va + 1)) as [c Hc]; [lia..|done|]. rewrite Hc. by exists c.
Qed.

(** Every byte of the region is mapped for user mode. *)
Definition user_region (s : vm) (a len : Z) : Prop :=
  forall b, a <= b < a + len -> user_ok s b = true.

Lemma user_ok_translate s b :
  tables_mapped s -> mmu_on s -> user_ok s b = true -> is_Some (translate s b).
Proof.
  intros Hok Hm Hu. rewrite translate_pte by (done || apply (tm_dir s Hok)).
  unfold user_ok in Hu. apply andb_prop in Hu as [-> _]. by eexists.
Qed.

Lemma copy_region s a len :
  tables_mapped s -> mmu_on s -> 0 < a -> 0 <= len -> a + len <= 0x100000000 ->
  validate_user_ptr 0 s a len = Done 1 -> user_region s a len ->
  copy_from_user 0 a len s = Done (Some (user_bytes s a len)).
Proof.
  intros Hok Hm Ha Hl Hend Hv Hu. unfold copy_from_user.
  rewrite bool_decide_false by lia. rewrite Hv. cbn.
  rewrite load_bytes_ok; [by rewrite Z2Nat.id by lia|lia|lia|].
  intros b Hb. apply user_ok_translate; [done..|]. apply Hu. lia.
Qed.

Lemma validate_ptr_nonnull s a len :
  a <> 0 -> validate_user_ptr 0 s a len = validate_user_region s a len.
Proof. intros. unfold validate_user_ptr. by rewrite bool_decide_false. Qed.

Lemma validate_region s a len :
  tables_mapped s -> 0x100000 <= a -> 0 <= len -> a + len <= 0xC0000000 -> user_region s a len ->
  validate_user_ptr 0 s a len = Done 1.
Proof.
  intros T Ha Hl He Hu. rewrite validate_ptr_nonnull by lia.
  destruct (validate_cases s a len T) as (r & -> & _ & Hiff); [unfold is_u32; lia..|].
  f_equal. apply Hiff. right. split_and!; [done..|]. intros k Hk Hlt. apply Hu. lia.
Qed.

(** A chunk that starts at a multiple of its size lies in one page, and the
    check then covers all of it. *)
Lemma copy_aligned s a len :
  tables_mapped s -> mmu_on s -> is_u32 a -> a mod 1024 = 0 -> 0 < len <= 1024 ->
  copy_from_user 0 a len s = Done (Some (user_bytes s a len)) \/
  (copy_from_user 0 a len s = Done None /\ validate_user_ptr 0 s a len = Done 0).
Proof.
  intros Hok Hm Ha Hmod Hl. destruct (decide (a = 0)) as [->|Hnz]; [by right|].
  rewrite validate_ptr_nonnull by done.
  destruct (validate_cases s a len Hok) as (r & Hv & [-> | ->] & Hiff); [done|unfold is_u32; lia| |].
  - right. split; [|done]. unfold copy_from_user. rewrite bool_decide_false by done.
    by rewrite validate_ptr_nonnull, Hv by done.
  - left. assert (Hend : a + len <= 0x100000000).
    { destruct (proj1 Hiff eq_refl) as [?|(? & ? & _)]; lia. }
    apply copy_region; [done|done|unfold is_u32 in Ha; lia|lia|done| |].
    + by rewrite validate_ptr_nonnull.
    + intros b Hb. apply (validate_sound s a len); [done|done|unfold is_u32; lia|done| |done].
      unfold probes_last, is_u32 in *. word.
Qed.

(** ** SYS_WRITE *)

(** The pieces SYS_WRITE prints a buffer in. *)
Fixpoint chunks (n : nat) (l : list Z) : list (list Z) :=
  match n, l with
  | S n', _ :: _ => take 1024 l :: chunks n' (drop 1024 l)
  | _, _ => []
  end.

Definition write_events (l : list Z) : list event :=
  (fun c => Print (c_string c)) <$> chunks (length l) l.

(** The characters a sequence of prints shows. *)
Definition printed (o : list event) : list Z :=
  o ≫= fun e => match e with Print s => s | _ => [] end.

Lemma chunks_more n m l : (length l <= n)%nat -> (length l <= m)%nat -> chunks n l = chunks m l.
Proof.
  revert m l. induction n as [|n IH]; intros [|m] [|x l] Hn Hm; try done; try (cbn in *; lia).
  cbn [chunks]. f_equal. apply IH; rewrite length_drop; cbn in *; lia.
Qed.

Lemma write_events_step l :
  l <> [] -> write_events l = Print (c_string (take 1024 l)) :: write_events (drop 1024 l).
Proof.
  intros Hl. unfold write_events. destruct l as [|x l]; [done|]. cbn [length chunks].
  rewrite fmap_cons. f_equal. f_equal. apply chunks_more; rewrite length_drop; cbn; lia.
Qed.

Lemma printed_chunks n l :
  (length l <= n)%nat -> Forall (fun c => c <> 0) l ->
  printed ((fun c => Print (c_string c)) <$> chunks n l) = l.
Proof.
  revert l. induction n as [|n IH]; intros [|x l] Hn Hl; try done; [cbn in Hn; lia|].
  cbn [chunks]. unfold printed in *. rewrite fmap_cons, bind_cons, IH.
  - rewrite c_string_nonzero by (by apply Forall_take). apply take_drop.
  - rewrite length_drop. cbn in *. lia.
  - by apply Forall_drop.
Qed.

Lemma printed_write_events l : Forall (fun c => c <> 0) l -> printed (write_events l) = l.
Proof. by apply printed_chunks. Qed.

(** The chunk of SYS_WRITE at an offset. *)
Definition chunk_len (len off : Z) : Z := Z.min 1024 (len - off).

(** The loop writes a prefix of the buffer; it stops early only at a chunk that
    is rejected. *)
Definition write_result (s : kstate) (buf len off : Z) (w : Z) : Prop :=
  off <= w <= len /\
  (w < len -> validate_user_ptr 0 (k_vm s) (u32 (buf + w)) (chunk_len len w) = Done 0).

(** The first chunk of a prefix of [n] bytes. *)
Lemma write_events_chunk s va k n :
  0 < k <= n -> (k = 1024 \/ (k < 1024 /\ n = k)) ->
  write_events (user_bytes s va n)
  = Print (c_string (user_bytes s va k)) :: write_events (user_bytes s (va + k) (n - k)).
Proof.
  intros Hk Hc. replace n with (k + (n - k)) at 1 by lia. rewrite user_bytes_app by lia.
  pose proof (length_user_bytes s va k) as Hlen. rewrite write_events_step.
  2:{ rewrite user_bytes_cons by lia. done. }
  destruct Hc as [->|[Hk1 ->]].
  - rewrite take_app_length' by lia. by rewrite drop_app_length' by lia.
  - replace (k - k) with 0 by lia. change (user_bytes s (va + k) 0) with (@nil Z).
    rewrite app_nil_r, take_ge, drop_ge by lia. done.
Qed.

Lemma write_loop_wp fuel s buf len off :
  syscall_kernel_fallback s = 0 ->
  (forall w, off <= w < len -> (w - off) mod 1024 = 0 ->
     copy_from_user 0 (u32 (buf + w)) (chunk_len len w) (k_vm s)
       = Done (Some (user_bytes (k_vm s) (buf + w) (chunk_len len w))) \/
     (copy_from_user 0 (u32 (buf + w)) (chunk_len len w) (k_vm s) = Done None /\
      validate_user_ptr 0 (k_vm s) (u32 (buf + w)) (chunk_len len w) = Done 0)) ->
  0 <= off <= len -> len - off <= (Z.of_nat fuel - 1) * 1024 ->
  wp (write_loop fuel buf len off off) s (fun w s' o =>
    s' = s /\ write_result s buf len off w /\
    o = write_events (user_bytes (k_vm s) (buf + off) (w - off))).
Proof.
  intros Hfb. revert off. induction fuel as [|fuel IH]; intros off Hcopy Hoff Hf; [lia|].
  cbn [write_loop]. case_bool_decide as Hlt.
  2:{ wp_steps. split_and!; [done|unfold write_result; lia|].
      by replace (off - off) with 0 by lia. }
  assert (Hchunk : (if bool_decide (len - off > CHUNK) then CHUNK else len - off) = chunk_len len off).
  { unfold chunk_len, CHUNK. case_bool_decide; lia. }
  rewrite Hchunk. wp_steps. rewrite Hfb. cbn [bool_decide].
  rewrite bool_decide_false by lia. cbv zeta.
  destruct (Hcopy off) as [Hc|[Hc Hv]]; [lia|by replace (off - off) with 0 by lia| |].
  - eapply wp_lift; [exact Hc|]. wp_steps. eapply wp_mono.
    { apply IH; [|unfold chunk_len; lia|unfold chunk_len; lia].
      intros w Hw Hmod. apply Hcopy; [unfold chunk_len in *; lia|]. unfold chunk_len in *. word. }
    cbv beta. intros w s' o (-> & [Hr Hrej] & ->). split_and!; [done| |].
    { split; [unfold chunk_len in *; lia|done]. }
    rewrite (write_events_chunk _ (buf + off) (chunk_len len off) (w - off)) by (unfold chunk_len in *; lia).
    rewrite c_string_snoc. cbn [app]. do 3 f_equal; lia.
  - eapply wp_lift; [exact Hc|]. wp_steps. split_and!; [done| |by replace (off - off) with 0 by lia].
    split; [lia|done].
Qed.

(** ** Properties *)

(** A system call [num] with its arguments in the frame, made from user mode. *)
Definition calls (s : kstate) (num a b c : Z) : Prop :=
  let r := f_regs (k_frame s) in
  r_eax r = num /\ r_ebx r = a /\ r_ecx r = b /\ r_edx r = c /\
  syscall_kernel_fallback s = 0.

(** The state after a call that only returns [v]. *)
Definition returned (v : Z) (s : kstate) : kstate :=
  on_frame (fun f => set_frame (set_eax v (f_regs f)) (f_eip f) f) s.

Lemma return_wp v s Q : Q tt (returned v s) [] -> wp (return_ v) s Q.
Proof. apply wp_modify. Qed.

Lemma stdout_fd a : a = 1 \/ a = 2 -> bool_decide (i32 a = FD_STDOUT \/ i32 a = FD_STDERR) = true.
Proof. intros [-> | ->]; reflexivity. Qed.

(** SYS_WRITE to the console, once the loop's behaviour is known. *)
Lemma sys_write_wp s a buf len (Q : unit -> kstate -> list event -> Prop) :
  calls s SYS_WRITE a buf len -> a = 1 \/ a = 2 ->
  wp (write_loop (Z.to_nat (len / CHUNK + 2)) buf len 0 0) s
    (fun w s' o => Q tt (returned w s') (o ++ [])) ->
  wp handle_syscall s Q.
Proof.
  intros (Hn & Ha & Hb & Hc & Hfb) Hfd Hw. unfold handle_syscall. wp_step. wp_step. cbv zeta.
  rewrite Hn, Ha, Hb, Hc. cbn [bool_decide]. change (bool_decide (SYS_WRITE = SYS_EXIT)) with false.
  change (bool_decide (SYS_WRITE = SYS_WRITE)) with true. cbv iota.
  unfold sys_write. rewrite stdout_fd by done. wp_step. eapply wp_mono; [exact Hw|].
  cbv beta. intros w s' o HQ. by apply return_wp.
Qed.

(** C21: SYS_WRITE to stdout or stderr of a buffer inside [0x100000, 0xC0000000]
    whose every byte is mapped for user mode prints the buffer in pieces of 1024
    bytes, each up to its first NUL (so all of it when it holds none), returns
    its length in EAX and changes nothing else.  The call comes from user mode
    (no kernel fallback), paging is on, and the frames of the page tables are
    mapped to themselves, since the handler walks them by their addresses. *)
Theorem sys_write_prints s a buf len :
  calls s SYS_WRITE a buf len -> a = 1 \/ a = 2 ->
  tables_mapped (k_vm s) -> mmu_on (k_vm s) ->
  0x100000 <= buf -> 0 <= len -> buf + len <= 0xC0000000 -> user_region (k_vm s) buf len ->
  let data := user_bytes (k_vm s) buf len in
  wp handle_syscall s (fun _ s' o =>
    s' = returned len s /\ o = write_events data /\
    (Forall (fun c => c <> 0) data -> printed o = data)).
Proof.
  intros Hcall Hfd Hok Hm Hlo Hl Hhi Hu data. apply (sys_write_wp s a buf len); [done..|].
  pose proof (proj2 (proj2 (proj2 (proj2 Hcall)))) as Hfb. eapply wp_mono.
  { apply write_loop_wp; [done| |lia|unfold CHUNK; word].
    intros w Hw _. left. rewrite u32_small by (unfold is_u32; lia).
    assert (user_region (k_vm s) (buf + w) (chunk_len len w)).
    { intros b Hb. apply Hu. unfold chunk_len in *. lia. }
    apply copy_region; try (done || (unfold chunk_len; lia)).
    apply validate_region; try done; unfold chunk_len; lia. }
  cbv beta. intros w s' o (-> & [Hw Hrej] & ->).
  assert (w = len) as ->.
  { destruct (decide (w = len)); [done|]. exfalso.
    rewrite u32_small, validate_region in Hrej; [|done|unfold chunk_len; lia..| |unfold is_u32; lia].
    - by assert (Done 1 = Done 0) by (apply Hrej; lia).
    - intros b Hb. apply Hu. unfold chunk_len in *. lia. }
  rewrite app_nil_r, Z.sub_0_r, Z.add_0_r. split_and!; [done..|]. apply printed_write_events.
Qed.

(** C22: SYS_WRITE of a buffer that starts on a 1024-byte boundary never faults
    the kernel, whatever the page tables map besides their own frames: it writes
    a prefix of the buffer, stops early only at a chunk the check rejects, and
    returns the number of bytes written. *)
Theorem sys_write_aligned_safe s a buf len :
  calls s SYS_WRITE a buf len -> a = 1 \/ a = 2 ->
  tables_mapped (k_vm s) -> mmu_on (k_vm s) -> is_u32 buf -> is_u32 len -> buf mod 1024 = 0 ->
  wp handle_syscall s (fun _ s' o => exists w,
    0 <= w <= len /\ s' = returned w s /\ o = write_events (user_bytes (k_vm s) buf w) /\
    (w < len -> validate_user_ptr 0 (k_vm s) (u32 (buf + w)) (chunk_len len w) = Done 0)).
Proof.
  intros Hcall Hfd Hok Hm Hb Hl Hmod. apply (sys_write_wp s a buf len); [done..|].
  pose proof (proj2 (proj2 (proj2 (proj2 Hcall)))) as Hfb. eapply wp_mono.
  { apply write_loop_wp; [done| |unfold is_u32 in Hl; lia|unfold CHUNK; unfold is_u32 in Hl; word].
    intros w Hw Hwm. rewrite <- (user_bytes_u32 _ (buf + w)).
    apply copy_aligned; [done|done|apply u32_range| |unfold chunk_len; lia]. word. }
  cbv beta. intros w s' o (-> & [Hw Hrej] & ->). exists w.
  rewrite app_nil_r, Z.sub_0_r, Z.add_0_r. split_and!; [lia..|done|done|done].
Qed.

Lemma handle_write_eq s a b c :
  calls s SYS_WRITE a b c -> handle_syscall s = sys_write a b c s.
Proof.
  intros (Hn & Ha & Hb & Hc & _). unfold handle_syscall. unfold mbind at 1, M_bind, mget at 1.
  cbv beta iota zeta. rewrite Hn, Ha, Hb, Hc. change (bool_decide (SYS_WRITE = SYS_EXIT)) with false.
  change (bool_decide (SYS_WRITE = SYS_WRITE)) with true. cbv iota.
  destruct (sys_write a b c s) as [[[x t] o]| | |]; done.
Qed.

(** C34: a user program can fault the kernel through SYS_WRITE: for a buffer of
    at most 1024 bytes inside [0x100000, 0xC0000000] whose last page is not
    probed by the check, only the pages before it being mapped, the check itself
    passes (the page tables are mapped), the copy in the handler reads the
    unmapped page and the processor faults in kernel mode. *)
Theorem sys_write_gap_faults s a buf len :
  calls s SYS_WRITE a buf len -> a = 1 \/ a = 2 -> tables_mapped (k_vm s) ->
  0 < len <= 1024 -> 0x100000 <= buf -> buf + len <= 0xC0000000 -> ~ probes_last buf len ->
  (forall b, buf <= b < (buf + len - 1) / 4096 * 4096 -> user_ok (k_vm s) b = true) ->
  translate (k_vm s) (buf + len - 1) = None ->
  exists va, handle_syscall s = Fault va.
Proof.
  intros Hcall Hfd T Hl Hlo Hhi Hp Hall Hnone. rewrite (handle_write_eq _ _ _ _ Hcall).
  pose proof (proj2 (proj2 (proj2 (proj2 Hcall)))) as Hfb.
  destruct (load_bytes_fault (Z.to_nat len) buf (k_vm s) (buf + len - 1)) as [va Hva]; [lia..|done|].
  exists va. unfold sys_write. rewrite stdout_fd by done.
  destruct (Z.to_nat (len / CHUNK + 2)) as [|fuel] eqn:Ef; [unfold CHUNK in Ef; word|].
  cbn [write_loop]. rewrite !(bool_decide_true (0 < len)) by lia.
  rewrite (bool_decide_false (len - 0 > CHUNK)) by (unfold CHUNK; lia).
  unfold mbind, M_bind, mget, lift. cbv beta iota zeta. rewrite Hfb.
  change (bool_decide (0 <> 0)) with false. cbv iota.
  rewrite Z.sub_0_r, Z.add_0_r, u32_small by (unfold is_u32; lia).
  unfold copy_from_user. rewrite bool_decide_false by lia. rewrite validate_ptr_nonnull by lia.
  destruct (validate_cases (k_vm s) buf len T) as (r & -> & _ & Hiff); [unfold is_u32; lia..|].
  assert (r = 1) as ->.
  { apply Hiff. right. split_and!; [lia..|]. intros k Hk Hlt. apply Hall.
    unfold probes_last in Hp. word. }
  cbn. by rewrite Hva.
Qed.

(** the descriptor calls without a file behind them: SYS_READ returns 0 on stdin and -1 otherwise, SYS_CLOSE 0 on the three standard descriptors and -1 otherwise, and an unknown call number -1; nothing else of the kernel changes. *)
Theorem fd_calls_spec s num a b c :
  calls s num a b c -> is_u32 a -> num = SYS_READ \/ num = SYS_CLOSE \/ num > SYS_YIELD ->
  wp handle_syscall s (fun _ s' o => o = [] /\
    s' = returned (if bool_decide (num = SYS_READ) then if bool_decide (a = 0) then 0 else -1
                   else if bool_decide (num = SYS_CLOSE)
                        then if bool_decide (0 <= a <= 2) then 0 else -1
                   else -1) s).
Proof.
  intros (Hn & Ha & Hb & Hc & _) Hr Hnum. unfold handle_syscall. wp_step. wp_step. cbv zeta.
  rewrite Hn, Ha, Hb, Hc.
  assert (Hi : forall k, 0 <= k <= 2 -> (i32 a = k <-> a = k)).
  { intros k Hk. unfold i32, is_u32 in *. rewrite u32_small by done. cbv zeta. case_bool_decide; lia. }
  assert (Hret : forall v v', v = v' -> wp (return_ v) s (fun _ s' o => [] ++ o = [] /\ s' = returned v' s)).
  { intros v v' ->. by apply return_wp. }
  destruct Hnum as [-> |[-> |Hgt]].
  - change (bool_decide (SYS_READ = SYS_EXIT)) with false. change (bool_decide (SYS_READ = SYS_WRITE)) with false.
    change (bool_decide (SYS_READ = SYS_READ)) with true. cbv iota. unfold sys_read, FD_STDIN.
    rewrite (bool_decide_ext _ _ (Hi 0 ltac:(lia))). case_bool_decide; by apply Hret.
  - change (bool_decide (SYS_CLOSE = SYS_EXIT)) with false. change (bool_decide (SYS_CLOSE = SYS_WRITE)) with false.
    change (bool_decide (SYS_CLOSE = SYS_READ)) with false. change (bool_decide (SYS_CLOSE = SYS_OPEN)) with false.
    change (bool_decide (SYS_CLOSE = SYS_CLOSE)) with true. cbv iota. unfold sys_close, FD_STDIN, FD_STDOUT, FD_STDERR.
    rewrite (bool_decide_ext _ (0 <= a <= 2)).
    2:{ rewrite (Hi 0), (Hi 1), (Hi 2) by lia. unfold is_u32 in Hr. lia. }
    case_bool_decide; by apply Hret.
  - unfold SYS_EXIT, SYS_WRITE, SYS_READ, SYS_OPEN, SYS_CLOSE, SYS_YIELD in *.
    rewrite !(bool_decide_false (num = _)) by lia. by apply Hret.
Qed.

(** SYS_OPEN never faults: it returns the stdout descriptor when the path pointer is readable from user mode and its first character is a slash or a dot, and -1 otherwise, whatever the pointer is. *)
Theorem sys_open_spec s path b c :
  calls s SYS_OPEN path b c -> is_u32 path -> tables_mapped (k_vm s) -> mmu_on (k_vm s) ->
  wp handle_syscall s (fun _ s' o => o = [] /\
    s' = returned (if bool_decide (0x100000 <= path < 0xC0000000 /\ user_ok (k_vm s) path = true /\
                                   (peek (k_vm s) path = 47 \/ peek (k_vm s) path = 46))
                   then 1 else -1) s).
Proof.
  intros (Hn & Ha & Hb & Hc & Hfb) Hp Hok Hm. unfold handle_syscall. wp_step. wp_step. cbv zeta.
  rewrite Hn, Ha, Hb, Hc. change (bool_decide (SYS_OPEN = SYS_EXIT)) with false.
  change (bool_decide (SYS_OPEN = SYS_WRITE)) with false. change (bool_decide (SYS_OPEN = SYS_READ)) with false.
  change (bool_decide (SYS_OPEN = SYS_OPEN)) with true. cbv iota. unfold sys_open.
  wp_step. wp_step. rewrite Hfb. change (bool_decide (0 <> 0)) with false. cbv iota.
  case_bool_decide as Hz.
  { eapply wp_lift; [done|]. cbn. apply return_wp. split; [done|].
    rewrite bool_decide_false by lia. done. }
  rewrite validate_ptr_nonnull by done.
  destruct (validate_cases (k_vm s) path 1 Hok) as (r & -> & Hr01 & Hiff); [done|unfold is_u32; lia|].
  eapply wp_lift; [done|].
  assert (Hr : r = 1 <-> 0x100000 <= path < 0xC0000000 /\ user_ok (k_vm s) path = true).
  { rewrite Hiff. split.
    - intros [?|(? & ? & H)]; [lia|]. split; [lia|]. rewrite <- (Z.add_0_r path). apply (H 0); lia.
    - intros [? Hu]. right. split_and!; [lia..|]. intros k Hk Hlt.
      replace (path + k * 4096) with path by lia. done. }
  destruct Hr01 as [-> | ->].
  { change (bool_decide (0 = 0)) with true. cbv iota. apply return_wp. split; [done|].
    rewrite bool_decide_false; [done|]. intros (? & ? & _). assert (0 = 1) by tauto. done. }
  change (bool_decide (1 = 0)) with false. cbv iota.
  destruct (proj1 Hr eq_refl) as [Hrange Hu]. wp_step.
  destruct (user_ok_translate (k_vm s) path Hok Hm Hu) as [pa Hpa].
  eapply wp_lift; [cbn [ld8 vm_space]; by rewrite Hpa|].
  unfold peek. rewrite Hpa.
  rewrite (bool_decide_ext (0x100000 <= path < 0xC0000000 /\ _) (rd8 (vm_mem (k_vm s)) pa = 47 \/ rd8 (vm_mem (k_vm s)) pa = 46))
    by tauto.
  case_bool_decide; by apply return_wp.
Qed.

(** ** SYS_YIELD *)

(** What resuming a process depends on. *)
Definition ctx (p : process) : regs * Z * Z * Z * Z :=
  (p_regs p, saved_eip p, esp p, user_stack_top p, p_entry p).

Lemma ctx_fields p q :
  ctx p = ctx q -> p_regs p = p_regs q /\ saved_eip p = saved_eip q /\ p_entry p = p_entry q.
Proof. intros E. unfold ctx in E. simplify_eq. done. Qed.

#[local] Instance ctx_proper : Proper (same_but_next ==> eq) ctx.
Proof. intros p q E. by apply (f_equal ctx) in E. Qed.

Lemma enqueue_ctx p s x : ctx (deref (proc_enqueue p s) x) = ctx (deref s x).
Proof.
  unfold proc_enqueue. case_bool_decide; [done|]. rewrite (queue_push_same _ _ x), deref_update.
  by case_decide; subst.
Qed.

Lemma dequeue_ctx s x : ctx (deref (snd (proc_dequeue s)) x) = ctx (deref s x).
Proof.
  unfold proc_dequeue. pose proof (queue_pop_same s x) as H. destruct (queue_pop s) as [n s1].
  cbn [snd] in H. rewrite <- H. case_bool_decide; cbn [snd]; [by rewrite H|].
  change (deref (set_curr n ?t) x) with (deref t x). rewrite deref_update. by case_decide; subst.
Qed.

Lemma sched_rel_save s a p f :
  sched_rel s a -> sched_rel (update p (save_context f) s) a.
Proof.
  intros [Hq Hc Hnd Hnz Hr Hrun].
  assert (Hn : forall x, next (deref (update p (save_context f) s) x) = next (deref s x)).
  { intros x. rewrite deref_update. by case_decide; subst. }
  assert (Hst : forall x, state (deref (update p (save_context f) s) x) = state (deref s x)).
  { intros x. rewrite deref_update. by case_decide; subst. }
  constructor; try done; [by apply (queue_is_ext s)| |]; intros x Hx; rewrite Hst; auto.
Qed.

Lemma resume_ctx p q r : ctx p = ctx q -> resume_regs p r = resume_regs q r /\ resume_eip p = resume_eip q.
Proof.
  intros E. injection E as E1 E2 E3 E4 E5. unfold resume_regs, resume_eip.
  by rewrite E1, E2, E3, E4, E5.
Qed.

Lemma resume_saved p r : has_regs (p_regs p) -> resume_regs p r = p_regs p.
Proof. intros H. unfold resume_regs. by rewrite bool_decide_true. Qed.

Lemma resume_fresh p r :
  ~ has_regs (p_regs p) ->
  resume_regs p r =
    {| r_edi := 0; r_esi := 0; r_ebp := 0;
       r_esp := if decide (esp p <> 0) then esp p
                else if decide (user_stack_top p <> 0) then user_stack_top p else r_esp r;
       r_ebx := 0; r_edx := 0; r_ecx := 0; r_eax := 0 |}.
Proof.
  intros H. unfold resume_regs. rewrite bool_decide_false by done.
  rewrite !bool_decide_decide. by destruct (decide (esp p <> 0)), (decide (user_stack_top p <> 0)).
Qed.

Lemma resume_eip_eq p : resume_eip p = if decide (saved_eip p = 0) then p_entry p else saved_eip p.
Proof. unfold resume_eip. rewrite bool_decide_decide. destruct (decide (_ = 0)), (decide (_ <> 0)); done. Qed.

(** The state after the running process [p] yields: [n] runs. *)
Record yielded (s s' : kstate) (p n : Z) (a' : sched) : Prop := {
  y_sched : sched_rel (k_procs s') a';
  y_running : running a' = Some n;
  y_frame : forall q, ctx q = ctx (deref (update p (save_context (k_frame s)) (k_procs s)) n) ->
    k_frame s' = set_frame (set_eax 0 (resume_regs q (f_regs (k_frame s)))) (resume_eip q) (k_frame s);
  y_ctx : forall x, ctx (deref (k_procs s') x)
                  = ctx (deref (update p (save_context (k_frame s)) (k_procs s)) x);
  y_vm : k_vm s' = k_vm s;
}.

Lemma sys_yield_wp s p l :
  sched_rel (k_procs s) {| running := Some p; ready := l |} ->
  r_eax (f_regs (k_frame s)) = SYS_YIELD ->
  wp handle_syscall s (fun _ s' o => o = [] /\
    exists n, yielded s s' p n (sched_yield {| running := Some p; ready := l |})).
Proof.
  intros Hrel Heax. unfold handle_syscall. wp_step. wp_step. cbv zeta. rewrite Heax.
  change (bool_decide (SYS_YIELD = SYS_EXIT)) with false. change (bool_decide (SYS_YIELD = SYS_WRITE)) with false.
  change (bool_decide (SYS_YIELD = SYS_READ)) with false. change (bool_decide (SYS_YIELD = SYS_OPEN)) with false.
  change (bool_decide (SYS_YIELD = SYS_CLOSE)) with false. change (bool_decide (SYS_YIELD = SYS_YIELD)) with true.
  cbv iota. unfold sys_yield. apply wp_bind, wp_get. cbv beta zeta.
  change (get_curr_proc (k_procs s)) with (curr_proc (k_procs s)). rewrite (sr_curr _ _ Hrel).
  cbn [default running from_option id].
  pose proof (sched_rel_save _ _ p (k_frame s) Hrel) as Hrel1.
  set (ps := update p (save_context (k_frame s)) (k_procs s)) in *.
  destruct (schedule_step_rel ps p l Hrel1) as (Hp & Hf & Hrel2).
  rewrite bool_decide_true by done. apply wp_bind, wp_put, wp_bind, wp_get. cbv beta.
  set (s1 := set_procs (proc_enqueue p ps) s). change (k_procs s1) with (proc_enqueue p ps).
  pose proof (dequeue_ctx (proc_enqueue p ps)) as Hctx.
  destruct (proc_dequeue (proc_enqueue p ps)) as [n ps2]. cbn [fst snd] in *.
  assert (n <> 0) by (apply (sr_nonzero _ _ Hrel2); unfold order; rewrite <- Hf; set_solver).
  apply wp_bind, wp_put. rewrite bool_decide_false by done. cbv beta zeta.
  apply wp_bind, wp_modify, return_wp.
  split; [done|]. exists n. constructor; try done.
  - intros q Hq. rewrite <- (enqueue_ctx p), <- Hctx in Hq.
    destruct (resume_ctx _ _ (f_regs (k_frame s)) Hq) as [-> ->]. done.
  - intros x. cbn. by rewrite Hctx, enqueue_ctx.
Qed.

(** C40: SYS_YIELD switches to the next process of the round-robin order: the
    scheduler's state makes one yield; the caller's registers, stack pointer and
    return address are saved in its structure and no other structure's context
    changes.  The frame gets the seven saved registers and the saved ESP of the
    process resumed when one of EDI, EAX, EBX, ECX, EDX, EBP, ESI was saved
    non-zero, and otherwise zeros with the ESP of the structure (its esp, else
    its user_stack_top, else the old one); EAX is 0; the return address is the
    one saved, or the entry point when none is.  The stack pointer and the flags
    the processor pushed stay the caller's. *)
Theorem sys_yield_switch s p l :
  sched_rel (k_procs s) {| running := Some p; ready := l |} ->
  r_eax (f_regs (k_frame s)) = SYS_YIELD ->
  wp handle_syscall s (fun _ s' o => o = [] /\
    let a' := sched_yield {| running := Some p; ready := l |} in
    let caller := deref (k_procs s') p in
    sched_rel (k_procs s') a' /\
    p_regs caller = f_regs (k_frame s) /\ esp caller = r_esp (f_regs (k_frame s)) /\
    saved_eip caller = f_eip (k_frame s) /\
    (forall x, x <> p -> p_regs (deref (k_procs s') x) = p_regs (deref (k_procs s) x) /\
                         esp (deref (k_procs s') x) = esp (deref (k_procs s) x) /\
                         saved_eip (deref (k_procs s') x) = saved_eip (deref (k_procs s) x)) /\
    exists n, running a' = Some n /\
      let q := deref (k_procs s') n in
      let saved := p_regs q in
      let fresh := r_edi saved = 0 /\ r_eax saved = 0 /\ r_ebx saved = 0 /\ r_ecx saved = 0 /\
                   r_edx saved = 0 /\ r_ebp saved = 0 /\ r_esi saved = 0 in
      (~ fresh -> f_regs (k_frame s') =
         {| r_edi := r_edi saved; r_esi := r_esi saved; r_ebp := r_ebp saved; r_esp := r_esp saved;
            r_ebx := r_ebx saved; r_edx := r_edx saved; r_ecx := r_ecx saved; r_eax := 0 |}) /\
      (fresh -> f_regs (k_frame s') =
         {| r_edi := 0; r_esi := 0; r_ebp := 0;
            r_esp := if decide (esp q <> 0) then esp q
                     else if decide (user_stack_top q <> 0) then user_stack_top q
                     else r_esp (f_regs (k_frame s));
            r_ebx := 0; r_edx := 0; r_ecx := 0; r_eax := 0 |}) /\
      f_eip (k_frame s') = (if decide (saved_eip q = 0) then p_entry q else saved_eip q) /\
      f_useresp (k_frame s') = f_useresp (k_frame s) /\ f_eflags (k_frame s') = f_eflags (k_frame s)).
Proof.
  intros Hrel Heax. eapply wp_mono; [by apply sys_yield_wp|]. cbv beta.
  intros _ s' o (-> & n & [Hs Hr Hf Hc _]). pose proof (Hc p) as Hp.
  rewrite deref_update_eq in Hp. injection Hp as Hp1 Hp2 Hp3 _ _.
  cbv zeta. split_and!; try done.
  { intros x Hx. pose proof (Hc x) as Hx'. rewrite deref_update_ne in Hx' by done. by injection Hx'. }
  exists n. split; [done|]. rewrite (Hf _ (Hc n)). cbn [set_frame f_regs f_eip f_useresp f_eflags].
  split_and!; [| | |done..].
  - intros Hfr. rewrite resume_saved by (unfold has_regs; lia). done.
  - intros Hfr. rewrite resume_fresh by (unfold has_regs; lia). done.
  - apply resume_eip_eq.
Qed.

(** A sequence of SYS_YIELD calls, each from the frame the running process has
    at that time. *)
Fixpoint yields (fs : list int_frame) : M kstate unit :=
  match fs with
  | [] => mret tt
  | f :: fs' => mmodify (on_frame (fun _ => f));; handle_syscall;; yields fs'
  end.

Definition yield_frame (f : int_frame) : Prop := r_eax (f_regs f) = SYS_YIELD.

(** The frames agree on the stack pointer and the flags the processor pushed. *)
Definition pushed (f g : int_frame) : Prop := f_useresp f = f_useresp g /\ f_eflags f = f_eflags g.

(** [p]'s context, saved from the frame [f0], survives until its turn comes. *)
Lemma yields_until p f0 gs l1 l2 q s :
  sched_rel (k_procs s) {| running := Some q; ready := l1 ++ p :: l2 |} ->
  p_regs (deref (k_procs s) p) = f_regs f0 -> saved_eip (deref (k_procs s) p) = f_eip f0 ->
  yield_frame f0 -> f_eip f0 <> 0 -> Forall yield_frame gs -> length gs = S (length l1) ->
  wp (yields gs) s (fun _ s' _ =>
    curr_proc (k_procs s') = p /\
    f_regs (k_frame s') = set_eax 0 (f_regs f0) /\ f_eip (k_frame s') = f_eip f0 /\
    forall g, last gs = Some g -> pushed (k_frame s') g).
Proof.
  revert l1 l2 q s. induction gs as [|g gs IH]; intros l1 l2 q s Hrel Hpr Hpe Hf0 He0 Hgs Hlen; [done|].
  apply Forall_cons in Hgs as [Hg Hgs]. cbn [yields].
  apply wp_bind, wp_modify. apply wp_bind. eapply wp_mono.
  { apply sys_yield_wp; [exact Hrel|exact Hg]. }
  cbv beta. intros _ s' o (-> & n & [Hs Hr Hf Hc _]). cbn [k_procs k_frame on_frame] in *.
  assert (Hqp : q <> p).
  { pose proof (sr_nodup _ _ Hrel) as Hnd. unfold order in Hnd. cbn in Hnd.
    apply NoDup_cons in Hnd as [Hin _]. set_solver. }
  pose proof (Hc p) as Hp. rewrite deref_update_ne in Hp by congruence.
  apply ctx_fields in Hp as (Hp1 & Hp2 & _). rewrite Hpr in Hp1. rewrite Hpe in Hp2.
  destruct l1 as [|x l1]; destruct gs as [|g' gs]; try (cbn in Hlen; lia).
  - cbn in Hr. injection Hr as <-. cbn [yields]. apply wp_ret.
    split; [apply (sr_curr _ _ Hs)|]. rewrite (Hf _ (Hc p)). cbn [set_frame f_regs f_eip].
    unfold resume_regs, resume_eip. rewrite Hp1, Hp2.
    rewrite (bool_decide_true (has_regs _)), bool_decide_true; [|done|].
    { split_and!; [done..|]. by intros h [= <-]. }
    right; left. by rewrite Hf0.
  - cbn [sched_yield sched_enqueue sched_dequeue running ready app snd] in Hs.
    rewrite <- app_assoc in Hs. cbn [app] in Hs.
    eapply wp_mono; [apply (IH l1 (l2 ++ [q]) x); try done; cbn in *; lia|]. done.
Qed.

(** C11: a yield gives a process its general registers and its place in the
    program back, and no more: with the processes p :: l runnable and each of
    them yielding when its turn comes, from whatever frame it has by then, after
    |l| further yields p runs again at its saved return address with the
    registers pusha stored, EAX excepted, which is 0.  The user stack pointer
    and the flags the processor pushed are neither saved nor restored: p comes
    back with those of the process that yielded last. *)
Theorem sys_yield_resumes s p l f0 gs :
  sched_rel (k_procs s) {| running := Some p; ready := l |} ->
  Forall yield_frame (f0 :: gs) -> length gs = length l -> f_eip f0 <> 0 ->
  wp (yields (f0 :: gs)) s (fun _ s' _ =>
    curr_proc (k_procs s') = p /\
    f_regs (k_frame s') = set_eax 0 (f_regs f0) /\ f_eip (k_frame s') = f_eip f0 /\
    f_useresp (k_frame s') = f_useresp (default f0 (last gs)) /\
    f_eflags (k_frame s') = f_eflags (default f0 (last gs))).
Proof.
  intros Hrel Hfs Hlen He0. apply Forall_cons in Hfs as [Hf0 Hgs]. cbn [yields].
  apply wp_bind, wp_modify. apply wp_bind. eapply wp_mono.
  { apply sys_yield_wp; [exact Hrel|exact Hf0]. }
  cbv beta. intros _ s' o (-> & n & [Hs Hr Hf Hc _]). cbn [k_procs k_frame on_frame] in *.
  pose proof (Hc p) as Hp. rewrite deref_update_eq in Hp.
  apply ctx_fields in Hp as (Hp1 & Hp2 & _). cbn [save_context p_regs saved_eip k_frame on_frame] in Hp1, Hp2.
  destruct l as [|x l].
  - destruct gs; [|done]. cbn in Hr. injection Hr as <-. cbn [yields]. apply wp_ret.
    split; [apply (sr_curr _ _ Hs)|]. rewrite (Hf _ (Hc p)). cbn [set_frame f_regs f_eip].
    unfold resume_regs, resume_eip. rewrite Hp1, Hp2.
    rewrite (bool_decide_true (has_regs _)), bool_decide_true; [done|done|].
    right; left. by rewrite Hf0.
  - cbn [sched_yield sched_enqueue sched_dequeue running ready app snd] in Hs.
    eapply wp_mono; [eapply (yields_until p f0 gs l []); try done; cbn in *; lia|].
    cbv beta. intros _ s2 o2 (Hcp & Hfr & Hei & Hpu). split_and!; [done..| |];
      destruct (last gs) as [g|] eqn:El; try (by apply (Hpu g)); by apply last_None in El as ->.
Qed.

(** C39: SYS_EXIT records the status and requests the return to the kernel, but leaves the process current and in the state RUNNING, so that the next call of the scheduler queues the exited process again and, when nothing else is ready, re-enters it at its entry point. *)
Theorem sys_exit_not_dequeued s p b c status :
  sched_rel (k_procs s) {| running := Some p; ready := [] |} ->
  calls s SYS_EXIT status b c ->
  wp handle_syscall s (fun _ s' o =>
    s' = returned 0 (request_exit status s) /\ o = [] /\
    exists t ps o', schedule (k_procs s') = Done (Some t, ps, o') /\ curr_proc ps = p /\
      snd t = p_entry (deref (k_procs s) p)).
Proof.
  intros Hrel (Hn & Ha & _). unfold handle_syscall. apply wp_bind, wp_get. cbv beta zeta. rewrite Hn, Ha.
  change (bool_decide (SYS_EXIT = SYS_EXIT)) with true. cbv iota. apply wp_bind, wp_modify, return_wp.
  split_and!; [done..|]. change (k_procs (returned _ _)) with (k_procs s).
  destruct (schedule_step_rel _ _ _ Hrel) as (Hp & Hf & Hrel').
  cbn [sched_yield sched_enqueue sched_dequeue running ready app snd] in Hf, Hrel'. injection Hf as Hf.
  unfold schedule. unfold mbind at 1, M_bind, mget. cbv beta iota zeta.
  change (get_curr_proc (k_procs s)) with (curr_proc (k_procs s)). rewrite (sr_curr _ _ Hrel). cbn [default running from_option id].
  rewrite (sr_running _ _ Hrel p) by done. rewrite bool_decide_true by done.
  pose proof (dequeue_ctx (proc_enqueue p (k_procs s)) p) as Hctx. rewrite enqueue_ctx in Hctx.
  unfold mbind, mmodify, M_bind, mput. cbv beta iota zeta.
  destruct (proc_dequeue (proc_enqueue p (k_procs s))) as [n ps]. cbn [fst snd] in *. subst n.
  rewrite bool_decide_false by done. unfold emit, mret, M_ret. cbv beta iota zeta.
  do 3 eexists. split; [reflexivity|]. split; [apply (sr_curr _ _ Hrel')|]. cbn [snd].
  by apply ctx_fields in Hctx as (_ & _ & ->).
Qed.

(** ** Concrete inputs *)

(** The demo space with the text "Hi!!" at the start of its user page. *)
Definition text_vm : vm := on_mem (set_entry 0x3000 0 0x21216948) demo_vm.

Lemma text_tables_mapped : tables_mapped text_vm.
Proof.
  assert (Hd : is_page (page_direc demo_vm)) by apply demo_tables_wf.
  apply (data_tables_mapped demo_vm _ 0x3000); [exact demo_mmu_on|exact Hd|exact demo_not_table| |exact (ok_mapped _ demo_tables_ok)].
  intros c j Hc Hne Hj. rewrite entry_set_entry; [|exact demo_data_page|exact Hc|lia|exact Hj].
  rewrite decide_False; [reflexivity|]. intros [E _]. exact (Hne (eq_sym E)).
Qed.

Definition call_frame (num a b c : Z) : int_frame := {|
  f_regs := {| r_edi := 0; r_esi := 7; r_ebp := 0; r_esp := 0; r_ebx := a; r_edx := c;
               r_ecx := b; r_eax := num |};
  f_eip := 0x40000010; f_cs := 0x1B; f_eflags := 0x202; f_useresp := 0x80000FFC; f_ss := 0x23 |}.

Definition call_state (num a b c : Z) : kstate := {|
  k_vm := text_vm; k_procs := three_procs; k_frame := call_frame num a b c;
  last_exit_status := 0; syscall_exit_requested := 0; syscall_kernel_fallback := 0 |}.

Lemma text_user_page b : 0x40000000 <= b < 0x40001000 -> user_ok text_vm b = true.
Proof. intros Hb. rewrite (user_ok_page text_vm b 0x40000000); [vm_compute; reflexivity|word]. Qed.

Lemma sys_write_prints_witness :
  exists s' o, handle_syscall (call_state SYS_WRITE 1 0x40000001 3) = Done (tt, s', o) /\
    s' = returned 3 (call_state SYS_WRITE 1 0x40000001 3) /\ printed o = [105; 33; 33].
Proof.
  destruct (wp_inv _ _ _ (sys_write_prints (call_state SYS_WRITE 1 0x40000001 3) 1 0x40000001 3
    ltac:(repeat split) ltac:(by left) text_tables_mapped (conj eq_refl eq_refl)
    ltac:(lia) ltac:(lia) ltac:(lia) ltac:(intros b Hb; apply text_user_page; lia)))
    as ([] & s' & o & E & -> & -> & _).
  eexists _, _. split; [exact E|]. split; [reflexivity|]. vm_compute. reflexivity.
Defined.

Lemma sys_write_aligned_safe_witness :
  exists w s' o, handle_syscall (call_state SYS_WRITE 2 0x40000C00 3000) = Done (tt, s', o) /\
    0 <= w <= 3000 /\ r_eax (f_regs (k_frame s')) = u32 w.
Proof.
  destruct (wp_inv _ _ _ (sys_write_aligned_safe (call_state SYS_WRITE 2 0x40000C00 3000) 2 0x40000C00 3000
    ltac:(repeat split) ltac:(by right) text_tables_mapped (conj eq_refl eq_refl)
    ltac:(vm_compute; split; congruence) ltac:(vm_compute; split; congruence) eq_refl))
    as ([] & s' & o & E & w & Hw & -> & _).
  exists w. eexists _, _. split; [exact E|]. split; [exact Hw|]. reflexivity.
Defined.

Lemma sys_write_gap_faults_witness :
  exists va, handle_syscall (call_state SYS_WRITE 1 0x40000FFF 2) = Fault va.
Proof.
  apply (sys_write_gap_faults (call_state SYS_WRITE 1 0x40000FFF 2) 1 0x40000FFF 2);
    [repeat split|by left|exact text_tables_mapped|lia|lia|lia|vm_compute; congruence| |vm_compute; reflexivity].
  intros b Hb. change ((0x40000FFF + 2 - 1) / 4096 * 4096) with 0x40001000 in Hb.
  apply text_user_page. lia.
Defined.

Lemma fd_calls_spec_witness :
  exists s' o, handle_syscall (call_state SYS_CLOSE 2 0 0) = Done (tt, s', o) /\
    s' = returned 0 (call_state SYS_CLOSE 2 0 0).
Proof.
  destruct (wp_inv _ _ _ (fd_calls_spec (call_state SYS_CLOSE 2 0 0) SYS_CLOSE 2 0 0
    ltac:(repeat split) ltac:(vm_compute; split; congruence) ltac:(right; left; reflexivity)))
    as ([] & s' & o & E & _ & ->).
  eexists _, _. split; [exact E|]. reflexivity.
Defined.

Lemma sys_open_spec_witness :
  exists s' o, handle_syscall (call_state SYS_OPEN 0x40000000 0 0) = Done (tt, s', o) /\
    s' = returned (-1) (call_state SYS_OPEN 0x40000000 0 0).
Proof.
  destruct (wp_inv _ _ _ (sys_open_spec (call_state SYS_OPEN 0x40000000 0 0) 0x40000000 0 0
    ltac:(repeat split) ltac:(vm_compute; split; congruence) text_tables_mapped (conj eq_refl eq_refl)))
    as ([] & s' & o & E & _ & ->).
  eexists _, _. split; [exact E|].
  rewrite bool_decide_false; [reflexivity|]. vm_compute. intros (_ & _ & [?|?]); discriminate.
Defined.

Lemma sys_yield_switch_witness :
  exists s' o, handle_syscall (call_state SYS_YIELD 1 2 3) = Done (tt, s', o) /\
    curr_proc (k_procs s') = 0x2000 /\ saved_eip (deref (k_procs s') 0x1000) = 0x40000010.
Proof.
  destruct (wp_inv _ _ _ (sys_yield_switch (call_state SYS_YIELD 1 2 3) 0x1000 [0x2000; 0x3000]
    three_procs_rel eq_refl)) as ([] & s' & o & E & _ & Hr & _ & _ & He & _).
  exists s', o. split; [exact E|]. split; [exact (sr_curr _ _ Hr)|exact He].
Defined.

Lemma sys_yield_resumes_witness :
  exists s' o,
    yields [call_frame SYS_YIELD 1 2 3; call_frame SYS_YIELD 4 4 4; call_frame SYS_YIELD 5 5 5]
      (call_state 0 0 0 0) = Done (tt, s', o) /\
    f_regs (k_frame s') = f_regs (call_frame 0 1 2 3) /\ f_useresp (k_frame s') = 0x80000FFC.
Proof.
  destruct (wp_inv _ _ _ (sys_yield_resumes (call_state 0 0 0 0) 0x1000 [0x2000; 0x3000]
    (call_frame SYS_YIELD 1 2 3) [call_frame SYS_YIELD 4 4 4; call_frame SYS_YIELD 5 5 5]
    three_procs_rel ltac:(repeat constructor) eq_refl ltac:(discriminate)))
    as ([] & s' & o & E & _ & Hf & _ & Hu & _).
  exists s', o. split; [exact E|]. split; [rewrite Hf; reflexivity|exact Hu].
Defined.

(** A single process at 0x1000 that runs. *)
Definition one_proc : procs := fold_left run_op [Enqueue 0x1000; Dequeue] procs0.

Lemma one_proc_rel : sched_rel one_proc {| running := Some 0x1000; ready := [] |}.
Proof.
  change {| running := Some 0x1000; ready := [] |} with
    (spec_op (spec_op {| running := None; ready := [] |} (Enqueue 0x1000)) Dequeue).
  unfold one_proc. cbn [fold_left].
  repeat (apply run_op_rel; [|cbn; unfold order; cbn; split_and?; try done; set_solver by lia]).
  apply (sched_rel_init procs0).
Qed.

Lemma sys_exit_not_dequeued_witness :
  exists s' o, handle_syscall (set_procs one_proc (call_state SYS_EXIT 42 0 0)) = Done (tt, s', o) /\
    last_exit_status s' = 42 /\ curr_proc (k_procs s') = 0x1000.
Proof.
  destruct (wp_inv _ _ _ (sys_exit_not_dequeued (set_procs one_proc (call_state SYS_EXIT 42 0 0))
    0x1000 0 0 42 one_proc_rel ltac:(repeat split))) as ([] & s' & o & E & -> & _).
  eexists _, _. split; [exact E|]. split; reflexivity.
Defined.
