(* ===== verification/BlockDev.v ===== *)
(** * The sector interface between the file system and its disk

    fat16.c and the shell call [ata_read_sector] and [ata_write_sector]; what
    they rely on is this interface: sectors of 512 bytes that hold what was
    last written.  [Ata] proves that the driver of ata.c implements it over a
    drive; [ramdisk] implements it for the concrete inputs. *)
From Stdlib Require Import ZArith Lia ZifyBool.
From stdpp Require Import base numbers list gmap.
From S2P Require Import Prelude.

Class BlockDev (D : Type) := {
  blk_read : Z -> D -> outcome (list Z * D);
  blk_write : Z -> list Z -> D -> outcome D;
}.

(** A sector: 512 bytes. *)
Definition sector_ok (l : list Z) : Prop := length l = 512%nat /\ Forall is_u8 l.

Class BlockDevSpec (D : Type) `{BlockDev D} := {
  dev_ok : D -> Prop;
  sector : D -> Z -> list Z;
  dev_limit : Z;
  dev_sector_ok : forall d lba, dev_ok d -> 0 <= lba < dev_limit -> sector_ok (sector d lba);
  dev_read : forall d lba, dev_ok d -> 0 <= lba < dev_limit ->
    exists d', blk_read lba d = Done (sector d lba, d') /\ dev_ok d' /\
      forall l, 0 <= l < dev_limit -> sector d' l = sector d l;
  dev_write : forall d lba buf, dev_ok d -> 0 <= lba < dev_limit -> sector_ok buf ->
    exists d', blk_write lba buf d = Done d' /\ dev_ok d' /\ sector d' lba = buf /\
      forall l, 0 <= l < dev_limit -> l <> lba -> sector d' l = sector d l;
}.

(** ** A disk in memory *)
Abbreviation ramdisk := (gmap Z (list Z)).

Definition rd_sector (d : ramdisk) (lba : Z) : list Z := default (replicate 512 0) (d !! lba).

#[export] Instance ramdisk_dev : BlockDev ramdisk := {
  blk_read lba d := Done (rd_sector d lba, d);
  blk_write lba buf d := Done (<[lba := buf]> d);
}.

#[export, refine] Instance ramdisk_spec : BlockDevSpec ramdisk := {
  dev_ok d := forall lba, sector_ok (rd_sector d lba);
  sector := rd_sector;
  dev_limit := 0x1000000;
}.
Proof.
  - intros d lba Hd _. apply Hd.
  - intros d lba Hd _. by exists d.
  - intros d lba buf Hd _ Hb. exists (<[lba := buf]> d).
    assert (Hs : forall l, rd_sector (<[lba := buf]> d) l = if decide (l = lba) then buf else rd_sector d l).
    { intros l. unfold rd_sector. case_decide; [subst; by rewrite lookup_insert_eq|].
      by rewrite lookup_insert_ne by congruence. }
    split_and!; [done| | |].
    + intros l. rewrite Hs. case_decide; [done|apply Hd].
    + rewrite Hs. by rewrite decide_True.
    + intros l _ Hne. rewrite Hs. by rewrite decide_False.
Defined.
