(* ===== verification/Ports.v ===== *)
(** * ports.c: the I/O ports

    The hardware behind the ports is a parameter: a state [H] and what an IN or
    OUT instruction on a port does to it.  A function that only writes ports is
    the list of its writes. *)
From Stdlib Require Import ZArith Lia ZifyBool.
From stdpp Require Import base numbers list gmap.
From S2P Require Import Prelude.

Class Ports (H : Type) := {
  in_al : Z -> H -> Z * H;
  out_al : Z -> Z -> H -> H;
  in_ax : Z -> H -> Z * H;
  out_ax : Z -> Z -> H -> H;
}.

Section Ports.
Context {H : Type} `{Ports H}.

Definition inb (port : Z) (h : H) : Z * H := let '(v, h) := in_al (u16 port) h in (u8 v, h).

Definition outb (port data : Z) (h : H) : H := out_al (u16 port) (u8 data) h.

Definition inw (port : Z) (h : H) : Z * H := let '(v, h) := in_ax (u16 port) h in (u16 v, h).

Definition outw (port data : Z) (h : H) : H := out_ax (u16 port) (u16 data) h.

(** A sequence of [outb]s. *)
Definition outbs (l : list (Z * Z)) (h : H) : H := fold_left (fun h '(p, v) => outb p v h) l h.
End Ports.
