(* ===== verification/Ata.v ===== *)
(** * ata.c: the PIO driver of the ATA drive

    The drive is a parameter: [AtaDrive] states what the ATA interface documents
    about its registers, as laws on a view of the hardware state.  It may stay
    busy for any number of status reads up to [max_busy], and ignores writes to
    its registers while it is busy. *)
From Stdlib Require Import ZArith Lia ZifyBool.
From stdpp Require Import base numbers list gmap.
From S2P Require Import Prelude BlockDev Ports.

(** ** The driver *)
Section Driver.
Context {H : Type} `{Ports H}.

(** [while ((inb(0x1F7) & (1 << b)) != v) {}] *)
Fixpoint poll (fuel : nat) (b : Z) (v : bool) (h : H) : outcome H :=
  match fuel with
  | O => Spin
  | S fuel' =>
      let '(st, h) := inb 0x1F7 h in
      if Bool.eqb (bit st b) v then Done h else poll fuel' b v h
  end.

Definition ata_wait_ready (fuel : nat) (h : H) : outcome H :=
  h ← poll fuel 7 false h; poll fuel 6 true h.

(** The register writes both commands start with. *)
Definition ata_select (fuel : nat) (lba : Z) (h : H) : outcome H :=
  let h := outb 0x1F6 (Z.lor 0xE0 (Z.land (Z.shiftr lba 24) 0x0F)) h in
  h ← ata_wait_ready fuel h;
  let h := outb 0x1F2 1 h in
  let h := outb 0x1F3 lba h in
  let h := outb 0x1F4 (Z.shiftr lba 8) h in
  Done (outb 0x1F5 (Z.shiftr lba 16) h).

(** [inb(0x3F6)] four times, then BSY clear and DRQ set. *)
Definition ata_wait_data (fuel : nat) (h : H) : outcome H :=
  let h := snd (inb 0x3F6 h) in
  let h := snd (inb 0x3F6 h) in
  let h := snd (inb 0x3F6 h) in
  let h := snd (inb 0x3F6 h) in
  h ← poll fuel 7 false h; poll fuel 3 true h.

(** [for (i = 0; i < 256; i++) ptr[i] = inw(0x1F0)]: the bytes of [buffer]. *)
Fixpoint read_words (n : nat) (h : H) : list Z * H :=
  match n with
  | O => ([], h)
  | S n' =>
      let '(w, h) := inw 0x1F0 h in
      let '(l, h) := read_words n' h in
      (u8 w :: u8 (w / 0x100) :: l, h)
  end.

(** [for (...) outw(0x1F0, ptr[i])] from index [i] on. *)
Fixpoint write_words (n : nat) (i : Z) (buffer : list Z) (h : H) : H :=
  match n with
  | O => h
  | S n' => write_words n' (i + 1) buffer (outw 0x1F0 (get16 buffer (2 * i)) h)
  end.

Definition ata_read_sector (fuel : nat) (lba : Z) (h : H) : outcome (list Z * H) :=
  h ← ata_select fuel lba h;
  let h := outb 0x1F7 0x20 h in
  h ← ata_wait_data fuel h;
  let '(buffer, h) := read_words 256 h in
  let '(_, h) := inb 0x1F7 h in
  Done (buffer, h).

Definition ata_write_sector (fuel : nat) (lba : Z) (buffer : list Z) (h : H) : outcome H :=
  h ← ata_select fuel lba h;
  let h := outb 0x1F7 0x30 h in
  h ← ata_wait_data fuel h;
  let h := write_words 256 0 buffer h in
  let h := outb 0x1F7 0xE7 h in
  let '(_, h) := inb 0x1F7 h in
  Done h.
End Driver.

(** ** The drive *)
Inductive ata_mode : Type :=
| Idle
| ReadData (lba i : Z)
| WriteData (lba : Z) (ws : list Z).

Record ata_view := {
  mode : ata_mode; busy : nat;
  r_drive : Z; r_count : Z; r_lba0 : Z; r_lba1 : Z; r_lba2 : Z;
  platter : Z -> list Z;
}.

Definition with_mode (m : ata_mode) (b : nat) (v : ata_view) : ata_view := {|
  mode := m; busy := b; r_drive := r_drive v; r_count := r_count v;
  r_lba0 := r_lba0 v; r_lba1 := r_lba1 v; r_lba2 := r_lba2 v; platter := platter v |}.

Definition with_platter (f : Z -> list Z) (v : ata_view) : ata_view := {|
  mode := mode v; busy := busy v; r_drive := r_drive v; r_count := r_count v;
  r_lba0 := r_lba0 v; r_lba1 := r_lba1 v; r_lba2 := r_lba2 v; platter := f |}.

(** A write to one of the task-file registers 0x1F2 .. 0x1F6. *)
Definition with_reg (port d : Z) (v : ata_view) : ata_view := {|
  mode := mode v; busy := busy v;
  r_drive := if bool_decide (port = 0x1F6) then d else r_drive v;
  r_count := if bool_decide (port = 0x1F2) then d else r_count v;
  r_lba0 := if bool_decide (port = 0x1F3) then d else r_lba0 v;
  r_lba1 := if bool_decide (port = 0x1F4) then d else r_lba1 v;
  r_lba2 := if bool_decide (port = 0x1F5) then d else r_lba2 v;
  platter := platter v |}.

(** The sector the registers select. *)
Definition selected (v : ata_view) : Z :=
  r_lba0 v + 0x100 * r_lba1 v + 0x10000 * r_lba2 v + 0x1000000 * (r_drive v mod 16).

(** Bytes of a sequence of words. *)
Definition bytes_of_words (ws : list Z) : list Z := ws ≫= fun w => [u8 w; u8 (w / 0x100)].

Definition transferring (m : ata_mode) : bool := match m with Idle => false | _ => true end.

Class AtaDrive (H : Type) `{Ports H} := {
  view : H -> ata_view;
  max_busy : nat;
  capacity : Z;
  drive_busy : forall h, (busy (view h) <= max_busy)%nat;
  (* status: BSY counts down; when it is clear, DRDY is set and DRQ says whether data is expected *)
  status_busy : forall h n, busy (view h) = S n ->
    bit (fst (inb 0x1F7 h)) 7 = true /\ view (snd (inb 0x1F7 h)) = with_mode (mode (view h)) n (view h);
  status_ready : forall h, busy (view h) = O ->
    bit (fst (inb 0x1F7 h)) 7 = false /\ bit (fst (inb 0x1F7 h)) 6 = true /\
    bit (fst (inb 0x1F7 h)) 3 = transferring (mode (view h)) /\ view (snd (inb 0x1F7 h)) = view h;
  alt_status : forall h, exists n, (n <= busy (view h))%nat /\
    view (snd (inb 0x3F6 h)) = with_mode (mode (view h)) n (view h);
  (* task-file registers *)
  reg_write : forall h port d, 0x1F2 <= port <= 0x1F6 -> mode (view h) = Idle ->
    view (outb port d h) = if Nat.eqb (busy (view h)) 0 then with_reg port (u8 d) (view h) else view h;
  (* READ SECTORS and WRITE SECTORS of one sector *)
  cmd_read : forall h, mode (view h) = Idle -> busy (view h) = O ->
    r_count (view h) = 1 -> Z.land (r_drive (view h)) 0xF0 = 0xE0 -> selected (view h) < capacity ->
    exists n, view (outb 0x1F7 0x20 h) = with_mode (ReadData (selected (view h)) 0) n (view h);
  cmd_write : forall h, mode (view h) = Idle -> busy (view h) = O ->
    r_count (view h) = 1 -> Z.land (r_drive (view h)) 0xF0 = 0xE0 -> selected (view h) < capacity ->
    exists n, view (outb 0x1F7 0x30 h) = with_mode (WriteData (selected (view h)) []) n (view h);
  (* FLUSH CACHE, possibly ignored *)
  cmd_flush : forall h, mode (view h) = Idle ->
    exists n, view (outb 0x1F7 0xE7 h) = with_mode Idle n (view h);
  (* the data register *)
  data_in : forall h lba i, mode (view h) = ReadData lba i -> busy (view h) = O -> 0 <= i < 256 ->
    fst (inw 0x1F0 h) = u16 (get16 (platter (view h) lba) (2 * i)) /\
    exists n, view (snd (inw 0x1F0 h)) =
      with_mode (if bool_decide (i = 255) then Idle else ReadData lba (i + 1))
                (if bool_decide (i = 255) then n else O) (view h);
  data_out : forall h lba ws w, mode (view h) = WriteData lba ws -> busy (view h) = O ->
    (length ws < 256)%nat ->
    let ws' := ws ++ [u16 w] in
    exists n, view (outw 0x1F0 w h) =
      if Nat.eqb (length ws') 256
      then with_platter (fun l => if bool_decide (l = lba) then bytes_of_words ws' else platter (view h) l)
             (with_mode Idle n (view h))
      else with_mode (WriteData lba ws') O (view h);
}.
