(* ===== verification/AtaSpec.v ===== *)
(** * The ATA driver implements the sector interface

    For every drive that keeps the laws of [AtaDrive], reading and writing a
    sector with the driver of ata.c is reading and writing a sector of the
    platter, within the number of polls the drive's latency allows. *)
From Stdlib Require Import ZArith Lia ZifyBool.
From stdpp Require Import base numbers list gmap.
From S2P Require Import Prelude BlockDev Ports Ata.

Section Spec.
Context {T : Type} {PT : Ports T} {AT : AtaDrive T}.

(** 28 bits of a sector number fit the registers. *)
Definition lba28 : Z := 0x10000000.

(** Between two commands.  The drive may still be busy with the last one; its
    drive register then holds what that command selected. *)
Record drive_ok (h : T) : Prop := {
  d_idle : mode (view h) = Idle;
  d_select : busy (view h) = O \/ 0xE0 <= r_drive (view h) <= 0xEF;
  d_sectors : forall lba, 0 <= lba < Z.min capacity lba28 -> sector_ok (platter (view h) lba);
}.

(** The bits 24 to 27 the drive gets: the driver writes their register before
    it waits, and a busy drive ignores the write, so that the bits of the
    command before stay selected. *)
Definition head_bits (h : T) (lba : Z) : Z :=
  if bool_decide (busy (view h) = O) then lba / 0x1000000 mod 16 else r_drive (view h) mod 16.

(** The sector a command for [lba] works on. *)
Definition addressed (h : T) (lba : Z) : Z := lba mod 0x1000000 + 0x1000000 * head_bits h lba.

Lemma view_busy h : view h = with_mode (mode (view h)) (busy (view h)) (view h).
Proof. by destruct (view h). Qed.

Lemma poll_not_busy fuel h :
  (busy (view h) < fuel)%nat ->
  exists h', poll fuel 7 false h = Done h' /\ view h' = with_mode (mode (view h)) 0 (view h).
Proof.
  revert h. induction fuel as [|fuel IH]; intros h Hf; [lia|]. cbn [poll].
  destruct (busy (view h)) as [|n] eqn:Hb.
  - destruct (status_ready h Hb) as (H7 & _ & _ & Hv). destruct (inb 0x1F7 h) as [st h1]. cbn [fst snd] in *.
    rewrite H7. exists h1. split; [done|]. rewrite Hv. rewrite <- Hb. apply view_busy.
  - destruct (status_busy h n Hb) as (H7 & Hv). destruct (inb 0x1F7 h) as [st h1]. cbn [fst snd] in *.
    rewrite H7. destruct (IH h1) as (h' & Hp & Hv'); [rewrite Hv; cbn; lia|]. exists h'. split; [exact Hp|].
    by rewrite Hv', Hv.
Qed.

Lemma poll_drdy fuel h :
  busy (view h) = O -> exists h', poll (S fuel) 6 true h = Done h' /\ view h' = view h.
Proof.
  intros Hb. cbn [poll]. destruct (status_ready h Hb) as (_ & H6 & _ & Hv).
  destruct (inb 0x1F7 h) as [st h1]. cbn [fst snd] in *. rewrite H6. by exists h1.
Qed.

Lemma poll_drq fuel h :
  busy (view h) = O -> transferring (mode (view h)) = true ->
  exists h', poll (S fuel) 3 true h = Done h' /\ view h' = view h.
Proof.
  intros Hb Ht. cbn [poll]. destruct (status_ready h Hb) as (_ & _ & H3 & Hv).
  destruct (inb 0x1F7 h) as [st h1]. cbn [fst snd] in *. rewrite H3, Ht. by exists h1.
Qed.

Abbreviation enough := (S (S max_busy)).

(** The registers after the common prefix of both commands. *)
Definition selects (lba top : Z) (v : ata_view) : ata_view := {|
  mode := Idle; busy := O; r_drive := 0xE0 + top; r_count := 1;
  r_lba0 := u8 lba; r_lba1 := u8 (Z.shiftr lba 8); r_lba2 := u8 (Z.shiftr lba 16);
  platter := platter v |}.

Lemma reg_write_idle h port d :
  0x1F2 <= port <= 0x1F6 -> mode (view h) = Idle -> busy (view h) = O ->
  view (outb port d h) = with_reg port (u8 d) (view h).
Proof. intros Hp Hm Hb. rewrite reg_write by done. by rewrite Hb. Qed.

Lemma head_nibble k : 0 <= k < 16 -> Z.lor 0xE0 k = 0xE0 + k /\ Z.land (0xE0 + k) 0xF0 = 0xE0.
Proof.
  intros Hk. assert (Hin : k ∈ seqZ 0 16) by (apply elem_of_seqZ; lia).
  assert (F : Forall (fun k => Z.lor 0xE0 k = 0xE0 + k /\ Z.land (0xE0 + k) 0xF0 = 0xE0) (seqZ 0 16)).
  { change (seqZ 0 16) with [0;1;2;3;4;5;6;7;8;9;10;11;12;13;14;15]. repeat constructor. }
  exact (proj1 (Forall_forall _ _) F k Hin).
Qed.

Lemma head_bits_range h lba : 0 <= head_bits h lba < 16.
Proof. unfold head_bits. case_bool_decide; apply Z.mod_pos_bound; lia. Qed.

Lemma ata_select_ok lba h :
  drive_ok h ->
  exists h', ata_select enough lba h = Done h' /\ view h' = selects lba (head_bits h lba) (view h).
Proof.
  intros [Hm Hs _]. unfold ata_select.
  assert (Hhead : Z.lor 0xE0 (Z.land (Z.shiftr lba 24) 0x0F) = 0xE0 + lba / 0x1000000 mod 16).
  { rewrite Z.shiftr_div_pow2 by lia. change 0x0F with (Z.ones 4). rewrite Z.land_ones by lia.
    apply head_nibble. apply Z.mod_pos_bound. lia. }
  assert (Hn : 0 <= lba / 0x1000000 mod 16 < 16) by (apply Z.mod_pos_bound; lia).
  rewrite Hhead. set (h1 := outb 0x1F6 _ h).
  assert (H1 : mode (view h1) = Idle /\ r_drive (view h1) = 0xE0 + head_bits h lba /\ platter (view h1) = platter (view h)).
  { unfold h1, head_bits. rewrite reg_write by (done || lia). rewrite u8_small by (unfold is_u8; lia).
    destruct (Nat.eqb_spec (busy (view h)) 0) as [E|E]; [by rewrite bool_decide_true|].
    rewrite bool_decide_false by done. split_and!; [done| |done]. destruct Hs; [done|]. word. }
  destruct H1 as (Hm1 & Hd1 & Hp1). unfold ata_wait_ready.
  destruct (poll_not_busy enough h1) as (h2 & -> & Hv2); [pose proof (drive_busy h1); lia|]. cbn [mbind outcome_bind].
  destruct (poll_drdy (S max_busy) h2) as (h3 & -> & Hv3); [by rewrite Hv2|]. cbn [mbind outcome_bind].
  eexists. split; [reflexivity|].
  assert (Hi3 : mode (view h3) = Idle /\ busy (view h3) = O) by (rewrite Hv3, Hv2; by rewrite Hm1).
  destruct Hi3 as [Hm3 Hb3].
  pose proof (reg_write_idle h3 0x1F2 1 ltac:(lia) Hm3 Hb3) as E1. set (h4 := outb 0x1F2 1 h3) in *.
  pose proof (reg_write_idle h4 0x1F3 lba ltac:(lia) ltac:(by rewrite E1) ltac:(by rewrite E1)) as E2.
  set (h5 := outb 0x1F3 lba h4) in *.
  pose proof (reg_write_idle h5 0x1F4 (Z.shiftr lba 8) ltac:(lia) ltac:(by rewrite E2, E1) ltac:(by rewrite E2, E1)) as E3.
  set (h6 := outb 0x1F4 (Z.shiftr lba 8) h5) in *.
  rewrite (reg_write_idle h6) by (lia || by rewrite E3, E2, E1). rewrite E3, E2, E1, Hv3, Hv2.
  unfold with_reg, with_mode, selects. cbn. rewrite Hm1, Hd1, Hp1. reflexivity.
Qed.

Lemma selected_selects h lba v : is_u32 lba -> selected (selects lba (head_bits h lba) v) = addressed h lba.
Proof.
  intros Hl. pose proof (head_bits_range h lba) as Hk. unfold addressed, selected, selects.
  cbn [r_lba0 r_lba1 r_lba2 r_drive]. revert Hk. generalize (head_bits h lba). intros k Hk.
  rewrite !Z.shiftr_div_pow2 by lia. change (2 ^ 8) with 0x100. change (2 ^ 16) with 0x10000.
  replace ((0xE0 + k) mod 16) with k by word. word.
Qed.

Lemma addressed_range h lba : 0 <= addressed h lba < lba28.
Proof. pose proof (head_bits_range h lba). unfold addressed, lba28. word. Qed.

Lemma addressed_same h lba :
  busy (view h) = O \/ r_drive (view h) = 0xE0 + lba / 0x1000000 -> 0 <= lba < lba28 ->
  addressed h lba = lba.
Proof.
  intros Hs Hl. unfold lba28 in Hl. unfold addressed, head_bits. case_bool_decide; [word|].
  destruct Hs as [|E]; [done|]. rewrite E. word.
Qed.

(** The registers after [selects] are what a command needs. *)
Lemma selects_command h lba v :
  let w := selects lba (head_bits h lba) v in
  mode w = Idle /\ busy w = O /\ r_count w = 1 /\ Z.land (r_drive w) 0xF0 = 0xE0.
Proof. cbn. split_and!; [done..|]. apply head_nibble, head_bits_range. Qed.

Lemma ata_wait_data_ok h m n v :
  view h = with_mode m n v -> transferring m = true ->
  exists h', ata_wait_data enough h = Done h' /\ view h' = with_mode m 0 v.
Proof.
  intros Hv Ht. unfold ata_wait_data.
  assert (Halt : forall g k, view g = with_mode m k v -> exists k', view (snd (inb 0x3F6 g)) = with_mode m k' v).
  { intros g k Hg. destruct (alt_status g) as (k' & _ & Hk). exists k'. rewrite Hk, Hg. done. }
  destruct (Halt h n Hv) as [n1 H1]. destruct (Halt _ _ H1) as [n2 H2].
  destruct (Halt _ _ H2) as [n3 H3]. destruct (Halt _ _ H3) as [n4 H4].
  set (h4 := snd (inb 0x3F6 (snd (inb 0x3F6 (snd (inb 0x3F6 (snd (inb 0x3F6 h)))))))) in *.
  destruct (poll_not_busy enough h4) as (h5 & -> & Hv5); [pose proof (drive_busy h4); lia|]. cbn [mbind outcome_bind].
  rewrite H4 in Hv5. destruct (poll_drq (S max_busy) h5) as (h6 & -> & Hv6); [by rewrite Hv5..|].
  exists h6. split; [done|]. by rewrite Hv6, Hv5.
Qed.

(** The status read that ends both operations. *)
Lemma final_status h n v :
  view h = with_mode Idle n v -> exists k, view (snd (inb 0x1F7 h)) = with_mode Idle k v.
Proof.
  intros Hv. destruct n as [|n].
  - destruct (status_ready h) as (_ & _ & _ & E); [by rewrite Hv|]. exists O. by rewrite E, Hv.
  - destruct (status_busy h n) as (_ & E); [by rewrite Hv|]. exists n. by rewrite E, Hv.
Qed.

(** ** Transfers *)
Lemma word_bytes l i : sector_ok l -> u8 (get16 l i) = at_ l i /\ u8 (get16 l i / 0x100) = at_ l (i + 1).
Proof.
  intros Hl. destruct Hl as [_ Hb]. pose proof (at_u8 l i Hb). pose proof (at_u8 l (i + 1) Hb). unfold get16. split; word.
Qed.

Lemma word_u16 l i : sector_ok l -> u16 (get16 l i) = get16 l i.
Proof.
  intros Hl. destruct Hl as [_ Hb]. pose proof (at_u8 l i Hb). pose proof (at_u8 l (i + 1) Hb).
  apply u16_small. unfold get16, is_u8, is_u16 in *. lia.
Qed.

Lemma sub_step l i n : 0 < n -> sub_ l i (n + 1) = at_ l i :: sub_ l (i + 1) n.
Proof.
  intros Hn. apply at_ext; [cbn; rewrite !length_sub; lia|]. intros j Hj. rewrite length_sub in Hj.
  rewrite at_sub by lia. destruct (decide (j = 0)) as [->|]; [by rewrite Z.add_0_r|].
  change (at_ l i :: sub_ l (i + 1) n) with ([at_ l i] ++ sub_ l (i + 1) n).
  rewrite at_app_r, at_sub by (cbn; lia). f_equal. cbn. lia.
Qed.

Lemma sub_two l i : sub_ l i 2 = [at_ l i; at_ l (i + 1)].
Proof.
  unfold sub_. change (seqZ 0 2) with [0; 1]. rewrite !fmap_cons, Z.add_0_r. done.
Qed.

Lemma read_words_ok n lba i h v :
  i + Z.of_nat n = 255 -> 0 <= i -> view h = with_mode (ReadData lba i) 0 v -> sector_ok (platter v lba) ->
  exists k, fst (read_words (S n) h) = sub_ (platter v lba) (2 * i) (2 * Z.of_nat (S n)) /\
    view (snd (read_words (S n) h)) = with_mode Idle k v.
Proof.
  revert i h. induction n as [|n IH]; intros i h Hi Hi0 Hv Hs.
  - destruct (data_in h lba i) as (Hw & k & Hv'); [by rewrite Hv..|lia|].
    cbn [read_words]. destruct (inw 0x1F0 h) as [w h1]. cbn [fst snd] in *. exists k.
    rewrite bool_decide_true, Hv in Hv' by lia. split; [|by rewrite Hv'].
    rewrite Hw, Hv. cbn [platter with_mode]. rewrite word_u16 by done. destruct (word_bytes (platter v lba) (2 * i) Hs) as [-> ->].
    change (2 * Z.of_nat 1) with 2. by rewrite sub_two.
  - destruct (data_in h lba i) as (Hw & k & Hv'); [by rewrite Hv..|lia|].
    rewrite !bool_decide_false, Hv in Hv' by lia.
    change (read_words (S (S n)) h) with (let '(w, h) := inw 0x1F0 h in let '(l, h) := read_words (S n) h in
      (u8 w :: u8 (w / 0x100) :: l, h)).
    destruct (inw 0x1F0 h) as [w h1]. cbn [fst snd] in *.
    destruct (IH (i + 1) h1) as (k' & Hr & Hvr); [lia|lia|by rewrite Hv'|done|].
    destruct (read_words (S n) h1) as [l h2]. cbn [fst snd] in *. exists k'. split; [|done].
    rewrite Hw, Hr, Hv. cbn [platter with_mode]. rewrite word_u16 by done. destruct (word_bytes (platter v lba) (2 * i) Hs) as [-> ->].
    replace (2 * Z.of_nat (S (S n))) with (2 * Z.of_nat (S n) + 1 + 1) by lia.
    rewrite !sub_step by lia. do 3 f_equal. lia.
Qed.

(** The words of a buffer from index [i] on. *)
Definition words_from (buffer : list Z) (n : nat) (i : Z) : list Z :=
  (fun k => get16 buffer (2 * k)) <$> seqZ i (Z.of_nat n).

Lemma words_from_cons buffer n i :
  words_from buffer (S n) i = get16 buffer (2 * i) :: words_from buffer n (i + 1).
Proof.
  unfold words_from. rewrite seqZ_cons by lia. rewrite fmap_cons. do 3 f_equal; lia.
Qed.

Lemma write_words_ok n lba i h v ws buffer :
  Z.of_nat (length ws) = i -> i + Z.of_nat n = 255 -> sector_ok buffer ->
  view h = with_mode (WriteData lba ws) 0 v ->
  exists k, view (write_words (S n) i buffer h) =
    with_platter (fun l => if bool_decide (l = lba)
                           then bytes_of_words (ws ++ words_from buffer (S n) i) else platter v l)
      (with_mode Idle k v).
Proof.
  intros Hlen Hi Hb. assert (Hu : forall j, u16 (get16 buffer (2 * j)) = get16 buffer (2 * j)).
  { intros j. by apply word_u16. }
  revert i ws h Hlen Hi. induction n as [|n IH]; intros i ws h Hlen Hi Hv.
  - destruct (data_out h lba ws (get16 buffer (2 * i))) as (k & Hk); [by rewrite Hv..|lia|]. cbv zeta in Hk.
    rewrite length_app in Hk. cbn [length] in Hk.
    rewrite (proj2 (Nat.eqb_eq _ _)) in Hk by lia. exists k. cbn [write_words]. rewrite Hk, Hv, Hu.
    rewrite words_from_cons. done.
  - destruct (data_out h lba ws (get16 buffer (2 * i))) as (k & Hk); [by rewrite Hv..|lia|]. cbv zeta in Hk.
    rewrite length_app in Hk. cbn [length] in Hk.
    rewrite (proj2 (Nat.eqb_neq _ _)) in Hk by lia. rewrite Hu, Hv in Hk.
    destruct (IH (i + 1) (ws ++ [get16 buffer (2 * i)]) (outw 0x1F0 (get16 buffer (2 * i)) h)) as (k' & Hk');
      [rewrite length_app; cbn; lia|lia|by rewrite Hk|].
    exists k'. rewrite <- (assoc_L (++)) in Hk'. cbn [app] in Hk'. rewrite <- words_from_cons in Hk'. exact Hk'.
Qed.

Lemma bytes_of_words_from buffer n i :
  sector_ok buffer -> 0 <= i -> bytes_of_words (words_from buffer n i) = sub_ buffer (2 * i) (2 * Z.of_nat n).
Proof.
  intros Hb. revert i. induction n as [|n IH]; intros i Hi; [done|]. rewrite words_from_cons.
  unfold bytes_of_words. rewrite bind_cons. fold (bytes_of_words (words_from buffer n (i + 1))).
  destruct (word_bytes buffer (2 * i) Hb) as [-> ->]. rewrite IH by lia.
  destruct (decide (n = O)) as [->|].
  { change (2 * Z.of_nat 1) with 2. by rewrite sub_two. }
  replace (2 * Z.of_nat (S n)) with (2 * Z.of_nat n + 1 + 1) by lia. rewrite !sub_step by lia. cbn [app].
  do 3 f_equal. lia.
Qed.

Lemma sub_all l : length l = 512%nat -> sub_ l 0 512 = l.
Proof.
  intros Hl. apply at_ext; [rewrite length_sub; lia|]. intros i Hi. rewrite length_sub in Hi.
  rewrite at_sub by lia. done.
Qed.

(** The drive after a command for [lba] on [h]. *)
Definition after_command (h : T) (lba : Z) (h' : T) : Prop :=
  drive_ok h' /\ r_drive (view h') = 0xE0 + head_bits h lba.

Lemma ata_read_ok lba h :
  drive_ok h -> is_u32 lba -> addressed h lba < capacity ->
  exists h', ata_read_sector enough lba h = Done (platter (view h) (addressed h lba), h') /\
    after_command h lba h' /\ platter (view h') = platter (view h).
Proof.
  intros Hok Hl Hc. pose proof (addressed_range h lba) as Hr28. pose proof (head_bits_range h lba) as Hk.
  pose proof (d_sectors h Hok (addressed h lba) ltac:(lia)) as Hs. unfold ata_read_sector.
  destruct (ata_select_ok lba h Hok) as (h1 & -> & Hv1). cbn [mbind outcome_bind].
  destruct (selects_command h lba (view h)) as (S1 & S2 & S3 & S4). rewrite <- Hv1 in S1, S2, S3, S4.
  destruct (cmd_read h1) as [n Hn]; [done..|by rewrite Hv1, selected_selects|].
  rewrite Hv1, selected_selects in Hn by done. set (h2 := outb 0x1F7 0x20 h1) in *.
  destruct (ata_wait_data_ok h2 _ _ _ Hn eq_refl) as (h3 & -> & Hv3). cbn [mbind outcome_bind].
  destruct (read_words_ok 255 (addressed h lba) 0 h3 _ ltac:(lia) ltac:(lia) Hv3 Hs) as (k & Hr & Hv4).
  destruct (read_words 256 h3) as [l h4]. cbn [fst snd] in *.
  change (platter (selects lba (head_bits h lba) (view h))) with (platter (view h)) in Hr.
  change (2 * 0) with 0 in Hr. change (2 * Z.of_nat 256) with 512 in Hr. rewrite sub_all in Hr by apply Hs.
  destruct (final_status h4 k _ Hv4) as [k' Hv5]. destruct (inb 0x1F7 h4) as [st h5]. cbn [fst snd] in *.
  exists h5. rewrite Hr. split; [done|]. split; [|by rewrite Hv5].
  split; [|by rewrite Hv5]. constructor; rewrite Hv5; [done|right; cbn; lia|apply Hok].
Qed.

Lemma ata_write_ok lba buffer h :
  drive_ok h -> is_u32 lba -> addressed h lba < capacity -> sector_ok buffer ->
  exists h', ata_write_sector enough lba buffer h = Done h' /\ after_command h lba h' /\
    forall l, platter (view h') l = if bool_decide (l = addressed h lba) then buffer else platter (view h) l.
Proof.
  intros Hok Hl Hc Hb. pose proof (head_bits_range h lba) as Hk. unfold ata_write_sector.
  destruct (ata_select_ok lba h Hok) as (h1 & -> & Hv1). cbn [mbind outcome_bind].
  destruct (selects_command h lba (view h)) as (S1 & S2 & S3 & S4). rewrite <- Hv1 in S1, S2, S3, S4.
  destruct (cmd_write h1) as [n Hn]; [done..|by rewrite Hv1, selected_selects|].
  rewrite Hv1, selected_selects in Hn by done. set (h2 := outb 0x1F7 0x30 h1) in *.
  destruct (ata_wait_data_ok h2 _ _ _ Hn eq_refl) as (h3 & -> & Hv3). cbn [mbind outcome_bind].
  destruct (write_words_ok 255 (addressed h lba) 0 h3 _ [] buffer eq_refl ltac:(lia) Hb Hv3) as (k & Hv4).
  set (h4 := write_words 256 0 buffer h3) in *. cbn [app] in Hv4.
  rewrite (bytes_of_words_from buffer 256 0) in Hv4 by (done || lia).
  change (2 * 0) with 0 in Hv4. change (2 * Z.of_nat 256) with 512 in Hv4. rewrite sub_all in Hv4 by apply Hb.
  destruct (cmd_flush h4) as [m Hm]; [by rewrite Hv4|]. set (h5 := outb 0x1F7 0xE7 h4) in *.
  destruct (final_status h5 m _ Hm) as [k' Hv6]. destruct (inb 0x1F7 h5) as [st h6]. cbn [fst snd] in *.
  assert (Hp : platter (view h6) = fun l => if bool_decide (l = addressed h lba) then buffer else platter (view h) l)
    by (by rewrite Hv6, Hv4).
  exists h6. split; [done|]. split; [|intros l; by rewrite Hp].
  split; [|by rewrite Hv6, Hv4].
  constructor; [by rewrite Hv6, Hv4|right; rewrite Hv6, Hv4; cbn; lia|].
  intros l Hll. rewrite Hp. case_bool_decide; [done|by apply Hok].
Qed.

(** *** The driver over a drive is a block device

    fat16.c stays in the first 2^24 sectors, where no command disturbs the
    next. *)
Definition dev_ready (h : T) : Prop := drive_ok h /\ (busy (view h) = O \/ r_drive (view h) = 0xE0).

Lemma addressed_low h lba : dev_ready h -> 0 <= lba < 0x1000000 -> head_bits h lba = 0 /\ addressed h lba = lba.
Proof.
  intros [_ Hs] Hl. assert (E : head_bits h lba = 0).
  { unfold head_bits. case_bool_decide; [by rewrite Z.div_small|]. destruct Hs as [|E]; [done|]. by rewrite E. }
  split; [done|]. unfold addressed. rewrite E. word.
Qed.

Lemma after_ready h lba h' :
  dev_ready h -> 0 <= lba < 0x1000000 -> after_command h lba h' -> dev_ready h'.
Proof.
  intros Hok Hl [Hok' Hd]. split; [done|right]. by rewrite Hd, (proj1 (addressed_low h lba Hok Hl)).
Qed.

#[export] Instance ata_dev : BlockDev T := {
  blk_read := ata_read_sector enough;
  blk_write := ata_write_sector enough;
}.

#[export, refine] Instance ata_dev_spec : BlockDevSpec T := {
  dev_ok := dev_ready;
  sector h := platter (view h);
  dev_limit := Z.min capacity 0x1000000;
}.
Proof.
  - intros h lba [Hok _] Hl. apply Hok. unfold lba28. lia.
  - intros h lba Hok Hl. destruct (addressed_low h lba Hok ltac:(lia)) as [_ Ha].
    destruct (ata_read_ok lba h (proj1 Hok)) as (h' & E & Hok' & Hp); [unfold is_u32; lia|lia|].
    rewrite Ha in E. exists h'. split_and!; [done|by eapply after_ready; [| |exact Hok']; [|lia]|]. intros l _. by rewrite Hp.
  - intros h lba buf Hok Hl Hb. destruct (addressed_low h lba Hok ltac:(lia)) as [_ Ha].
    destruct (ata_write_ok lba buf h (proj1 Hok)) as (h' & E & Hok' & Hp); [unfold is_u32; lia|lia|done|].
    rewrite Ha in Hp. exists h'.
    split_and!; [done|by eapply after_ready; [| |exact Hok']; [|lia]| |]; [|intros l _ Hne]; rewrite Hp;
      [by rewrite bool_decide_true|by rewrite bool_decide_false].
Defined.

(** C16: ata_read_sector over any drive that keeps the ATA register protocol and
    is between two commands returns, within the polls the drive's latency asks
    for, the 512 bytes of the sector, leaves the disk unchanged and the drive
    between two commands again.  The sector is lba (up to 28 bits) when the
    drive is not busy at the call; when it is, the write of the bits 24 to 27
    comes before the wait and is ignored, and the sector is the one with the low
    24 bits of lba and the top bits of the previous command.  The sector must
    exist on the drive. *)
Theorem ata_read_sector_spec lba h :
  drive_ok h -> is_u32 lba ->
  let top := if bool_decide (busy (view h) = O) then lba / 0x1000000 mod 16 else r_drive (view h) mod 16 in
  let sector := lba mod 0x1000000 + 0x1000000 * top in
  sector < capacity ->
  exists h', ata_read_sector enough lba h = Done (platter (view h) sector, h') /\
    drive_ok h' /\ r_drive (view h') = 0xE0 + top /\ platter (view h') = platter (view h) /\
    (lba < 0x10000000 -> busy (view h) = O \/ r_drive (view h) = 0xE0 + lba / 0x1000000 -> sector = lba).
Proof.
  intros Hok Hl top sector Hc. destruct (ata_read_ok lba h Hok Hl Hc) as (h' & E & [Hok' Hd] & Hp).
  exists h'. split_and!; [done..|]. intros H28 Hs. apply addressed_same; [done|]. unfold is_u32, lba28 in *. lia.
Qed.

(** C15: ata_write_sector over any drive that keeps the ATA register protocol
    and is between two commands stores the buffer in the sector, changes no
    other sector, terminates within the polls the drive's latency asks for, and
    leaves the drive between two commands again.  The sector is lba (up to 28
    bits) when the drive is not busy at the call; when it is, it is the one with
    the low 24 bits of lba and the top bits of the previous command, so that a
    busy drive can have the wrong sector written.  The sector must exist on the
    drive. *)
Theorem ata_write_sector_spec lba buffer h :
  drive_ok h -> is_u32 lba -> sector_ok buffer ->
  let top := if bool_decide (busy (view h) = O) then lba / 0x1000000 mod 16 else r_drive (view h) mod 16 in
  let sector := lba mod 0x1000000 + 0x1000000 * top in
  sector < capacity ->
  exists h', ata_write_sector enough lba buffer h = Done h' /\
    drive_ok h' /\ r_drive (view h') = 0xE0 + top /\
    (forall l, platter (view h') l = if bool_decide (l = sector) then buffer else platter (view h) l) /\
    (lba < 0x10000000 -> busy (view h) = O \/ r_drive (view h) = 0xE0 + lba / 0x1000000 -> sector = lba).
Proof.
  intros Hok Hl Hb top sector Hc. destruct (ata_write_ok lba buffer h Hok Hl Hc Hb) as (h' & E & [Hok' Hd] & Hp).
  exists h'. split_and!; [done..|]. intros H28 Hs. apply addressed_same; [done|]. unfold is_u32, lba28 in *. lia.
Qed.
End Spec.

(** ** A drive that keeps the laws

    A drive that is busy for two status reads after each command, as a concrete
    instance of the protocol. *)
Section Simulated.

Definition sim : Type := ata_view.

(** The state behind a view: the busy count is cut off at 2. *)
Definition sim_norm (v : sim) : sim := with_mode (mode v) (Nat.min 2 (busy v)) v.

Definition sim_status (v : sim) : Z :=
  if Nat.eqb (busy v) 0 then (if transferring (mode v) then 0x48 else 0x40) else 0x80.

Definition sim_in (port : Z) (v : sim) : Z * sim :=
  let v := sim_norm v in
  if bool_decide (port = 0x1F7) then (sim_status v, with_mode (mode v) (pred (busy v)) v)
  else (0, v).

Definition sim_ready (v : sim) : bool :=
  match mode v with Idle => Nat.eqb (busy v) 0 && bool_decide (r_count v = 1) | _ => false end.

Definition sim_out (port d : Z) (v : sim) : sim :=
  let v := sim_norm v in
  match mode v with
  | Idle =>
      if bool_decide (0x1F2 <= port <= 0x1F6) then if Nat.eqb (busy v) 0 then with_reg port d v else v
      else if bool_decide (port = 0x1F7) then
        if Nat.eqb (busy v) 0 then
          if bool_decide (d = 0x20) then with_mode (ReadData (selected v) 0) 2 v
          else if bool_decide (d = 0x30) then with_mode (WriteData (selected v) []) 2 v
          else with_mode Idle 2 v
        else v
      else v
  | _ => v
  end.

Definition sim_in_word (port : Z) (v : sim) : Z * sim :=
  let v := sim_norm v in
  match mode v with
  | ReadData lba i =>
      (get16 (platter v lba) (2 * i),
       with_mode (if bool_decide (i = 255) then Idle else ReadData lba (i + 1)) 0 v)
  | _ => (0, v)
  end.

Definition sim_out_word (port w : Z) (v : sim) : sim :=
  let v := sim_norm v in
  match mode v with
  | WriteData lba ws =>
      let ws' := ws ++ [w] in
      if Nat.eqb (length ws') 256
      then with_platter (fun l => if bool_decide (l = lba) then bytes_of_words ws' else platter v l)
             (with_mode Idle 2 v)
      else with_mode (WriteData lba ws') 0 v
  | _ => v
  end.

#[local] Instance sim_ports : Ports sim := {
  in_al := sim_in; out_al := sim_out; in_ax := sim_in_word; out_ax := sim_out_word;
}.

Lemma sim_norm_norm v : sim_norm (sim_norm v) = sim_norm v.
Proof. unfold sim_norm, with_mode. cbn -[Nat.min]. f_equal. lia. Qed.

Lemma sim_inb port v : is_u16 port -> inb port v = (u8 (fst (sim_in port v)), snd (sim_in port v)).
Proof. intros Hp. unfold inb. cbn. rewrite u16_small by done. by destruct (sim_in port v). Qed.

#[local, refine] Instance sim_drive : AtaDrive sim := {
  view := sim_norm; max_busy := 2; capacity := 0x10000000;
}.
Proof.
  - intros v. cbn -[Nat.min]. lia.
  - intros v n Hb. rewrite sim_inb by (unfold is_u16; lia). cbn [fst snd]. unfold sim_in, sim_status.
    rewrite bool_decide_true by done. cbn [fst snd]. rewrite Hb. cbn [Nat.eqb pred]. split; [done|].
    unfold sim_norm, with_mode in *. cbn -[Nat.min] in *. f_equal. lia.
  - intros v Hb. rewrite sim_inb by (unfold is_u16; lia). cbn [fst snd]. unfold sim_in, sim_status.
    rewrite bool_decide_true by done. cbn [fst snd]. rewrite Hb. cbn [Nat.eqb pred].
    destruct (transferring _); split_and!; try done; unfold sim_norm, with_mode in *; cbn -[Nat.min] in *; by rewrite Hb.
  - intros v. exists (busy (sim_norm v)). split; [done|]. rewrite sim_inb by (unfold is_u16; lia).
    cbn [snd]. unfold sim_in. rewrite bool_decide_false by done. cbn [snd]. rewrite sim_norm_norm. by destruct v.
  - intros v port d Hp Hm. unfold outb. cbn [out_al sim_ports]. rewrite u16_small by (unfold is_u16; lia). unfold sim_out.
    rewrite Hm. rewrite bool_decide_true by done.
    destruct (Nat.eqb_spec (busy (sim_norm v)) 0) as [E|E]; [|apply sim_norm_norm].
    unfold sim_norm, with_mode, with_reg in *. cbn -[Nat.min] in *. f_equal; lia.
  - intros v Hm Hb _ _ _. exists 2%nat. unfold outb. cbn [out_al sim_ports]. change (u16 0x1F7) with 0x1F7. change (u8 0x20) with 0x20.
    unfold sim_out. rewrite Hm, Hb. done.
  - intros v Hm Hb _ _ _. exists 2%nat. unfold outb. cbn [out_al sim_ports]. change (u16 0x1F7) with 0x1F7. change (u8 0x30) with 0x30.
    unfold sim_out. rewrite Hm, Hb. done.
  - intros v Hm. unfold outb. cbn [out_al sim_ports]. change (u16 0x1F7) with 0x1F7. change (u8 0xE7) with 0xE7.
    unfold sim_out. rewrite Hm. destruct (Nat.eqb_spec (busy (sim_norm v)) 0) as [E|E].
    + exists 2%nat. done.
    + exists (busy (sim_norm v)).
      change (sim_norm (sim_norm v) = with_mode Idle (busy (sim_norm v)) (sim_norm v)).
      rewrite sim_norm_norm, <- Hm. by destruct v.
  - intros v lba i Hm Hb Hi. unfold inw. cbn [in_ax sim_ports]. unfold sim_in_word. rewrite Hm. cbn [fst snd]. split.
    + done.
    + exists O. by destruct (bool_decide (i = 255)).
  - intros v lba ws w Hm Hb Hl. exists 2%nat. unfold outw. cbn [out_ax sim_ports]. unfold sim_out_word. rewrite Hm.
    destruct (Nat.eqb _ _); done.
Defined.

(** Sectors filled with their bits 24 to 27, and a command for a low sector just
    issued before: busy. *)
Definition sim_start : sim := {|
  mode := Idle; busy := 2; r_drive := 0xE0; r_count := 0; r_lba0 := 0; r_lba1 := 0; r_lba2 := 0;
  platter := fun l => replicate 512 (l / 0x1000000) |}.

Lemma fill_sector_ok c : is_u8 c -> sector_ok (replicate 512 c).
Proof. intros Hc. split; [apply length_replicate|by apply Forall_replicate]. Qed.

Lemma sim_start_ok : drive_ok sim_start.
Proof.
  constructor; [done|right; cbn; lia|]. intros lba Hl. apply fill_sector_ok. unfold lba28, is_u8 in *. word.
Qed.

(** On the busy drive a read of sector 2^24 + 5 returns sector 5. *)
Lemma ata_read_sector_spec_witness :
  exists h', ata_read_sector 4 0x1000005 sim_start = Done (replicate 512 0, h').
Proof.
  destruct (ata_read_sector_spec 0x1000005 sim_start sim_start_ok) as (h' & E & _);
    [unfold is_u32; lia|vm_compute; reflexivity|].
  exists h'. exact E.
Defined.

Lemma sim_idle_ok : drive_ok (with_mode Idle 0 sim_start).
Proof.
  constructor; [done|by left|]. intros lba Hl. apply fill_sector_ok. unfold lba28, is_u8 in *. word.
Qed.

Lemma ata_write_sector_spec_witness :
  exists h', ata_write_sector 4 0x1000005 (replicate 512 7) (with_mode Idle 0 sim_start) = Done h' /\
    platter (view h') 0x1000005 = replicate 512 7.
Proof.
  destruct (ata_write_sector_spec 0x1000005 (replicate 512 7) _ sim_idle_ok) as (h' & E & _ & _ & Hp & _);
    [unfold is_u32; lia|apply fill_sector_ok; unfold is_u8; lia|vm_compute; reflexivity|].
  exists h'. split; [exact E|]. rewrite Hp. reflexivity.
Defined.
End Simulated.
