(* ===== verification/Fat16.v ===== *)
(** * fat16.c: the FAT16 file system

    [fat] holds the disk and the globals of the file; sectors are lists of 512
    bytes, and the packed structures [fat16_bpb] and [fat16_dir_entry] are read
    out of them at their offsets. *)
From Stdlib Require Import ZArith Lia ZifyBool String.
From stdpp Require Import base numbers list gmap.
From S2P Require Import Prelude Mem BlockDev.

(** ** fat16_format_83 *)

(** [if (c >= 'a' && c <= 'z') c -= 32] *)
Definition upcase (c : Z) : Z := if bool_decide (97 <= c <= 122) then c - 32 else c.

(** First loop: up to 8 characters of the name; the rest of the input. *)
Fixpoint name_loop (n : nat) (i : Z) (input name8 : list Z) : list Z * list Z :=
  match n, input with
  | S n', c :: input' =>
      if bool_decide (c <> 0 /\ c <> 46)
      then name_loop n' (i + 1) input' (splice i [upcase c] name8)
      else (name8, input)
  | _, _ => (name8, input)
  end.

(** [while (input[i] != '\0' && input[i] != '.') i++] *)
Fixpoint skip_to_dot (input : list Z) : list Z :=
  match input with
  | c :: input' => if bool_decide (c <> 0 /\ c <> 46) then skip_to_dot input' else input
  | [] => []
  end.

(** Up to 3 characters of the extension. *)
Fixpoint ext_loop (n : nat) (i : Z) (input ext3 : list Z) : list Z :=
  match n, input with
  | S n', c :: input' =>
      if bool_decide (c <> 0) then ext_loop n' (i + 1) input' (splice i [upcase c] ext3) else ext3
  | _, _ => ext3
  end.

(** The end of the list is the terminator of the string.  The result is the 8
    and 3 characters written into the caller's arrays. *)
Definition fat16_format_83 (input : list Z) : list Z * list Z :=
  let '(name8, rest) := name_loop 8 0 input (replicate 8 32) in
  match skip_to_dot rest with
  | c :: input' =>
      if bool_decide (c = 46) then (name8, ext_loop 3 0 input' (replicate 3 32))
      else (name8, replicate 3 32)
  | [] => (name8, replicate 3 32)
  end.

(** ** fat16.h *)
Record fat16_bpb := {
  bytes_per_sector : Z; sectors_per_clustor : Z; reserved_sectors : Z; fat_count : Z;
  root_dir_entries : Z; total_sectors_small : Z; sectors_per_fat : Z;
  total_sectors_large : Z; fs_type : list Z;
}.

Definition read_bpb (b : list Z) : fat16_bpb := {|
  bytes_per_sector := get16 b 11; sectors_per_clustor := at_ b 13;
  reserved_sectors := get16 b 14; fat_count := at_ b 16; root_dir_entries := get16 b 17;
  total_sectors_small := get16 b 19; sectors_per_fat := get16 b 22;
  total_sectors_large := get32 b 32; fs_type := sub_ b 54 8 |}.

Definition bpb0 : fat16_bpb := {|
  bytes_per_sector := 0; sectors_per_clustor := 0; reserved_sectors := 0; fat_count := 0;
  root_dir_entries := 0; total_sectors_small := 0; sectors_per_fat := 0;
  total_sectors_large := 0; fs_type := replicate 8 0 |}.

Record fat16_dir_entry := {
  filename : list Z; ex : list Z; attributes : Z; low_first_cluster : Z; file_size : Z;
}.

(** [entries[e]] of a directory sector. *)
Definition dir_entry (b : list Z) (e : Z) : fat16_dir_entry := {|
  filename := sub_ b (32 * e) 8; ex := sub_ b (32 * e + 8) 3;
  attributes := at_ b (32 * e + 11); low_first_cluster := get16 b (32 * e + 26);
  file_size := get32 b (32 * e + 28) |}.

(** [memset(&entries[e], 0, 32)] and the assignments of [fat16_write_file]. *)
Definition fill_entry (b : list Z) (e : Z) (name8 ext3 : list Z) (first_cluster size : Z) : list Z :=
  let b := splice (32 * e) (replicate 32 0) b in
  let b := splice (32 * e) (sub_ name8 0 8) b in
  let b := splice (32 * e + 8) (sub_ ext3 0 3) b in
  let b := splice (32 * e + 11) [0x20] b in
  let b := put16 (32 * e + 26) first_cluster b in
  put32 (32 * e + 28) size b.

(** ** The globals *)
Record fat (D : Type) := {
  f_dev : D; g_bpb : fat16_bpb;
  fat_start_sector : Z; root_dir_start : Z; root_dir_sectors : Z; data_start_sector : Z;
}.
Arguments f_dev {D} _. Arguments g_bpb {D} _. Arguments fat_start_sector {D} _.
Arguments root_dir_start {D} _. Arguments root_dir_sectors {D} _. Arguments data_start_sector {D} _.

Definition set_dev {D} (d : D) (s : fat D) : fat D := {|
  f_dev := d; g_bpb := g_bpb s; fat_start_sector := fat_start_sector s;
  root_dir_start := root_dir_start s; root_dir_sectors := root_dir_sectors s;
  data_start_sector := data_start_sector s |}.

Section Fat16.
Context {D : Type} `{BlockDev D}.

Definition read_sector (lba : Z) : M (fat D) (list Z) := fun s =>
  match blk_read lba (f_dev s) with
  | Done (b, d) => Done (b, set_dev d s, [])
  | Fault va => Fault va
  | Undefined u => Undefined u
  | Spin => Spin
  end.

Definition write_sector (lba : Z) (buf : list Z) : M (fat D) unit := fun s =>
  match blk_write lba buf (f_dev s) with
  | Done d => Done (tt, set_dev d s, [])
  | Fault va => Fault va
  | Undefined u => Undefined u
  | Spin => Spin
  end.

(** ** Clusters and the FAT *)

(** The 16-bit field at [buf[i]], read and written, of a buffer of one sector. *)
Definition load16 (buf : list Z) (i : Z) : outcome Z :=
  if bool_decide (0 <= i /\ i + 2 <= Z.of_nat (length buf)) then Done (get16 buf i)
  else Undefined (OutOfBounds "buf").

Definition store16 (buf : list Z) (i v : Z) : outcome (list Z) :=
  if bool_decide (0 <= i /\ i + 2 <= Z.of_nat (length buf)) then Done (put16 i v buf)
  else Undefined (OutOfBounds "buf").

Definition fat16_cluster_to_lba (s : fat D) (cluster : Z) : Z :=
  u32 (data_start_sector s + u32 (cluster - 2) * sectors_per_clustor (g_bpb s)).

Definition fat16_read_fat_entry (cluster : Z) : M (fat D) Z :=
  s ← mget;
  let fat_offset := cluster * 2 in
  q ← lift (udiv fat_offset (bytes_per_sector (g_bpb s)));
  let fat_sector := u32 (fat_start_sector s + q) in
  entry_offset ← lift (umod fat_offset (bytes_per_sector (g_bpb s)));
  buf ← read_sector fat_sector;
  lift (load16 buf entry_offset).

Definition fat16_write_fat_entry (cluster value : Z) : M (fat D) unit :=
  s ← mget;
  let fat_offset := 2 * cluster in
  q ← lift (udiv fat_offset (bytes_per_sector (g_bpb s)));
  let fat1_sector := u32 (fat_start_sector s + q) in
  entry_offset ← lift (umod fat_offset (bytes_per_sector (g_bpb s)));
  buf ← read_sector fat1_sector;
  buf ← lift (store16 buf entry_offset value);
  write_sector fat1_sector buf;;
  write_sector (u32 (fat1_sector + sectors_per_fat (g_bpb s))) buf.

(** [for (c = lo; ...; c++) if (read_fat_entry(c) == 0) return c;], [n] times *)
Fixpoint scan_free (n : nat) (c : Z) : M (fat D) Z :=
  match n with
  | O => mret 0
  | S n' =>
      v ← fat16_read_fat_entry c;
      if bool_decide (v = 0) then mret c else scan_free n' (c + 1)
  end.

Definition total_clusters (s : fat D) : outcome Z :=
  let total_sectors := if bool_decide (total_sectors_small (g_bpb s) <> 0)
                       then total_sectors_small (g_bpb s) else total_sectors_large (g_bpb s) in
  udiv (u32 (total_sectors - data_start_sector s)) (sectors_per_clustor (g_bpb s)).

Definition fat16_find_free_cluster : M (fat D) Z :=
  s ← mget;
  total ← lift (total_clusters s);
  scan_free (Z.to_nat (u16 (total + 2) - 2)) 2.

(** ** fat16_ls *)

(** The entries [e .. 15] of a directory sector: the calls that print them,
    whether one was found and whether the end of the directory was reached. *)
Fixpoint ls_sector (n : nat) (e : Z) (b : list Z) : list event * bool * bool :=
  match n with
  | O => ([], false, false)
  | S n' =>
      let d := dir_entry b e in
      let first := at_ (filename d) 0 in
      if bool_decide (first = 0) then ([], false, true)
      else if bool_decide (first = 0xE5 \/ attributes d = 0x0F) then ls_sector n' (e + 1) b
      else
        let '(o, _, stop) := ls_sector n' (e + 1) b in
        ([Print (c_string (filename d ++ [0])); Print (str "."); Print (c_string (ex d ++ [0]));
          Print (str "  ("); PrintInt (i32 (file_size d)); Print (str " bytes)" ++ [10])] ++ o,
         true, stop)
  end.

Definition emit_all {S} (o : list event) : M S unit := fun s => Done (tt, s, o).

Fixpoint ls_loop (n : nat) (sec : Z) (found_any : bool) : M (fat D) bool :=
  match n with
  | O => mret found_any
  | S n' =>
      s ← mget;
      b ← read_sector (u32 (root_dir_start s + sec));
      let '(o, found, stop) := ls_sector 16 0 b in
      emit_all o;;
      let found_any := found_any || found in
      if stop : bool then mret found_any else ls_loop n' (sec + 1) found_any
  end.

Definition fat16_ls : M (fat D) unit :=
  emit (Print (str "FAT16 Files:" ++ [10]));; emit (Print (str "------------" ++ [10]));;
  s ← mget;
  found_any ← ls_loop (Z.to_nat (root_dir_sectors s)) 0 false;
  if found_any : bool then mret tt else emit (Print (str "(no files)" ++ [10])).

(** ** fat16_init *)
Definition mount (b : list Z) (s : fat D) : outcome (fat D) :=
  let g := read_bpb b in
  let root := reserved_sectors g + fat_count g * sectors_per_fat g in
  rsec ← udiv (root_dir_entries g * 32) (bytes_per_sector g);
  Done {| f_dev := f_dev s; g_bpb := g; fat_start_sector := reserved_sectors g;
          root_dir_start := root; root_dir_sectors := rsec; data_start_sector := root + rsec |}.

Definition fat16_init : M (fat D) unit :=
  b ← read_sector 0;
  s ← mget;
  s ← lift (mount b s);
  mput s;;
  emit (Print (str "Bytes per sector: "));; emit (PrintInt (bytes_per_sector (read_bpb b)));;
  emit (Print [10]);;
  emit (Print (str "Filesystem Type: "));; emit (Print (c_string (fs_type (read_bpb b) ++ [0])));;
  emit (Print [10]);;
  emit (Print (str "Root dir starts at sector: "));; emit (PrintInt (root_dir_start s));;
  emit (Print [10]);;
  fat16_ls.

(** ** fat16_read_file *)
Inductive scan : Type := Found (d : fat16_dir_entry) | EndOfDir | NextSector.

Fixpoint find_in_sector (n : nat) (e : Z) (b name8 ext3 : list Z) : scan :=
  match n with
  | O => NextSector
  | S n' =>
      let d := dir_entry b e in
      if bool_decide (at_ (filename d) 0 = 0) then EndOfDir
      else if bool_decide (at_ (filename d) 0 = 0xE5) then find_in_sector n' (e + 1) b name8 ext3
      else if bool_decide (attributes d = 0x0F) then find_in_sector n' (e + 1) b name8 ext3
      else if bool_decide (CString.strncmp (at_ (filename d)) (at_ name8) 8 = 0 /\
                           CString.strncmp (at_ (ex d)) (at_ ext3) 3 = 0) then Found d
      else find_in_sector n' (e + 1) b name8 ext3
  end.

Fixpoint find_entry (n : nat) (sec : Z) (name8 ext3 : list Z)
    : M (fat D) (option fat16_dir_entry) :=
  match n with
  | O => mret None
  | S n' =>
      s ← mget;
      b ← read_sector (u32 (root_dir_start s + sec));
      match find_in_sector 16 0 b name8 ext3 with
      | Found d => mret (Some d)
      | EndOfDir => mret None
      | NextSector => find_entry n' (sec + 1) name8 ext3
      end
  end.

(** [for (sec = ...; sec < sectors_per_clustor && bytes_left > 0; sec++)], [n]
    sectors left; the bytes of [out_buffer] written so far are [out], of length
    [out_pos]. *)
Fixpoint read_cluster (n : nat) (lba bytes_left : Z) (out : list Z) : M (fat D) (Z * list Z) :=
  match n with
  | O => mret (bytes_left, out)
  | S n' =>
      if bool_decide (bytes_left > 0) then
        tmp ← read_sector (u32 lba);
        let to_copy := if bool_decide (bytes_left < 512) then bytes_left else 512 in
        read_cluster n' (lba + 1) (bytes_left - to_copy) (out ++ sub_ tmp 0 to_copy)
      else mret (bytes_left, out)
  end.

Fixpoint read_chain (fuel : nat) (cluster bytes_left : Z) (out : list Z) : M (fat D) (list Z) :=
  match fuel with
  | O => spin
  | S fuel' =>
      if bool_decide (0x0002 <= cluster /\ cluster < 0xFFF8 /\ bytes_left > 0) then
        s ← mget;
        '(bytes_left, out) ← read_cluster (Z.to_nat (sectors_per_clustor (g_bpb s)))
                               (fat16_cluster_to_lba s cluster) bytes_left out;
        cluster ← fat16_read_fat_entry cluster;
        read_chain fuel' cluster bytes_left out
      else mret out
  end.

(** The result and the bytes written to the front of [out_buffer].  Every
    cluster of at least one sector takes at least one byte off [bytes_left]. *)
Definition fat16_read_file (name8 ext3 : list Z) (max_size : Z) : M (fat D) (Z * list Z) :=
  s ← mget;
  target ← find_entry (Z.to_nat (root_dir_sectors s)) 0 name8 ext3;
  match target with
  | None => emit (Print (str "fat16_read: file not found" ++ [10]));; mret (-1, [])
  | Some d =>
      let bytes_left := if bool_decide (file_size d > max_size) then max_size else file_size d in
      out ← read_chain (Z.to_nat (bytes_left + 1)) (low_first_cluster d) bytes_left [];
      mret (i32 (file_size d), out)
  end.

(** ** fat16_write_file *)

(** [for (i = ...; i < clusters_needed; i++)]: the first cluster, or [None]
    when the disk is full. *)
Fixpoint alloc_chain (n : nat) (i first prev : Z) : M (fat D) (option Z) :=
  match n with
  | O => mret (Some first)
  | S n' =>
      free_c ← fat16_find_free_cluster;
      if bool_decide (free_c = 0) then
        emit (Print (str "fat16_write: disk full!" ++ [10]));; mret None
      else
        (if bool_decide (i = 0) then mret tt else fat16_write_fat_entry prev free_c);;
        fat16_write_fat_entry free_c 0xFFFF;;
        alloc_chain n' (i + 1) (if bool_decide (i = 0) then free_c else first) free_c
  end.

Fixpoint write_cluster (n : nat) (lba : Z) (data : list Z) (size bytes_written : Z) : M (fat D) Z :=
  match n with
  | O => mret bytes_written
  | S n' =>
      if bool_decide (bytes_written < size) then
        let chunk := if bool_decide (size - bytes_written < 512) then size - bytes_written else 512 in
        let tmp := splice 0 (sub_ data bytes_written chunk) (replicate 512 0) in
        write_sector (u32 lba) tmp;;
        write_cluster n' (lba + 1) data size (bytes_written + chunk)
      else mret bytes_written
  end.

Fixpoint write_chain (fuel : nat) (cluster : Z) (data : list Z) (size bytes_written : Z)
    : M (fat D) unit :=
  match fuel with
  | O => spin
  | S fuel' =>
      if bool_decide (0x0002 <= cluster /\ cluster < 0xFFF8 /\ bytes_written < size) then
        s ← mget;
        bytes_written ← write_cluster (Z.to_nat (sectors_per_clustor (g_bpb s)))
                          (fat16_cluster_to_lba s cluster) data size bytes_written;
        cluster ← fat16_read_fat_entry cluster;
        write_chain fuel' cluster data size bytes_written
      else mret tt
  end.

(** The first slot of a directory sector that is free or deleted. *)
Fixpoint free_slot (n : nat) (e : Z) (b : list Z) : option Z :=
  match n with
  | O => None
  | S n' =>
      if bool_decide (at_ (filename (dir_entry b e)) 0 = 0 \/ at_ (filename (dir_entry b e)) 0 = 0xE5)
      then Some e else free_slot n' (e + 1) b
  end.

Fixpoint add_entry (n : nat) (sec : Z) (name8 ext3 : list Z) (first_cluster size : Z)
    : M (fat D) Z :=
  match n with
  | O => emit (Print (str "fat16_write: root directory full!" ++ [10]));; mret (-1)
  | S n' =>
      s ← mget;
      b ← read_sector (u32 (root_dir_start s + sec));
      match free_slot 16 0 b with
      | Some e =>
          write_sector (u32 (root_dir_start s + sec)) (fill_entry b e name8 ext3 first_cluster size);;
          emit (Print (str "fat16_write: file written!" ++ [10]));; mret 0
      | None => add_entry n' (sec + 1) name8 ext3 first_cluster size
      end
  end.

Definition fat16_write_file (name8 ext3 data : list Z) (size : Z) : M (fat D) Z :=
  s ← mget;
  let cluster_bytes := sectors_per_clustor (g_bpb s) * bytes_per_sector (g_bpb s) in
  clusters_needed ← lift (udiv (u32 (size + cluster_bytes - 1)) cluster_bytes);
  if bool_decide (clusters_needed = 0) then
    emit (Print (str "fat16_write: cannot write empty file" ++ [10]));; mret (-1)
  else
    first ← alloc_chain (Z.to_nat clusters_needed) 0 0 0;
    match first with
    | None => mret (-1)
    | Some first_cluster =>
        write_chain (Z.to_nat (size + 1)) first_cluster data size 0;;
        add_entry (Z.to_nat (root_dir_sectors s)) 0 name8 ext3 first_cluster size
    end.
End Fat16.
