(* ===== verification/Fat16Facts.v ===== *)
(** * FAT16 on an abstract disk

    Every operation of [Fat16] is described by what it does to a function from
    sector numbers to sectors; [holds d dk] says that the device [d] holds the
    sectors [dk]. *)
From Stdlib Require Import ZArith Lia ZifyBool String.
From stdpp Require Import base numbers list gmap.
From S2P Require Import Prelude Mem BlockDev Fat16.

Abbreviation disk := (Z -> list Z).

Definition upd (lba : Z) (b : list Z) (dk : disk) : disk := fun l => if bool_decide (l = lba) then b else dk l.

Lemma upd_eq lba b dk : upd lba b dk lba = b.
Proof. unfold upd. by rewrite bool_decide_true. Qed.

Lemma upd_ne lba b dk l : l <> lba -> upd lba b dk l = dk l.
Proof. intros. unfold upd. by rewrite bool_decide_false. Qed.

(** ** Chains of clusters *)

(** The clusters [cs] are linked in the FAT [f] and end with an end marker. *)
Fixpoint chain (f : Z -> Z) (cs : list Z) : Prop :=
  match cs with
  | [] => True
  | c :: cs' =>
      match cs' with
      | [] => 0xFFF8 <= f c
      | c' :: _ => f c = c'
      end /\ chain f cs'
  end.

Lemma chain_ext f g cs : (forall c, c ∈ cs -> f c = g c) -> chain f cs -> chain g cs.
Proof.
  induction cs as [|c cs IH]; [done|]. intros Hfg [Hc Hcs]. split.
  - rewrite <- Hfg by set_solver. done.
  - apply IH; [set_solver|done].
Qed.

Lemma chain_snoc f g cs p c :
  NoDup (cs ++ [p]) -> (forall x, x ∈ cs -> f x = g x) -> g p = c -> 0xFFF8 <= g c ->
  chain f (cs ++ [p]) -> chain g ((cs ++ [p]) ++ [c]).
Proof.
  induction cs as [|x cs IH]; cbn [app]; intros Hnd Hfg Hp Hc.
  - intros _. cbn. by split_and!.
  - intros [Hx Hcs]. apply NoDup_cons in Hnd as [_ Hnd]. split.
    + rewrite <- Hfg by set_solver. by destruct cs.
    + apply IH; [done|set_solver|done|done|done].
Qed.

(** ** Sequences of sectors *)

(** The bytes of a list of sectors. *)
Definition bytes_of (dk : disk) (ls : list Z) : list Z := ls ≫= dk.

Lemma take_sub l n : 0 <= n -> n <= Z.of_nat (length l) -> sub_ l 0 n = take (Z.to_nat n) l.
Proof.
  intros Hn Hl. apply at_ext.
  - rewrite length_sub, length_take. lia.
  - intros i Hi. rewrite length_sub in Hi. rewrite at_sub, at_take by lia. done.
Qed.

Lemma bytes_of_app dk l1 l2 : bytes_of dk (l1 ++ l2) = bytes_of dk l1 ++ bytes_of dk l2.
Proof. apply bind_app. Qed.

(** The sector [write_cluster] writes at byte [bw] of the data. *)
Definition block (data : list Z) (size bw : Z) : list Z :=
  splice 0 (sub_ data bw (Z.min 512 (size - bw))) (replicate 512 0).

Fixpoint put_blocks (ls : list Z) (data : list Z) (size bw : Z) (dk : disk) : disk :=
  match ls with
  | [] => dk
  | l :: ls' =>
      if bool_decide (bw < size)
      then put_blocks ls' data size (bw + Z.min 512 (size - bw)) (upd l (block data size bw) dk)
      else dk
  end.

Lemma put_blocks_done ls data size bw dk : size <= bw -> put_blocks ls data size bw dk = dk.
Proof. destruct ls; [done|]. intros. cbn. by rewrite bool_decide_false by lia. Qed.

Lemma put_blocks_app l1 l2 data size bw dk :
  bw <= size ->
  put_blocks (l1 ++ l2) data size bw dk
  = put_blocks l2 data size (Z.min size (bw + 512 * Z.of_nat (length l1))) (put_blocks l1 data size bw dk).
Proof.
  revert bw dk. induction l1 as [|l l1 IH]; intros bw dk Hb; cbn [app put_blocks].
  - by replace (Z.min size (bw + 512 * Z.of_nat (length []))) with bw by (cbn; lia).
  - case_bool_decide.
    + rewrite IH by lia. f_equal. cbn [length]. lia.
    + symmetry. apply put_blocks_done. lia.
Qed.

Lemma put_blocks_other ls data size bw dk l : l ∉ ls -> put_blocks ls data size bw dk l = dk l.
Proof.
  revert bw dk. induction ls as [|x ls IH]; intros bw dk Hl; [done|]. cbn.
  case_bool_decide; [|done]. rewrite IH by set_solver. apply upd_ne. set_solver.
Qed.

Lemma length_block data size bw : bw < size -> length (block data size bw) = 512%nat.
Proof. intros. unfold block. rewrite length_splice, length_replicate; rewrite ?length_sub, ?length_replicate; lia. Qed.

Lemma block_ok data size bw : Forall is_u8 data -> bw < size -> sector_ok (block data size bw).
Proof.
  intros Hd Hb. split; [by apply length_block|]. unfold block, splice.
  apply Forall_app. split; [constructor|]. apply Forall_app. split.
  - unfold sub_. apply Forall_fmap, Forall_forall. intros i _. cbn. unfold at_. case_bool_decide; [|done].
    destruct (data !! _) eqn:E; cbn; [|unfold is_u8; lia]. by eapply Forall_lookup_1 in Hd.
  - apply Forall_drop, Forall_replicate. unfold is_u8. lia.
Qed.

(** The data is on the sectors, in order. *)
Lemma put_blocks_read ls data size bw dk p :
  NoDup ls -> 0 <= bw -> 0 <= p < size - bw -> p < 512 * Z.of_nat (length ls) ->
  at_ (bytes_of (put_blocks ls data size bw dk) ls) p = at_ data (bw + p).
Proof.
  intros Hnd. revert bw dk p. induction Hnd as [|l ls Hl Hnd IH]; intros bw dk p Hbw Hp Hlen; [cbn in Hlen; lia|].
  unfold bytes_of. rewrite bind_cons. fold (bytes_of (put_blocks (l :: ls) data size bw dk) ls).
  cbn [put_blocks]. rewrite bool_decide_true by lia. rewrite put_blocks_other, upd_eq by done.
  pose proof (length_block data size bw ltac:(lia)) as Hb. destruct (decide (p < 512)).
  - rewrite at_app_l by lia. unfold block.
    rewrite at_splice by (rewrite ?length_sub, ?length_replicate; lia).
    rewrite bool_decide_true by (rewrite length_sub; lia). rewrite at_sub by lia. f_equal. lia.
  - rewrite at_app_r, Hb by lia. rewrite Z.min_l by lia. cbn [length] in Hlen.
    rewrite IH by lia. f_equal. lia.
Qed.

Section Facts.
Context {D : Type} `{BlockDevSpec D}.

Record holds (d : D) (dk : disk) : Prop := {
  holds_ok : dev_ok d;
  holds_sector : forall l, 0 <= l < dev_limit -> sector d l = dk l;
}.

Lemma holds_sector_ok d dk l : holds d dk -> 0 <= l < dev_limit -> sector_ok (dk l).
Proof. intros [Hok Hs] Hl. rewrite <- Hs by done. by apply dev_sector_ok. Qed.

Lemma holds_len d dk l : holds d dk -> 0 <= l < dev_limit -> length (dk l) = 512%nat.
Proof. intros Hd Hl. by apply (holds_sector_ok d dk). Qed.

Lemma read_sector_wp lba (s : fat D) d dk Q :
  holds d dk -> 0 <= lba < dev_limit ->
  (forall d', holds d' dk -> Q (dk lba) (set_dev d' s) []) ->
  wp (read_sector lba) (set_dev d s) Q.
Proof.
  intros [Hok Hs] Hl HQ. unfold wp, read_sector. cbn [f_dev set_dev].
  destruct (dev_read d lba Hok Hl) as (d' & -> & Hok' & Hs').
  rewrite Hs by done. apply HQ. split; [done|]. intros l Hll. by rewrite Hs', Hs.
Qed.

Lemma write_sector_wp lba b (s : fat D) d dk Q :
  holds d dk -> 0 <= lba < dev_limit -> sector_ok b ->
  (forall d', holds d' (upd lba b dk) -> Q tt (set_dev d' s) []) ->
  wp (write_sector lba b) (set_dev d s) Q.
Proof.
  intros [Hok Hs] Hl Hb HQ. unfold wp, write_sector. cbn [f_dev set_dev].
  destruct (dev_write d lba b Hok Hl Hb) as (d' & -> & Hok' & He & Hs').
  apply HQ. split; [done|]. intros l Hll. destruct (decide (l = lba)) as [->|].
  - by rewrite upd_eq.
  - rewrite upd_ne by done. by rewrite Hs', Hs.
Qed.

(** ** Divisions and fields of a sector buffer *)

(** The number of data clusters [fat16_find_free_cluster] computes. *)
Definition cluster_count (s : fat D) : Z :=
  let total_sectors := if bool_decide (total_sectors_small (g_bpb s) <> 0)
                       then total_sectors_small (g_bpb s) else total_sectors_large (g_bpb s) in
  u32 (total_sectors - data_start_sector s) / sectors_per_clustor (g_bpb s).

Lemma total_clusters_count (s : fat D) :
  sectors_per_clustor (g_bpb s) <> 0 -> total_clusters s = Done (cluster_count s).
Proof. intros Hs. unfold total_clusters, cluster_count. by rewrite udiv_nonzero. Qed.

Lemma load16_in b i : 0 <= i -> i + 2 <= Z.of_nat (length b) -> load16 b i = Done (get16 b i).
Proof. intros. unfold load16. by rewrite bool_decide_true. Qed.

Lemma store16_in b i v : 0 <= i -> i + 2 <= Z.of_nat (length b) -> store16 b i v = Done (put16 i v b).
Proof. intros. unfold store16. by rewrite bool_decide_true. Qed.

(** ** A consistent volume

    Two FAT copies of [sectors_per_fat] sectors, then the root directory, then
    the data clusters, all inside the disk, with cluster numbers below the
    end-of-chain markers. *)
Record volume (s : fat D) : Prop := {
  v_bps : bytes_per_sector (g_bpb s) = 512;
  v_spc : 1 <= sectors_per_clustor (g_bpb s) <= 255;
  v_start : 0 <= fat_start_sector s;
  v_root : root_dir_start s = fat_start_sector s + 2 * sectors_per_fat (g_bpb s);
  v_rsec : 0 <= root_dir_sectors s;
  v_data : data_start_sector s = root_dir_start s + root_dir_sectors s;
  v_clusters : 0 <= cluster_count s <= 0xFFF6;
  v_fat : 2 * (cluster_count s + 2) <= 512 * sectors_per_fat (g_bpb s);
  v_end : data_start_sector s + cluster_count s * sectors_per_clustor (g_bpb s) <= dev_limit;
  v_limit : dev_limit <= 0x100000000;
}.

Context (s : fat D) (V : volume s).

Abbreviation spf := (sectors_per_fat (g_bpb s)).
Abbreviation spc := (sectors_per_clustor (g_bpb s)).
Abbreviation fs := (fat_start_sector s).

(** Valid cluster numbers. *)
Definition cluster (c : Z) : Prop := 2 <= c < cluster_count s + 2.

(** Entry [c] of the first FAT. *)
Definition fat_at (dk : disk) (c : Z) : Z := get16 (dk (fs + c * 2 / 512)) (c * 2 mod 512).

Lemma fat_sector_range c : 0 <= c < cluster_count s + 2 -> 0 <= c * 2 / 512 < spf.
Proof. intros Hc. pose proof (v_fat s V). word. Qed.

Lemma spf_limit : fs + 2 * spf <= dev_limit.
Proof.
  destruct V as [_ ? ? Hr ? Hd ? ? He ?]. rewrite Hd, Hr in He. nia.
Qed.

Lemma read_fat_entry_wp c d dk Q :
  holds d dk -> 0 <= c < cluster_count s + 2 ->
  (forall d', holds d' dk -> Q (fat_at dk c) (set_dev d' s) []) ->
  wp (fat16_read_fat_entry c) (set_dev d s) Q.
Proof.
  intros Hd Hc HQ. pose proof (fat_sector_range c Hc). pose proof spf_limit. destruct V.
  unfold fat16_read_fat_entry. apply wp_bind, wp_get. cbn [set_dev g_bpb fat_start_sector].
  rewrite v_bps0. apply wp_bind, (wp_lift (c * 2 / 512)); [done|]. apply wp_bind, (wp_lift (c * 2 mod 512)); [done|].
  rewrite u32_small by (unfold is_u32; lia).
  apply wp_bind. apply (read_sector_wp _ _ _ dk); [done|lia|]. intros d' Hd'.
  eapply wp_lift; [apply load16_in; rewrite ?(holds_len d dk) by (done || lia); word|]. by apply HQ.
Qed.

(** The disk after entry [c] is set to [v] in both copies. *)
Definition set_fat (c v : Z) (dk : disk) : disk :=
  let b := put16 (c * 2 mod 512) v (dk (fs + c * 2 / 512)) in
  upd (fs + c * 2 / 512 + spf) b (upd (fs + c * 2 / 512) b dk).

Lemma put16_sector_ok i v b : sector_ok b -> 0 <= i -> i + 2 <= 512 -> sector_ok (put16 i v b).
Proof.
  intros [Hlen Hb] Hi Hi2. split.
  - unfold put16. rewrite length_splice; cbn; lia.
  - unfold put16, splice. apply Forall_app. split; [by apply Forall_take|].
    apply Forall_app. split; [repeat constructor; apply u8_range|by apply Forall_drop].
Qed.

Lemma write_fat_entry_wp c v d dk Q :
  holds d dk -> 0 <= c < cluster_count s + 2 ->
  (forall d', holds d' (set_fat c v dk) -> Q tt (set_dev d' s) []) ->
  wp (fat16_write_fat_entry c v) (set_dev d s) Q.
Proof.
  intros Hd Hc HQ. pose proof (fat_sector_range c Hc). pose proof spf_limit. destruct V.
  unfold fat16_write_fat_entry. apply wp_bind, wp_get. cbn [set_dev g_bpb fat_start_sector].
  rewrite v_bps0. replace (2 * c) with (c * 2) by lia.
  apply wp_bind, (wp_lift (c * 2 / 512)); [done|]. apply wp_bind, (wp_lift (c * 2 mod 512)); [done|].
  rewrite !u32_small by (unfold is_u32; rewrite ?u32_small; unfold is_u32; lia).
  assert (Hb : sector_ok (put16 (c * 2 mod 512) v (dk (fs + c * 2 / 512)))).
  { apply put16_sector_ok; [apply (holds_sector_ok d); [done|lia]|word|word]. }
  apply wp_bind. apply (read_sector_wp _ _ _ dk); [done|lia|]. intros d1 Hd1.
  apply wp_bind. eapply wp_lift; [apply store16_in; rewrite ?(holds_len d dk) by (done || lia); word|].
  apply wp_bind. apply (write_sector_wp _ _ _ _ dk); [done|lia|done|]. intros d2 Hd2.
  eapply write_sector_wp; [done|lia|done|]. intros d3 Hd3. by apply HQ.
Qed.

Lemma fat_at_set_fat c v dk d c' :
  holds d dk -> 0 <= c < cluster_count s + 2 -> 0 <= c' < cluster_count s + 2 ->
  fat_at (set_fat c v dk) c' = if bool_decide (c' = c) then u16 v else fat_at dk c'.
Proof.
  intros Hd Hc Hc'. pose proof (fat_sector_range c Hc). pose proof (fat_sector_range c' Hc').
  pose proof spf_limit. pose proof (holds_len d dk (fs + c * 2 / 512) Hd) as Hlen.
  destruct V. unfold fat_at, set_fat. rewrite upd_ne by lia.
  case_bool_decide as E.
  - subst c'. rewrite upd_eq. apply get16_put16; [word|]. rewrite Hlen by lia. word.
  - unfold upd. case_bool_decide as E2; [|done].
    replace (fs + c * 2 / 512) with (fs + c' * 2 / 512) by lia.
    apply get16_put16_ne; [word| |word].
    replace (fs + c' * 2 / 512) with (fs + c * 2 / 512) by lia. rewrite Hlen by lia. word.
Qed.

(** Nothing outside the FAT region changes. *)
Lemma set_fat_other c v dk l :
  0 <= c < cluster_count s + 2 -> root_dir_start s <= l -> set_fat c v dk l = dk l.
Proof.
  intros Hc Hl. pose proof (fat_sector_range c Hc). destruct V.
  unfold set_fat. by rewrite !upd_ne by lia.
Qed.

(** Both copies of the FAT are equal. *)
Definition mirrored (dk : disk) : Prop := forall k, 0 <= k < spf -> dk (fs + spf + k) = dk (fs + k).

Lemma mirrored_set_fat c v dk :
  0 <= c < cluster_count s + 2 -> mirrored dk -> mirrored (set_fat c v dk).
Proof.
  intros Hc Hm k Hk. pose proof (fat_sector_range c Hc). unfold set_fat.
  destruct (decide (k = c * 2 / 512)) as [->|].
  - rewrite (upd_ne _ _ _ (fs + c * 2 / 512)), upd_eq by lia.
    replace (fs + spf + c * 2 / 512) with (fs + c * 2 / 512 + spf) by lia. by rewrite upd_eq.
  - rewrite !upd_ne by lia. by apply Hm.
Qed.

(** ** Free clusters *)
Lemma scan_free_wp n c d dk Q :
  holds d dk -> 2 <= c -> c + Z.of_nat n = cluster_count s + 2 ->
  (forall d' r, holds d' dk ->
     (r = 0 /\ (forall x, c <= x < cluster_count s + 2 -> fat_at dk x <> 0)) \/
     (c <= r < cluster_count s + 2 /\ fat_at dk r = 0 /\ (forall x, c <= x < r -> fat_at dk x <> 0)) ->
     Q r (set_dev d' s) []) ->
  wp (scan_free n c) (set_dev d s) Q.
Proof.
  revert c d Q. induction n as [|n IH]; intros c d Q Hd Hc Hn HQ; cbn [scan_free].
  - apply wp_ret. apply HQ; [done|]. left. split; [done|]. lia.
  - apply wp_bind. apply (read_fat_entry_wp _ _ dk); [done|lia|]. intros d1 Hd1.
    case_bool_decide as E.
    + apply wp_ret. apply HQ; [done|]. right. split_and!; [lia..|done|lia].
    + apply IH; [done|lia|lia|]. intros d' r Hd' Hr. apply HQ; [done|].
      destruct Hr as [[-> Hx]|(Hr & Hz & Hx)].
      * left. split; [done|]. intros x Hxr. destruct (decide (x = c)) as [->|]; [done|]. apply Hx. lia.
      * right. split_and!; [lia|lia|done|]. intros x Hxr.
        destruct (decide (x = c)) as [->|]; [done|]. apply Hx. lia.
Qed.

Lemma find_free_cluster_wp d dk Q :
  holds d dk ->
  (forall d' r, holds d' dk ->
     (r = 0 /\ (forall x, cluster x -> fat_at dk x <> 0)) \/
     (cluster r /\ fat_at dk r = 0 /\ (forall x, 2 <= x < r -> fat_at dk x <> 0)) ->
     Q r (set_dev d' s) []) ->
  wp fat16_find_free_cluster (set_dev d s) Q.
Proof.
  intros Hd HQ. unfold fat16_find_free_cluster. apply wp_bind, wp_get. cbv beta.
  apply wp_bind, (wp_lift (cluster_count s)).
  { apply (total_clusters_count (set_dev d s)). cbn [set_dev g_bpb]. pose proof (v_spc s V). lia. }
  pose proof (v_clusters s V). rewrite u16_small by (unfold is_u16; lia).
  apply (scan_free_wp _ _ _ dk); [done|lia|lia|]. done.
Qed.

(** ** Chains *)

(** What [alloc_chain] has done after the clusters [cs], from the disk [dk0]. *)
Record allocated (dk0 dk : disk) (cs : list Z) : Prop := {
  al_nodup : NoDup cs;
  al_free : forall c, c ∈ cs -> cluster c /\ fat_at dk0 c = 0;
  al_used : forall c, c ∈ cs -> fat_at dk c <> 0;
  al_chain : chain (fat_at dk) cs;
  al_fat : forall c, cluster c -> c ∉ cs -> fat_at dk c = fat_at dk0 c;
  al_other : forall l, root_dir_start s <= l -> dk l = dk0 l;
  al_mirror : mirrored dk0 -> mirrored dk;
}.

Lemma allocated_nil dk : allocated dk dk [].
Proof. constructor; try done; try set_solver. apply NoDup_nil_2. Qed.

Lemma allocated_not_free dk0 dk cs c :
  allocated dk0 dk cs -> cluster c -> fat_at dk c = 0 -> (c ∉ cs) /\ fat_at dk0 c = 0.
Proof.
  intros Ha Hc Hz. destruct (decide (c ∈ cs)) as [Hin|Hin].
  - by apply (al_used _ _ _ Ha) in Hin.
  - split; [done|]. by rewrite <- (al_fat _ _ _ Ha).
Qed.

Lemma cluster_range c : cluster c -> 0 <= c < cluster_count s + 2 /\ u16 c = c /\ c <> 0.
Proof.
  unfold cluster. intros Hc. pose proof (v_clusters s V). split_and!; [lia..| |lia].
  apply u16_small. unfold is_u16. lia.
Qed.

(** The first cluster: only its end marker is written. *)
Lemma allocated_first dk0 dk d c :
  allocated dk0 dk [] -> holds d dk -> cluster c -> fat_at dk c = 0 ->
  allocated dk0 (set_fat c 0xFFFF dk) [c].
Proof.
  intros Ha Hd Hc Hz. destruct (cluster_range c Hc) as (Hr & _ & _).
  destruct (allocated_not_free _ _ _ _ Ha Hc Hz) as [_ Hz0].
  assert (Hf : forall x, cluster x ->
    fat_at (set_fat c 0xFFFF dk) x = if bool_decide (x = c) then 0xFFFF else fat_at dk x).
  { intros x Hx. by apply (fat_at_set_fat c 0xFFFF dk d); [|unfold cluster in *; lia..]. }
  destruct Ha as [_ _ _ _ Hfat Hoth Hmir]. constructor.
  - apply NoDup_singleton.
  - intros x ->%list_elem_of_singleton. done.
  - intros x ->%list_elem_of_singleton. rewrite Hf by done. by rewrite bool_decide_true.
  - cbn. rewrite Hf by done. rewrite bool_decide_true by done. lia.
  - intros x Hx Hin. rewrite Hf by done. rewrite bool_decide_false by set_solver. apply Hfat; [done|set_solver].
  - intros l Hl. rewrite set_fat_other by done. by apply Hoth.
  - intros Hm. apply mirrored_set_fat; [done|]. by apply Hmir.
Qed.

(** A further cluster [c] behind [p]. *)
Lemma allocated_next dk0 dk d cs p c :
  allocated dk0 dk (cs ++ [p]) -> holds d dk -> cluster c -> fat_at dk c = 0 ->
  allocated dk0 (set_fat c 0xFFFF (set_fat p c dk)) ((cs ++ [p]) ++ [c]).
Proof.
  intros Ha Hd Hc Hz. destruct (cluster_range c Hc) as (Hr & Hu & Hnz).
  destruct (al_free _ _ _ Ha p ltac:(set_solver)) as [Hp Hpz].
  destruct (cluster_range p Hp) as (Hrp & _ & _).
  destruct (allocated_not_free _ _ _ _ Ha Hc Hz) as [Hcin Hz0].
  assert (Hd1 : exists d1, holds d1 (set_fat p c dk)).
  { pose proof (write_fat_entry_wp p c d dk (fun _ s' _ => exists d1, holds d1 (set_fat p c dk)) Hd Hrp) as Hw.
    apply wp_inv in Hw as (_ & _ & _ & _ & Hx); [exact Hx|]. by eauto. }
  destruct Hd1 as [d1 Hd1].
  assert (Hf : forall x, cluster x -> fat_at (set_fat c 0xFFFF (set_fat p c dk)) x =
    if bool_decide (x = c) then 0xFFFF else if bool_decide (x = p) then c else fat_at dk x).
  { intros x Hx. rewrite (fat_at_set_fat c 0xFFFF _ d1) by (done || (unfold cluster in *; lia)).
    rewrite (fat_at_set_fat p c dk d) by (done || (unfold cluster in *; lia)). by rewrite Hu. }
  destruct Ha as [Hnd Hfree Hused Hchain Hfat Hoth Hmir].
  assert (Hpcs : p ∉ cs) by (apply NoDup_app in Hnd as (_ & Hx & _); set_solver).
  constructor.
  - apply NoDup_app. split_and!; [done|set_solver|apply NoDup_singleton].
  - intros x [Hx| ->%list_elem_of_singleton]%elem_of_app; [by apply Hfree|done].
  - intros x Hx. assert (Hxc : cluster x).
    { apply elem_of_app in Hx as [Hx| ->%list_elem_of_singleton]; [by apply Hfree|done]. }
    rewrite Hf by done. case_bool_decide; [done|]. case_bool_decide; [done|].
    apply Hused. set_solver.
  - apply (chain_snoc (fat_at dk)); [done| | | |done].
    + intros x Hx. rewrite Hf by (apply Hfree; set_solver). rewrite !bool_decide_false by set_solver. done.
    + rewrite Hf by done. rewrite bool_decide_false, bool_decide_true by set_solver. done.
    + rewrite Hf by done. rewrite bool_decide_true by done. lia.
  - intros x Hx Hin. rewrite Hf by done. rewrite !bool_decide_false by set_solver.
    apply Hfat; [done|set_solver].
  - intros l Hl. rewrite !set_fat_other by done. by apply Hoth.
  - intros Hm. apply mirrored_set_fat; [done|]. apply mirrored_set_fat; [done|]. by apply Hmir.
Qed.

(** The clusters that are free on a disk. *)
Definition free_clusters (dk : disk) : list Z :=
  filter (fun c => fat_at dk c = 0) (seqZ 2 (cluster_count s)).

Lemma elem_of_free dk c : c ∈ free_clusters dk <-> cluster c /\ fat_at dk c = 0.
Proof.
  unfold free_clusters, cluster. rewrite list_elem_of_filter, elem_of_seqZ. intuition lia.
Qed.

Lemma free_exhausted dk0 dk cs :
  allocated dk0 dk cs -> (forall c, cluster c -> fat_at dk c <> 0) ->
  (length (free_clusters dk0) <= length cs)%nat.
Proof.
  intros Ha Hno. apply submseteq_length, NoDup_submseteq.
  - apply NoDup_filter, NoDup_seqZ.
  - intros c [Hc Hz]%elem_of_free. destruct (decide (c ∈ cs)); [done|].
    exfalso. apply (Hno c Hc). by rewrite (al_fat _ _ _ Ha).
Qed.

(** [alloc_chain] from the clusters [cs] on: it returns the first cluster of a
    chain of [n] more clusters, or reports a full disk when there are not that
    many free ones. *)
Lemma alloc_chain_wp n cs dk0 dk d Q :
  holds d dk -> allocated dk0 dk cs ->
  (forall d' dk' cs', holds d' dk' -> allocated dk0 dk' cs' -> cs `prefix_of` cs' ->
     length cs' = (length cs + n)%nat ->
     Q (Some (default 0 (head cs'))) (set_dev d' s) []) ->
  (forall d' dk' cs', holds d' dk' -> allocated dk0 dk' cs' ->
     (length (free_clusters dk0) < length cs + n)%nat -> (forall c, cluster c -> fat_at dk' c <> 0) ->
     Q None (set_dev d' s) [Print (str "fat16_write: disk full!" ++ [10])]) ->
  wp (alloc_chain n (Z.of_nat (length cs)) (default 0 (head cs)) (default 0 (last cs)))
     (set_dev d s) Q.
Proof.
  revert cs dk d. induction n as [|n IH]; intros cs dk d Hd Ha Hdone Hfull; cbn [alloc_chain].
  - apply wp_ret. apply (Hdone d dk cs); [done|done|done|lia].
  - apply wp_bind. apply (find_free_cluster_wp _ dk); [done|]. intros d1 r Hd1 Hr.
    destruct Hr as [[-> Hno]|(Hr & Hz & _)].
    { rewrite bool_decide_true by done. apply wp_bind, wp_emit, wp_ret.
      apply (Hfull d1 dk cs); [done|done| |done].
      pose proof (free_exhausted _ _ _ Ha Hno). lia. }
    destruct (cluster_range r Hr) as (Hrr & _ & Hrnz). rewrite bool_decide_false by done.
    destruct cs as [|p cs _] using rev_ind.
    + cbn [length head last default from_option]. rewrite bool_decide_true by done.
      apply wp_bind, wp_ret, wp_bind. apply (write_fat_entry_wp _ _ _ dk); [done|done|]. intros d2 Hd2.
      pose proof (allocated_first dk0 dk d1 r Ha Hd1 Hr Hz) as Ha'.
      apply (IH [r] _ d2 Hd2 Ha').
      * intros d' dk' cs' ? ? Hpre Hlen. eapply Hdone; [done|done|apply prefix_nil|]. cbn in *. lia.
      * intros d' dk' cs' ? ? Hlt ?. eapply Hfull; [done|done| |done]. cbn in *. lia.
    + rewrite last_snoc. cbn [default from_option id].
      rewrite !(bool_decide_false (_ = 0)) by (rewrite length_app; cbn; lia).
      apply wp_bind. destruct (al_free _ _ _ Ha p ltac:(set_solver)) as [Hp _].
      apply (write_fat_entry_wp _ _ _ dk); [done|by apply cluster_range|]. intros d2 Hd2.
      apply wp_bind. eapply write_fat_entry_wp; [done|done|]. intros d3 Hd3.
      pose proof (allocated_next dk0 dk d1 cs p r Ha Hd1 Hr Hz) as Ha'.
      replace (Z.of_nat (length (cs ++ [p])) + 1) with (Z.of_nat (length ((cs ++ [p]) ++ [r])))
        by (rewrite !length_app; cbn; lia).
      replace (default 0 (head (cs ++ [p]))) with (default 0 (head ((cs ++ [p]) ++ [r]))) by (by destruct cs).
      replace r with (default 0 (last ((cs ++ [p]) ++ [r]))) at 3 by (by rewrite last_snoc).
      apply (IH _ _ d3 Hd3 Ha').
      * intros d' dk' cs' ? ? Hpre Hlen. eapply Hdone; [done|done| |].
        { etrans; [|exact Hpre]. by eexists. }
        rewrite !length_app in *. cbn in *. lia.
      * intros d' dk' cs' ? ? Hlt ?. eapply Hfull; [done|done| |done]. rewrite !length_app in *. cbn in *. lia.
Qed.

(** ** Data sectors *)

(** First sector of a cluster, and the sectors of a list of clusters. *)
Definition cluster_lba (c : Z) : Z := data_start_sector s + (c - 2) * spc.

Definition chain_sectors (cs : list Z) : list Z := cs ≫= fun c => seqZ (cluster_lba c) spc.

Lemma data_after_root : root_dir_start s <= data_start_sector s.
Proof. destruct V. lia. Qed.

Lemma cluster_lba_range c :
  cluster c -> data_start_sector s <= cluster_lba c /\ cluster_lba c + spc <= dev_limit.
Proof.
  unfold cluster, cluster_lba. intros Hc. destruct (v_spc s V) as [Hspc _]. pose proof (v_end s V) as He.
  assert ((c - 2) * spc + spc <= cluster_count s * spc) by nia.
  split; [nia|lia].
Qed.

Lemma cluster_to_lba_eq c d : cluster c -> fat16_cluster_to_lba (set_dev d s) c = cluster_lba c.
Proof.
  intros Hc. pose proof (cluster_lba_range c Hc) as Hr. unfold fat16_cluster_to_lba.
  cbn [set_dev data_start_sector g_bpb]. unfold cluster, cluster_lba in *. pose proof (v_clusters s V).
  rewrite (u32_small (c - 2)) by (unfold is_u32; lia). rewrite u32_small; [done|].
  pose proof data_after_root. destruct V. unfold is_u32. lia.
Qed.

Lemma chain_sectors_data cs l :
  (forall c, c ∈ cs -> cluster c) -> l ∈ chain_sectors cs ->
  data_start_sector s <= l < dev_limit.
Proof.
  intros Hcs Hl. unfold chain_sectors in Hl. apply list_elem_of_bind in Hl as (c & Hl & Hc).
  apply elem_of_seqZ in Hl. specialize (Hcs c Hc). pose proof (cluster_lba_range c Hcs).
  lia.
Qed.

Lemma cluster_sectors_disjoint c c' l :
  cluster c -> cluster c' -> l ∈ seqZ (cluster_lba c) spc -> l ∈ seqZ (cluster_lba c') spc -> c = c'.
Proof.
  intros Hc Hc' Hl%elem_of_seqZ Hl'%elem_of_seqZ. unfold cluster_lba in *.
  destruct (v_spc s V) as [Hspc _]. assert (- spc < (c - c') * spc < spc) by lia. nia.
Qed.

Lemma chain_sectors_nodup cs :
  (forall c, c ∈ cs -> cluster c) -> NoDup cs -> NoDup (chain_sectors cs).
Proof.
  intros Hcs. induction 1 as [|c cs Hc Hnd IH]; [apply NoDup_nil_2|].
  unfold chain_sectors. rewrite bind_cons. apply NoDup_app. split_and!.
  - apply NoDup_seqZ.
  - intros l Hl Hl'. apply list_elem_of_bind in Hl' as (c' & Hl' & Hc').
    assert (c = c') as -> by (apply (cluster_sectors_disjoint _ _ l); [apply Hcs; set_solver..|done|done]).
    done.
  - apply IH. set_solver.
Qed.

Lemma read_cluster_wp n lba left out d dk Q :
  holds d dk -> 0 <= lba -> lba + Z.of_nat n <= dev_limit -> 0 <= left ->
  (forall d', holds d' dk ->
     Q (Z.max 0 (left - 512 * Z.of_nat n), out ++ take (Z.to_nat left) (bytes_of dk (seqZ lba (Z.of_nat n))))
       (set_dev d' s) []) ->
  wp (read_cluster n lba left out) (set_dev d s) Q.
Proof.
  revert lba left out d Q. induction n as [|n IH]; intros lba left out d Q Hd Hl Hend Hleft HQ; cbn [read_cluster].
  - apply wp_ret. specialize (HQ d Hd). rewrite Z.max_r in HQ by lia.
    change (bytes_of dk (seqZ lba (Z.of_nat 0))) with (@nil Z) in HQ.
    rewrite take_nil, app_nil_r in HQ. by replace (left - 512 * Z.of_nat 0) with left in HQ by lia.
  - rewrite seqZ_cons in HQ by lia. unfold bytes_of in HQ. rewrite bind_cons in HQ. fold (bytes_of dk) in HQ.
    pose proof (holds_len d dk lba Hd ltac:(lia)) as Hlen.
    case_bool_decide as Hpos.
    2:{ apply wp_ret. assert (left = 0) as -> by lia. specialize (HQ d Hd).
        rewrite Z.max_l in HQ by lia. cbn in HQ. by rewrite app_nil_r in HQ. }
    pose proof (v_limit s V). rewrite u32_small by (unfold is_u32; lia).
    apply wp_bind. apply (read_sector_wp _ _ _ dk); [done|lia|]. intros d1 Hd1. cbv zeta.
    set (k := if bool_decide (left < 512) then left else 512).
    assert (Hk : k = Z.min left 512) by (unfold k; case_bool_decide; lia).
    apply IH; [done|lia|lia|lia|]. intros d' Hd'. specialize (HQ d' Hd').
    cbn [app]. rewrite take_sub by lia.
    replace (Z.max 0 (left - k - 512 * Z.of_nat n)) with (Z.max 0 (left - 512 * Z.of_nat (S n))) by lia.
    rewrite take_app in HQ. unfold Z.succ in HQ. rewrite <- app_assoc.
    replace (take (Z.to_nat left) (dk lba)) with (take (Z.to_nat k) (dk lba)) in HQ.
    2:{ destruct (decide (left < 512)); [f_equal; lia|]. rewrite !take_ge by lia. done. }
    replace (Z.to_nat left - length (dk lba))%nat with (Z.to_nat (left - k)) in HQ by lia.
    by replace (Z.pred (Z.of_nat (S n))) with (Z.of_nat n) in HQ by lia.
Qed.

Lemma length_bytes_of d dk ls :
  holds d dk -> (forall l, l ∈ ls -> 0 <= l < dev_limit) ->
  length (bytes_of dk ls) = (512 * length ls)%nat.
Proof.
  intros Hd. induction ls as [|l ls IH]; intros Hls; [done|]. unfold bytes_of. rewrite bind_cons, length_app.
  fold (bytes_of dk ls). rewrite IH by set_solver. rewrite (holds_len d) by (done || (apply Hls; set_solver)).
  cbn. lia.
Qed.

Lemma chain_sectors_cons c cs : chain_sectors (c :: cs) = seqZ (cluster_lba c) spc ++ chain_sectors cs.
Proof. done. Qed.

(** Following a chain reads its bytes, up to [left]. *)
Lemma read_chain_wp fuel cs c left out d dk Q :
  holds d dk -> (forall x, x ∈ cs -> cluster x) -> chain (fat_at dk) cs ->
  c = default 0xFFFF (head cs) -> 0 <= left < Z.of_nat fuel ->
  (forall d', holds d' dk ->
     Q (out ++ take (Z.to_nat left) (bytes_of dk (chain_sectors cs))) (set_dev d' s) []) ->
  wp (read_chain fuel c left out) (set_dev d s) Q.
Proof.
  revert cs c left out d Q. induction fuel as [|fuel IH]; intros cs c left out d Q Hd Hcs Hch Hc Hf HQ; [lia|].
  cbn [read_chain]. destruct cs as [|c0 cs]; cbn in Hc; subst c.
  { rewrite bool_decide_false by lia. apply wp_ret. specialize (HQ d Hd).
    change (bytes_of dk (chain_sectors [])) with (@nil Z) in HQ. by rewrite take_nil, app_nil_r in HQ. }
  case_bool_decide as Hpos.
  2:{ assert (cluster c0) as Hc0 by (apply Hcs; set_solver). pose proof (v_clusters s V). unfold cluster in Hc0.
      apply wp_ret. assert (left = 0) as -> by lia. specialize (HQ d Hd). cbn in HQ. by rewrite app_nil_r in HQ. }
  assert (Hc0 : cluster c0) by (apply Hcs; set_solver). destruct (cluster_lba_range c0 Hc0) as [Hlo Hhi].
  destruct (v_spc s V) as [Hspc _].
  apply wp_bind, wp_get. cbv beta. rewrite cluster_to_lba_eq by done. cbn [set_dev g_bpb].
  apply wp_bind. apply (read_cluster_wp _ _ _ _ _ dk); [done|pose proof data_after_root; destruct V; lia|lia|lia|]. intros d1 Hd1.
  rewrite Z2Nat.id by lia. cbv beta iota.
  apply wp_bind. apply (read_fat_entry_wp _ _ dk); [done|unfold cluster in Hc0; lia|]. intros d2 Hd2.
  destruct Hch as [Hnext Hch]. rewrite chain_sectors_cons, bytes_of_app in HQ.
  assert (Hlen : length (bytes_of dk (seqZ (cluster_lba c0) spc)) = (512 * Z.to_nat spc)%nat).
  { rewrite (length_bytes_of d), length_seqZ; [done|done|]. intros l Hl%elem_of_seqZ.
    pose proof data_after_root. destruct V. lia. }
  assert (Hgoal : forall d', holds d' dk ->
    Q ((out ++ take (Z.to_nat left) (bytes_of dk (seqZ (cluster_lba c0) spc))) ++
       take (Z.to_nat (Z.max 0 (left - 512 * spc))) (bytes_of dk (chain_sectors cs))) (set_dev d' s) []).
  { intros d' Hd'. specialize (HQ d' Hd'). rewrite take_app, Hlen in HQ. rewrite <- app_assoc.
    by replace (Z.to_nat left - 512 * Z.to_nat spc)%nat with (Z.to_nat (Z.max 0 (left - 512 * spc))) in HQ by lia. }
  destruct cs as [|c1 cs].
  - destruct fuel as [|fuel]; [lia|]. cbn [read_chain]. rewrite bool_decide_false by lia.
    apply wp_ret. specialize (Hgoal d2 Hd2). change (bytes_of dk (chain_sectors [])) with (@nil Z) in Hgoal.
    by rewrite take_nil, app_nil_r in Hgoal.
  - eapply (IH (c1 :: cs)); [done|set_solver|done|by cbn|lia|]. intros d' Hd'. by apply Hgoal.
Qed.

(** ** Writing the data *)

Lemma write_cluster_wp n lba data size bw d dk Q :
  holds d dk -> Forall is_u8 data -> 0 <= lba -> lba + Z.of_nat n <= dev_limit -> bw <= size ->
  (forall d', holds d' (put_blocks (seqZ lba (Z.of_nat n)) data size bw dk) ->
     Q (Z.min size (bw + 512 * Z.of_nat n)) (set_dev d' s) []) ->
  wp (write_cluster n lba data size bw) (set_dev d s) Q.
Proof.
  intros Hd Hdata. revert lba bw d dk Q Hd.
  induction n as [|n IH]; intros lba bw d dk Q Hd Hl Hend Hbw HQ; cbn [write_cluster].
  - apply wp_ret. specialize (HQ d Hd). by replace (Z.min size (bw + 512 * Z.of_nat 0)) with bw in HQ by lia.
  - rewrite seqZ_cons in HQ by lia. cbn [put_blocks] in HQ.
    replace (Z.pred (Z.of_nat (S n))) with (Z.of_nat n) in HQ by lia. unfold Z.succ in HQ.
    case_bool_decide as Hpos.
    2:{ apply wp_ret. specialize (HQ d Hd). by replace (Z.min size (bw + 512 * Z.of_nat (S n))) with bw in HQ by lia. }
    pose proof (v_limit s V). rewrite u32_small by (unfold is_u32; lia). cbv zeta.
    assert (Hk : (if bool_decide (size - bw < 512) then size - bw else 512) = Z.min 512 (size - bw))
      by (case_bool_decide; lia).
    rewrite Hk. change (splice 0 (sub_ data bw (Z.min 512 (size - bw))) (replicate 512 0)) with (block data size bw).
    apply wp_bind. eapply write_sector_wp; [done|lia|by apply block_ok|]. intros d1 Hd1.
    eapply IH; [done|lia|lia|lia|]. intros d' Hd'. specialize (HQ d' Hd').
    cbn [app]. by replace (Z.min size (bw + Z.min 512 (size - bw) + 512 * Z.of_nat n))
      with (Z.min size (bw + 512 * Z.of_nat (S n))) by lia.
Qed.

Lemma fat_at_low dk dk' c :
  0 <= c < cluster_count s + 2 -> (forall l, l < root_dir_start s -> dk' l = dk l) ->
  fat_at dk' c = fat_at dk c.
Proof.
  intros Hc Hl. pose proof (fat_sector_range c Hc). unfold fat_at. rewrite Hl; [done|]. destruct V. lia.
Qed.

Lemma put_chain_low cs data size bw dk l :
  (forall c, c ∈ cs -> cluster c) -> l < data_start_sector s ->
  put_blocks (chain_sectors cs) data size bw dk l = dk l.
Proof.
  intros Hcs Hl. apply put_blocks_other. intros Hin. pose proof (chain_sectors_data cs l Hcs Hin). lia.
Qed.

Lemma write_chain_wp fuel cs c data size bw d dk Q :
  holds d dk -> Forall is_u8 data -> (forall x, x ∈ cs -> cluster x) -> chain (fat_at dk) cs ->
  c = default 0xFFFF (head cs) -> 0 <= size - bw < Z.of_nat fuel ->
  (forall d', holds d' (put_blocks (chain_sectors cs) data size bw dk) -> Q tt (set_dev d' s) []) ->
  wp (write_chain fuel c data size bw) (set_dev d s) Q.
Proof.
  intros Hd Hdata. revert cs c bw d dk Q Hd.
  induction fuel as [|fuel IH]; intros cs c bw d dk Q Hd Hcs Hch Hc Hf HQ; [lia|].
  cbn [write_chain]. destruct cs as [|c0 cs]; cbn in Hc; subst c.
  { rewrite bool_decide_false by lia. apply wp_ret. by apply HQ. }
  assert (Hc0 : cluster c0) by (apply Hcs; set_solver). pose proof (v_clusters s V).
  case_bool_decide as Hpos.
  2:{ apply wp_ret. unfold cluster in Hc0. apply HQ. by rewrite put_blocks_done by lia. }
  destruct (cluster_lba_range c0 Hc0) as [Hlo Hhi]. destruct (v_spc s V) as [Hspc _].
  pose proof data_after_root as Hroot. pose proof spf_limit.
  apply wp_bind, wp_get. cbv beta. rewrite cluster_to_lba_eq by done. cbn [set_dev g_bpb].
  apply wp_bind. eapply write_cluster_wp; [done|done|destruct V; lia|lia|lia|]. intros d1 Hd1.
  rewrite Z2Nat.id in * by lia. set (dk1 := put_blocks (seqZ (cluster_lba c0) spc) data size bw dk) in *.
  assert (Hlow : forall l, l < root_dir_start s -> dk1 l = dk l).
  { intros l Hl. apply put_blocks_other. rewrite elem_of_seqZ. lia. }
  apply wp_bind. eapply read_fat_entry_wp; [done|unfold cluster in Hc0; lia|]. intros d2 Hd2.
  rewrite (fat_at_low dk) by (done || (unfold cluster in Hc0; lia)).
  destruct Hch as [Hnext Hch]. rewrite chain_sectors_cons, put_blocks_app, length_seqZ in HQ by lia.
  rewrite Z2Nat.id in HQ by lia. fold dk1 in HQ. cbn [app].
  destruct cs as [|c1 cs].
  - destruct fuel as [|fuel]; [lia|]. cbn [write_chain]. rewrite bool_decide_false by lia.
    apply wp_ret. by apply HQ.
  - eapply (IH (c1 :: cs)); [done|set_solver| |by cbn|lia|].
    + apply (chain_ext (fat_at dk)); [|done]. intros x Hx. symmetry. apply fat_at_low; [|done].
      assert (cluster x) by (apply Hcs; set_solver). unfold cluster in *. lia.
    + intros d' Hd'. by apply HQ.
Qed.
End Facts.
