(* ===== verification/Fat16Dir.v ===== *)
(** * The root directory of a FAT16 volume

    The directory's sectors as one sequence of slots, 16 in a sector, and its
    two scans (for a name, for a free slot) as scans of that sequence. *)
From Stdlib Require Import ZArith Lia ZifyBool String.
From stdpp Require Import base numbers list gmap.
From S2P Require Import Prelude Mem BlockDev Fat16 Fat16Facts.

(** The name bytes [name8] and [ext3] select the entry [d]. *)
Definition matches (d : fat16_dir_entry) (name8 ext3 : list Z) : Prop :=
  CString.strncmp (at_ (filename d)) (at_ name8) 8 = 0 /\ CString.strncmp (at_ (ex d)) (at_ ext3) 3 = 0.

#[export] Instance matches_dec d name8 ext3 : Decision (matches d name8 ext3).
Proof. unfold matches. apply _. Defined.

Definition first_byte (d : fat16_dir_entry) : Z := at_ (filename d) 0.

(** A slot [add_entry] may take. *)
Definition slot_free (d : fat16_dir_entry) : Prop := first_byte d = 0 \/ first_byte d = 0xE5.

(** A slot that [find_entry] passes over. *)
Definition skipped (name8 ext3 : list Z) (d : fat16_dir_entry) : Prop :=
  first_byte d <> 0 /\ (first_byte d = 0xE5 \/ attributes d = 0x0F \/ ~ matches d name8 ext3).

(** Scan of [n] slots from slot [k] on: the first entry with the name before the
    end of the directory. *)
Fixpoint lookup_slots (slots : Z -> fat16_dir_entry) (n : nat) (k : Z) (name8 ext3 : list Z)
    : option fat16_dir_entry :=
  match n with
  | O => None
  | S n' =>
      let d := slots k in
      if bool_decide (first_byte d = 0) then None
      else if bool_decide (first_byte d = 0xE5 \/ attributes d = 0x0F) then lookup_slots slots n' (k + 1) name8 ext3
      else if bool_decide (matches d name8 ext3) then Some d
      else lookup_slots slots n' (k + 1) name8 ext3
  end.

(** The first slot of the same range that is free. *)
Fixpoint free_from (slots : Z -> fat16_dir_entry) (n : nat) (k : Z) : option Z :=
  match n with
  | O => None
  | S n' => if bool_decide (first_byte (slots k) = 0 \/ first_byte (slots k) = 0xE5) then Some k
            else free_from slots n' (k + 1)
  end.

Lemma free_from_spec slots n k :
  match free_from slots n k with
  | Some j => k <= j < k + Z.of_nat n /\ slot_free (slots j) /\
              forall i, k <= i < j -> ~ slot_free (slots i)
  | None => forall i, k <= i < k + Z.of_nat n -> ~ slot_free (slots i)
  end.
Proof.
  revert k. induction n as [|n IH]; intros k; cbn [free_from]; [lia|].
  case_bool_decide as E.
  - split_and!; [lia|lia|done|lia].
  - specialize (IH (k + 1)). destruct (free_from slots n (k + 1)) as [j|].
    + destruct IH as (Hj & Hf & Hn). split_and!; [lia|lia|done|]. intros i Hi.
      destruct (decide (i = k)) as [->|]; [done|]. apply Hn. lia.
    + intros i Hi. destruct (decide (i = k)) as [->|]; [done|]. apply IH. lia.
Qed.

Lemma lookup_slots_found slots n k j name8 ext3 :
  k <= j < k + Z.of_nat n -> (forall i, k <= i < j -> skipped name8 ext3 (slots i)) ->
  first_byte (slots j) <> 0 -> first_byte (slots j) <> 0xE5 -> attributes (slots j) <> 0x0F ->
  matches (slots j) name8 ext3 -> lookup_slots slots n k name8 ext3 = Some (slots j).
Proof.
  revert k. induction n as [|n IH]; intros k Hj Hskip H0 H5 Ha Hm; [lia|]. cbn [lookup_slots].
  destruct (decide (k = j)) as [->|].
  - rewrite !bool_decide_false by naive_solver. by rewrite bool_decide_true.
  - destruct (Hskip k) as [Hf Hs]; [lia|]. rewrite bool_decide_false by done.
    rewrite IH; [|lia|intros; apply Hskip; lia|done..].
    repeat case_bool_decide; try done. naive_solver.
Qed.

(** A slot that changes from one passed over to another passed over does not
    change the result; nor does anything behind the result. *)
Lemma lookup_slots_ext slots slots' n k name8 ext3 :
  (forall i, k <= i < k + Z.of_nat n ->
     slots' i = slots i \/ (skipped name8 ext3 (slots' i) /\ skipped name8 ext3 (slots i)) ) ->
  lookup_slots slots' n k name8 ext3 = lookup_slots slots n k name8 ext3.
Proof.
  revert k. induction n as [|n IH]; intros k Hs; [done|]. cbn [lookup_slots].
  rewrite IH by (intros; apply Hs; lia).
  destruct (Hs k) as [-> |[[H1 H2] [H3 H4]]]; [lia|done|].
  rewrite !(bool_decide_false (first_byte _ = 0)) by done.
  repeat case_bool_decide; try done; naive_solver.
Qed.

(** Entry [d] at slot [j], with everything before it passed over, is what the
    scan returns. *)
Lemma lookup_slots_some slots n k name8 ext3 d :
  lookup_slots slots n k name8 ext3 = Some d ->
  exists j, k <= j < k + Z.of_nat n /\ d = slots j /\ matches d name8 ext3 /\
    ~ slot_free d /\ attributes d <> 0x0F /\
    forall i, k <= i < j -> skipped name8 ext3 (slots i).
Proof.
  revert k. induction n as [|n IH]; intros k; cbn [lookup_slots]; [done|].
  case_bool_decide as E1; [done|].
  assert (Hrec : skipped name8 ext3 (slots k) -> lookup_slots slots n (k + 1) name8 ext3 = Some d ->
    exists j, k <= j < k + Z.of_nat (S n) /\ d = slots j /\ matches d name8 ext3 /\
      ~ slot_free d /\ attributes d <> 0x0F /\ forall i, k <= i < j -> skipped name8 ext3 (slots i)).
  { intros Hk Hl. destruct (IH _ Hl) as (j & Hj & ? & ? & ? & ? & Hs). exists j. split_and!; try done; try lia.
    intros i Hi. destruct (decide (i = k)) as [->|]; [done|]. apply Hs. lia. }
  case_bool_decide as E2; [apply Hrec; unfold skipped; naive_solver|].
  case_bool_decide as E3; [|apply Hrec; unfold skipped; naive_solver].
  intros [= <-]. exists k. unfold slot_free. split_and!; try done; try lia; naive_solver.
Qed.

(** ** Slots of sectors *)
Lemma filename_first b e : first_byte (dir_entry b e) = at_ b (32 * e).
Proof. unfold first_byte. cbn [dir_entry filename]. rewrite at_sub by lia. by rewrite Z.add_0_r. Qed.

(** Overwriting part of a sector. *)
Lemma splice_sector l i x :
  length l = 512%nat -> 0 <= i -> i + Z.of_nat (length x) <= 512 ->
  length (splice i x l) = 512%nat /\
  forall k, at_ (splice i x l) k
    = if bool_decide (i <= k < i + Z.of_nat (length x)) then at_ x (k - i) else at_ l k.
Proof.
  intros Hl Hi Hx. split; [rewrite length_splice; lia|]. intros k. apply at_splice; lia.
Qed.

(** [fill_entry] byte by byte. *)
Lemma fill_entry_at b e name8 ext3 first size :
  length b = 512%nat -> 0 <= e < 16 ->
  length (fill_entry b e name8 ext3 first size) = 512%nat /\
  (forall k, ~ 32 * e <= k < 32 * e + 32 -> at_ (fill_entry b e name8 ext3 first size) k = at_ b k) /\
  (forall k, 0 <= k < 8 -> at_ (fill_entry b e name8 ext3 first size) (32 * e + k) = at_ name8 k) /\
  (forall k, 0 <= k < 3 -> at_ (fill_entry b e name8 ext3 first size) (32 * e + 8 + k) = at_ ext3 k) /\
  at_ (fill_entry b e name8 ext3 first size) (32 * e + 11) = 0x20 /\
  get16 (fill_entry b e name8 ext3 first size) (32 * e + 26) = u16 first /\
  get32 (fill_entry b e name8 ext3 first size) (32 * e + 28) = u32 size.
Proof.
  intros Hb He. unfold fill_entry, put16, put32.
  edestruct (splice_sector b (32 * e) (replicate 32 0)) as [L1 A1]; [done|lia|rewrite length_replicate; lia|].
  set (b1 := splice _ (replicate 32 0) b) in *.
  destruct (splice_sector b1 (32 * e) (sub_ name8 0 8)) as [L2 A2]; [done|lia|rewrite length_sub; lia|].
  set (b2 := splice _ _ b1) in *.
  destruct (splice_sector b2 (32 * e + 8) (sub_ ext3 0 3)) as [L3 A3]; [done|lia|rewrite length_sub; lia|].
  set (b3 := splice _ _ b2) in *.
  destruct (splice_sector b3 (32 * e + 11) [0x20]) as [L4 A4]; [done|lia|cbn; lia|].
  set (b4 := splice _ _ b3) in *.
  destruct (splice_sector b4 (32 * e + 26) [u8 first; u8 (first / 0x100)]) as [L5 A5]; [done|lia|cbn; lia|].
  set (b5 := splice _ _ b4) in *.
  destruct (splice_sector b5 (32 * e + 28)
    [u8 size; u8 (size / 0x100); u8 (size / 0x10000); u8 (size / 0x1000000)]) as [L6 A6]; [done|lia|cbn; lia|].
  set (b6 := splice _ _ b5) in *.
  rewrite length_replicate in A1. rewrite length_sub in A2, A3. cbn [length] in A4, A5, A6.
  split; [done|]. split_and!.
  - intros k Hk. rewrite A6, A5, A4, A3, A2, A1. by rewrite !bool_decide_false by lia.
  - intros k Hk. rewrite A6, A5, A4, A3, A2. rewrite !(bool_decide_false (_ <= 32 * e + k < _)) by lia.
    rewrite bool_decide_true, at_sub by lia. f_equal. lia.
  - intros k Hk. rewrite A6, A5, A4, A3. rewrite !(bool_decide_false (_ <= 32 * e + 8 + k < _)) by lia.
    rewrite bool_decide_true, at_sub by lia. f_equal. lia.
  - rewrite A6, A5, A4. rewrite !(bool_decide_false (_ <= 32 * e + 11 < _)) by lia.
    rewrite bool_decide_true by lia. by replace (32 * e + 11 - (32 * e + 11)) with 0 by lia.
  - unfold get16. rewrite !A6, !A5. rewrite !(bool_decide_false (32 * e + 28 <= _ < _)) by lia.
    rewrite !bool_decide_true by lia.
    replace (32 * e + 26 - (32 * e + 26)) with 0 by lia. replace (32 * e + 26 + 1 - (32 * e + 26)) with 1 by lia.
    change (u8 first + 0x100 * u8 (first / 0x100) = u16 first). word.
  - unfold get32. rewrite !A6. rewrite !bool_decide_true by lia.
    replace (32 * e + 28 - (32 * e + 28)) with 0 by lia. replace (32 * e + 28 + 1 - (32 * e + 28)) with 1 by lia.
    replace (32 * e + 28 + 2 - (32 * e + 28)) with 2 by lia. replace (32 * e + 28 + 3 - (32 * e + 28)) with 3 by lia.
    change (u8 size + 0x100 * u8 (size / 0x100) + 0x10000 * u8 (size / 0x10000)
            + 0x1000000 * u8 (size / 0x1000000) = u32 size). word.
Qed.

Lemma sub_ext l k i n : (forall j, 0 <= j < n -> at_ l (i + j) = at_ k j) -> sub_ l i n = sub_ k 0 n.
Proof.
  intros Hj. apply at_ext; [by rewrite !length_sub|]. intros j Hr. rewrite length_sub in Hr.
  rewrite !at_sub by lia. apply Hj. lia.
Qed.

(** The entry [fat16_write_file] writes. *)
Definition new_entry (name8 ext3 : list Z) (first size : Z) : fat16_dir_entry := {|
  filename := sub_ name8 0 8; ex := sub_ ext3 0 3; attributes := 0x20;
  low_first_cluster := u16 first; file_size := u32 size |}.

Lemma dir_entry_fill b e name8 ext3 first size :
  length b = 512%nat -> 0 <= e < 16 ->
  dir_entry (fill_entry b e name8 ext3 first size) e = new_entry name8 ext3 first size.
Proof.
  intros Hb He. destruct (fill_entry_at b e name8 ext3 first size Hb He) as (_ & _ & Hn & Hx & Ha & Hf & Hs).
  unfold dir_entry, new_entry. f_equal; [by apply sub_ext|by apply sub_ext|done|done|done].
Qed.

Lemma dir_entry_fill_ne b e e' name8 ext3 first size :
  length b = 512%nat -> 0 <= e < 16 -> 0 <= e' < 16 -> e' <> e ->
  dir_entry (fill_entry b e name8 ext3 first size) e' = dir_entry b e'.
Proof.
  intros Hb He He' Hne. destruct (fill_entry_at b e name8 ext3 first size Hb He) as (_ & Ho & _).
  assert (Hs : forall i n, 32 * e' <= i -> i + n <= 32 * e' + 32 ->
    sub_ (fill_entry b e name8 ext3 first size) i n = sub_ b i n).
  { intros i n Hi Hn. apply at_ext; [by rewrite !length_sub|]. intros j Hr. rewrite length_sub in Hr.
    rewrite !at_sub by lia. apply Ho. lia. }
  unfold dir_entry, get16, get32. rewrite !Hs by lia. by rewrite !Ho by lia.
Qed.

Section Dir.
Context {D : Type} `{BlockDevSpec D}.
Context (s : fat D) (V : volume s).

Definition slot (dk : disk) (k : Z) : fat16_dir_entry :=
  dir_entry (dk (root_dir_start s + k / 16)) (k mod 16).

Lemma slot_at dk sec e : 0 <= e < 16 -> slot dk (16 * sec + e) = dir_entry (dk (root_dir_start s + sec)) e.
Proof. intros He. unfold slot. do 2 f_equal; [f_equal|]; word. Qed.

Lemma find_in_sector_slots dk sec n m e name8 ext3 :
  0 <= e -> e + Z.of_nat n = 16 ->
  lookup_slots (slot dk) (n + m) (16 * sec + e) name8 ext3 =
  match find_in_sector n e (dk (root_dir_start s + sec)) name8 ext3 with
  | Found d => Some d
  | EndOfDir => None
  | NextSector => lookup_slots (slot dk) m (16 * (sec + 1)) name8 ext3
  end.
Proof.
  revert e. induction n as [|n IH]; intros e He Hn; cbn [find_in_sector].
  - cbn [Nat.add]. f_equal. lia.
  - cbn [Nat.add lookup_slots]. rewrite slot_at by lia. cbv zeta. fold (first_byte (dir_entry (dk (root_dir_start s + sec)) e)).
    replace (16 * sec + e + 1) with (16 * sec + (e + 1)) by lia. rewrite IH by lia. unfold matches.
    repeat case_bool_decide; try done; naive_solver.
Qed.

Lemma root_limit k : 0 <= k < root_dir_sectors s -> 0 <= root_dir_start s + k < dev_limit.
Proof. intros Hk. pose proof (spf_limit s V). destruct V. nia. Qed.

Lemma find_entry_wp n sec name8 ext3 d dk Q :
  holds d dk -> 0 <= sec -> sec + Z.of_nat n = root_dir_sectors s ->
  (forall d', holds d' dk ->
     Q (lookup_slots (slot dk) (16 * n) (16 * sec) name8 ext3) (set_dev d' s) []) ->
  wp (find_entry n sec name8 ext3) (set_dev d s) Q.
Proof.
  revert sec d Q. induction n as [|n IH]; intros sec d Q Hd Hsec Hn HQ; cbn [find_entry].
  - apply wp_ret. by apply HQ.
  - pose proof (root_limit sec ltac:(lia)). pose proof (v_limit s V).
    apply wp_bind, wp_get. cbn [set_dev root_dir_start]. rewrite u32_small by (unfold is_u32; lia).
    apply wp_bind. apply (read_sector_wp _ _ _ dk); [done|lia|]. intros d1 Hd1.
    replace (16 * S n)%nat with (16 + 16 * n)%nat in HQ by lia.
    pose proof (find_in_sector_slots dk sec 16 (16 * n) 0 name8 ext3 ltac:(lia) ltac:(lia)) as E.
    rewrite Z.add_0_r in E. rewrite E in HQ.
    destruct (find_in_sector 16 0 _ _ _) as [x| |]; [by apply wp_ret, HQ..|].
    apply IH; [done|lia|lia|]. done.
Qed.

Lemma free_slot_from dk sec n m e :
  0 <= e -> e + Z.of_nat n = 16 ->
  free_from (slot dk) (n + m) (16 * sec + e) =
  match free_slot n e (dk (root_dir_start s + sec)) with
  | Some e' => Some (16 * sec + e')
  | None => free_from (slot dk) m (16 * (sec + 1))
  end.
Proof.
  revert e. induction n as [|n IH]; intros e He Hn; cbn [free_slot].
  - cbn [Nat.add]. f_equal. lia.
  - cbn [Nat.add free_from]. rewrite slot_at by lia.
    replace (16 * sec + e + 1) with (16 * sec + (e + 1)) by lia. rewrite IH by lia.
    unfold first_byte. case_bool_decide; done.
Qed.

Lemma free_slot_range n e b x : free_slot n e b = Some x -> e <= x < e + Z.of_nat n.
Proof.
  revert e. induction n as [|n IH]; intros e; cbn [free_slot]; [done|].
  case_bool_decide; [intros [= <-]; lia|]. intros Hx%IH. lia.
Qed.

(** The disk after the entry at slot [k] is filled. *)
Definition set_slot (k : Z) (name8 ext3 : list Z) (first size : Z) (dk : disk) : disk :=
  upd (root_dir_start s + k / 16)
      (fill_entry (dk (root_dir_start s + k / 16)) (k mod 16) name8 ext3 first size) dk.


Lemma slot_set_slot k name8 ext3 first size dk j :
  length (dk (root_dir_start s + k / 16)) = 512%nat -> 0 <= k -> 0 <= j ->
  slot (set_slot k name8 ext3 first size dk) j
  = if bool_decide (j = k) then new_entry name8 ext3 first size else slot dk j.
Proof.
  intros Hlen Hk Hj. unfold slot, set_slot. case_bool_decide as E.
  - subst j. rewrite upd_eq. apply dir_entry_fill; [done|word].
  - unfold upd. case_bool_decide as E2; [|done].
    assert (Eq : j / 16 = k / 16) by lia. rewrite Eq.
    rewrite dir_entry_fill_ne; [done|done|word..].
Qed.

Lemma fill_entry_ok b e name8 ext3 first size :
  sector_ok b -> 0 <= e < 16 -> Forall is_u8 name8 -> Forall is_u8 ext3 ->
  sector_ok (fill_entry b e name8 ext3 first size).
Proof.
  intros [Hb Hu] He Hn Hx. split; [by apply fill_entry_at|].
  assert (Hat : forall l i, Forall is_u8 l -> is_u8 (at_ l i)).
  { intros l i Hl. unfold at_. case_bool_decide; [|unfold is_u8; lia].
    destruct (l !! _) eqn:E; cbn; [by eapply Forall_lookup_1 in Hl|unfold is_u8; lia]. }
  assert (Hsub : forall l i n, Forall is_u8 l -> Forall is_u8 (sub_ l i n)).
  { intros l i n Hl. apply Forall_fmap, Forall_forall. intros k _. by apply Hat. }
  assert (Hsp : forall i x l, Forall is_u8 x -> Forall is_u8 l -> Forall is_u8 (splice i x l)).
  { intros i x l Hx' Hl'. unfold splice. apply Forall_app. split; [by apply Forall_take|].
    apply Forall_app. split; [done|by apply Forall_drop]. }
  unfold fill_entry, put16, put32.
  repeat (apply Hsp; [first [by apply Hsub | apply Forall_replicate; unfold is_u8; lia
    | repeat constructor; first [apply u8_range | unfold is_u8; lia]]|]). done.
Qed.

Lemma add_entry_wp n sec name8 ext3 first size d dk Q :
  holds d dk -> 0 <= sec -> sec + Z.of_nat n = root_dir_sectors s ->
  Forall is_u8 name8 -> Forall is_u8 ext3 ->
  match free_from (slot dk) (16 * n) (16 * sec) with
  | Some k => forall d', holds d' (set_slot k name8 ext3 first size dk) ->
      Q 0 (set_dev d' s) [Print (str "fat16_write: file written!" ++ [10])]
  | None => forall d', holds d' dk ->
      Q (-1) (set_dev d' s) [Print (str "fat16_write: root directory full!" ++ [10])]
  end ->
  wp (add_entry n sec name8 ext3 first size) (set_dev d s) Q.
Proof.
  intros Hd Hsec Hn Hn8 Hx3. revert sec d Q Hd Hsec Hn.
  induction n as [|n IH]; intros sec d Q Hd Hsec Hn HQ; cbn [add_entry].
  - apply wp_bind, wp_emit, wp_ret. by apply HQ.
  - pose proof (root_limit sec ltac:(lia)). pose proof (v_limit s V).
    apply wp_bind, wp_get. cbn [set_dev root_dir_start]. rewrite u32_small by (unfold is_u32; lia).
    apply wp_bind. apply (read_sector_wp _ _ _ dk); [done|lia|]. intros d1 Hd1.
    replace (16 * S n)%nat with (16 + 16 * n)%nat in HQ by lia.
    pose proof (free_slot_from dk sec 16 (16 * n) 0 ltac:(lia) ltac:(lia)) as E.
    rewrite Z.add_0_r in E. rewrite E in HQ.
    destruct (free_slot 16 0 _) as [e|] eqn:Ef; [|by apply IH; [done|lia|lia|]].
    apply free_slot_range in Ef.
    apply wp_bind. eapply write_sector_wp; [done|lia| |].
    { apply fill_entry_ok; [by apply (holds_sector_ok d1); [|lia]|lia|done|done]. }
    intros d2 Hd2. apply wp_bind, wp_emit, wp_ret. cbn [app]. apply HQ.
    unfold set_slot. replace ((16 * sec + e) / 16) with sec by word.
    by replace ((16 * sec + e) mod 16) with e by word.
Qed.

(** Filling a slot changes only the directory. *)
Lemma set_slot_other k name8 ext3 first size dk l :
  0 <= k < 16 * root_dir_sectors s -> l < root_dir_start s \/ data_start_sector s <= l ->
  set_slot k name8 ext3 first size dk l = dk l.
Proof.
  intros Hk Hl. unfold set_slot. apply upd_ne. destruct V. word.
Qed.
End Dir.
