(* ===== verification/Fat16Spec.v ===== *)
(** * Properties of the FAT16 file system *)
From Stdlib Require Import ZArith Lia ZifyBool String.
From stdpp Require Import base numbers list gmap.
From S2P Require Import Prelude Mem BlockDev Fat16 Fat16Facts Fat16Dir.

Lemma strncmp_same n s1 s2 i :
  (forall j, i <= j < i + Z.of_nat n -> s1 j = s2 j) -> CString.strncmp_from n s1 s2 i = 0.
Proof.
  revert i. induction n as [|n IH]; intros i Hj; cbn; [done|].
  case_bool_decide; [apply IH; intros; apply Hj; lia|]. rewrite Hj by lia. lia.
Qed.

Lemma new_entry_matches name8 ext3 first size : matches (new_entry name8 ext3 first size) name8 ext3.
Proof.
  split; apply strncmp_same; intros j Hj; cbn [new_entry filename ex]; rewrite at_sub by lia; f_equal; lia.
Qed.

(** A matching name has the same first character. *)
Lemma matches_first d name8 ext3 : matches d name8 ext3 -> first_byte d = at_ name8 0.
Proof.
  intros [Hm _]. unfold CString.strncmp in Hm. change (Z.to_nat 8) with 8%nat in Hm.
  cbn [CString.strncmp_from] in Hm. unfold first_byte. case_bool_decide; [tauto|lia].
Qed.

Lemma new_entry_first name8 ext3 first size : first_byte (new_entry name8 ext3 first size) = at_ name8 0.
Proof. unfold first_byte. cbn. rewrite at_sub by lia. done. Qed.

Lemma lookup_none_skipped slots n k j name8 ext3 :
  lookup_slots slots n k name8 ext3 = None -> j <= k + Z.of_nat n ->
  (forall i, k <= i < j -> ~ slot_free (slots i)) ->
  forall i, k <= i < j -> skipped name8 ext3 (slots i).
Proof.
  revert k. induction n as [|n IH]; intros k Hl Hj Hnf i Hi; [lia|]. cbn [lookup_slots] in Hl.
  pose proof (Hnf k ltac:(lia)) as Hk. unfold slot_free in Hk.
  rewrite bool_decide_false in Hl by tauto.
  assert (Hrest : lookup_slots slots n (k + 1) name8 ext3 = None /\ skipped name8 ext3 (slots k)).
  { unfold skipped. repeat case_bool_decide; try done; split; try done; naive_solver. }
  destruct Hrest as [Hr Hs]. destruct (decide (i = k)) as [->|]; [done|].
  apply (IH (k + 1) Hr); [lia| |lia]. intros x Hx. apply Hnf. lia.
Qed.

Lemma filter_none (P : Z -> Prop) `{forall x, Decision (P x)} l :
  (forall x, x ∈ l -> ~ P x) -> filter P l = [].
Proof.
  induction l as [|x l IH]; intros Hl; [done|]. rewrite filter_cons_False by (apply Hl; set_solver).
  apply IH. set_solver.
Qed.

Section Spec.
Context {D : Type} `{BlockDevSpec D}.
Context (s : fat D) (V : volume s).

Abbreviation spc := (sectors_per_clustor (g_bpb s)).
Abbreviation slots := (16 * Z.to_nat (root_dir_sectors s))%nat.

(** The number of clusters a file of [size] bytes takes. *)
Definition clusters_for (size : Z) : Z := (size + spc * 512 - 1) / (spc * 512).

(** The entry a name refers to. *)
Definition dir_find (dk : disk) (name8 ext3 : list Z) : option fat16_dir_entry :=
  lookup_slots (slot s dk) slots 0 name8 ext3.

(** The disk after a successful write: the clusters [cs], allocated from [dk],
    carry the data, and slot [k] names them. *)
Definition written (dk dk' : disk) (cs : list Z) (k : Z) (name8 ext3 data : list Z) (size : Z) : Prop :=
  exists dk1, allocated s dk dk1 cs /\ Z.of_nat (length cs) = clusters_for size /\
    free_from (slot s dk) slots 0 = Some k /\
    dk' = set_slot s k name8 ext3 (default 0 (head cs)) size
            (put_blocks (chain_sectors s cs) data size 0 dk1).

Lemma clusters_for_pos size : 0 < size -> 0 < clusters_for size /\ size <= clusters_for size * (spc * 512).
Proof. intros Hs. unfold clusters_for. destruct (v_spc s V). split; [apply Z.div_str_pos; lia|word]. Qed.

Lemma chain_sectors_length cs : Z.of_nat (length (chain_sectors s cs)) = Z.of_nat (length cs) * spc.
Proof.
  destruct (v_spc s V). induction cs as [|c cs IH]; [done|]. rewrite chain_sectors_cons, length_app, length_seqZ.
  cbn [length]. lia.
Qed.

Lemma slot_ext dk dk' k :
  0 <= k < 16 * root_dir_sectors s ->
  (forall l, root_dir_start s <= l < data_start_sector s -> dk' l = dk l) -> slot s dk' k = slot s dk k.
Proof. intros Hk Hl. unfold slot. rewrite Hl; [done|]. destruct V. word. Qed.

Lemma free_from_ext f g n k :
  (forall i, k <= i < k + Z.of_nat n -> g i = f i) -> free_from g n k = free_from f n k.
Proof.
  revert k. induction n as [|n IH]; intros k Hi; [done|]. cbn. rewrite Hi by lia.
  rewrite IH; [done|]. intros; apply Hi; lia.
Qed.

(** Every outcome of [fat16_write_file] on a nonempty file. *)
Lemma write_file_wp name8 ext3 data size d dk Q :
  holds d dk -> Forall is_u8 data -> Forall is_u8 name8 -> Forall is_u8 ext3 ->
  0 < size < 0x80000000 ->
  (forall d' dk' cs k, holds d' dk' -> written dk dk' cs k name8 ext3 data size ->
     Q 0 (set_dev d' s) [Print (str "fat16_write: file written!" ++ [10])]) ->
  (forall d' dk' cs, holds d' dk' -> allocated s dk dk' cs ->
     Z.of_nat (length (free_clusters s dk)) < clusters_for size -> (forall c, cluster s c -> fat_at s dk' c <> 0) ->
     Q (-1) (set_dev d' s) [Print (str "fat16_write: disk full!" ++ [10])]) ->
  (forall d' dk' dk1 cs, holds d' dk' -> free_from (slot s dk) slots 0 = None ->
     allocated s dk dk1 cs -> Z.of_nat (length cs) = clusters_for size ->
     dk' = put_blocks (chain_sectors s cs) data size 0 dk1 ->
     Q (-1) (set_dev d' s) [Print (str "fat16_write: root directory full!" ++ [10])]) ->
  wp (fat16_write_file name8 ext3 data size) (set_dev d s) Q.
Proof.
  intros Hd Hdata Hn8 Hx3 Hsize Hok Hfull Hdir. destruct (clusters_for_pos size) as [Hcf Hcov]; [lia|].
  unfold fat16_write_file. apply wp_bind, wp_get. cbn [set_dev g_bpb root_dir_sectors]. cbv zeta.
  destruct (v_spc s V) as [Hspc1 Hspc2].
  apply wp_bind, (wp_lift (clusters_for size)).
  { rewrite (v_bps s V), u32_small by (unfold is_u32; lia). rewrite udiv_nonzero by lia. done. }
  rewrite bool_decide_false by lia. apply wp_bind.
  apply (alloc_chain_wp s V (Z.to_nat (clusters_for size)) [] dk dk d); [done|by apply allocated_nil| |].
  2:{ intros d' dk' cs Hd' Ha Hlt Hno. apply wp_ret. cbn [app].
      eapply Hfull; [done|done|cbn in Hlt; lia|done]. }
  intros d1 dk1 cs Hd1 Ha _ Hlen. cbn [length] in Hlen.
  assert (Hcs : forall c, c ∈ cs -> cluster s c) by (intros c Hc; by apply (al_free _ _ _ _ Ha)).
  apply wp_bind. apply (write_chain_wp s V _ cs _ _ _ _ _ dk1); [done|done|done|apply Ha| |lia|].
  { destruct cs; [cbn in Hlen; lia|done]. }
  intros d2 Hd2. cbn [app].
  assert (Hslots : forall i, 0 <= i < 0 + Z.of_nat slots ->
    slot s (put_blocks (chain_sectors s cs) data size 0 dk1) i = slot s dk i).
  { intros i Hi. pose proof (v_rsec s V). apply slot_ext; [lia|]. intros l Hl.
    rewrite (put_chain_low s V) by (done || lia). apply (al_other _ _ _ _ Ha). lia. }
  apply (add_entry_wp s V _ _ _ _ _ _ _ _ _ Hd2); [lia|pose proof (v_rsec s V); lia|done|done|].
  rewrite Z.mul_0_r, (free_from_ext (slot s dk)) by exact Hslots.
  destruct (free_from (slot s dk) slots 0) as [k|] eqn:Ek.
  - intros d3 Hd3. eapply Hok; [done|]. exists dk1. split_and!; [done|lia|done|done].
  - intros d3 Hd3. eapply Hdir; [done|done|done|lia|done].
Qed.

(** An empty file is refused and nothing happens. *)
Lemma write_empty_wp name8 ext3 data d Q :
  Q (-1) (set_dev d s) [Print (str "fat16_write: cannot write empty file" ++ [10])] ->
  wp (fat16_write_file name8 ext3 data 0) (set_dev d s) Q.
Proof.
  intros HQ. destruct (v_spc s V) as [Hspc1 Hspc2].
  unfold fat16_write_file. apply wp_bind, wp_get. cbn [set_dev g_bpb root_dir_sectors]. cbv zeta.
  apply wp_bind, (wp_lift 0).
  { rewrite (v_bps s V), u32_small by (unfold is_u32; lia). rewrite udiv_nonzero by lia. f_equal. apply Z.div_small. lia. }
  rewrite bool_decide_true by done. apply wp_bind, wp_emit, wp_ret. exact HQ.
Qed.

(** ** Reading *)

(** The file at the entry [d] has the clusters [cs]. *)
Definition file_at (dk : disk) (d : fat16_dir_entry) (cs : list Z) : Prop :=
  (forall c, c ∈ cs -> cluster s c) /\ chain (fat_at s dk) cs /\
  low_first_cluster d = default 0xFFFF (head cs) /\ 0 <= file_size d.

Definition file_bytes (dk : disk) (cs : list Z) : list Z := bytes_of dk (chain_sectors s cs).

Lemma read_file_wp name8 ext3 max d dk Q :
  holds d dk -> 0 <= max ->
  match dir_find dk name8 ext3 with
  | None => forall d', holds d' dk ->
      Q (-1, []) (set_dev d' s) [Print (str "fat16_read: file not found" ++ [10])]
  | Some e => exists cs, file_at dk e cs /\
      forall d', holds d' dk ->
        Q (i32 (file_size e), take (Z.to_nat (Z.min max (file_size e))) (file_bytes dk cs)) (set_dev d' s) []
  end ->
  wp (fat16_read_file name8 ext3 max) (set_dev d s) Q.
Proof.
  intros Hd Hmax HQ. unfold fat16_read_file. apply wp_bind, wp_get. cbn [set_dev root_dir_sectors].
  apply wp_bind. pose proof (v_rsec s V).
  apply (find_entry_wp s V _ _ _ _ _ dk); [done|lia|lia|]. intros d1 Hd1. rewrite Z.mul_0_r.
  fold (dir_find dk name8 ext3). destruct (dir_find dk name8 ext3) as [e|].
  2:{ apply wp_bind, wp_emit, wp_ret. by apply HQ. }
  destruct HQ as (cs & (Hcs & Hch & Hf & Hsz) & HQ). cbv zeta.
  assert (Hmin : (if bool_decide (file_size e > max) then max else file_size e) = Z.min max (file_size e))
    by (case_bool_decide; lia).
  rewrite Hmin. apply wp_bind. apply (read_chain_wp s V _ cs _ _ _ _ dk); [done|done|done|done|lia|].
  intros d2 Hd2. apply wp_ret. by apply HQ.
Qed.

(** ** What a write does to the disk *)
Lemma written_slot dk dk' cs k name8 ext3 data size :
  written dk dk' cs k name8 ext3 data size ->
  0 <= k < 16 * root_dir_sectors s /\ slot_free (slot s dk k) /\
  forall i, 0 <= i < k -> ~ slot_free (slot s dk i).
Proof.
  intros (dk1 & _ & _ & Hk & _). pose proof (free_from_spec (slot s dk) slots 0) as Hf.
  rewrite Hk in Hf. destruct Hf as (? & ? & ?). pose proof (v_rsec s V). split_and!; [lia|lia|done|done].
Qed.

Lemma written_slots d dk dk' cs k name8 ext3 data size i :
  holds d dk -> written dk dk' cs k name8 ext3 data size -> 0 <= i < 16 * root_dir_sectors s ->
  slot s dk' i = if bool_decide (i = k) then new_entry name8 ext3 (default 0 (head cs)) size else slot s dk i.
Proof.
  intros Hd W Hi. destruct (written_slot _ _ _ _ _ _ _ _ W) as (Hk & _).
  destruct W as (dk1 & Ha & _ & _ & ->).
  assert (Hroot : forall l, root_dir_start s <= l < data_start_sector s ->
    put_blocks (chain_sectors s cs) data size 0 dk1 l = dk l).
  { intros l Hl. rewrite (put_chain_low s V) by (lia || (intros c Hc; by apply (al_free _ _ _ _ Ha))).
    apply (al_other _ _ _ _ Ha). lia. }
  rewrite slot_set_slot; [|rewrite Hroot|lia|lia].
  - case_bool_decide; [done|]. apply slot_ext; [lia|exact Hroot].
  - apply (holds_len d); [done|]. apply root_limit; [done|]. word.
  - destruct V. word.
Qed.

(** Below the directory only the FAT changes, above it only the new clusters. *)
Lemma written_fat dk dk' cs k name8 ext3 data size :
  written dk dk' cs k name8 ext3 data size ->
  chain (fat_at s dk') cs /\ (forall c, cluster s c -> c ∉ cs -> fat_at s dk' c = fat_at s dk c) /\
  (mirrored s dk -> mirrored s dk').
Proof.
  intros W. destruct (written_slot _ _ _ _ _ _ _ _ W) as (Hk & _). destruct W as (dk1 & Ha & _ & _ & ->).
  set (dk2 := put_blocks _ data size 0 dk1).
  assert (Hlow : forall l, l < root_dir_start s ->
    set_slot s k name8 ext3 (default 0 (head cs)) size dk2 l = dk1 l).
  { intros l Hl. rewrite (set_slot_other s V) by (done || lia). apply (put_chain_low s V).
    - intros c Hc. by apply (al_free _ _ _ _ Ha).
    - pose proof (data_after_root s V). lia. }
  assert (Hf : forall c, cluster s c -> fat_at s (set_slot s k name8 ext3 (default 0 (head cs)) size dk2) c = fat_at s dk1 c).
  { intros c Hc. apply (fat_at_low s V); [|done]. unfold cluster in Hc. lia. }
  split_and!.
  - apply (chain_ext (fat_at s dk1)); [|apply Ha]. intros c Hc. symmetry. apply Hf. by apply (al_free _ _ _ _ Ha).
  - intros c Hc Hin. rewrite Hf by done. by apply (al_fat _ _ _ _ Ha).
  - intros Hm x Hx. destruct V. rewrite !Hlow by lia. by apply (al_mirror _ _ _ _ Ha).
Qed.

Lemma written_clusters dk dk' cs k name8 ext3 data size :
  written dk dk' cs k name8 ext3 data size ->
  NoDup cs /\ forall c, c ∈ cs -> cluster s c /\ fat_at s dk c = 0.
Proof. intros (dk1 & Ha & _). split; [apply Ha|]. apply (al_free _ _ _ _ Ha). Qed.


(** Reading a chain of clusters only depends on its sectors. *)
Lemma bytes_of_ext dk dk' ls : (forall l, l ∈ ls -> dk' l = dk l) -> bytes_of dk' ls = bytes_of dk ls.
Proof.
  induction ls as [|l ls IH]; intros Hl; [done|]. unfold bytes_of. rewrite !bind_cons.
  rewrite Hl by set_solver. f_equal. apply IH. set_solver.
Qed.

(** The new file's bytes are the data. *)
Lemma written_bytes d dk dk' cs k name8 ext3 data size :
  holds d dk' -> written dk dk' cs k name8 ext3 data size -> 0 < size ->
  take (Z.to_nat size) (file_bytes dk' cs) = sub_ data 0 size.
Proof.
  intros Hd W Hsize. destruct (written_slot _ _ _ _ _ _ _ _ W) as (Hk & _).
  destruct (written_clusters _ _ _ _ _ _ _ _ W) as [Hnd Hcs].
  assert (Hcl : forall c, c ∈ cs -> cluster s c) by (intros; by apply Hcs).
  destruct W as (dk1 & Ha & Hlen & _ & Hdk'). destruct (clusters_for_pos size Hsize) as [_ Hcov].
  pose proof (chain_sectors_length cs) as Hcl2. pose proof (chain_sectors_nodup s V cs Hcl Hnd) as Hndl.
  pose proof (data_after_root s V) as Hroot. pose proof (spf_limit s V).
  assert (Hflen : Z.of_nat (length (file_bytes dk' cs)) = 512 * Z.of_nat (length (chain_sectors s cs))).
  { unfold file_bytes. rewrite (length_bytes_of s V d); [lia|done|]. intros l Hl.
    pose proof (chain_sectors_data s V cs l Hcl Hl). destruct V. lia. }
  assert (Hsame : file_bytes dk' cs = bytes_of (put_blocks (chain_sectors s cs) data size 0 dk1) (chain_sectors s cs)).
  { apply bytes_of_ext. intros l Hl. rewrite Hdk'. apply (set_slot_other s V); [done|].
    pose proof (chain_sectors_data s V cs l Hcl Hl). lia. }
  apply at_ext; [rewrite length_take, length_sub; lia|]. intros i Hi. rewrite length_take in Hi.
  rewrite at_take, at_sub, Hsame by lia. apply put_blocks_read; [done|lia|lia|lia].
Qed.

(** After a write the name refers to the new file. *)
Lemma written_find d dk dk' cs k name8 ext3 data size :
  holds d dk -> written dk dk' cs k name8 ext3 data size -> at_ name8 0 <> 0 -> at_ name8 0 <> 0xE5 ->
  dir_find dk name8 ext3 = None ->
  dir_find dk' name8 ext3 = Some (new_entry name8 ext3 (default 0 (head cs)) size).
Proof.
  intros Hd W N0 N5 Hnone. destruct (written_slot _ _ _ _ _ _ _ _ W) as (Hk & _ & Hnf).
  pose proof (v_rsec s V) as Hrs.
  assert (Hsl : forall i, 0 <= i < 16 * root_dir_sectors s -> slot s dk' i =
    if bool_decide (i = k) then new_entry name8 ext3 (default 0 (head cs)) size else slot s dk i).
  { intros i Hi. by eapply written_slots. }
  assert (Hkk : slot s dk' k = new_entry name8 ext3 (default 0 (head cs)) size)
    by (rewrite Hsl by done; by rewrite bool_decide_true).
  unfold dir_find. rewrite (lookup_slots_found _ _ _ k); rewrite ?Hkk; [done|lia| |..].
  - intros i Hi. rewrite Hsl, bool_decide_false by lia.
    by apply (lookup_none_skipped (slot s dk) slots 0 k); [|lia| |].
  - by rewrite new_entry_first.
  - by rewrite new_entry_first.
  - done.
  - apply new_entry_matches.
Qed.

(** Other names keep referring to what they did. *)
Lemma written_find_other d dk dk' cs k name8 ext3 data size n2 e2 e :
  holds d dk -> written dk dk' cs k name8 ext3 data size -> at_ name8 0 <> 0 ->
  ~ matches (new_entry name8 ext3 (default 0 (head cs)) size) n2 e2 ->
  dir_find dk n2 e2 = Some e -> dir_find dk' n2 e2 = Some e.
Proof.
  intros Hd W N0 Hnm Hf. destruct (written_slot _ _ _ _ _ _ _ _ W) as (Hk & Hkf & _).
  pose proof (v_rsec s V) as Hrs.
  assert (Hsl : forall i, 0 <= i < 16 * root_dir_sectors s -> slot s dk' i =
    if bool_decide (i = k) then new_entry name8 ext3 (default 0 (head cs)) size else slot s dk i).
  { intros i Hi. by eapply written_slots. }
  destruct (lookup_slots_some _ _ _ _ _ _ Hf) as (j & Hj & -> & Hm & Hnf & Hat & Hsk).
  assert (Hjk : j <> k) by (intros ->; done).
  assert (Hjj : slot s dk' j = slot s dk j) by (rewrite Hsl by lia; by rewrite bool_decide_false).
  unfold dir_find. unfold slot_free in Hnf. rewrite (lookup_slots_found _ _ _ j); rewrite ?Hjj; try tauto.
  intros i Hi. rewrite Hsl by lia. case_bool_decide; [|by apply Hsk].
  split; [by rewrite new_entry_first|]. by right; right.
Qed.

(** In a directory without deleted entries a written entry goes behind those in
    use, so a name that exists keeps its old entry. *)
Lemma written_old_first d dk dk' cs k name8 ext3 data size e :
  holds d dk -> written dk dk' cs k name8 ext3 data size ->
  (forall i, 0 <= i < 16 * root_dir_sectors s -> first_byte (slot s dk i) <> 0xE5) ->
  dir_find dk name8 ext3 = Some e ->
  exists j, 0 <= j < k /\ k < 16 * root_dir_sectors s /\ slot s dk' j = e /\ matches e name8 ext3 /\ ~ slot_free e /\
    dir_find dk' name8 ext3 = Some e.
Proof.
  intros Hd W Hno5 Hfind. destruct (written_slot _ _ _ _ _ _ _ _ W) as (Hk & Hkf & _). pose proof (v_rsec s V).
  destruct (lookup_slots_some _ _ _ _ _ _ Hfind) as (j & Hj & -> & Hm & Hnf & Hattr & Hsk).
  assert (Hjk : j < k).
  { destruct (decide (j < k)); [done|]. exfalso. destruct Hkf as [Hz|H5]; [|by apply (Hno5 k)].
    destruct (decide (j = k)) as [->|]; [by apply Hnf; left|]. destruct (Hsk k ltac:(lia)) as [? _]. done. }
  assert (Hsl : forall i, 0 <= i <= j -> slot s dk' i = slot s dk i).
  { intros i Hi. rewrite (written_slots d dk dk' cs k name8 ext3 data size) by (done || lia).
    by rewrite bool_decide_false by lia. }
  exists j. split_and!; [lia|lia|lia|by apply Hsl; lia|done|done|].
  unfold slot_free in Hnf. unfold dir_find. rewrite (lookup_slots_found _ _ _ j); rewrite ?Hsl by lia; try tauto.
  intros i Hi. rewrite Hsl by lia. by apply Hsk.
Qed.

Lemma chain_nonzero f cs c : (forall x, x ∈ cs -> cluster s x) -> chain f cs -> c ∈ cs -> f c <> 0.
Proof.
  induction cs as [|x cs IH]; [set_solver|]. intros Hcs [Hx Hch] [->|Hin]%elem_of_cons.
  - destruct cs as [|y cs]; [lia|]. assert (cluster s y) as Hy by (apply Hcs; set_solver).
    unfold cluster in Hy. lia.
  - apply IH; [set_solver|done|done].
Qed.

(** What any write, failed ones included, does below and above the directory:
    the clusters [cs] were free and form a chain afterwards, no other FAT entry
    and no other cluster's sector is touched, equal FAT copies stay equal. *)
Record effect (dk dk' : disk) (cs : list Z) : Prop := {
  ef_nodup : NoDup cs;
  ef_free : forall c, c ∈ cs -> cluster s c /\ fat_at s dk c = 0;
  ef_chain : chain (fat_at s dk') cs;
  ef_fat : forall c, cluster s c -> c ∉ cs -> fat_at s dk' c = fat_at s dk c;
  ef_data : forall l, data_start_sector s <= l -> l ∉ chain_sectors s cs -> dk' l = dk l;
  ef_mirror : mirrored s dk -> mirrored s dk';
}.

Lemma effect_refl dk : effect dk dk [].
Proof. constructor; try done; try set_solver. apply NoDup_nil_2. Qed.

Lemma written_effect dk dk' cs k name8 ext3 data size :
  written dk dk' cs k name8 ext3 data size -> effect dk dk' cs.
Proof.
  intros W. destruct (written_slot _ _ _ _ _ _ _ _ W) as (Hk & _).
  destruct (written_clusters _ _ _ _ _ _ _ _ W), (written_fat _ _ _ _ _ _ _ _ W) as (? & ? & ?).
  constructor; try done. destruct W as (dk1 & Ha & _ & _ & ->). intros l Hl Hin.
  pose proof (data_after_root s V). rewrite (set_slot_other s V) by (done || lia).
  rewrite put_blocks_other by done. apply (al_other _ _ _ _ Ha). lia.
Qed.

Lemma allocated_effect dk dk' cs : allocated s dk dk' cs -> effect dk dk' cs.
Proof.
  intros Ha. constructor; try apply Ha. intros l Hl _. pose proof (data_after_root s V).
  apply (al_other _ _ _ _ Ha). lia.
Qed.

(** The directory was full: the data is on the disk, without a name. *)
Lemma unnamed_effect dk dk1 cs data size :
  allocated s dk dk1 cs -> effect dk (put_blocks (chain_sectors s cs) data size 0 dk1) cs.
Proof.
  intros Ha. assert (Hcs : forall c, c ∈ cs -> cluster s c) by (intros c Hc; by apply (al_free _ _ _ _ Ha)).
  pose proof (data_after_root s V) as Hroot.
  assert (Hlow : forall l, l < data_start_sector s -> put_blocks (chain_sectors s cs) data size 0 dk1 l = dk1 l).
  { intros l Hl. by apply (put_chain_low s V). }
  assert (Hf : forall c, cluster s c -> fat_at s (put_blocks (chain_sectors s cs) data size 0 dk1) c = fat_at s dk1 c).
  { intros c Hc. unfold cluster in Hc. apply (fat_at_low s V); [lia|]. intros l Hl. apply Hlow. lia. }
  constructor; try apply Ha.
  - apply (chain_ext (fat_at s dk1)); [|apply Ha]. intros c Hc. symmetry. by apply Hf, Hcs.
  - intros c Hc Hin. rewrite Hf by done. by apply (al_fat _ _ _ _ Ha).
  - intros l Hl Hin. rewrite put_blocks_other by done. apply (al_other _ _ _ _ Ha). lia.
  - intros Hm x Hx. destruct V. rewrite !Hlow by lia. by apply (al_mirror _ _ _ _ Ha).
Qed.

(** Files made of clusters that were in use stay what they are. *)
Lemma effect_keeps_file dk dk' cs e cs2 :
  effect dk dk' cs -> file_at dk e cs2 -> file_at dk' e cs2 /\ file_bytes dk' cs2 = file_bytes dk cs2.
Proof.
  intros W (Hcs2 & Hch & Hfirst & Hfs).
  assert (Hdis : forall c, c ∈ cs2 -> c ∉ cs).
  { intros c Hc Hin. destruct (ef_free _ _ _ W c Hin) as [_ Hz]. by apply (chain_nonzero (fat_at s dk) cs2 c). }
  split.
  - split_and!; [done| |done|done]. apply (chain_ext (fat_at s dk)); [|done]. intros c Hc. symmetry.
    apply (ef_fat _ _ _ W); [by apply Hcs2|by apply Hdis].
  - apply bytes_of_ext. intros l Hl. pose proof (chain_sectors_data s V cs2 l Hcs2 Hl) as Hr.
    apply (ef_data _ _ _ W); [lia|]. intros Hin. unfold chain_sectors in Hl, Hin.
    apply list_elem_of_bind in Hl as (c2 & Hl2 & Hc2). apply list_elem_of_bind in Hin as (c1 & Hl1 & Hc1).
    rewrite (cluster_sectors_disjoint s V c2 c1 l) in Hc2; [|by apply Hcs2|by apply (ef_free _ _ _ W)|done|done].
    by apply (Hdis c1).
Qed.

(** The directory only depends on its sectors. *)
Lemma dir_find_ext dk dk' name8 ext3 :
  (forall l, root_dir_start s <= l < data_start_sector s -> dk' l = dk l) ->
  dir_find dk' name8 ext3 = dir_find dk name8 ext3.
Proof.
  intros Hl. unfold dir_find. apply lookup_slots_ext. intros i Hi. pose proof (v_rsec s V).
  left. apply slot_ext; [lia|done].
Qed.

(** Whatever a write does, its effect is as above and a name that does not match
    the new entry's refers to the entry it referred to. *)
Lemma write_effect_wp name8 ext3 data size d dk Q :
  holds d dk -> Forall is_u8 data -> Forall is_u8 name8 -> Forall is_u8 ext3 ->
  0 <= size < 0x80000000 ->
  (forall w d' dk' cs o, holds d' dk' -> effect dk dk' cs -> w = 0 \/ w = -1 ->
     (w = 0 -> Z.of_nat (length cs) = clusters_for size) ->
     (forall n2 e2 e, at_ name8 0 <> 0 -> (forall first, ~ matches (new_entry name8 ext3 first size) n2 e2) ->
        dir_find dk n2 e2 = Some e -> dir_find dk' n2 e2 = Some e) ->
     Q w (set_dev d' s) o) ->
  wp (fat16_write_file name8 ext3 data size) (set_dev d s) Q.
Proof.
  intros Hd Hdata Hn8 Hx3 Hsize HQ. destruct (decide (size = 0)) as [->|Hne].
  { apply write_empty_wp. apply (HQ _ d dk []); [done|apply effect_refl|by right|done|done]. }
  apply (write_file_wp _ _ _ _ _ dk); [done..|lia| | |].
  - intros d1 dk1 cs k Hd1 W. apply (HQ _ d1 dk1 cs); [done|by eapply written_effect|by left| |].
    + intros _. by destruct W as (? & ? & Hlen & _).
    + intros n2 e2 e N0 Hnm. by apply (written_find_other d dk dk1 cs k name8 ext3 data size).
  - intros d1 dk1 cs Hd1 Ha _ _. apply (HQ _ d1 dk1 cs); [done|by apply allocated_effect|by right|done|].
    intros n2 e2 e _ _ <-. apply dir_find_ext. intros l Hl. apply (al_other _ _ _ _ Ha). lia.
  - intros d1 dk1 dk2 cs Hd1 _ Ha Hlen E. rewrite E in Hd1. apply (HQ _ d1 _ cs _ Hd1); [by apply unnamed_effect|by right|done|].
    intros n2 e2 e _ _ <-. apply dir_find_ext. intros l Hl.
    rewrite (put_chain_low s V) by (lia || (intros c Hc; by apply (al_free _ _ _ _ Ha))).
    apply (al_other _ _ _ _ Ha). lia.
Qed.

Lemma written_file_at d dk dk' cs k name8 ext3 data size :
  holds d dk -> written dk dk' cs k name8 ext3 data size -> 0 < size < 0x80000000 ->
  file_at dk' (new_entry name8 ext3 (default 0 (head cs)) size) cs.
Proof.
  intros Hd W Hs. destruct (written_clusters _ _ _ _ _ _ _ _ W) as [_ Hcs].
  destruct (written_fat _ _ _ _ _ _ _ _ W) as (Hch & _). destruct (clusters_for_pos size) as [Hpos _]; [lia|].
  destruct W as (_ & _ & Hlen & _). destruct cs as [|c cs]; [cbn in Hlen; lia|].
  split_and!; [intros; by apply Hcs|done| |cbn; apply u32_range]. cbn.
  apply (cluster_range s V). apply Hcs. set_solver.
Qed.

(** After a write that finds room, the file's name reads back as its data. *)
Lemma write_read_wp d dk name8 ext3 data size :
  holds d dk -> Forall is_u8 data -> Forall is_u8 name8 -> Forall is_u8 ext3 ->
  size <= Z.of_nat (length data) -> 0 < size < 0x80000000 ->
  at_ name8 0 <> 0 -> at_ name8 0 <> 0xE5 -> dir_find dk name8 ext3 = None ->
  clusters_for size <= Z.of_nat (length (free_clusters s dk)) ->
  is_Some (free_from (slot s dk) slots 0) ->
  wp (fat16_write_file name8 ext3 data size) (set_dev d s) (fun w s1 o =>
    w = 0 /\ o = [Print (str "fat16_write: file written!" ++ [10])] /\
    forall max, 0 <= max -> wp (fat16_read_file name8 ext3 max) s1 (fun r _ o =>
      o = [] /\ r = (size, take (Z.to_nat max) (take (Z.to_nat size) data)))).
Proof.
  intros Hd Hdata Hn8 Hx3 Hsz Hsize N0 N5 Hnone Hfree [k0 Hslot].
  apply (write_file_wp _ _ _ _ _ dk); [done..| | |].
  - intros d1 dk1 cs k Hd1 W. split_and!; [done..|]. intros max Hmax.
    apply (read_file_wp _ _ _ _ dk1); [done|done|].
    rewrite (written_find d dk dk1 cs k _ _ data size) by done.
    exists cs. split; [by eapply (written_file_at d dk)|]. intros d2 Hd2. split; [done|].
    cbn [new_entry file_size]. rewrite (u32_small size) by (unfold is_u32; lia). f_equal.
    + unfold i32. rewrite u32_small by (unfold is_u32; lia). cbv zeta. by rewrite bool_decide_true by lia.
    + assert (Ht : forall l : list Z, take (Z.to_nat (Z.min max size)) l = take (Z.to_nat max) (take (Z.to_nat size) l)).
      { intros l. rewrite firstn_firstn. f_equal. lia. }
      rewrite Ht, (written_bytes d1 dk dk1 cs k name8 ext3 data size) by (done || lia).
      by rewrite take_sub by lia.
  - intros d1 dk1 cs _ _ Hlt. lia.
  - intros d1 dk1 dk2 cs _ Hn. congruence.
Qed.

(** ** Properties *)

(** C4: write then read: on a consistent volume with enough free clusters, a free directory slot and no file of the same name, fat16_write_file succeeds, and fat16_read_file of that name then returns the file's size and fills the buffer with the data written, up to the buffer's size. *)
Theorem fat16_write_read d dk name8 ext3 data size max :
  holds d dk -> Forall is_u8 data -> Forall is_u8 name8 -> Forall is_u8 ext3 ->
  size = Z.of_nat (length data) -> 0 < size < 0x80000000 -> 0 <= max ->
  at_ name8 0 <> 0 -> at_ name8 0 <> 0xE5 -> dir_find dk name8 ext3 = None ->
  clusters_for size <= Z.of_nat (length (free_clusters s dk)) ->
  is_Some (free_from (slot s dk) slots 0) ->
  wp (w ← fat16_write_file name8 ext3 data size; r ← fat16_read_file name8 ext3 max; mret (w, r))
    (set_dev d s) (fun v _ _ => v = (0, (size, take (Z.to_nat max) data))).
Proof.
  intros Hd Hdata Hn8 Hx3 Hsz Hsize Hmax N0 N5 Hnone Hfree Hslot. apply wp_bind.
  eapply wp_mono; [apply (write_read_wp d dk); (done || lia)|]. cbv beta. intros w s1 o (-> & _ & Hr). apply wp_bind.
  eapply wp_mono; [by apply Hr|]. cbv beta. intros r s2 o2 (_ & ->). rewrite (take_ge data (Z.to_nat size)) by lia. by apply wp_ret.
Qed.

(** C17: writing a file leaves every other file as it was, also when the write fails (an empty file, a full disk or a full directory): a name that referred to an entry before the write, and does not match the new one, refers to the same entry afterwards, and reading it gives the same size and bytes.  The name written must not start with a NUL, which would end the directory. *)
Theorem fat16_write_preserves d dk name8 ext3 data size n2 e2 e cs2 max :
  holds d dk -> Forall is_u8 data -> Forall is_u8 name8 -> Forall is_u8 ext3 ->
  0 <= size < 0x80000000 -> 0 <= max -> at_ name8 0 <> 0 ->
  dir_find dk n2 e2 = Some e -> file_at dk e cs2 ->
  (forall first, ~ matches (new_entry name8 ext3 first size) n2 e2) ->
  wp (fat16_write_file name8 ext3 data size) (set_dev d s) (fun w s1 _ =>
    exists d1 dk1, s1 = set_dev d1 s /\ holds d1 dk1 /\ dir_find dk1 n2 e2 = Some e /\
      wp (fat16_read_file n2 e2 max) s1 (fun r _ _ =>
        r = (i32 (file_size e), take (Z.to_nat (Z.min max (file_size e))) (file_bytes dk cs2)))).
Proof.
  intros Hd Hdata Hn8 Hx3 Hsize Hmax N0 Hfind Hat Hnm.
  apply (write_effect_wp _ _ _ _ _ dk); [done..|]. intros w d1 dk1 cs o Hd1 W _ _ Hdir.
  pose proof (Hdir n2 e2 e N0 Hnm Hfind) as Hf1. exists d1, dk1. split_and!; [done..|].
  apply (read_file_wp _ _ _ _ dk1); [done|done|]. rewrite Hf1.
  destruct (effect_keeps_file _ _ _ _ _ W Hat) as [Hat' Hb].
  exists cs2. split; [done|]. intros d2 Hd2. by rewrite Hb.
Qed.

(** C18: whatever becomes of a write (success, an empty file, a full disk, a full directory), the two copies of the FAT stay equal, and the only FAT entries it changes are those of clusters that were free, which it links into one chain; a write that succeeds takes as many as the size needs. *)
Theorem fat16_write_fat d dk name8 ext3 data size :
  holds d dk -> Forall is_u8 data -> Forall is_u8 name8 -> Forall is_u8 ext3 ->
  0 <= size < 0x80000000 -> mirrored s dk ->
  wp (fat16_write_file name8 ext3 data size) (set_dev d s) (fun w s1 _ =>
    exists d1 dk1 cs, s1 = set_dev d1 s /\ holds d1 dk1 /\ mirrored s dk1 /\
      NoDup cs /\ chain (fat_at s dk1) cs /\
      (forall c, cluster s c ->
        if bool_decide (c ∈ cs) then fat_at s dk c = 0 /\ fat_at s dk1 c <> 0
        else fat_at s dk1 c = fat_at s dk c) /\
      (w = 0 \/ w = -1) /\ (w = 0 -> Z.of_nat (length cs) = clusters_for size)).
Proof.
  intros Hd Hdata Hn8 Hx3 Hsize Hm. apply (write_effect_wp _ _ _ _ _ dk); [done..|].
  intros w d1 dk1 cs o Hd1 W Hw Hlen _. exists d1, dk1, cs.
  split_and!; try done; [by apply (ef_mirror _ _ _ W)|apply W|apply W|].
  intros c Hc. case_bool_decide as E; [|by apply (ef_fat _ _ _ W)]. split; [by apply (ef_free _ _ _ W)|].
  apply (chain_nonzero (fat_at s dk1) cs); [|apply W|done]. intros x Hx. by apply (ef_free _ _ _ W).
Qed.

(** a write that runs out of clusters is an error (-1) that leaks what it had taken: it happens only when fewer clusters are free than the file needs, and afterwards no cluster of the volume is free at all. *)
Theorem fat16_write_full_leaks d dk name8 ext3 data size :
  holds d dk -> Forall is_u8 data -> Forall is_u8 name8 -> Forall is_u8 ext3 ->
  0 < size < 0x80000000 -> Z.of_nat (length (free_clusters s dk)) < clusters_for size ->
  wp (fat16_write_file name8 ext3 data size) (set_dev d s) (fun w s1 o =>
    w = -1 /\ o = [Print (str "fat16_write: disk full!" ++ [10])] /\
    exists d1 dk1, s1 = set_dev d1 s /\ holds d1 dk1 /\ free_clusters s dk1 = []).
Proof.
  intros Hd Hdata Hn8 Hx3 Hsize Hlt.
  assert (Habs : forall dk1 cs, allocated s dk dk1 cs -> Z.of_nat (length cs) = clusters_for size -> False).
  { intros dk1 cs Ha Hlen. assert (length cs <= length (free_clusters s dk))%nat; [|lia].
    apply submseteq_length, NoDup_submseteq; [apply Ha|]. intros c Hc.
    apply (elem_of_free s). by apply (al_free _ _ _ _ Ha). }
  apply (write_file_wp _ _ _ _ _ dk); [done..| | |].
  - intros d1 dk1 cs k _ (dk2 & Ha & Hlen & _). exfalso. by apply (Habs dk2 cs).
  - intros d1 dk1 cs Hd1 _ _ Hno. split_and!; [done..|]. exists d1, dk1. split_and!; [done..|].
    destruct (free_clusters s dk1) as [|c l] eqn:E; [done|]. exfalso.
    assert (Hc : c ∈ free_clusters s dk1) by (rewrite E; set_solver).
    apply (elem_of_free s) in Hc as [Hc Hz]. by apply (Hno c).
  - intros d1 dk1 dk2 cs _ _ Ha Hlen _. exfalso. by apply (Habs dk2 cs).
Qed.

(** C37: fat16_write_file does not look for an existing file of the name: in a directory without deleted entries, writing a name that exists succeeds when there is room, leaves two entries in use that both have the name, the old one in front of the new one, and reading the name still gives the old file, so the new contents cannot be reached. *)
Theorem fat16_write_duplicate_hidden d dk name8 ext3 data size max e cs2 :
  holds d dk -> Forall is_u8 data -> Forall is_u8 name8 -> Forall is_u8 ext3 ->
  0 < size < 0x80000000 -> 0 <= max ->
  (forall i, 0 <= i < 16 * root_dir_sectors s -> first_byte (slot s dk i) <> 0xE5) ->
  dir_find dk name8 ext3 = Some e -> file_at dk e cs2 ->
  clusters_for size <= Z.of_nat (length (free_clusters s dk)) ->
  is_Some (free_from (slot s dk) slots 0) ->
  wp (fat16_write_file name8 ext3 data size) (set_dev d s) (fun w s1 o =>
    w = 0 /\ o = [Print (str "fat16_write: file written!" ++ [10])] /\
    exists d1 dk1 i j first, s1 = set_dev d1 s /\ holds d1 dk1 /\ 0 <= i < j /\ j < 16 * root_dir_sectors s /\
      slot s dk1 i = e /\ slot s dk1 j = new_entry name8 ext3 first size /\
      matches (slot s dk1 i) name8 ext3 /\ matches (slot s dk1 j) name8 ext3 /\
      ~ slot_free (slot s dk1 i) /\ ~ slot_free (slot s dk1 j) /\
      wp (fat16_read_file name8 ext3 max) s1 (fun r _ _ =>
        r = (i32 (file_size e), take (Z.to_nat (Z.min max (file_size e))) (file_bytes dk cs2)))).
Proof.
  intros Hd Hdata Hn8 Hx3 Hsize Hmax Hno5 Hfind Hat Hroom [k0 Hslot].
  apply (write_file_wp _ _ _ _ _ dk); [done..| | |].
  2:{ intros d1 dk1 cs _ _ Hlt. lia. }
  2:{ intros d1 dk1 dk2 cs _ Hn. congruence. }
  intros d1 dk1 cs k Hd1 W. destruct (written_old_first d dk dk1 cs k name8 ext3 data size e) as (j & Hj & Hk & Hsl & Hm & Hnf & Hf1);
    [done..|].
  assert (Hnew : slot s dk1 k = new_entry name8 ext3 (default 0 (head cs)) size).
  { rewrite (written_slots d dk dk1 cs k name8 ext3 data size) by (done || lia). by rewrite bool_decide_true. }
  split_and!; [done..|]. exists d1, dk1, j, k, (default 0 (head cs)). rewrite Hsl, Hnew. split_and!; try (done || lia).
  - apply new_entry_matches.
  - unfold slot_free. rewrite new_entry_first. rewrite <- (matches_first e name8 ext3) by done. exact Hnf.
  - apply (read_file_wp _ _ _ _ dk1); [done|done|]. rewrite Hf1.
    destruct (effect_keeps_file dk dk1 cs e cs2) as [Hat' Hb]; [by eapply written_effect|done|].
    exists cs2. split; [done|]. intros d2 Hd2. by rewrite Hb.
Qed.

(** C29: reading a well-formed file: when the name refers to an entry whose clusters form a chain, fat16_read_file returns the entry's size, not clamped to the buffer, and fills the buffer with the first min(max_size, size) bytes of the chain's clusters. *)
Theorem fat16_read_spec d dk name8 ext3 max e cs :
  holds d dk -> 0 <= max -> dir_find dk name8 ext3 = Some e -> file_at dk e cs ->
  wp (fat16_read_file name8 ext3 max) (set_dev d s) (fun r s' o => o = [] /\
    r = (i32 (file_size e), take (Z.to_nat (Z.min max (file_size e))) (file_bytes dk cs)) /\
    exists d', s' = set_dev d' s /\ holds d' dk).
Proof.
  intros Hd Hmax Hf Hat. apply (read_file_wp _ _ _ _ dk); [done|done|]. rewrite Hf.
  exists cs. split; [done|]. intros d' Hd'. split_and!; [done..|]. by exists d'.
Qed.

(** ** Any FAT contents *)
(** The device answers for every sector a 16-bit cluster number can address. *)
Definition addressable : Prop :=
  fat_start_sector s + 256 <= dev_limit /\ data_start_sector s + 0xFFF6 * spc <= dev_limit.

Lemma read_fat_any c d dk Q :
  holds d dk -> addressable -> 0 <= c < 0xFFF8 ->
  (forall d' v, holds d' dk -> is_u16 v -> Q v (set_dev d' s) []) ->
  wp (fat16_read_fat_entry c) (set_dev d s) Q.
Proof.
  intros Hd [Hfs _] Hc HQ. pose proof (v_limit s V). pose proof (v_start s V).
  unfold fat16_read_fat_entry. apply wp_bind, wp_get. cbn [set_dev g_bpb fat_start_sector].
  rewrite (v_bps s V). assert (0 <= c * 2 / 512 < 256) by word.
  apply wp_bind, (wp_lift (c * 2 / 512)); [done|]. apply wp_bind, (wp_lift (c * 2 mod 512)); [done|].
  rewrite u32_small by (unfold is_u32; lia). apply wp_bind.
  apply (read_sector_wp _ _ _ dk); [done|lia|]. intros d' Hd'.
  eapply wp_lift; [apply load16_in; rewrite ?(holds_len d dk) by (done || lia); word|]. cbn [app]. apply HQ; [done|].
  pose proof (holds_sector_ok d dk (fat_start_sector s + c * 2 / 512) Hd ltac:(lia)) as Hb. unfold get16.
  pose proof (at_u8 _ (c * 2 mod 512) (proj2 Hb)). pose proof (at_u8 _ (c * 2 mod 512 + 1) (proj2 Hb)).
  unfold is_u8, is_u16 in *. lia.
Qed.

Lemma read_chain_any fuel c left out d dk Q :
  holds d dk -> addressable -> is_u16 c -> 0 <= left < Z.of_nat fuel ->
  (forall d' out', holds d' dk -> (length out <= length out')%nat ->
     Z.of_nat (length out') <= Z.of_nat (length out) + left -> Q out' (set_dev d' s) []) ->
  wp (read_chain fuel c left out) (set_dev d s) Q.
Proof.
  revert c left out d Q. induction fuel as [|fuel IH]; intros c left out d Q Hd Hadd Hc Hf HQ; [lia|].
  cbn [read_chain]. case_bool_decide as Hpos; [|apply wp_ret; apply HQ; [done|lia|lia]].
  destruct (v_spc s V) as [Hspc _]. pose proof (data_after_root s V). pose proof (spf_limit s V).
  pose proof (v_limit s V). pose proof (v_start s V). pose proof Hadd as [_ Hda].
  apply wp_bind, wp_get. cbn [set_dev g_bpb]. 
  assert (Hlba : fat16_cluster_to_lba (set_dev d s) c = cluster_lba s c).
  { unfold fat16_cluster_to_lba, cluster_lba. cbn [set_dev data_start_sector g_bpb].
    rewrite (u32_small (c - 2)) by (unfold is_u32; lia). apply u32_small. unfold is_u32. destruct V. nia. }
  change {| f_dev := d; g_bpb := g_bpb s; fat_start_sector := fat_start_sector s; root_dir_start := root_dir_start s;
    root_dir_sectors := root_dir_sectors s; data_start_sector := data_start_sector s |} with (set_dev d s).
  rewrite Hlba. assert (Hr : 0 <= cluster_lba s c /\ cluster_lba s c + spc <= dev_limit).
  { unfold cluster_lba. destruct V. split; nia. }
  apply wp_bind. apply (read_cluster_wp s V _ _ _ _ _ dk); [done|lia|lia|lia|]. intros d1 Hd1.
  rewrite Z2Nat.id by lia. cbv beta iota.
  assert (Hlen : length (bytes_of dk (seqZ (cluster_lba s c) spc)) = (512 * Z.to_nat spc)%nat).
  { rewrite (length_bytes_of s V d), length_seqZ; [done|done|]. intros l Hl%elem_of_seqZ. lia. }
  apply wp_bind. apply (read_fat_any _ _ dk); [done|done|lia|]. intros d2 v Hd2 Hv.
  apply IH; [done|done|done|lia|]. intros d3 out' Hd3 Hlo Hhi.
  rewrite !length_app, !length_take, Hlen in *. apply HQ; [done|lia|lia].
Qed.

Lemma lookup_slots_in slots n k name8 ext3 e :
  lookup_slots slots n k name8 ext3 = Some e -> exists j, k <= j < k + Z.of_nat n /\ e = slots j.
Proof. intros (j & Hj & -> & _)%lookup_slots_some. by exists j. Qed.

(** reading is safe on any disk contents: whatever the directory and the FAT hold, cyclic or broken chains included, fat16_read_file terminates and writes no more bytes into the buffer than its size or the file's size. *)
Theorem fat16_read_bounded d dk name8 ext3 max :
  holds d dk -> addressable -> 0 <= max ->
  wp (fat16_read_file name8 ext3 max) (set_dev d s) (fun r _ _ =>
    (fst r = -1 /\ snd r = []) \/
    exists e, fst r = i32 (file_size e) /\ Z.of_nat (length (snd r)) <= Z.min max (file_size e)).
Proof.
  intros Hd Hadd Hmax. unfold fat16_read_file. apply wp_bind, wp_get. cbn [set_dev root_dir_sectors].
  pose proof (v_rsec s V). apply wp_bind.
  apply (find_entry_wp s V _ _ _ _ _ dk); [done|lia|lia|]. intros d1 Hd1.
  destruct (lookup_slots _ _ _ _ _) as [e|] eqn:E.
  2:{ apply wp_bind, wp_emit, wp_ret. by left. }
  apply lookup_slots_in in E as (j & Hj & ->).
  assert (Hb : sector_ok (dk (root_dir_start s + j / 16))).
  { apply (holds_sector_ok d); [done|]. apply root_limit; [done|]. word. }
  assert (Hc : is_u16 (low_first_cluster (slot s dk j)) /\ is_u32 (file_size (slot s dk j))).
  { unfold slot, dir_entry. cbn [low_first_cluster file_size]. unfold get16, get32.
    pose proof (fun i => at_u8 _ i (proj2 Hb)) as Hu. unfold is_u8 in Hu. unfold is_u16, is_u32.
    split; repeat match goal with |- context [at_ ?b ?i] => pose proof (Hu i); generalize dependent (at_ b i); intros end; lia. }
  destruct Hc as [Hc Hsz]. unfold is_u32 in Hsz. cbv zeta.
  set (left := if bool_decide (file_size (slot s dk j) > max) then max else file_size (slot s dk j)).
  assert (Hleft : left = Z.min max (file_size (slot s dk j))) by (unfold left; case_bool_decide; lia).
  apply wp_bind. apply (read_chain_any _ _ _ _ _ dk); [done|done|done|lia|]. intros d2 out Hd2 _ Hout.
  apply wp_ret. right. exists (slot s dk j). split; [done|]. cbn [snd]. cbn [length] in Hout. lia.
Qed.

(** ** Free clusters *)

(** fat16_find_free_cluster returns the lowest free cluster of the volume, and 0 exactly when no cluster is free; the disk is not changed. *)
Theorem fat16_find_free_spec d dk :
  holds d dk ->
  wp fat16_find_free_cluster (set_dev d s) (fun r s' _ =>
    r = default 0 (head (free_clusters s dk)) /\ exists d', s' = set_dev d' s /\ holds d' dk).
Proof.
  intros Hd. apply (find_free_cluster_wp s V _ dk); [done|]. intros d' r Hd' Hr.
  split; [|by exists d']. unfold free_clusters.
  assert (Hskip : forall n m c, 2 <= c -> (forall x, c <= x < c + m -> fat_at s dk x <> 0) -> 0 <= m -> m <= n ->
    filter (fun c => fat_at s dk c = 0) (seqZ c n) = filter (fun c => fat_at s dk c = 0) (seqZ (c + m) (n - m))).
  { intros n m c Hc Hx Hm Hmn. replace n with (m + (n - m)) at 1 by lia. rewrite seqZ_app, filter_app by lia.
    rewrite filter_none; [done|]. intros x Hxs%elem_of_seqZ. apply Hx. lia. }
  pose proof (v_clusters s V). destruct Hr as [[-> Hno]|(Hr & Hz & Hno)].
  - rewrite (Hskip _ (cluster_count s)); [|lia| |lia|lia].
    + by replace (cluster_count s - cluster_count s) with 0 by lia.
    + intros x Hx. apply Hno. unfold cluster. lia.
  - unfold cluster in Hr. rewrite (Hskip _ (r - 2)); [|lia| |lia|lia].
    + rewrite seqZ_cons by lia. replace (2 + (r - 2)) with r by lia. rewrite filter_cons_True by done. done.
    + intros x Hx. apply Hno. lia.
Qed.
End Spec.
