(* ===== verification/Fat16Mount.v ===== *)
(** * Names, mounting and listing of a FAT16 volume *)
From Stdlib Require Import ZArith Lia ZifyBool String.
From stdpp Require Import base numbers list gmap.
From S2P Require Import Prelude Mem BlockDev Fat16 Fat16Facts Fat16Dir Fat16Spec.

(** ** 8.3 names *)

(** The part of a file name before its first dot, and the part behind it. *)
Fixpoint base_name (l : list Z) : list Z :=
  match l with [] => [] | c :: l' => if bool_decide (c = 46) then [] else c :: base_name l' end.

Fixpoint extension (l : list Z) : list Z :=
  match l with [] => [] | c :: l' => if bool_decide (c = 46) then l' else extension l' end.

(** At most [n] characters, padded with spaces. *)
Definition pad (n : nat) (l : list Z) : list Z := take n l ++ replicate (n - length l) 32.

Lemma splice_app_mid x y a b : splice (Z.of_nat (length x)) [a] (x ++ b :: y) = x ++ a :: y.
Proof.
  unfold splice. rewrite Nat2Z.id, take_app_length. cbn [length app].
  rewrite drop_app_ge by lia. by replace (length x + 1 - length x)%nat with 1%nat by lia.
Qed.

Lemma pad_cons n c l : pad (S n) (c :: l) = c :: pad n l.
Proof. done. Qed.

Lemma pad_nil n : pad n [] = replicate n 32.
Proof. unfold pad. by rewrite take_nil, Nat.sub_0_r. Qed.

Lemma name_loop_spec n x input :
  Forall (fun c => c <> 0) input ->
  exists rest, name_loop n (Z.of_nat (length x)) input (x ++ replicate n 32)
               = (x ++ pad n (upcase <$> base_name input), rest) /\
    skip_to_dot rest = skip_to_dot input.
Proof.
  revert x input. induction n as [|n IH]; intros x input Hin; cbn [name_loop].
  { exists input. unfold pad. cbn. done. }
  destruct input as [|c input]; [exists []; by rewrite pad_nil|].
  apply Forall_cons in Hin as [Hc Hin]. cbn [base_name].
  case_bool_decide as E.
  - rewrite bool_decide_false by tauto. cbn [replicate]. rewrite splice_app_mid.
    destruct (IH (x ++ [upcase c]) input Hin) as (rest & Hr & Hs). exists rest.
    rewrite length_app in Hr. cbn [length] in Hr. rewrite <- !app_assoc in Hr. cbn [app] in Hr.
    replace (Z.of_nat (length x + 1)) with (Z.of_nat (length x) + 1) in Hr by lia.
    split; [exact Hr|]. cbn [skip_to_dot]. rewrite bool_decide_true by done. done.
  - assert (c = 46) as -> by (destruct (decide (c = 46)); tauto).
    rewrite bool_decide_true by done. exists (46 :: input). rewrite pad_nil. done.
Qed.

Lemma ext_loop_spec n x input :
  Forall (fun c => c <> 0) input ->
  ext_loop n (Z.of_nat (length x)) input (x ++ replicate n 32) = x ++ pad n (upcase <$> input).
Proof.
  revert x input. induction n as [|n IH]; intros x input Hin; cbn [ext_loop]; [done|].
  destruct input as [|c input]; [by rewrite pad_nil|].
  apply Forall_cons in Hin as [Hc Hin]. rewrite bool_decide_true by done. cbn [replicate].
  rewrite splice_app_mid. rewrite fmap_cons, pad_cons.
  specialize (IH (x ++ [upcase c]) input Hin). rewrite length_app in IH. cbn [length] in IH.
  rewrite <- !app_assoc in IH. cbn [app] in IH.
  replace (Z.of_nat (length x + 1)) with (Z.of_nat (length x) + 1) in IH by lia. exact IH.
Qed.

Lemma skip_to_dot_ext input :
  Forall (fun c => c <> 0) input ->
  match skip_to_dot input with
  | [] => extension input = []
  | c :: rest => c = 46 /\ rest = extension input
  end.
Proof.
  induction 1 as [|c l Hc _ IH]; [done|]. cbn [skip_to_dot extension].
  case_bool_decide as E; [by rewrite bool_decide_false by tauto|].
  assert (c = 46) as -> by (destruct (decide (c = 46)); tauto). by rewrite bool_decide_true.
Qed.

Lemma upcase_idem c : upcase (upcase c) = upcase c.
Proof. unfold upcase. repeat case_bool_decide; lia. Qed.

Lemma format_83_eq input :
  Forall (fun c => c <> 0) input ->
  fat16_format_83 input = (pad 8 (upcase <$> base_name input), pad 3 (upcase <$> extension input)).
Proof.
  intros Hin. unfold fat16_format_83.
  destruct (name_loop_spec 8 [] input Hin) as (rest & Hr & Hs). cbn [length app] in Hr.
  change (Z.of_nat 0) with 0 in Hr. rewrite Hr, Hs.
  pose proof (skip_to_dot_ext input Hin) as Hx.
  assert (Hext : Forall (fun c => c <> 0) (extension input)).
  { clear -Hin. induction Hin as [|c l Hc Hl IH]; cbn; [done|]. by case_bool_decide. }
  destruct (skip_to_dot input) as [|c l]; [by rewrite Hx|]. destruct Hx as [-> ->].
  rewrite bool_decide_true by done. f_equal. apply (ext_loop_spec 3 [] _ Hext).
Qed.

Lemma base_name_upcase l : base_name (upcase <$> l) = upcase <$> base_name l.
Proof.
  induction l as [|c l IH]; [done|]. rewrite fmap_cons. cbn [base_name]. rewrite IH.
  assert (Hc : upcase c = 46 <-> c = 46) by (unfold upcase; case_bool_decide; lia).
  rewrite (bool_decide_ext _ _ Hc). by case_bool_decide.
Qed.

Lemma extension_upcase l : extension (upcase <$> l) = upcase <$> extension l.
Proof.
  induction l as [|c l IH]; [done|]. rewrite fmap_cons. cbn [extension]. rewrite IH.
  assert (Hc : upcase c = 46 <-> c = 46) by (unfold upcase; case_bool_decide; lia).
  rewrite (bool_decide_ext _ _ Hc). by case_bool_decide.
Qed.

(** fat16_format_83 computes the 8.3 form of a file name: the first 8 characters before the first dot and the first 3 behind it, in upper case and padded with spaces; so it does not distinguish upper and lower case. *)
Theorem fat16_format_83_spec input :
  Forall (fun c => c <> 0) input ->
  fat16_format_83 input = (pad 8 (upcase <$> base_name input), pad 3 (upcase <$> extension input)) /\
  fat16_format_83 (upcase <$> input) = fat16_format_83 input.
Proof.
  intros Hin. split; [by apply format_83_eq|]. rewrite !format_83_eq.
  - rewrite base_name_upcase, extension_upcase, <- !list_fmap_compose.
    f_equal; f_equal; apply list_fmap_ext; intros; apply upcase_idem.
  - done.
  - apply Forall_fmap. eapply Forall_impl; [exact Hin|]. intros c Hc. cbn in Hc |- *. unfold upcase. case_bool_decide; lia.
Qed.

Lemma fat16_format_83_spec_witness :
  fat16_format_83 (str "notes.txt") = (str "NOTES   ", str "TXT") /\
  fat16_format_83 (upcase <$> str "notes.txt") = fat16_format_83 (str "notes.txt").
Proof.
  destruct (fat16_format_83_spec (str "notes.txt")) as [H1 H2]; [repeat constructor; done|].
  split; [rewrite H1; reflexivity|exact H2].
Defined.

(** ** Mounting *)

(** A boot sector the code supports, on a disk of [limit] sectors. *)
Record supported (g : fat16_bpb) (limit : Z) : Prop := {
  sp_bps : bytes_per_sector g = 512;
  sp_spc : 1 <= sectors_per_clustor g <= 255;
  sp_fats : fat_count g = 2;
  sp_fields : 0 <= reserved_sectors g /\ 0 <= sectors_per_fat g /\ 0 <= root_dir_entries g;
  sp_total :
    let total := if bool_decide (total_sectors_small g <> 0) then total_sectors_small g else total_sectors_large g in
    let data := reserved_sectors g + 2 * sectors_per_fat g + root_dir_entries g * 32 / 512 in
    data <= total <= limit /\ (total - data) / sectors_per_clustor g <= 0xFFF6 /\
    2 * ((total - data) / sectors_per_clustor g + 2) <= 512 * sectors_per_fat g;
  sp_limit : limit <= 0x100000000;
}.

Section Mount.
Context {D : Type} `{BlockDevSpec D}.

(** The globals of a boot sector whose sector size is not zero. *)
Definition mounted (b : list Z) (s : fat D) : fat D :=
  let g := read_bpb b in
  let root := reserved_sectors g + fat_count g * sectors_per_fat g in
  let rsec := root_dir_entries g * 32 / bytes_per_sector g in
  {| f_dev := f_dev s; g_bpb := g; fat_start_sector := reserved_sectors g;
     root_dir_start := root; root_dir_sectors := rsec; data_start_sector := root + rsec |}.

Lemma mount_mounted b (s : fat D) : bytes_per_sector (read_bpb b) <> 0 -> mount b s = Done (mounted b s).
Proof. intros Hb. unfold mount. by rewrite udiv_nonzero. Qed.

Lemma mount_volume b (s : fat D) d : supported (read_bpb b) dev_limit -> volume (set_dev d (mounted b s)).
Proof.
  intros [Hb Hs Hf (Hr & Hp & He) (Hd1 & Hd2 & Hd3) Hl]. cbv zeta in *.
  assert (Hroot : root_dir_entries (read_bpb b) * 32 / bytes_per_sector (read_bpb b)
                  = root_dir_entries (read_bpb b) * 32 / 512) by (by rewrite Hb).
  assert (Hn : cluster_count (set_dev d (mounted b s)) =
    ((if bool_decide (total_sectors_small (read_bpb b) <> 0) then total_sectors_small (read_bpb b)
      else total_sectors_large (read_bpb b))
     - (reserved_sectors (read_bpb b) + 2 * sectors_per_fat (read_bpb b) + root_dir_entries (read_bpb b) * 32 / 512))
    / sectors_per_clustor (read_bpb b)).
  { unfold cluster_count. cbn [set_dev mounted g_bpb data_start_sector]. rewrite Hroot, Hf.
    rewrite u32_small; [done|]. unfold is_u32.
    assert (0 <= root_dir_entries (read_bpb b) * 32 / 512) by (apply Z.div_pos; lia).
    match type of Hd2 with ?x / ?y <= _ => assert (0 <= x / y) by (apply Z.div_pos; lia) end. lia. }
  revert Hn Hd1 Hd2 Hd3. generalize (if bool_decide (total_sectors_small (read_bpb b) <> 0)
    then total_sectors_small (read_bpb b) else total_sectors_large (read_bpb b)). intros total Hn Hd1 Hd2 Hd3.
  assert (Hdiv : 0 <= root_dir_entries (read_bpb b) * 32 / 512) by (apply Z.div_pos; lia).
  assert (Hcl : 0 <= cluster_count (set_dev d (mounted b s))) by (rewrite Hn; apply Z.div_pos; lia).
  constructor; rewrite ?Hn;
    cbn [set_dev mounted g_bpb fat_start_sector root_dir_start root_dir_sectors data_start_sector]; rewrite ?Hroot, ?Hf;
    try done; try lia.
  pose proof (Z.mul_div_le (total - (reserved_sectors (read_bpb b) + 2 * sectors_per_fat (read_bpb b) +
     root_dir_entries (read_bpb b) * 32 / 512)) (sectors_per_clustor (read_bpb b)) ltac:(lia)). lia.
Qed.

(** ** Listing *)

(** The calls that print one entry. *)
Definition entry_line (d : fat16_dir_entry) : list event :=
  [Print (c_string (filename d ++ [0])); Print (str "."); Print (c_string (ex d ++ [0]));
   Print (str "  ("); PrintInt (i32 (file_size d)); Print (str " bytes)" ++ [10])].

(** The entries of [n] slots from [k] on that are in use, up to the end mark. *)
Fixpoint live_entries (slots : Z -> fat16_dir_entry) (n : nat) (k : Z) : list fat16_dir_entry :=
  match n with
  | O => []
  | S n' =>
      if bool_decide (first_byte (slots k) = 0) then []
      else if bool_decide (first_byte (slots k) = 0xE5 \/ attributes (slots k) = 0x0F)
      then live_entries slots n' (k + 1)
      else slots k :: live_entries slots n' (k + 1)
  end.

Context (s : fat D) (V : volume s).

Lemma ls_sector_slots dk sec n m e :
  0 <= e -> e + Z.of_nat n = 16 ->
  let '(o, found, stop) := ls_sector n e (dk (root_dir_start s + sec)) in
  exists l, live_entries (slot s dk) (n + m) (16 * sec + e)
            = l ++ (if stop : bool then [] else live_entries (slot s dk) m (16 * (sec + 1))) /\
    o = l ≫= entry_line /\ found = bool_decide (l <> []).
Proof.
  revert e. induction n as [|n IH]; intros e He Hn; cbn [ls_sector].
  - exists []. cbn [Nat.add app]. replace (16 * sec + e) with (16 * (sec + 1)) by lia. done.
  - cbn [Nat.add live_entries]. rewrite slot_at by lia. cbv zeta. fold (first_byte (dir_entry (dk (root_dir_start s + sec)) e)).
    replace (16 * sec + e + 1) with (16 * sec + (e + 1)) by lia. specialize (IH (e + 1) ltac:(lia) ltac:(lia)).
    case_bool_decide; [by exists []|].
    case_bool_decide; [exact IH|].
    destruct (ls_sector n (e + 1) _) as [[o found] stop]. destruct IH as (l & -> & -> & _).
    by exists (dir_entry (dk (root_dir_start s + sec)) e :: l).
Qed.

Lemma ls_loop_wp n sec found d dk Q :
  holds d dk -> 0 <= sec -> sec + Z.of_nat n = root_dir_sectors s ->
  (forall d', holds d' dk ->
     let l := live_entries (slot s dk) (16 * n) (16 * sec) in
     Q (found || bool_decide (l <> [])) (set_dev d' s) (l ≫= entry_line)) ->
  wp (ls_loop n sec found) (set_dev d s) Q.
Proof.
  revert sec found d Q. induction n as [|n IH]; intros sec found d Q Hd Hsec Hn HQ; cbn [ls_loop].
  - apply wp_ret. specialize (HQ d Hd). cbn in HQ. by rewrite orb_false_r in HQ.
  - pose proof (root_limit s V sec ltac:(lia)). pose proof (v_limit s V).
    apply wp_bind, wp_get. cbn [set_dev root_dir_start]. rewrite u32_small by (unfold is_u32; lia).
    apply wp_bind. apply (read_sector_wp _ _ _ dk); [done|lia|]. intros d1 Hd1.
    replace (16 * S n)%nat with (16 + 16 * n)%nat in HQ by lia.
    pose proof (ls_sector_slots dk sec 16 (16 * n) 0 ltac:(lia) ltac:(lia)) as E. rewrite Z.add_0_r in E.
    destruct (ls_sector 16 0 _) as [[o f] stop]. destruct E as (l & E & -> & ->). cbv zeta in HQ. rewrite E in HQ.
    cbv beta iota. apply wp_bind. eapply wp_run; [reflexivity|]. cbv beta zeta.
    destruct stop.
    + apply wp_ret. rewrite app_nil_r in HQ. cbn [app]. rewrite app_nil_r. by apply HQ.
    + apply IH; [done|lia|lia|]. intros d' Hd'. cbv zeta. specialize (HQ d' Hd').
      rewrite bind_app in HQ. cbn [app]. 
      replace (found || bool_decide (l <> []) || bool_decide (live_entries (slot s dk) (16 * n) (16 * (sec + 1)) <> []))
        with (found || bool_decide (l ++ live_entries (slot s dk) (16 * n) (16 * (sec + 1)) <> [])); [done|].
      rewrite <- orb_assoc. f_equal. destruct l; [done|]. by rewrite !bool_decide_true by done.
Qed.

Lemma fat16_ls_wp d dk Q :
  holds d dk ->
  (forall d', holds d' dk ->
     let l := live_entries (slot s dk) (16 * Z.to_nat (root_dir_sectors s)) 0 in
     Q tt (set_dev d' s)
       ([Print (str "FAT16 Files:" ++ [10]); Print (str "------------" ++ [10])] ++ (l ≫= entry_line) ++
        (if bool_decide (l = []) then [Print (str "(no files)" ++ [10])] else []))) ->
  wp fat16_ls (set_dev d s) Q.
Proof.
  intros Hd HQ. pose proof (v_rsec s V). unfold fat16_ls.
  apply wp_bind, wp_emit. apply wp_bind, wp_emit. apply wp_bind, wp_get. cbn [set_dev root_dir_sectors].
  apply wp_bind. apply (ls_loop_wp _ _ _ _ dk); [done|lia|lia|]. intros d' Hd'. cbv zeta. cbn [orb].
  specialize (HQ d' Hd'). cbv zeta in HQ.
  replace (16 * 0) with 0 by lia.
  destruct (live_entries (slot s dk) (16 * Z.to_nat (root_dir_sectors s)) 0) as [|e l].
  - rewrite (bool_decide_false ([] <> _)) by tauto. apply wp_emit. exact HQ.
  - rewrite bool_decide_true by done. apply wp_ret. rewrite bool_decide_false in HQ by done. exact HQ.
Qed.

(** fat16_ls prints the directory: its header, one line with name and size for each entry in use before the end mark, and "(no files)" exactly when there is none. *)
Theorem fat16_ls_spec d dk :
  holds d dk ->
  wp fat16_ls (set_dev d s) (fun _ s' o =>
    let l := live_entries (slot s dk) (16 * Z.to_nat (root_dir_sectors s)) 0 in
    o = [Print (str "FAT16 Files:" ++ [10]); Print (str "------------" ++ [10])] ++ (l ≫= entry_line) ++
        (if bool_decide (l = []) then [Print (str "(no files)" ++ [10])] else []) /\
    exists d', s' = set_dev d' s /\ holds d' dk).
Proof.
  intros Hd. apply (fat16_ls_wp _ dk); [done|]. intros d' Hd'. split; [done|]. by exists d'.
Qed.
End Mount.

Section Init.
Context {D : Type} `{BlockDevSpec D}.

(** What fat16_init lists of the volume it mounted. *)
Definition listing (v : fat D) (dk : disk) : list event :=
  (live_entries (slot v dk) (16 * Z.to_nat (root_dir_sectors v)) 0 ≫= entry_line) ++
  (if bool_decide (live_entries (slot v dk) (16 * Z.to_nat (root_dir_sectors v)) 0 = [])
   then [Print (str "(no files)" ++ [10])] else []).

Lemma fat16_init_wp (s : fat D) d dk Q :
  holds d dk -> supported (read_bpb (dk 0)) dev_limit ->
  (forall d' o, volume (set_dev d' (mounted (dk 0) s)) -> holds d' dk ->
     Q tt (set_dev d' (mounted (dk 0) s)) (o ++ listing (set_dev d' (mounted (dk 0) s)) dk)) ->
  wp fat16_init (set_dev d s) Q.
Proof.
  intros Hd Hs HQ.
  assert (Hlim : 0 < dev_limit).
  { destruct Hs as [? ? ? (? & ? & ?) (? & ? & Hx) ?].
    match type of Hx with 2 * (?x / ?y + 2) <= _ => assert (0 <= x / y) by (apply Z.div_pos; lia) end.
    assert (0 <= root_dir_entries (read_bpb (dk 0)) * 32 / 512) by (apply Z.div_pos; lia). lia. }
  unfold fat16_init. apply wp_bind. apply (read_sector_wp _ _ _ dk); [done|lia|]. intros d1 Hd1.
  apply wp_bind, wp_get. apply wp_bind, (wp_lift (mounted (dk 0) (set_dev d1 s))).
  { apply mount_mounted. rewrite (sp_bps _ _ Hs). done. }
  apply wp_bind, wp_put.
  change (mounted (dk 0) (set_dev d1 s)) with (set_dev d1 (mounted (dk 0) s)).
  pose proof (mount_volume (dk 0) s d1 Hs) as V.
  do 9 (apply wp_bind, wp_emit).
  apply (fat16_ls_wp (set_dev d1 (mounted (dk 0) s)) V d1 dk); [done|]. intros d2 Hd2. cbv zeta.
  match goal with |- Q _ _ ?o => assert (E : exists o1, o = o1 ++ listing (set_dev d2 (mounted (dk 0) s)) dk) end.
  { unfold listing. eexists. rewrite !app_assoc. reflexivity. }
  destruct E as (o1 & ->). apply HQ; [by apply mount_volume|done].
Qed.

(** fat16_init mounts a supported volume: it leaves the globals that describe the FAT, root directory and data areas of the boot sector's layout, which make a consistent volume, does not change the disk, and ends by listing the directory. *)
Theorem fat16_init_mounts (s : fat D) d dk :
  holds d dk -> supported (read_bpb (dk 0)) dev_limit ->
  wp fat16_init (set_dev d s) (fun _ s' o => exists d' v,
    mount (dk 0) s = Done v /\ s' = set_dev d' v /\ volume s' /\ holds d' dk /\
    fat_start_sector s' = reserved_sectors (read_bpb (dk 0)) /\
    root_dir_start s' = fat_start_sector s' + 2 * sectors_per_fat (read_bpb (dk 0)) /\
    exists o1, o = o1 ++ (live_entries (slot s' dk) (16 * Z.to_nat (root_dir_sectors s')) 0 ≫= entry_line) ++
      (if bool_decide (live_entries (slot s' dk) (16 * Z.to_nat (root_dir_sectors s')) 0 = [])
       then [Print (str "(no files)" ++ [10])] else [])).
Proof.
  intros Hd Hs. apply (fat16_init_wp s d dk); [done|done|]. intros d' o V Hd'.
  exists d', (mounted (dk 0) s).
  split_and!; [by apply mount_mounted; rewrite (sp_bps _ _ Hs)|done|done|done|done| |by exists o].
  cbn [set_dev mounted root_dir_start fat_start_sector]. by rewrite (sp_fats _ _ Hs).
Qed.
End Init.
