(* ===== verification/Fat16Examples.v ===== *)
(** * Concrete volumes for the FAT16 properties

    A RAM disk of 20 sectors: boot sector, two FAT copies of one sector, one
    directory sector, 16 clusters of one sector. *)
From Stdlib Require Import ZArith Lia ZifyBool String.
From stdpp Require Import base numbers list gmap.
From S2P Require Import Prelude Mem BlockDev Fat16 Fat16Facts Fat16Dir Fat16Spec Fat16Mount.

Definition boot : list Z :=
  put16 11 512 (splice 13 [1] (put16 14 1 (splice 16 [2] (put16 17 16 (put16 19 20 (put16 22 1
    (replicate 512 0))))))).

Definition empty_disk : ramdisk := {[0 := boot]}.

Definition unmounted (d : ramdisk) : fat ramdisk := {|
  f_dev := d; g_bpb := bpb0; fat_start_sector := 0; root_dir_start := 0; root_dir_sectors := 0;
  data_start_sector := 0 |}.

Definition fs0 : fat ramdisk := mounted boot (unmounted empty_disk).

(** The same volume with the file A.TXT in cluster 2. *)
Definition one_file : ramdisk :=
  <[1 := put16 4 0xFFFF (replicate 512 0)]> (<[2 := put16 4 0xFFFF (replicate 512 0)]>
    (<[3 := fill_entry (replicate 512 0) 0 (str "A       ") (str "TXT") 2 5]>
      (<[4 := splice 0 (str "hello") (replicate 512 0)]> empty_disk))).

Definition is_u8b (z : Z) : bool := bool_decide (is_u8 z).
Definition sector_okb (l : list Z) : bool := Nat.eqb (length l) 512 && forallb is_u8b l.

Lemma sector_okb_ok l : sector_okb l = true -> sector_ok l.
Proof.
  unfold sector_okb, sector_ok. intros [H1 H2]%andb_prop. split; [by apply Nat.eqb_eq|].
  apply Forall_forall. intros z Hz. rewrite forallb_forall in H2. specialize (H2 z).
  apply list_elem_of_In in Hz. specialize (H2 Hz). by apply bool_decide_eq_true in H2.
Qed.

Lemma disk_ok (d : ramdisk) :
  map_Forall (fun _ b => sector_okb b = true) d -> dev_ok d.
Proof.
  intros Hd lba. unfold rd_sector. destruct (d !! lba) as [b|] eqn:E; cbn.
  - by apply sector_okb_ok, (Hd lba).
  - by apply sector_okb_ok.
Qed.

Lemma empty_holds : holds empty_disk (rd_sector empty_disk).
Proof. split; [|done]. apply disk_ok. by apply map_Forall_singleton. Qed.

Lemma one_file_holds : holds one_file (rd_sector one_file).
Proof.
  split; [|done]. apply disk_ok.
  repeat (apply map_Forall_insert_2; [by vm_compute|]). apply map_Forall_empty.
Qed.

Lemma boot_supported : supported (read_bpb boot) dev_limit.
Proof. constructor; vm_compute; repeat split; congruence. Qed.

Lemma fs0_volume d : volume (set_dev d fs0).
Proof. apply mount_volume, boot_supported. Qed.

Lemma str_bytes l : forallb is_u8b l = true -> Forall is_u8 l.
Proof.
  intros Hl. apply Forall_forall. intros z Hz. rewrite forallb_forall in Hl.
  apply list_elem_of_In in Hz. specialize (Hl z Hz). by apply bool_decide_eq_true in Hl.
Qed.

Abbreviation v0 := (fs0_volume empty_disk).
Abbreviation s0 := (set_dev empty_disk fs0).
Abbreviation s1 := (set_dev one_file fs0).

Lemma fat16_write_read_witness :
  exists s' o, (w ← fat16_write_file (str "NOTES   ") (str "TXT") (str "hi there") 8;
                r ← fat16_read_file (str "NOTES   ") (str "TXT") 4; mret (w, r)) s0
    = Done ((0, (8, str "hi t")), s', o).
Proof.
  destruct (wp_inv _ _ _ (fat16_write_read s0 v0 empty_disk (rd_sector empty_disk)
    (str "NOTES   ") (str "TXT") (str "hi there") 8 4 empty_holds
    ltac:(by apply str_bytes) ltac:(by apply str_bytes) ltac:(by apply str_bytes)
    ltac:(vm_compute; reflexivity) ltac:(lia) ltac:(lia) ltac:(vm_compute; congruence) ltac:(vm_compute; congruence)
    ltac:(vm_compute; reflexivity) ltac:(vm_compute; congruence) ltac:(vm_compute; by eexists)))
    as (v & s' & o & E & ->).
  exists s', o. exact E.
Defined.

(** The entry of A.TXT and its one cluster. *)
Definition a_txt : fat16_dir_entry := new_entry (str "A       ") (str "TXT") 2 5.

Lemma a_txt_found : dir_find s1 (rd_sector one_file) (str "A       ") (str "TXT") = Some a_txt.
Proof. vm_compute. reflexivity. Qed.

Lemma a_txt_file : file_at s1 (rd_sector one_file) a_txt [2].
Proof.
  split_and!; [intros c ->%list_elem_of_singleton; vm_compute; split; congruence| | |vm_compute; congruence].
  - vm_compute. split; [congruence|done].
  - vm_compute. reflexivity.
Qed.

Lemma fat16_read_spec_witness :
  exists s' o, fat16_read_file (str "A       ") (str "TXT") 3 s1 = Done ((5, str "hel"), s', o).
Proof.
  destruct (wp_inv _ _ _ (fat16_read_spec s1 (fs0_volume one_file) one_file (rd_sector one_file)
    (str "A       ") (str "TXT") 3 a_txt [2] one_file_holds ltac:(lia) a_txt_found a_txt_file))
    as (v & s' & o & E & _ & -> & _).
  exists s', o. etrans; [exact E|]. vm_compute. reflexivity.
Defined.

Lemma fat16_read_bounded_witness :
  exists v s' o, fat16_read_file (str "B       ") (str "TXT") 3 s1 = Done (v, s', o).
Proof.
  destruct (wp_inv _ _ _ (fat16_read_bounded s1 (fs0_volume one_file) one_file (rd_sector one_file)
    (str "B       ") (str "TXT") 3 one_file_holds ltac:(split; vm_compute; congruence) ltac:(lia)))
    as (v & s' & o & E & _).
  exists v, s', o. exact E.
Defined.

(** A write of 9000 bytes, for which the disk has no room. *)
Lemma fat16_write_preserves_witness :
  exists w d1 o dk1, fat16_write_file (str "B       ") (str "TXT") [] 9000 s1 = Done (w, set_dev d1 s1, o) /\
    holds d1 dk1 /\ dir_find s1 dk1 (str "A       ") (str "TXT") = Some a_txt.
Proof.
  destruct (wp_inv _ _ _ (fat16_write_preserves s1 (fs0_volume one_file) one_file (rd_sector one_file)
    (str "B       ") (str "TXT") [] 9000 (str "A       ") (str "TXT") a_txt [2] 3 one_file_holds
    ltac:(by apply str_bytes) ltac:(by apply str_bytes) ltac:(by apply str_bytes) ltac:(lia) ltac:(lia)
    ltac:(vm_compute; congruence) a_txt_found a_txt_file ltac:(intros first [Hm _]; vm_compute in Hm; congruence)))
    as (w & s' & o & E & d1 & dk1 & -> & Hd1 & Hf & _).
  exists w, d1, o, dk1. split; [exact E|]. split; [exact Hd1|exact Hf].
Defined.

Lemma fat16_write_fat_witness :
  exists w s' o, fat16_write_file (str "B       ") (str "TXT") (str "x") 1 s1 = Done (w, s', o).
Proof.
  destruct (wp_inv _ _ _ (fat16_write_fat s1 (fs0_volume one_file) one_file (rd_sector one_file)
    (str "B       ") (str "TXT") (str "x") 1 one_file_holds
    ltac:(by apply str_bytes) ltac:(by apply str_bytes) ltac:(by apply str_bytes) ltac:(lia)
    ltac:(intros k Hk; change (sectors_per_fat (g_bpb s1)) with 1 in *; assert (k = 0) as -> by lia; reflexivity)))
    as (w & s' & o & E & _).
  exists w, s', o. exact E.
Defined.

(** 9000 bytes need 18 clusters; the volume has 16. *)
Lemma fat16_write_full_leaks_witness :
  exists s' o, fat16_write_file (str "BIG     ") (str "BIN") [] 9000 s0 = Done (-1, s', o).
Proof.
  destruct (wp_inv _ _ _ (fat16_write_full_leaks s0 v0 empty_disk (rd_sector empty_disk)
    (str "BIG     ") (str "BIN") [] 9000 empty_holds
    ltac:(by apply str_bytes) ltac:(by apply str_bytes) ltac:(by apply str_bytes) ltac:(lia)
    ltac:(vm_compute; reflexivity)))
    as (w & s' & o & E & -> & _).
  exists s', o. exact E.
Defined.

Lemma fat16_find_free_spec_witness :
  exists s' o, fat16_find_free_cluster s1 = Done (3, s', o).
Proof.
  destruct (wp_inv _ _ _ (fat16_find_free_spec s1 (fs0_volume one_file) one_file (rd_sector one_file) one_file_holds))
    as (w & s' & o & E & -> & _).
  exists s', o. etrans; [exact E|]. vm_compute. reflexivity.
Defined.

Lemma fat16_ls_spec_witness :
  exists s' o, fat16_ls s1 = Done (tt, s', o) /\ nth_error o 6 = Some (PrintInt 5).
Proof.
  destruct (wp_inv _ _ _ (fat16_ls_spec s1 (fs0_volume one_file) one_file (rd_sector one_file) one_file_holds))
    as ([] & s' & o & E & -> & _).
  exists s'. eexists. split; [exact E|]. vm_compute. reflexivity.
Defined.

Lemma fat16_init_mounts_witness :
  exists s' o, fat16_init (unmounted empty_disk) = Done (tt, s', o) /\ root_dir_start s' = 3.
Proof.
  destruct (wp_inv _ _ _ (fat16_init_mounts (unmounted empty_disk) empty_disk (rd_sector empty_disk)
    empty_holds boot_supported)) as ([] & s' & o & E & d' & v & Hv & Hs & _).
  exists s', o. split; [exact E|]. rewrite Hs. vm_compute in Hv. injection Hv as <-. reflexivity.
Defined.

Lemma one_file_no_deleted i :
  0 <= i < 16 * root_dir_sectors s1 -> first_byte (slot s1 (rd_sector one_file) i) <> 0xE5.
Proof.
  intros Hi. change (root_dir_sectors s1) with 1 in Hi.
  assert (Hi' : i ∈ seqZ 0 16) by (apply elem_of_seqZ; lia). clear Hi. rename Hi' into Hi.
  change (i ∈ [0; 1; 2; 3; 4; 5; 6; 7; 8; 9; 10; 11; 12; 13; 14; 15]) in Hi.
  repeat (apply elem_of_cons in Hi as [->|Hi]; [vm_compute; congruence|]). by apply not_elem_of_nil in Hi.
Qed.

Lemma fat16_write_duplicate_hidden_witness :
  exists s' o, fat16_write_file (str "A       ") (str "TXT") (str "new") 3 s1 = Done (0, s', o).
Proof.
  destruct (wp_inv _ _ _ (fat16_write_duplicate_hidden s1 (fs0_volume one_file) one_file (rd_sector one_file)
    (str "A       ") (str "TXT") (str "new") 3 16 a_txt [2] one_file_holds
    ltac:(by apply str_bytes) ltac:(by apply str_bytes) ltac:(by apply str_bytes) ltac:(lia) ltac:(lia)
    one_file_no_deleted a_txt_found a_txt_file ltac:(vm_compute; congruence) ltac:(eexists; vm_compute; reflexivity)))
    as (w & s' & o & E & -> & _).
  exists s', o. exact E.
Defined.
