(* ===== verification/Screen.v ===== *)
(** * screen.c: the text console

    [screen] is the VGA window, as bytes at their offset from 0xB8000, the
    cursor, and the hardware behind the ports (the serial line the text is
    echoed to and the CRT controller that shows the cursor). *)
From Stdlib Require Import ZArith Lia ZifyBool String.
From stdpp Require Import base numbers list gmap.
From S2P Require Import Prelude Ports.

Definition MAX_ROWS : Z := 25.
Definition MAX_COLS : Z := 80.

Record screen (H : Type) := { video : gmap Z Z; cursor_row : Z; cursor_col : Z; hw : H }.
Arguments video {H} _. Arguments cursor_row {H} _. Arguments cursor_col {H} _. Arguments hw {H} _.

Section Screen.
Context {H : Type} `{Ports H}.

(** Bound on the polls of the serial line. *)
Context (fuel : nat).

Definition set_cursor (row col : Z) (s : screen H) : screen H :=
  {| video := video s; cursor_row := row; cursor_col := col; hw := hw s |}.

Definition set_video (v : gmap Z Z) (s : screen H) : screen H :=
  {| video := v; cursor_row := cursor_row s; cursor_col := cursor_col s; hw := hw s |}.

Definition set_hw (h : H) (s : screen H) : screen H :=
  {| video := video s; cursor_row := cursor_row s; cursor_col := cursor_col s; hw := h |}.

(** [video_memory[offset]] *)
Definition vget (v : gmap Z Z) (offset : Z) : Z := default 0 (v !! offset).

Definition vset (offset c : Z) (v : gmap Z Z) : gmap Z Z := <[offset := u8 c]> v.

(** ** Serial line *)

(** [while ((inb(0x3F8 + 5) & 0x20) == 0) {}] *)
Fixpoint wait_thr (n : nat) (h : H) : outcome H :=
  match n with
  | O => Spin
  | S n' => let '(st, h) := inb (0x3F8 + 5) h in if bit st 5 then Done h else wait_thr n' h
  end.

Definition debug_putc (c : Z) : M (screen H) unit :=
  s ← mget;
  h ← lift (wait_thr fuel (outb 0xE9 c (hw s)));
  mput (set_hw (outb 0x3F8 c h) s).

Fixpoint debug_print (l : list Z) : M (screen H) unit :=
  match l with
  | [] => mret tt
  | c :: l' => if bool_decide (c = 0) then mret tt else debug_putc c;; debug_print l'
  end.

Definition init_serial : list (Z * Z) :=
  [(0x3F8 + 1, 0x00); (0x3F8 + 3, 0x80); (0x3F8 + 0, 0x01); (0x3F8 + 1, 0x00);
   (0x3F8 + 3, 0x03); (0x3F8 + 2, 0xC7); (0x3F8 + 4, 0x0B)].

(** ** Cursor *)
Definition update_cursor : M (screen H) unit :=
  mmodify (fun s =>
    let pos := u16 (cursor_row s * MAX_COLS + cursor_col s) in
    set_hw (outbs [(0x3D4, 0x0F); (0x3D5, Z.land pos 0xFF);
                   (0x3D4, 0x0E); (0x3D5, Z.land (Z.shiftr pos 8) 0xFF)] (hw s)) s).

Definition enable_cursor (cursor_start cursor_end : Z) : M (screen H) unit :=
  mmodify (fun s =>
    let h := outb 0x3D4 0x0A (hw s) in
    let '(a, h) := inb 0x3D5 h in
    let h := outb 0x3D5 (Z.lor (Z.land a 0xC0) cursor_start) h in
    let h := outb 0x3D4 0x0B h in
    let '(b, h) := inb 0x3D5 h in
    set_hw (outb 0x3D5 (Z.lor (Z.land b 0xE0) cursor_end) h) s).

(** ** The window *)
Definition clear_screen : M (screen H) unit :=
  mmodify (fun s =>
    let v := for_ 0 (80 * 25) (fun i v => vset (i * 2 + 1) 0x0F (vset (i * 2) 32 v)) (video s) in
    set_cursor 0 0 (set_video v s)).

Definition copy_cell (row col : Z) (v : gmap Z Z) : gmap Z Z :=
  let v := vset (((row - 1) * 80 + col) * 2) (vget v ((row * 80 + col) * 2)) v in
  vset (((row - 1) * 80 + col) * 2 + 1) (vget v ((row * 80 + col) * 2 + 1)) v.

Definition scroll_video (v : gmap Z Z) : gmap Z Z :=
  let v := for_ 1 MAX_ROWS (fun row v => for_ 0 MAX_COLS (copy_cell row) v) v in
  for_ 0 MAX_COLS (fun col v =>
    let offset := ((MAX_ROWS - 1) * MAX_COLS + col) * 2 in
    vset (offset + 1) 0x0F (vset offset 32 v)) v.

Definition scroll_screen : M (screen H) unit :=
  mmodify (fun s => set_cursor (MAX_ROWS - 1) (cursor_col s) (set_video (scroll_video (video s)) s)).

(** [if (cursor_row >= MAX_ROWS) scroll_screen();] *)
Definition scroll_if_needed : M (screen H) unit :=
  s ← mget; if bool_decide (cursor_row s >= MAX_ROWS) then scroll_screen else mret tt.

(** Store a character at the cursor. *)
Definition put_cell (c color : Z) (s : screen H) : screen H :=
  let offset := (cursor_row s * 80 + cursor_col s) * 2 in
  set_video (vset (offset + 1) color (vset offset c (video s))) s.

(** Advance the cursor, wrapping to the next row. *)
Definition advance (s : screen H) : screen H :=
  if bool_decide (cursor_col s + 1 >= 80) then set_cursor (cursor_row s + 1) 0 s
  else set_cursor (cursor_row s) (cursor_col s + 1) s.

(** The body of [print]'s loop. *)
Definition print_char (c : Z) : M (screen H) unit :=
  (if bool_decide (c = 10) then
     debug_putc 10;; mmodify (fun s => set_cursor (cursor_row s + 1) 0 s)
   else if bool_decide (c = 8) then
     mmodify (fun s =>
       if bool_decide (cursor_col s > 0) then set_cursor (cursor_row s) (cursor_col s - 1) s
       else if bool_decide (cursor_row s > 0) then set_cursor (cursor_row s - 1) 79 s
       else s)
   else
     mmodify (put_cell c 0x6F);; debug_putc c;; mmodify advance);;
  scroll_if_needed.

Fixpoint print_chars (l : list Z) : M (screen H) unit :=
  match l with
  | [] => mret tt
  | c :: l' => if bool_decide (c = 0) then mret tt else print_char c;; print_chars l'
  end.

(** The end of the list is the terminator of the string. *)
Definition print (msg : list Z) : M (screen H) unit := print_chars msg;; update_cursor.

Definition colored_char (color c : Z) : M (screen H) unit :=
  (if bool_decide (c = 10) then mmodify (fun s => set_cursor (cursor_row s + 1) 0 s)
   else mmodify (put_cell c color);; mmodify advance);;
  scroll_if_needed.

Fixpoint colored_chars (color : Z) (l : list Z) : M (screen H) unit :=
  match l with
  | [] => mret tt
  | c :: l' => if bool_decide (c = 0) then mret tt else colored_char color c;; colored_chars color l'
  end.

Definition print_colored (message : list Z) (color : Z) : M (screen H) unit :=
  colored_chars color message;; update_cursor.

(** [for (i = 0; msg[i] != '\0'; i++)] from index [i] on. *)
Fixpoint print_at_from (msg : list Z) (offset i : Z) (v : gmap Z Z) : gmap Z Z :=
  match msg with
  | [] => v
  | c :: msg' =>
      if bool_decide (c = 0) then v
      else print_at_from msg' offset (i + 1) (vset (offset + i * 2 + 1) 0x6F (vset (offset + i * 2) c v))
  end.

Definition print_at (msg : list Z) (row col : Z) : M (screen H) unit :=
  mmodify (fun s => set_video (print_at_from msg ((80 * row + col) * 2) 0 (video s)) s).

(** ** Numbers *)

(** [while (num > 0) { buffer[i++] = num % 10 + '0'; num /= 10; }]: 16 steps are
    more than an [int] needs. *)
Fixpoint int_digits (n : nat) (num : Z) : list Z :=
  match n with
  | O => []
  | S n' => if bool_decide (num > 0) then (num mod 10 + 48) :: int_digits n' (num / 10) else []
  end.

(** The strings [print_int] passes to [print], in order. *)
Definition int_strings (num : Z) : list (list Z) :=
  if bool_decide (num = 0) then [str "0"] else
  let sign := if bool_decide (num < 0) then [str "-"] else [] in
  let num := if bool_decide (num < 0) then i32 (- num) else num in
  sign ++ ((fun d => [d]) <$> rev (int_digits 16 num)).

Definition hex_chars : list Z := str "0123456789ABCDEF".

(** [for (i = 28; i >= 0; i -= 4)] *)
Definition hex_strings (num : Z) : list (list Z) :=
  str "0X" :: ((fun i => [at_ hex_chars (Z.land (Z.shiftr num i) 0xF)]) <$> [28; 24; 20; 16; 12; 8; 4; 0]).

Fixpoint print_all (l : list (list Z)) : M (screen H) unit :=
  match l with [] => mret tt | x :: l' => print x;; print_all l' end.

Definition print_int (num : Z) : M (screen H) unit := print_all (int_strings num).

Definition print_hex (num : Z) : M (screen H) unit := print_all (hex_strings num).

(** The calls of the other components. *)
Definition run_event (e : event) : M (screen H) unit :=
  match e with
  | Print s => print s
  | PrintInt n => print_int n
  | PrintHex n => print_hex n
  | PrintColored s color => print_colored s color
  | ClearScreen => clear_screen
  | InitSerial => mmodify (fun s => set_hw (outbs init_serial (hw s)) s)
  | EnableCursor cursor_start cursor_end => enable_cursor cursor_start cursor_end
  end.

Fixpoint run_events (l : list event) : M (screen H) unit :=
  match l with [] => mret tt | e :: l' => run_event e;; run_events l' end.
End Screen.
