(* ===== verification/ScreenSpec.v ===== *)
(** * The console implements a terminal

    An abstract terminal is a grid of 25 rows of 80 cells and a cursor; printing
    a character writes a cell, moves the cursor and scrolls.  The bytes of the
    VGA window refine it. *)
From Stdlib Require Import ZArith Lia ZifyBool String.
From stdpp Require Import base numbers list gmap.
From S2P Require Import Prelude Ports Screen.

(** ** The abstract terminal *)
Record term := { cell : Z -> Z -> Z * Z; t_row : Z; t_col : Z }.

Definition blank : Z * Z := (32, 0x0F).

Definition t_scroll (t : term) : term :=
  if bool_decide (t_row t >= 25)
  then {| cell := fun r c => if bool_decide (r < 24) then cell t (r + 1) c else blank;
          t_row := 24; t_col := t_col t |}
  else t.

Definition t_write (color ch : Z) (t : term) : term := {|
  cell := fun r c => if bool_decide (r = t_row t /\ c = t_col t) then (u8 ch, u8 color) else cell t r c;
  t_row := t_row t; t_col := t_col t |}.

Definition t_goto (r c : Z) (t : term) : term := {| cell := cell t; t_row := r; t_col := c |}.

Definition t_advance (t : term) : term :=
  if bool_decide (t_col t + 1 >= 80) then t_goto (t_row t + 1) 0 t else t_goto (t_row t) (t_col t + 1) t.

Definition t_back (t : term) : term :=
  if bool_decide (t_col t > 0) then t_goto (t_row t) (t_col t - 1) t
  else if bool_decide (t_row t > 0) then t_goto (t_row t - 1) 79 t else t.

(** [print]'s characters; [print_colored] has no backspace. *)
Definition term_char (t : term) (c : Z) : term :=
  t_scroll (if bool_decide (c = 10) then t_goto (t_row t + 1) 0 t
            else if bool_decide (c = 8) then t_back t
            else t_advance (t_write 0x6F c t)).

Definition term_colored (color : Z) (t : term) (c : Z) : term :=
  t_scroll (if bool_decide (c = 10) then t_goto (t_row t + 1) 0 t else t_advance (t_write color c t)).

(** ** The hardware *)
Class ConsoleHw (H : Type) `{Ports H} := {
  sent : H -> list Z;
  thr_wait : H -> nat;
  max_wait : nat;
  crtc_index : H -> Z;
  crtc_reg : H -> Z -> Z;
  thr_bound : forall h, (thr_wait h <= max_wait)%nat;
  thr_busy : forall h n, thr_wait h = S n ->
    bit (fst (inb 0x3FD h)) 5 = false /\ thr_wait (snd (inb 0x3FD h)) = n /\
    sent (snd (inb 0x3FD h)) = sent h /\ crtc_reg (snd (inb 0x3FD h)) = crtc_reg h;
  thr_free : forall h, thr_wait h = O ->
    bit (fst (inb 0x3FD h)) 5 = true /\ thr_wait (snd (inb 0x3FD h)) = O /\
    sent (snd (inb 0x3FD h)) = sent h /\ crtc_reg (snd (inb 0x3FD h)) = crtc_reg h;
  thr_tx : forall h c, thr_wait h = O ->
    sent (outb 0x3F8 c h) = sent h ++ [u8 c] /\ crtc_reg (outb 0x3F8 c h) = crtc_reg h;
  debug_port : forall h c, sent (outb 0xE9 c h) = sent h /\ crtc_reg (outb 0xE9 c h) = crtc_reg h;
  crtc_select : forall h i, sent (outb 0x3D4 i h) = sent h /\ crtc_index (outb 0x3D4 i h) = u8 i /\
    crtc_reg (outb 0x3D4 i h) = crtc_reg h;
  crtc_data : forall h v, sent (outb 0x3D5 v h) = sent h /\ crtc_index (outb 0x3D5 v h) = crtc_index h /\
    forall r, crtc_reg (outb 0x3D5 v h) r = if bool_decide (r = crtc_index h) then u8 v else crtc_reg h r;
}.

(** ** The window *)
Lemma vget_vset o c v o' : vget (vset o c v) o' = if bool_decide (o' = o) then u8 c else vget v o'.
Proof.
  unfold vget, vset. case_bool_decide; [subst; by rewrite lookup_insert_eq|].
  by rewrite lookup_insert_ne by congruence.
Qed.

Lemma vget_u8 v : (forall o, is_u8 (vget v o)) -> forall o c o', is_u8 (vget (vset o c v) o').
Proof. intros Hv o c o'. rewrite vget_vset. case_bool_decide; [apply u8_range|apply Hv]. Qed.

(** Scrolling moves every byte of the rows 1 .. 24 up by one row. *)
Lemma copy_row_get row v o :
  1 <= row < 25 -> (forall o, is_u8 (vget v o)) ->
  vget (for_ 0 MAX_COLS (copy_cell row) v) o
  = if (160 * (row - 1) <=? o) && (o <? 160 * row) then vget v (o + 160) else vget v o.
Proof.
  intros Hr Hv. unfold MAX_COLS.
  assert (Hi : forall o, vget (for_ 0 80 (copy_cell row) v) o
    = if (160 * (row - 1) <=? o) && (o <? 160 * (row - 1) + 2 * 80) then vget v (o + 160) else vget v o).
  { apply (for_inv (fun col w => forall o, vget w o
      = if (160 * (row - 1) <=? o) && (o <? 160 * (row - 1) + 2 * col) then vget v (o + 160) else vget v o)); [lia| |].
    - intros x. by replace ((160 * (row - 1) <=? x) && (x <? 160 * (row - 1) + 2 * 0)) with false by lia.
    - intros col w Hcol Hw x. unfold copy_cell. rewrite !vget_vset, !Hw.
      destruct (decide (x = ((row - 1) * 80 + col) * 2 + 1)) as [->|N1].
      + rewrite bool_decide_true by done.
        rewrite bool_decide_false by lia.
        replace ((160 * (row - 1) <=? (row * 80 + col) * 2 + 1) && _) with false by lia.
        replace ((160 * (row - 1) <=? ((row - 1) * 80 + col) * 2 + 1) && _) with true by lia.
        rewrite u8_small by apply Hv. f_equal. lia.
      + rewrite bool_decide_false by done.
        destruct (decide (x = ((row - 1) * 80 + col) * 2)) as [->|N2].
        * rewrite bool_decide_true by done.
          replace ((160 * (row - 1) <=? (row * 80 + col) * 2) && _) with false by lia.
          replace ((160 * (row - 1) <=? ((row - 1) * 80 + col) * 2) && _) with true by lia.
          rewrite u8_small by apply Hv. f_equal. lia.
        * rewrite bool_decide_false by done.
          replace ((160 * (row - 1) <=? x) && (x <? 160 * (row - 1) + 2 * (col + 1)))
            with ((160 * (row - 1) <=? x) && (x <? 160 * (row - 1) + 2 * col)) by lia. done. }
  rewrite Hi. by replace (160 * (row - 1) + 2 * 80) with (160 * row) by lia.
Qed.

Lemma vget_u8_copy row v : (forall o, is_u8 (vget v o)) -> forall o, is_u8 (vget (for_ 0 MAX_COLS (copy_cell row) v) o).
Proof.
  intros Hv. apply (for_keep (fun w => forall o, is_u8 (vget w o))); [done|].
  intros col w _ Hw. unfold copy_cell. apply vget_u8. by apply vget_u8.
Qed.

Lemma scroll_video_get v o :
  (forall o, is_u8 (vget v o)) ->
  vget (scroll_video v) o
  = if (0 <=? o) && (o <? 3840) then vget v (o + 160)
    else if (3840 <=? o) && (o <? 4000) then (if o mod 2 =? 0 then 32 else 0x0F) else vget v o.
Proof.
  intros Hv. unfold scroll_video. cbv zeta.
  set (w := for_ 1 MAX_ROWS _ v).
  assert (Hw : (forall x, is_u8 (vget w x)) /\ forall x, vget w x = if (0 <=? x) && (x <? 160 * (25 - 1)) then vget v (x + 160) else vget v x).
  { apply (for_inv (fun row w => (forall x, is_u8 (vget w x)) /\ forall x, vget w x =
      if (0 <=? x) && (x <? 160 * (row - 1)) then vget v (x + 160) else vget v x)); [done| |].
    - split; [done|]. intros x. by replace ((0 <=? x) && (x <? 160 * (1 - 1))) with false by lia.
    - intros row u Hrow [Hu Hg]. unfold MAX_ROWS in Hrow. split; [by apply vget_u8_copy|].
      intros x. rewrite copy_row_get by (done || lia). rewrite !Hg.
      destruct ((160 * (row - 1) <=? x) && (x <? 160 * row)) eqn:E1.
      + replace ((0 <=? x + 160) && (x + 160 <? 160 * (row - 1))) with false by lia.
        by replace ((0 <=? x) && (x <? 160 * (row + 1 - 1))) with true by lia.
      + by replace ((0 <=? x) && (x <? 160 * (row + 1 - 1))) with ((0 <=? x) && (x <? 160 * (row - 1))) by lia. }
  destruct Hw as [_ Hw]. clearbody w. unfold MAX_COLS, MAX_ROWS.
  assert (Hi : forall x, vget (for_ 0 80 (fun col v => vset (((25 - 1) * 80 + col) * 2 + 1) 0x0F
      (vset (((25 - 1) * 80 + col) * 2) 32 v)) w) x
    = if (3840 <=? x) && (x <? 3840 + 2 * 80) then (if x mod 2 =? 0 then 32 else 0x0F) else vget w x).
  { apply (for_inv (fun col u => forall x, vget u x
      = if (3840 <=? x) && (x <? 3840 + 2 * col) then (if x mod 2 =? 0 then 32 else 0x0F) else vget w x)); [lia| |].
    - intros x. by replace ((3840 <=? x) && (x <? 3840 + 2 * 0)) with false by lia.
    - intros col u Hcol Hu x. rewrite !vget_vset, Hu.
      destruct (decide (x = ((25 - 1) * 80 + col) * 2 + 1)) as [->|N1].
      + rewrite bool_decide_true by done. replace ((3840 <=? ((25 - 1) * 80 + col) * 2 + 1) && _) with true by lia.
        replace ((((25 - 1) * 80 + col) * 2 + 1) mod 2 =? 0) with false by word. done.
      + rewrite bool_decide_false by done. case_bool_decide as N2.
        * subst x. replace ((3840 <=? ((25 - 1) * 80 + col) * 2) && _) with true by lia.
          replace ((((25 - 1) * 80 + col) * 2) mod 2 =? 0) with true by word. done.
        * by replace ((3840 <=? x) && (x <? 3840 + 2 * (col + 1))) with ((3840 <=? x) && (x <? 3840 + 2 * col)) by lia. }
  rewrite Hi, Hw. change (3840 + 2 * 80) with 4000. change (160 * (25 - 1)) with 3840.
  destruct ((0 <=? o) && (o <? 3840)) eqn:E1; [|done].
  by replace ((3840 <=? o) && (o <? 4000)) with false by lia.
Qed.

(** ** Refinement *)
Definition in_screen (r c : Z) : Prop := 0 <= r < 25 /\ 0 <= c < 80.

(** The window shows the grid, all bytes are bytes. *)
Record shows (v : gmap Z Z) (t : term) : Prop := {
  sh_u8 : forall o, is_u8 (vget v o);
  sh_cell : forall r c, in_screen r c ->
    cell t r c = (vget v ((80 * r + c) * 2), vget v ((80 * r + c) * 2 + 1));
}.

(** Bytes outside the window of 4000 bytes are as they were. *)
Definition outside_same (v v' : gmap Z Z) : Prop := forall o, ~ 0 <= o < 4000 -> vget v' o = vget v o.

#[export] Instance outside_same_preorder : PreOrder outside_same.
Proof. split; [by intros v o|]. intros u v w H1 H2 o Ho. rewrite H2, H1 by done. done. Qed.

Lemma shows_write v t r c color ch :
  shows v t -> t_row t = r -> t_col t = c -> in_screen r c ->
  let o := (r * 80 + c) * 2 in
  shows (vset (o + 1) color (vset o ch v)) (t_write color ch t) /\
  outside_same v (vset (o + 1) color (vset o ch v)).
Proof.
  intros [Hu Hc] Hr Hcc [Hin1 Hin2]. cbv zeta. split; [constructor|].
  - apply vget_u8. by apply vget_u8.
  - intros r' c' [H1 H2]. cbn [cell t_write]. rewrite Hr, Hcc, !vget_vset.
    destruct (decide (r' = r /\ c' = c)) as [[-> ->]|Hne].
    + rewrite (bool_decide_true (r = r /\ c = c)) by done.
      rewrite (bool_decide_true ((80 * r + c) * 2 + 1 = _)) by lia.
      rewrite (bool_decide_false ((80 * r + c) * 2 = (r * 80 + c) * 2 + 1)) by lia.
      by rewrite (bool_decide_true ((80 * r + c) * 2 = _)) by lia.
    + rewrite (bool_decide_false (r' = r /\ c' = c)) by done. rewrite Hc by done.
      assert (80 * r' + c' <> 80 * r + c) by (intros ?; apply Hne; lia).
      by rewrite !bool_decide_false by lia.
  - intros o Ho. rewrite !vget_vset. by rewrite !bool_decide_false by lia.
Qed.

Lemma shows_goto v t r c : shows v t -> shows v (t_goto r c t).
Proof. intros [? ?]. by constructor. Qed.

Lemma shows_scroll v t :
  shows v t -> t_row t >= 25 -> shows (scroll_video v) (t_scroll t) /\ outside_same v (scroll_video v).
Proof.
  intros [Hu Hc] Hr. unfold t_scroll. rewrite bool_decide_true by done. split; [constructor|].
  - intros o. rewrite scroll_video_get by done. repeat case_match; try apply Hu; unfold is_u8; lia.
  - intros r c [H1 H2]. cbn [cell]. rewrite !scroll_video_get by done. case_bool_decide.
    + rewrite Hc by (split; lia).
      replace ((0 <=? (80 * r + c) * 2) && _) with true by lia.
      replace ((0 <=? (80 * r + c) * 2 + 1) && _) with true by lia.
      by replace ((80 * (r + 1) + c) * 2) with ((80 * r + c) * 2 + 160) by lia;
        replace ((80 * r + c) * 2 + 160 + 1) with ((80 * r + c) * 2 + 1 + 160) by lia.
    + replace ((0 <=? (80 * r + c) * 2) && _) with false by lia.
      replace ((0 <=? (80 * r + c) * 2 + 1) && _) with false by lia.
      replace ((3840 <=? (80 * r + c) * 2) && _) with true by lia.
      replace ((3840 <=? (80 * r + c) * 2 + 1) && _) with true by lia.
      replace (((80 * r + c) * 2) mod 2 =? 0) with true by word.
      by replace (((80 * r + c) * 2 + 1) mod 2 =? 0) with false by word.
  - intros o Ho. rewrite scroll_video_get by done.
    replace ((0 <=? o) && (o <? 3840)) with false by lia. by replace ((3840 <=? o) && (o <? 4000)) with false by lia.
Qed.

Section Console.
Context {T : Type} {PT : Ports T} {CH : ConsoleHw T}.

Abbreviation fuel := (S max_wait).

Record refines (s : screen T) (t : term) : Prop := {
  rf_shows : shows (video s) t;
  rf_row : cursor_row s = t_row t;
  rf_col : cursor_col s = t_col t;
  rf_in : in_screen (t_row t) (t_col t);
}.

(** What a console operation may change: the window as told, the text [txt] is
    sent on the serial line, and nothing outside the window is written. *)
Record console_step (s s' : screen T) (txt : list Z) : Prop := {
  cs_sent : sent (hw s') = sent (hw s) ++ txt;
  cs_outside : outside_same (video s) (video s');
}.

Lemma console_step_refl s : console_step s s [].
Proof. constructor; [by rewrite app_nil_r|done]. Qed.

Lemma console_step_trans s1 s2 s3 t1 t2 :
  console_step s1 s2 t1 -> console_step s2 s3 t2 -> console_step s1 s3 (t1 ++ t2).
Proof.
  intros [H1 H2] [H3 H4]. constructor; [by rewrite H3, H1, app_assoc|by etrans].
Qed.

Lemma wait_thr_ok n h :
  (thr_wait h < n)%nat ->
  exists h', wait_thr n h = Done h' /\ thr_wait h' = O /\ sent h' = sent h /\ crtc_reg h' = crtc_reg h.
Proof.
  revert h. induction n as [|n IH]; intros h Hn; [lia|]. cbn [wait_thr].
  change (0x3F8 + 5) with 0x3FD. destruct (thr_wait h) as [|k] eqn:Hk.
  - destruct (thr_free h Hk) as (Hb & Hw & Hs & Hc). destruct (inb 0x3FD h) as [st h1]. cbn [fst snd] in *.
    rewrite Hb. by exists h1.
  - destruct (thr_busy h k Hk) as (Hb & Hw & Hs & Hc). destruct (inb 0x3FD h) as [st h1]. cbn [fst snd] in *.
    rewrite Hb. destruct (IH h1) as (h' & He & Hz & Hs' & Hc'); [lia|]. exists h'.
    split_and!; [done|done|by rewrite Hs'|by rewrite Hc'].
Qed.

Lemma debug_putc_wp c (s : screen T) Q :
  (forall h, sent h = sent (hw s) ++ [u8 c] -> Q tt (set_hw h s) []) -> wp (debug_putc fuel c) s Q.
Proof.
  intros HQ. unfold debug_putc. apply wp_bind, wp_get.
  destruct (debug_port (hw s) c) as [Hs1 _].
  destruct (wait_thr_ok fuel (outb 0xE9 c (hw s))) as (h & He & Hz & Hs & _).
  { pose proof (thr_bound (outb 0xE9 c (hw s))). lia. }
  apply wp_bind. eapply wp_lift; [exact He|]. apply wp_put. cbn [app].
  apply HQ. destruct (thr_tx h c Hz) as [-> _]. by rewrite Hs, Hs1.
Qed.

Lemma scroll_if_needed_wp s t Q :
  shows (video s) t -> cursor_row s = t_row t -> cursor_col s = t_col t ->
  0 <= t_row t <= 25 -> 0 <= t_col t < 80 ->
  (forall s', refines s' (t_scroll t) -> console_step s s' [] -> Q tt s' []) ->
  wp (scroll_if_needed (H := T)) s Q.
Proof.
  intros Hsh Hr Hc Hrow Hcol HQ. unfold scroll_if_needed. apply wp_bind, wp_get. unfold MAX_ROWS.
  case_bool_decide as Hge.
  - unfold scroll_screen. apply wp_modify. cbn [app].
    destruct (shows_scroll (video s) t Hsh ltac:(lia)) as [Hs Ho].
    apply HQ; [|by constructor; [rewrite app_nil_r|]].
    unfold t_scroll in *. rewrite bool_decide_true in * by lia.
    constructor; [done|done|done|]. split; cbn; lia.
  - apply wp_ret. cbn [app]. apply HQ; [|apply console_step_refl].
    unfold t_scroll. rewrite bool_decide_false by lia. constructor; [done|done|done|split; lia].
Qed.

(** The characters echoed on the serial line. *)
Definition echo (l : list Z) : list Z := u8 <$> filter (fun c => c <> 8) l.

Lemma shows_cell s t color ch :
  refines s t -> shows (video (put_cell ch color s)) (t_write color ch t) /\
    outside_same (video s) (video (put_cell ch color s)).
Proof.
  intros [Hsh Hr Hc Hin]. unfold put_cell. cbn [video set_video].
  apply (shows_write (video s) t); [done|by rewrite Hr|by rewrite Hc|by rewrite Hr, Hc].
Qed.

Lemma advance_cursor (s : screen T) t :
  cursor_row s = t_row t -> cursor_col s = t_col t ->
  cursor_row (advance s) = t_row (t_advance t) /\ cursor_col (advance s) = t_col (t_advance t) /\
  video (advance s) = video s /\ hw (advance s) = hw s.
Proof.
  intros Hr Hc. unfold advance, t_advance. rewrite Hc. case_bool_decide; cbn; by rewrite ?Hr.
Qed.

Lemma t_advance_range t :
  in_screen (t_row t) (t_col t) -> 0 <= t_row (t_advance t) <= 25 /\ 0 <= t_col (t_advance t) < 80.
Proof. intros [? ?]. unfold t_advance. case_bool_decide; cbn; lia. Qed.

Lemma print_char_wp c s t Q :
  refines s t ->
  (forall s', refines s' (term_char t c) -> console_step s s' (echo [c]) -> Q tt s' []) ->
  wp (print_char fuel c) s Q.
Proof.
  intros Hrf HQ. pose proof Hrf as [Hsh Hr Hc [Hin1 Hin2]]. unfold print_char. apply wp_bind.
  unfold term_char in HQ. case_bool_decide as E10; [|case_bool_decide as E8].
  - subst c. apply wp_bind, debug_putc_wp. intros h Hh. apply wp_modify. cbn [app].
    eapply scroll_if_needed_wp with (t := t_goto (t_row t + 1) 0 t); [by apply shows_goto|cbn; lia|done|cbn; lia|cbn; lia|].
    intros s' Hs' [H1 H2]. apply HQ; [done|]. constructor; [|exact H2]. rewrite H1, app_nil_r. cbn [hw set_cursor set_hw]. by rewrite Hh.
  - subst c. apply wp_modify. cbn [app].
    assert (Hb : 0 <= t_row (t_back t) <= 25 /\ 0 <= t_col (t_back t) < 80).
    { unfold t_back. repeat case_bool_decide; cbn; lia. }
    eapply scroll_if_needed_wp with (t := t_back t); [| | |lia|lia|].
    + unfold t_back. repeat case_bool_decide; cbn; try done; by apply shows_goto.
    + unfold t_back. rewrite Hr, Hc. repeat case_bool_decide; cbn; lia.
    + unfold t_back. rewrite Hr, Hc. repeat case_bool_decide; cbn; lia.
    + intros s' Hs' [H1 H2]. apply HQ; [done|]. constructor.
      * rewrite H1. by repeat case_bool_decide.
      * by repeat case_bool_decide.
  - destruct (shows_cell s t 0x6F c Hrf) as [Hw Ho].
    apply wp_bind, wp_modify. apply wp_bind, debug_putc_wp. intros h Hh. apply wp_modify. cbn [app].
    set (s1 := set_hw h (put_cell c 0x6F s)) in *.
    destruct (advance_cursor s1 (t_write 0x6F c t)) as (Hr1 & Hc1 & Hv1 & Hh1); [done|done|].
    destruct (t_advance_range (t_write 0x6F c t)) as [Ha1 Ha2]; [done|].
    eapply scroll_if_needed_wp with (t := t_advance (t_write 0x6F c t)); [|done|done|done|done|].
    + rewrite Hv1. unfold t_advance. case_bool_decide; by apply shows_goto.
    + intros s' Hs' [H1 H2]. apply HQ; [done|]. constructor.
      * rewrite H1, Hh1, app_nil_r. change (hw s1) with h. rewrite Hh. unfold echo. by rewrite filter_cons_True.
      * etrans; [exact Ho|]. rewrite Hv1 in H2. exact H2.
Qed.

Lemma print_chars_wp l s t Q :
  refines s t ->
  (forall s', refines s' (fold_left term_char (c_string l) t) -> console_step s s' (echo (c_string l)) -> Q tt s' []) ->
  wp (print_chars fuel l) s Q.
Proof.
  revert s t Q. induction l as [|c l IH]; intros s t Q Hrf HQ; cbn [print_chars].
  - apply wp_ret. apply HQ; [done|]. apply console_step_refl.
  - cbn [c_string] in HQ. case_bool_decide as E.
    + apply wp_ret. apply HQ; [done|]. apply console_step_refl.
    + apply wp_bind. eapply print_char_wp; [done|]. intros s1 Hrf1 Hst1. cbn [app].
      eapply IH; [done|]. intros s2 Hrf2 Hst2. apply HQ; [done|].
      replace (echo (c :: c_string l)) with (echo [c] ++ echo (c_string l)).
      { by eapply console_step_trans. }
      unfold echo. rewrite <- fmap_app, <- filter_app. done.
Qed.

(** The CRT controller's cursor registers 0x0F and 0x0E. *)
Definition cursor_shown (s : screen T) : Z := crtc_reg (hw s) 0x0F + 0x100 * crtc_reg (hw s) 0x0E.

Lemma update_cursor_wp s t Q :
  refines s t ->
  (forall s', refines s' t -> console_step s s' [] -> cursor_shown s' = 80 * t_row t + t_col t -> Q tt s' []) ->
  wp update_cursor s Q.
Proof.
  intros [Hsh Hr Hc [Hin1 Hin2]] HQ. unfold update_cursor. apply wp_modify. unfold outbs. cbn [fold_left].
  set (pos := u16 (cursor_row s * MAX_COLS + cursor_col s)).
  assert (Hpos : pos = 80 * t_row t + t_col t) by (unfold pos, MAX_COLS; rewrite Hr, Hc; word).
  set (h1 := outb 0x3D4 0x0F (hw s)). destruct (crtc_select (hw s) 0x0F) as (S1 & I1 & R1). fold h1 in S1, I1, R1.
  set (h2 := outb 0x3D5 (Z.land pos 0xFF) h1). destruct (crtc_data h1 (Z.land pos 0xFF)) as (S2 & I2 & R2).
  fold h2 in S2, I2, R2.
  set (h3 := outb 0x3D4 0x0E h2). destruct (crtc_select h2 0x0E) as (S3 & I3 & R3). fold h3 in S3, I3, R3.
  destruct (crtc_data h3 (Z.land (Z.shiftr pos 8) 0xFF)) as (S4 & I4 & R4).
  set (h4 := outb 0x3D5 (Z.land (Z.shiftr pos 8) 0xFF) h3) in *.
  apply HQ; [by constructor| |].
  - constructor; [|done]. cbn. by rewrite S4, S3, S2, S1, app_nil_r.
  - unfold cursor_shown. cbn [hw set_hw]. rewrite !R4, I3. change (u8 14) with 14.
    rewrite (bool_decide_false (15 = 14)), (bool_decide_true (14 = 14)) by done.
    rewrite R3, R2, I1. change (u8 15) with 15. rewrite bool_decide_true by done.
    change 0xFF with (Z.ones 8). rewrite !Z.land_ones, Z.shiftr_div_pow2 by lia.
    change (2 ^ 8) with 0x100. word.
Qed.

Lemma print_wp l s t Q :
  refines s t ->
  (forall s', refines s' (fold_left term_char (c_string l) t) -> console_step s s' (echo (c_string l)) ->
     cursor_shown s' = 80 * cursor_row s' + cursor_col s' -> Q tt s' []) ->
  wp (print fuel l) s Q.
Proof.
  intros Hrf HQ. unfold print. apply wp_bind. eapply print_chars_wp; [done|]. intros s1 Hrf1 Hst1. cbn [app].
  eapply update_cursor_wp; [done|]. intros s2 Hrf2 Hst2 Hcur. apply HQ; [done| |].
  - rewrite <- (app_nil_r (echo _)). by eapply console_step_trans.
  - rewrite Hcur, (rf_row _ _ Hrf2), (rf_col _ _ Hrf2). lia.
Qed.

(** ** print_colored, clear_screen *)
Lemma colored_chars_wp color l s t Q :
  refines s t ->
  (forall s', refines s' (fold_left (term_colored color) (c_string l) t) -> console_step s s' [] -> Q tt s' []) ->
  wp (colored_chars color l) s Q.
Proof.
  revert s t Q. induction l as [|c l IH]; intros s t Q Hrf HQ; cbn [colored_chars].
  - apply wp_ret. apply HQ; [done|apply console_step_refl].
  - cbn [c_string] in HQ. case_bool_decide as E.
    { apply wp_ret. apply HQ; [done|apply console_step_refl]. }
    cbn [fold_left] in HQ. unfold term_colored at 2 in HQ.
    pose proof Hrf as [Hsh Hr Hc [Hin1 Hin2]].
    apply wp_bind. unfold colored_char. apply wp_bind. case_bool_decide as E10.
    + apply wp_modify. cbn [app].
      eapply scroll_if_needed_wp with (t := t_goto (t_row t + 1) 0 t); [by apply shows_goto|cbn; lia|done|cbn; lia|cbn; lia|].
      intros s1 Hrf1 Hst1. cbn [app]. eapply IH; [done|]. intros s2 Hrf2 Hst2. apply HQ; [done|].
      change (@nil Z) with (@nil Z ++ []). eapply console_step_trans; [|exact Hst2].
      destruct Hst1 as [H1 H2]. by constructor.
    + destruct (shows_cell s t color c Hrf) as [Hw Ho]. apply wp_bind, wp_modify, wp_modify. cbn [app].
      set (s0 := put_cell c color s) in *.
      destruct (advance_cursor s0 (t_write color c t)) as (Hr1 & Hc1 & Hv1 & Hh1); [done|done|].
      destruct (t_advance_range (t_write color c t)) as [Ha1 Ha2]; [done|].
      eapply scroll_if_needed_wp with (t := t_advance (t_write color c t)); [|done|done|done|done|].
      { rewrite Hv1. unfold t_advance. case_bool_decide; by apply shows_goto. }
      intros s1 Hrf1 Hst1. cbn [app]. eapply IH; [done|]. intros s2 Hrf2 Hst2. apply HQ; [done|].
      change (@nil Z) with (@nil Z ++ []). eapply console_step_trans; [|exact Hst2].
      destruct Hst1 as [H1 H2]. constructor; [by rewrite H1, Hh1|]. rewrite Hv1 in H2. by etrans.
Qed.

Lemma print_colored_wp color l s t Q :
  refines s t ->
  (forall s', refines s' (fold_left (term_colored color) (c_string l) t) -> console_step s s' [] ->
     cursor_shown s' = 80 * cursor_row s' + cursor_col s' -> Q tt s' []) ->
  wp (print_colored l color) s Q.
Proof.
  intros Hrf HQ. unfold print_colored. apply wp_bind. eapply colored_chars_wp; [done|]. intros s1 Hrf1 Hst1.
  cbn [app]. eapply update_cursor_wp; [done|]. intros s2 Hrf2 Hst2 Hcur. apply HQ; [done| |].
  - change (@nil Z) with (@nil Z ++ []). by eapply console_step_trans.
  - rewrite Hcur, (rf_row _ _ Hrf2), (rf_col _ _ Hrf2). lia.
Qed.

(** The cleared terminal. *)
Definition cleared : term := {| cell := fun _ _ => blank; t_row := 0; t_col := 0 |}.

Lemma clear_get v o :
  vget (for_ 0 (80 * 25) (fun i v => vset (i * 2 + 1) 0x0F (vset (i * 2) 32 v)) v) o
  = if (0 <=? o) && (o <? 4000) then (if o mod 2 =? 0 then 32 else 0x0F) else vget v o.
Proof.
  assert (Hi : forall o, vget (for_ 0 (80 * 25) (fun i v => vset (i * 2 + 1) 0x0F (vset (i * 2) 32 v)) v) o
    = if (0 <=? o) && (o <? 2 * (80 * 25)) then (if o mod 2 =? 0 then 32 else 0x0F) else vget v o); [|apply Hi].
  apply (for_inv (fun i w => forall o, vget w o
      = if (0 <=? o) && (o <? 2 * i) then (if o mod 2 =? 0 then 32 else 0x0F) else vget v o)); [lia| |].
  - intros x. by replace ((0 <=? x) && (x <? 2 * 0)) with false by lia.
  - intros i w Hil Hw x. rewrite !vget_vset, Hw.
    destruct (decide (x = i * 2 + 1)) as [->|N1].
    + rewrite bool_decide_true by done. replace ((0 <=? i * 2 + 1) && _) with true by lia.
      by replace ((i * 2 + 1) mod 2 =? 0) with false by word.
    + rewrite bool_decide_false by done. case_bool_decide as N2.
      * subst x. replace ((0 <=? i * 2) && _) with true by lia. by replace ((i * 2) mod 2 =? 0) with true by word.
      * by replace ((0 <=? x) && (x <? 2 * (i + 1))) with ((0 <=? x) && (x <? 2 * i)) by lia.
Qed.

Lemma clear_screen_wp s Q :
  (forall o, is_u8 (vget (video s) o)) ->
  (forall s', refines s' cleared -> console_step s s' [] -> Q tt s' []) -> wp clear_screen s Q.
Proof.
  intros Hu HQ. unfold clear_screen. apply wp_modify. cbv zeta.
  set (v := for_ 0 (80 * 25) _ (video s)).
  assert (Hv : forall o, vget v o = if (0 <=? o) && (o <? 4000) then (if o mod 2 =? 0 then 32 else 0x0F) else vget (video s) o)
    by apply clear_get. clearbody v.
  apply HQ.
  - constructor; [constructor|done|done|split; cbn; lia].
    + intros o. cbn [video set_cursor set_video]. rewrite Hv. repeat case_match; try apply Hu; unfold is_u8; lia.
    + intros r c [H1 H2]. cbn [video set_cursor set_video]. rewrite !Hv.
      replace ((0 <=? (80 * r + c) * 2) && _) with true by lia.
      replace ((0 <=? (80 * r + c) * 2 + 1) && _) with true by lia.
      replace (((80 * r + c) * 2) mod 2 =? 0) with true by word.
      by replace (((80 * r + c) * 2 + 1) mod 2 =? 0) with false by word.
  - constructor; [by rewrite app_nil_r|]. intros o Ho. cbn [video set_cursor set_video]. rewrite Hv.
    by replace ((0 <=? o) && (o <? 4000)) with false by lia.
Qed.

(** ** Sequences of calls *)
Definition term_event (t : term) (e : event) : term :=
  match e with
  | Print l => fold_left term_char (c_string l) t
  | PrintInt n => fold_left (fun t l => fold_left term_char (c_string l) t) (int_strings n) t
  | PrintHex n => fold_left (fun t l => fold_left term_char (c_string l) t) (hex_strings n) t
  | PrintColored l color => fold_left (term_colored color) (c_string l) t
  | ClearScreen => cleared
  | InitSerial | EnableCursor _ _ => t
  end.

Lemma print_all_wp ls s t Q :
  refines s t ->
  (forall s', refines s' (fold_left (fun t l => fold_left term_char (c_string l) t) ls t) ->
     outside_same (video s) (video s') -> Q tt s' []) ->
  wp (print_all fuel ls) s Q.
Proof.
  revert s t Q. induction ls as [|l ls IH]; intros s t Q Hrf HQ; cbn [print_all].
  - apply wp_ret. by apply HQ.
  - apply wp_bind. eapply print_wp; [done|]. intros s1 Hrf1 Hst1 _. cbn [app].
    eapply IH; [done|]. intros s2 Hrf2 Ho. apply HQ; [done|]. etrans; [apply Hst1|done].
Qed.

Lemma run_event_wp e s t Q :
  refines s t ->
  (forall s', refines s' (term_event t e) -> outside_same (video s) (video s') -> Q tt s' []) ->
  wp (run_event fuel e) s Q.
Proof.
  intros Hrf HQ. destruct e as [l|n|n|l color| | |a b]; cbn [run_event term_event] in *.
  - eapply print_wp; [done|]. intros s' H1 H2 _. apply HQ; [done|apply H2].
  - eapply print_all_wp; [done|]. done.
  - eapply print_all_wp; [done|]. done.
  - eapply print_colored_wp; [done|]. intros s' H1 H2 _. apply HQ; [done|apply H2].
  - apply clear_screen_wp; [apply Hrf|]. intros s' H1 H2. apply HQ; [done|apply H2].
  - apply wp_modify, HQ; [|done]. by destruct Hrf.
  - unfold enable_cursor. apply wp_modify. repeat case_match. apply HQ; [|done]. by destruct Hrf.
Qed.

Lemma run_events_wp es s t Q :
  refines s t ->
  (forall s', refines s' (fold_left term_event es t) -> outside_same (video s) (video s') -> Q tt s' []) ->
  wp (run_events fuel es) s Q.
Proof.
  revert s t Q. induction es as [|e es IH]; intros s t Q Hrf HQ; cbn [run_events].
  - apply wp_ret. by apply HQ.
  - apply wp_bind. eapply run_event_wp; [done|]. intros s1 Hrf1 Ho1. cbn [app].
    eapply IH; [done|]. intros s2 Hrf2 Ho2. apply HQ; [done|]. by etrans.
Qed.

(** C12: print refines the abstract terminal: from a cursor inside the screen it terminates, the window shows the terminal after each character up to the NUL (written cell, newline, backspace, wrap, scroll), the cursor stays inside the screen and is what the CRT controller shows, the text is echoed on the serial line without backspaces, and no byte outside the 4000 of the window is written. *)
Theorem print_refines msg s t :
  refines s t ->
  wp (print fuel msg) s (fun _ s' _ =>
    refines s' (fold_left term_char (c_string msg) t) /\
    sent (hw s') = sent (hw s) ++ echo (c_string msg) /\
    cursor_shown s' = 80 * cursor_row s' + cursor_col s' /\
    outside_same (video s) (video s')).
Proof. intros Hrf. eapply print_wp; [done|]. by intros s' H1 [H2 H3] H4. Qed.

(** C32: whatever the kernel prints, the console stays in a good state: any sequence of console calls terminates, leaves the window as the abstract terminal has it with the cursor inside the screen, and writes nothing outside the window. *)
Theorem console_total es s t :
  refines s t ->
  wp (run_events fuel es) s (fun _ s' _ =>
    refines s' (fold_left term_event es t) /\ outside_same (video s) (video s')).
Proof. intros Hrf. by eapply run_events_wp. Qed.

(** clear_screen blanks all 2000 cells, homes the cursor and touches nothing else, from any cursor position. *)
Theorem clear_screen_spec s :
  (forall o, is_u8 (vget (video s) o)) ->
  wp clear_screen s (fun _ s' _ => refines s' cleared /\ hw s' = hw s /\ outside_same (video s) (video s')).
Proof.
  intros Hu. assert (Hw : wp clear_screen s (fun _ s' _ => refines s' cleared /\ outside_same (video s) (video s'))).
  { apply clear_screen_wp; [done|]. by intros s' ? [_ ?]. }
  destruct Hw as [H1 H2]. split_and!; [exact H1|done|exact H2].
Qed.
End Console.

(** ** Numbers *)

(** The value of a sequence of decimal digits, and of a number with a sign. *)
Fixpoint dec_value (l : list Z) (acc : Z) : Z :=
  match l with [] => acc | c :: l' => dec_value l' (10 * acc + (c - 48)) end.

Definition int_value (l : list Z) : Z :=
  match l with
  | c :: l' => if bool_decide (c = 45) then - dec_value l' 0 else dec_value l 0
  | [] => 0
  end.

Definition is_digit (c : Z) : Prop := 48 <= c <= 57.

Lemma dec_value_app l1 l2 acc : dec_value (l1 ++ l2) acc = dec_value l2 (dec_value l1 acc).
Proof. revert acc. induction l1 as [|c l1 IH]; intros acc; [done|]. apply IH. Qed.

Lemma int_digits_value n num :
  0 <= num < 10 ^ Z.of_nat n ->
  dec_value (rev (int_digits n num)) 0 = num /\ Forall is_digit (int_digits n num) /\
  (0 < num -> int_digits n num <> []).
Proof.
  revert num. induction n as [|n IH]; intros num Hn; cbn [int_digits].
  - cbn in Hn. split_and!; [cbn; lia|done|lia].
  - case_bool_decide as Hpos; [|split_and!; [cbn; lia|done|lia]].
    rewrite Nat2Z.inj_succ, Z.pow_succ_r in Hn by lia.
    destruct (IH (num / 10)) as (Hv & Hd & _); [split; [apply Z.div_pos; lia|apply Z.div_lt_upper_bound; lia]|].
    split_and!; [|constructor; [unfold is_digit; word|done]|done].
    cbn [rev]. rewrite dec_value_app, Hv. cbn [dec_value]. word.
Qed.

Lemma concat_singletons (l : list Z) : concat ((fun d => [d]) <$> l) = l.
Proof. induction l as [|x l IH]; [done|]. cbn. by rewrite IH. Qed.

(** print_int prints the decimal representation of every int except the least one: the characters it prints read back as the number; for -2147483648 the negation overflows and only the sign is printed. *)
Theorem print_int_value num :
  - 0x80000000 <= num < 0x80000000 ->
  if bool_decide (num = - 0x80000000) then concat (int_strings num) = str "-"
  else int_value (concat (int_strings num)) = num.
Proof.
  intros Hn. case_bool_decide as Hmin; [subst; by vm_compute|]. unfold int_strings.
  case_bool_decide as H0; [subst; by vm_compute|]. cbv zeta. rewrite concat_app, concat_singletons.
  assert (Hi : forall m, 0 < m < 0x80000000 -> i32 m = m).
  { intros m Hm. unfold i32. rewrite u32_small by (unfold is_u32; lia). cbv zeta. by rewrite bool_decide_true by lia. }
  case_bool_decide as Hneg.
  - rewrite Hi by lia. destruct (int_digits_value 16 (- num)) as (Hv & _); [cbn; lia|].
    change (concat [str "-"]) with [45]. cbn [app int_value]. rewrite bool_decide_true, Hv by done. lia.
  - destruct (int_digits_value 16 num) as (Hv & Hd & Hne); [cbn; lia|]. cbn [concat app].
    rewrite <- Hv at 2. destruct (rev (int_digits 16 num)) as [|c l] eqn:E; [done|].
    cbn [int_value]. rewrite bool_decide_false; [done|].
    intros ->. rewrite Forall_forall in Hd. assert (45 ∈ int_digits 16 num) as Hin.
    { apply list_elem_of_In, in_rev. rewrite E. by left. }
    specialize (Hd 45 Hin). unfold is_digit in Hd. lia.
Qed.

Lemma print_int_value_witness : int_value (concat (int_strings (-1205))) = -1205.
Proof. exact (print_int_value (-1205) ltac:(lia)). Defined.

Definition hex_digit (c : Z) : Z := if bool_decide (c <= 57) then c - 48 else c - 55.

Fixpoint hex_value (l : list Z) (acc : Z) : Z :=
  match l with [] => acc | c :: l' => hex_value l' (16 * acc + hex_digit c) end.

Lemma hex_chars_digit d : 0 <= d < 16 -> hex_digit (at_ hex_chars d) = d.
Proof.
  intros Hd. assert (Hin : d ∈ seqZ 0 16) by (apply elem_of_seqZ; lia). clear Hd.
  change (d ∈ [0; 1; 2; 3; 4; 5; 6; 7; 8; 9; 10; 11; 12; 13; 14; 15]) in Hin.
  repeat (apply elem_of_cons in Hin as [->|Hin]; [vm_compute; reflexivity|]). by apply not_elem_of_nil in Hin.
Qed.

Lemma hex_nibble num k j : 0 <= k -> j = k + 4 ->
  16 * (num / 2 ^ j) + hex_digit (at_ hex_chars (Z.land (Z.shiftr num k) 0xF)) = num / 2 ^ k.
Proof.
  intros Hk ->. change 0xF with (Z.ones 4). rewrite Z.land_ones, Z.shiftr_div_pow2 by lia.
  rewrite hex_chars_digit by (apply Z.mod_pos_bound; lia). rewrite Z.pow_add_r by lia.
  rewrite <- Z.div_div by (try apply Z.pow_nonzero; try apply Z.pow_pos_nonneg; lia).
  change (2 ^ 4) with 16. word.
Qed.

(** print_hex prints "0X" and eight hexadecimal digits that read back as the number, for every 32-bit number. *)
Theorem print_hex_value num :
  is_u32 num ->
  exists digits, concat (hex_strings num) = str "0X" ++ digits /\ length digits = 8%nat /\ hex_value digits 0 = num.
Proof.
  intros Hn. eexists. split; [|split].
  - unfold hex_strings. cbn [concat]. f_equal.
  - reflexivity.
  - cbn [fmap list_fmap concat app hex_value]. replace (16 * 0) with (16 * (num / 2 ^ 32)).
    2:{ unfold is_u32 in Hn. change (2 ^ 32) with 0x100000000. by rewrite Z.div_small. }
    rewrite (hex_nibble num 28 32), (hex_nibble num 24 28), (hex_nibble num 20 24), (hex_nibble num 16 20),
      (hex_nibble num 12 16), (hex_nibble num 8 12), (hex_nibble num 4 8), (hex_nibble num 0 4) by lia.
    by rewrite Z.div_1_r.
Qed.

Lemma print_hex_value_witness :
  exists digits, concat (hex_strings 3735928559) = str "0X" ++ digits /\ length digits = 8%nat /\
    hex_value digits 0 = 3735928559.
Proof. apply (print_hex_value 3735928559). unfold is_u32. lia. Defined.

(** ** Editing *)

(** the line editor's erase sequence (backspace, space, backspace) undoes a typed character: unless the character scrolled the screen, the cursor returns to where it was and only that cell is changed, to a space. *)
Theorem erase_undoes_char t c :
  in_screen (t_row t) (t_col t) -> c <> 10 -> c <> 8 -> ~ (t_row t = 24 /\ t_col t = 79) ->
  let t' := fold_left term_char [8; 32; 8] (term_char t c) in
  t_row t' = t_row t /\ t_col t' = t_col t /\
  cell t' (t_row t) (t_col t) = (32, 0x6F) /\
  forall r k, ~ (r = t_row t /\ k = t_col t) -> cell t' r k = cell t r k.
Proof.
  intros [Hr Hc] Hc10 Hc8 Hlast. cbn [fold_left].
  assert (Hput : forall u ch, t_row u = t_row t -> t_col u = t_col t -> ch <> 10 -> ch <> 8 ->
    term_char u ch = t_advance (t_write 0x6F ch u)).
  { intros u ch Hur Huc H10 H8. unfold term_char. rewrite !bool_decide_false by done. unfold t_scroll.
    rewrite bool_decide_false; [done|]. unfold t_advance. cbn [t_col t_row t_write]. rewrite Huc, Hur.
    case_bool_decide; cbn [t_row t_goto t_write]; lia. }
  assert (Hback : forall u, t_row u = t_row t -> t_col u = t_col t ->
    t_row (term_char (t_advance u) 8) = t_row t /\ t_col (term_char (t_advance u) 8) = t_col t /\
    cell (term_char (t_advance u) 8) = cell u).
  { intros u Hur Huc. unfold term_char. rewrite bool_decide_false, bool_decide_true by done.
    unfold t_advance. rewrite Huc, Hur. unfold t_back, t_scroll.
    repeat (case_bool_decide; cbn [t_row t_col cell t_goto] in *; try lia).
    all: split_and!; [lia|lia|done]. }
  rewrite (Hput t c) by done. set (u1 := term_char (t_advance (t_write 0x6F c t)) 8).
  destruct (Hback (t_write 0x6F c t) eq_refl eq_refl) as (R1 & C1 & E1). fold u1 in R1, C1, E1.
  rewrite (Hput u1 32) by done.
  destruct (Hback (t_write 0x6F 32 u1) R1 C1) as (R2 & C2 & E2).
  split_and!; [done|done| |].
  - rewrite E2. cbn [cell t_write]. rewrite R1, C1. by rewrite bool_decide_true.
  - intros r k Hne. rewrite E2. cbn [cell t_write]. rewrite R1, C1, bool_decide_false by done. rewrite E1.
    cbn [cell t_write]. by rewrite bool_decide_false.
Qed.

Lemma erase_undoes_char_witness :
  let t := {| cell := fun _ _ => blank; t_row := 3; t_col := 79 |} in
  t_row (fold_left term_char [8; 32; 8] (term_char t 65)) = 3.
Proof.
  apply (erase_undoes_char {| cell := fun _ _ => blank; t_row := 3; t_col := 79 |} 65);
    [split; cbn; lia|lia|lia|cbn; lia].
Defined.

(** ** A console without hardware delays *)
Record uart := { u_sent : list Z; u_index : Z; u_regs : gmap Z Z }.

Definition uart_out (port d : Z) (u : uart) : uart :=
  if bool_decide (port = 0x3F8) then {| u_sent := u_sent u ++ [d]; u_index := u_index u; u_regs := u_regs u |}
  else if bool_decide (port = 0x3D4) then {| u_sent := u_sent u; u_index := d; u_regs := u_regs u |}
  else if bool_decide (port = 0x3D5)
  then {| u_sent := u_sent u; u_index := u_index u; u_regs := <[u_index u := d]> (u_regs u) |}
  else u.

#[local] Instance uart_ports : Ports uart := {
  in_al port u := (0x20, u); out_al := uart_out; in_ax port u := (0, u); out_ax port d u := u;
}.

#[local, refine] Instance uart_console : ConsoleHw uart := {
  sent := u_sent; thr_wait _ := O; max_wait := O; crtc_index := u_index;
  crtc_reg u r := default 0 (u_regs u !! r);
}.
Proof.
  - done.
  - done.
  - intros h _. done.
  - intros h c _. done.
  - done.
  - intros h i. done.
  - intros h v. split_and!; [done|done|]. intros r. cbn. case_bool_decide as E.
    + subst r. change (default 0 (<[u_index h := u8 v]> (u_regs h) !! u_index h) = u8 v). by rewrite lookup_insert_eq.
    + change (default 0 (<[u_index h := u8 v]> (u_regs h) !! r) = default 0 (u_regs h !! r)).
      by rewrite lookup_insert_ne by congruence.
Defined.

Definition demo_screen : screen uart := {|
  video := ∅; cursor_row := 24; cursor_col := 79; hw := {| u_sent := []; u_index := 0; u_regs := ∅ |} |}.

Definition demo_term : term := {| cell := fun _ _ => (0, 0); t_row := 24; t_col := 79 |}.

Lemma demo_refines : refines demo_screen demo_term.
Proof. constructor; [constructor|done|done|split; cbn; lia]; intros.
  - change (is_u8 0). unfold is_u8. lia.
  - reflexivity.
Qed.

Lemma print_refines_witness :
  exists s' o, print 1 (str "Hi") demo_screen = Done (tt, s', o) /\ sent (hw s') = str "Hi".
Proof.
  destruct (wp_inv _ _ _ (print_refines (str "Hi") demo_screen demo_term demo_refines))
    as ([] & s' & o & E & _ & Hs & _).
  exists s', o. split; [exact E|]. rewrite Hs. reflexivity.
Defined.

Lemma console_total_witness :
  exists s' o, run_events 1 [Print (str "x"); PrintInt 7; PrintHex 10] demo_screen = Done (tt, s', o).
Proof.
  destruct (wp_inv _ _ _ (console_total [Print (str "x"); PrintInt 7; PrintHex 10] demo_screen demo_term demo_refines))
    as ([] & s' & o & E & _).
  exists s', o. exact E.
Defined.

Lemma clear_screen_spec_witness :
  exists s' o, clear_screen demo_screen = Done (tt, s', o) /\ refines s' cleared.
Proof.
  destruct (wp_inv _ _ _ (clear_screen_spec demo_screen (sh_u8 _ _ (rf_shows _ _ demo_refines))))
    as ([] & s' & o & E & Hr & _).
  exists s', o. split; [exact E|exact Hr].
Defined.
