(* ===== verification/TarFs.v ===== *)
(** * fs.c: the initial RAM disk

    A read-only tar archive in the address space [St] the kernel runs in: every
    character of a header and of a file is a load there, which faults where the
    page is not mapped. *)
From Stdlib Require Import ZArith Lia ZifyBool String.
From stdpp Require Import base numbers list gmap.
From S2P Require Import Prelude Mem.

(** Offsets of the fields of [struct tar_header] the code reads. *)
Definition tar_filename : Z := 0.

Definition tar_size : Z := 124.

Record tarfs (St : Type) := { fs_mem : St; initrd_address : Z }.
Arguments fs_mem {St} _. Arguments initrd_address {St} _.

Definition init_fs {St} (tar_address : Z) : M (tarfs St) unit :=
  mmodify (fun s => {| fs_mem := fs_mem s; initrd_address := tar_address |});;
  emit (Print (str "File system loaded at: "));;
  emit (PrintHex tar_address);;
  emit (Print [10]).

(** One round of the loop: a character that is not an octal digit is skipped. *)
Definition octal_step (size c : Z) : Z :=
  if bool_decide (48 <= c <= 55) then u32 (u32 (size * 8) + (c - 48)) else size.

Definition parse_octal (s : CString.source) (max_len : Z) : outcome Z :=
  for_ 0 max_len (fun i o => size ← o; c ← s i; Done (octal_step size c)) (Done 0).

(** The characters [print] walks over: up to the terminator. *)
Fixpoint chars_from (fuel : nat) (r : CString.source) (i : Z) : outcome (list Z) :=
  match fuel with
  | O => Spin
  | S fuel' =>
      c ← r i;
      if bool_decide (c = 0) then Done []
      else l ← chars_from fuel' r (i + 1); Done (c :: l)
  end.

Definition padded_size (file_size : Z) : Z :=
  if bool_decide (file_size mod 512 = 0) then file_size else u32 (file_size + (512 - file_size mod 512)).

(** [current_addr += 512; current_addr += padded_size] *)
Definition next_header (addr file_size : Z) : Z := u32 (u32 (addr + 512) + padded_size file_size).

Section Loops.
Context {St : Type} `{AddrSpace St}.

(** Bound on the characters of one string. *)
Context (chars : nat).

(** The fields of the header at [addr]. *)
Definition field (s : St) (addr offset : Z) : CString.source := fun i => ld8 (u32 (addr + offset + i)) s.

Definition file_size_at (s : St) (addr : Z) : outcome Z := parse_octal (field s addr tar_size) 11.

(** The [while(1)] of [tar_ls]. *)
Fixpoint ls_from (fuel : nat) (current_addr : Z) : M (tarfs St) unit :=
  match fuel with
  | O => spin
  | S fuel' =>
      s ← mget;
      let name := field (fs_mem s) current_addr tar_filename in
      c ← lift (name 0);
      if bool_decide (c = 0) then mret tt
      else
        file_size ← lift (file_size_at (fs_mem s) current_addr);
        filename ← lift (chars_from chars name 0);
        emit (Print filename);;
        emit (Print (str " ("));;
        emit (PrintInt (i32 file_size));;
        emit (Print (str " bytes)  "));;
        ls_from fuel' (next_header current_addr file_size)
  end.

Definition tar_ls (fuel : nat) : M (tarfs St) unit :=
  s ← mget;
  if bool_decide (initrd_address s = 0) then mret tt
  else ls_from fuel (initrd_address s);; emit (Print [10]).

(** [for (i = 0; i < file_size; i++)]: one [print] for each character. *)
Fixpoint cat_chars (n : nat) (p : Z) : M (tarfs St) unit :=
  match n with
  | O => mret tt
  | S n' =>
      s ← mget;
      c ← lift (ld8 (u32 p) (fs_mem s));
      emit (Print (c_string [c; 0]));;
      cat_chars n' (p + 1)
  end.

Fixpoint cat_from (fuel : nat) (filename : CString.source) (current_addr : Z) : M (tarfs St) unit :=
  match fuel with
  | O => spin
  | S fuel' =>
      s ← mget;
      let name := field (fs_mem s) current_addr tar_filename in
      c ← lift (name 0);
      if bool_decide (c = 0) then emit (Print (str "File not found." ++ [10]))
      else
        file_size ← lift (file_size_at (fs_mem s) current_addr);
        cmp ← lift (CString.strcmp chars name filename);
        if bool_decide (cmp = 0) then
          cat_chars (Z.to_nat file_size) (u32 (current_addr + 512));;
          emit (Print [10])
        else cat_from fuel' filename (next_header current_addr file_size)
  end.

Definition tar_cat (fuel : nat) (filename : CString.source) : M (tarfs St) unit :=
  s ← mget;
  if bool_decide (initrd_address s = 0) then mret tt
  else cat_from fuel filename (initrd_address s).
End Loops.
