(* ===== verification/TarFsSpec.v ===== *)
(** * Properties of the initial RAM disk

    An archive of files is laid out in memory as tar prescribes ([archive]):
    listing and printing behave as the list of files says, and a header whose
    size makes the walk wrap around stops neither. *)
From Stdlib Require Import ZArith Lia ZifyBool String.
From stdpp Require Import base numbers list gmap.
From S2P Require Import Prelude Mem TarFs.

(** ** Octal sizes *)

(** The [n] low octal digits of [v], most significant first. *)
Fixpoint octal (n : nat) (v : Z) : list Z :=
  match n with O => [] | S n' => octal n' (v / 8) ++ [48 + v mod 8] end.

Lemma parse_octal_fold (s : CString.source) l :
  (forall i c, l !! i = Some c -> s (Z.of_nat i) = Done c) ->
  parse_octal s (Z.of_nat (length l)) = Done (fold_left octal_step l 0).
Proof.
  intros Hl. unfold parse_octal.
  pose (P := fun k o => o = Done (fold_left octal_step (take (Z.to_nat k) l) 0)).
  assert (H : P (Z.of_nat (length l)) (for_ 0 (Z.of_nat (length l))
    (fun i o => size ← o; c ← s i; Done (octal_step size c)) (Done 0))).
  { apply for_inv; unfold P; [lia|done|]. intros i o Hi ->. cbn [mbind outcome_bind].
    destruct (lookup_lt_is_Some_2 l (Z.to_nat i)) as [c Hc]; [lia|].
    pose proof (Hl _ _ Hc) as Hs. rewrite Z2Nat.id in Hs by lia. rewrite Hs. cbn [mbind outcome_bind].
    replace (Z.to_nat (i + 1)) with (S (Z.to_nat i)) by lia.
    by rewrite (take_S_r _ _ c), fold_left_app by done. }
  unfold P in H. by rewrite Nat2Z.id, firstn_all in H.
Qed.

Lemma fold_octal n v : 0 <= v < 8 ^ Z.of_nat n -> is_u32 v -> fold_left octal_step (octal n v) 0 = v.
Proof.
  revert v. induction n as [|n IH]; intros v Hv H32.
  - change (8 ^ Z.of_nat 0) with 1 in Hv. cbn. lia.
  - cbn [octal]. rewrite fold_left_app. rewrite Nat2Z.inj_succ, Z.pow_succ_r in Hv by lia.
    unfold is_u32 in *. rewrite IH by (Z.to_euclidean_division_equations; lia).
    cbn [fold_left]. unfold octal_step. rewrite bool_decide_true by word. word.
Qed.

Lemma length_octal n v : length (octal n v) = n.
Proof. revert v. induction n as [|n IH]; intros v; [done|]. cbn. rewrite length_app, IH. cbn. lia. Qed.

(** ** Archives *)
Record file := { f_name : list Z; f_data : list Z }.

Definition pad512 (n : Z) : Z := (n + 511) / 512 * 512.

Section Archive.
Context {St : Type} `{AddrSpace St}.

(** The header and the data of one file at [addr]: every byte of them can be
    loaded. *)
Record file_at (m : St) (addr : Z) (f : file) : Prop := {
  fa_name : CString.cstr (field m addr tar_filename) (f_name f);
  fa_size : forall i c, octal 11 (Z.of_nat (length (f_data f))) !! i = Some c ->
              field m addr tar_size (Z.of_nat i) = Done c;
  fa_data : forall i c, f_data f !! i = Some c -> ld8 (u32 (addr + 512 + Z.of_nat i)) m = Done c;
}.

Definition file_ok (f : file) : Prop :=
  f_name f <> [] /\ (length (f_name f) <= 100)%nat /\ Forall (fun c => 0 < c) (f_name f).

Fixpoint archive (m : St) (addr : Z) (fs : list file) : Prop :=
  match fs with
  | [] => ld8 (u32 addr) m = Done 0
  | f :: fs' =>
      file_ok f /\ file_at m addr f /\
      addr + 512 + pad512 (Z.of_nat (length (f_data f))) < 0x100000000 /\
      archive m (addr + 512 + pad512 (Z.of_nat (length (f_data f)))) fs'
  end.

(** What the listing prints. *)
Definition listing (fs : list file) : list event :=
  fs ≫= fun f => [Print (f_name f); Print (str " ("); PrintInt (i32 (Z.of_nat (length (f_data f))));
                  Print (str " bytes)  ")].

Fixpoint find_file (name : list Z) (fs : list file) : option file :=
  match fs with
  | [] => None
  | f :: fs' => if decide (f_name f = name) then Some f else find_file name fs'
  end.

Lemma file_size_ok m addr f :
  file_at m addr f -> 0 <= addr -> addr + 512 + pad512 (Z.of_nat (length (f_data f))) < 0x100000000 ->
  file_size_at m addr = Done (Z.of_nat (length (f_data f))).
Proof.
  intros [_ Hs _] Ha Hfit. unfold file_size_at.
  pose proof (parse_octal_fold _ _ Hs) as E. rewrite length_octal in E. change (Z.of_nat 11) with 11 in E.
  rewrite E. f_equal. assert (H32 : Z.of_nat (length (f_data f)) < 0x100000000) by (unfold pad512 in Hfit; word).
  apply fold_octal; [|unfold is_u32; lia]. change (8 ^ Z.of_nat 11) with 8589934592. lia.
Qed.

Lemma next_header_ok addr n :
  0 <= addr -> 0 <= n -> addr + 512 + pad512 n < 0x100000000 -> next_header addr n = addr + 512 + pad512 n.
Proof.
  intros Ha Hn. unfold next_header, padded_size, pad512. intros Hfit. case_bool_decide; word.
Qed.

Lemma chars_from_ok fuel r i l :
  CString.cstr (fun k => r (i + k)) l -> (length l < fuel)%nat -> chars_from fuel r i = Done l.
Proof.
  revert i l. induction fuel as [|fuel IH]; intros i l Hl Hf; [lia|]. cbn [chars_from].
  destruct l as [|c l].
  - apply CString.cstr_nil in Hl. rewrite Z.add_0_r in Hl. rewrite Hl. cbn [mbind outcome_bind]. by rewrite bool_decide_true.
  - apply CString.cstr_cons in Hl as (Hc & Hr & Hl). rewrite Z.add_0_r in Hr. rewrite Hr. cbn [mbind outcome_bind].
    rewrite bool_decide_false by congruence. rewrite (IH (i + 1) l); [done| |cbn in Hf; lia].
    unfold CString.shift in Hl. destruct Hl as [H1 H2]. split; [|rewrite <- H2; f_equal; lia].
    intros k d Hd. destruct (H1 k d Hd) as [? <-]. split; [done|]. f_equal. lia.
Qed.

Lemma name_first m addr f :
  file_ok f -> file_at m addr f -> exists c, field m addr tar_filename 0 = Done c /\ c <> 0.
Proof.
  intros [Hne _] [Hn _ _]. destruct (f_name f) as [|c l] eqn:E; [done|].
  apply CString.cstr_cons in Hn as (Hc & Hr & _). by exists c.
Qed.

Lemma field_0 m addr : field m addr tar_filename 0 = ld8 (u32 addr) m.
Proof. unfold field, tar_filename. do 2 f_equal. lia. Qed.

(** ** Listing *)
Lemma ls_from_wp chars fuel fs addr s Q :
  (101 <= chars)%nat -> (length fs < fuel)%nat -> 0 <= addr -> archive (fs_mem s) addr fs ->
  Q tt s (listing fs) -> wp (ls_from chars fuel addr) s Q.
Proof.
  intros Hch. revert fuel addr Q. induction fs as [|f fs IH]; intros [|fuel] addr Q Hf Ha Har HQ; cbn in Hf; try lia;
    cbn [ls_from]; apply wp_bind, wp_get; cbv beta zeta.
  - cbn [archive] in Har. apply wp_bind, (wp_lift 0); [by rewrite field_0|].
    rewrite bool_decide_true by done. by apply wp_ret.
  - destruct Har as (Hok & Hat & Hfit & Hrest). destruct (name_first _ _ f Hok Hat) as (c & Hc & Hc0).
    apply wp_bind, (wp_lift c); [done|]. rewrite bool_decide_false by done.
    apply wp_bind, (wp_lift (Z.of_nat (length (f_data f)))); [by apply file_size_ok|].
    rewrite next_header_ok by (lia || done).
    apply wp_bind, (wp_lift (f_name f)).
    { apply chars_from_ok; [apply Hat|]. destruct Hok as (_ & ? & _). lia. }
    do 4 apply wp_bind, wp_emit. apply IH; [lia|unfold pad512; word|done|]. exact HQ.
Qed.

Lemma tar_ls_wp chars fuel fs s :
  (101 <= chars)%nat -> (length fs < fuel)%nat -> 0 < initrd_address s ->
  archive (fs_mem s) (initrd_address s) fs ->
  wp (tar_ls chars fuel) s (fun _ s' o => s' = s /\ o = listing fs ++ [Print [10]]).
Proof.
  intros Hc Hf Ha Har. unfold tar_ls. apply wp_bind, wp_get. cbv beta zeta.
  rewrite bool_decide_false by lia. apply wp_bind, ls_from_wp with (fs := fs); [done|done|lia|done|].
  apply wp_emit. done.
Qed.

(** on an archive of any list of files, tar_ls terminates and prints every file's name and size, in order, and nothing else. *)
Theorem tar_ls_spec chars fuel fs s :
  (101 <= chars)%nat -> (length fs < fuel)%nat -> 0 < initrd_address s ->
  archive (fs_mem s) (initrd_address s) fs ->
  wp (tar_ls chars fuel) s (fun _ s' o => s' = s /\ o = listing fs ++ [Print [10]]).
Proof. apply tar_ls_wp. Qed.

(** ** Printing a file *)
Lemma cat_chars_wp l p s Q :
  (forall i c, l !! i = Some c -> ld8 (u32 (p + Z.of_nat i)) (fs_mem s) = Done c) ->
  Q tt s ((fun c => Print (c_string [c])) <$> l) -> wp (cat_chars (length l) p) s Q.
Proof.
  revert p Q. induction l as [|c l IH]; intros p Q Hl HQ; cbn [length cat_chars].
  - by apply wp_ret.
  - apply wp_bind, wp_get. cbv beta zeta. apply wp_bind, (wp_lift c).
    { rewrite <- (Hl O c eq_refl). do 2 f_equal. lia. }
    apply wp_bind, wp_emit. apply IH.
    + intros i d Hd. rewrite <- (Hl (Datatypes.S i) d Hd). do 2 f_equal. lia.
    + change [c; 0] with ([c] ++ [0]). rewrite c_string_snoc. exact HQ.
Qed.

Lemma strcmp_eq chars r1 r2 x y :
  CString.cstr r1 x -> CString.cstr r2 y -> (length x < chars)%nat ->
  Forall (fun c => 0 < c) x -> Forall (fun c => 0 < c) y ->
  exists c, CString.strcmp chars r1 r2 = Done c /\ (c = 0 <-> x = y).
Proof.
  intros Hx Hy Hl Px Py. rewrite Forall_forall in Px, Py.
  destruct (CString.strcmp_from_spec chars r1 r2 x y) as (c & E & H0 & _); [done..|]. by exists c.
Qed.

Definition cat_output (f : option file) : list event :=
  match f with
  | Some f => ((fun c => Print (c_string [c])) <$> f_data f) ++ [Print [10]]
  | None => [Print (str "File not found." ++ [10])]
  end.

Lemma cat_from_wp chars fuel fs name r addr s Q :
  (101 <= chars)%nat -> (length fs < fuel)%nat -> 0 <= addr -> archive (fs_mem s) addr fs ->
  CString.cstr r name -> Forall (fun c => 0 < c) name ->
  Q tt s (cat_output (find_file name fs)) -> wp (cat_from chars fuel r addr) s Q.
Proof.
  intros Hch Hfu Ha Har Hr Hp. revert fuel addr Q Hfu Ha Har.
  induction fs as [|f fs IH]; intros [|fuel] addr Q Hf Ha Har HQ; cbn in Hf; try lia;
    cbn [cat_from]; apply wp_bind, wp_get; cbv beta zeta.
  - cbn [archive] in Har. apply wp_bind, (wp_lift 0); [by rewrite field_0|].
    rewrite bool_decide_true by done. by apply wp_emit.
  - destruct Har as (Hok & Hat & Hfit & Hrest). destruct (name_first _ _ f Hok Hat) as (c0 & Hc & Hc0).
    apply wp_bind, (wp_lift c0); [done|]. rewrite bool_decide_false by done.
    apply wp_bind, (wp_lift (Z.of_nat (length (f_data f)))); [by apply file_size_ok|].
    rewrite next_header_ok by (lia || done).
    destruct (strcmp_eq chars (field (fs_mem s) addr tar_filename) r (f_name f) name) as (c & E & H0);
      [apply Hat|done|destruct Hok as (_ & ? & _); lia|apply Hok|done|].
    apply wp_bind, (wp_lift c); [exact E|]. cbn [find_file] in HQ. case_decide as Hn.
    + rewrite bool_decide_true by by apply H0. rewrite Nat2Z.id, u32_small by (unfold is_u32, pad512 in *; word).
      apply wp_bind, cat_chars_wp; [intros i d Hd; by apply (fa_data _ _ _ Hat)|]. apply wp_emit. exact HQ.
    + rewrite bool_decide_false by by rewrite H0. apply IH; [lia|unfold pad512; word|done|exact HQ].
Qed.

(** C28: on an archive whose bytes can all be loaded, tar_cat terminates and
    prints, character by character, the data of the first file of that name, or
    "File not found." when there is none. *)
Theorem tar_cat_spec chars fuel fs name r s :
  (101 <= chars)%nat -> (length fs < fuel)%nat -> 0 < initrd_address s ->
  archive (fs_mem s) (initrd_address s) fs ->
  CString.cstr r name -> Forall (fun c => 0 < c) name ->
  wp (tar_cat chars fuel r) s (fun _ s' o => s' = s /\ o = cat_output (find_file name fs)).
Proof.
  intros Hc Hf Ha Har Hr Hp. unfold tar_cat. apply wp_bind, wp_get. cbv beta zeta.
  rewrite bool_decide_false by lia. by apply cat_from_wp with (fs := fs) (name := name); [..|lia| | | |].
Qed.

(** ** A header that stops the walk from ending

    The size 37777777000 (octal) is 2^32 - 512: the next header is this one. *)
Definition looping_header (m : St) (addr : Z) : Prop :=
  (exists c, ld8 (u32 addr) m = Done c /\ c <> 0) /\ file_size_at m addr = Done 0xFFFFFE00 /\ is_u32 addr.

(** Comparing its name with [r] can be done and finds a difference (or the
    bound on the characters runs out first). *)
Definition other_name (m : St) (addr : Z) (r : CString.source) : Prop :=
  forall n, CString.strcmp n (field m addr tar_filename) r = Spin \/
            exists c, CString.strcmp n (field m addr tar_filename) r = Done c /\ c <> 0.

Lemma cat_from_loops chars fuel r addr s :
  looping_header (fs_mem s) addr -> other_name (fs_mem s) addr r -> cat_from chars fuel r addr s = Spin.
Proof.
  intros ((c0 & Hn & Hn0) & Hs & Ha) Hc. revert fuel. induction fuel as [|fuel IH]; [done|].
  cbn [cat_from]. unfold mget, mbind, M_bind, lift. cbv beta zeta.
  rewrite field_0, Hn. rewrite bool_decide_false by done. rewrite Hs.
  destruct (Hc chars) as [->|(c & -> & Hc0)]; [done|].
  rewrite bool_decide_false by done.
  replace (next_header addr 0xFFFFFE00) with addr; [by rewrite IH|].
  unfold next_header, padded_size. rewrite bool_decide_true by done. word.
Qed.

(** C38: a header whose size field is 37777777000 (octal), 2^32 - 512, sends the walk back to itself: tar_cat of any other name never terminates, whatever the fuel. *)
Theorem tar_cat_diverges chars fuel r s :
  initrd_address s <> 0 -> looping_header (fs_mem s) (initrd_address s) ->
  other_name (fs_mem s) (initrd_address s) r ->
  tar_cat chars fuel r s = Spin.
Proof.
  intros Ha Hl Hc. unfold tar_cat, mbind at 1, M_bind at 1, mget. cbv beta zeta.
  rewrite bool_decide_false by done. by rewrite cat_from_loops.
Qed.

End Archive.

(** ** A concrete archive *)
Definition file_a : file := {| f_name := str "a.txt"; f_data := str "hi" |}.

Definition file_b : file := {| f_name := str "b"; f_data := [] |}.

Definition poke_file (addr : Z) (f : file) (m : mem) : mem :=
  poke (poke (poke m addr (f_name f)) (addr + 124) (octal 11 (Z.of_nat (length (f_data f))))) (addr + 512) (f_data f).

Definition demo_tar : tarfs mem := {|
  fs_mem := poke_file 0x200000 file_a (poke_file 0x200400 file_b ∅); initrd_address := 0x200000 |}.

(** The readings [r 0 .. r (n-1)] are [l]. *)
Lemma readings_lookup (r : Z -> outcome Z) l :
  r <$> seqZ 0 (Z.of_nat (length l)) = Done <$> l -> forall i c, l !! i = Some c -> r (Z.of_nat i) = Done c.
Proof.
  intros E i c Hc. apply (f_equal (fun q => q !! i)) in E. rewrite !list_lookup_fmap, Hc in E.
  destruct (seqZ 0 (Z.of_nat (length l)) !! i) as [k|] eqn:Ek; [|done].
  apply lookup_seqZ in Ek as [-> _]. by injection E.
Qed.

Lemma file_at_intro (m : mem) addr f :
  forallb (fun c => negb (c =? 0)) (f_name f) = true ->
  field m addr tar_filename <$> seqZ 0 (Z.of_nat (length (f_name f))) = Done <$> f_name f ->
  field m addr tar_filename (Z.of_nat (length (f_name f))) = Done 0 ->
  field m addr tar_size <$> seqZ 0 11 = Done <$> octal 11 (Z.of_nat (length (f_data f))) ->
  (fun i => ld8 (u32 (addr + 512 + i)) m) <$> seqZ 0 (Z.of_nat (length (f_data f))) = Done <$> f_data f ->
  file_at m addr f.
Proof.
  intros H0 Hn Hend Hs Hd. constructor.
  - split; [|done]. intros i c Hc. split; [|by apply (readings_lookup _ _ Hn)].
    rewrite forallb_forall in H0. apply list_elem_of_lookup_2, list_elem_of_In, H0 in Hc. lia.
  - apply readings_lookup. by rewrite length_octal.
  - apply (readings_lookup _ _ Hd).
Qed.

Lemma demo_file_a : file_ok file_a /\ file_at (fs_mem demo_tar) 0x200000 file_a.
Proof. split; [vm_compute; split_and!; try done; [lia|repeat constructor]|apply file_at_intro; vm_compute; reflexivity]. Qed.

Lemma demo_file_b : file_ok file_b /\ file_at (fs_mem demo_tar) 0x200400 file_b.
Proof. split; [vm_compute; split_and!; try done; [lia|repeat constructor]|apply file_at_intro; vm_compute; reflexivity]. Qed.

Lemma demo_archive : archive (fs_mem demo_tar) 0x200000 [file_a; file_b].
Proof.
  split; [apply demo_file_a|]. split; [apply demo_file_a|]. split; [reflexivity|].
  split; [apply demo_file_b|]. split; [apply demo_file_b|]. split; [reflexivity|]. vm_compute. reflexivity.
Qed.

Lemma tar_ls_spec_witness :
  wp (tar_ls 101 3) demo_tar (fun _ s' o => s' = demo_tar /\ o = listing [file_a; file_b] ++ [Print [10]]).
Proof. apply (tar_ls_spec 101 3 [file_a; file_b] demo_tar); [lia|cbn; lia|cbn; lia|exact demo_archive]. Defined.

Lemma tar_cat_spec_witness :
  wp (tar_cat 101 3 (CString.of_list (str "b"))) demo_tar (fun _ s' o => s' = demo_tar /\ o = [Print [10]]).
Proof.
  apply (tar_cat_spec 101 3 [file_a; file_b] (str "b") (CString.of_list (str "b")) demo_tar);
    [lia|cbn; lia|cbn; lia|exact demo_archive| |repeat constructor; vm_compute; reflexivity].
  apply CString.cstr_of_list. repeat constructor. vm_compute. lia.
Defined.

Definition loop_tar : tarfs mem := {|
  fs_mem := poke (poke ∅ 0x200000 (str "a")) (0x200000 + 124) (str "37777777000"); initrd_address := 0x200000 |}.

Lemma tar_cat_diverges_witness : tar_cat 8 1000 (CString.of_list (str "b")) loop_tar = Spin.
Proof.
  apply (tar_cat_diverges 8 1000 (CString.of_list (str "b")) loop_tar); [done| |].
  - split_and!; [by exists 97|vm_compute; reflexivity|unfold is_u32; cbn; lia].
  - intros [|n]; [by left|right]. exists (-1). split; [|done]. vm_compute. reflexivity.
Defined.
