(* ===== verification/Descriptors.v ===== *)
(** * gdt.c and idt.c: the task-state segment, its descriptor, the interrupt
      table and the exception handler *)
From Stdlib Require Import ZArith Lia ZifyBool String.
From stdpp Require Import base numbers list gmap.
From S2P Require Import Prelude.

Definition KERNEL_CODE_SEG : Z := 0x08.
Definition KERNEL_DATA_SEG : Z := 0x10.
Definition USER_CODE_SEG : Z := 0x1B.
Definition USER_DATA_SEG : Z := 0x23.
Definition TSS_SEG : Z := 0x28.

(** ** gdt.c *)
Record tss_entry := {
  prev_tss : Z; esp0 : Z; ss0 : Z; esp1 : Z; ss1 : Z; esp2 : Z; ss2 : Z; t_cr3 : Z;
  t_eip : Z; t_eflags : Z; t_eax : Z; t_ecx : Z; t_edx : Z; t_ebx : Z;
  t_esp : Z; t_ebp : Z; t_esi : Z; t_edi : Z;
  t_es : Z; t_cs : Z; t_ss : Z; t_ds : Z; t_fs : Z; t_gs : Z;
  ldt : Z; trap : Z; iomap_base : Z;
}.

(** [sizeof(struct tss_entry)]: 25 words of 32 bits and two of 16. *)
Definition sizeof_tss : Z := 25 * 4 + 2 * 2.

Definition memset_tss : tss_entry := {|
  prev_tss := 0; esp0 := 0; ss0 := 0; esp1 := 0; ss1 := 0; esp2 := 0; ss2 := 0; t_cr3 := 0;
  t_eip := 0; t_eflags := 0; t_eax := 0; t_ecx := 0; t_edx := 0; t_ebx := 0;
  t_esp := 0; t_ebp := 0; t_esi := 0; t_edi := 0;
  t_es := 0; t_cs := 0; t_ss := 0; t_ds := 0; t_fs := 0; t_gs := 0;
  ldt := 0; trap := 0; iomap_base := 0 |}.

(** [entry[0..15]] *)
Definition write_tss_descriptor (base limit : Z) : list Z :=
  [u8 (Z.land limit 0xFF); u8 (Z.land (Z.shiftr limit 8) 0xFF);
   u8 (Z.land base 0xFF); u8 (Z.land (Z.shiftr base 8) 0xFF); u8 (Z.land (Z.shiftr base 16) 0xFF);
   0x89; u8 (Z.lor (Z.land (Z.shiftr limit 16) 0x0F) 0x40); u8 (Z.land (Z.shiftr base 24) 0xFF);
   0; 0; 0; 0; 0; 0; 0; 0].

(** The task-state segment, its slot in the GDT (the last of boot.asm's table)
    and the task register. *)
Record gdt_state := { tss : tss_entry; gdt_tss : list Z; task_register : Z }.

(** [tss_addr] is [&tss], which the linker chooses.  tss_flush loads 0x28. *)
Definition gdt_init_tss (tss_addr kernel_stack_top : Z) (s : gdt_state) : gdt_state :=
  let t := memset_tss in {|
  tss := {|
    prev_tss := prev_tss t; esp0 := kernel_stack_top; ss0 := KERNEL_DATA_SEG;
    esp1 := esp1 t; ss1 := ss1 t; esp2 := esp2 t; ss2 := ss2 t;
    t_cr3 := t_cr3 t; t_eip := t_eip t; t_eflags := t_eflags t; t_eax := t_eax t; t_ecx := t_ecx t;
    t_edx := t_edx t; t_ebx := t_ebx t; t_esp := t_esp t; t_ebp := t_ebp t; t_esi := t_esi t; t_edi := t_edi t;
    t_es := KERNEL_DATA_SEG; t_cs := KERNEL_CODE_SEG; t_ss := KERNEL_DATA_SEG; t_ds := KERNEL_DATA_SEG;
    t_fs := KERNEL_DATA_SEG; t_gs := KERNEL_DATA_SEG; ldt := ldt t; trap := trap t; iomap_base := sizeof_tss |};
  gdt_tss := write_tss_descriptor tss_addr (sizeof_tss - 1);
  task_register := 0x28 |}.

Definition tss_set_kernel_stack (top : Z) (s : gdt_state) : gdt_state :=
  let t := tss s in {|
  tss := {|
    prev_tss := prev_tss t; esp0 := top; ss0 := ss0 t; esp1 := esp1 t; ss1 := ss1 t; esp2 := esp2 t; ss2 := ss2 t;
    t_cr3 := t_cr3 t; t_eip := t_eip t; t_eflags := t_eflags t; t_eax := t_eax t; t_ecx := t_ecx t;
    t_edx := t_edx t; t_ebx := t_ebx t; t_esp := t_esp t; t_ebp := t_ebp t; t_esi := t_esi t; t_edi := t_edi t;
    t_es := t_es t; t_cs := t_cs t; t_ss := t_ss t; t_ds := t_ds t; t_fs := t_fs t; t_gs := t_gs t;
    ldt := ldt t; trap := trap t; iomap_base := iomap_base t |};
  gdt_tss := gdt_tss s; task_register := task_register s |}.

(** ** idt.c *)
Record idt_entry := { base_low : Z; selector : Z; always_zero : Z; flags : Z; base_high : Z }.

Definition idt_entry0 : idt_entry :=
  {| base_low := 0; selector := 0; always_zero := 0; flags := 0; base_high := 0 |}.

Record idt_ptr := { idtp_limit : Z; idtp_base : Z }.

(** [struct idt_entry idt[256]], [idtp] and the processor's IDTR. *)
Record idt_state := { idt : list idt_entry; idtp : idt_ptr; idtr : idt_ptr }.

Definition sizeof_idt_entry : Z := 8.

(** [idt_addr] is [&idt]; idt_load executes LIDT. *)
Definition idt_init (idt_addr : Z) (s : idt_state) : idt_state :=
  let p := {| idtp_limit := u16 (sizeof_idt_entry * 256 - 1); idtp_base := idt_addr |} in
  {| idt := idt s; idtp := p; idtr := p |}.

Definition idt_set_gate (num base sel fl : Z) (s : idt_state) : idt_state := {|
  idt := <[Z.to_nat (u8 num) := {|
    base_low := Z.land base 0xFFFF; selector := u16 sel; always_zero := 0; flags := u8 fl;
    base_high := Z.land (Z.shiftr base 16) 0xFFFF |}]> (idt s);
  idtp := idtp s; idtr := idtr s |}.

Definition exception_messages : list (list Z) :=
  [str "Division By Zero"; str "Debug"; str "Non Maskable Interrupt"; str "Breakpoint";
   str "Into Detected Overflow"; str "Out of Bounds"; str "Invalid Opcode"; str "No Coprocessor";
   str "Double Fault"; str "Coprocessor Segment Overrun"; str "Bad TSS"; str "Segment Not Present";
   str "Stack Fault"; str "General Protection Fault"; str "Page Fault"; str "Unknown Interrupt";
   str "Coprocessor Fault"; str "Alignment Check"; str "Machine Check"; str "Reserved"]
  ++ replicate 12 (str "Reserved").

(** [struct registers]: what the exception stubs push. *)
Record registers := {
  x_ds : Z;
  x_edi : Z; x_esi : Z; x_ebp : Z; x_esp : Z; x_ebx : Z; x_edx : Z; x_ecx : Z; x_eax : Z;
  int_no : Z; err_code : Z;
  x_eip : Z; x_cs : Z; x_eflags : Z; x_useresp : Z; x_ss : Z;
}.

(** The decoding of a page fault's error code. *)
Definition page_fault_cause (err : Z) : list event :=
  [Print (str "  Cause: ");
   Print (if bit err 0 then str "protection violation" else str "not present");
   Print (if bit err 1 then str ", write" else str ", read");
   Print (if bit err 2 then str ", user mode" else str ", kernel mode");
   Print [10]].

(** What it prints, and whether it halts the machine ([while(1) cli; hlt]).
    [cr2] is the processor's register of the faulting address. *)
Definition fault_handler (cr2 : Z) (regs : registers) : list event * bool :=
  if bool_decide (int_no regs < 32) then
    ([Print (str "EXCEPTION: "); Print (exception_messages !!! Z.to_nat (int_no regs)); Print [10];
      Print (str "  EIP: "); PrintHex (x_eip regs); Print (str "  CS:  "); PrintHex (x_cs regs); Print [10];
      Print (str "  ERR: "); PrintHex (err_code regs); Print [10]]
     ++ (if bool_decide (int_no regs = 14) then
           [Print (str "  CR2 (fault addr): "); PrintHex cr2; Print [10]] ++ page_fault_cause (err_code regs)
         else [])
     ++ [Print (str "System Halted!" ++ [10])], true)
  else ([], false).
