(* ===== verification/Devices.v ===== *)
(** * pic.c and timer.c: the interrupt controllers and the interval timer *)
From Stdlib Require Import ZArith Lia ZifyBool String.
From stdpp Require Import base numbers list gmap.
From S2P Require Import Prelude Ports.

(** The [outb]s of [pic_remap], in order. *)
Definition pic_remap : list (Z * Z) :=
  [(0x20, 0x11); (0xA0, 0x11);
   (0x21, 0x20); (0xA1, 0x28);
   (0x21, 0x04); (0xA1, 0x02);
   (0x21, 0x01); (0xA1, 0x01);
   (0x21, 0xFC); (0xA1, 0xFF)].

(** The globals of timer.c; [yield_flag] is the scheduler's. *)
Record timer := { timer_ticks : Z; yield_flag : Z }.

(** The handler's port writes and its effect on the globals. *)
Definition timer_handler (s : timer) : timer * list (Z * Z) :=
  ({| timer_ticks := u32 (timer_ticks s + 1);
      yield_flag := if bool_decide (yield_flag s <> 0) then 0 else yield_flag s |},
   [(0x20, 0x20)]).

(** [None]: the division by zero raises an exception. *)
Definition init_timer (freq : Z) : option (list (Z * Z)) :=
  if bool_decide (freq = 0) then None
  else
    let divisor := 1193180 / freq in
    Some [(0x43, 0x36); (0x40, u8 (Z.land divisor 0xFF)); (0x40, u8 (Z.land (Z.shiftr divisor 8) 0xFF))].
