(* ===== verification/DevicesSpec.v ===== *)
(** * Properties of the interrupt controllers, the timer and the descriptors

    The 8259 pair and channel 0 of the 8253 are known through what their
    documentation says of the writes the kernel makes ([IrqHw]); descriptors
    and gates are read back the way the processor reads them. *)
From Stdlib Require Import ZArith Lia ZifyBool String.
From stdpp Require Import base numbers list gmap.
From S2P Require Import Prelude Mem Ports Descriptors Devices.

(** ** The hardware *)

(** One 8259: which initialisation word it expects next (0: none), the
    interrupt vector of its first line, its cascade word and its mask. *)
Record pic_view := { icw : nat; vector : Z; cascade : Z; imr : Z }.

Definition pic_step (command port d : Z) (v : pic_view) : pic_view :=
  if bool_decide (port = command) then
    if bit d 4 then {| icw := 1; vector := vector v; cascade := cascade v; imr := 0 |} else v
  else if bool_decide (port = command + 1) then
    match icw v with
    | 1%nat => {| icw := 2; vector := Z.land d 0xF8; cascade := cascade v; imr := imr v |}
    | 2%nat => {| icw := 3; vector := vector v; cascade := d; imr := imr v |}
    | 3%nat => {| icw := 0; vector := vector v; cascade := cascade v; imr := imr v |}
    | _ => {| icw := icw v; vector := vector v; cascade := cascade v; imr := d |}
    end
  else v.

(** Channel 0 of the timer: the bytes of its count received since the control
    word, and the count it reloads. *)
Record pit_view := { pit_low : option Z; reload : Z }.

Definition pit_step (port d : Z) (v : pit_view) : pit_view :=
  if bool_decide (port = 0x43 /\ d = 0x36) then {| pit_low := None; reload := reload v |}
  else if bool_decide (port = 0x40) then
    match pit_low v with
    | None => {| pit_low := Some d; reload := reload v |}
    | Some lo =>
        let n := lo + 0x100 * d in
        {| pit_low := None; reload := if bool_decide (n = 0) then 0x10000 else n |}
    end
  else v.

Definition irq_ports : list Z := [0x20; 0x21; 0xA0; 0xA1; 0x40; 0x43].

Class IrqHw (H : Type) {PT : Ports H} := {
  master : H -> pic_view;
  slave : H -> pic_view;
  pit : H -> pit_view;
  master_write : forall h port d, port ∈ irq_ports -> master (outb port d h) = pic_step 0x20 port (u8 d) (master h);
  slave_write : forall h port d, port ∈ irq_ports -> slave (outb port d h) = pic_step 0xA0 port (u8 d) (slave h);
  pit_write : forall h port d, port ∈ irq_ports -> pit (outb port d h) = pit_step port (u8 d) (pit h);
}.

(** Where line [n] of the sixteen is delivered, and whether it is let through. *)
Definition irq_vector {H} `{IrqHw H} (h : H) (n : Z) : Z :=
  if bool_decide (n < 8) then vector (master h) + n else vector (slave h) + (n - 8).

Definition irq_enabled {H} `{IrqHw H} (h : H) (n : Z) : bool :=
  if bool_decide (n < 8) then negb (bit (imr (master h)) n)
  else negb (bit (imr (master h)) 2) && negb (bit (imr (slave h)) (n - 8)).

Section Hardware.
Context {H : Type} {PT : Ports H} {HW : IrqHw H}.

(** A sequence of writes to these ports, seen by each chip. *)
Lemma outbs_seen (l : list (Z * Z)) (h : H) :
  Forall (fun w => fst w ∈ irq_ports) l ->
  master (outbs l h) = fold_left (fun v '(p, d) => pic_step 0x20 p (u8 d) v) l (master h) /\
  slave (outbs l h) = fold_left (fun v '(p, d) => pic_step 0xA0 p (u8 d) v) l (slave h) /\
  pit (outbs l h) = fold_left (fun v '(p, d) => pit_step p (u8 d) v) l (pit h).
Proof.
  intros Hl. revert h. induction Hl as [|[p d] l Hp _ IH]; intros h; [done|].
  destruct (IH (outb p d h)) as (E1 & E2 & E3). cbn [fst] in Hp.
  change (outbs ((p, d) :: l) h) with (outbs l (outb p d h)). cbn [fold_left].
  by rewrite E1, E2, E3, master_write, slave_write, pit_write.
Qed.

(** whatever state the controllers were in, after pic_remap the sixteen lines are delivered at vectors 0x20 to 0x2F, clear of the processor's exceptions, and only the timer (0) and the keyboard (1) are let through. *)
Theorem pic_remap_spec (h : H) n :
  0 <= n < 16 ->
  irq_vector (outbs pic_remap h) n = 0x20 + n /\ irq_enabled (outbs pic_remap h) n = bool_decide (n < 2).
Proof.
  intros Hn. destruct (outbs_seen pic_remap h) as (E1 & E2 & _).
  { apply (bool_decide_unpack _). vm_compute. exact I. }
  unfold irq_vector, irq_enabled. rewrite E1, E2.
  assert (Hin : n ∈ seqZ 0 16) by (apply elem_of_seqZ; lia). clear Hn.
  change (n ∈ [0; 1; 2; 3; 4; 5; 6; 7; 8; 9; 10; 11; 12; 13; 14; 15]) in Hin.
  repeat (apply elem_of_cons in Hin as [->|Hin]; [by vm_compute|]). by apply not_elem_of_nil in Hin.
Qed.

Lemma pit_program (v : pit_view) a b :
  fold_left (fun v '(p, d) => pit_step p (u8 d) v) [(0x43, 0x36); (0x40, a); (0x40, b)] v
  = {| pit_low := None;
       reload := let n := u8 a + 0x100 * u8 b in if bool_decide (n = 0) then 0x10000 else n |}.
Proof. reflexivity. Qed.

(** init_timer programs channel 0 with floor(1193180 / freq), so that it fires at least freq times a second and would fire less with one more count, as long as that fits its 16-bit counter (19 Hz or more); for a lower frequency the count is taken modulo 2^16; 0 divides by zero. *)
Theorem init_timer_spec (h : H) freq :
  0 <= freq <= 1193180 ->
  match init_timer freq with
  | None => freq = 0
  | Some ws =>
      reload (pit (outbs ws h)) = (let n := u16 (1193180 / freq) in if bool_decide (n = 0) then 0x10000 else n) /\
      (19 <= freq -> let n := reload (pit (outbs ws h)) in freq * n <= 1193180 < freq * (n + 1))
  end.
Proof.
  intros Hf. unfold init_timer. case_bool_decide as Hz; [done|].
  match goal with |- context [outbs ?l h] => destruct (outbs_seen l h) as (_ & _ & E) end.
  { repeat apply Forall_cons_2; try (apply (bool_decide_unpack _); vm_compute; exact I). }
  assert (Hd : 1 <= 1193180 / freq) by (apply Z.div_le_lower_bound; lia).
  set (d := 1193180 / freq) in *.
  assert (Hr : reload (pit (outbs [(0x43, 0x36); (0x40, u8 (Z.land d 0xFF)); (0x40, u8 (Z.land (Z.shiftr d 8) 0xFF))] h))
    = (let n := u16 d in if bool_decide (n = 0) then 0x10000 else n)).
  { rewrite E, pit_program. cbn [reload].
    replace (u8 (u8 (Z.land d 0xFF)) + 0x100 * u8 (u8 (Z.land (Z.shiftr d 8) 0xFF))) with (u16 d); [done|].
    change 0xFF with (Z.ones 8). rewrite !Z.land_ones, Z.shiftr_div_pow2 by lia.
    change (2 ^ 8) with 0x100. word. }
  split; [exact Hr|]. intros H19. cbv zeta. rewrite Hr. cbv zeta.
  assert (d < 0x10000) by (subst d; apply Z.div_lt_upper_bound; lia).
  rewrite u16_small, bool_decide_false by (unfold is_u16; lia). subst d.
  pose proof (Z.div_mod 1193180 freq). pose proof (Z.mod_pos_bound 1193180 freq). lia.
Qed.
End Hardware.

(** ** The processor's reading of a descriptor and of a gate *)
Definition desc_base (b : list Z) : Z := get16 b 2 + 0x10000 * at_ b 4 + 0x1000000 * at_ b 7.

Definition desc_limit (b : list Z) : Z := get16 b 0 + 0x10000 * (at_ b 6 mod 16).

(** Limit counted in bytes (G clear). *)
Definition desc_byte_limit (b : list Z) : bool := negb (bit (at_ b 6) 7).

Lemma tss_bytes base limit :
  let b := write_tss_descriptor base limit in
  at_ b 0 = u8 (Z.land limit 0xFF) /\ at_ b (0 + 1) = u8 (Z.land (Z.shiftr limit 8) 0xFF) /\
  at_ b 2 = u8 (Z.land base 0xFF) /\ at_ b (2 + 1) = u8 (Z.land (Z.shiftr base 8) 0xFF) /\
  at_ b 4 = u8 (Z.land (Z.shiftr base 16) 0xFF) /\
  at_ b 6 = u8 (Z.lor (Z.land (Z.shiftr limit 16) 0x0F) 0x40) /\
  at_ b 7 = u8 (Z.land (Z.shiftr base 24) 0xFF).
Proof. by split_and!. Qed.

Lemma write_tss_descriptor_read base limit :
  is_u32 base -> 0 <= limit < 0x100000 ->
  desc_base (write_tss_descriptor base limit) = base /\ desc_limit (write_tss_descriptor base limit) = limit /\
  desc_byte_limit (write_tss_descriptor base limit) = true.
Proof.
  intros Hb Hl. unfold desc_base, desc_limit, desc_byte_limit, get16.
  destruct (tss_bytes base limit) as (-> & -> & -> & -> & -> & -> & ->).
  change 0xFF with (Z.ones 8). change 0x0F with (Z.ones 4).
  rewrite !Z.land_ones, !Z.shiftr_div_pow2 by lia.
  change (2 ^ 8) with 0x100. change (2 ^ 16) with 0x10000. change (2 ^ 24) with 0x1000000. change (2 ^ 4) with 16.
  assert (Hhi : Z.lor ((limit / 0x10000) mod 16) 0x40 = (limit / 0x10000) mod 16 + 0x40).
  { assert (Hm : 0 <= (limit / 0x10000) mod 16 < 16) by (apply Z.mod_pos_bound; lia).
    generalize dependent ((limit / 0x10000) mod 16). intros k Hk.
    assert (Hin : k ∈ seqZ 0 16) by (apply elem_of_seqZ; lia). clear Hk.
    change (k ∈ [0; 1; 2; 3; 4; 5; 6; 7; 8; 9; 10; 11; 12; 13; 14; 15]) in Hin.
    repeat (apply elem_of_cons in Hin as [->|Hin]; [reflexivity|]). by apply not_elem_of_nil in Hin. }
  rewrite Hhi. split_and!; [| |].
  { assert (Hu : forall z, u8 (z mod 0x100) = u8 z) by (intros; word). rewrite !Hu.
    pose proof (le32_bytes base) as E. rewrite u32_small in E by done. lia. }
  { replace (limit / 0x10000) with (limit / 0x100 / 0x100) by (by rewrite Z.div_div).
    assert (Hs : 0 <= limit / 0x100 / 0x100 < 16) by (Z.to_euclidean_division_equations; lia).
    assert (Hu : forall k, 0 <= k < 16 -> u8 (k mod 16 + 0x40) mod 16 = k) by (intros; word).
    rewrite Hu by done. word. }
  unfold bit. rewrite u8_small by word. rewrite Z.testbit_odd, Z.shiftr_div_pow2 by lia.
  change (2 ^ 7) with 128. by replace (((limit / 0x10000) mod 16 + 0x40) / 128) with 0 by word.
Qed.

(** gdt_init_tss leaves the task register on a descriptor the processor reads as a byte-granular available 32-bit TSS that covers exactly the structure &tss, with the given kernel stack in ss0:esp0 and an I/O map base past the limit (no port is open to ring 3); tss_set_kernel_stack is the same set-up with another stack. *)
Theorem gdt_init_tss_spec tss_addr top s :
  is_u32 tss_addr ->
  let g := gdt_init_tss tss_addr top s in
  desc_base (gdt_tss g) = tss_addr /\ desc_limit (gdt_tss g) = sizeof_tss - 1 /\
  desc_byte_limit (gdt_tss g) = true /\ at_ (gdt_tss g) 5 = 0x89 /\
  task_register g = TSS_SEG /\ (ss0 (tss g), esp0 (tss g)) = (KERNEL_DATA_SEG, top) /\
  desc_limit (gdt_tss g) < iomap_base (tss g) /\
  forall top', tss_set_kernel_stack top' g = gdt_init_tss tss_addr top' s.
Proof.
  intros Ha g. destruct (write_tss_descriptor_read tss_addr (sizeof_tss - 1)) as (E1 & E2 & E3); [done|by vm_compute|].
  change (gdt_tss g) with (write_tss_descriptor tss_addr (sizeof_tss - 1)).
  rewrite E1, E2, E3. split_and!; [done..| |done]. change (iomap_base (tss g)) with sizeof_tss. lia.
Qed.

(** ** Gates *)
Definition gate_offset (e : idt_entry) : Z := base_low e + 0x10000 * base_high e.

Definition gate_present (e : idt_entry) : bool := bit (flags e) 7.

(** The least privilege allowed to reach the gate by an INT instruction. *)
Definition gate_dpl (e : idt_entry) : Z := flags e / 0x20 mod 4.

Definition gate (s : idt_state) (v : Z) : idt_entry := default idt_entry0 (idt s !! Z.to_nat v).

Lemma idt_set_gate_gate num base sel fl s v :
  length (idt s) = 256%nat -> is_u8 num -> is_u8 v ->
  gate (idt_set_gate num base sel fl s) v =
    if bool_decide (v = num) then
      {| base_low := Z.land base 0xFFFF; selector := u16 sel; always_zero := 0; flags := u8 fl;
         base_high := Z.land (Z.shiftr base 16) 0xFFFF |}
    else gate s v.
Proof.
  intros Hl Hn Hv. unfold gate, idt_set_gate. cbn [idt]. rewrite u8_small by done. unfold is_u8 in *.
  case_bool_decide as E.
  - subst. by rewrite list_lookup_insert_eq by lia.
  - by rewrite list_lookup_insert_ne by lia.
Qed.

Lemma gate_offset_set base : is_u32 base ->
  Z.land base 0xFFFF + 0x10000 * Z.land (Z.shiftr base 16) 0xFFFF = base.
Proof.
  intros Hb. change 0xFFFF with (Z.ones 16). rewrite !Z.land_ones, Z.shiftr_div_pow2 by lia.
  change (2 ^ 16) with 0x10000. word.
Qed.

(** ** A concrete machine *)
Record irq_chips := { c_master : pic_view; c_slave : pic_view; c_pit : pit_view }.

#[local] Instance chips_ports : Ports irq_chips := {
  in_al _ h := (0, h); in_ax _ h := (0, h); out_ax _ _ h := h;
  out_al p d h := {| c_master := pic_step 0x20 p d (c_master h); c_slave := pic_step 0xA0 p d (c_slave h);
                     c_pit := pit_step p d (c_pit h) |};
}.

#[local, refine] Instance chips_hw : IrqHw irq_chips := { master := c_master; slave := c_slave; pit := c_pit }.
Proof.
  all: intros h port d Hp; unfold outb; cbn; unfold u16;
    rewrite Z.mod_small by (unfold irq_ports in Hp; set_unfold in Hp; lia); done.
Defined.

Definition chips0 : irq_chips := {|
  c_master := {| icw := 0; vector := 8; cascade := 0; imr := 0xB8 |};
  c_slave := {| icw := 2; vector := 0x70; cascade := 0; imr := 0x8F |};
  c_pit := {| pit_low := Some 3; reload := 0x10000 |} |}.

Lemma pic_remap_spec_witness : irq_vector (outbs pic_remap chips0) 14 = 0x2E.
Proof. apply (proj1 (pic_remap_spec chips0 14 ltac:(lia))). Defined.

Lemma init_timer_spec_witness :
  match init_timer 100 with
  | None => 100 = 0
  | Some ws => reload (pit (outbs ws chips0)) = 11931
  end.
Proof. exact (proj1 (init_timer_spec chips0 100 ltac:(lia))). Defined.

Lemma gdt_init_tss_spec_witness :
  desc_base (gdt_tss (gdt_init_tss 0x107040 0x106000 {| tss := memset_tss; gdt_tss := replicate 16 0; task_register := 0 |}))
  = 0x107040.
Proof. apply gdt_init_tss_spec. unfold is_u32. lia. Defined.
