(* ===== verification/UserMem.v ===== *)
(** * Mapped memory as independent cells

    [map_page] changes page tables and nothing else, and on addresses that
    translate to distinct bytes outside the page tables the paged space is a
    region ([AddrRegion]): memcpy and memset behave there as on plain memory. *)
From Stdlib Require Import ZArith Lia ZifyBool String.
From stdpp Require Import base numbers list gmap.
From S2P Require Import Prelude Mem Memory MemoryFacts MemorySpec Paging PagingFacts PagingSpec.

(** ** Enough free frames for [n] allocations in a row *)
Fixpoint enough (n : nat) (p : pmm) : Prop :=
  match n with
  | O => True
  | S n' => fst (pmm_alloc_block p) <> 0 /\ enough n' (snd (pmm_alloc_block p))
  end.

Lemma enough_S n p : enough (S n) p -> enough n p.
Proof.
  revert p. induction n as [|n IH]; intros p; [done|]. intros [Ha Hn]. split; [done|]. by apply IH.
Qed.

Lemma enough_le n m p : (n <= m)%nat -> enough m p -> enough n p.
Proof. induction 1; [done|]. intros ?%enough_S. auto. Qed.

(** ** What map_page keeps *)
Record keeps (s s' : vm) : Prop := {
  kp_used : forall g, used (vm_pmm s) g = true -> used (vm_pmm s') g = true;
  kp_table : forall g, used (vm_pmm s) g = true -> ~ table_frame s g -> ~ table_frame s' g;
  kp_mem : forall a, is_u32 a -> used (vm_pmm s) (a / 4096) = true -> ~ table_frame s (a / 4096) ->
    rd8 (vm_mem s') a = rd8 (vm_mem s) a;
  kp_heap : free_mem_addr (vm_pmm s') = free_mem_addr (vm_pmm s);
}.

Lemma keeps_refl s : keeps s s.
Proof. by constructor. Qed.

Lemma keeps_trans s1 s2 s3 : keeps s1 s2 -> keeps s2 s3 -> keeps s1 s3.
Proof.
  intros [U1 T1 M1 H1] [U2 T2 M2 H2]. constructor; [auto..| |congruence]. intros a Ha Hu Ht. rewrite M2, M1; auto.
Qed.

Lemma keeps_alloc s f p :
  (forall g, used p g = (g =? f) || used (vm_pmm s) g) -> free_mem_addr p = free_mem_addr (vm_pmm s) ->
  keeps s (set_pmm p s).
Proof. intros Hu Hh. constructor; [|done..]. intros g Hg. cbn. rewrite Hu, Hg. apply orb_true_r. Qed.

Lemma keeps_set_pte s va pte :
  tables_wf s -> is_u32 va -> present (pde_of s va) = true ->
  keeps s (on_mem (set_entry (table_of (pde_of s va)) (pt_index va) pte) s).
Proof.
  intros Hok Hva Hp. pose proof (pd_index_range va Hva) as Hi. pose proof (pt_index_range va) as Hj.
  constructor; [done| | |done].
  - intros g _ Ht Hg. apply Ht. revert Hg. by apply table_frame_set_pte.
  - intros a Ha _ Ht. cbn [vm_mem on_mem]. apply rd8_set_entry; [apply table_of_page, entry_range|done|done|].
    intros E. apply Ht. right. by exists (pd_index va).
Qed.

Lemma keeps_new_table s va pte p f :
  tables_wf s -> is_u32 va -> present (pde_of s va) = false ->
  tracked f -> used (vm_pmm s) f = false -> (forall g, used p g = (g =? f) || used (vm_pmm s) g) ->
  free_mem_addr p = free_mem_addr (vm_pmm s) ->
  keeps s
    (on_mem (set_entry (f * 4096) (pt_index va) pte)
      (on_mem (fill_table (f * 4096) (fun _ => 0))
        (on_mem (set_entry (page_direc s) (pd_index va) (Z.lor (f * 4096) 7)) (set_pmm p s)))).
Proof.
  intros Hok Hva Hp Hf Hfree Hused Hheap. pose proof (pd_index_range va Hva) as Hi. pose proof (pt_index_range va) as Hj.
  assert (Hpg : is_page (f * 4096)) by (unfold is_page, tracked in *; split; [lia|word]).
  assert (Hdir : is_page (page_direc s)) by apply Hok.
  assert (Hff : f * 4096 / 4096 = f) by (apply Z.div_mul; lia).
  constructor; [| | |exact Hheap].
  - intros g Hg. cbn. rewrite Hused, Hg. apply orb_true_r.
  - intros g Hg Ht Hg'. apply table_frame_new_table in Hg' as [->|?]; [congruence|done..].
  - intros a Ha Hu Ht. cbn [page_direc on_mem vm_mem set_pmm].
    assert (a / 4096 <> f) by congruence.
    assert (Hpd : a / 4096 <> page_direc s / 4096) by (intros E; apply Ht; by left).
    rewrite rd8_set_entry, rd8_fill_table, rd8_set_entry by (assumption || (rewrite Hff; assumption)). reflexivity.
Qed.

(** A successful [map_page]: with a free frame for the table it may need, it
    installs the entry, keeps every other frame's bytes and spends at most one
    frame. *)
Lemma map_page_ok s pa va flags n Q :
  tables_ok s -> mmu_on s -> ~ kernel_frame s (va / 4096) ->
  is_u32 va -> is_u32 (Z.lor (Z.lor pa flags) 1) -> enough (S n) (vm_pmm s) ->
  (forall s', mapped s s' va (Z.lor (Z.lor pa flags) 1) -> keeps s s' -> enough n (vm_pmm s') -> Q tt s' []) ->
  wp (map_page pa va flags) s Q.
Proof.
  intros Hok Hm Hk Hva Hpte He HQ. destruct (present (pde_of s va)) eqn:Hp.
  { eapply wp_run; [by apply map_page_present|].
    apply HQ; [by apply mapped_set_pte|by apply keeps_set_pte; [apply Hok|..]|]. by apply enough_S. }
  pose proof (alloc_block_cases (vm_pmm s)) as Ha. destruct He as [Hne He].
  destruct (pmm_alloc_block (vm_pmm s)) as [a p] eqn:Ea. cbn [fst snd] in *.
  destruct Ha as [(f & -> & Hf & Hlt & Hfree & _ & Hused & _ & Hheap & Hmax)|(-> & _)]; [|done].
  eapply wp_run; [by apply (map_page_absent s pa va flags f p)|].
  apply HQ; [by apply mapped_new_table|by apply keeps_new_table; [apply Hok|..]|done].
Qed.

(** A page that is not mapped, and one from 1 GiB on, is none of the frames the
    kernel reaches at their physical addresses. *)
Lemma absent_not_kernel s va :
  tables_ok s -> mmu_on s -> present (pte_entry s va) = false -> ~ kernel_frame s (va / 4096).
Proof.
  intros Hok Hm Hp Hk. pose proof (ok_ident s Hok _ Hk va eq_refl) as E.
  rewrite translate_pte, Hp in E by (done || apply (dir_page s Hok)). done.
Qed.

Lemma high_not_kernel s va : tables_ok s -> 0x40000000 <= va -> ~ kernel_frame s (va / 4096).
Proof. intros Hok Hva Hk. apply kernel_frame_range in Hk; [word|apply Hok]. Qed.

(** ** Cells: addresses that translate to distinct used bytes outside the tables *)
Record cells (R : Z -> Prop) (s : vm) : Prop := {
  c_tables : tables_ok s;
  c_mmu : mmu_on s;
  c_dom : forall a, R a -> is_u32 a /\ exists pa, translate s a = Some pa /\ is_u32 pa /\
    used (vm_pmm s) (pa / 4096) = true /\ ~ table_frame s (pa / 4096);
  c_inj : forall a b, R a -> R b -> translate s a = translate s b -> a = b;
}.

(** The byte read at a virtual address. *)
Definition vread (s : vm) (a : Z) : Z :=
  match translate s a with Some pa => rd8 (vm_mem s) pa | None => 0 end.

(** The translations and the allocator are the same. *)
Definition same_map (s t : vm) : Prop :=
  vm_pmm t = vm_pmm s /\ forall va, is_u32 va -> pte_entry t va = pte_entry s va.

Section Cells.
Context (R : Z -> Prop) (s0 : vm) (C : cells R s0).

(** The states the stores of the region reach. *)
Definition reached (t : vm) : Prop :=
  vm_pmm t = vm_pmm s0 /\ page_direc t = page_direc s0 /\ cr3 t = cr3 s0 /\ cr0 t = cr0 s0 /\
  forall pa, is_u32 pa -> (forall a, R a -> translate s0 a <> Some pa) -> rd8 (vm_mem t) pa = rd8 (vm_mem s0) pa.

Lemma reached_entry t b i :
  reached t -> is_page b -> table_frame s0 (b / 4096) -> 0 <= i < 1024 ->
  entry (vm_mem t) b i = entry (vm_mem s0) b i.
Proof using C.
  intros (_ & _ & _ & _ & Hm) Hb Ht Hi. unfold entry, rd32.
  assert (Hcell : forall k, 0 <= k < 4 -> rd8 (vm_mem t) (b + 4 * i + k) = rd8 (vm_mem s0) (b + 4 * i + k)).
  { intros k Hk. apply Hm; [unfold is_page, is_u32 in *; lia|]. intros a Ha E.
    destruct (c_dom R s0 C a Ha) as (_ & pa & E' & _ & _ & Hnt). rewrite E' in E. injection E as ->.
    apply Hnt. replace ((b + 4 * i + k) / 4096) with (b / 4096); [done|]. destruct Hb. word. }
  rewrite <- (Z.add_0_r (b + 4 * i)) at 1 5. by rewrite !Hcell by lia.
Qed.

Lemma reached_pte t va : reached t -> is_u32 va -> pde_of t va = pde_of s0 va /\ pte_entry t va = pte_entry s0 va.
Proof using C.
  intros Hr Hva. pose proof (c_tables R s0 C) as Hok. assert (Hd : is_page (page_direc s0)) by apply Hok.
  assert (Hpde : pde_of t va = pde_of s0 va).
  { unfold pde_of. assert (page_direc t = page_direc s0) as -> by apply Hr. apply reached_entry; [done|done|by left|by apply pd_index_range]. }
  split; [done|]. unfold pte_entry. rewrite Hpde. destruct (present (pde_of s0 va)) eqn:Hp; [|done]. cbn [negb].
  unfold pte_of. rewrite Hpde. apply reached_entry; [done|apply table_of_page, entry_range| |apply pt_index_range].
  right. exists (pd_index va). split; [by apply pd_index_range|done].
Qed.

Lemma reached_table t g : reached t -> table_frame t g <-> table_frame s0 g.
Proof using C.
  intros Hr. assert (Hd : is_page (page_direc s0)) by apply (c_tables R s0 C).
  unfold table_frame. pose proof Hr as (_ & -> & _).
  split; (intros [?|(i & Hi & Hp & E)]; [by left|right; exists i]);
    (rewrite reached_entry in * by (done || by left)); done.
Qed.

Lemma reached_wf t : reached t -> tables_wf t.
Proof using C.
  intros Hr. pose proof (c_tables R s0 C) as Hok. assert (Hd : is_page (page_direc s0)) by apply Hok.
  assert (He : forall i, 0 <= i < 1024 -> entry (vm_mem t) (page_direc s0) i = entry (vm_mem s0) (page_direc s0) i).
  { intros i Hi. by apply reached_entry; [|done|left|]. }
  destruct Hr as (Hpm & Hpd & _). constructor; rewrite ?Hpm, ?Hpd; [apply Hok..| | |apply Hok].
  - intros i Hi. rewrite He by done. by apply Hok.
  - intros i j Hi Hj. rewrite !He by done. by apply Hok.
Qed.

Lemma reached_mmu t : reached t -> mmu_on t.
Proof using C.
  intros (_ & Hpd & Hc3 & Hc0 & _). unfold mmu_on. rewrite Hpd, Hc3, Hc0. apply (c_mmu R s0 C).
Qed.

Lemma reached_translate t va : reached t -> is_u32 va -> translate t va = translate s0 va.
Proof using C.
  intros Hr Hva. rewrite (translate_pte t), (translate_pte s0);
    [|apply C|apply (c_tables R s0 C)|by apply reached_mmu|by apply reached_wf].
  by destruct (reached_pte t va Hr Hva) as [_ ->].
Qed.

Lemma reached_tables t : reached t -> tables_ok t.
Proof using C.
  intros Hr. pose proof (c_tables R s0 C) as Hok. constructor; [by apply reached_wf|].
  intros g Hg. assert (Hg0 : kernel_frame s0 g).
  { destruct Hg as [Hg|Hg]; [left; by apply (reached_table t)|right].
    unfold free_frame in *. destruct Hr as (<- & _). exact Hg. }
  pose proof (kernel_frame_range s0 g Hok Hg0) as Hr0. intros a Ha.
  rewrite reached_translate; [|done|unfold is_u32; word]. by apply (ok_ident s0 Hok g).
Qed.

Lemma reached_cells t : reached t -> cells R t /\ same_map s0 t.
Proof using C.
  intros Hr. split.
  - constructor; [by apply reached_tables|by apply reached_mmu| |].
    + intros a Ha. destruct (c_dom R s0 C a Ha) as (Hu & pa & E & Hpa & Hus & Hnt). split; [done|]. exists pa.
      rewrite reached_translate by done. rewrite reached_table by done. by destruct Hr as (-> & _).
    + intros a b Ha Hb. destruct (c_dom R s0 C a Ha) as [Hua _], (c_dom R s0 C b Hb) as [Hub _].
      rewrite (reached_translate t a), (reached_translate t b) by done. by apply (c_inj R s0 C).
  - split; [apply Hr|]. intros va Hva. by apply reached_pte.
Qed.

Lemma reached_region : AddrRegion vm R reached vread.
Proof using C.
  constructor.
  - intros t a Hr Ha. destruct (c_dom R s0 C a Ha) as (Hu & pa & E & _). unfold ld8, vread. cbn [vm_space].
    by rewrite reached_translate, E by done.
  - intros t a v Hr Ha. destruct (c_dom R s0 C a Ha) as (Hu & pa & E & Hpa & _). unfold st8. cbn [vm_space].
    rewrite reached_translate, E by done. eexists. split; [done|].
    assert (Hr' : reached (on_mem (fun m => wr8 m pa v) t)).
    { destruct Hr as (H1 & H2 & H3 & H4 & Hm). split_and!; [done..|]. intros q Hq Hout. cbn [vm_mem on_mem].
      rewrite rd8_wr8_ne; [by apply Hm|]. rewrite !u32_small by done. intros <-. by apply (Hout a). }
    split_and!; [done| |].
    + unfold vread. rewrite reached_translate, E by done. apply rd8_wr8_eq.
    + intros b Hb Hne. destruct (c_dom R s0 C b Hb) as (Hub & pb & Eb & Hpb & _). unfold vread.
      rewrite (reached_translate _ b Hr'), (reached_translate _ b Hr), Eb by done. cbn [vm_mem on_mem]. apply rd8_wr8_ne. rewrite !u32_small by done.
      intros <-. apply Hne. apply (c_inj R s0 C); [done..|congruence].
Qed.

Lemma reached_refl : reached s0.
Proof. done. Qed.

(** memset and memcpy on the cells. *)
Lemma memset_cells p val n :
  0 <= p -> 0 <= n -> p + n <= 0x100000000 -> (forall a, p <= a < p + n -> R a) ->
  exists t, CString.memset p val n s0 = Done t /\ cells R t /\ same_map s0 t /\
    (forall a, p <= a < p + n -> vread t a = u8 val) /\
    (forall a, R a -> ~ p <= a < p + n -> vread t a = vread s0 a).
Proof using C.
  intros Hp Hn0 Hn HR. pose proof reached_region as HREG.
  destruct (CString.memset_loop_spec (Z.to_nat n) p val s0 reached_refl) as (t & Et & Hr & Hin & Hout);
    [lia|lia|intros; apply HR; lia|].
  destruct (reached_cells t Hr) as [Hc Hs]. exists t. split_and!; [done..| |].
  - intros a Ha. apply Hin. lia.
  - intros a Ra Ha. apply Hout; [done|lia].
Qed.

Lemma memcpy_cells d src n :
  0 <= d -> 0 <= src -> 0 <= n -> d + n <= 0x100000000 -> src + n <= 0x100000000 ->
  (forall a, d <= a < d + n -> R a) -> (forall a, src <= a < src + n -> R a) ->
  d + n <= src \/ src + n <= d ->
  exists t, CString.memcpy d src n s0 = Done t /\ cells R t /\ same_map s0 t /\
    (forall i, 0 <= i < n -> vread t (d + i) = vread s0 (src + i)) /\
    (forall a, R a -> ~ d <= a < d + n -> vread t a = vread s0 a).
Proof using C.
  intros Hd Hs Hn0 Hdn Hsn HRd HRs Hdis. pose proof reached_region as HREG.
  destruct (CString.memcpy_loop_spec (Z.to_nat n) d src s0 reached_refl) as (t & Et & Hr & Hin & Hout);
    [lia|lia|lia|lia|intros; apply HRd; lia|intros; apply HRs; lia|lia| |].
  { intros t a _. unfold vread. destruct (translate t a); [apply rd8_range|unfold is_u8; lia]. }
  destruct (reached_cells t Hr) as [Hc Hm]. exists t. split_and!; [done..| |].
  - intros i Hi. apply Hin. lia.
  - intros a Ra Ha. apply Hout; [done|lia].
Qed.
End Cells.

(** A larger set of used frames. *)
Lemma tables_ok_set_pmm s p :
  tables_ok s -> (forall g, used (vm_pmm s) g = true -> used p g = true) ->
  max_frames p = max_frames (vm_pmm s) -> tables_ok (set_pmm p s).
Proof.
  intros [[H1 H2 H3 H4 H5] I] Hm Hmax. constructor.
  - constructor; cbn; [done|by apply Hm| |done|by apply Hm].
    intros i Hi Hp. destruct (H3 i Hi Hp) as (? & ? & ?). auto.
  - intros g Hg. apply (I g). destruct Hg as [Hg|(Ht & Hlt & Hu)]; [by left|right].
    cbn [vm_pmm set_pmm] in *. split_and!; [done|by rewrite <- Hmax|].
    destruct (used (vm_pmm s) g) eqn:E; [|done]. rewrite Hm in Hu; done.
Qed.

Lemma cells_set_pmm R s p :
  (forall g, used (vm_pmm s) g = true -> used p g = true) -> max_frames p = max_frames (vm_pmm s) ->
  cells R s -> cells R (set_pmm p s).
Proof.
  intros Hp Hmax [C1 C2 C3 C4]. constructor; [by apply tables_ok_set_pmm|exact C2| |exact C4].
  intros a Ha. destruct (C3 a Ha) as (Hu & pa & E & Hpa & Hus & Hnt). split; [done|]. exists pa. split_and!; [exact E|done|by apply Hp|exact Hnt].
Qed.
