(* ===== verification/Elf.v ===== *)
(** * keyboard.c: the ELF loader and the jump to user mode

    Everything is read and written through the paged address space, the file
    image included: it lies in a kernel buffer that the segments' own pages
    could alias. *)
From Stdlib Require Import ZArith Lia ZifyBool String.
From stdpp Require Import base numbers list gmap.
From S2P Require Import Prelude Mem Memory Paging.

(** ** Fields of [struct elf32_ehdr] and [struct elf32_phdr] *)
Definition e_type : Z := 16.

Definition e_entry : Z := 24.

Definition e_phoff : Z := 28.

Definition e_phentsize : Z := 42.

Definition e_phnum : Z := 44.

Definition p_type : Z := 0.

Definition p_offset : Z := 4.

Definition p_vaddr : Z := 8.

Definition p_filesz : Z := 16.

Definition p_memsz : Z := 20.

(** [file_buf[0] == 0x7F && file_buf[1] == 'E' && ...], read from left to right
    until one differs. *)
Definition elf_magic : list Z := [0x7F; 69; 76; 70].

Fixpoint starts_with (l : list Z) (p : Z) (s : vm) : outcome bool :=
  match l with
  | [] => Done true
  | c :: l' => d ← ld8 (u32 p) s; if bool_decide (d <> c) then Done false else starts_with l' (p + 1) s
  end.

(** [for (vaddr = map_start; vaddr < map_end; vaddr += 4096u)]: [false] is the
    early [return -1]. *)
Fixpoint map_range (fuel : nat) (vaddr map_end : Z) : M vm bool :=
  match fuel with
  | O => mret true
  | S fuel' =>
      if bool_decide (vaddr < map_end) then
        pte ← reads (get_pte vaddr);
        ok ← (if bit pte 0 then mret true
              else
                s ← mget;
                let '(phys, p) := pmm_alloc_block (vm_pmm s) in
                mput (set_pmm p s);;
                if bool_decide (phys = 0) then mret false
                else map_page phys vaddr 7;; mret true);
        if (ok : bool) then map_range fuel' (u32 (vaddr + 4096)) map_end else mret false
      else mret true
  end.

(** The pages of [seg_vaddr, seg_vaddr + seg_memsz). *)
Definition map_start (seg_vaddr : Z) : Z := Z.land seg_vaddr 0xFFFFF000.

Definition map_stop (seg_vaddr seg_memsz : Z) : Z :=
  Z.land (u32 (u32 (seg_vaddr + seg_memsz) + 0xFFF)) 0xFFFFF000.

Definition map_segment (seg_vaddr seg_memsz : Z) : M vm bool :=
  let first := map_start seg_vaddr in
  let stop := map_stop seg_vaddr seg_memsz in
  map_range (Z.to_nat ((stop - first) / 4096)) first stop.

(** Copy the segment's bytes, then clear its tail. *)
Definition fill_segment (src seg_vaddr seg_filesz seg_memsz : Z) : M vm unit :=
  let copy_len := if bool_decide (seg_filesz > seg_memsz) then seg_memsz else seg_filesz in
  (if bool_decide (copy_len > 0) then stores (CString.memcpy seg_vaddr src copy_len) else mret tt);;
  (if bool_decide (seg_memsz > seg_filesz)
   then stores (CString.memset (u32 (seg_vaddr + seg_filesz)) 0 (seg_memsz - seg_filesz)) else mret tt).

(** The body of the loop for the program header at [ph]; [false] is
    [return -1], [true] goes on to the next header. *)
Definition load_phdr (file_buf file_size ph : Z) : M vm bool :=
  ty ← reads (ld32 (ph + p_type));
  if bool_decide (ty <> 1) then mret true else
  memsz ← reads (ld32 (ph + p_memsz));
  if bool_decide (memsz = 0) then mret true else
  offset ← reads (ld32 (ph + p_offset));
  filesz ← reads (ld32 (ph + p_filesz));
  if bool_decide (u32 (offset + filesz) > file_size) then mret false else
  vaddr ← reads (ld32 (ph + p_vaddr));
  ok ← map_segment vaddr memsz;
  if negb ok then mret false else
  fill_segment (u32 (file_buf + offset)) vaddr filesz memsz;;
  mret true.

(** [for (uint16_t i = 0; i < ehdr->e_phnum; ++i)]: the header is read again in
    every round. *)
Fixpoint load_phdrs (fuel : nat) (file_buf file_size i : Z) : M vm Z :=
  match fuel with
  | O => spin
  | S fuel' =>
      phnum ← reads (ld16 (file_buf + e_phnum));
      if bool_decide (i < phnum) then
        phoff ← reads (ld32 (file_buf + e_phoff));
        phentsize ← reads (ld16 (file_buf + e_phentsize));
        ok ← load_phdr file_buf file_size (u32 (file_buf + phoff + i * phentsize));
        if (ok : bool) then load_phdrs fuel' file_buf file_size (u16 (i + 1)) else mret (-1)
      else mret 0
  end.

(** The result and what [*entry_out], at first [entry_out], is afterwards.
    [i] stays below the 16-bit count, so 65536 rounds are enough. *)
Definition load_elf_program (file_buf file_size entry_out : Z) : M vm (Z * Z) :=
  if bool_decide (file_size < 52) then mret (-1, entry_out) else
  magic ← reads (starts_with elf_magic file_buf);
  if negb magic then mret (-1, entry_out) else
  type ← reads (ld16 (file_buf + e_type));
  if bool_decide (type <> 2) then mret (-1, entry_out) else
  phnum ← reads (ld16 (file_buf + e_phnum));
  if bool_decide (phnum = 0) then mret (-1, entry_out) else
  phoff ← reads (ld32 (file_buf + e_phoff));
  phentsize ← reads (ld16 (file_buf + e_phentsize));
  if bool_decide (u32 (phoff + phnum * phentsize) > file_size) then mret (-1, entry_out) else
  entry ← reads (ld32 (file_buf + e_entry));
  r ← load_phdrs (Z.to_nat 65536) file_buf file_size 0;
  mret (r, entry).

(** What [jump_to_usermode] is called with, or [None] when the function returns
    before it. *)
Definition enter_user_program (user_entry : Z) : M vm (option (Z * Z)) :=
  s ← mget;
  let '(stack_phys, p) := pmm_alloc_block (vm_pmm s) in
  mput (set_pmm p s);;
  if bool_decide (stack_phys = 0) then
    emit (Print (str "run: out of physical memory for user stack" ++ [10]));; mret None
  else
    map_page stack_phys 0x80000000 7;;
    stores (CString.memset 0x80000000 0 4096);;
    emit (Print (str "jumping to ring 3 at 0x"));;
    emit (PrintHex user_entry);;
    emit (Print (str "..." ++ [10]));;
    mret (Some (0x80000FFC, user_entry)).

(** The rest of the function, when the program has come back. *)
Definition after_user_program : M vm unit := emit (Print (str "Program exited." ++ [10])).
