(* ===== verification/ElfSpec.v ===== *)
(** * Properties of the ELF loader

    A well-formed image in a kernel buffer is loaded as the ELF format
    prescribes: every loadable segment's bytes at its virtual addresses, the
    rest of the segment zero, all of it open to user mode. *)
From Stdlib Require Import ZArith Lia ZifyBool String.
From stdpp Require Import base numbers list gmap.
From S2P Require Import Prelude Mem Memory MemoryFacts MemorySpec Paging PagingFacts PagingSpec UserMem Elf.

(** ** The image *)
Record seg := { sg_type : Z; sg_off : Z; sg_va : Z; sg_fsz : Z; sg_msz : Z }.

Definition seg_at (img : list Z) (k : Z) : seg := {|
  sg_type := get32 img (k + p_type); sg_off := get32 img (k + p_offset); sg_va := get32 img (k + p_vaddr);
  sg_fsz := get32 img (k + p_filesz); sg_msz := get32 img (k + p_memsz) |}.

Definition phdr_offset (img : list Z) (i : Z) : Z := get32 img e_phoff + i * get16 img e_phentsize.

Definition phdrs (img : list Z) : list seg :=
  (fun i => seg_at img (phdr_offset img i)) <$> seqZ 0 (get16 img e_phnum).

Definition loadable (sg : seg) : Prop := sg_type sg = 1 /\ sg_msz sg <> 0.

#[export] Instance loadable_dec sg : Decision (loadable sg).
Proof. unfold loadable. apply _. Defined.

Definition segments (img : list Z) : list seg := filter loadable (phdrs img).

(** [l] is the image's bytes from [k] on. *)
Fixpoint match_at (img l : list Z) (k : Z) : bool :=
  match l with [] => true | c :: l' => bool_decide (at_ img k = c) && match_at img l' (k + 1) end.

(** The checks on the file header, as the code makes them. *)
Definition header_ok (img : list Z) : bool :=
  bool_decide (52 <= Z.of_nat (length img)) && match_at img elf_magic 0 && bool_decide (get16 img e_type = 2) &&
  bool_decide (get16 img e_phnum <> 0) &&
  bool_decide (u32 (get32 img e_phoff + get16 img e_phnum * get16 img e_phentsize) <= Z.of_nat (length img)).

(** What the format says byte [i] of a segment is. *)
Definition seg_byte (img : list Z) (sg : seg) (i : Z) : Z :=
  if bool_decide (i < sg_fsz sg) then at_ img (sg_off sg + i) else 0.

(** The segment's bytes do not reach [b]'s. *)
Definition apart (a b : seg) : Prop := sg_va a + sg_msz a <= sg_va b \/ sg_va b + sg_msz b <= sg_va a.

(** Its pages are [first, stop). *)
Definition sg_first (sg : seg) : Z := sg_va sg / 4096.

Definition sg_stop (sg : seg) : Z := (sg_va sg + sg_msz sg + 4095) / 4096.

Definition sg_pages (sg : seg) : nat := Z.to_nat (sg_stop sg - sg_first sg).

Definition seg_fits (img : list Z) (sg : seg) : Prop :=
  sg_off sg + sg_fsz sg <= Z.of_nat (length img) /\ sg_va sg + sg_msz sg <= 0xFFFFF000.

Record valid_elf (img : list Z) : Prop := {
  ve_bytes : Forall is_u8 img;
  ve_header : 52 <= Z.of_nat (length img) < 0x100000000;
  ve_magic : match_at img elf_magic 0 = true;
  ve_type : get16 img e_type = 2;
  ve_phnum : get16 img e_phnum <> 0;
  ve_phentsize : 32 <= get16 img e_phentsize;
  ve_phdrs : get32 img e_phoff + get16 img e_phnum * get16 img e_phentsize <= Z.of_nat (length img);
  ve_fits : Forall (seg_fits img) (segments img);
  ve_apart : ForallOrdPairs apart (segments img);
}.

(** ** Mapping fresh pages *)
Lemma table_frame_used s g : tables_wf s -> table_frame s g -> used (vm_pmm s) g = true.
Proof. intros Hok [->|(i & Hi & Hp & <-)]; [apply Hok|]. by apply (table_page s Hok i Hi Hp). Qed.

Lemma page_or7 f : Z.lor (Z.lor (f * 4096) 7) 1 = Z.lor (f * 4096) 7.
Proof. by rewrite <- Z.lor_assoc. Qed.

Lemma apart_app a l1 x l2 : ForallOrdPairs apart (l1 ++ x :: l2) -> a ∈ l1 -> apart a x.
Proof.
  induction l1 as [|b l1 IH]; intros HF Ha; [by apply not_elem_of_nil in Ha|].
  cbn in HF. inversion HF as [|? ? Hb HF']; subst. apply elem_of_cons in Ha as [->|Ha]; [|by apply IH].
  rewrite Forall_app, Forall_cons in Hb. apply Hb.
Qed.

Lemma phdrs_lookup img done sg rest :
  phdrs img = done ++ sg :: rest ->
  sg = seg_at img (phdr_offset img (Z.of_nat (length done))) /\ Z.of_nat (length done) < get16 img e_phnum.
Proof.
  intros E. assert (El : phdrs img !! length done = Some sg).
  { rewrite E, lookup_app_r, Nat.sub_diag by lia. done. }
  unfold phdrs in El. rewrite list_lookup_fmap in El.
  destruct (seqZ 0 (get16 img e_phnum) !! length done) as [i|] eqn:Ei; [|done].
  apply lookup_seqZ in Ei as [-> Hlt]. injection El as <-. by rewrite Z.add_0_l.
Qed.

Section Loader.
Context (s0 : vm) (buf : Z) (img : list Z).
Abbreviation size := (Z.of_nat (length img)).

Definition in_buf (a : Z) : Prop := buf <= a < buf + size.

(** The buffer, and the pages mapped so far. *)
Definition dom (ps : list Z) (a : Z) : Prop := in_buf a \/ (is_u32 a /\ a / 4096 ∈ ps).

(** The image is in the buffer, in used frames, each byte its own. *)
Record buffer_ok : Prop := {
  bo_range : 0 <= buf /\ buf + size < 0x100000000;
  bo_cells : cells in_buf s0;
  bo_bytes : forall i, 0 <= i < size -> vread s0 (buf + i) = at_ img i;
}.

(** The first page mapped got the frame that was the lowest free one then. *)
Definition first_frame_mapped (ps : list Z) (t : vm) : Prop :=
  (ps = [] -> vm_pmm t = vm_pmm s0) /\
  (ps <> [] -> exists q, q ∈ ps /\ 0 <= q < 0x100000 /\
     pte_entry t (q * 4096) = Z.lor (fst (pmm_alloc_block (vm_pmm s0))) 7).

(** The loader's invariant: [ps] are the pages it has mapped, none of which was
    mapped before. *)
Record loading (ps : list Z) (t : vm) : Prop := {
  ld_cells : cells (dom ps) t;
  ld_user : forall a, is_u32 a -> a / 4096 ∈ ps -> user_ok t a = true;
  ld_fresh : forall a, is_u32 a -> a / 4096 ∈ ps -> present (pte_entry s0 a) = false;
  ld_rest : forall a, is_u32 a -> a / 4096 ∉ ps -> pte_entry t a = pte_entry s0 a;
  ld_buf : forall i, 0 <= i < size -> vread t (buf + i) = at_ img i;
  ld_heap : free_mem_addr (vm_pmm t) = free_mem_addr (vm_pmm s0);
  ld_first : first_frame_mapped ps t;
}.

Lemma cells_present R t a : cells R t -> R a -> present (pte_entry t a) = true.
Proof.
  intros C Ha. destruct (c_dom R t C a Ha) as (_ & pa & E & _).
  rewrite translate_pte in E; [|apply C|apply (c_tables R t C)]. by destruct (present (pte_entry t a)).
Qed.

(** A buffer address lies in no page the loader maps. *)
Lemma buf_not_mapped ps t a : buffer_ok -> loading ps t -> in_buf a -> a / 4096 ∉ ps.
Proof.
  intros B L Ha Hin. pose proof (cells_present _ _ a (bo_cells B) Ha) as Hp.
  destruct (c_dom _ _ (bo_cells B) a Ha) as [Hu _]. rewrite (ld_fresh ps t L a Hu Hin) in Hp. done.
Qed.

Lemma loading_start : buffer_ok -> loading [] s0.
Proof.
  intros B. constructor; [|intros a _ ?; set_solver..|done|apply B|done|by split].
  destruct (bo_cells B) as [H1 H2 H3 H4].
  assert (Hd : forall a, dom [] a -> in_buf a) by (intros a [?|[_ ?]]; [done|set_solver]).
  constructor; auto.
Qed.

(** One fresh page. *)
Lemma translate_fresh ps t a :
  loading ps t -> is_u32 a ->
  translate t a = if present (pte_entry t a) then Some (table_of (pte_entry t a) + a mod 4096) else None.
Proof.
  intros L Ha. pose proof (c_tables _ _ (ld_cells ps t L)) as Hok.
  apply translate_pte; [apply (c_mmu _ _ (ld_cells ps t L))|apply Hok].
Qed.

Lemma cells_new_page ps t q f s2 p :
  buffer_ok -> loading ps t -> 0 <= q < 0x100000 -> q ∉ ps ->
  present (pte_entry t (q * 4096)) = false ->
  tracked f -> used (vm_pmm t) f = false -> (forall g, used p g = (g =? f) || used (vm_pmm t) g) ->
  mapped (set_pmm p t) s2 (q * 4096) (Z.lor (f * 4096) 7) -> keeps (set_pmm p t) s2 ->
  cells (dom (q :: ps)) s2 /\ (forall a, dom ps a -> vread s2 a = vread t a).
Proof.
  intros B L Hq Hnew Hnp Hf Hfree Hused (Hok2 & Hpte & Hrest & Hpd & Hc3 & Hc0) K.
  pose proof (ld_cells ps t L) as C. pose proof (c_tables _ _ C) as Hok. pose proof (c_mmu _ _ C) as Hmmu.
  assert (Hmmu2 : mmu_on s2) by (unfold mmu_on; rewrite Hc0, Hc3, Hpd; exact Hmmu).
  assert (Hd2 : is_page (page_direc s2)) by apply Hok2.
  assert (Hqd : forall w, w / 4096 = q -> w / 4096 = q * 4096 / 4096) by (intros w ->; by rewrite Z.div_mul).
  assert (Hfp : is_page (f * 4096)) by (unfold is_page, tracked in *; split; [lia|word]).
  assert (Hp2 : used (vm_pmm s2) f = true).
  { apply (kp_used _ _ K). cbn. rewrite Hused, Z.eqb_refl. done. }
  assert (Hnt2 : ~ table_frame s2 f).
  { apply (kp_table _ _ K); [cbn; rewrite Hused, Z.eqb_refl; done|]. change (~ table_frame t f).
    intros Ht%table_frame_used; [congruence|exact Hok]. }
  (* the old domain is as it was *)
  assert (Hold : forall a, dom ps a -> a / 4096 <> q /\ translate s2 a = translate t a).
  { intros a Ha. destruct (c_dom _ _ C a Ha) as [Hu _]. pose proof (cells_present _ _ a C Ha) as Hpa.
    assert (a / 4096 <> q).
    { intros E. rewrite (pte_entry_page t a (q * 4096) (Hqd a E)) in Hpa. congruence. }
    split; [done|]. rewrite (translate_pte s2), (translate_pte t) by (done || apply Hok).
    rewrite Hrest; [done|done|]. by rewrite Z.div_mul by lia. }
  assert (Hin : forall a, is_u32 a -> a / 4096 = q -> translate s2 a = Some (f * 4096 + a mod 4096)).
  { intros a Ha E. rewrite translate_pte by done.
    rewrite (pte_entry_page s2 a (q * 4096) (Hqd a E)), Hpte, present_lor, table_of_flags by (done || lia). done. }
  assert (Hsplit : forall a, dom (q :: ps) a -> dom ps a \/ (is_u32 a /\ a / 4096 = q)).
  { intros a [?|[Hu Hx]]; [by left; left|]. apply elem_of_cons in Hx as [?|?]; [by right|by left; right]. }
  assert (Hfr : forall a, (f * 4096 + a mod 4096) / 4096 = f) by (intros; word).
  assert (Hof : forall a pa, dom ps a -> translate t a = Some pa -> pa / 4096 <> f).
  { intros a pa Ha E E'. destruct (c_dom _ _ C a Ha) as (_ & pa' & E2 & _ & Hu & _).
    rewrite E in E2. injection E2 as <-. rewrite E' in Hu. congruence. }
  split.
  - constructor; [done|done| |].
    + intros a Ha. destruct (Hsplit a Ha) as [Hd|[Hu Hqa]].
      * destruct (c_dom _ _ C a Hd) as (Hu & pa & E & Hpa & Hus & Hnt). destruct (Hold a Hd) as [_ ->].
        split; [done|]. exists pa. split_and!; [done..| |].
        -- apply (kp_used _ _ K). cbn. rewrite Hused, Hus. apply orb_true_r.
        -- apply (kp_table _ _ K); [|done]. cbn. rewrite Hused, Hus. apply orb_true_r.
      * split; [done|]. exists (f * 4096 + a mod 4096). rewrite Hfr. split_and!; [by apply Hin| |done|done].
        unfold tracked in Hf. word.
    + intros a b Ha Hb. destruct (Hsplit a Ha) as [Hda|[Hua Hqa]], (Hsplit b Hb) as [Hdb|[Hub Hqb]].
      * destruct (Hold a Hda) as [_ ->], (Hold b Hdb) as [_ ->]. by apply (c_inj _ _ C).
      * destruct (Hold a Hda) as [_ ->]. rewrite (Hin b) by done. intros E. by destruct (Hof a _ Hda E).
      * destruct (Hold b Hdb) as [_ ->]. rewrite (Hin a) by done. intros E. symmetry in E.
        by destruct (Hof b _ Hdb E).
      * rewrite (Hin a), (Hin b) by done. intros [= E]. word.
  - intros a Ha. unfold vread. destruct (Hold a Ha) as [_ ->].
    destruct (c_dom _ _ C a Ha) as (_ & pa & -> & Hpa & Hus & Hnt).
    apply (kp_mem _ _ K); [done| |done]. cbn. rewrite Hused, Hus. apply orb_true_r.
Qed.

Lemma loading_new_page ps t q f s2 p :
  buffer_ok -> loading ps t -> 0 <= q < 0x100000 -> q ∉ ps ->
  present (pte_entry s0 (q * 4096)) = false ->
  pmm_alloc_block (vm_pmm t) = (f * 4096, p) -> f <> 0 ->
  mapped (set_pmm p t) s2 (q * 4096) (Z.lor (f * 4096) 7) -> keeps (set_pmm p t) s2 ->
  loading (q :: ps) s2 /\ (forall a, dom ps a -> vread s2 a = vread t a).
Proof.
  intros B L Hq Hnew Hnp0 Ea Hf0 HM K. pose proof (alloc_block_cases (vm_pmm t)) as Ha. rewrite Ea in Ha. cbn [fst snd] in Ha.
  destruct Ha as [(f' & Ef & Hf & _ & Hfree & _ & Hused & _ & Hheap & _)|(Ef & _)]; [|lia].
  assert (f' = f) as -> by lia. clear Ef.
  assert (Hqu : is_u32 (q * 4096)) by (unfold is_u32; lia).
  assert (Hqq : q * 4096 / 4096 = q) by (apply Z.div_mul; lia).
  assert (Hnp : present (pte_entry t (q * 4096)) = false) by (by rewrite (ld_rest ps t L) by (done || by rewrite Hqq)).
  destruct (cells_new_page ps t q f s2 p B L Hq Hnew Hnp Hf Hfree Hused HM K) as [C2 Hv].
  split; [|exact Hv]. destruct HM as (_ & Hpte & Hrest & _).
  assert (Hpq : forall a, a / 4096 = q -> pte_entry s2 a = Z.lor (f * 4096) 7).
  { intros a E. rewrite <- Hpte. apply pte_entry_page. by rewrite Hqq. }
  assert (Hpo : forall a, is_u32 a -> a / 4096 <> q -> pte_entry s2 a = pte_entry t a).
  { intros a Ha E. apply Hrest; [done|]. by rewrite Hqq. }
  constructor; [done| | | | | |].
  - intros a Ha Hin. destruct (decide (a / 4096 = q)) as [E|E].
    + unfold user_ok. rewrite Hpq, present_lor by done. unfold bit. by rewrite Z.lor_spec, orb_true_r.
    + apply elem_of_cons in Hin as [?|Hin]; [done|]. unfold user_ok. rewrite Hpo by done. by apply (ld_user ps t L).
  - intros a Ha Hin. apply elem_of_cons in Hin as [E|Hin]; [|by apply (ld_fresh ps t L)].
    rewrite (pte_entry_page s0 a (q * 4096)); [done|]. by rewrite Hqq.
  - intros a Ha Hn. rewrite not_elem_of_cons in Hn. destruct Hn as [H1 H2]. rewrite Hpo by done. by apply (ld_rest ps t L).
  - intros i Hi. rewrite Hv by (left; unfold in_buf; lia). by apply (ld_buf ps t L).
  - rewrite (kp_heap _ _ K). cbn [vm_pmm set_pmm]. by rewrite Hheap, (ld_heap ps t L).
  - destruct (ld_first ps t L) as [Hnil Hcons]. split; [done|]. intros _. destruct ps as [|q0 ps].
    + exists q. split; [by left|]. split; [done|]. rewrite Hpq by done. rewrite <- Hnil, Ea by done. done.
    + destruct Hcons as (q1 & Hin & Hr & E); [done|]. exists q1. split; [by right|]. split; [done|].
      rewrite Hpo, E; [done|unfold is_u32; lia|]. rewrite Z.div_mul by lia. by intros ->.
Qed.

(** The pages of a range. *)
Lemma map_range_ok n lo m ps t Q :
  buffer_ok -> loading ps t -> 0 <= lo -> lo + Z.of_nat n <= 0xFFFFF ->
  (forall p, lo <= p < lo + Z.of_nat n -> present (pte_entry s0 (p * 4096)) = false) ->
  enough (2 * n + m) (vm_pmm t) ->
  (forall ps' t', loading ps' t' -> (forall a, dom ps a -> vread t' a = vread t a) ->
     (forall p, p ∈ ps' <-> p ∈ ps \/ lo <= p < lo + Z.of_nat n) -> enough m (vm_pmm t') -> Q true t' []) ->
  wp (map_range n (lo * 4096) ((lo + Z.of_nat n) * 4096)) t Q.
Proof.
  intros B. revert lo ps t Q. induction n as [|n IH]; intros lo ps t Q L Hlo Hhi Hfresh He HQ.
  { apply wp_ret. apply (HQ ps t); [done|done| |done]. intros p. split; [by left|]. intros [?|?]; [done|lia]. }
  cbn [map_range]. rewrite bool_decide_true by lia.
  pose proof (ld_cells ps t L) as C. pose proof (c_tables _ _ C) as Hok. pose proof (c_mmu _ _ C) as Hmmu.
  assert (Hu : u32 (lo * 4096 + 4096) = (lo + 1) * 4096) by word.
  assert (Hend : (lo + Z.of_nat (S n)) * 4096 = (lo + 1 + Z.of_nat n) * 4096) by lia.
  assert (Hlu : is_u32 (lo * 4096)) by (unfold is_u32; lia).
  assert (Hq : lo * 4096 / 4096 = lo) by (apply Z.div_mul; lia).
  assert (Hnext : forall ps1 t1, loading ps1 t1 -> (forall a, dom ps a -> vread t1 a = vread t a) ->
    (forall p, p ∈ ps1 <-> p ∈ ps \/ p = lo) -> enough (2 * n + m) (vm_pmm t1) ->
    wp (map_range n (u32 (lo * 4096 + 4096)) ((lo + Z.of_nat (S n)) * 4096)) t1 Q).
  { intros ps1 t1 L1 Hv1 Hps1 He1. rewrite Hu, Hend. apply IH with (ps := ps1); [done|lia|lia| |done|].
    - intros p Hp. apply Hfresh. lia.
    - intros ps' t' L' Hv' Hps' He'. apply (HQ ps' t'); [done| | |done].
      + intros a Ha. rewrite Hv'; [by apply Hv1|]. destruct Ha as [?|[Ha Hin]]; [by left|right]. rewrite Hps1. auto.
      + intros p. rewrite Hps', Hps1. destruct (decide (p = lo)); naive_solver lia. }
  apply wp_bind, (reads_wp _ _ (pte_entry t (lo * 4096))).
  { apply get_pte_ok; [by apply ok_mapped|done]. }
  change (bit (pte_entry t (lo * 4096)) 0) with (present (pte_entry t (lo * 4096))).
  destruct (decide (lo ∈ ps)) as [Hin|Hin].
  - assert (Hp : present (pte_entry t (lo * 4096)) = true).
    { pose proof (ld_user ps t L (lo * 4096) Hlu) as Hx. rewrite Hq in Hx. specialize (Hx Hin).
      unfold user_ok in Hx. by destruct (present (pte_entry t (lo * 4096))). }
    rewrite Hp. apply wp_bind, wp_ret. apply (Hnext ps t); [done|done| |].
    { intros p. split; [by left|]. by intros [?| ->]. }
    apply (enough_le _ (2 * S n + m)); [lia|done].
  - assert (Hnp : present (pte_entry t (lo * 4096)) = false).
    { rewrite (ld_rest ps t L) by (done || by rewrite Hq). apply Hfresh. lia. }
    rewrite Hnp. apply wp_bind, wp_bind, wp_get. cbv beta.
    replace (2 * S n + m)%nat with (S (S (2 * n + m))) in He by lia. destruct He as [Hne He].
    pose proof (alloc_block_cases (vm_pmm t)) as Ha.
    destruct (pmm_alloc_block (vm_pmm t)) as [pa p] eqn:Ea. cbn [fst snd] in *.
    destruct Ha as [(f & -> & Hf & _ & Hfree & _ & Hused & _ & _ & Hmax)|(-> & _)]; [|done].
    apply wp_bind, wp_put. rewrite bool_decide_false by done. apply wp_bind.
    assert (Hokp : tables_ok (set_pmm p t)).
    { apply tables_ok_set_pmm; [done| |done]. intros g Hg. rewrite Hused, Hg. apply orb_true_r. }
    apply map_page_ok with (n := (2 * n + m)%nat); [exact Hokp|exact Hmmu|by apply absent_not_kernel|done| |done|].
    + rewrite page_or7, lor_flags; [unfold is_u32, tracked in *; lia|by rewrite Z.mod_mul|lia].
    + intros s2 HM K He2. rewrite page_or7 in HM.
      destruct (loading_new_page ps t lo f s2 p B L) as [L2 Hv2];
        [lia|done|apply Hfresh; lia|done|lia|done|done|].
      apply wp_ret. apply (Hnext (lo :: ps) s2); [done|done| |done]. intros q. set_solver.
Qed.

(** ** Filling a segment *)

(** Stores that keep the map and the buffer keep the invariant. *)
Lemma loading_stores ps t t' :
  loading ps t -> cells (dom ps) t' -> same_map t t' ->
  (forall a, in_buf a -> vread t' a = vread t a) -> loading ps t'.
Proof.
  intros L C [Hpm Hpte] Hb. constructor; [done| |apply L| | |rewrite Hpm; exact (ld_heap ps t L)|].
  - intros a Ha Hin. unfold user_ok. rewrite Hpte by done. by apply (ld_user ps t L).
  - intros a Ha Hin. rewrite Hpte by done. by apply (ld_rest ps t L).
  - intros i Hi. rewrite Hb by (unfold in_buf; lia). by apply (ld_buf ps t L).
  - destruct (ld_first ps t L) as [Hnil Hcons]. split; [by rewrite Hpm|]. intros Hne.
    destruct (Hcons Hne) as (q & Hin & Hr & E). exists q. split; [done|]. split; [done|]. rewrite Hpte; [done|unfold is_u32; lia].
Qed.

(** [sg]'s pages are among the mapped ones. *)
Definition covers (ps : list Z) (sg : seg) : Prop := forall p, sg_first sg <= p < sg_stop sg -> p ∈ ps.

Lemma covers_dom ps sg a :
  covers ps sg -> 0 <= sg_va sg -> sg_va sg + sg_msz sg <= 0xFFFFF000 -> sg_va sg <= a < sg_va sg + sg_msz sg ->
  is_u32 a /\ a / 4096 ∈ ps.
Proof.
  intros Hc Hva Hhi Ha. split; [unfold is_u32; lia|]. apply Hc. unfold sg_first, sg_stop. word.
Qed.

Lemma fill_segment_ok ps t sg Q :
  buffer_ok -> loading ps t -> covers ps sg -> seg_fits img sg ->
  0 <= sg_off sg -> 0 <= sg_va sg -> 0 <= sg_fsz sg -> 0 < sg_msz sg ->
  (forall t', loading ps t' -> vm_pmm t' = vm_pmm t ->
     (forall j, 0 <= j < sg_msz sg -> vread t' (sg_va sg + j) = seg_byte img sg j) ->
     (forall a, dom ps a -> ~ sg_va sg <= a < sg_va sg + sg_msz sg -> vread t' a = vread t a) -> Q tt t' []) ->
  wp (fill_segment (u32 (buf + sg_off sg)) (sg_va sg) (sg_fsz sg) (sg_msz sg)) t Q.
Proof.
  intros B L Hcov [Hoff Hhi] Ho Hva Hfs Hms HQ. destruct (bo_range B) as [Hb0 Hb1].
  assert (Hdst : forall a, sg_va sg <= a < sg_va sg + sg_msz sg -> is_u32 a /\ a / 4096 ∈ ps).
  { intros a. by apply covers_dom. }
  assert (Hbuf : forall a, in_buf a -> ~ sg_va sg <= a < sg_va sg + sg_msz sg).
  { intros a Ha Hd. apply (buf_not_mapped ps t a B L Ha). by apply Hdst. }
  unfold fill_segment. set (n := if bool_decide (sg_fsz sg > sg_msz sg) then sg_msz sg else sg_fsz sg).
  assert (Hn : n = Z.min (sg_fsz sg) (sg_msz sg)) by (unfold n; case_bool_decide; lia). clearbody n.
  apply wp_bind.
  assert (Hcopy : forall P, (forall t1, loading ps t1 -> vm_pmm t1 = vm_pmm t ->
      (forall j, 0 <= j < n -> vread t1 (sg_va sg + j) = at_ img (sg_off sg + j)) ->
      (forall a, dom ps a -> ~ sg_va sg <= a < sg_va sg + n -> vread t1 a = vread t a) -> P tt t1 []) ->
    wp (if bool_decide (n > 0) then stores (CString.memcpy (sg_va sg) (u32 (buf + sg_off sg)) n) else mret tt) t P).
  { intros P HP. case_bool_decide as Hpos.
    2:{ apply wp_ret, HP; [done|done|lia|done]. }
    rewrite u32_small by (unfold is_u32; lia).
    destruct (memcpy_cells (dom ps) t (ld_cells ps t L) (sg_va sg) (buf + sg_off sg) n) as (t1 & E & C1 & S1 & Hin & Hout);
      [lia|lia|lia|lia|lia| | | |].
    { intros a Ha. right. apply Hdst. lia. }
    { intros a Ha. left. unfold in_buf. lia. }
    { destruct (decide (sg_va sg + n <= buf + sg_off sg)); [by left|].
      destruct (decide (buf + sg_off sg + n <= sg_va sg)); [by right|]. exfalso.
      apply (Hbuf (Z.max (sg_va sg) (buf + sg_off sg))); unfold in_buf; lia. }
    unfold stores. apply wp_bind, wp_get. cbv beta zeta. apply wp_bind, (wp_lift t1); [done|]. apply wp_put.
    apply HP; [|by destruct S1| |done].
    - apply (loading_stores ps t); [done..|]. intros a Ha. apply Hout; [by left|]. intros ?. apply (Hbuf a Ha). lia.
    - intros j Hj. rewrite Hin by done. rewrite <- Z.add_assoc. apply (ld_buf ps t L). lia. }
  apply Hcopy. clear Hcopy. intros t1 L1 Hp1 Hin1 Hout1. cbn [app].
  case_bool_decide as Hgt.
  - rewrite u32_small by (unfold is_u32; lia).
    destruct (memset_cells (dom ps) t1 (ld_cells ps t1 L1) (sg_va sg + sg_fsz sg) 0 (sg_msz sg - sg_fsz sg))
      as (t2 & E & C2 & S2 & Hin & Hout); [lia|lia|lia| |].
    { intros a Ha. right. apply Hdst. lia. }
    unfold stores. apply wp_bind, wp_get. cbv beta zeta. apply wp_bind, (wp_lift t2); [done|]. apply wp_put.
    apply HQ; [|by destruct S2 as [-> _]| |].
    + apply (loading_stores ps t1); [done..|]. intros a Ha. apply Hout; [by left|]. intros ?. apply (Hbuf a Ha). lia.
    + intros j Hj. unfold seg_byte. case_bool_decide.
      * rewrite Hout; [apply Hin1; lia|right; apply Hdst; lia|lia].
      * rewrite Hin by lia. done.
    + intros a Ha Hd. rewrite Hout by (done || lia). apply Hout1; [done|lia].
  - apply wp_ret, HQ; [done|done| |].
    + intros j Hj. unfold seg_byte. rewrite bool_decide_true by lia. apply Hin1. lia.
    + intros a Ha Hd. apply Hout1; [done|lia].
Qed.

(** ** Reading the headers *)
Lemma read8 ps t k : buffer_ok -> loading ps t -> 0 <= k < size -> ld8 (u32 (buf + k)) t = Done (at_ img k).
Proof.
  intros B L Hk. destruct (bo_range B). rewrite u32_small by (unfold is_u32; lia).
  rewrite <- (ld_buf ps t L k Hk). pose proof (reached_region _ _ (ld_cells ps t L)) as HREG.
  apply (region_ld t); [apply reached_refl|]. left. unfold in_buf. lia.
Qed.

Lemma read16 ps t k : buffer_ok -> loading ps t -> 0 <= k -> k + 2 <= size -> ld16 (buf + k) t = Done (get16 img k).
Proof.
  intros B L H0 Hk. unfold ld16. rewrite (read8 ps t k), <- !Z.add_assoc, (read8 ps t (k + 1)) by (done || lia). done.
Qed.

Lemma read32 ps t k : buffer_ok -> loading ps t -> 0 <= k -> k + 4 <= size -> ld32 (buf + k) t = Done (get32 img k).
Proof.
  intros B L H0 Hk. unfold ld32.
  rewrite (read8 ps t k), <- !Z.add_assoc, (read8 ps t (k + 1)), (read8 ps t (k + 2)), (read8 ps t (k + 3)) by (done || lia).
  done.
Qed.

(** ** One program header *)
Definition pages_of (sg : seg) : nat := if decide (loadable sg) then sg_pages sg else O.

Lemma map_segment_ok ps t sg m Q :
  buffer_ok -> loading ps t -> is_u32 (sg_va sg) -> 0 <= sg_msz sg -> sg_va sg + sg_msz sg <= 0xFFFFF000 ->
  (forall p, sg_first sg <= p < sg_stop sg -> present (pte_entry s0 (p * 4096)) = false) ->
  enough (2 * sg_pages sg + m) (vm_pmm t) ->
  (forall ps' t', loading ps' t' -> (forall a, dom ps a -> vread t' a = vread t a) ->
     (forall p, p ∈ ps' <-> p ∈ ps \/ sg_first sg <= p < sg_stop sg) -> enough m (vm_pmm t') -> Q true t' []) ->
  wp (map_segment (sg_va sg) (sg_msz sg)) t Q.
Proof.
  intros B L Hva Hm Hhi Hfresh He HQ. unfold map_segment. cbv zeta. unfold is_u32 in Hva.
  assert (Hstart : map_start (sg_va sg) = sg_first sg * 4096) by (apply land_page; done).
  assert (Hstop : map_stop (sg_va sg) (sg_msz sg) = sg_stop sg * 4096).
  { unfold map_stop. rewrite (u32_small (sg_va sg + sg_msz sg)) by (unfold is_u32; lia).
    rewrite u32_small by (unfold is_u32; lia). apply land_page. unfold is_u32. lia. }
  assert (Hle : 0 <= sg_first sg <= sg_stop sg /\ sg_stop sg <= 0xFFFFF) by (unfold sg_first, sg_stop; word).
  assert (Hn : Z.of_nat (sg_pages sg) = sg_stop sg - sg_first sg) by (unfold sg_pages; lia).
  rewrite Hstart, Hstop. replace (Z.to_nat ((sg_stop sg * 4096 - sg_first sg * 4096) / 4096)) with (sg_pages sg).
  2:{ unfold sg_pages. rewrite <- Z.mul_sub_distr_r, Z.div_mul by lia. done. }
  replace (sg_stop sg * 4096) with ((sg_first sg + Z.of_nat (sg_pages sg)) * 4096) by lia.
  apply map_range_ok with (ps := ps) (m := m); [done|done|lia|lia| |done|].
  - intros p Hp. apply Hfresh. lia.
  - intros ps' t' L' Hv Hps He'. apply (HQ ps' t'); [done|done| |done]. intros p. rewrite Hps. 
    by replace (sg_first sg + Z.of_nat (sg_pages sg)) with (sg_stop sg) by lia.
Qed.

(** The segment can be loaded from the initial state. *)
Definition seg_ready (sg : seg) : Prop :=
  seg_fits img sg /\ forall p, sg_first sg <= p < sg_stop sg -> present (pte_entry s0 (p * 4096)) = false.

Definition seg_loaded (t : vm) (sg : seg) : Prop :=
  forall j, 0 <= j < sg_msz sg -> vread t (sg_va sg + j) = seg_byte img sg j.

Lemma load_phdr_ok ps t k m Q :
  let sg := seg_at img k in
  buffer_ok -> loading ps t -> Forall is_u8 img -> 0 <= k -> k + 32 <= size ->
  (loadable sg -> seg_ready sg) -> enough (2 * pages_of sg + m) (vm_pmm t) ->
  (forall ps' t', loading ps' t' -> enough m (vm_pmm t') ->
     (forall p, p ∈ ps' <-> p ∈ ps \/ (loadable sg /\ sg_first sg <= p < sg_stop sg)) ->
     (loadable sg -> seg_loaded t' sg) ->
     (forall a, dom ps a -> (loadable sg -> ~ sg_va sg <= a < sg_va sg + sg_msz sg) -> vread t' a = vread t a) ->
     Q true t' []) ->
  wp (load_phdr buf size (u32 (buf + k))) t Q.
Proof.
  intros sg B L Hby Hk Hk32 Hready He HQ. destruct (bo_range B) as [Hb0 Hb1].
  rewrite u32_small by (unfold is_u32; lia). unfold load_phdr.
  assert (R : forall j, 0 <= j -> j + 4 <= 32 -> ld32 (buf + k + j) t = Done (get32 img (k + j))).
  { intros j H0 Hj. rewrite <- Z.add_assoc. apply (read32 ps); [done|done|lia|lia]. }
  pose proof (get32_u32 img (k + p_offset) Hby) as Uo. pose proof (get32_u32 img (k + p_vaddr) Hby) as Uv.
  pose proof (get32_u32 img (k + p_filesz) Hby) as Uf. pose proof (get32_u32 img (k + p_memsz) Hby) as Um.
  assert (Hskip : ~ loadable sg -> Q true t []).
  { intros Hn. apply (HQ ps t); [done| |naive_solver|done|done].
    unfold pages_of in He. by rewrite decide_False in He. }
  apply wp_bind, (reads_wp _ _ (sg_type sg)); [by apply R|].
  case_bool_decide as Hty. { apply wp_ret, Hskip. by intros [? _]. }
  apply wp_bind, (reads_wp _ _ (sg_msz sg)); [by apply R|].
  case_bool_decide as Hmz. { apply wp_ret, Hskip. by intros [_ ?]. }
  assert (Hl : loadable sg) by (split; [lia|done]).
  destruct (Hready Hl) as [[Hoff Hhi] Hfresh]. unfold pages_of in He. rewrite decide_True in He by done.
  change (is_u32 (sg_off sg)) in Uo. change (is_u32 (sg_va sg)) in Uv. change (is_u32 (sg_fsz sg)) in Uf.
  change (is_u32 (sg_msz sg)) in Um. unfold is_u32 in Uo, Uf, Um. pose proof Uv as Uv'. unfold is_u32 in Uv'.
  apply wp_bind, (reads_wp _ _ (sg_off sg)); [by apply R|].
  apply wp_bind, (reads_wp _ _ (sg_fsz sg)); [by apply R|].
  rewrite u32_small by (unfold is_u32; lia). rewrite bool_decide_false by lia.
  apply wp_bind, (reads_wp _ _ (sg_va sg)); [by apply R|].
  apply wp_bind. apply map_segment_ok with (ps := ps) (m := m); [done|done|done|lia|done|done|done|].
  intros ps1 t1 L1 Hv1 Hps1 He1. cbn [negb]. apply wp_bind.
  apply fill_segment_ok with (ps := ps1); [done|done| |done|lia|lia|lia|lia|].
  { intros p Hp. rewrite Hps1. by right. }
  intros t2 L2 Hp2 Hin Hout. apply wp_ret. apply (HQ ps1 t2); [done|by rewrite Hp2| |by intros _|].
  - intros p. rewrite Hps1. naive_solver.
  - intros a Ha Hn. rewrite Hout; [by apply Hv1| |by apply Hn].
    destruct Ha as [?|[? ?]]; [by left|right]. rewrite Hps1. auto.
Qed.

(** ** The whole file *)
Definition page_of (l : list seg) (p : Z) : Prop := exists sg, sg ∈ l /\ sg_first sg <= p < sg_stop sg.

Lemma phdr_bounds i : valid_elf img -> 0 <= i < get16 img e_phnum ->
  0 <= phdr_offset img i /\ phdr_offset img i + 32 <= size.
Proof.
  intros V Hi. pose proof (ve_phdrs _ V) as Hp. pose proof (ve_phentsize _ V) as Hs.
  pose proof (get32_u32 img e_phoff (ve_bytes _ V)) as Ho. unfold is_u32, phdr_offset in *. nia.
Qed.

Lemma load_phdrs_ok m rest : forall pre ps t fuel Q,
  valid_elf img -> buffer_ok -> Forall seg_ready (segments img) ->
  phdrs img = pre ++ rest -> (length rest < fuel)%nat -> loading ps t ->
  enough (2 * sum_list (pages_of <$> rest) + m) (vm_pmm t) ->
  (forall p, p ∈ ps <-> page_of (filter loadable pre) p) ->
  (forall sg, sg ∈ filter loadable pre -> seg_loaded t sg) ->
  (forall ps' t', loading ps' t' -> (forall p, p ∈ ps' <-> page_of (segments img) p) ->
     (forall sg, sg ∈ segments img -> seg_loaded t' sg) -> enough m (vm_pmm t') -> Q 0 t' []) ->
  wp (load_phdrs fuel buf size (Z.of_nat (length pre))) t Q.
Proof.
  induction rest as [|sg rest IH]; intros pre ps t [|fuel] Q V B Hrdy Eph Hfuel L He Hps Hld HQ;
    cbn [length] in Hfuel; try lia; cbn [load_phdrs]; destruct (bo_range B) as [Hb0 Hb1]; pose proof (ve_bytes _ V) as Hby;
    pose proof (ve_header _ V) as Hhd; pose proof (get16_u16 img e_phnum Hby) as Un; unfold is_u16 in Un;
    (apply wp_bind, (reads_wp _ _ (get16 img e_phnum)); [apply (read16 ps); [done|done|(unfold e_phnum; lia)..]|]).
  - rewrite app_nil_r in Eph. assert (Hlen : Z.of_nat (length pre) = get16 img e_phnum).
    { rewrite <- Eph. unfold phdrs. rewrite length_fmap, length_seqZ. lia. }
    rewrite bool_decide_false by lia. apply wp_ret, (HQ ps t); [done| | |done]; unfold segments; rewrite Eph; done.
  - destruct (phdrs_lookup _ _ _ _ Eph) as [Esg Hlt]. rewrite bool_decide_true by done.
    apply wp_bind, (reads_wp _ _ (get32 img e_phoff)); [apply (read32 ps); [done|done|(unfold e_phoff; lia)..]|].
    apply wp_bind, (reads_wp _ _ (get16 img e_phentsize)); [apply (read16 ps); [done|done|(unfold e_phentsize; lia)..]|].
    set (i := Z.of_nat (length pre)) in *.
    destruct (phdr_bounds i V) as [Hk0 Hk32]; [lia|].
    replace (buf + get32 img e_phoff + i * get16 img e_phentsize) with (buf + phdr_offset img i) by (unfold phdr_offset; lia).
    assert (Hseg : segments img = filter loadable pre ++ filter loadable (sg :: rest)).
    { unfold segments. by rewrite Eph, filter_app. }
    rewrite fmap_cons in He. cbn [sum_list] in He.
    replace (2 * (pages_of sg + sum_list (pages_of <$> rest)) + m)%nat
      with (2 * pages_of sg + (2 * sum_list (pages_of <$> rest) + m))%nat in He by lia.
    apply wp_bind. apply load_phdr_ok with (ps := ps) (m := (2 * sum_list (pages_of <$> rest) + m)%nat);
      rewrite <- ?Esg; [done|done|done|done|done| |done|].
    { intros Hl. rewrite Forall_forall in Hrdy. apply Hrdy. rewrite Hseg, filter_cons_True by done. apply elem_of_app. right. by left. }
    intros ps1 t1 L1 He1 Hps1 Hin1 Hout1.
    replace (u16 (i + 1)) with (Z.of_nat (length (pre ++ [sg]))).
    2:{ rewrite length_app. cbn [length]. rewrite u16_small by (unfold is_u16; lia). lia. }
    assert (Hfsg : forall x, x ∈ filter loadable (pre ++ [sg]) <-> x ∈ filter loadable pre \/ (loadable sg /\ x = sg)).
    { intros x. rewrite filter_app, elem_of_app, (list_elem_of_filter _ [sg]), list_elem_of_singleton.
      split; (intros [?|[? ->]]; [by left|by right]). }
    apply IH with (ps := ps1); [done|done|done| |lia|done|done| | |done].
    + by rewrite Eph, <- app_assoc.
    + intros p. rewrite Hps1, Hps. unfold page_of. split.
      * intros [(x & Hx & ?)|[? ?]]; [exists x|exists sg]; (split; [|done]); rewrite Hfsg; auto.
      * intros (x & Hx & Hp). rewrite Hfsg in Hx. destruct Hx as [?|[? ->]]; [left; eauto|by right].
    + intros x Hx. rewrite Hfsg in Hx. destruct Hx as [Hx|[Hl ->]]; [|by apply Hin1].
      intros j Hj. assert (Hxs : x ∈ segments img) by (rewrite Hseg; apply elem_of_app; by left).
      rewrite Forall_forall in Hrdy. destruct (Hrdy x Hxs) as [[Hxo Hxh] _].
      pose proof (get32_u32 img) as Ug.
      assert (Hx0 : 0 <= sg_va x).
      { unfold segments in Hxs. apply list_elem_of_filter in Hxs as [_ Hxs]. unfold phdrs in Hxs.
        apply list_elem_of_fmap in Hxs as (k & -> & _). cbn [sg_va seg_at]. destruct (Ug (phdr_offset img k + p_vaddr) Hby). lia. }
      rewrite Hout1; [by apply Hld| |].
      * right. assert (Hr : sg_va x <= sg_va x + j < sg_va x + sg_msz x) by lia.
        split; [unfold is_u32; lia|]. rewrite Hps. exists x. split; [done|]. unfold sg_first, sg_stop. word.
      * intros Hl. pose proof (ve_apart _ V) as Hap. rewrite Hseg, filter_cons_True in Hap by done.
        pose proof (apart_app x _ _ _ Hap Hx) as [?|?]; lia.
Qed.

Lemma starts_with_ok ps t l k :
  buffer_ok -> loading ps t -> 0 <= k -> k + Z.of_nat (length l) <= size ->
  starts_with l (buf + k) t = Done (match_at img l k).
Proof.
  intros B L. revert k. induction l as [|c l IH]; intros k Hk Hl; [done|]. cbn [starts_with match_at length] in *.
  rewrite (read8 ps t k) by (done || lia). unfold mbind, outcome_bind. case_bool_decide as E.
  - by rewrite bool_decide_false.
  - rewrite bool_decide_true by (by destruct (decide (at_ img k = c))). rewrite <- Z.add_assoc. apply IH; lia.
Qed.

(** The checks of the header decide between rejecting the file, with nothing
    changed, and going through the program headers. *)
Lemma load_elf_header entry0 Q :
  buffer_ok -> Forall is_u8 img ->
  (header_ok img = false -> Q (-1, entry0) s0 []) ->
  (header_ok img = true ->
     wp (load_phdrs (Z.to_nat 65536) buf size 0) s0 (fun r t o => Q (r, get32 img e_entry) t (o ++ []))) ->
  wp (load_elf_program buf size entry0) s0 Q.
Proof.
  intros B Hby Hbad Hgood. pose proof (loading_start B) as L. destruct (bo_range B) as [Hb0 Hb1].
  unfold header_ok in Hbad, Hgood. unfold load_elf_program.
  destruct (decide (size < 52)) as [Hlen|Hlen].
  { rewrite bool_decide_true by done. rewrite bool_decide_false in Hbad by lia. by apply wp_ret, Hbad. }
  rewrite bool_decide_false by done.
  rewrite bool_decide_true in Hbad, Hgood by lia. cbn [andb] in Hbad, Hgood.
  apply wp_bind, (reads_wp _ _ (match_at img elf_magic 0)).
  { rewrite <- (Z.add_0_r buf). apply (starts_with_ok []); [done|done|lia|unfold elf_magic; cbn [length]; lia]. }
  destruct (match_at img elf_magic 0); cbn [negb andb] in *; [|by apply wp_ret, Hbad].
  apply wp_bind, (reads_wp _ _ (get16 img e_type)); [apply (read16 []); [done|done|(unfold e_type; lia)..]|].
  destruct (decide (get16 img e_type = 2)) as [Ht|Ht].
  2:{ rewrite bool_decide_true by done. rewrite bool_decide_false in Hbad by done. by apply wp_ret, Hbad. }
  rewrite bool_decide_false by lia. rewrite (bool_decide_true (get16 img e_type = 2)) in Hbad, Hgood by done.
  cbn [andb] in *.
  apply wp_bind, (reads_wp _ _ (get16 img e_phnum)); [apply (read16 []); [done|done|(unfold e_phnum; lia)..]|].
  destruct (decide (get16 img e_phnum = 0)) as [Hn|Hn].
  { rewrite bool_decide_true by done. rewrite bool_decide_false in Hbad by tauto. by apply wp_ret, Hbad. }
  rewrite bool_decide_false by done. rewrite (bool_decide_true (get16 img e_phnum <> 0)) in Hbad, Hgood by done.
  cbn [andb] in *.
  apply wp_bind, (reads_wp _ _ (get32 img e_phoff)); [apply (read32 []); [done|done|(unfold e_phoff; lia)..]|].
  apply wp_bind, (reads_wp _ _ (get16 img e_phentsize)); [apply (read16 []); [done|done|(unfold e_phentsize; lia)..]|].
  destruct (decide (u32 (get32 img e_phoff + get16 img e_phnum * get16 img e_phentsize) <= size)) as [Hp|Hp].
  2:{ rewrite bool_decide_true by lia. rewrite bool_decide_false in Hbad by lia. by apply wp_ret, Hbad. }
  rewrite bool_decide_false by lia. rewrite bool_decide_true in Hgood by lia.
  apply wp_bind, (reads_wp _ _ (get32 img e_entry)); [apply (read32 []); [done|done|(unfold e_entry; lia)..]|].
  apply wp_bind. eapply wp_mono; [by apply Hgood|]. intros r t o Hr. by apply wp_ret.
Qed.
(** A well-formed executable is loaded, with [m] frames to spare. *)
Lemma load_elf_ok entry0 m Q :
  valid_elf img -> buffer_ok -> Forall seg_ready (segments img) ->
  enough (2 * sum_list (pages_of <$> phdrs img) + m) (vm_pmm s0) ->
  (forall ps t, loading ps t -> (forall p, p ∈ ps <-> page_of (segments img) p) ->
     (forall sg, sg ∈ segments img -> seg_loaded t sg) -> enough m (vm_pmm t) -> Q (0, get32 img e_entry) t []) ->
  wp (load_elf_program buf size entry0) s0 Q.
Proof.
  intros V B Hrdy He HQ. apply load_elf_header; [done|apply V| |].
  { intros Hh. exfalso. unfold header_ok in Hh. pose proof (ve_header _ V). pose proof (ve_phdrs _ V).
    rewrite (ve_magic _ V), (ve_type _ V) in Hh. pose proof (ve_phnum _ V). pose proof (ve_phentsize _ V).
    pose proof (get32_u32 img e_phoff (ve_bytes _ V)) as Ho. pose proof (get16_u16 img e_phnum (ve_bytes _ V)) as Hn.
    unfold is_u32, is_u16 in *. rewrite u32_small in Hh by (unfold is_u32; nia).
    rewrite !bool_decide_true in Hh by (done || lia). done. }
  intros _. apply (load_phdrs_ok m (phdrs img) []) with (ps := []); [done..| | |done| | |].
  - unfold phdrs. rewrite length_fmap, length_seqZ. pose proof (get16_u16 img e_phnum (ve_bytes _ V)) as Hn.
    unfold is_u16 in Hn. lia.
  - by apply loading_start.
  - intros p. split; [by intros ?%not_elem_of_nil|]. intros (x & Hx & _). by apply not_elem_of_nil in Hx.
  - intros x Hx. by apply not_elem_of_nil in Hx.
  - intros ps t L Hps Hld He'. by apply (HQ ps t).
Qed.

(** The bytes of a loaded segment are open to user mode. *)
Lemma loaded_user ps t sg j :
  valid_elf img -> Forall seg_ready (segments img) -> loading ps t -> (forall p, page_of (segments img) p -> p ∈ ps) ->
  sg ∈ segments img -> 0 <= j < sg_msz sg ->
  is_u32 (sg_va sg + j) /\ (sg_va sg + j) / 4096 ∈ ps /\ user_ok t (sg_va sg + j) = true.
Proof.
  intros V Hrdy L Hps Hsg Hj. rewrite Forall_forall in Hrdy. destruct (Hrdy sg Hsg) as [[_ Hhi] _].
  pose proof Hsg as Hx. unfold segments, phdrs in Hx. apply list_elem_of_filter in Hx as [_ Hx].
  apply list_elem_of_fmap in Hx as (k & Ek & _).
  pose proof (get32_u32 img (phdr_offset img k + p_vaddr) (ve_bytes _ V)) as Hva.
  assert (Hv0 : 0 <= sg_va sg) by (rewrite Ek; cbn; unfold is_u32 in Hva; lia).
  assert (Hu : is_u32 (sg_va sg + j)) by (unfold is_u32; lia).
  assert (Hin : (sg_va sg + j) / 4096 ∈ ps).
  { apply Hps. exists sg. split; [done|]. unfold sg_first, sg_stop. word. }
  split_and!; [done|done|]. by apply (ld_user ps t L).
Qed.
End Loader.

(** ** The theorems *)

(** Every loadable segment is in memory, open to user mode. *)
Definition image_loaded (img : list Z) (t : vm) : Prop :=
  forall sg j, sg ∈ segments img -> 0 <= j < sg_msz sg ->
    vread t (sg_va sg + j) = seg_byte img sg j /\ user_ok t (sg_va sg + j) = true.

(** C8: load_elf_program loads every well-formed executable whose segments' pages are not mapped yet, given enough free frames: it returns 0 and the entry point; every loadable segment is at its virtual addresses, the file's bytes first and zeroes after, readable in user mode; the file buffer is intact; addresses outside the segments' pages translate as before; and the page tables stay well formed. *)
Theorem load_elf_program_spec s buf img entry0 :
  valid_elf img -> buffer_ok s buf img -> Forall (seg_ready s img) (segments img) ->
  enough (2 * sum_list (pages_of <$> phdrs img)) (vm_pmm s) ->
  wp (load_elf_program buf (Z.of_nat (length img)) entry0) s (fun r t o =>
    r = (0, get32 img e_entry) /\ o = [] /\ image_loaded img t /\
    (forall i, 0 <= i < Z.of_nat (length img) -> vread t (buf + i) = at_ img i) /\
    (forall a, is_u32 a -> ~ page_of (segments img) (a / 4096) -> pte_entry t a = pte_entry s a) /\
    tables_ok t /\ mmu_on t).
Proof.
  intros V B Hrdy He. apply (load_elf_ok s buf img entry0 0); [done..|by rewrite Nat.add_0_r|].
  intros ps t L Hps Hld _. split_and!; [done|done| |apply (ld_buf _ _ _ _ _ L)| | |].
  - intros sg j Hsg Hj. split; [by apply Hld|].
    apply (loaded_user s buf img ps t sg j); [done..| |done|done]. intros p. by apply Hps.
  - intros a Ha Hn. apply (ld_rest _ _ _ _ _ L); [done|]. by rewrite Hps.
  - apply (c_tables _ _ (ld_cells _ _ _ _ _ L)).
  - apply (c_mmu _ _ (ld_cells _ _ _ _ _ L)).
Qed.

(** C36: a file whose header the checks refuse (too short, no ELF magic, not an executable, no program headers, headers outside the file) is rejected with -1 and nothing at all is changed. *)
Theorem load_elf_program_rejects s buf img entry0 :
  buffer_ok s buf img -> Forall is_u8 img -> header_ok img = false ->
  wp (load_elf_program buf (Z.of_nat (length img)) entry0) s (fun r t o => r = (-1, entry0) /\ t = s /\ o = []).
Proof. intros B Hby Hh. apply load_elf_header; [done..|congruence]. Qed.

(** ** A concrete executable

    One segment of four bytes (and two more of zeroes) at 0x08048000; the
    buffer is the page [demo_vm] maps. *)
Definition demo_elf : list Z :=
  elf_magic ++ replicate 12 0 ++ [2; 0; 3; 0; 1; 0; 0; 0]
  ++ [0x00; 0x80; 0x04; 0x08] ++ [52; 0; 0; 0] ++ replicate 8 0 ++ [52; 0; 32; 0; 1; 0] ++ replicate 6 0
  ++ [1; 0; 0; 0] ++ [84; 0; 0; 0] ++ [0x00; 0x80; 0x04; 0x08] ++ [0x00; 0x80; 0x04; 0x08]
  ++ [4; 0; 0; 0] ++ [6; 0; 0; 0] ++ [7; 0; 0; 0] ++ [0; 0x10; 0; 0]
  ++ [0xB8; 1; 0; 0xCC].

Definition elf_buf : Z := 0x40000000.

Definition elf_vm (img : list Z) : vm := on_mem (fun m => poke m 0x3000 img) demo_vm.

Lemma demo_translate img a : (length img <= 4096)%nat -> in_buf elf_buf img a ->
  translate demo_vm a = Some (a - elf_buf + 0x3000).
Proof.
  intros Hl Ha. unfold in_buf, elf_buf in *.
  rewrite translate_pte by (exact demo_mmu_on || exact (proj1 (dir_page _ demo_tables_wf))).
  rewrite (pte_entry_page demo_vm a 0x40000000) by word.
  change (pte_entry demo_vm 0x40000000) with 0x3007. cbn [present]. change (present 0x3007) with true.
  change (table_of 0x3007) with 0x3000. f_equal. word.
Qed.

Lemma demo_cells img : (length img <= 4096)%nat -> cells (in_buf elf_buf img) demo_vm.
Proof.
  intros Hl. constructor; [exact demo_tables_ok|exact demo_mmu_on| |].
  - intros a Ha. pose proof (demo_translate img a Hl Ha) as E. unfold in_buf, elf_buf in *.
    split; [unfold is_u32; lia|]. eexists. split; [exact E|]. split; [unfold is_u32; lia|].
    replace ((a - 0x40000000 + 0x3000) / 4096) with 3 by word. split; [reflexivity|exact demo_not_table].
  - intros a b Ha Hb. rewrite (demo_translate img a), (demo_translate img b) by done. intros [= ?]. lia.
Qed.

Lemma elf_vm_reached img : (length img <= 4096)%nat -> reached (in_buf elf_buf img) demo_vm (elf_vm img).
Proof.
  intros Hl. split_and!; [done..|]. intros pa Hpa Hout. unfold elf_vm. cbn [vm_mem on_mem].
  rewrite rd8_poke by (done || lia). rewrite bool_decide_false; [done|]. intros Hin.
  apply (Hout (pa - 0x3000 + elf_buf)); [unfold in_buf, elf_buf; lia|].
  rewrite (demo_translate img) by (done || unfold in_buf, elf_buf; lia). f_equal. lia.
Qed.

Lemma elf_vm_buffer img : (length img <= 4096)%nat -> Forall is_u8 img -> buffer_ok (elf_vm img) elf_buf img.
Proof.
  intros Hl Hby. pose proof (demo_cells img Hl) as C. pose proof (elf_vm_reached img Hl) as Hr.
  destruct (reached_cells _ _ C _ Hr) as [C' _]. constructor; [unfold elf_buf; lia|done|].
  intros i Hi. unfold vread. assert (Hin : in_buf elf_buf img (elf_buf + i)) by (unfold in_buf; lia).
  rewrite (reached_translate _ _ C _ _ Hr), (demo_translate img) by (done || unfold is_u32, elf_buf; lia).
  unfold elf_vm. cbn [vm_mem on_mem]. rewrite rd8_poke by (lia || unfold is_u32, elf_buf; lia).
  rewrite bool_decide_true by (unfold elf_buf; lia). replace (elf_buf + i - elf_buf + 0x3000 - 0x3000) with i by lia.
  apply u8_small. by apply at_u8.
Qed.

Lemma demo_elf_bytes : Forall is_u8 demo_elf.
Proof. apply (bool_decide_unpack _). vm_compute. exact I. Qed.

Lemma demo_segments : segments demo_elf = [{| sg_type := 1; sg_off := 84; sg_va := 0x08048000; sg_fsz := 4; sg_msz := 6 |}].
Proof. reflexivity. Qed.

Lemma demo_elf_valid : valid_elf demo_elf.
Proof.
  constructor.
  - exact demo_elf_bytes.
  - change (length demo_elf) with 88%nat. lia.
  - vm_compute. reflexivity.
  - vm_compute. reflexivity.
  - vm_compute. congruence.
  - vm_compute. congruence.
  - vm_compute. congruence.
  - rewrite demo_segments. constructor; [|done]. split; vm_compute; congruence.
  - rewrite demo_segments. constructor; [done|]. constructor.
Qed.

Lemma demo_ready : Forall (seg_ready (elf_vm demo_elf) demo_elf) (segments demo_elf).
Proof.
  rewrite demo_segments. constructor; [|done]. split; [split; vm_compute; congruence|].
  intros p Hp. unfold sg_first, sg_stop in Hp. cbn [sg_va sg_msz] in Hp.
  assert (p = 0x8048) as -> by word. vm_compute. reflexivity.
Qed.

Lemma demo_enough : enough (2 * sum_list (pages_of <$> phdrs demo_elf)) (vm_pmm (elf_vm demo_elf)).
Proof.
  assert (E : (2 * sum_list (pages_of <$> phdrs demo_elf))%nat = 2%nat) by (vm_compute; reflexivity).
  rewrite E. cbn [enough]. split_and!; [| |exact I].
  - assert (Ha : fst (pmm_alloc_block (vm_pmm (elf_vm demo_elf))) = 0x5000) by (vm_compute; reflexivity).
    by rewrite Ha.
  - assert (Ha : fst (pmm_alloc_block (snd (pmm_alloc_block (vm_pmm (elf_vm demo_elf))))) = 0x6000) by (vm_compute; reflexivity).
    by rewrite Ha.
Qed.

Lemma load_elf_program_spec_witness :
  exists t, load_elf_program elf_buf (Z.of_nat (length demo_elf)) 0 (elf_vm demo_elf)
      = Done ((0, get32 demo_elf e_entry), t, []) /\
    vread t 0x08048003 = 0xCC /\ vread t 0x08048005 = 0.
Proof.
  destruct (wp_inv _ _ _ (load_elf_program_spec (elf_vm demo_elf) elf_buf demo_elf 0 demo_elf_valid
    (elf_vm_buffer demo_elf ltac:(cbn; lia) demo_elf_bytes) demo_ready demo_enough))
    as (r & t & o & E & -> & -> & Him & _).
  exists t. split; [exact E|]. unfold image_loaded in Him. rewrite demo_segments in Him.
  split; [apply (Him _ 3 (list_elem_of_here _ _))|apply (Him _ 5 (list_elem_of_here _ _))]; cbn; lia.
Defined.

Lemma load_elf_program_rejects_witness :
  load_elf_program elf_buf 4 7 (elf_vm [0x7F; 69; 76; 70]) = Done ((-1, 7), elf_vm [0x7F; 69; 76; 70], []).
Proof.
  destruct (wp_inv _ _ _ (load_elf_program_rejects (elf_vm [0x7F; 69; 76; 70]) elf_buf [0x7F; 69; 76; 70] 7
    (elf_vm_buffer [0x7F; 69; 76; 70] ltac:(cbn [length]; lia) ltac:(apply (bool_decide_unpack _); vm_compute; exact I))
    ltac:(apply (bool_decide_unpack _); vm_compute; exact I) eq_refl)) as (r & t & o & E & -> & -> & ->).
  exact E.
Defined.
