(* ===== verification/Keyboard.v ===== *)
(** * keyboard.c: the line editor and the splitting of a command line

    The editor is written against whatever state holds its globals (a reader
    and a writer of [keyboard]) and against the function it calls on Enter. *)
From Stdlib Require Import ZArith Lia ZifyBool String.
From stdpp Require Import base numbers list gmap.
From S2P Require Import Prelude.

Definition BUFFER_SIZE : Z := 256.

(** [shift_pressed], [caps], [input_buffer], [buffer_index]. *)
Record keyboard := { shift_pressed : Z; caps : Z; input_buffer : list Z; buffer_index : Z }.

Definition keyboard0 : keyboard :=
  {| shift_pressed := 0; caps := 0; input_buffer := replicate 256 0; buffer_index := 0 |}.

Definition set_shift (v : Z) (k : keyboard) : keyboard :=
  {| shift_pressed := v; caps := caps k; input_buffer := input_buffer k; buffer_index := buffer_index k |}.

Definition set_caps (v : Z) (k : keyboard) : keyboard :=
  {| shift_pressed := shift_pressed k; caps := v; input_buffer := input_buffer k; buffer_index := buffer_index k |}.

Definition set_line (b : list Z) (i : Z) (k : keyboard) : keyboard :=
  {| shift_pressed := shift_pressed k; caps := caps k; input_buffer := b; buffer_index := i |}.

(** ** The layout tables: 128 characters, 0 past the ones given *)
Definition kbd_us : list Z :=
  [0; 27] ++ str "1234567890-=" ++ [8; 9] ++ str "qwertyuiop[]" ++ [10; 0]
  ++ str "asdfghjkl;'`" ++ [0; 92] ++ str "zxcvbnm,./" ++ [0; 42; 0; 32] ++ replicate 70 0.

Definition kbd_us_shift : list Z :=
  [0; 27] ++ str "!@#$%^&*()_+" ++ [8; 9] ++ str "QWERTYUIOP{}" ++ [10; 0]
  ++ str "ASDFGHJKL:" ++ [34] ++ str "~" ++ [0; 124] ++ str "ZXCVBNM<>?" ++ [0; 42; 0; 32] ++ replicate 70 0.

(** [scancode] is an unsigned char whose top bit is clear: an index of the tables. *)
Definition key_char (k : keyboard) (scancode : Z) : Z :=
  if bool_decide (shift_pressed k <> 0) then at_ kbd_us_shift scancode else at_ kbd_us scancode.

(** Caps lock swaps the case of a letter. *)
Definition caps_char (k : keyboard) (ascii : Z) : Z :=
  if bool_decide (97 <= ascii <= 122) then (if bool_decide (caps k <> 0) then ascii - 32 else ascii)
  else if bool_decide (65 <= ascii <= 90) then (if bool_decide (caps k <> 0) then ascii + 32 else ascii)
  else ascii.

(** [input_buffer[i] = c] *)
Definition put (i c : Z) (b : list Z) : outcome (list Z) := store "input_buffer" b i c.

(** [input_buffer[i]] *)
Definition char_at (b : list Z) (i : Z) : outcome Z := load "input_buffer" b i.

(** ** handle_keyboard_interrupt *)

(** Did the handler come back, or is the machine in the endless loop of a
    reboot? *)
Inductive flow : Type := Back | Hung.

(** A state that has the editor's globals among its own. *)
Class HasKeyboard (St : Type) := {
  kb : St -> keyboard;
  on_kb : (keyboard -> keyboard) -> St -> St;
  kb_on_kb : forall f s, kb (on_kb f s) = f (kb s);
  on_kb_ext : forall f g s, f (kb s) = g (kb s) -> on_kb f s = on_kb g s;
  on_kb_id : forall s, on_kb (fun k => k) s = s;
  on_kb_comp : forall f g s, on_kb f (on_kb g s) = on_kb (fun k => f (g k)) s;
}.

Section Editor.
Context {St : Type} `{HasKeyboard St} (execute_command : M St flow).

Definition handle_keyboard_interrupt (scancode : Z) : M St flow :=
  if bool_decide (scancode = 0x2A \/ scancode = 0x36) then mmodify (on_kb (set_shift 1));; mret Back
  else if bool_decide (scancode = 0xAA \/ scancode = 0xB6) then mmodify (on_kb (set_shift 0));; mret Back
  else if bool_decide (scancode = 0x3A) then
    mmodify (on_kb (fun k => set_caps ((caps k + 1) mod 2) k));; mret Back
  else if bit scancode 7 then mret Back
  else
    s ← mget;
    let k := kb s in
    let ascii := key_char k scancode in
    if bool_decide (ascii = 8) then
      if bool_decide (buffer_index k > 0) then
        let i := buffer_index k - 1 in
        b ← lift (put i 0 (input_buffer k));
        mmodify (on_kb (set_line b i));;
        emit (Print [8; 32; 8]);;
        mret Back
      else mret Back
    else if bool_decide (ascii = 10) then
      b ← lift (put (buffer_index k) 0 (input_buffer k));
      mmodify (on_kb (set_line b (buffer_index k)));;
      execute_command
    else if bool_decide (ascii <> 0) then
      let ascii := caps_char k ascii in
      if bool_decide (buffer_index k < BUFFER_SIZE - 1) then
        b ← lift (put (buffer_index k) ascii (input_buffer k));
        mmodify (on_kb (set_line b (buffer_index k + 1)));;
        emit (Print [ascii]);;
        mret Back
      else mret Back
    else mret Back.

(** A sequence of interrupts. *)
Fixpoint keys (l : list Z) : M St flow :=
  match l with
  | [] => mret Back
  | c :: l' =>
      f ← handle_keyboard_interrupt c;
      match f with Back => keys l' | Hung => mret Hung end
  end.
End Editor.

(** ** Splitting the line

    [argv] is the list of indices into the buffer the pointers stand for. *)

(** [while (input_buffer[i] == ' ') i++] *)
Fixpoint skip_spaces (n : nat) (b : list Z) (i : Z) : outcome Z :=
  match n with
  | O => Spin
  | S n' => c ← char_at b i; if bool_decide (c = 32) then skip_spaces n' b (i + 1) else Done i
  end.

(** [while (input_buffer[i] != '\0' && input_buffer[i] != ' ') i++] *)
Fixpoint word_end (n : nat) (b : list Z) (i : Z) : outcome Z :=
  match n with
  | O => Spin
  | S n' =>
      c ← char_at b i;
      if bool_decide (c <> 0 /\ c <> 32) then word_end n' b (i + 1) else Done i
  end.

(** [argv[argc] = &input_buffer[i]] with [char *argv[16]] *)
Definition store_arg (argc i : Z) : outcome Z :=
  if bool_decide (0 <= argc < 16) then Done i else Undefined (OutOfBounds "argv").

(** Either scanning loop moves on inside the buffer or leaves it, so its length
    bounds the rounds. *)
Fixpoint split_args (n : nat) (b : list Z) (i argc : Z) : outcome (list Z * list Z) :=
  match n with
  | O => Spin
  | S n' =>
      c ← char_at b i;
      if bool_decide (c <> 0 /\ argc < 16) then
        i ← skip_spaces (S (length b)) b i;
        c ← char_at b i;
        if bool_decide (c <> 0) then
          a ← store_arg argc i;
          j ← word_end (S (length b)) b i;
          c ← char_at b j;
          '(argv, b') ← (if bool_decide (c = 32)
                         then b1 ← put j 0 b; split_args n' b1 (j + 1) (argc + 1)
                         else split_args n' b j (argc + 1));
          Done (a :: argv, b')
        else split_args n' b i argc
      else Done ([], b)
  end.
