(* ===== verification/KeyboardSpec.v ===== *)
(** * Properties of the line editor and of command-line splitting

    The editor implements an abstract line of characters; splitting the buffer
    that holds a line yields the words of the line. *)
From Stdlib Require Import ZArith Lia ZifyBool String.
From stdpp Require Import base numbers list gmap.
From S2P Require Import Prelude Keyboard.

(** ** Words of a line *)
Definition flush (w : list Z) (r : list (list Z)) : list (list Z) :=
  match w with [] => r | _ => w :: r end.

Fixpoint words_from (w l : list Z) : list (list Z) :=
  match l with
  | [] => flush w []
  | c :: l' => if bool_decide (c = 32) then flush w (words_from [] l') else words_from (w ++ [c]) l'
  end.

(** The maximal runs of characters other than spaces. *)
Definition words (l : list Z) : list (list Z) := words_from [] l.

Definition word_char (c : Z) : Prop := c <> 0 /\ c <> 32.

Lemma words_spaces sp l : Forall (fun c => c = 32) sp -> words (sp ++ l) = words l.
Proof. induction 1 as [|c sp -> _ IH]; [done|]. exact IH. Qed.

Lemma words_from_word w v l : Forall word_char v -> words_from w (v ++ l) = words_from (w ++ v) l.
Proof.
  intros Hv. revert w. induction Hv as [|c v [_ Hc] _ IH]; intros w; [by rewrite app_nil_r|].
  cbn. rewrite bool_decide_false by done. by rewrite IH, <- app_assoc.
Qed.

Lemma words_word v l : Forall word_char v -> v <> [] -> (l = [] \/ exists l', l = 32 :: l') ->
  words (v ++ l) = v :: match l with [] => [] | _ :: l' => words l' end.
Proof.
  intros Hv Hne Hl. unfold words. rewrite words_from_word by done. destruct v as [|c v]; [done|].
  destruct Hl as [->|(l' & ->)]; done.
Qed.

(** Cutting a line at its first word. *)
Lemma cut_spaces l : exists sp r, l = sp ++ r /\ Forall (fun c => c = 32) sp /\ (forall c r', r = c :: r' -> c <> 32).
Proof.
  induction l as [|c l (sp & r & -> & Hsp & Hr)]; [by exists [], []|].
  destruct (decide (c = 32)) as [->|Hc]; [exists (32 :: sp), r|exists [], (c :: sp ++ r)].
  - split_and!; [done|by constructor|done].
  - split_and!; [done..|]. by intros ? ? [= <- _].
Qed.

Lemma cut_word l : Forall (fun c => c <> 0) l ->
  exists w r, l = w ++ r /\ Forall word_char w /\ (r = [] \/ exists r', r = 32 :: r').
Proof.
  induction 1 as [|c l Hc _ (w & r & -> & Hw & Hr)]; [exists [], []; auto|].
  destruct (decide (c = 32)) as [->|Hs]; [exists [], (32 :: w ++ r)|exists (c :: w), r].
  - split_and!; [done..|]. right. by eexists.
  - split_and!; [done| |done]. by constructor.
Qed.

(** ** The scanning loops *)
Lemma at_mid (pre suf : list Z) c : at_ (pre ++ c :: suf) (Z.of_nat (length pre)) = c.
Proof. rewrite at_app_r by lia. by rewrite Z.sub_diag. Qed.

Lemma char_mid pre c suf : char_at (pre ++ c :: suf) (Z.of_nat (length pre)) = Done c.
Proof. unfold char_at. rewrite load_in by (rewrite length_app; cbn; lia). by rewrite at_mid. Qed.

Lemma skip_spaces_ok n pre sp c r :
  Forall (fun c => c = 32) sp -> c <> 32 -> (length sp < n)%nat ->
  skip_spaces n (pre ++ sp ++ c :: r) (Z.of_nat (length pre)) = Done (Z.of_nat (length (pre ++ sp))).
Proof.
  intros Hsp Hc. revert n pre. induction Hsp as [|s sp -> _ IH]; intros n pre Hn; cbn [app].
  - rewrite app_nil_r. destruct n; [cbn in Hn; lia|]. cbn [skip_spaces]. rewrite char_mid. cbn. by rewrite bool_decide_false.
  - destruct n as [|n]; [cbn in Hn; lia|]. cbn [skip_spaces]. rewrite char_mid. cbn [mbind outcome_bind].
    rewrite bool_decide_true by done.
    specialize (IH n (pre ++ [32])). rewrite <- !app_assoc in IH. cbn [app] in IH.
    rewrite !length_app in *. cbn [length] in *. rewrite Nat2Z.inj_add in IH. apply IH. lia.
Qed.

Lemma word_end_ok n pre w c r :
  Forall word_char w -> c = 0 \/ c = 32 -> (length w < n)%nat ->
  word_end n (pre ++ w ++ c :: r) (Z.of_nat (length pre)) = Done (Z.of_nat (length (pre ++ w))).
Proof.
  intros Hw Hc. revert n pre. induction Hw as [|d w [H0 H32] _ IH]; intros n pre Hn; cbn [app].
  - rewrite app_nil_r. destruct n; [cbn in Hn; lia|]. cbn [word_end]. rewrite char_mid. cbn.
    by rewrite bool_decide_false by lia.
  - destruct n as [|n]; [cbn in Hn; lia|]. cbn [word_end]. rewrite char_mid. cbn [mbind outcome_bind].
    rewrite bool_decide_true by done.
    specialize (IH n (pre ++ [d])). rewrite <- !app_assoc in IH. cbn [app] in IH.
    rewrite !length_app in *. cbn [length] in *. rewrite Nat2Z.inj_add in IH. apply IH. lia.
Qed.

Lemma put_mid pre c d r : put (Z.of_nat (length pre)) d (pre ++ c :: r) = Done (pre ++ d :: r).
Proof.
  unfold put. rewrite store_in by (rewrite length_app; cbn; lia). rewrite Nat2Z.id.
  by rewrite insert_app_r_alt, Nat.sub_diag by lia.
Qed.

(** The strings a list of start indices denotes. *)
Definition strings (b argv : list Z) : list (list Z) := (fun i => c_string (drop (Z.to_nat i) b)) <$> argv.

Lemma drop_pre pre (l : list Z) : drop (Z.to_nat (Z.of_nat (length pre))) (pre ++ l) = l.
Proof. rewrite Nat2Z.id. apply drop_app_length. Qed.

Lemma c_string_word w r : Forall word_char w -> c_string (w ++ 0 :: r) = w.
Proof. induction 1 as [|c w [Hc _] _ IH]; cbn; [done|]. rewrite bool_decide_false by done. by rewrite IH. Qed.

(** ** Splitting, one word at a time *)
Lemma spaces_nonzero sp : Forall (fun c => c = 32) sp -> Forall (fun c => c <> 0) sp.
Proof. intros H. eapply Forall_impl; [exact H|]. by intros c ->. Qed.

Lemma word_nonzero w : Forall word_char w -> Forall (fun c => c <> 0) w.
Proof. intros H. eapply Forall_impl; [exact H|]. by intros c []. Qed.

(** The line is still inside the buffer. *)
Lemma char_start pre (l r : list Z) : exists c, char_at (pre ++ l ++ 0 :: r) (Z.of_nat (length pre)) = Done c.
Proof. destruct l as [|d l]; [exists 0|exists d]; apply char_mid. Qed.

(** Nothing but spaces left. *)
Lemma split_end n pre sp r argc :
  Forall (fun c => c = 32) sp ->
  split_args (S (S n)) (pre ++ sp ++ 0 :: r) (Z.of_nat (length pre)) argc = Done ([], pre ++ sp ++ 0 :: r).
Proof.
  intros Hsp. assert (E : char_at (pre ++ sp ++ 0 :: r) (Z.of_nat (length (pre ++ sp))) = Done 0).
  { rewrite (app_assoc pre). apply char_mid. }
  destruct (char_start pre sp r) as (c & Ec). cbn [split_args]. rewrite Ec. cbn [mbind outcome_bind].
  case_bool_decide; [|done].
  rewrite skip_spaces_ok by (done || (rewrite !length_app; lia)). cbn [mbind outcome_bind]. rewrite E.
  cbn [mbind outcome_bind]. by rewrite !bool_decide_false by tauto.
Qed.

(** A word, and the character behind it. *)
Lemma split_word n pre sp w c r argc :
  Forall (fun c => c = 32) sp -> Forall word_char w -> w <> [] -> c = 0 \/ c = 32 -> 0 <= argc < 16 ->
  split_args (S n) (pre ++ sp ++ w ++ c :: r) (Z.of_nat (length pre)) argc =
    '(argv, b) ← (if bool_decide (c = 32)
      then split_args n (pre ++ sp ++ w ++ 0 :: r) (Z.of_nat (length (pre ++ sp ++ w)) + 1) (argc + 1)
      else split_args n (pre ++ sp ++ w ++ c :: r) (Z.of_nat (length (pre ++ sp ++ w))) (argc + 1));
    Done (Z.of_nat (length (pre ++ sp)) :: argv, b).
Proof.
  intros Hsp Hw Hne Hc Ha. cbn [split_args].
  set (b := pre ++ sp ++ w ++ c :: r).
  assert (B1 : b = (pre ++ sp) ++ w ++ c :: r) by (subst b; by rewrite <- !app_assoc).
  assert (B2 : b = (pre ++ sp ++ w) ++ c :: r) by (subst b; by rewrite <- !app_assoc).
  assert (L : (length sp < S (length b) /\ length w < S (length b))%nat) by (rewrite B1, !length_app; lia).
  assert (Hat : exists d, char_at b (Z.of_nat (length pre)) = Done d /\ d <> 0).
  { assert (Hl : exists d t, sp ++ w ++ c :: r = d :: t /\ d <> 0).
    { destruct sp as [|d sp]; [|by apply Forall_cons in Hsp as [-> _]; eexists _, _].
      destruct w as [|d w]; [done|]. apply Forall_cons in Hw as [[? _] _]. by eexists _, _. }
    destruct Hl as (d & t & E & Hd). exists d. split; [|done]. subst b. rewrite E. apply char_mid. }
  destruct Hat as (d & -> & Hd). cbn [mbind outcome_bind]. rewrite bool_decide_true by (split; [done|lia]).
  assert (Hs : skip_spaces (S (length b)) b (Z.of_nat (length pre)) = Done (Z.of_nat (length (pre ++ sp)))).
  { subst b. destruct w as [|x w]; [done|]. apply Forall_cons in Hw as [[_ Hx] _].
    apply (skip_spaces_ok _ pre sp x (w ++ c :: r)); [done|done|apply L]. }
  rewrite Hs. cbn [mbind outcome_bind].
  assert (Hat : exists d, char_at b (Z.of_nat (length (pre ++ sp))) = Done d /\ d <> 0).
  { rewrite B1. destruct w as [|x w]; [done|]. apply Forall_cons in Hw as [[? _] _]. exists x. split; [apply char_mid|done]. }
  destruct Hat as (d1 & -> & Hd1). cbn [mbind outcome_bind]. rewrite bool_decide_true by done.
  unfold store_arg. rewrite bool_decide_true by done. cbn [mbind outcome_bind].
  assert (He : word_end (S (length b)) b (Z.of_nat (length (pre ++ sp))) = Done (Z.of_nat (length (pre ++ sp ++ w)))).
  { rewrite B1 at 2. rewrite (app_assoc pre). apply word_end_ok; [done|done|apply L]. }
  rewrite He. cbn [mbind outcome_bind].
  replace (char_at b (Z.of_nat (length (pre ++ sp ++ w)))) with (Done c) by (rewrite B2; by rewrite char_mid).
  cbn [mbind outcome_bind]. case_bool_decide; [|done]. rewrite B2 at 1. rewrite put_mid. cbn [mbind outcome_bind].
  subst b. by rewrite <- !app_assoc.
Qed.

Lemma strings_cons pre sp w r argv b :
  Forall word_char w -> b = pre ++ sp ++ w ++ 0 :: r ->
  strings b (Z.of_nat (length (pre ++ sp)) :: argv) = w :: strings b argv.
Proof.
  intros Hw ->. unfold strings. cbn [fmap list_fmap]. f_equal.
  rewrite (app_assoc pre), drop_pre. by apply c_string_word.
Qed.

(** What splitting does from a position in the line on: [l'] is the rest of
    the line afterwards, with some spaces replaced by terminators. *)
Lemma split_args_ok n pre l r argc :
  Forall (fun c => c <> 0) l -> (S (length l) < n)%nat -> 0 <= argc <= 16 ->
  exists argv l', split_args n (pre ++ l ++ 0 :: r) (Z.of_nat (length pre)) argc = Done (argv, pre ++ l' ++ 0 :: r) /\
    length l' = length l /\ strings (pre ++ l' ++ 0 :: r) argv = take (Z.to_nat (16 - argc)) (words l).
Proof.
  revert pre l argc. induction n as [|n IH]; intros pre l argc Hl Hn Ha; [lia|].
  destruct (decide (argc = 16)) as [->|Hlt].
  { destruct (char_start pre l r) as (c & E). cbn [split_args]. rewrite E. cbn [mbind outcome_bind].
    rewrite bool_decide_false by lia. exists [], l. by rewrite Z.sub_diag. }
  destruct (cut_spaces l) as (sp & l1 & -> & Hsp & Hl1). apply Forall_app in Hl as [_ Hl].
  destruct (cut_word l1 Hl) as (w & l2 & -> & Hw & Hl2). apply Forall_app in Hl as [_ Hl].
  rewrite words_spaces by done. rewrite !length_app in Hn.
  destruct (decide (w = [])) as [->|Hne].
  { destruct Hl2 as [->|(l3 & ->)]; [|by destruct (Hl1 32 l3)]. rewrite app_nil_r.
    destruct n as [|n]; [lia|]. exists [], sp. rewrite split_end by done. split_and!; [done..|]. cbn. by rewrite take_nil. }
  rewrite words_word by done. replace (Z.to_nat (16 - argc)) with (S (Z.to_nat (16 - (argc + 1)))) by lia. cbn [take].
  destruct Hl2 as [->|(l3 & ->)]; rewrite <- !app_assoc; cbn [app length] in *;
    rewrite split_word by (auto || lia).
  - rewrite bool_decide_false by done. rewrite (app_assoc sp), (app_assoc pre).
    destruct (IH (pre ++ sp ++ w) [] (argc + 1)) as (argv & l' & E & Hl' & Hs); [done|destruct w; [done|cbn in *; lia]|lia|].
    destruct l'; [|done]. cbn [app] in E, Hs. rewrite E. exists (Z.of_nat (length (pre ++ sp)) :: argv), (sp ++ w).
    rewrite app_nil_r, <- !app_assoc in *. split_and!; [done..|].
    rewrite (strings_cons pre sp w r) by done. by rewrite Hs.
  - apply Forall_cons in Hl as [_ Hl3]. rewrite bool_decide_true by done.
    destruct (IH ((pre ++ sp ++ w) ++ [0]) l3 (argc + 1)) as (argv & l' & E & Hl' & Hs); [done|cbn in *; lia|lia|].
    rewrite length_app, Nat2Z.inj_add in E. cbn [length] in E. change (Z.of_nat 1) with 1 in E.
    rewrite <- !app_assoc in E, Hs. cbn [app] in E, Hs. rewrite E.
    exists (Z.of_nat (length (pre ++ sp)) :: argv), (sp ++ w ++ 0 :: l'). rewrite <- !app_assoc. cbn [app].
    split_and!; [done|rewrite !length_app; cbn [length]; lia|].
    rewrite (strings_cons pre sp w (l' ++ 0 :: r)) by done. by rewrite Hs.
Qed.

(** Splitting a line of two words or more leaves a terminator behind the first
    one: the buffer then reads as that word alone. *)
Lemma split_first l r :
  Forall (fun c => c <> 0) l -> (length l < 256)%nat -> (2 <= length (words l))%nat ->
  exists argv sp w l', split_args 258 (l ++ 0 :: r) 0 0 = Done (argv, (sp ++ w ++ 0 :: l') ++ 0 :: r) /\
    Forall (fun c => c = 32) sp /\ Forall word_char w /\ take 1 (words l) = [w] /\
    length (sp ++ w ++ 0 :: l') = length l /\
    strings ((sp ++ w ++ 0 :: l') ++ 0 :: r) argv = take 16 (words l).
Proof.
  intros Hl Hn H2. destruct (cut_spaces l) as (sp & l1 & -> & Hsp & Hl1). apply Forall_app in Hl as [_ Hl].
  destruct (cut_word l1 Hl) as (w & l2 & -> & Hw & Hl2). apply Forall_app in Hl as [_ Hl].
  rewrite words_spaces in * by done. rewrite !length_app in Hn.
  destruct (decide (w = [])) as [->|Hne].
  { destruct Hl2 as [->|(l3 & ->)]; [cbn in H2; lia|by destruct (Hl1 32 l3)]. }
  rewrite words_word in * by done. destruct Hl2 as [->|(l3 & ->)]; [cbn in H2; lia|]. apply Forall_cons in Hl as [_ Hl].
  cbn [length] in Hn. pose proof (split_word 257 [] sp w 32 (l3 ++ 0 :: r) 0 Hsp Hw Hne (or_intror eq_refl) ltac:(lia)) as E.
  rewrite bool_decide_true in E by done. cbn [app] in E.
  destruct (split_args_ok 257 (sp ++ w ++ [0]) l3 r 1 Hl) as (argv & l' & E1 & Hlen & Hs); [lia|lia|].
  assert (Hpos : Z.of_nat (length (sp ++ w ++ [0])) = Z.of_nat (length (sp ++ w)) + 1) by (rewrite !length_app; cbn [length]; lia).
  rewrite Hpos in E1. rewrite <- !app_assoc in E1. cbn [app] in E1. change (0 + 1) with 1 in E.
  exists (Z.of_nat (length sp) :: argv), sp, w, l'. rewrite <- !app_assoc in *. cbn [app length] in E |- *.
  change (Z.of_nat 0) with 0 in E. rewrite E. rewrite E1.
  split_and!; [done..|rewrite !length_app; cbn [length]; lia|].
  pose proof (strings_cons [] sp w (l' ++ 0 :: r) argv _ Hw eq_refl) as Hc. cbn [app] in Hc. rewrite Hc.
  cbn [app] in Hs. rewrite Hs. done.
Qed.

(** C25: splitting the buffer of a line yields exactly the words of the line, the maximal runs of characters other than spaces, up to sixteen of them, each terminated in the buffer; it ends, never leaves the buffer and stores no seventeenth pointer. *)
Theorem split_args_words l r :
  Forall (fun c => c <> 0) l -> (length l < 256)%nat ->
  exists argv b, split_args 258 (l ++ 0 :: r) 0 0 = Done (argv, b) /\
    strings b argv = take 16 (words l) /\ length b = length (l ++ 0 :: r).
Proof.
  intros Hl Hn. destruct (split_args_ok 258 [] l r 0 Hl) as (argv & l' & E & Hlen & Hs); [lia|lia|].
  exists argv, (l' ++ 0 :: r). split_and!; [exact E|exact Hs|]. rewrite !length_app. cbn [length]. lia.
Qed.

Lemma split_args_words_witness :
  exists argv b, split_args 258 (str "  echo  a b" ++ 0 :: []) 0 0 = Done (argv, b) /\
    strings b argv = [str "echo"; str "a"; str "b"].
Proof.
  destruct (split_args_words (str "  echo  a b") []) as (argv & b & E & Hs & _).
  - apply (bool_decide_unpack _). vm_compute. exact I.
  - vm_compute. lia.
  - exists argv, b. split; [exact E|exact Hs].
Defined.

(** ** The editor *)

(** The abstract editor: two modifiers and a line of at most 255 characters. *)
Record editor := { e_shift : bool; e_caps : bool; e_line : list Z }.

(** The character a key stands for, before and after caps lock. *)
Definition typed (e : editor) (scancode : Z) : Z :=
  at_ (if e_shift e then kbd_us_shift else kbd_us) scancode.

Definition swap_case (c : Z) : Z :=
  if bool_decide (97 <= c <= 122) then c - 32 else if bool_decide (65 <= c <= 90) then c + 32 else c.

Definition inserted (e : editor) (c : Z) : Z := if e_caps e then swap_case c else c.

Inductive key : Type := ShiftDown | ShiftUp | CapsLock | Erase | Enter | Char (c : Z) | Ignored.

#[export] Instance key_eq_dec : EqDecision key.
Proof. solve_decision. Defined.

Definition decode (e : editor) (scancode : Z) : key :=
  if bool_decide (scancode = 0x2A \/ scancode = 0x36) then ShiftDown
  else if bool_decide (scancode = 0xAA \/ scancode = 0xB6) then ShiftUp
  else if bool_decide (scancode = 0x3A) then CapsLock
  else if bit scancode 7 then Ignored
  else if bool_decide (typed e scancode = 8) then Erase
  else if bool_decide (typed e scancode = 10) then Enter
  else if bool_decide (typed e scancode = 0) then Ignored
  else Char (inserted e (typed e scancode)).

(** The editor after a key other than Enter, and what it prints. *)
Definition edit (e : editor) (k : key) : editor * list event :=
  match k with
  | ShiftDown => ({| e_shift := true; e_caps := e_caps e; e_line := e_line e |}, [])
  | ShiftUp => ({| e_shift := false; e_caps := e_caps e; e_line := e_line e |}, [])
  | CapsLock => ({| e_shift := e_shift e; e_caps := negb (e_caps e); e_line := e_line e |}, [])
  | Erase =>
      match e_line e with
      | [] => (e, [])
      | _ => ({| e_shift := e_shift e; e_caps := e_caps e; e_line := removelast (e_line e) |}, [Print [8; 32; 8]])
      end
  | Char c =>
      if bool_decide (length (e_line e) < 255)%nat
      then ({| e_shift := e_shift e; e_caps := e_caps e; e_line := e_line e ++ [c] |}, [Print [c]])
      else (e, [])
  | Enter | Ignored => (e, [])
  end.

Fixpoint edits (e : editor) (l : list Z) : editor * list event :=
  match l with
  | [] => (e, [])
  | c :: l' => let '(e1, o1) := edit e (decode e c) in let '(e2, o2) := edits e1 l' in (e2, o1 ++ o2)
  end.

(** The globals hold the editor's line, terminated, in a buffer of 256. *)
Record holds_line (k : keyboard) (e : editor) : Prop := {
  hl_shift : shift_pressed k = if e_shift e then 1 else 0;
  hl_caps : caps k = if e_caps e then 1 else 0;
  hl_buf : input_buffer k = e_line e ++ replicate (256 - length (e_line e)) 0;
  hl_index : buffer_index k = Z.of_nat (length (e_line e));
  hl_max : (length (e_line e) <= 255)%nat;
}.

Lemma at_table_default (l : list Z) i P : (forall c, c ∈ l -> P c) -> P 0 -> P (at_ l i).
Proof.
  intros Hl H0. unfold at_. case_bool_decide; [|done]. destruct (l !! Z.to_nat i) as [c|] eqn:E; [|done].
  by apply Hl, (list_elem_of_lookup_2 _ _ _ E).
Qed.

Lemma key_char_typed k e scancode : holds_line k e -> key_char k scancode = typed e scancode.
Proof. intros H. unfold key_char, typed. rewrite (hl_shift _ _ H). by destruct (e_shift e). Qed.

Lemma caps_char_inserted k e c : holds_line k e -> caps_char k c = inserted e c.
Proof.
  intros H. unfold caps_char, inserted, swap_case. rewrite (hl_caps _ _ H).
  destruct (e_caps e); repeat case_bool_decide; lia.
Qed.

Lemma put_append l c : (length l <= 255)%nat ->
  put (Z.of_nat (length l)) c (l ++ replicate (256 - length l) 0) = Done ((l ++ [c]) ++ replicate (256 - length (l ++ [c])) 0).
Proof.
  intros Hl. rewrite length_app. cbn [length]. replace (256 - length l)%nat with (S (256 - (length l + 1))) by lia.
  cbn [replicate]. rewrite put_mid, <- app_assoc. done.
Qed.

Lemma put_erase l : l <> [] -> (length l <= 255)%nat ->
  put (Z.of_nat (length l) - 1) 0 (l ++ replicate (256 - length l) 0)
  = Done (removelast l ++ replicate (256 - length (removelast l)) 0).
Proof.
  intros Hne Hl. destruct (exists_last Hne) as (l' & c & ->). rewrite removelast_last, length_app in *. cbn [length] in *.
  replace (Z.of_nat (length l' + 1) - 1) with (Z.of_nat (length l')) by lia.
  rewrite <- app_assoc. cbn [app]. rewrite put_mid.
  replace (256 - length l')%nat with (S (256 - (length l' + 1))) by lia. done.
Qed.

(** Case analysis on a condition, wherever it occurs. *)
Ltac decide_all P :=
  destruct (decide P) as [?|?];
  [repeat rewrite (bool_decide_true P) in * by done|repeat rewrite (bool_decide_false P) in * by done].

Lemma erase_line k e :
  holds_line k e -> e_line e <> [] ->
  exists b, put (buffer_index k - 1) 0 (input_buffer k) = Done b /\
    holds_line (set_line b (buffer_index k - 1) k) (fst (edit e Erase)).
Proof.
  intros [Hs Hc Hb Hi Hm] Hne.
  assert (E : fst (edit e Erase) = {| e_shift := e_shift e; e_caps := e_caps e; e_line := removelast (e_line e) |}).
  { cbn. by destruct (e_line e). }
  rewrite E, Hb, Hi, put_erase by done. eexists. split; [done|]. destruct (exists_last Hne) as (l & x & El). rewrite El in *.
  rewrite removelast_last, length_app in *. cbn [length] in *.
  constructor; cbn; (done || lia).
Qed.

Lemma type_line k e c :
  holds_line k e -> (length (e_line e) < 255)%nat ->
  exists b, put (buffer_index k) c (input_buffer k) = Done b /\
    holds_line (set_line b (buffer_index k + 1) k) (fst (edit e (Char c))).
Proof.
  intros [Hs Hc Hb Hi Hm] Hl. cbn [edit]. rewrite bool_decide_true by done. rewrite Hb, Hi, put_append by lia.
  eexists. split; [done|].
  constructor; cbn [fst e_line shift_pressed caps input_buffer buffer_index set_line e_shift e_caps];
    (done || (rewrite length_app; cbn; lia)).
Qed.

Section Editing.
Context {St : Type} {KB : HasKeyboard St} (execute_command : M St flow).

(** One key that is not Enter: the globals follow the abstract editor, the
    screen gets its output, and nothing else of the state changes. *)
Lemma key_edits e scancode s Q :
  holds_line (kb s) e -> decode e scancode <> Enter ->
  (forall k, holds_line k (fst (edit e (decode e scancode))) ->
     Q Back (on_kb (fun _ => k) s) (snd (edit e (decode e scancode)))) ->
  wp (handle_keyboard_interrupt execute_command scancode) s Q.
Proof.
  intros Hk Hne HQ. unfold handle_keyboard_interrupt. unfold decode in *.
  assert (Hsame : forall o, Q Back (on_kb (fun _ => kb s) s) o -> Q Back s o).
  { intros o. by rewrite (on_kb_ext (fun _ => kb s) (fun k => k)), on_kb_id. }
  assert (Hmod : forall f o, Q Back (on_kb (fun _ => f (kb s)) s) o -> Q Back (on_kb f s) o).
  { intros f o. by rewrite (on_kb_ext f (fun _ => f (kb s))). }
  decide_all (scancode = 0x2A \/ scancode = 0x36).
  { apply wp_bind, wp_modify, wp_ret, Hmod, HQ. by destruct Hk; constructor. }
  decide_all (scancode = 0xAA \/ scancode = 0xB6).
  { apply wp_bind, wp_modify, wp_ret, Hmod, HQ. by destruct Hk; constructor. }
  decide_all (scancode = 0x3A).
  { apply wp_bind, wp_modify, wp_ret, Hmod, HQ. destruct Hk as [? Hc]. constructor; cbn; try done.
    rewrite Hc. by destruct (e_caps e). }
  destruct (bit scancode 7). { by apply wp_ret, Hsame, HQ. }
  apply wp_bind, wp_get. cbv beta zeta. rewrite (key_char_typed _ e) by done. rewrite (caps_char_inserted _ e) by done.
  decide_all (typed e scancode = 8).
  { destruct (decide (e_line e = [])) as [El|El]; rewrite (hl_index _ _ Hk).
    - rewrite bool_decide_false by (rewrite El; cbn; lia). cbn [edit] in HQ. rewrite El in HQ. by apply wp_ret, Hsame, HQ.
    - rewrite bool_decide_true by (destruct (e_line e); [done|cbn; lia]). rewrite <- (hl_index _ _ Hk).
      destruct (erase_line _ _ Hk El) as (b & Eb & He).
      apply wp_bind, (wp_lift b); [exact Eb|]. apply wp_bind, wp_modify, wp_bind, wp_emit, wp_ret, Hmod.
      apply HQ in He. cbn [edit] in He. by destruct (e_line e). }
  decide_all (typed e scancode = 10); [done|].
  destruct (decide (typed e scancode = 0)) as [H0|H0].
  { rewrite bool_decide_false by tauto. rewrite bool_decide_true in HQ by done. by apply wp_ret, Hsame, HQ. }
  rewrite (bool_decide_true (typed e scancode <> 0)) by done. rewrite (bool_decide_false (typed e scancode = 0)) in HQ by done.
  rewrite (hl_index _ _ Hk). unfold BUFFER_SIZE. destruct (decide (length (e_line e) < 255)%nat) as [Hl|Hl].
  - rewrite bool_decide_true by lia. rewrite <- (hl_index _ _ Hk).
    destruct (type_line _ _ (inserted e (typed e scancode)) Hk Hl) as (b & Eb & Ht).
    apply wp_bind, (wp_lift b); [exact Eb|]. apply wp_bind, wp_modify, wp_bind, wp_emit, wp_ret, Hmod. apply HQ in Ht. cbn [edit] in Ht.
    by rewrite bool_decide_true in Ht.
  - rewrite bool_decide_false by lia. cbn [edit] in HQ. rewrite bool_decide_false in HQ by done. by apply wp_ret, Hsame, HQ.
Qed.

(** Enter terminates the line, where a terminator is already, and runs the
    command. *)
Lemma handle_enter e scancode s :
  holds_line (kb s) e -> decode e scancode = Enter ->
  handle_keyboard_interrupt execute_command scancode s = execute_command s.
Proof.
  intros Hk He. unfold handle_keyboard_interrupt. unfold decode in He.
  decide_all (scancode = 0x2A \/ scancode = 0x36); [done|].
  decide_all (scancode = 0xAA \/ scancode = 0xB6); [done|]. decide_all (scancode = 0x3A); [done|].
  destruct (bit scancode 7); [done|]. unfold mbind at 1, M_bind at 1, mget. cbv beta iota zeta.
  rewrite (key_char_typed _ e) by done.
  decide_all (typed e scancode = 8); [done|]. decide_all (typed e scancode = 10).
  2:{ by case_bool_decide. }
  destruct Hk as [Hs Hc Hb Hi Hm].
  assert (Ep : put (buffer_index (kb s)) 0 (input_buffer (kb s)) = Done (input_buffer (kb s))).
  { rewrite Hb, Hi. replace (256 - length (e_line e))%nat with (S (255 - length (e_line e))) by lia.
    cbn [replicate]. apply put_mid. }
  unfold mbind, M_bind, lift, mmodify. rewrite Ep. cbv beta iota zeta.
  rewrite (on_kb_ext _ (fun k => k)), on_kb_id by by destruct (kb s).
  by destruct (execute_command s) as [[[f s'] o]| | |].
Qed.

Lemma key_enter e scancode s Q :
  holds_line (kb s) e -> decode e scancode = Enter ->
  wp execute_command s (fun a s' o => Q a s' o) -> wp (handle_keyboard_interrupt execute_command scancode) s Q.
Proof. intros Hk He HQ. unfold wp in *. by rewrite (handle_enter e). Qed.

Lemma keys_app l1 l2 s Q :
  wp (keys execute_command l1) s (fun f s1 o1 =>
    match f with
    | Back => wp (keys execute_command l2) s1 (fun f2 s2 o2 => Q f2 s2 (o1 ++ o2))
    | Hung => Q Hung s1 o1
    end) ->
  wp (keys execute_command (l1 ++ l2)) s Q.
Proof.
  revert s Q. induction l1 as [|c l1 IH]; intros s Q HQ; cbn [app keys] in *; [exact HQ|].
  unfold wp, mbind, M_bind in HQ |- *. destruct (handle_keyboard_interrupt execute_command c s) as [[[f s1] o1]| | |]; [|done..].
  destruct f; [|exact HQ]. specialize (IH s1 (fun f s2 o2 => Q f s2 (o1 ++ o2))). unfold wp in IH.
  destruct (keys execute_command l1 s1) as [[[f2 s2] o2]| | |]; [|done..].
  destruct f2; [|specialize (IH HQ); by destruct (keys execute_command (l1 ++ l2) s1) as [[[f4 s4] o4]| | |]].
  destruct (keys execute_command l2 s2) as [[[f3 s3] o3]| | |] eqn:E3; [|done..].
  specialize (IH ltac:(rewrite app_assoc; exact HQ)).
  by destruct (keys execute_command (l1 ++ l2) s1) as [[[f4 s4] o4]| | |].
Qed.

(** No key of the sequence is Enter. *)
Fixpoint no_enter (e : editor) (l : list Z) : Prop :=
  match l with [] => True | c :: l' => decode e c <> Enter /\ no_enter (fst (edit e (decode e c))) l' end.

Lemma keys_edit l e s Q :
  holds_line (kb s) e -> no_enter e l ->
  (forall k, holds_line k (fst (edits e l)) -> Q Back (on_kb (fun _ => k) s) (snd (edits e l))) ->
  wp (keys execute_command l) s Q.
Proof.
  revert e s Q. induction l as [|c l IH]; intros e s Q Hk Hno HQ; cbn [keys].
  - apply wp_ret. rewrite <- (on_kb_id s). rewrite (on_kb_ext (fun k => k) (fun _ => kb s)) by done. by apply HQ.
  - destruct Hno as [Hc Hno]. apply wp_bind, (key_edits e); [done..|]. intros k1 Hk1.
    apply IH with (e := fst (edit e (decode e c))); [by rewrite kb_on_kb|done|]. intros k2 Hk2.
    rewrite on_kb_comp. cbn [edits] in HQ.
    destruct (edit e (decode e c)) as [e1 o1], (edits e1 l) as [e2 o2] eqn:E2. cbn [fst snd] in *.
    rewrite E2 in *. cbn [fst snd] in *. by apply HQ.
Qed.
End Editing.

(** C13: the line editor refines an abstract editor: whatever keys other than Enter are pressed and released, from any line, the handler terminates, its globals hold the line the abstract editor has (characters appended under shift and caps lock up to 255, erased at the end), always terminated inside the 256-byte buffer, it prints exactly the echo of the edits, and it changes nothing else. *)
Theorem editor_refines {St} {KB : HasKeyboard St} (execute_command : M St flow) l e s :
  holds_line (kb s) e -> no_enter e l ->
  wp (keys execute_command l) s (fun f s' o =>
    f = Back /\ o = snd (edits e l) /\ exists k, s' = on_kb (fun _ => k) s /\ holds_line k (fst (edits e l))).
Proof. intros Hk Hn. apply (keys_edit execute_command l e); [done..|]. intros k Hk'. eauto. Qed.
