(* ===== verification/Shell.v ===== *)
(** * keyboard.c: the shell; process.c: creating a process from a file

    [shell] is everything a command reaches.  Two things a command meets are
    not code of the kernel: the excursion to user mode between
    [jump_to_usermode] and the program's exit ([user_mode]), and the bytes an
    uninitialised array on the stack happens to hold ([junk]). *)
From Stdlib Require Import ZArith Lia ZifyBool String.
From stdpp Require Import base numbers list gmap.
From S2P Require Import Prelude Mem Memory Paging Process Syscall BlockDev Ports Fat16 TarFs Elf Keyboard.

Record shell (D H : Type) := {
  sh_kb : keyboard; sh_vm : vm; sh_procs : procs; sh_fat : fat D; sh_initrd : Z; sh_ticks : Z; sh_hw : H;
}.
Arguments sh_kb {D H} _. Arguments sh_vm {D H} _. Arguments sh_procs {D H} _. Arguments sh_fat {D H} _.
Arguments sh_initrd {D H} _. Arguments sh_ticks {D H} _. Arguments sh_hw {D H} _.

Section Fields.
Context {D H : Type}.

Definition put_kb (k : keyboard) (s : shell D H) : shell D H := {|
  sh_kb := k; sh_vm := sh_vm s; sh_procs := sh_procs s; sh_fat := sh_fat s; sh_initrd := sh_initrd s;
  sh_ticks := sh_ticks s; sh_hw := sh_hw s |}.

Definition put_vm (v : vm) (s : shell D H) : shell D H := {|
  sh_kb := sh_kb s; sh_vm := v; sh_procs := sh_procs s; sh_fat := sh_fat s; sh_initrd := sh_initrd s;
  sh_ticks := sh_ticks s; sh_hw := sh_hw s |}.

Definition put_procs (p : procs) (s : shell D H) : shell D H := {|
  sh_kb := sh_kb s; sh_vm := sh_vm s; sh_procs := p; sh_fat := sh_fat s; sh_initrd := sh_initrd s;
  sh_ticks := sh_ticks s; sh_hw := sh_hw s |}.

Definition put_fat (f : fat D) (s : shell D H) : shell D H := {|
  sh_kb := sh_kb s; sh_vm := sh_vm s; sh_procs := sh_procs s; sh_fat := f; sh_initrd := sh_initrd s;
  sh_ticks := sh_ticks s; sh_hw := sh_hw s |}.

Definition put_hw (h : H) (s : shell D H) : shell D H := {|
  sh_kb := sh_kb s; sh_vm := sh_vm s; sh_procs := sh_procs s; sh_fat := sh_fat s; sh_initrd := sh_initrd s;
  sh_ticks := sh_ticks s; sh_hw := h |}.

#[export, refine] Instance shell_keyboard : HasKeyboard (shell D H) := {
  kb := sh_kb; on_kb f s := put_kb (f (sh_kb s)) s;
}.
Proof.
  - done.
  - intros f g s E. by rewrite E.
  - by intros [].
  - done.
Defined.

(** The operations of the components, inside the whole state. *)
Definition on_vm {A} (m : M vm A) : M (shell D H) A := zoom sh_vm put_vm m.

Definition on_fat {A} (m : M (fat D) A) : M (shell D H) A := zoom sh_fat put_fat m.

Definition on_procs {A} (m : M procs A) : M (shell D H) A := zoom sh_procs put_procs m.

(** The archive lies in the kernel's address space. *)
Definition on_tar {A} (m : M (tarfs vm) A) : M (shell D H) A :=
  zoom (fun s => {| fs_mem := sh_vm s; initrd_address := sh_initrd s |}) (fun _ s => s) m.
End Fields.

Section Shell.
Context {D H : Type} {BD : BlockDev D} {PT : Ports H}.
Context (user_mode : Z -> Z -> M (shell D H) unit) (junk : list Z).

(** Bounds on the walks of the RAM disk: characters of a name, headers. *)
Context (tar_chars tar_fuel : nat).

Definition say (s : string) : M (shell D H) unit := emit (Print (str s)).

Definition say_line (s : string) : M (shell D H) unit := emit (Print (str s ++ [10])).

(** [strcmp(a, b) == 0] for two strings in memory. *)
Definition streq (a b : list Z) : bool :=
  match CString.strcmp (S (length a)) (CString.of_list a) (CString.of_list b) with Done c => bool_decide (c = 0) | _ => false end.

(** [kmalloc_a] and [pmm_alloc_block] on the memory system's allocator. *)
Definition vm_kmalloc_a (size : Z) : M vm Z :=
  s ← mget; let '(p, q) := kmalloc_a size (vm_pmm s) in mput (set_pmm q s);; mret p.

Definition vm_alloc_block : M vm Z :=
  s ← mget; let '(p, q) := pmm_alloc_block (vm_pmm s) in mput (set_pmm q s);; mret p.

(** [fat16_read_file(name8, ext3, buf, 4096)] into a kernel buffer at [buf]. *)
Definition read_into (buf : Z) (name8 ext3 : list Z) : M (shell D H) Z :=
  '(bytes, out) ← on_fat (fat16_read_file name8 ext3 4096);
  on_vm (stores (store_bytes buf out));;
  mret bytes.

(** ** process.c: task_create_from_elf *)
Definition sizeof_process : Z := 5 * 4 + 8 * 4 + 4 + 3 * 4 + 8 * 24.

Definition new_process (pid_ entry_ : Z) : process := {|
  pid := pid_; state := PROC_NEW; p_entry := entry_; esp := 0x80000FFC; user_stack_top := 0x80000FFC;
  p_regs := regs0; saved_eip := 0; kernel_stack := 0; page_dir := 0; next := 0; fds := replicate 8 fd_entry0 |}.

(** The process is allocated, filled in and queued. *)
Definition create_process (entry_ : Z) : M (shell D H) (Z * Z) :=
  p ← on_vm (vm_kmalloc_a sizeof_process);
  if bool_decide (p = 0) then mret (-1, 0) else
  on_vm (stores (CString.memset p 0 sizeof_process));;
  s ← mget;
  let n := next_pid (sh_procs s) in
  on_procs (mmodify (fun q => set_next_pid (n + 1) (update p (fun _ => new_process n entry_) q)));;
  on_procs (mmodify (proc_enqueue p));;
  say "[process] created pid=";; emit (PrintInt (i32 n));;
  say " entry=0x";; emit (PrintHex entry_);; say_line " state=READY";;
  mret (0, n).

(** The result and [*pid_out], 0 when it is not written. *)
Definition task_create_from_elf (path : list Z) : M (shell D H) (Z * Z) :=
  let '(name8, ext3) := fat16_format_83 path in
  buf ← on_vm (vm_kmalloc_a 4096);
  if bool_decide (buf = 0) then mret (-1, 0) else
  bytes ← read_into buf name8 ext3;
  if bool_decide (bytes < 0) then mret (-1, 0) else
  if bool_decide (bytes < 4) then mret (-1, 0) else
  magic ← on_vm (reads (starts_with elf_magic buf));
  if negb magic then mret (-1, 0) else
  '(r, entry_) ← on_vm (load_elf_program buf (u32 bytes) 0);
  if bool_decide (r < 0) then mret (-1, 0) else
  stack_phys ← on_vm vm_alloc_block;
  if bool_decide (stack_phys = 0) then mret (-1, 0) else
  on_vm (map_page stack_phys 0x80000000 7);;
  on_vm (stores (CString.memset 0x80000000 0 4096));;
  create_process entry_.

(** ** The commands *)

(** How a command ends: at the prompt, by leaving [execute_command] at once, or
    never (the loop after a reset). *)
Inductive ending : Type := Finish | Leave | Halt.

Definition help_lines : list (list Z) :=
  [str "Available commands:"; str "  help, clear, echo, timer, about, version, reboot";
   str "  meminfo, uptime, pwd, whoami"; str "  ls, cat                  (initrd/tar filesystem)";
   str "  fat-ls                   (list FAT16 disk files)"; str "  fat-cat  <file.ext>      (read  FAT16 file)";
   str "  fat-write <file.ext> <text>  (write FAT16 file)"; str "  run <file.ext>           (load and execute binary)";
   str "  spawn <file.elf>         (create process and run ELF)"; str "  read-test, write-test    (raw ATA sector test)"].

Definition cmd_help : M (shell D H) unit := emit_all ((fun l => Print (l ++ [10])) <$> help_lines).

Definition cmd_timer : M (shell D H) unit :=
  s ← mget; emit (PrintInt (i32 (sh_ticks s / 100)));; say " seconds".

Definition cmd_reboot : M (shell D H) unit :=
  say "Rebooting...";; mmodify (fun s => put_hw (outb 0x64 0xFE (sh_hw s)) s).

(** [for (i = 1; i < argc; i++)]: the arguments, a space between two. *)
Fixpoint echo_args (l : list (list Z)) : list event :=
  match l with
  | [] => []
  | [x] => [Print x]
  | x :: l' => [Print x; Print [32]] ++ echo_args l'
  end.

Definition cmd_echo (args : list (list Z)) : M (shell D H) unit :=
  match args with [] => say "No string passed" | _ => emit_all (echo_args args) end.

Definition cmd_meminfo : M (shell D H) unit :=
  s ← mget;
  say "Total RAM: ";; emit (PrintInt (i32 (get_total_memory (vm_pmm (sh_vm s)) / 1024)));; say_line " KB";;
  say "Allocated: ";; emit (PrintInt (i32 (get_allocated_memory (vm_pmm (sh_vm s)))));; say_line " Bytes".

Definition cmd_uptime : M (shell D H) unit :=
  s ← mget;
  let seconds := sh_ticks s / 100 in
  let minutes := seconds / 60 in
  let hours := minutes / 60 in
  emit (PrintInt (i32 hours));; say "h ";; emit (PrintInt (i32 (minutes mod 60)));; say "m ";;
  emit (PrintInt (i32 (seconds mod 60)));; say "s".

Definition cmd_cat (args : list (list Z)) : M (shell D H) unit :=
  match args with
  | [] => say_line "Usage: cat <filename>"
  | x :: _ => on_tar (tar_cat tar_chars tar_fuel (CString.of_list x))
  end.

(** [while (argv[a][c] != '\0' && idx < lim) buffer[idx++] = argv[a][c++]]: the
    array [buffer] has [size] bytes, [acc] are the ones written so far. *)
Fixpoint copy_chars (buffer : string) (size lim : nat) (x acc : list Z) : outcome (list Z) :=
  match x with
  | [] => Done acc
  | c :: x' =>
      if bool_decide (length acc < lim)%nat
      then acc ← append buffer size acc c; copy_chars buffer size lim x' acc
      else Done acc
  end.

(** The arguments joined by spaces, cut at [lim] characters; [guard] is the
    loop's own test of the limit, which only fat-write has. *)
Fixpoint join_args (buffer : string) (size : nat) (guard : bool) (lim : nat) (l : list (list Z)) (acc : list Z)
    : outcome (list Z) :=
  match l with
  | [] => Done acc
  | x :: l' =>
      if guard && negb (bool_decide (length acc < lim)%nat) then Done acc
      else
        acc ← copy_chars buffer size lim x acc;
        acc ← (if bool_decide (l' <> [] /\ (length acc < lim)%nat) then append buffer size acc 32 else Done acc);
        join_args buffer size guard lim l' acc
  end.

(** [unsigned char buffer[512] = {0}], the joined text and its terminator. *)
Definition cmd_write_test (args : list (list Z)) : M (shell D H) unit :=
  match args with
  | [] => say_line "Usage: write_test <text>"
  | _ =>
      text ← lift (join_args "buffer" 512 false 510 args []);
      buffer ← lift (append "buffer" 512 text 0);
      on_fat (write_sector 1 (buffer ++ replicate (512 - length buffer) 0));;
      say_line "Successfully wrote to Sector 1!"
  end.

(** Printing an array as a string reads on past its end when it holds no
    terminator. *)
Definition print_array (array : string) (b : list Z) : M (shell D H) unit :=
  if bool_decide (0 ∈ b) then emit (Print (c_string b)) else lift (Undefined (OutOfBounds array)).

Definition cmd_read_test : M (shell D H) unit :=
  b ← on_fat (read_sector 1);
  say "Read from Sector 1: ";; print_array "buffer" b;; emit (Print [10]).

(** [uint8_t buf[4096]]: what was there before is [junk].  The terminator goes
    to [buf[bytes]], whatever [bytes] is. *)
Definition cmd_fat_cat (args : list (list Z)) : M (shell D H) unit :=
  match args with
  | [] => say_line "Usage: fat-cat <filename.ext>"
  | x :: _ =>
      let '(name8, ext3) := fat16_format_83 x in
      '(bytes, out) ← on_fat (fat16_read_file name8 ext3 4096);
      if bool_decide (bytes > 0) then
        buf ← lift (store "buf" (take 4096 (out ++ drop (length out) junk)) bytes 0);
        print_array "buf" buf;;
        emit (Print [10])
      else mret tt
  end.

Definition cmd_fat_write (args : list (list Z)) : M (shell D H) unit :=
  match args with
  | [] | [_] => say_line "Usage: fat-write <filename.ext> <text>"
  | x :: text =>
      let '(name8, ext3) := fat16_format_83 x in
      text ← lift (join_args "content" 256 true 254 text []);
      content ← lift (append "content" 256 text 0);
      on_fat (fat16_write_file name8 ext3 content (Z.of_nat (length text)));; mret tt
  end.

(** The program's entry point, or [None] for an early [return]. *)
Definition load_image (tmp_buf result : Z) : M (shell D H) (option Z) :=
  magic ← on_vm (reads (starts_with elf_magic tmp_buf));
  if (magic : bool) then
    '(r, user_entry) ← on_vm (load_elf_program tmp_buf (u32 result) 0);
    if bool_decide (r < 0) then say_line "run: invalid ELF image";; mret None
    else mret (Some user_entry)
  else
    phys ← on_vm vm_alloc_block;
    if bool_decide (phys = 0) then say_line "run: out of physical memory";; mret None
    else
      on_vm (map_page phys 0x40000000 7);;
      on_vm (stores (CString.memcpy 0x40000000 tmp_buf (u32 result)));;
      (if bool_decide (u32 result < 4096)
       then on_vm (stores (CString.memset (u32 (0x40000000 + u32 result)) 0 (4096 - u32 result))) else mret tt);;
      say_line "run: flat binary loaded at 0x40000000";;
      mret (Some 0x40000000).

Definition cmd_run (args : list (list Z)) : M (shell D H) ending :=
  match args with
  | [] => say_line "Usage: run <filename.ext>";; mret Finish
  | x :: _ =>
      let '(name8, ext3) := fat16_format_83 x in
      tmp_buf ← on_vm (vm_kmalloc_a 4096);
      if bool_decide (tmp_buf = 0) then say_line "run: kmalloc failed";; mret Leave else
      result ← read_into tmp_buf name8 ext3;
      if bool_decide (result < 0) then say_line "run: failed to load file";; mret Finish else
      image ← load_image tmp_buf result;
      match image with
      | None => mret Leave
      | Some user_entry =>
          say "Loaded ";; emit (PrintInt result);; say " bytes, jumping to entry 0x";;
          emit (PrintHex user_entry);; say_line "...";;
          jump ← on_vm (enter_user_program user_entry);
          match jump with
          | None => mret Finish
          | Some (stack, entry_) => user_mode stack entry_;; on_vm after_user_program;; mret Finish
          end
      end
  end.

Definition cmd_spawn (args : list (list Z)) : M (shell D H) unit :=
  match args with
  | [] => say_line "Usage: spawn <file.elf>"
  | x :: _ =>
      '(r, n) ← task_create_from_elf x;
      if bool_decide (r < 0) then say_line "spawn: failed to create process"
      else
        say "spawn: pid=";; emit (PrintInt (i32 n));; say_line " created, running...";;
        p ← on_procs (s ← mget; let '(p, q) := proc_dequeue s in mput q;; mret p);
        if bool_decide (p = 0) then mret tt
        else
          s ← mget;
          user_mode (user_stack_top (deref (sh_procs s) p)) (p_entry (deref (sh_procs s) p));;
          say_line "spawn: process exited."
  end.

Definition done_ (m : M (shell D H) unit) : M (shell D H) ending := m;; mret Finish.

(** [strcmp(argv[0], name) == 0] *)
Definition cmd_is (command : list Z) (name : string) : bool := streq command (str name).

(** The strings the pointers into the line buffer stand for; one that has no
    terminator behind it is read past the end of the buffer. *)
Definition arg_string (b : list Z) (i : Z) : outcome (list Z) :=
  let s := drop (Z.to_nat i) b in
  if bool_decide (0 ∈ s) then Done (c_string s) else Undefined (OutOfBounds "input_buffer").

Fixpoint arg_strings (b argv : list Z) : outcome (list (list Z)) :=
  match argv with
  | [] => Done []
  | i :: argv' => x ← arg_string b i; l ← arg_strings b argv'; Done (x :: l)
  end.

(** The chain of comparisons of [argv[0]]. *)
Definition dispatch (command : list Z) (args : list (list Z)) : M (shell D H) ending :=
  if cmd_is command "help" then done_ cmd_help
  else if cmd_is command "clear" then done_ (emit ClearScreen)
  else if cmd_is command "timer" then done_ cmd_timer
  else if cmd_is command "about" then done_ (say "CIndy-OS - A bare-metal hobby OS built from scratch.")
  else if cmd_is command "version" then done_ (say "CIndy-OS Kernel v0.1")
  else if cmd_is command "reboot" then cmd_reboot;; mret Halt
  else if cmd_is command "echo" then done_ (cmd_echo args)
  else if cmd_is command "meminfo" then done_ cmd_meminfo
  else if cmd_is command "ls" then done_ (on_tar (tar_ls tar_chars tar_fuel))
  else if cmd_is command "cat" then done_ (cmd_cat args)
  else if cmd_is command "pwd" then done_ (say "/")
  else if cmd_is command "whoami" then done_ (say "root")
  else if cmd_is command "uptime" then done_ cmd_uptime
  else if cmd_is command "write-test" then done_ (cmd_write_test args)
  else if cmd_is command "read-test" then done_ cmd_read_test
  else if cmd_is command "fat-ls" then done_ (on_fat fat16_ls)
  else if cmd_is command "fat-cat" then done_ (cmd_fat_cat args)
  else if cmd_is command "fat-write" then done_ (cmd_fat_write args)
  else if cmd_is command "run" then cmd_run args
  else if cmd_is command "spawn" then done_ (cmd_spawn args)
  else done_ (say "Unknown command: ";; emit (Print command)).

(** [for (i = 0; i < BUFFER_SIZE; i++) input_buffer[i] = 0] *)
Definition clear_line (b : list Z) : outcome (list Z) :=
  for_ 0 BUFFER_SIZE (fun i o => o ≫= put i 0) (Done b).

(** The prompt; then [buffer_index = 0] and the buffer cleared. *)
Definition prompt : M (shell D H) unit :=
  emit (Print [10]);;
  emit (PrintColored (str "[CIndy-OS]> ") 0x0B);;
  s ← mget;
  b ← lift (clear_line (input_buffer (sh_kb s)));
  mmodify (on_kb (set_line b 0)).

(** 258 rounds split any line of the 256-byte buffer. *)
Definition execute_command : M (shell D H) flow :=
  emit (Print [10]);;
  s ← mget;
  '(argv, b) ← lift (split_args 258 (input_buffer (sh_kb s)) 0 0);
  mmodify (on_kb (fun k => set_line b (buffer_index k) k));;
  args ← lift (arg_strings b argv);
  e ← (match args with
       | [] => mret Finish
       | command :: args => dispatch command args
       end);
  match e with
  | Finish => prompt;; mret Back
  | Leave => mret Back
  | Halt => mret Hung
  end.
End Shell.
