(* ===== verification/ShellSpec.v ===== *)
(** * Properties of the shell

    What a line typed at the prompt does: the editor's line is split into
    words, the first one chooses the command, and the prompt is printed again
    over an empty buffer. *)
From Stdlib Require Import ZArith Lia ZifyBool String.
From stdpp Require Import base numbers list gmap.
From S2P Require Import Prelude Mem Memory Paging Process Syscall BlockDev Ports Fat16 Fat16Facts Fat16Dir Fat16Spec Fat16Mount TarFs Elf Keyboard KeyboardSpec Shell.

(** ** Characters the keyboard produces *)
Definition char_ok (c : Z) : Prop := 0 < c < 128.

#[export] Instance char_ok_dec c : Decision (char_ok c).
Proof. unfold char_ok. apply _. Defined.

Lemma tables_ok_chars : Forall (fun c => 0 <= c < 127) kbd_us /\ Forall (fun c => 0 <= c < 127) kbd_us_shift.
Proof. split; apply (bool_decide_unpack _); vm_compute; exact I. Qed.

Lemma inserted_ok e scancode : typed e scancode <> 0 -> char_ok (inserted e (typed e scancode)).
Proof.
  intros H0. assert (Ht : 0 <= typed e scancode < 127).
  { unfold typed. destruct tables_ok_chars as [T1 T2]. rewrite Forall_forall in T1, T2.
    destruct (e_shift e); apply (at_table_default _ _ (fun c => 0 <= c < 127)); (done || lia). }
  unfold char_ok, inserted, swap_case. destruct (e_caps e); repeat case_bool_decide; lia.
Qed.

Lemma edit_chars e k :
  Forall char_ok (e_line e) -> (forall c, k = Char c -> char_ok c) -> Forall char_ok (e_line (fst (edit e k))).
Proof.
  intros He Hk. destruct k; cbn [edit]; try exact He.
  - destruct (decide (e_line e = [])) as [E|E]; [rewrite E; cbn; rewrite E; constructor|].
    destruct (exists_last E) as (l & c & El). rewrite El in *. apply Forall_app in He as [He _].
    destruct (l ++ [c]) as [|x y] eqn:Ec; [by destruct l|]. cbn [fst e_line]. by rewrite <- Ec, removelast_last.
  - case_bool_decide; [|exact He]. cbn [fst e_line]. apply Forall_app_2; [done|]. constructor; [by apply Hk|done].
Qed.

Lemma decode_char e scancode c : decode e scancode = Char c -> char_ok c.
Proof.
  unfold decode. repeat (case_bool_decide; [done|]). destruct (bit scancode 7); [done|].
  repeat (case_bool_decide; [done|]). intros [= <-]. by apply inserted_ok.
Qed.

Lemma edits_chars e l : Forall char_ok (e_line e) -> Forall char_ok (e_line (fst (edits e l))).
Proof.
  revert e. induction l as [|c l IH]; intros e He; [exact He|]. cbn [edits].
  pose proof (edit_chars e (decode e c) He (decode_char e c)) as H1. destruct (edit e (decode e c)) as [e1 o1].
  specialize (IH e1 H1). by destruct (edits e1 l).
Qed.

Lemma words_from_chars w l : Forall char_ok w -> Forall char_ok l -> Forall (Forall char_ok) (words_from w l).
Proof.
  intros Hw Hl. revert w Hw. induction Hl as [|c l Hc Hl IH]; intros w Hw; cbn [words_from].
  - destruct w; cbn; auto.
  - case_bool_decide; [|apply IH; apply Forall_app_2; auto].
    destruct w as [|x w]; cbn [flush]; [by apply IH|]. constructor; [done|by apply IH].
Qed.

Lemma char_ok_nonzero l : Forall char_ok l -> Forall (fun c => c <> 0) l.
Proof. intros H. eapply Forall_impl; [exact H|]. unfold char_ok. intros; lia. Qed.

Lemma char_ok_u8 l : Forall char_ok l -> Forall is_u8 l.
Proof. intros H. eapply Forall_impl; [exact H|]. unfold char_ok, is_u8. intros; lia. Qed.

(** ** The key Enter *)
Definition enter : Z := 0x1C.

Lemma decode_enter e : decode e enter = Enter.
Proof. unfold decode, typed. by destruct (e_shift e). Qed.

(** The editor at a fresh prompt: the modifiers stay as they were. *)
Definition fresh (e : editor) : editor := {| e_shift := e_shift e; e_caps := e_caps e; e_line := [] |}.

Definition prompt_events : list event := [Print [10]; PrintColored (str "[CIndy-OS]> ") 0x0B].

Lemma clear_buffer b : length b = 256%nat -> clear_line b = Done (replicate 256 0).
Proof.
  intros Hb. unfold clear_line.
  pose (P := fun n o => exists c, o = Done c /\ length c = 256%nat /\ forall i, 0 <= i < n -> c !! Z.to_nat i = Some 0).
  assert (Hx : P BUFFER_SIZE (for_ 0 BUFFER_SIZE (fun i o => o ≫= put i 0) (Done b))).
  { apply (for_inv P); unfold P; [done|exists b; split_and!; [done..|lia]|].
    intros n o Hn (c & -> & Hc & Hi). cbn [mbind outcome_bind]. unfold put, BUFFER_SIZE in *.
    rewrite store_in by lia. eexists. split; [done|]. split; [by rewrite length_insert|]. intros i Hin.
    destruct (decide (i = n)) as [->|]; [apply list_lookup_insert_eq; lia|].
    rewrite list_lookup_insert_ne by lia. apply Hi. lia. }
  destruct Hx as (c & -> & Hl & Hi). f_equal.
  apply list_eq_same_length with (n := 256%nat); [by rewrite length_replicate|done|].
  intros i x y Hlt Hx Hy. specialize (Hi (Z.of_nat i)). rewrite Nat2Z.id, Hx in Hi.
  apply lookup_replicate in Hy as [-> _]. unfold BUFFER_SIZE in Hi. specialize (Hi ltac:(lia)). congruence.
Qed.

(** Every pointer to a nonempty string of a buffer that ends in a terminator
    can be read. *)
Lemma arg_strings_ok b argv :
  Forall (fun x => x <> []) (strings (b ++ [0]) argv) -> arg_strings (b ++ [0]) argv = Done (strings (b ++ [0]) argv).
Proof.
  induction argv as [|i argv IH]; [done|]. intros [Hx Hl]%Forall_cons. cbn [arg_strings]. unfold arg_string.
  rewrite bool_decide_true.
  - cbn [mbind outcome_bind]. by rewrite (IH Hl).
  - destruct (decide (Z.to_nat i <= length b)%nat) as [Hi|Hi].
    + rewrite drop_app_le by done. set_solver.
    + rewrite drop_ge in Hx by (rewrite length_app; cbn; lia). done.
Qed.

(** ** Comparing words *)
Lemma streq_spec a b : Forall char_ok a -> Forall char_ok b -> streq a b = bool_decide (a = b).
Proof.
  intros Ha Hb. unfold streq, CString.strcmp.
  destruct (CString.strcmp_from_spec (S (length a)) (CString.of_list a) (CString.of_list b) a b) as (c & -> & Hc & _).
  - by apply CString.cstr_of_list, char_ok_nonzero.
  - by apply CString.cstr_of_list, char_ok_nonzero.
  - lia.
  - intros c Hc. rewrite Forall_forall in Ha. by apply Ha in Hc as [? _].
  - intros c Hc. rewrite Forall_forall in Hb. by apply Hb in Hc as [? _].
  - by apply bool_decide_ext.
Qed.

(** ** One line of input *)
Section Line.
Context {D H : Type} {BD : BlockDev D} {PT : Ports H}.
Context (user_mode : Z -> Z -> M (shell D H) unit) (junk : list Z) (tar_chars tar_fuel : nat).

Abbreviation exec := (execute_command user_mode junk tar_chars tar_fuel).
Abbreviation run_words := (dispatch user_mode junk tar_chars tar_fuel).

Lemma prompt_wp (s : shell D H) Q :
  length (input_buffer (sh_kb s)) = 256%nat ->
  Q tt (put_kb (set_line (replicate 256 0) 0 (sh_kb s)) s) prompt_events -> wp prompt s Q.
Proof.
  intros Hl HQ. unfold prompt. apply wp_bind, wp_emit, wp_bind, wp_emit, wp_bind, wp_get.
  apply wp_bind, (wp_lift (replicate 256 0)); [by apply clear_buffer|]. apply wp_modify. exact HQ.
Qed.

(** The words [execute_command] finds: those in front of the first terminator. *)
Definition argv_of (e : editor) : list (list Z) := words (c_string (e_line e)).

Definition with_line (e : editor) (l : list Z) : editor := {| e_shift := e_shift e; e_caps := e_caps e; e_line := l |}.

(** The keyboard while a command runs: the line is as long as before, with some
    spaces turned into terminators; behind the first of several words there
    is one. *)
Definition executing (e : editor) (k : keyboard) : Prop :=
  exists l, length l = length (e_line e) /\ holds_line k (with_line e l) /\
    ((2 <= length (argv_of e))%nat -> 0 ∈ l /\ words (c_string l) = take 1 (argv_of e)).

Lemma executing_len e k : executing e k -> length (input_buffer k) = 256%nat.
Proof.
  intros (l & Hl & Hk & _). destruct Hk as [_ _ Hb _ Hm]. rewrite Hb, length_app, length_replicate. cbn in *. lia.
Qed.

Lemma fresh_line e k : executing e k -> holds_line (set_line (replicate 256 0) 0 k) (fresh e).
Proof. intros (l & Hl & [H1 H2 H3 H4 H5] & _). constructor; cbn; try done; lia. Qed.

(** A line and the zeros behind it, cut at the first terminator. *)
Lemma c_string_cut l n : exists t, l ++ replicate (S n) 0 = c_string l ++ 0 :: t.
Proof.
  induction l as [|c l (t & IH)]; [by eexists|]. cbn [app c_string]. case_bool_decide as Hc.
  - subst. by eexists.
  - exists t. by rewrite IH.
Qed.

Lemma c_string_le l : (length (c_string l) <= length l)%nat.
Proof. induction l as [|c l IH]; cbn; [lia|]. case_bool_decide; cbn; lia. Qed.

Lemma c_string_chars l : Forall (fun c => c <> 0) (c_string l).
Proof. induction l as [|c l IH]; cbn; [done|]. case_bool_decide; [done|]. by constructor. Qed.

Lemma c_string_app_zero l x : 0 ∈ l -> c_string (l ++ x) = c_string l.
Proof.
  induction l as [|c l IH]; [set_solver|]. intros [E|Hin]%elem_of_cons; cbn.
  - by rewrite bool_decide_true.
  - case_bool_decide; [done|]. by rewrite IH.
Qed.

Lemma c_string_first sp w l : Forall (fun c => c = 32) sp -> Forall word_char w -> w <> [] ->
  words (c_string (sp ++ w ++ 0 :: l)) = [w].
Proof.
  intros Hsp Hw Hne. rewrite app_assoc.
  assert (E : forall v, Forall (fun c => c <> 0) v -> c_string (v ++ 0 :: l) = v).
  { induction 1 as [|c v Hc _ IH]; cbn; [done|]. rewrite bool_decide_false by done. by rewrite IH. }
  rewrite E by (apply Forall_app_2; [by apply spaces_nonzero|by apply word_nonzero]).
  rewrite words_spaces by done. pose proof (words_word w [] Hw Hne (or_introl eq_refl)) as Hx. by rewrite app_nil_r in Hx.
Qed.

Lemma words_from_nonempty w l : Forall (fun v => v <> []) (words_from w l).
Proof.
  revert w. induction l as [|c l IH]; intros w; cbn; [by destruct w; repeat constructor|].
  case_bool_decide; [|apply IH]. destruct w; [apply IH|]. constructor; [done|apply IH].
Qed.

(** Replacing the front of a line by one of the same length. *)
Lemma same_front l0 l1 (l t : list Z) n : (length l0 <= length l)%nat -> length l1 = length l0 ->
  l ++ replicate n 0 = l0 ++ t -> l1 ++ t = (l1 ++ drop (length l0) l) ++ replicate n 0.
Proof.
  intros Hl Hl1 E. rewrite <- app_assoc. f_equal. apply (f_equal (drop (length l0))) in E.
  rewrite drop_app_le in E by done. by rewrite drop_app_length in E.
Qed.

(** Splitting the buffer that holds a line. *)
Lemma split_line e k :
  holds_line k e -> exists argv b, split_args 258 (input_buffer k) 0 0 = Done (argv, b) /\
    arg_strings b argv = Done (take 16 (argv_of e)) /\ executing e (set_line b (buffer_index k) k).
Proof.
  intros [Hs Hc Hb Hi Hm]. set (l := e_line e) in *. set (l0 := c_string l).
  assert (H0 : (length l0 <= length l)%nat) by apply c_string_le.
  destruct (c_string_cut l (255 - length l)) as (t & Et). fold l0 in Et.
  replace (S (255 - length l)) with (256 - length l)%nat in Et by lia. rewrite Hb, Et.
  assert (Hex' : forall l1, length l1 = length l0 -> exists b0, l1 ++ 0 :: t = b0 ++ [0]).
  { intros l1 Hl1. exists ((l1 ++ drop (length l0) l) ++ replicate (255 - length l) 0).
    rewrite (same_front l0 l1 l (0 :: t) (256 - length l) H0 Hl1 Et).
    replace (256 - length l)%nat with (255 - length l + 1)%nat by lia. by rewrite replicate_add, !app_assoc. }
  assert (Hex : forall l1, length l1 = length l0 ->
    ((2 <= length (argv_of e))%nat -> 0 ∈ l1 /\ words (c_string l1) = take 1 (argv_of e)) ->
    executing e (set_line (l1 ++ 0 :: t) (buffer_index k) k)).
  { intros l1 Hl1 H2. exists (l1 ++ drop (length l0) l). split_and!.
    - rewrite length_app, length_drop, Hl1. subst l. lia.
    - assert (Hlen : length (l1 ++ drop (length l0) l) = length l) by (rewrite length_app, length_drop; lia).
      constructor; cbn [set_line input_buffer shift_pressed caps buffer_index with_line e_shift e_caps e_line];
        rewrite ?Hlen; try done. by apply (same_front l0).
    - intros Hw. destruct (H2 Hw) as [Hin Hws]. split; [set_solver|]. by rewrite c_string_app_zero. }
  assert (Hargs : forall argv l1, length l1 = length l0 -> strings (l1 ++ 0 :: t) argv = take 16 (argv_of e) ->
    arg_strings (l1 ++ 0 :: t) argv = Done (take 16 (argv_of e))).
  { intros argv l1 Hl1 Hst.
    destruct (Hex' l1 Hl1) as (b0 & Eb). rewrite Eb in *. rewrite arg_strings_ok; [by rewrite Hst|].
    rewrite Hst. apply Forall_take, words_from_nonempty. }
  destruct (decide (2 <= length (argv_of e))%nat) as [H2|H2].
  - destruct (split_first l0 t (c_string_chars l)) as (argv & sp & w & l' & E & Hsp & Hw & Ht & Hlen & Hst); [lia|exact H2|].
    exists argv, ((sp ++ w ++ 0 :: l') ++ 0 :: t). split_and!; [exact E|by apply Hargs|]. apply Hex; [exact Hlen|]. intros _.
    clear E Hst Hex Hex' Hargs. split; [set_solver|]. unfold argv_of. fold l l0. rewrite Ht. apply c_string_first; [exact Hsp|exact Hw|].
    pose proof (words_from_nonempty [] l0) as Hne. change (words_from [] l0) with (words l0) in Hne.
    destruct (words l0); [done|]. injection Ht as ->. by apply Forall_cons in Hne as [? _].
  - destruct (split_args_ok 258 [] l0 t 0 (c_string_chars l)) as (argv & l' & E & Hlen & Hst); [lia|lia|].
    exists argv, (l' ++ 0 :: t). split_and!; [exact E|by apply Hargs|]. by apply Hex.
Qed.

(** What [execute_command] does: the words are dispatched, at most sixteen of
    them, and a command that finishes is followed by a fresh prompt. *)
Lemma exec_wp e (s : shell D H) Q :
  holds_line (sh_kb s) e ->
  (forall k, executing e k ->
     match take 16 (argv_of e) with
     | [] => Q Back (put_kb (set_line (replicate 256 0) 0 k) s) (Print [10] :: prompt_events)
     | command :: args => wp (run_words command args) (put_kb k s) (fun en s1 o =>
         match en with
         | Finish => length (input_buffer (sh_kb s1)) = 256%nat /\
             Q Back (put_kb (set_line (replicate 256 0) 0 (sh_kb s1)) s1) (Print [10] :: o ++ prompt_events)
         | Leave => Q Back s1 (Print [10] :: o)
         | Halt => Q Hung s1 (Print [10] :: o)
         end)
     end) ->
  wp exec s Q.
Proof.
  intros Hk HQ. unfold execute_command. apply wp_bind, wp_emit, wp_bind, wp_get. cbv beta zeta.
  destruct (split_line e (sh_kb s) Hk) as (argv & b & Es & Hw & Hx). apply wp_bind, (wp_lift _ _ _ _ Es).
  apply wp_bind, wp_modify. cbn [on_kb shell_keyboard].
  specialize (HQ _ Hx). apply wp_bind, (wp_lift _ _ _ _ Hw). apply wp_bind.
  destruct (take 16 (argv_of e)) as [|command args].
  - apply wp_ret. apply wp_bind, prompt_wp; [by eapply executing_len|]. apply wp_ret. exact HQ.
  - eapply wp_mono; [exact HQ|]. cbv beta. intros en s1 o Hen. destruct en.
    + destruct Hen as [Hlen HQ1]. apply wp_bind, prompt_wp; [done|]. apply wp_ret. rewrite app_nil_r. exact HQ1.
    + apply wp_ret. rewrite app_nil_r. exact Hen.
    + apply wp_ret. rewrite app_nil_r. exact Hen.
Qed.

(** Typing a line and Enter. *)
Lemma line_wp l e (s : shell D H) Q :
  holds_line (sh_kb s) e -> no_enter e l ->
  (forall k, executing (fst (edits e l)) k ->
     match take 16 (argv_of (fst (edits e l))) with
     | [] => Q Back (put_kb (set_line (replicate 256 0) 0 k) s) (snd (edits e l) ++ Print [10] :: prompt_events)
     | command :: args => wp (run_words command args) (put_kb k s) (fun en s1 o =>
         match en with
         | Finish => length (input_buffer (sh_kb s1)) = 256%nat /\
             Q Back (put_kb (set_line (replicate 256 0) 0 (sh_kb s1)) s1)
               (snd (edits e l) ++ Print [10] :: o ++ prompt_events)
         | Leave => Q Back s1 (snd (edits e l) ++ Print [10] :: o)
         | Halt => Q Hung s1 (snd (edits e l) ++ Print [10] :: o)
         end)
     end) ->
  wp (keys exec (l ++ [enter])) s Q.
Proof.
  intros Hk Hn HQ. apply keys_app. apply (keys_edit exec l e); [done..|]. intros k Hk1. cbn [keys].
  apply wp_bind. apply (key_enter exec (fst (edits e l))); [done|apply decode_enter|].
  eapply (exec_wp (fst (edits e l))); [done|]. intros k2 Hk2. specialize (HQ k2 Hk2).
  change (put_kb k2 (on_kb (fun _ => k) s)) with (put_kb k2 s).
  destruct (take 16 _) as [|command args].
  - apply wp_ret. rewrite app_nil_r. exact HQ.
  - eapply wp_mono; [exact HQ|]. cbv beta. intros en s1 o Hen.
    destruct en; [destruct Hen as [? Hen]; split; [done|]|..]; apply wp_ret; rewrite app_nil_r; exact Hen.
Qed.
End Line.

(** ** Joining arguments *)

(** The words with single spaces between them. *)
Fixpoint joined (l : list (list Z)) : list Z :=
  match l with [] => [] | [x] => x | x :: l' => x ++ 32 :: joined l' end.

Lemma copy_chars_spec array size lim x acc :
  (length acc <= lim <= size)%nat -> copy_chars array size lim x acc = Done (take lim (acc ++ x)).
Proof.
  revert acc. induction x as [|c x IH]; intros acc Hl; cbn [copy_chars].
  - by rewrite app_nil_r, take_ge by lia.
  - case_bool_decide.
    + rewrite append_in by lia. cbn [mbind outcome_bind].
      rewrite IH by (rewrite length_app; cbn; lia). by rewrite <- app_assoc.
    + rewrite take_app_le by lia. by rewrite take_ge by lia.
Qed.

(** Cutting and then appending is appending and then cutting. *)
Lemma take_app_take {A} n (a b : list A) : take n (take n a ++ b) = take n (a ++ b).
Proof.
  destruct (decide (length a <= n)%nat) as [?|?]; [by rewrite (take_ge a)|].
  rewrite !take_app_le by (rewrite ?length_take; lia). by rewrite take_take, Nat.min_id.
Qed.

(** The joined text, cut at the limit; no byte is written outside the array. *)
Lemma join_args_spec array size guard lim l acc :
  (length acc <= lim <= size)%nat -> join_args array size guard lim l acc = Done (take lim (acc ++ joined l)).
Proof.
  revert acc. induction l as [|x l IH]; intros acc Hl; cbn [join_args].
  - cbn [joined]. by rewrite app_nil_r, take_ge by lia.
  - destruct (guard && negb (bool_decide (length acc < lim)%nat)) eqn:E.
    { apply andb_prop in E as [_ E]. apply negb_true_iff, bool_decide_eq_false in E.
      rewrite take_app_le by lia. by rewrite take_ge by lia. }
    rewrite copy_chars_spec by done. cbn [mbind outcome_bind]. set (a := take lim (acc ++ x)).
    assert (Ha : (length a <= lim)%nat) by (subst a; rewrite length_take; lia).
    destruct l as [|y l].
    { rewrite bool_decide_false by tauto. cbn [join_args joined mbind outcome_bind]. done. }
    change (joined (x :: y :: l)) with (x ++ 32 :: joined (y :: l)).
    destruct (decide (length a < lim)%nat) as [Hlt|Hlt].
    + rewrite bool_decide_true by (split; [discriminate|exact Hlt]). rewrite append_in by lia. cbn [mbind outcome_bind]. rewrite IH by (rewrite length_app; cbn [length]; lia). rewrite <- app_assoc. subst a.
      rewrite take_app_take, <- app_assoc. done.
    + rewrite bool_decide_false by tauto. cbn [mbind outcome_bind]. assert (Hfull : length a = lim) by lia.
      rewrite IH by lia. rewrite take_app_le by lia. rewrite take_ge by lia. subst a.
      rewrite app_assoc. f_equal. symmetry. apply take_app_le. rewrite length_take in Hfull. lia.
Qed.

Lemma joined_chars l : Forall (Forall char_ok) l -> Forall char_ok (joined l).
Proof.
  induction 1 as [|x l Hx Hl IH]; [constructor|]. destruct l as [|y l]; [exact Hx|].
  change (joined (x :: y :: l)) with (x ++ 32 :: joined (y :: l)). apply Forall_app_2; [done|].
  constructor; [unfold char_ok; lia|exact IH].
Qed.

(** What echo prints is the joined text. *)
Definition printed (o : list event) : list Z := o ≫= (fun e => match e with Print s => s | _ => [] end).

Lemma echo_args_printed l : printed (echo_args l) = joined l.
Proof.
  induction l as [|x l IH]; [done|]. destruct l as [|y l]; [cbn; by rewrite app_nil_r|].
  change (joined (x :: y :: l)) with (x ++ 32 :: joined (y :: l)). rewrite <- IH. done.
Qed.

(** ** The editor's line as arguments *)
Lemma argv_chars e l : Forall char_ok (e_line e) -> Forall (Forall char_ok) (argv_of (fst (edits e l))).
Proof.
  intros He. apply words_from_chars; [constructor|]. pose proof (edits_chars e l He) as Hl.
  rewrite c_string_nonzero by by apply char_ok_nonzero. exact Hl.
Qed.

Lemma take_words_chars e l n x ws :
  Forall char_ok (e_line e) -> take n (argv_of (fst (edits e l))) = x :: ws -> Forall char_ok x /\ Forall (Forall char_ok) ws.
Proof.
  intros He E. apply Forall_cons. rewrite <- E. apply Forall_take. by apply argv_chars.
Qed.

Lemma take_words_nonempty e n ws : take n (argv_of e) = ws -> Forall (fun w => w <> []) ws.
Proof. intros <-. apply Forall_take. apply words_from_nonempty. Qed.

Lemma joined_nonempty l : l <> [] -> Forall (fun w => w <> []) l -> joined l <> [].
Proof. destruct l as [|x [|y l]]; [done|..]; intros _ H; apply Forall_cons in H as [H _]; destruct x; done. Qed.

(** ** Keys that only type *)
Fixpoint types_only (e : editor) (l : list Z) : Prop :=
  match l with
  | [] => True
  | c :: l' => decode e c <> Enter /\ decode e c <> Erase /\ types_only (fst (edit e (decode e c))) l'
  end.

Lemma edits_cons e c l : fst (edits e (c :: l)) = fst (edits (fst (edit e (decode e c))) l).
Proof. cbn [edits]. destruct (edit e (decode e c)) as [e1 o1]. cbn [fst]. by destruct (edits e1 l). Qed.

(** The line does not matter to what the keys mean. *)
Lemma edit_modifiers e l k : edit (with_line e l) k = (with_line (fst (edit e k)) (e_line (fst (edit (with_line e l) k))), snd (edit (with_line e l) k)).
Proof. destruct k; cbn; try done; [destruct l, (e_line e); done|repeat case_bool_decide; done]. Qed.

Lemma types_only_line e l l2 : types_only e l2 -> types_only (with_line e l) l2.
Proof.
  revert e l. induction l2 as [|c l2 IH]; intros e l; [done|]. intros (H1 & H2 & H3). split_and!; [exact H1|exact H2|].
  change (decode (with_line e l) c) with (decode e c). rewrite edit_modifiers. cbn [fst]. by apply IH.
Qed.

Lemma types_only_no_enter e l : types_only e l -> no_enter e l.
Proof. revert e. induction l as [|c l IH]; intros e; [done|]. intros (H1 & _ & H2). split; [done|]. by apply IH. Qed.

(** Such keys only add to the end of the line. *)
Lemma types_only_prefix e l : types_only e l -> exists x, e_line (fst (edits e l)) = e_line e ++ x.
Proof.
  revert e. induction l as [|c l IH]; intros e H; [exists []; by rewrite app_nil_r|].
  destruct H as (H1 & H2 & H3). destruct (IH _ H3) as (x & Hx). rewrite edits_cons, Hx.
  destruct (decode e c) as [| | | | |ch|]; cbn [edit]; try (by exists x); try done.
  case_bool_decide; [|by exists x]. exists (ch :: x). cbn. by rewrite <- app_assoc.
Qed.

Lemma edits_modifiers e l l2 : fst (edits (with_line e l) l2) = with_line (fst (edits e l2)) (e_line (fst (edits (with_line e l) l2))).
Proof.
  revert e l. induction l2 as [|c l2 IH]; intros e l; [by destruct e|]. rewrite !edits_cons.
  change (decode (with_line e l) c) with (decode e c). rewrite edit_modifiers. cbn [fst]. apply IH.
Qed.

(** What such keys print depends on the length of the line alone. *)
Lemma types_only_echo e l l2 :
  types_only e l2 -> length l = length (e_line e) -> snd (edits (with_line e l) l2) = snd (edits e l2).
Proof.
  revert e l. induction l2 as [|c l2 IH]; intros e l; [done|]. intros (H1 & H2 & H3) Hl. cbn [edits].
  change (decode (with_line e l) c) with (decode e c).
  assert (Hstep : exists l', edit (with_line e l) (decode e c) = (with_line (fst (edit e (decode e c))) l', snd (edit e (decode e c))) /\
    length l' = length (e_line (fst (edit e (decode e c))))).
  { destruct (decode e c) as [| | | | |ch|]; cbn [edit]; try done; try (by exists l).
    cbn [with_line e_line]. rewrite Hl. case_bool_decide; [exists (l ++ [ch])|by exists l].
    split; [done|]. cbn. rewrite !length_app. cbn. lia. }
  destruct Hstep as (l' & E & Hl'). rewrite E. specialize (IH _ l' H3 Hl').
  destruct (edit e (decode e c)) as [e1 o1]. cbn [fst snd] in *.
  destruct (edits (with_line e1 l') l2) as [? o2], (edits e1 l2) as [? o3]. cbn [snd] in *. by rewrite IH.
Qed.

(** ** Properties *)
Section Properties.
Context {D H : Type} {BD : BlockDev D} {PT : Ports H}.
Context (user_mode : Z -> Z -> M (shell D H) unit) (junk : list Z) (tar_chars tar_fuel : nat).

Abbreviation exec := (execute_command user_mode junk tar_chars tar_fuel).
Abbreviation run_words := (dispatch user_mode junk tar_chars tar_fuel).

(** C24: a line typed at the prompt is executed: typing the keys of a line whose first word is echo and then Enter terminates, prints the echo of the typing, a newline, the other words (at most fifteen) joined by single spaces whatever the spacing typed, and a new prompt, leaves an empty line with the modifiers as they were, and changes nothing but the keyboard's globals. *)
Theorem shell_echo l e (s : shell D H) args :
  holds_line (sh_kb s) e -> no_enter e l ->
  take 16 (argv_of (fst (edits e l))) = str "echo" :: args ->
  wp (keys exec (l ++ [enter])) s (fun f s' o => f = Back /\
    (exists k, s' = put_kb k s /\ holds_line k (fresh (fst (edits e l)))) /\
    exists o1, o = snd (edits e l) ++ Print [10] :: o1 ++ prompt_events /\
      printed o1 = match args with [] => str "No string passed" | _ => joined args end).
Proof.
  intros Hk Hn Hw. apply (line_wp _ _ _ _ _ e); [done..|]. intros k Hex. rewrite Hw.
  change (run_words (str "echo") args) with (done_ (@cmd_echo D H args)). unfold done_, cmd_echo.
  set (o1 := match args with [] => [Print (str "No string passed")] | _ => echo_args args end).
  assert (E : match args with [] => @say D H "No string passed" | _ :: _ => emit_all (echo_args args) end = emit_all o1)
    by by destruct args.
  rewrite E. apply wp_bind. unfold emit_all, wp. apply wp_ret. rewrite app_nil_r.
  split; [by eapply executing_len|]. split; [done|]. split.
  - exists (set_line (replicate 256 0) 0 k). split; [done|]. by apply fresh_line.
  - exists o1. split; [done|]. subst o1. destruct args; [done|]. apply echo_args_printed.
Qed.

(** A run that returns early leaves the line as it is; what is typed next goes
    behind it, and Enter finds the word run alone. *)
Lemma run_leave_wp l1 l2 e (s : shell D H) x rest orun Q :
  holds_line (sh_kb s) e -> no_enter e l1 ->
  take 16 (argv_of (fst (edits e l1))) = str "run" :: x :: rest ->
  (forall k, executing (fst (edits e l1)) k ->
     wp (cmd_run user_mode (x :: rest)) (put_kb k s) (fun en s1 o => en = Leave /\ sh_kb s1 = k /\ o = orun)) ->
  types_only (fst (edits e l1)) l2 ->
  (forall s', holds_line (sh_kb s') (fresh (fst (edits (fst (edits e l1)) l2))) ->
     Q Back s' (snd (edits e l1) ++ Print [10] :: orun ++ snd (edits (fst (edits e l1)) l2) ++
       [Print [10]; Print (str "Usage: run <filename.ext>" ++ [10])] ++ prompt_events)) ->
  wp (keys exec ((l1 ++ [enter]) ++ l2 ++ [enter])) s Q.
Proof.
  intros Hk Hn Hw Hrun Ht HQ. apply keys_app. apply (line_wp _ _ _ _ _ e); [done..|]. intros k1 Hex. rewrite Hw.
  change (run_words (str "run") (x :: rest)) with (cmd_run user_mode (x :: rest)).
  eapply wp_mono; [by apply Hrun|]. cbv beta. intros en s1 o (-> & Hs1 & ->).
  destruct Hex as (l & Hl & Hh & H2). destruct H2 as [Hin Hfirst].
  { apply (f_equal length) in Hw. rewrite length_take in Hw. cbn [length] in Hw. lia. }
  set (e1 := fst (edits e l1)) in *. assert (Hf1 : words (c_string l) = [str "run"]).
  { rewrite Hfirst. destruct (argv_of e1) as [|w ws]; [done|]. by injection Hw as -> _. }
  pose proof (types_only_echo e1 l l2 Ht Hl) as Hecho.
  apply (types_only_line _ l) in Ht.
  destruct (types_only_prefix _ _ Ht) as (y & Hy). cbn [with_line e_line] in Hy.
  apply (line_wp _ _ _ _ _ (with_line e1 l)); [by rewrite Hs1|by apply types_only_no_enter|].
  intros k2 Hex2. unfold argv_of. rewrite Hy, c_string_app_zero, Hf1 by done. cbn [take].
  change (run_words (str "run") []) with (cmd_run (BD := BD) user_mode []). cbn [cmd_run].
  apply wp_bind, wp_emit, wp_ret. split; [by eapply executing_len|]. cbn [app]. rewrite <- !app_assoc. cbn [app]. rewrite Hecho.
  specialize (HQ (put_kb (set_line (replicate 256 0) 0 k2) (put_kb k2 s1))). cbn [put_kb sh_kb] in HQ.
  rewrite <- ?app_assoc in HQ. cbn [app] in HQ. apply HQ.
  pose proof (fresh_line _ _ Hex2) as Hf. rewrite edits_modifiers in Hf. exact Hf.
Qed.
End Properties.
