(* ===== verification/ShellFiles.v ===== *)
(** * The shell's file commands

    fat-write, fat-cat, write-test and read-test, from the keys typed to the
    text printed, over any block device. *)
From Stdlib Require Import ZArith Lia ZifyBool String.
From stdpp Require Import base numbers list gmap.
From S2P Require Import Prelude Mem Memory Paging Process Syscall BlockDev Ports Fat16 Fat16Facts Fat16Dir Fat16Spec Fat16Mount TarFs Elf Keyboard KeyboardSpec Shell ShellSpec.

(** ** 8.3 names of typed words *)
Lemma upcase_ok c : char_ok c -> char_ok (upcase c).
Proof. unfold char_ok, upcase. case_bool_decide; lia. Qed.

Lemma sublist_chars (f : list Z -> list Z) :
  f [] = [] -> (forall c l, f (c :: l) = [] \/ f (c :: l) = l \/ f (c :: l) = c :: f l \/ f (c :: l) = f l) ->
  forall l, Forall char_ok l -> Forall char_ok (f l).
Proof.
  intros H0 H1. induction 1 as [|c l Hc Hl IH]; [by rewrite H0|].
  destruct (H1 c l) as [->|[->|[->| ->]]]; auto.
Qed.

Lemma pad_chars n l : Forall char_ok l -> Forall char_ok (pad n (upcase <$> l)).
Proof.
  intros Hl. unfold pad. apply Forall_app_2.
  - apply Forall_take, Forall_fmap. eapply Forall_impl; [exact Hl|]. intros c. apply upcase_ok.
  - apply Forall_replicate. unfold char_ok. lia.
Qed.

Lemma format_83_chars x n8 e3 :
  Forall char_ok x -> fat16_format_83 x = (n8, e3) -> Forall char_ok n8 /\ Forall char_ok e3 /\ n8 <> [].
Proof.
  intros Hx E. rewrite format_83_eq in E by by apply char_ok_nonzero. injection E as <- <-. split_and!.
  - apply pad_chars, (sublist_chars base_name); [done| |done]. intros c l. cbn. case_bool_decide; auto.
  - apply pad_chars, (sublist_chars extension); [done| |done]. intros c l. cbn. case_bool_decide; auto.
  - unfold pad. destruct (upcase <$> base_name x); done.
Qed.

Lemma head_char l : Forall char_ok l -> l <> [] -> char_ok (at_ l 0).
Proof. destruct 1; [done|]. done. Qed.

(** ** Buffers printed as strings *)
Lemma print_array_wp {D H} array b (s : shell D H) Q :
  0 ∈ b -> Q tt s [Print (c_string b)] -> wp (print_array array b) s Q.
Proof. intros Hb HQ. unfold print_array. rewrite bool_decide_true by done. by apply wp_emit. Qed.

Lemma c_string_buffer t r : Forall (fun c => c <> 0) t -> c_string (t ++ 0 :: r) = t.
Proof. induction 1 as [|c t Hc _ IH]; cbn; [done|]. rewrite bool_decide_false by done. by rewrite IH. Qed.

Section Files.
Context {D H : Type} `{BlockDevSpec D} {PT : Ports H}.
Context (user_mode : Z -> Z -> M (shell D H) unit) (junk : list Z) (tar_chars tar_fuel : nat).

Abbreviation exec := (execute_command user_mode junk tar_chars tar_fuel).
Abbreviation run_words := (dispatch user_mode junk tar_chars tar_fuel).

(** fat-cat of a file that fits its buffer. *)
Lemma fat_cat_wp x n8 e3 data (s : shell D H) Q :
  (4096 <= length junk)%nat -> fat16_format_83 x = (n8, e3) ->
  (0 < length data < 4096)%nat ->
  wp (fat16_read_file n8 e3 4096) (sh_fat s) (fun r _ o => o = [] /\ r = (Z.of_nat (length data), data)) ->
  (forall f, Q tt (put_fat f s) [Print (c_string (data ++ [0])); Print [10]]) ->
  wp (cmd_fat_cat junk [x]) s Q.
Proof.
  intros Hj E Hlen Hr HQ. cbn [cmd_fat_cat]. rewrite E. apply wp_bind, wp_zoom.
  eapply wp_mono; [exact Hr|]. cbv beta. intros r f o (-> & ->).
  rewrite bool_decide_true by lia.
  assert (Hb : exists t, store "buf" (take 4096 (data ++ drop (length data) junk)) (Z.of_nat (length data)) 0
    = Done (data ++ 0 :: t)).
  { rewrite take_app_ge by lia. destruct (take (4096 - length data) (drop (length data) junk)) as [|c t] eqn:Et.
    - apply (f_equal length) in Et. rewrite length_take, length_drop in Et. cbn in Et. lia.
    - exists t. rewrite store_in by (rewrite length_app; cbn; lia). rewrite Nat2Z.id.
      by rewrite insert_app_r_alt, Nat.sub_diag by lia. }
  destruct Hb as (t & Hb). apply wp_bind, (wp_lift _ _ _ _ Hb). apply wp_bind, print_array_wp; [set_solver|]. apply wp_emit. cbn [app].
  assert (Ec : c_string (data ++ 0 :: t) = c_string (data ++ [0])).
  { change (data ++ 0 :: t) with (data ++ [0] ++ t). rewrite app_assoc. apply c_string_app_zero. set_solver. }
  rewrite Ec. apply HQ.
Qed.

(** C7: what fat-write stores, fat-cat prints: on a consistent volume with room and no file of that name, typing a fat-write line, Enter, a fat-cat line of the same name and Enter prints the words of the text joined by single spaces (the first 254 characters of them), with a prompt behind either line; it comes to its end, so no array of the two commands (the line, the arguments, the text, the buffer) is accessed outside its bounds. *)
Theorem shell_fat_roundtrip (v : fat D) (V : volume v) d dk l1 l2 e (s : shell D H) x text more n8 e3 :
  sh_fat s = set_dev d v -> holds d dk -> (4096 <= length junk)%nat ->
  holds_line (sh_kb s) e -> Forall char_ok (e_line e) ->
  no_enter e l1 -> take 16 (argv_of (fst (edits e l1))) = str "fat-write" :: x :: text -> text <> [] ->
  no_enter (fresh (fst (edits e l1))) l2 ->
  take 16 (argv_of (fst (edits (fresh (fst (edits e l1))) l2))) = str "fat-cat" :: x :: more ->
  fat16_format_83 x = (n8, e3) -> dir_find v dk n8 e3 = None ->
  clusters_for v (Z.of_nat (length (take 254 (joined text)))) <= Z.of_nat (length (free_clusters v dk)) ->
  is_Some (free_from (slot v dk) (16 * Z.to_nat (root_dir_sectors v)) 0) ->
  wp (keys exec ((l1 ++ [enter]) ++ l2 ++ [enter])) s (fun f s' o => f = Back /\
    o = snd (edits e l1) ++ Print [10] :: Print (str "fat16_write: file written!" ++ [10]) :: prompt_events
     ++ snd (edits (fresh (fst (edits e l1))) l2) ++ Print [10] :: Print (take 254 (joined text)) :: Print [10] :: prompt_events).
Proof.
  intros Hf Hd Hj Hk He Hn1 Hw1 Ht Hn2 Hw2 Ex Hnone Hcl Hslot.
  destruct (take_words_chars _ _ _ _ _ He Hw1) as [_ Hwc]. apply Forall_cons in Hwc as [Hxc Htc].
  pose proof (take_words_nonempty _ _ _ Hw1) as Hne. do 2 apply Forall_cons in Hne as [_ Hne].
  destruct (format_83_chars x n8 e3 Hxc Ex) as (H8 & H3 & Hn8). pose proof (head_char n8 H8 Hn8) as Hhd.
  set (content := take 254 (joined text)) in *.
  assert (Hcc : Forall char_ok content) by apply Forall_take, joined_chars, Htc.
  assert (Hcl0 : (0 < length content <= 254)%nat).
  { subst content. rewrite length_take. pose proof (joined_nonempty text Ht Hne). destruct (joined text); [done|cbn [length]; lia]. }
  apply keys_app. apply (line_wp _ _ _ _ _ e); [done..|]. intros k1 Hex1. rewrite Hw1.
  change (run_words (str "fat-write") (x :: text)) with (done_ (@cmd_fat_write D H _ (x :: text))).
  unfold done_, cmd_fat_write. destruct text as [|t0 text]; [done|]. rewrite Ex.
  apply wp_bind, wp_bind, (wp_lift content); [by rewrite join_args_spec by (cbn; lia)|].
  apply wp_bind, (wp_lift (content ++ [0])); [apply append_in; lia|]. apply wp_bind, wp_zoom.
  cbn [put_kb sh_fat]. rewrite Hf.
  eapply wp_mono; [apply (write_read_wp v V d dk n8 e3 (content ++ [0]) (Z.of_nat (length content)) Hd);
    try done; try (by apply char_ok_u8); try (unfold char_ok in Hhd; lia)|].
  { apply Forall_app_2; [by apply char_ok_u8|]. repeat constructor; unfold is_u8; lia. }
  { rewrite length_app. lia. }
  cbv beta. intros w f1 o1 (_ & -> & Hread). apply wp_ret, wp_ret. split; [by eapply executing_len|].
  cbn [put_fat put_kb sh_kb]. apply (line_wp _ _ _ _ _ (fresh (fst (edits e l1)))); [by apply fresh_line|done|].
  intros k2 Hex2. rewrite Hw2.
  change (run_words (str "fat-cat") (x :: more)) with (done_ (@cmd_fat_cat D H _ junk (x :: more))). unfold done_.
  change (cmd_fat_cat junk (x :: more)) with (@cmd_fat_cat D H _ junk [x]).
  apply wp_bind, (fat_cat_wp x n8 e3 content); [done|done|lia| |].
  - cbn [put_kb sh_fat put_fat]. eapply wp_mono; [apply Hread; lia|]. cbv beta. intros r f o (-> & ->).
    split; [done|]. f_equal. rewrite Nat2Z.id, take_app_length. apply take_ge. lia.
  - intros f. apply wp_ret. split; [by eapply executing_len|]. split; [done|].
    rewrite c_string_snoc, c_string_nonzero by by apply char_ok_nonzero. cbn [app]. by rewrite <- app_assoc.
Qed.

(** C27: fat-cat accesses its 4096-byte buffer out of bounds exactly for the
    files of 4096 bytes and more: the size fat16_read_file returns is the file's
    and not what it read, and the terminator is stored at that index, which the
    C language leaves undefined.  A shorter file is printed up to its first NUL,
    an empty one not at all.  The volume is consistent and the file's chain is
    as long as its size says. *)
Theorem fat_cat_bounds (v : fat D) (V : volume v) d dk x n8 e3 ent cs (s : shell D H) :
  sh_fat s = set_dev d v -> holds d dk -> (4096 <= length junk)%nat -> fat16_format_83 x = (n8, e3) ->
  dir_find v dk n8 e3 = Some ent -> file_at v dk ent cs -> file_size ent < 0x80000000 ->
  file_size ent <= Z.of_nat (length (file_bytes v dk cs)) ->
  (4096 <= file_size ent -> cmd_fat_cat junk [x] s = Undefined (OutOfBounds "buf")) /\
  (file_size ent < 4096 -> wp (cmd_fat_cat junk [x]) s (fun _ s' o => o =
      if bool_decide (file_size ent = 0) then []
      else [Print (c_string (take (Z.to_nat (file_size ent)) (file_bytes v dk cs))); Print [10]])).
Proof.
  intros Hf Hd Hj Ex Hfind Hat Hsz Hlen. assert (Hsz0 : 0 <= file_size ent) by apply Hat.
  assert (Hr : wp (fat16_read_file n8 e3 4096) (sh_fat s) (fun r _ o => o = [] /\
    r = (file_size ent, take (Z.to_nat (Z.min 4096 (file_size ent))) (file_bytes v dk cs)))).
  { rewrite Hf. apply (read_file_wp v V _ _ _ _ dk); [done|lia|]. rewrite Hfind. exists cs. split; [done|].
    intros d' _. split; [done|]. f_equal. unfold i32. rewrite u32_small by (unfold is_u32; lia).
    cbv zeta. by rewrite bool_decide_true by lia. }
  split; intros Hc.
  - destruct (wp_inv _ _ _ Hr) as (r & f & o & Er & -> & ->). cbn [cmd_fat_cat]. rewrite Ex.
    unfold on_fat, zoom, mbind, M_bind. rewrite Er. rewrite bool_decide_true by lia. unfold lift.
    unfold store. rewrite bool_decide_false; [done|]. rewrite length_take. lia.
  - rewrite Z.min_r in Hr by lia. set (data := take _ _) in *.
    assert (Hdl : Z.of_nat (length data) = file_size ent) by (subst data; rewrite length_take; lia).
    destruct (decide (file_size ent = 0)) as [Hz|Hz].
    + cbn [cmd_fat_cat]. rewrite Ex. apply wp_bind, wp_zoom. eapply wp_mono; [exact Hr|]. cbv beta.
      intros r f o (-> & ->). rewrite bool_decide_false by lia. apply wp_ret. by rewrite bool_decide_true.
    + rewrite <- Hdl in Hr. apply (fat_cat_wp x n8 e3 data); [done|done|lia|exact Hr|]. intros f.
      by rewrite bool_decide_false, c_string_snoc.
Qed.

(** write-test and read-test. *)
Lemma write_test_wp (v : fat D) d dk args (s : shell D H) Q :
  sh_fat s = set_dev d v -> holds d dk -> 1 < dev_limit -> args <> [] -> Forall (Forall char_ok) args ->
  (forall d', holds d' (upd 1 (take 510 (joined args) ++ replicate (512 - length (take 510 (joined args))) 0) dk) ->
     Q tt (put_fat (set_dev d' v) s) [Print (str "Successfully wrote to Sector 1!" ++ [10])]) ->
  wp (cmd_write_test args) s Q.
Proof.
  intros Hf Hd Hl Ha Hc HQ. destruct args as [|x args]; [done|]. unfold cmd_write_test.
  set (t := take 510 _) in *.
  assert (Ht : (length t <= 510)%nat) by (subst t; rewrite length_take; lia).
  apply wp_bind, (wp_lift t); [by rewrite join_args_spec by (cbn; lia)|].
  apply wp_bind, (wp_lift (t ++ [0])); [apply append_in; lia|].
  assert (Epad : (t ++ [0]) ++ replicate (512 - length (t ++ [0])) 0 = t ++ replicate (512 - length t) 0).
  { rewrite length_app, <- app_assoc. cbn [length app].
    replace (512 - length t)%nat with (S (512 - (length t + 1))) by lia. done. }
  rewrite Epad. apply wp_bind, wp_zoom. rewrite Hf. apply (write_sector_wp _ _ _ _ dk); [done|lia| |].
  - split; [rewrite length_app, length_replicate; lia|]. apply Forall_app_2.
    + apply char_ok_u8, Forall_take. by apply joined_chars.
    + apply Forall_replicate. unfold is_u8. lia.
  - intros d' Hd'. apply wp_emit. by apply HQ.
Qed.

(** C23: the raw sector commands are a round trip through the disk: after a write-test line, a read-test line prints the words written, joined by single spaces and cut at 510 characters; it comes to its end, so no byte past a buffer is read or written. *)
Theorem shell_sector_roundtrip (v : fat D) d dk l1 l2 e (s : shell D H) x args more :
  sh_fat s = set_dev d v -> holds d dk -> 1 < dev_limit ->
  holds_line (sh_kb s) e -> Forall char_ok (e_line e) ->
  no_enter e l1 -> take 16 (argv_of (fst (edits e l1))) = str "write-test" :: x :: args ->
  no_enter (fresh (fst (edits e l1))) l2 ->
  take 16 (argv_of (fst (edits (fresh (fst (edits e l1))) l2))) = str "read-test" :: more ->
  wp (keys exec ((l1 ++ [enter]) ++ l2 ++ [enter])) s (fun f s' o => f = Back /\
    o = snd (edits e l1) ++ Print [10] :: Print (str "Successfully wrote to Sector 1!" ++ [10]) :: prompt_events
     ++ snd (edits (fresh (fst (edits e l1))) l2) ++ Print [10] :: Print (str "Read from Sector 1: ")
          :: Print (take 510 (joined (x :: args))) :: Print [10] :: prompt_events).
Proof.
  intros Hf Hd Hl Hk He Hn1 Hw1 Hn2 Hw2. destruct (take_words_chars _ _ _ _ _ He Hw1) as [_ Hc].
  apply keys_app. apply (line_wp _ _ _ _ _ e); [done..|]. intros k1 Hex1. rewrite Hw1.
  change (run_words (str "write-test") (x :: args)) with (done_ (@cmd_write_test D H _ (x :: args))). unfold done_.
  apply wp_bind. apply (write_test_wp v d dk); [done..|]. intros d1 Hd1. apply wp_ret. split; [by eapply executing_len|].
  cbn [put_fat put_kb sh_kb]. apply (line_wp _ _ _ _ _ (fresh (fst (edits e l1)))); [by apply fresh_line|done|].
  intros k2 Hex2. rewrite Hw2.
  change (run_words (str "read-test") more) with (done_ (@cmd_read_test D H _)). unfold done_, cmd_read_test.
  apply wp_bind, wp_bind, wp_zoom. cbn [put_kb sh_fat put_fat].
  apply (read_sector_wp _ _ _ _ _ Hd1); [lia|]. intros d2 Hd2. rewrite upd_eq.
  set (t := take 510 (joined (x :: args))) in *.
  assert (Ht : (length t <= 510)%nat) by (subst t; rewrite length_take; lia).
  assert (Hnz : Forall (fun c => c <> 0) t) by (apply char_ok_nonzero, Forall_take, joined_chars, Hc).
  replace (512 - length t)%nat with (S (511 - length t)) by lia. cbn [replicate].
  apply wp_bind, wp_emit, wp_bind, print_array_wp; [set_solver|]. rewrite c_string_buffer by done.
  apply wp_emit, wp_ret. split; [by eapply executing_len|]. split; [done|].
  cbn [app]. by rewrite <- !app_assoc.
Qed.
End Files.
