(* ===== verification/ShellSafe.v ===== *)
(** * The keyboard buffer is safe whatever is typed

    The commands of the shell never touch the line editor's globals; so the
    invariant of the editor survives every key and every command. *)
From Stdlib Require Import ZArith Lia ZifyBool String.
From stdpp Require Import base numbers list gmap.
From S2P Require Import Prelude Mem Memory Paging Process Syscall BlockDev Ports Fat16 TarFs Elf Keyboard KeyboardSpec Shell ShellSpec.

(** ** What a computation leaves alone *)

(** Whenever [m] returns, [f] of the state is what it was. *)
Class Keeps {S B A : Type} (f : S -> B) (m : M S A) : Prop :=
  keeps : forall s a s' o, m s = Done (a, s', o) -> f s' = f s.

#[export] Hint Mode Keeps ! ! ! ! ! : typeclass_instances.

Section Keeps.
Context {S B : Type} (f : S -> B).

#[export] Instance keeps_ret {A} (a : A) : Keeps f (mret a).
Proof. by intros s b s' o [= _ <- _]. Qed.

#[export] Instance keeps_get : Keeps f mget.
Proof. by intros s b s' o [= _ <- _]. Qed.

#[export] Instance keeps_emit e : Keeps f (emit e).
Proof. by intros s b s' o [= _ <- _]. Qed.

#[export] Instance keeps_emit_all l : Keeps f (emit_all l).
Proof. by intros s b s' o [= _ <- _]. Qed.

#[export] Instance keeps_lift {A} (x : outcome A) : Keeps f (lift x).
Proof. intros s b s' o. unfold lift. by destruct x; intros [= _ <- _]. Qed.

#[export] Instance keeps_bind {A C} (m : M S A) (g : A -> M S C) :
  Keeps f m -> (forall a, Keeps f (g a)) -> Keeps f (m ≫= g).
Proof.
  intros Hm Hg s c s' o. unfold mbind, M_bind. destruct (m s) as [[[a s1] o1]| | |] eqn:E; [|done..].
  destruct (g a s1) as [[[b s2] o2]| | |] eqn:E2; [|done..]. intros [= _ <- _].
  rewrite (Hg a _ _ _ _ E2). exact (Hm _ _ _ _ E).
Qed.

Lemma keeps_modify g : (forall s, f (g s) = f s) -> Keeps f (mmodify g).
Proof. intros H s a s' o [= _ <- _]. apply H. Qed.

Lemma keeps_put s1 : (forall s, f s1 = f s) -> Keeps f (mput s1).
Proof. intros H s a s' o [= _ <- _]. apply H. Qed.

Lemma keeps_zoom {T A} (get : S -> T) set (m : M T A) : (forall t s, f (set t s) = f s) -> Keeps f (zoom get set m).
Proof. intros H s a s' o. unfold zoom. destruct (m (get s)) as [[[b t] o1]| | |]; [|done..]. intros [= _ <- _]. apply H. Qed.

End Keeps.

(** Go through the binds and the branches. *)
Ltac keep :=
  repeat first
    [ apply _
    | apply keeps_bind; [|intros ?]
    | progress cbv zeta
    | match goal with |- context [match ?x with _ => _ end] => destruct x end ].

Section Shell.
Context {D H : Type} {BD : BlockDev D} {PT : Ports H}.
Context (user_mode : Z -> Z -> M (shell D H) unit) (junk : list Z) (tar_chars tar_fuel : nat).
Context (user_keeps : forall stack entry_, Keeps sh_kb (user_mode stack entry_)).

#[local] Instance user_kept stack entry_ : Keeps sh_kb (user_mode stack entry_) := user_keeps stack entry_.

#[local] Instance keeps_vm {A} (m : M vm A) : Keeps (@sh_kb D H) (on_vm m).
Proof. by apply keeps_zoom. Qed.
#[local] Instance keeps_fat {A} (m : M (fat D) A) : Keeps (@sh_kb D H) (on_fat m).
Proof. by apply keeps_zoom. Qed.
#[local] Instance keeps_procs {A} (m : M procs A) : Keeps (@sh_kb D H) (on_procs m).
Proof. by apply keeps_zoom. Qed.
#[local] Instance keeps_tar {A} (m : M (tarfs vm) A) : Keeps (@sh_kb D H) (on_tar m).
Proof. by apply keeps_zoom. Qed.
#[local] Instance keeps_say x : Keeps (@sh_kb D H) (say x).
Proof. apply _. Qed.
#[local] Instance keeps_say_line x : Keeps (@sh_kb D H) (say_line x).
Proof. apply _. Qed.
#[local] Instance keeps_print_array array b : Keeps (@sh_kb D H) (print_array array b).
Proof. unfold print_array. keep. Qed.
#[local] Instance keeps_read_into a n e : Keeps (@sh_kb D H) (read_into a n e).
Proof. unfold read_into. keep. Qed.
#[local] Instance keeps_create n : Keeps (@sh_kb D H) (create_process n).
Proof. unfold create_process. keep. Qed.
#[local] Instance keeps_task p : Keeps (@sh_kb D H) (task_create_from_elf p).
Proof. unfold task_create_from_elf. keep. Qed.
#[local] Instance keeps_image a n : Keeps (@sh_kb D H) (load_image a n).
Proof. unfold load_image. keep. Qed.
#[local] Instance keeps_reboot : Keeps (@sh_kb D H) cmd_reboot.
Proof. unfold cmd_reboot. keep. by apply keeps_modify. Qed.
#[local] Instance keeps_run args : Keeps (@sh_kb D H) (cmd_run user_mode args).
Proof. unfold cmd_run. keep. Qed.
#[local] Instance keeps_spawn args : Keeps (@sh_kb D H) (cmd_spawn user_mode args).
Proof. unfold cmd_spawn. keep. Qed.

Lemma dispatch_keeps command args : Keeps (@sh_kb D H) (dispatch user_mode junk tar_chars tar_fuel command args).
Proof.
  unfold dispatch, done_. repeat (case_match; [solve [keep]|]).
  all: unfold cmd_timer, cmd_echo, cmd_meminfo, cmd_cat, cmd_uptime, cmd_write_test, cmd_read_test, cmd_fat_cat, cmd_fat_write; keep.
Qed.
End Shell.

(** ** The invariant of the editor's globals *)

(** They hold some line: the modifiers are 0 or 1, the index is inside the
    buffer of 256 with room for a terminator, and from it on there are only
    terminators. *)
Definition kb_ok (k : keyboard) : Prop := exists e, holds_line k e.

Lemma kb_ok_bounds k : kb_ok k ->
  length (input_buffer k) = 256%nat /\ 0 <= buffer_index k <= 255 /\
  forall i, buffer_index k <= i < 256 -> at_ (input_buffer k) i = 0.
Proof.
  intros (e & [_ _ Hb Hi Hm]). rewrite Hb, Hi. split_and!; [rewrite length_app, length_replicate; lia|lia..|].
  intros i Hr. rewrite at_app_r by lia. unfold at_. rewrite bool_decide_true by lia.
  by rewrite lookup_replicate_2 by lia.
Qed.

Lemma executing_ok e k : executing e k -> kb_ok k.
Proof. intros (l & _ & Hk & _). by eexists. Qed.

(** Two computations end in the same failure: the same page fault, the same
    undefined operation, or both never end. *)
Definition fails_alike {A B} (x : outcome A) (y : outcome B) : Prop :=
  match x, y with
  | Fault a, Fault b => a = b
  | Undefined u, Undefined v => u = v
  | Spin, Spin => True
  | _, _ => False
  end.

(** A computation that fails where its first part does. *)
Lemma fails_bind {S A B T C} (m : M S A) (g : A -> M S B) s (y : outcome (C * T * list event)) :
  fails_alike (m s) y -> fails_alike ((m ≫= g) s) y.
Proof. unfold mbind, M_bind. by destruct (m s) as [[[a s1] o]| | |]. Qed.

Section Safety.
Context {D H : Type} {BD : BlockDev D} {PT : Ports H}.
Context (user_mode : Z -> Z -> M (shell D H) unit) (junk : list Z) (tar_chars tar_fuel : nat).
Context (user_keeps : forall stack entry_, Keeps sh_kb (user_mode stack entry_)).

Abbreviation exec := (execute_command user_mode junk tar_chars tar_fuel).
Abbreviation run_words := (dispatch user_mode junk tar_chars tar_fuel).

(** [m] keeps the invariant or fails inside a command, which was called with
    the editor's globals in order. *)
Definition safe_run {A} (m : M (shell D H) A) (s : shell D H) : Prop :=
  (exists a s' o, m s = Done (a, s', o) /\ kb_ok (sh_kb s')) \/
  (exists k command args, kb_ok k /\ fails_alike (m s) (run_words command args (put_kb k s))).

Lemma exec_safe (s : shell D H) : kb_ok (sh_kb s) -> safe_run exec s.
Proof.
  intros (e & Hk). destruct (split_line e (sh_kb s) Hk) as (argv & b & Es & Hw & Hx).
  set (k := set_line b (buffer_index (sh_kb s)) (sh_kb s)) in *.
  set (go := match take 16 (argv_of e) with [] => mret Finish | command :: args => run_words command args end).
  assert (E : exists o0 : list event, exec s = match go (put_kb k s) with
    | Done (en, s1, o) =>
        match (match en with Finish => @prompt D H;; mret Back | Leave => mret Back | Halt => mret Hung end) s1 with
        | Done (f, s2, o2) => Done (f, s2, o0 ++ o ++ o2)
        | Fault va => Fault va | Undefined u => Undefined u | Spin => Spin
        end
    | Fault va => Fault va | Undefined u => Undefined u | Spin => Spin
    end).
  { exists [Print [10]]. unfold execute_command, mbind, M_bind, emit, mget, mmodify, lift. rewrite Es. cbv beta iota zeta.
    rewrite Hw. cbn [on_kb shell_keyboard]. fold k. subst go.
    destruct (take 16 (argv_of e)) as [|command args].
    - unfold mret, M_ret. cbn [app]. by destruct (prompt (put_kb k s)) as [[[f s2] o2]| | |].
    - destruct (run_words command args (put_kb k s)) as [[[en s1] o1]| | |]; [|done..].
      cbn [app]. destruct en; [|done..]. by destruct (prompt s1) as [[[f s2] o2]| | |]. }
  destruct E as (o0 & E). unfold safe_run. rewrite E. clear E.
  assert (Hend : forall en s1 o, sh_kb s1 = k -> exists f s2 o2,
    match (match en with Finish => @prompt D H;; mret Back | Leave => mret Back | Halt => mret Hung end) s1 with
    | Done (f, s2, o2) => Done (f, s2, o0 ++ o ++ o2)
    | Fault va => Fault va | Undefined u => Undefined u | Spin => Spin
    end = Done (f, s2, o2) /\ kb_ok (sh_kb s2)).
  { intros en s1 o Hs1. destruct en; [|eexists _, s1, _; (split; [reflexivity|]); rewrite Hs1; by eapply executing_ok..].
    destruct (wp_inv _ _ _ (prompt_wp s1 (fun _ s' _ => kb_ok (sh_kb s')) ltac:(rewrite Hs1; by eapply executing_len)
      ltac:(eexists; cbn [put_kb sh_kb]; rewrite Hs1; by apply fresh_line))) as ([] & s' & o' & E & Hk').
    unfold mbind, M_bind. rewrite E. eexists _, s', _. by split. }
  subst go. destruct (take 16 (argv_of e)) as [|command args].
  - left. apply (Hend Finish (put_kb k s) []). done.
  - pose proof (dispatch_keeps user_mode junk tar_chars tar_fuel user_keeps command args (put_kb k s)) as Hkeep.
    destruct (run_words command args (put_kb k s)) as [[[en s1] o1]| | |] eqn:Ed;
      [|right; exists k, command, args; split; [by eapply executing_ok|by rewrite Ed]..].
    left. apply Hend. by apply (Hkeep _ _ _ eq_refl).
Qed.

Lemma key_safe c (s : shell D H) : kb_ok (sh_kb s) -> safe_run (handle_keyboard_interrupt exec c) s.
Proof.
  intros (e & Hk). destruct (decide (decode e c = Enter)) as [He|He].
  - unfold safe_run. rewrite (handle_enter (KB := shell_keyboard) exec e) by done. apply exec_safe. by eexists.
  - left. destruct (wp_inv _ _ _ (key_edits (KB := shell_keyboard) exec e c s (fun _ s' _ => kb_ok (sh_kb s')) Hk He
      ltac:(intros k Hk'; eexists; exact Hk'))) as (f & s' & o & E & Hk'). eexists _, s', _. by split.
Qed.

(** C10: the line buffer is safe whatever is typed and whatever the commands do.
    A sequence of scan codes, from a keyboard that holds a line, either runs to
    its end and leaves the editor's globals in order (the index inside the
    256-byte buffer, only terminators from it on), or fails inside a command:
    after some of the keys have been handled, the command called for one more
    key faults, runs into undefined behaviour or does not end.  So the editor,
    the split and the prompt never access input_buffer or argv outside its
    bounds, and never hang; reading past the buffer would be a failure of their
    own.  The program run in user mode is assumed not to write the editor's
    variables. *)
Theorem keyboard_safe l (s : shell D H) :
  kb_ok (sh_kb s) ->
  (exists f s' o, keys exec l s = Done (f, s', o) /\ kb_ok (sh_kb s')) \/
  (exists l1 c l2 s1 o1 k command args,
     l = l1 ++ c :: l2 /\ keys exec l1 s = Done (Back, s1, o1) /\ kb_ok (sh_kb s1) /\ kb_ok k /\
     fails_alike (keys exec l s) (run_words command args (put_kb k s1))).
Proof.
  revert s. induction l as [|c l IH]; intros s Hk; [left; eexists _, s, _; by split|].
  cbn [keys]. destruct (key_safe c s Hk) as [(f & s1 & o1 & E & Hk1)|(k & command & args & Hk1 & Hf)].
  2:{ right. exists [], c, l, s, [], k, command, args. split_and!; [done..|]. by apply fails_bind. }
  unfold mbind, M_bind. rewrite E. destruct f; [|left; eexists _, s1, _; by split].
  destruct (IH s1 Hk1) as [(f & s2 & o2 & E2 & Hk2)|(l1 & c2 & l2 & s2 & o2 & k & command & args & -> & E2 & Hk2 & Hk3 & Hf)].
  - left. rewrite E2. eexists _, s2, _. by split.
  - right. exists (c :: l1), c2, l2, s2, (o1 ++ o2), k, command, args. split_and!; [done| |done|done|].
    + cbn [keys]. unfold mbind, M_bind. by rewrite E, E2.
    + by destruct (keys exec (l1 ++ c2 :: l2) s1) as [[[f2 s3] o3]| | |].
Qed.
End Safety.
