(* ===== verification/RunSpec.v ===== *)
(** * The run command: from a file on the disk to a program in user mode

    The composition of the FAT16 reader, the kernel's buffer, the ELF loader,
    the page tables and the jump. *)
From Stdlib Require Import ZArith Lia ZifyBool String.
From stdpp Require Import base numbers list gmap.
From S2P Require Import Prelude Mem Memory MemoryFacts MemorySpec Paging PagingFacts PagingSpec Process Syscall BlockDev Ports Fat16 Fat16Facts Fat16Dir Fat16Spec Fat16Mount TarFs UserMem Elf ElfSpec Keyboard KeyboardSpec Shell ShellSpec ShellFiles.

(** ** Storing a sequence of bytes *)
Lemma store_bytes_spec {St} (R : Z -> Prop) (Inv : St -> Prop) (peek : St -> Z -> Z)
    `{AS : AddrSpace St} {AR : AddrRegion St R Inv peek} l p s :
  Inv s -> 0 <= p -> p + Z.of_nat (length l) <= 0x100000000 -> Forall is_u8 l ->
  (forall a, p <= a < p + Z.of_nat (length l) -> R a) ->
  exists t, store_bytes p l s = Done t /\ Inv t /\
    (forall i, 0 <= i < Z.of_nat (length l) -> peek t (p + i) = at_ l i) /\
    (forall a, R a -> ~ p <= a < p + Z.of_nat (length l) -> peek t a = peek s a).
Proof.
  intros Hs Hp Hl Hu HR. revert p s Hs Hp Hl HR. induction Hu as [|c l Hc Hu IH]; intros p s Hs Hp Hl HR; cbn [store_bytes].
  { exists s. split_and!; [done|done|cbn; lia|done]. }
  cbn [length] in *. rewrite u32_small by (unfold is_u32; lia).
  destruct (region_st s p c Hs) as (s1 & E1 & Hs1 & Hv & Hrest); [apply HR; lia|]. rewrite E1. cbn [mbind outcome_bind].
  destruct (IH (p + 1) s1 Hs1) as (t & Et & Ht & Hin & Hout); [lia|lia|intros; apply HR; lia|].
  exists t. split_and!; [exact Et|done| |].
  - intros i Hi. destruct (decide (i = 0)) as [->|].
    + rewrite Z.add_0_r, Hout by (first [apply HR; lia|lia]). rewrite Hv. by apply u8_small.
    + replace (p + i) with (p + 1 + (i - 1)) by lia. rewrite Hin by lia.
      rewrite !at_nth by lia. replace (Z.to_nat i) with (S (Z.to_nat (i - 1))) by lia. done.
  - intros a Ra Ha. rewrite Hout by (done || lia). apply Hrest; [done|lia].
Qed.

Lemma store_cells R s0 p l :
  cells R s0 -> 0 <= p -> p + Z.of_nat (length l) <= 0x100000000 -> Forall is_u8 l ->
  (forall a, p <= a < p + Z.of_nat (length l) -> R a) ->
  exists t, store_bytes p l s0 = Done t /\ cells R t /\ same_map s0 t /\
    (forall i, 0 <= i < Z.of_nat (length l) -> vread t (p + i) = at_ l i).
Proof.
  intros C Hp Hl Hu HR. pose proof (reached_region R s0 C) as AR.
  destruct (store_bytes_spec R (reached R s0) vread l p s0 (reached_refl R s0) Hp Hl Hu HR) as (t & Et & Hr & Hin & _).
  destruct (reached_cells R s0 C t Hr). by exists t.
Qed.

Lemma cells_sub (R R' : Z -> Prop) s : (forall a, R' a -> R a) -> cells R s -> cells R' s.
Proof. intros H [C1 C2 C3 C4]. constructor; auto. Qed.

Section Enter.
Context (s0 : vm) (buf : Z) (img : list Z).

Definition stack_page : Z := 0x80000.

(** The user stack: one zeroed page at 0x80000000, open to user mode. *)
Definition stack_ready (t : vm) : Prop :=
  forall a, 0x80000000 <= a < 0x80001000 -> vread t a = 0 /\ user_ok t a = true.

(** With a frame for the page and one for its table, the stack is mapped and
    cleared, and what was loaded stays. *)
Definition stack_added ps t t' : Prop :=
  loading s0 buf img (stack_page :: ps) t' /\ stack_ready t' /\ (forall a, dom buf img ps a -> vread t' a = vread t a) /\
  (forall a, is_u32 a -> a / 4096 <> stack_page -> pte_entry t' a = pte_entry t a).

Lemma user_stack_ok n ps t pa p :
  buffer_ok s0 buf img -> loading s0 buf img ps t -> stack_page ∉ ps ->
  present (pte_entry s0 0x80000000) = false -> pmm_alloc_block (vm_pmm t) = (pa, p) -> pa <> 0 -> enough (S n) p ->
  wp (map_page pa 0x80000000 7) (set_pmm p t) (fun _ s2 o => o = [] /\
    wp (stores (CString.memset 0x80000000 0 4096)) s2 (fun _ t' o' => o' = [] /\ stack_added ps t t')).
Proof.
  intros B L Hnin Hnp Ea Hne He. pose proof (ld_cells _ _ _ ps t L) as C.
  pose proof (alloc_block_cases (vm_pmm t)) as Ha. rewrite Ea in Ha. cbn [fst snd] in Ha.
  destruct Ha as [(f & -> & Hf & _ & Hfree & _ & Hused & _ & _ & Hmax)|(-> & _)]; [|done].
  assert (Hok : tables_ok (set_pmm p t)).
  { apply tables_ok_set_pmm; [apply C| |done]. intros g Hg. rewrite Hused, Hg. apply orb_true_r. }
  apply map_page_ok with (n := n); [exact Hok|exact (c_mmu _ _ C)|by apply high_not_kernel|unfold is_u32; lia| |done|].
  - rewrite page_or7, lor_flags; [unfold is_u32, tracked in *; lia|by rewrite Z.mod_mul|lia].
  - intros s2 HM K _. split; [done|]. rewrite page_or7 in HM. change 0x80000000 with (stack_page * 4096) in HM, Hnp.
    destruct (loading_new_page s0 buf img ps t stack_page f s2 p B L) as [L2 Hv2]; [done..|lia|done|done|].
    pose proof (ld_cells _ _ _ _ _ L2) as C2.
    assert (Hst : forall a, 0x80000000 <= a < 0x80000000 + 4096 -> is_u32 a /\ a / 4096 ∈ stack_page :: ps).
    { intros a Ha. split; [unfold is_u32; lia|]. replace (a / 4096) with stack_page by (unfold stack_page; word). by left. }
    destruct (memset_cells _ s2 C2 0x80000000 0 4096) as (t2 & E2 & C3 & Hsm & Hin & Hout); [lia..| |].
    { intros a Ha. right. by apply Hst. }
    unfold stores. apply wp_bind, wp_get. cbv beta. apply wp_bind, (wp_lift t2); [done|]. apply wp_put.
    assert (Hoff : forall a, dom buf img ps a -> ~ 0x80000000 <= a < 0x80000000 + 4096).
    { intros a [Hb|[_ Hp]] Hr.
      - apply (buf_not_mapped s0 buf img _ s2 a B L2 Hb). by apply Hst.
      - apply Hnin. replace stack_page with (a / 4096) by (unfold stack_page; word). done. }
    assert (Hkeep : forall a, dom buf img ps a -> vread t2 a = vread s2 a).
    { intros a Ha. apply Hout; [|by apply Hoff]. destruct Ha as [?|[? ?]]; [by left|right; split; [done|by right]]. }
    assert (L3 : loading s0 buf img (stack_page :: ps) t2).
    { apply (loading_stores _ _ _ _ s2); [done|done|done|]. intros a Ha. apply Hkeep. by left. }
    split; [done|]. split_and!; [done| | |].
    + intros a Ha. split; [by apply Hin|]. by apply (ld_user _ _ _ _ _ L3); apply Hst.
    + intros a Ha. rewrite Hkeep by done. by apply Hv2.
    + intros a Ha Hp. destruct Hsm as [_ ->]; [|done]. destruct HM as (_ & _ & -> & _); [done|done|].
      by rewrite Z.div_mul by lia.
Qed.

Lemma enter_user_ok ps t entry_ Q :
  buffer_ok s0 buf img -> loading s0 buf img ps t -> stack_page ∉ ps ->
  present (pte_entry s0 0x80000000) = false -> enough 2 (vm_pmm t) ->
  (forall t', stack_added ps t t' -> Q (Some (0x80000FFC, entry_)) t'
       [Print (str "jumping to ring 3 at 0x"); PrintHex entry_; Print (str "..." ++ [10])]) ->
  wp (enter_user_program entry_) t Q.
Proof.
  intros B L Hnin Hnp [Hne He] HQ. unfold enter_user_program. apply wp_bind, wp_get. cbv beta.
  destruct (pmm_alloc_block (vm_pmm t)) as [pa p] eqn:Ea. cbn [fst snd] in *.
  apply wp_bind, wp_put. rewrite bool_decide_false by done. apply wp_bind.
  eapply wp_mono; [by apply (user_stack_ok 0 ps t pa p)|]. cbv beta. intros _ s2 o (-> & Hset). apply wp_bind.
  eapply wp_mono; [exact Hset|]. cbv beta. intros _ t' o (-> & Ht). do 3 (apply wp_bind, wp_emit). apply wp_ret. by apply HQ.
Qed.
End Enter.

(** The kernel buffer of one page at [buf], ready to take a file. *)
Record page_buffer (s : vm) (buf : Z) : Prop := {
  pb_range : 0 < buf /\ buf + 4096 < 0x100000000;
  pb_cells : cells (fun a => buf <= a < buf + 4096) s;
}.

(** The executable and the disk it is on, the address space it goes to. *)
Record runnable (s : vm) (img : list Z) (free : pmm) : Prop := {
  ru_valid : valid_elf img;
  ru_size : (length img <= 4096)%nat;
  ru_ready : Forall (seg_ready s img) (segments img);
  ru_stack : present (pte_entry s 0x80000000) = false /\ ~ page_of (segments img) stack_page;
  ru_frames : enough (2 * sum_list (pages_of <$> phdrs img) + 2) free;
}.

Lemma runnable_same s t img : same_map s t -> runnable s img (vm_pmm s) -> runnable t img (vm_pmm t).
Proof.
  intros [Hp Hpte] [V Hs Hrdy [Hst Hno] He]. constructor; [done|done| | |by rewrite Hp].
  - rewrite Forall_forall in Hrdy |- *. intros sg Hsg. destruct (Hrdy sg Hsg) as [Hf Hq]. split; [done|].
    intros p Hpr. destruct (Hf) as [_ Hhi].
    assert (Hx : 0 <= sg_va sg).
    { unfold segments, phdrs in Hsg. apply list_elem_of_filter in Hsg as [_ Hsg]. apply list_elem_of_fmap in Hsg as (k & -> & _).
      cbn [sg_va seg_at]. destruct (get32_u32 img (phdr_offset img k + p_vaddr) (ve_bytes _ V)). lia. }
    rewrite Hpte; [by apply Hq|]. unfold is_u32, sg_first, sg_stop in *. word.
  - split; [|done]. rewrite Hpte; [done|]. unfold is_u32. lia.
Qed.

Section Read.
Context {D H : Type} `{BlockDevSpec D} {PT : Ports H}.

(** Reading a file of at most a page into the buffer. *)
Lemma read_into_wp n8 e3 img buf (s : shell D H) Q :
  page_buffer (sh_vm s) buf -> Forall is_u8 img -> (length img <= 4096)%nat ->
  wp (fat16_read_file n8 e3 4096) (sh_fat s) (fun r _ o => o = [] /\ r = (Z.of_nat (length img), img)) ->
  (forall f t, buffer_ok t buf img -> same_map (sh_vm s) t ->
     Q (Z.of_nat (length img)) (put_vm t (put_fat f s)) []) ->
  wp (read_into buf n8 e3) s Q.
Proof.
  intros [Hr C] Hu Hl Hread HQ. unfold read_into. apply wp_bind, wp_zoom.
  eapply wp_mono; [exact Hread|]. cbv beta. intros r f o (-> & ->).
  destruct (store_cells _ _ buf img C) as (t & Et & Ct & Hm & Hv); [lia|lia|done|intros; lia|].
  apply wp_bind, wp_zoom. unfold stores. apply wp_bind, wp_get. cbv beta. apply wp_bind, (wp_lift t); [exact Et|].
  apply wp_put, wp_ret. cbn [app]. apply HQ; [|exact Hm]. constructor; [lia| |done].
  apply (cells_sub (fun a => buf <= a < buf + 4096)); [|exact Ct]. intros a Ha. unfold in_buf in Ha. lia.
Qed.
End Read.

Section Run.
Context {D H : Type} `{BlockDevSpec D} {PT : Ports H}.
Context (user_mode : Z -> Z -> M (shell D H) unit) (junk : list Z) (tar_chars tar_fuel : nat).

Abbreviation exec := (execute_command user_mode junk tar_chars tar_fuel).
Abbreviation run_words := (dispatch user_mode junk tar_chars tar_fuel).

(** The whole command, up to the program and after it. *)
Lemma cmd_run_wp x more n8 e3 img buf pm out (s : shell D H) Q :
  fat16_format_83 x = (n8, e3) -> kmalloc_a 4096 (vm_pmm (sh_vm s)) = (buf, pm) ->
  page_buffer (set_pmm pm (sh_vm s)) buf -> runnable (set_pmm pm (sh_vm s)) img pm ->
  wp (fat16_read_file n8 e3 4096) (sh_fat s) (fun r _ o => o = [] /\ r = (Z.of_nat (length img), img)) ->
  (forall t : shell D H, image_loaded img (sh_vm t) -> stack_ready (sh_vm t) -> sh_kb t = sh_kb s -> sh_procs t = sh_procs s ->
     wp (user_mode 0x80000FFC (get32 img e_entry)) t (fun _ t' o => o = out /\ forall o',
       o' = [Print (str "Loaded "); PrintInt (Z.of_nat (length img)); Print (str " bytes, jumping to entry 0x");
             PrintHex (get32 img e_entry); Print (str "..." ++ [10]);
             Print (str "jumping to ring 3 at 0x"); PrintHex (get32 img e_entry); Print (str "..." ++ [10])]
            ++ out ++ [Print (str "Program exited." ++ [10])] -> Q Finish t' o')) ->
  wp (cmd_run user_mode (x :: more)) s Q.
Proof.
  intros Ex Ek B R Hread Huser. cbn [cmd_run]. rewrite Ex. apply wp_bind, wp_zoom. unfold vm_kmalloc_a.
  apply wp_bind, wp_get. cbv beta. rewrite Ek. apply wp_bind, wp_put, wp_ret. cbn [app].
  destruct (pb_range _ _ B) as [Hb0 Hb1]. rewrite bool_decide_false by lia.
  pose proof (ru_valid _ _ _ R) as V. apply wp_bind.
  apply (read_into_wp n8 e3 img); [exact B|apply V|apply R|exact Hread|]. intros f t B1 Hsm.
  cbn [sh_vm put_vm] in Hsm. rewrite bool_decide_false by lia.
  pose proof (runnable_same _ _ _ Hsm R) as [_ Hsz Hrdy [Hst Hnst] He].
  pose proof (loading_start _ _ _ B1) as L0. unfold load_image.
  apply wp_bind, wp_bind, wp_zoom. cbn [sh_vm put_vm put_fat].
  apply (reads_wp _ _ true).
  { rewrite <- (Z.add_0_r buf), (starts_with_ok t buf img [] t elf_magic 0); [by rewrite (ve_magic _ V)|done|done|lia|].
    pose proof (ve_header _ V). unfold elf_magic. cbn [length]. lia. }
  apply wp_bind, wp_zoom. cbn [sh_vm put_vm put_fat].
  rewrite u32_small by (unfold is_u32; lia).
  apply (load_elf_ok t buf img 0 2); [done|done|done|done|].
  intros ps t1 L1 Hps Hld He1. rewrite bool_decide_false by lia. apply wp_ret.
  unfold say, say_line. do 5 (apply wp_bind, wp_emit). apply wp_bind, wp_zoom. cbn [sh_vm put_vm put_fat].
  apply (enter_user_ok t buf img ps t1); [done|done|by rewrite Hps|done|done|].
  intros t2 (L2 & Hstk & Hkeep & _). apply wp_bind. eapply wp_mono.
  - apply Huser; cbn [sh_vm sh_kb sh_procs put_vm put_fat]; [|exact Hstk|done|done]. intros sg j Hsg Hj.
    destruct (loaded_user t buf img ps t1 sg j V Hrdy L1 (fun p => proj2 (Hps p)) Hsg Hj) as (Hu & Hin & _).
    split; [rewrite Hkeep by (by right); by apply Hld|]. apply (ld_user _ _ _ _ _ L2); [done|by right].
  - cbv beta. intros _ t3 o (-> & HQ). apply wp_bind, wp_zoom, wp_emit, wp_ret. cbn [app].
    destruct t3. apply HQ. cbn [app]. by rewrite ?app_nil_r.
Qed.

(** An image the loader refuses: the command returns early. *)
Lemma cmd_run_invalid_wp x more n8 e3 img buf pm (s : shell D H) :
  fat16_format_83 x = (n8, e3) -> kmalloc_a 4096 (vm_pmm (sh_vm s)) = (buf, pm) ->
  page_buffer (set_pmm pm (sh_vm s)) buf -> Forall is_u8 img -> (4 <= length img <= 4096)%nat ->
  match_at img elf_magic 0 = true -> header_ok img = false ->
  wp (fat16_read_file n8 e3 4096) (sh_fat s) (fun r _ o => o = [] /\ r = (Z.of_nat (length img), img)) ->
  wp (cmd_run user_mode (x :: more)) s (fun en s1 o =>
    en = Leave /\ sh_kb s1 = sh_kb s /\ o = [Print (str "run: invalid ELF image" ++ [10])]).
Proof.
  intros Ex Ek B Hu Hl Hm Hh Hread. cbn [cmd_run]. rewrite Ex. apply wp_bind, wp_zoom. unfold vm_kmalloc_a.
  apply wp_bind, wp_get. cbv beta. rewrite Ek. apply wp_bind, wp_put, wp_ret. cbn [app].
  destruct (pb_range _ _ B) as [Hb0 Hb1]. rewrite bool_decide_false by lia. apply wp_bind.
  apply (read_into_wp n8 e3 img); [exact B|exact Hu|lia|exact Hread|]. intros f t B1 Hsm.
  rewrite bool_decide_false by lia. pose proof (loading_start _ _ _ B1) as L0. unfold load_image.
  apply wp_bind, wp_bind, wp_zoom. cbn [sh_vm put_vm put_fat].
  apply (reads_wp _ _ true).
  { rewrite <- (Z.add_0_r buf), (starts_with_ok t buf img [] t elf_magic 0); [by rewrite Hm|done|done|lia|].
    unfold elf_magic. cbn [length]. lia. }
  apply wp_bind, wp_zoom. cbn [sh_vm put_vm put_fat].
  rewrite u32_small by (unfold is_u32; lia).
  apply (load_elf_header t buf img 0); [done|done| |congruence]. intros _.
  rewrite bool_decide_true by lia. apply wp_bind, wp_emit, wp_ret, wp_ret. done.
Qed.

(** What reading the file gives. *)
Lemma read_image_wp (v : fat D) (V : volume v) d dk n8 e3 ent cs img :
  holds d dk -> dir_find v dk n8 e3 = Some ent -> file_at v dk ent cs -> file_size ent = Z.of_nat (length img) ->
  img = take (length img) (file_bytes v dk cs) -> (length img <= 4096)%nat ->
  wp (fat16_read_file n8 e3 4096) (set_dev d v) (fun r _ o => o = [] /\ r = (Z.of_nat (length img), img)).
Proof.
  intros Hd Hfind Hat Hsz Himg Hlen. apply (read_file_wp v V _ _ _ _ dk); [done|lia|]. rewrite Hfind. exists cs.
  split; [done|]. intros d' _. split; [done|]. rewrite Hsz. f_equal.
  - unfold i32. rewrite u32_small by (unfold is_u32; lia). cbv zeta. by rewrite bool_decide_true by lia.
  - rewrite Z.min_r, Nat2Z.id by lia. by symmetry.
Qed.

(** C2: running a program from the disk, end to end: typing a run line for a
    well-formed executable of at most a page, stored as a file of a consistent
    volume, reads it, loads it and enters user mode at its entry point with
    stack pointer 0x80000FFC, in an address space where every segment is in
    place, the file's bytes and zeroes behind them, the stack page is zeroed,
    and both are open to user mode; when the program has come back a new prompt
    is printed.  The kernel's buffer is a mapped page of its own, the pages of
    the segments and of the stack are not mapped yet, the stack is in no
    segment's page, and two free frames for every page and two more are left. *)
Theorem shell_run_loads (v : fat D) (V : volume v) d dk l e (s : shell D H) x more n8 e3 ent cs img buf pm out :
  sh_fat s = set_dev d v -> holds d dk -> fat16_format_83 x = (n8, e3) ->
  dir_find v dk n8 e3 = Some ent -> file_at v dk ent cs -> file_size ent = Z.of_nat (length img) ->
  img = take (length img) (file_bytes v dk cs) ->
  kmalloc_a 4096 (vm_pmm (sh_vm s)) = (buf, pm) -> page_buffer (set_pmm pm (sh_vm s)) buf ->
  runnable (set_pmm pm (sh_vm s)) img pm ->
  holds_line (sh_kb s) e -> no_enter e l -> take 16 (argv_of (fst (edits e l))) = str "run" :: x :: more ->
  (forall t : shell D H, image_loaded img (sh_vm t) -> stack_ready (sh_vm t) ->
     wp (user_mode 0x80000FFC (get32 img e_entry)) t (fun _ t' o => o = out /\ sh_kb t' = sh_kb t)) ->
  wp (keys exec (l ++ [enter])) s (fun f s' o => f = Back /\ holds_line (sh_kb s') (fresh (fst (edits e l))) /\
    o = snd (edits e l) ++ Print [10] ::
      [Print (str "Loaded "); PrintInt (Z.of_nat (length img)); Print (str " bytes, jumping to entry 0x");
       PrintHex (get32 img e_entry); Print (str "..." ++ [10]);
       Print (str "jumping to ring 3 at 0x"); PrintHex (get32 img e_entry); Print (str "..." ++ [10])]
      ++ out ++ [Print (str "Program exited." ++ [10])] ++ prompt_events).
Proof.
  intros Hf Hd Ex Hfind Hat Hsz Himg Ek B R Hk Hn Hw Huser. pose proof (ru_size _ _ _ R) as Hlen.
  apply (line_wp _ _ _ _ _ e); [done..|]. intros k Hex. rewrite Hw.
  change (run_words (str "run") (x :: more)) with (cmd_run user_mode (x :: more)).
  apply (cmd_run_wp x more n8 e3 img buf pm out); [done|exact Ek|exact B|exact R| |].
  - cbn [put_kb sh_fat]. rewrite Hf. by apply (read_image_wp v V d dk n8 e3 ent cs).
  - intros t Himg2 Hst Hkb _. eapply wp_mono; [by apply Huser|]. cbv beta. intros _ t' o (-> & Hkb').
    split; [done|]. intros o' ->. rewrite Hkb'. rewrite Hkb. cbn [put_kb sh_kb].
    split; [by eapply executing_len|]. split; [done|]. split; [by apply fresh_line|].
    by rewrite <- !app_assoc.
Qed.

(** C26: a run that fails at loading leaves the line editor in the middle of its
    line: for a file that starts with the ELF magic and whose header the loader
    refuses, execute_command prints its message and returns without printing a
    prompt or clearing the buffer; the characters typed on the next line
    (Backspace could reach back into the old one) are echoed, as far as the
    old line leaves room, and never read, and Enter executes the word run alone
    again, which prints its usage message and, at last, a prompt. *)
Theorem run_failure_swallows_line (v : fat D) (V : volume v) d dk l1 l2 e (s : shell D H) x rest n8 e3 ent cs img buf pm :
  sh_fat s = set_dev d v -> holds d dk -> fat16_format_83 x = (n8, e3) ->
  dir_find v dk n8 e3 = Some ent -> file_at v dk ent cs -> file_size ent = Z.of_nat (length img) ->
  img = take (length img) (file_bytes v dk cs) -> Forall is_u8 img -> (4 <= length img <= 4096)%nat ->
  match_at img elf_magic 0 = true -> header_ok img = false ->
  kmalloc_a 4096 (vm_pmm (sh_vm s)) = (buf, pm) -> page_buffer (set_pmm pm (sh_vm s)) buf ->
  holds_line (sh_kb s) e -> no_enter e l1 ->
  take 16 (argv_of (fst (edits e l1))) = str "run" :: x :: rest ->
  types_only (fst (edits e l1)) l2 ->
  wp (keys exec ((l1 ++ [enter]) ++ l2 ++ [enter])) s (fun f s' o => f = Back /\
    holds_line (sh_kb s') (fresh (fst (edits (fst (edits e l1)) l2))) /\
    o = snd (edits e l1) ++ Print [10] :: [Print (str "run: invalid ELF image" ++ [10])] ++
      snd (edits (fst (edits e l1)) l2) ++
      [Print [10]; Print (str "Usage: run <filename.ext>" ++ [10])] ++ prompt_events).
Proof.
  intros Hf Hd Ex Hfind Hat Hsz Himg Hu Hlen Hm Hh Ek B Hk Hn Hw Ht.
  apply (run_leave_wp _ _ _ _ l1 l2 e s x rest [Print (str "run: invalid ELF image" ++ [10])]); [done..| |done|].
  - intros k _. apply (cmd_run_invalid_wp x rest n8 e3 img buf pm (put_kb k s)); try done.
    cbn [put_kb sh_fat]. rewrite Hf. apply (read_image_wp v V d dk n8 e3 ent cs); (done || lia).
  - intros s' Hk'. done.
Qed.
End Run.
