(* ===== verification/ShellExamples.v ===== *)
(** * A concrete machine for the shell's properties

    The RAM disks of [Fat16Examples], the page tables of [PagingSpec], ports
    that answer 0, and lines typed as scan codes. *)
From Stdlib Require Import ZArith Lia ZifyBool String.
From stdpp Require Import base numbers list gmap.
From S2P Require Import Prelude Mem Memory MemoryFacts MemorySpec Paging PagingFacts PagingSpec Process Syscall BlockDev Ports Fat16 Fat16Facts Fat16Dir Fat16Spec Fat16Mount Fat16Examples TarFs UserMem Elf ElfSpec Keyboard KeyboardSpec Shell ShellSpec ShellFiles ShellSafe RunSpec.

#[local] Instance quiet_ports : Ports unit := {
  in_al _ h := (0, h); out_al _ _ h := h; in_ax _ h := (0, h); out_ax _ _ h := h }.

(** The scan codes of a text of unshifted characters. *)
Definition codes (s : string) : list Z :=
  (fun c => match list_find (fun x => x = c) kbd_us with Some (i, _) => Z.of_nat i | None => 0 end) <$> str s.

Definition editor0 : editor := {| e_shift := false; e_caps := false; e_line := [] |}.

Lemma keyboard0_line : holds_line keyboard0 editor0.
Proof. constructor; cbn; (done || lia). Qed.

Definition demo_shell (v : vm) (f : fat ramdisk) : shell ramdisk unit := {|
  sh_kb := keyboard0; sh_vm := v; sh_procs := procs0; sh_fat := f; sh_initrd := 0; sh_ticks := 0; sh_hw := tt |}.

(** A program that prints and exits. *)
Definition hello_program (stack entry_ : Z) : M (shell ramdisk unit) unit := emit (Print (str "hello")).

Definition stack_junk : list Z := replicate 4096 7.

Abbreviation demo_exec := (execute_command hello_program stack_junk 100 100).

Ltac no_enter_tac := vm_compute; repeat split; discriminate.

Lemma editor_refines_witness :
  exists s' o, keys (@mret (M (shell ramdisk unit)) _ _ Back) [0x2A; 0x1E; 0xAA; 0x30; 0x0E] (demo_shell demo_vm s0) = Done (Back, s', o) /\
    o = [Print (str "A"); Print (str "b"); Print [8; 32; 8]] /\ buffer_index (sh_kb s') = 1.
Proof.
  destruct (wp_inv _ _ _ (editor_refines (KB := shell_keyboard) (mret Back) [0x2A; 0x1E; 0xAA; 0x30; 0x0E] editor0 (demo_shell demo_vm s0)
    keyboard0_line ltac:(no_enter_tac))) as (f & s' & o & E & -> & -> & k & -> & Hk).
  eexists _, _. split; [exact E|]. split; [vm_compute; reflexivity|]. exact (hl_index _ _ Hk).
Defined.

Lemma shell_echo_witness :
  exists s' o, keys demo_exec (codes " echo  a bc" ++ [enter]) (demo_shell demo_vm s0) = Done (Back, s', o) /\
    exists o1 o2 o3, o = o1 ++ o2 ++ o3 /\ printed o2 = str "a bc".
Proof.
  destruct (wp_inv _ _ _ (shell_echo hello_program stack_junk 100 100 (codes " echo  a bc") editor0 (demo_shell demo_vm s0)
    [str "a"; str "bc"] keyboard0_line ltac:(no_enter_tac) ltac:(vm_compute; reflexivity)))
    as (f & s' & o & E & -> & _ & o2 & -> & Ho).
  eexists _, _. split; [exact E|]. eexists (_ ++ [Print [10]]), o2, prompt_events. rewrite <- app_assoc. split; [reflexivity|exact Ho].
Defined.

Lemma shell_fat_roundtrip_witness :
  exists s' o, keys demo_exec ((codes "fat-write notes.txt hi  you" ++ [enter]) ++ codes "fat-cat notes.txt" ++ [enter])
      (demo_shell demo_vm s0) = Done (Back, s', o) /\ Print (str "hi you") ∈ o.
Proof.
  assert (W1 : take 16 (argv_of (fst (edits editor0 (codes "fat-write notes.txt hi  you"))))
    = str "fat-write" :: str "notes.txt" :: [str "hi"; str "you"]) by (vm_compute; reflexivity).
  assert (W2 : take 16 (argv_of (fst (edits (fresh (fst (edits editor0 (codes "fat-write notes.txt hi  you")))) (codes "fat-cat notes.txt"))))
    = str "fat-cat" :: str "notes.txt" :: []) by (vm_compute; reflexivity).
  destruct (wp_inv _ _ _ (shell_fat_roundtrip hello_program stack_junk 100 100 s0 v0 empty_disk (rd_sector empty_disk)
    (codes "fat-write notes.txt hi  you") (codes "fat-cat notes.txt") editor0 (demo_shell demo_vm s0)
    (str "notes.txt") [str "hi"; str "you"] [] (str "NOTES   ") (str "TXT") eq_refl empty_holds
    ltac:(unfold stack_junk; rewrite length_replicate; lia) keyboard0_line ltac:(constructor)
    ltac:(no_enter_tac) W1 ltac:(discriminate) ltac:(no_enter_tac) W2 ltac:(vm_compute; reflexivity)
    ltac:(vm_compute; reflexivity) ltac:(vm_compute; congruence) ltac:(vm_compute; by eexists)))
    as (f & s' & o & E & -> & ->).
  change (take 254 (joined [str "hi"; str "you"])) with (str "hi you") in E.
  eexists s', _. split; [exact E|].
  apply elem_of_app. right. do 2 apply list_elem_of_further. apply elem_of_app. right. apply elem_of_app. right.
  apply list_elem_of_further. apply list_elem_of_here.
Defined.

Lemma shell_sector_roundtrip_witness :
  exists s' o, keys demo_exec ((codes "write-test a  b" ++ [enter]) ++ codes "read-test" ++ [enter])
      (demo_shell demo_vm s0) = Done (Back, s', o) /\ Print (str "a b") ∈ o.
Proof.
  assert (W1 : take 16 (argv_of (fst (edits editor0 (codes "write-test a  b")))) = str "write-test" :: str "a" :: [str "b"])
    by (vm_compute; reflexivity).
  assert (W2 : take 16 (argv_of (fst (edits (fresh (fst (edits editor0 (codes "write-test a  b")))) (codes "read-test"))))
    = str "read-test" :: []) by (vm_compute; reflexivity).
  destruct (wp_inv _ _ _ (shell_sector_roundtrip hello_program stack_junk 100 100 s0 empty_disk (rd_sector empty_disk)
    (codes "write-test a  b") (codes "read-test") editor0 (demo_shell demo_vm s0) (str "a") [str "b"] []
    eq_refl empty_holds ltac:(reflexivity) keyboard0_line ltac:(constructor) ltac:(no_enter_tac) W1 ltac:(no_enter_tac) W2))
    as (f & s' & o & E & -> & ->).
  change (take 510 (joined [str "a"; str "b"])) with (str "a b") in E.
  eexists s', _. split; [exact E|].
  apply elem_of_app. right. do 2 apply list_elem_of_further. apply elem_of_app. right. apply elem_of_app. right.
  do 2 apply list_elem_of_further. apply list_elem_of_here.
Defined.

(** A.TXT has five bytes. *)
Lemma fat_cat_bounds_witness :
  exists t o, cmd_fat_cat stack_junk [str "a.txt"] (demo_shell demo_vm s1) = Done (tt, t, o) /\
    o = [Print (str "hello"); Print [10]].
Proof.
  destruct (fat_cat_bounds stack_junk s1 (fs0_volume one_file) one_file (rd_sector one_file)
    (str "a.txt") (str "A       ") (str "TXT") a_txt [2] (demo_shell demo_vm s1) eq_refl one_file_holds
    ltac:(unfold stack_junk; rewrite length_replicate; lia) ltac:(vm_compute; reflexivity) a_txt_found a_txt_file
    ltac:(reflexivity) ltac:(vm_compute; congruence)) as [_ Hs].
  destruct (wp_inv _ _ _ (Hs ltac:(vm_compute; reflexivity))) as ([] & t & o & E & ->).
  eexists t, _. split; [exact E|]. vm_compute. reflexivity.
Defined.

Lemma hello_keeps stack entry_ : Keeps sh_kb (hello_program stack entry_).
Proof. unfold hello_program. apply _. Qed.

Lemma keyboard_safe_witness :
  exists f s' o, keys demo_exec (codes "x" ++ [0x0E; 0x0E; enter]) (demo_shell demo_vm s0) = Done (f, s', o) /\ kb_ok (sh_kb s').
Proof.
  destruct (keyboard_safe hello_program stack_junk 100 100 hello_keeps (codes "x" ++ [0x0E; 0x0E; enter])
    (demo_shell demo_vm s0) (ex_intro _ editor0 keyboard0_line))
    as [H|(l1 & c & l2 & s1 & o1 & k & command & args & _ & _ & _ & _ & Hf)]; [exact H|].
  assert (E : match keys demo_exec (codes "x" ++ [0x0E; 0x0E; enter]) (demo_shell demo_vm s0) with Done _ => True | _ => False end)
    by (vm_compute; exact I).
  destruct (keys demo_exec (codes "x" ++ [0x0E; 0x0E; enter]) (demo_shell demo_vm s0)); contradiction.
Defined.

(** ** Running the executable of [ElfSpec] from a disk *)

(** A volume whose only file is RUN.ELF, in cluster 2. *)
Definition elf_disk : ramdisk :=
  <[1 := put16 4 0xFFFF (replicate 512 0)]> (<[2 := put16 4 0xFFFF (replicate 512 0)]>
    (<[3 := fill_entry (replicate 512 0) 0 (str "RUN     ") (str "ELF") 2 88]>
      (<[4 := splice 0 demo_elf (replicate 512 0)]> empty_disk))).

Lemma elf_disk_holds : holds elf_disk (rd_sector elf_disk).
Proof.
  split; [|done]. apply disk_ok.
  repeat (apply map_Forall_insert_2; [by vm_compute|]). apply map_Forall_empty.
Qed.

Definition run_elf : fat16_dir_entry := new_entry (str "RUN     ") (str "ELF") 2 88.

Abbreviation elf_fs := (set_dev elf_disk fs0).

Lemma run_elf_found : dir_find elf_fs (rd_sector elf_disk) (str "RUN     ") (str "ELF") = Some run_elf.
Proof. vm_compute. reflexivity. Qed.

Lemma run_elf_file : file_at elf_fs (rd_sector elf_disk) run_elf [2].
Proof.
  split_and!; [intros c ->%list_elem_of_singleton; vm_compute; split; congruence| | |vm_compute; congruence].
  - vm_compute. split; [congruence|done].
  - vm_compute. reflexivity.
Qed.

(** The bump allocator is about to hand out the mapped page. *)
Definition run_vm : vm := set_pmm (set_free_mem elf_buf (vm_pmm demo_vm)) demo_vm.

Definition run_pmm : pmm := snd (kmalloc_a 4096 (vm_pmm run_vm)).

Lemma run_buffer : page_buffer (set_pmm run_pmm run_vm) elf_buf.
Proof.
  constructor; [unfold elf_buf; lia|]. change (set_pmm run_pmm run_vm) with (set_pmm run_pmm demo_vm).
  apply cells_set_pmm.
  { intros g Hg. unfold run_pmm, kmalloc_a. cbn [snd].
    change (align_up (free_mem_addr (vm_pmm run_vm))) with elf_buf.
    rewrite used_mark_used by (unfold elf_buf, is_u32; lia). apply orb_true_iff. right. exact Hg. }
  { exact (kmalloc_a_max 4096 (vm_pmm run_vm)). }
  apply (cells_sub (in_buf elf_buf (replicate 4096 0))).
  - intros a Ha. unfold in_buf. rewrite length_replicate. exact Ha.
  - apply demo_cells. rewrite length_replicate. lia.
Qed.

Lemma run_runnable : runnable (set_pmm run_pmm run_vm) demo_elf run_pmm.
Proof.
  constructor; [exact demo_elf_valid|cbn; lia| | |].
  - rewrite demo_segments. constructor; [|done]. split; [split; vm_compute; congruence|].
    intros p Hp. unfold sg_first, sg_stop in Hp. cbn [sg_va sg_msz] in Hp.
    assert (p = 0x8048) as -> by word. vm_compute. reflexivity.
  - split; [vm_compute; reflexivity|]. intros (sg & Hsg & Hp). rewrite demo_segments in Hsg.
    apply list_elem_of_singleton in Hsg as ->. vm_compute in Hp. destruct Hp as [_ Hp]. discriminate Hp.
  - assert (E : (2 * sum_list (pages_of <$> phdrs demo_elf) + 2)%nat = 4%nat) by (vm_compute; reflexivity). rewrite E.
    vm_compute. repeat split; discriminate.
Qed.

Lemma shell_run_loads_witness :
  exists s' o, keys demo_exec (codes "run run.elf" ++ [enter]) (demo_shell run_vm elf_fs) = Done (Back, s', o) /\
    Print (str "hello") ∈ o.
Proof.
  assert (W : take 16 (argv_of (fst (edits editor0 (codes "run run.elf")))) = str "run" :: str "run.elf" :: [])
    by (vm_compute; reflexivity).
  assert (Hsz : file_size run_elf = Z.of_nat (length demo_elf)) by (vm_compute; reflexivity).
  assert (Himg : demo_elf = take (length demo_elf) (file_bytes elf_fs (rd_sector elf_disk) [2])) by (vm_compute; reflexivity).
  assert (Hk : kmalloc_a 4096 (vm_pmm (sh_vm (demo_shell run_vm elf_fs))) = (elf_buf, run_pmm)) by (vm_compute; reflexivity).
  assert (Hu : forall t : shell ramdisk unit, image_loaded demo_elf (sh_vm t) -> stack_ready (sh_vm t) ->
     wp (hello_program 0x80000FFC (get32 demo_elf e_entry)) t (fun _ t' o => o = [Print (str "hello")] /\ sh_kb t' = sh_kb t))
    by (intros t _ _; split; reflexivity).
  destruct (wp_inv _ _ _ (shell_run_loads hello_program stack_junk 100 100 elf_fs (fs0_volume elf_disk) elf_disk
    (rd_sector elf_disk) (codes "run run.elf") editor0 (demo_shell run_vm elf_fs) (str "run.elf") []
    (str "RUN     ") (str "ELF") run_elf [2] demo_elf elf_buf run_pmm [Print (str "hello")]
    eq_refl elf_disk_holds ltac:(vm_compute; reflexivity) run_elf_found run_elf_file Hsz Himg Hk run_buffer run_runnable
    keyboard0_line ltac:(no_enter_tac) W Hu)) as (f & s' & o & E & -> & _ & ->).
  eexists s', _. split; [exact E|]. apply elem_of_app. right. apply list_elem_of_further. apply elem_of_app. right.
  apply elem_of_app. left. apply list_elem_of_here.
Defined.

(** ** A file with nothing but the magic *)
Definition bad_disk : ramdisk := <[3 := fill_entry (replicate 512 0) 0 (str "RUN     ") (str "ELF") 2 4]> elf_disk.

Lemma bad_disk_holds : holds bad_disk (rd_sector bad_disk).
Proof.
  split; [|done]. apply disk_ok.
  repeat (apply map_Forall_insert_2; [by vm_compute|]). apply map_Forall_empty.
Qed.

Definition bad_elf : fat16_dir_entry := new_entry (str "RUN     ") (str "ELF") 2 4.

Abbreviation bad_fs := (set_dev bad_disk fs0).

Lemma bad_elf_found : dir_find bad_fs (rd_sector bad_disk) (str "RUN     ") (str "ELF") = Some bad_elf.
Proof. vm_compute. reflexivity. Qed.

Lemma bad_elf_file : file_at bad_fs (rd_sector bad_disk) bad_elf [2].
Proof.
  split_and!; [intros c ->%list_elem_of_singleton; vm_compute; split; congruence| | |vm_compute; congruence].
  - vm_compute. split; [congruence|done].
  - vm_compute. reflexivity.
Qed.

Lemma run_failure_swallows_line_witness :
  exists s' o, keys demo_exec ((codes "run run.elf" ++ [enter]) ++ codes "pwd" ++ [enter]) (demo_shell run_vm bad_fs) = Done (Back, s', o) /\
    exists o1, o = o1 ++ [Print (str "run: invalid ELF image" ++ [10])] ++
      [Print (str "p"); Print (str "w"); Print (str "d"); Print [10]; Print (str "Usage: run <filename.ext>" ++ [10])] ++ prompt_events.
Proof.
  assert (W : take 16 (argv_of (fst (edits editor0 (codes "run run.elf")))) = str "run" :: str "run.elf" :: [])
    by (vm_compute; reflexivity).
  assert (Himg : elf_magic = take (length elf_magic) (file_bytes bad_fs (rd_sector bad_disk) [2])) by (vm_compute; reflexivity).
  assert (Hk : kmalloc_a 4096 (vm_pmm (sh_vm (demo_shell run_vm bad_fs))) = (elf_buf, run_pmm)) by (vm_compute; reflexivity).
  assert (Hb : Forall is_u8 elf_magic) by (apply (bool_decide_unpack _); vm_compute; exact I).
  destruct (wp_inv _ _ _ (run_failure_swallows_line hello_program stack_junk 100 100 bad_fs (fs0_volume bad_disk) bad_disk
    (rd_sector bad_disk) (codes "run run.elf") (codes "pwd") editor0 (demo_shell run_vm bad_fs) (str "run.elf") []
    (str "RUN     ") (str "ELF") bad_elf [2] elf_magic elf_buf run_pmm
    eq_refl bad_disk_holds ltac:(vm_compute; reflexivity) bad_elf_found bad_elf_file eq_refl Himg Hb
    ltac:(cbn; lia) eq_refl eq_refl Hk run_buffer keyboard0_line ltac:(no_enter_tac) W ltac:(no_enter_tac)))
    as (f & s' & o & E & -> & _ & ->).
  eexists s', _. split; [exact E|]. exists (snd (edits editor0 (codes "run run.elf")) ++ [Print [10]]).
  rewrite <- app_assoc. reflexivity.
Defined.
