(* ===== verification/Kernel.v ===== *)
(** * kernel.c: the boot sequence and the interrupt handlers

    [kernel_main] up to its final [hlt] loop, composed from the components'
    own operations.  The addresses the linker chooses (the interrupt stubs,
    the tables, the boot stack) are parameters; interrupts that arrive while
    the machine boots are not modelled. *)
From Stdlib Require Import ZArith Lia ZifyBool String.
From stdpp Require Import base numbers list gmap.
From S2P Require Import Prelude Mem Memory Paging Process BlockDev Ports Fat16 TarFs Descriptors Devices Elf Keyboard Shell.

Record machine (D H : Type) := {
  m_shell : shell D H; m_gdt : gdt_state; m_idt : idt_state; m_interrupts : bool; m_yield_flag : Z }.
Arguments m_shell {D H} _. Arguments m_gdt {D H} _. Arguments m_idt {D H} _.
Arguments m_interrupts {D H} _. Arguments m_yield_flag {D H} _.

Section Fields.
Context {D H : Type}.

Definition put_shell (s : shell D H) (m : machine D H) : machine D H := {|
  m_shell := s; m_gdt := m_gdt m; m_idt := m_idt m; m_interrupts := m_interrupts m; m_yield_flag := m_yield_flag m |}.

Definition put_gdt (g : gdt_state) (m : machine D H) : machine D H := {|
  m_shell := m_shell m; m_gdt := g; m_idt := m_idt m; m_interrupts := m_interrupts m; m_yield_flag := m_yield_flag m |}.

Definition put_idt (i : idt_state) (m : machine D H) : machine D H := {|
  m_shell := m_shell m; m_gdt := m_gdt m; m_idt := i; m_interrupts := m_interrupts m; m_yield_flag := m_yield_flag m |}.

Definition put_interrupts (b : bool) (m : machine D H) : machine D H := {|
  m_shell := m_shell m; m_gdt := m_gdt m; m_idt := m_idt m; m_interrupts := b; m_yield_flag := m_yield_flag m |}.

Definition put_ticks (t : Z) (s : shell D H) : shell D H := {|
  sh_kb := sh_kb s; sh_vm := sh_vm s; sh_procs := sh_procs s; sh_fat := sh_fat s; sh_initrd := sh_initrd s;
  sh_ticks := t; sh_hw := sh_hw s |}.

Definition put_initrd (a : Z) (s : shell D H) : shell D H := {|
  sh_kb := sh_kb s; sh_vm := sh_vm s; sh_procs := sh_procs s; sh_fat := sh_fat s; sh_initrd := a;
  sh_ticks := sh_ticks s; sh_hw := sh_hw s |}.

Definition on_shell {A} (k : M (shell D H) A) : M (machine D H) A := zoom m_shell put_shell k.

Definition on_idt (f : idt_state -> idt_state) : M (machine D H) unit := mmodify (fun m => put_idt (f (m_idt m)) m).

(** init_fs writes its own global, in the memory everything shares. *)
Definition on_initrd {A} (k : M (tarfs vm) A) : M (shell D H) A :=
  zoom (fun s => {| fs_mem := sh_vm s; initrd_address := sh_initrd s |})
    (fun t s => put_initrd (initrd_address t) s) k.
End Fields.

Section Kernel.
Context {D H : Type} {BD : BlockDev D} {PT : Ports H}.
Context (user_mode : Z -> Z -> M (shell D H) unit) (junk : list Z) (tar_chars tar_fuel : nat).

(** Port writes. *)
Definition port_writes (l : list (Z * Z)) : M (machine D H) unit :=
  on_shell (mmodify (fun s => put_hw (outbs l (sh_hw s)) s)).

(** ** Interrupt handlers *)

(** The end-of-interrupt is sent only when the command comes back. *)
Definition keyboard_handler : M (machine D H) flow :=
  m ← mget;
  let '(scancode, h) := inb 0x60 (sh_hw (m_shell m)) in
  on_shell (mmodify (put_hw h));;
  f ← on_shell (handle_keyboard_interrupt (execute_command user_mode junk tar_chars tar_fuel) scancode);
  match f with
  | Back => port_writes [(0x20, 0x20)];; mret Back
  | Hung => mret Hung
  end.

Definition timer_interrupt : M (machine D H) unit :=
  m ← mget;
  let '(t, l) := timer_handler {| timer_ticks := sh_ticks (m_shell m); yield_flag := m_yield_flag m |} in
  mput {| m_shell := put_ticks (timer_ticks t) (m_shell m); m_gdt := m_gdt m; m_idt := m_idt m;
          m_interrupts := m_interrupts m; m_yield_flag := yield_flag t |};;
  port_writes l.

(** ** The boot sequence *)
Context (isr : Z -> Z) (idt_addr tss_addr stack_top : Z).

(** Entries of GRUB's memory map. *)
Context (map_fuel : nat).

Definition out (s : string) : M (machine D H) unit := emit (Print (str s)).

Definition out_line (s : string) : M (machine D H) unit := emit (Print (str s ++ [10])).

Definition start_init_proc : M (machine D H) unit := out_line "Process subsystem ready.".

Definition banner : list (list Z) :=
  [str "   ____ ___           _           ___  ____  "; str "  / ___|_ _|____   __| |_   _    / _ \/ ___| ";
   str " | |    | | '_ \ \ / / | | | |  | | | \___ \ "; str " | |___ | | | | \ V /| | |_| |  | |_| |___) |";
   str "  \____|___|_| |_|\_/ |_|\__, |  \___/|____/ "; str "                         |___/               "].

Definition greet : M (machine D H) unit :=
  emit_all ((fun l => PrintColored (l ++ [10]) 0x0A) <$> banner);;
  emit (Print [10]);;
  out_line "Welcome to CIndy-OS";; out_line "Boot successful";; out_line "Kernel loaded successfully";;
  out "Integer test: ";; emit (PrintInt 12345);; emit (Print [10]);;
  out "Hex test: ";; emit (PrintHex 3735928559);; emit (Print [10]);;
  out "Testing ports";; emit (Print [10]);;
  out_line "Initializing IDT...".

(** [idt_set_gate(n, isr<n>, 0x08, fl)] *)
Definition gate_to (fl n : Z) : idt_state -> idt_state := idt_set_gate n (isr n) 0x08 fl.

Definition setup_interrupts : M (machine D H) unit :=
  on_idt (idt_init idt_addr);;
  on_idt (fun s => fold_left (fun s n => gate_to 0x8E n s) (seqZ 0 32) s);;
  out_line "IDT loaded successfully";;
  emit (Print [10]);; out_line "Remapping PIC...";;
  port_writes pic_remap;;
  out_line "PIC remapped successfully";; out_line "Enabling interrupts...";;
  on_idt (gate_to 0x8E 32);;
  on_idt (gate_to 0x8E 33);;
  on_idt (gate_to 0xEE 0x80);;
  mmodify (put_interrupts true);;
  match init_timer 100 with Some l => port_writes l | None => spin end.

(** The boot information is read at its addresses in the address space of the
    moment: physical for init_memory, the new page tables' for init_pmm. *)
Definition setup_memory (magic mbd : Z) : M (shell D H) unit :=
  on_vm (s ← mget; zoom vm_pmm set_pmm (init_memory map_fuel s mbd magic));;
  on_vm (mmodify init_paging);;
  on_vm (s ← mget; p ← lift (init_pmm map_fuel s mbd (vm_pmm s)); mput (set_pmm p s)).

Definition setup_files (mbd : Z) : M (shell D H) unit :=
  mods_count ← on_vm (reads (ld32 (mbd + 20)));
  if bool_decide (mods_count > 0) then
    module ← on_vm (reads (ld32 (mbd + 24)));
    mod_start ← on_vm (reads (ld32 module));
    on_initrd (init_fs mod_start)
  else say_line "Warning: No initrd module loaded by GRUB!".

Definition kernel_main (magic mbd : Z) : M (machine D H) unit :=
  emit InitSerial;; emit ClearScreen;; emit (EnableCursor 14 15);;
  greet;;
  setup_interrupts;;
  on_shell (setup_memory magic mbd);;
  mmodify (fun m => put_gdt (gdt_init_tss tss_addr stack_top (m_gdt m)) m);;
  on_shell (setup_files mbd);;
  on_shell (on_fat fat16_init);;
  on_shell (on_procs (mmodify process_init));;
  start_init_proc;;
  out_line "Initial process started.";;
  out_line "Interrupts enabled.";;
  emit (PrintColored (10 :: str "[CIndy-OS]> ") 0x0B).
End Kernel.
