(* ===== verification/KernelSpec.v ===== *)
(** * Properties of the boot sequence and of the interrupt handlers

    The components' own specifications, composed in the order of
    [kernel_main]. *)
From Stdlib Require Import ZArith Lia ZifyBool String.
From stdpp Require Import base numbers list gmap.
From S2P Require Import Prelude Mem Memory MemoryFacts MemorySpec Paging PagingFacts PagingSpec Process ProcessSpec BlockDev Ports Fat16 Fat16Facts Fat16Dir Fat16Spec Fat16Mount TarFs Descriptors Devices DevicesSpec Elf ElfSpec Keyboard KeyboardSpec Shell Kernel.

(** ** The interrupt table after boot *)

(** The processor finds a present kernel gate to [isr v], callable from ring
    [dpl]. *)
Record gate_ready (isr : Z -> Z) (s : idt_state) (v dpl : Z) : Prop := {
  gr_present : gate_present (gate s v) = true;
  gr_offset : gate_offset (gate s v) = isr v;
  gr_selector : selector (gate s v) = KERNEL_CODE_SEG;
  gr_dpl : gate_dpl (gate s v) = dpl;
}.

Lemma gate_to_length isr fl n s : length (idt (gate_to isr fl n s)) = length (idt s).
Proof. apply length_insert. Qed.

Lemma gate_to_gate isr fl n s v :
  length (idt s) = 256%nat -> is_u8 n -> is_u8 v ->
  gate (gate_to isr fl n s) v = if bool_decide (v = n) then gate (gate_to isr fl v s) v else gate s v.
Proof.
  intros Hl Hn Hv. unfold gate_to. rewrite !idt_set_gate_gate by done. rewrite (bool_decide_true (v = v)) by done.
  case_bool_decide; by subst.
Qed.

Lemma gate_to_ready isr fl v s :
  length (idt s) = 256%nat -> is_u8 v -> is_u32 (isr v) -> bit (u8 fl) 7 = true ->
  gate_ready isr (gate_to isr fl v s) v (u8 fl / 0x20 mod 4).
Proof.
  intros Hl Hv Hi Hf. assert (E := idt_set_gate_gate v (isr v) 0x08 fl s v Hl Hv Hv).
  rewrite bool_decide_true in E by done. fold (gate_to isr fl v s) in E.
  constructor; rewrite E; [exact Hf|by apply gate_offset_set|done|done].
Qed.

(** A gate that another one's installation leaves alone. *)
Lemma gate_ready_ext isr s s' v dpl : gate s' v = gate s v -> gate_ready isr s v dpl -> gate_ready isr s' v dpl.
Proof. intros E [H1 H2 H3 H4]. constructor; by rewrite E. Qed.

Lemma exception_gates isr n s v :
  length (idt s) = 256%nat -> 0 <= n <= 32 -> is_u8 v ->
  let s' := fold_left (fun s n => gate_to isr 0x8E n s) (seqZ 0 n) s in
  length (idt s') = 256%nat /\
  (0 <= v < n -> is_u32 (isr v) -> gate_ready isr s' v 0) /\ (n <= v -> gate s' v = gate s v).
Proof.
  intros Hl Hn Hv. cbv zeta. replace n with (Z.of_nat (Z.to_nat n)) by lia.
  assert (Hk : (Z.to_nat n <= 32)%nat) by lia. revert Hk. generalize (Z.to_nat n) as k. induction k as [|k IH]; intros Hk.
  { split_and!; [done|lia|done]. }
  replace (Z.of_nat (S k)) with (Z.of_nat k + 1) by lia. rewrite seqZ_app by lia. rewrite fold_left_app.
  destruct IH as (IHl & IHr & IHs); [lia|]. rewrite Z.add_0_l. change (seqZ (Z.of_nat k) 1) with [Z.of_nat k]. cbn [fold_left].
  set (s1 := fold_left _ _ s) in *. split_and!; [by rewrite gate_to_length| |].
  - intros Hvk Hi. destruct (decide (v = Z.of_nat k)) as [->|Hne].
    + apply (gate_to_ready isr 0x8E); [done|done|done|by vm_compute].
    + apply (gate_ready_ext isr s1); [|apply IHr; [lia|done]].
      rewrite gate_to_gate by (done || (unfold is_u8; lia)). by rewrite bool_decide_false.
  - intros Hge. rewrite gate_to_gate by (done || (unfold is_u8; lia)). rewrite bool_decide_false by lia. apply IHs. lia.
Qed.

(** The gates in the order [kernel_main] installs them. *)
Definition boot_gates (isr : Z -> Z) (idt_addr : Z) (s : idt_state) : idt_state :=
  gate_to isr 0xEE 0x80 (gate_to isr 0x8E 33 (gate_to isr 0x8E 32
    (fold_left (fun s n => gate_to isr 0x8E n s) (seqZ 0 32) (idt_init idt_addr s)))).

Lemma boot_gates_ready isr idt_addr s v :
  length (idt s) = 256%nat -> is_u8 v -> is_u32 (isr v) ->
  (v < 34 -> gate_ready isr (boot_gates isr idt_addr s) v 0) /\
  (v = 0x80 -> gate_ready isr (boot_gates isr idt_addr s) v 3) /\
  (34 <= v -> v <> 0x80 -> gate (boot_gates isr idt_addr s) v = gate s v).
Proof.
  intros Hl Hv Hi. unfold boot_gates.
  destruct (exception_gates isr 32 (idt_init idt_addr s) v Hl) as (L1 & R1 & S1); [lia|done|].
  set (s1 := fold_left _ _ _) in *. set (s2 := gate_to isr 0x8E 32 s1). set (s3 := gate_to isr 0x8E 33 s2).
  assert (L2 : length (idt s2) = 256%nat) by (subst s2; by rewrite gate_to_length).
  assert (L3 : length (idt s3) = 256%nat) by (subst s3; by rewrite gate_to_length).
  assert (E : forall fl n s, length (idt s) = 256%nat -> is_u8 n -> v <> n -> gate (gate_to isr fl n s) v = gate s v).
  { intros fl n s' Hls Hn Hne. rewrite gate_to_gate by done. by rewrite bool_decide_false. }
  unfold is_u8 in Hv. split_and!.
  - intros Hlt. apply (gate_ready_ext isr s3); [apply E; (done || unfold is_u8; lia)|].
    destruct (decide (v = 33)) as [->|]; [by apply (gate_to_ready isr 0x8E)|].
    apply (gate_ready_ext isr s2); [apply E; (done || unfold is_u8; lia)|].
    destruct (decide (v = 32)) as [->|]; [by apply (gate_to_ready isr 0x8E)|].
    apply (gate_ready_ext isr s1); [apply E; (done || unfold is_u8; lia)|]. apply R1; [lia|done].
  - intros ->. by apply (gate_to_ready isr 0xEE).
  - intros Hge Hne. rewrite E by (done || unfold is_u8; lia). subst s3. rewrite E by (done || unfold is_u8; lia).
    subst s2. rewrite E by (done || unfold is_u8; lia). rewrite S1 by lia. done.
Qed.

(** ** Interrupts *)
Section Interrupts.
Context {D H : Type} {PT : Ports H}.
Context (isr : Z -> Z) (idt_addr : Z).

(** What [init_timer 100] writes: 1193180 / 100 = 11931 = 0x2E9B. *)
Definition pit_100 : list (Z * Z) := [(0x43, 0x36); (0x40, 0x9B); (0x40, 0x2E)].

Lemma setup_interrupts_wp (m : machine D H) Q :
  (forall m' o, m_shell m' = put_hw (outbs (pic_remap ++ pit_100) (sh_hw (m_shell m))) (m_shell m) ->
     m_idt m' = boot_gates isr idt_addr (m_idt m) -> m_interrupts m' = true -> m_gdt m' = m_gdt m -> Q tt m' o) ->
  wp (setup_interrupts isr idt_addr) m Q.
Proof.
  intros HQ. unfold setup_interrupts, on_idt, port_writes, on_shell.
  repeat (apply wp_bind; first [apply wp_modify|apply wp_emit|apply wp_zoom, wp_modify]).
  apply HQ; [|reflexivity..]. unfold outbs. rewrite fold_left_app. reflexivity.
Qed.

Context {HW : IrqHw H}.

(** The lines and the timer after the writes of the boot sequence. *)
Lemma boot_lines (h : H) n :
  0 <= n < 16 ->
  irq_vector (outbs (pic_remap ++ pit_100) h) n = 0x20 + n /\
  irq_enabled (outbs (pic_remap ++ pit_100) h) n = bool_decide (n < 2) /\
  reload (pit (outbs (pic_remap ++ pit_100) h)) = 11931.
Proof.
  intros Hn. destruct (outbs_seen (pic_remap ++ pit_100) h) as (E1 & E2 & E3).
  { apply (bool_decide_unpack _). vm_compute. exact I. }
  unfold irq_vector, irq_enabled. rewrite E1, E2, E3. split_and!; [| |by vm_compute].
  all: assert (Hin : n ∈ seqZ 0 16) by (apply elem_of_seqZ; lia); clear Hn;
    change (n ∈ [0; 1; 2; 3; 4; 5; 6; 7; 8; 9; 10; 11; 12; 13; 14; 15]) in Hin;
    repeat (apply elem_of_cons in Hin as [->|Hin]; [by vm_compute|]); by apply not_elem_of_nil in Hin.
Qed.

(** C14: once the kernel has enabled interrupts, every interrupt that can arrive has a handler: whatever state the controllers were in, exactly lines 0 and 1 are let through, each of their vectors and each of the 32 exceptions has a present ring-0 gate to the stub of its own number, user programs can only raise vector 0x80, no other gate is present, and the timer fires every 1/100 s as exactly as its clock allows. *)
Theorem boot_interrupts (m : machine D H) :
  length (idt (m_idt m)) = 256%nat -> (forall v, gate (m_idt m) v = idt_entry0) -> (forall v, is_u8 v -> is_u32 (isr v)) ->
  wp (setup_interrupts isr idt_addr) m (fun _ m' _ =>
    let h := sh_hw (m_shell m') in
    m_interrupts m' = true /\ idtr (m_idt m') = {| idtp_limit := 2047; idtp_base := idt_addr |} /\
    (forall n, 0 <= n < 16 -> irq_enabled h n = bool_decide (n < 2)) /\
    (forall n, 0 <= n < 16 -> irq_enabled h n = true -> gate_ready isr (m_idt m') (irq_vector h n) 0) /\
    (forall v, 0 <= v < 32 -> gate_ready isr (m_idt m') v 0) /\
    gate_ready isr (m_idt m') 0x80 3 /\
    (forall v, is_u8 v -> 34 <= v -> v <> 0x80 -> gate_present (gate (m_idt m') v) = false) /\
    100 * reload (pit h) <= 1193180 < 100 * (reload (pit h) + 1)).
Proof.
  intros Hl H0 Hi. apply setup_interrupts_wp. intros m' o Es Ei Eirq _. rewrite Es, Ei. cbn [put_hw sh_hw]. cbv zeta.
  set (h := outbs _ _).
  assert (Hready : forall v, is_u8 v -> v < 34 -> gate_ready isr (boot_gates isr idt_addr (m_idt m)) v 0).
  { intros v Hv Hlt. by apply (boot_gates_ready isr idt_addr (m_idt m) v Hl Hv (Hi v Hv)). }
  split_and!; [done|reflexivity| | | | | | |].
  - intros n Hn. by apply (boot_lines _ n Hn).
  - intros n Hn. destruct (boot_lines (sh_hw (m_shell m)) n Hn) as (Ev & Ee & _). fold h in Ev, Ee. rewrite Ev, Ee.
    intros Hlt%bool_decide_eq_true. apply Hready; unfold is_u8; lia.
  - intros v Hv. apply Hready; unfold is_u8; lia.
  - assert (H8 : is_u8 0x80) by (unfold is_u8; lia).
    by apply (boot_gates_ready isr idt_addr (m_idt m) 0x80 Hl H8 (Hi _ H8)).
  - intros v Hv Hge Hne. destruct (boot_gates_ready isr idt_addr (m_idt m) v Hl Hv (Hi v Hv)) as (_ & _ & E).
    rewrite E by done. by rewrite H0.
  - destruct (boot_lines (sh_hw (m_shell m)) 0) as (_ & _ & E); [lia|]. fold h in E. rewrite E. lia.
  - destruct (boot_lines (sh_hw (m_shell m)) 0) as (_ & _ & E); [lia|]. fold h in E. rewrite E. lia.
Qed.
End Interrupts.

(** ** Memory *)

(** Memories that agree below the heap. *)
Definition same_low (m m' : mem) : Prop := forall a, is_u32 a -> a < 0x200000 -> rd8 m' a = rd8 m a.

(** The boot information GRUB passed lies below the kernel's heap. *)
Record info_low (m : mem) (mbd : Z) : Prop := {
  il_info : 0 <= mbd /\ mbd + 52 <= 0x200000;
  il_map : mmap_addr (read_multiboot_info m mbd) + mmap_length (read_multiboot_info m mbd) <= 0x1FF000;
  il_mods : mods_addr (read_multiboot_info m mbd) + 4 <= 0x200000;
}.

(** [v0] has paging off; [v] shows the same bytes below the heap. *)
Record shows_low (v0 v : vm) : Prop := {
  sl_unpaged : bit (cr0 v0) 31 = false;
  sl_same : same_low (vm_mem v0) (vm_mem v);
  sl_ident : forall va, 0 <= va < 0x200000 -> translate v va = Some va;
}.

Lemma ld32_unpaged v0 a : bit (cr0 v0) 31 = false -> ld32 a v0 = Done (rd32 (vm_mem v0) a).
Proof.
  intros Hpg. unfold ld32, rd32. cbn [ld8 vm_space]. unfold translate. rewrite Hpg.
  cbn [mbind outcome_bind]. by rewrite !rd8_u32.
Qed.

Lemma ld32_low v0 v a : shows_low v0 v -> 0 <= a -> a + 4 <= 0x200000 -> ld32 a v = Done (rd32 (vm_mem v0) a).
Proof.
  intros [_ Hs Hi] Ha Hl. assert (E : forall k, 0 <= k < 4 -> ld8 (u32 (a + k)) v = Done (rd8 (vm_mem v0) (a + k))).
  { intros k Hk. rewrite u32_small by (unfold is_u32; lia). cbn [ld8 vm_space].
    rewrite Hi by lia. by rewrite Hs by (unfold is_u32; lia). }
  unfold ld32, rd32. specialize (E 0 ltac:(lia)) as E0. rewrite Z.add_0_r in E0.
  by rewrite E0, (E 1), (E 2), (E 3) by lia.
Qed.

Lemma ld32_seen v0 v a x : shows_low v0 v -> 0 <= a -> a + 4 <= 0x200000 -> ld32 a v0 = Done x -> ld32 a v = Done x.
Proof. intros Hs Ha Hl. rewrite (ld32_unpaged _ _ (sl_unpaged _ _ Hs)), (ld32_low _ _ _ Hs Ha Hl). done. Qed.

Lemma mmap_at_low v0 v a limit es :
  shows_low v0 v -> is_u32 a -> limit <= 0x1FF000 -> mmap_at v0 a limit es -> mmap_at v a limit es.
Proof.
  intros Hs Ha Hl. revert a Ha. induction es as [|e es IH]; intros a Ha; [done|]. cbn [mmap_at].
  intros (Hlt & (Hwf & E1 & E2 & E3 & E4 & E5) & Hes).
  split_and!; [done| |apply IH; [apply u32_range|exact Hes]].
  unfold shows_entry, is_u32, size_offset, base_low_offset, base_high_offset, length_low_offset, type_offset in *.
  split; [exact Hwf|]. split_and!; (eapply ld32_seen; [exact Hs|lia|lia|assumption]).
Qed.

Lemma valid_map_low fuel v0 v mbd es :
  shows_low v0 v -> info_low (vm_mem v0) mbd -> valid_map fuel v0 mbd es -> valid_map fuel v mbd es.
Proof.
  intros Hs [[H0 H1] Hm _] (flags & addr & len & Ef & Hf & Ea & El & Hmap & Hlen).
  exists flags, addr, len. unfold flags_offset, mmap_addr_offset, mmap_length_offset in *.
  split_and!; [by apply (ld32_seen v0); (done || lia)|done|by apply (ld32_seen v0); (done || lia)
    |by apply (ld32_seen v0); (done || lia)| |done].
  rewrite (ld32_unpaged v0 (mbd + 48) (sl_unpaged _ _ Hs)) in Ea. rewrite (ld32_unpaged v0 (mbd + 44) (sl_unpaged _ _ Hs)) in El. injection Ea as <-. injection El as <-.
  pose proof (rd32_range (vm_mem v0) (mbd + 48)) as Ha. pose proof (rd32_range (vm_mem v0) (mbd + 44)) as Hn.
  unfold read_multiboot_info in Hm. cbn [mmap_addr mmap_length] in Hm.
  unfold mmap_addr_offset, mmap_length_offset in Hm.
  apply (mmap_at_low v0); [done|exact Ha| |done]. rewrite u32_small; [done|]. unfold is_u32 in *. lia.
Qed.

(** The memory the identity map covers, in frames, and a map all of whose
    usable regions end inside it and inside the frame bitmap. *)
Definition mapped_frames (es : list multiboot_mmap_entry) : Z := required_pdes (u32 (usable_bytes es)) * 1024.

Definition within_reach (es : list multiboot_mmap_entry) : Prop :=
  0 < mapped_frames es /\
  forall e, e ∈ es -> usable e -> first_frame e + num_frames e <= Z.min 262144 (mapped_frames es).

(** The memory system after the three initialisations. *)
Record memory_ready (v0 v : vm) (es : list multiboot_mmap_entry) : Prop := {
  mr_tables : tables_ok v;
  mr_mmu : mmu_on v;
  mr_identity : forall va, is_u32 va ->
    translate v va = if va <? mapped_frames es * 4096 then Some va else None;
  mr_frames : forall f, tracked f -> used (vm_pmm v) f = false <->
    f <> 0 /\ u32 (free_mem_addr (vm_pmm v) + 4095) / 4096 <= f /\
    exists e, e ∈ es /\ usable e /\ first_frame e <= f < first_frame e + num_frames e;
  mr_array : in_array (vm_pmm v);
  mr_low : same_low (vm_mem v0) (vm_mem v);
  mr_heap : is_page (free_mem_addr (vm_pmm v));
}.

Lemma pdes_range total : 0 <= required_pdes total <= 1024.
Proof. unfold required_pdes. cbv zeta. case_bool_decide; [lia|]. split; [|lia]. apply Z.div_pos; [apply u32_range|lia]. Qed.

Section Boot.
Context {D H : Type} `{BlockDevSpec D} {PT : Ports H}.
Context (map_fuel : nat).

Lemma setup_memory_wp magic mbd es (s : shell D H) Q :
  vm_pmm (sh_vm s) = pmm0 -> bit (cr0 (sh_vm s)) 31 = false -> magic = MULTIBOOT_MAGIC ->
  info_low (vm_mem (sh_vm s)) mbd -> valid_map map_fuel (sh_vm s) mbd es -> within_reach es ->
  (forall v o, memory_ready (sh_vm s) v es -> Q tt (put_vm v s) o) ->
  wp (setup_memory map_fuel magic mbd) s Q.
Proof.
  intros Hp Hpg Hmagic Hlow Hv [Hn0 Hreg] HQ. unfold setup_memory, on_vm.
  apply wp_bind, wp_zoom, wp_bind, wp_get. cbv beta. apply wp_zoom.
  destruct Hv as (flags & Hv'). pose proof (ex_intro _ flags Hv' : valid_map map_fuel (sh_vm s) mbd es) as Hv.
  destruct Hv' as (_ & _ & Efl & Hfl & _).
  eapply wp_mono.
  { apply (init_memory_spec map_fuel (sh_vm s) mbd magic (vm_pmm (sh_vm s)) es flags); rewrite ?Hp; [done|by unfold is_u32|done|done|done]. }
  cbv beta. intros _ p o. rewrite Hp, Hmagic, Hfl.
  rewrite bool_decide_true by done. cbn [andb]. intros (Hfree & Htot & Hu & Hmax & Harr).
  rewrite (u32_small _ Hu) in Htot. change (total_memory pmm0 + usable_bytes es) with (usable_bytes es) in Htot.
  change (free_mem_addr pmm0) with 0x200000 in Hfree. change (max_frames pmm0) with 0 in Hmax.
  change (bitmap_escaped pmm0) with false in Harr. unfold mapped_frames in Hn0, Hreg. rewrite <- Htot in Hn0, Hreg.
  set (v1 := set_pmm p (sh_vm s)). apply wp_bind, wp_zoom, wp_modify.
  pose proof (pdes_range (total_memory p)) as Hn.
  destruct (init_paging_inv v1) as (pd & Hpd & Hr & [Hd Hf2 _ _ Hc0 Hlo Hm2 Ha2] & Hc3);
    [cbn; unfold is_u32; lia|done|cbn; lia|]. change (vm_pmm v1) with p in Hr, Hf2, Hm2, Ha2.
  assert (Htr : forall va, is_u32 va -> translate (init_paging v1) va =
    if va <? required_pdes (total_memory p) * 0x400000 then Some va else None).
  { intros va Hva. apply (init_paging_translate v1 va); [cbn; unfold is_u32; lia|done|cbn; lia|done]. }
  assert (Hsame : same_low (vm_mem (sh_vm s)) (vm_mem (init_paging v1))).
  { intros a Ha Hlt. apply Hlo; [done|lia]. }
  assert (Hseen : shows_low (sh_vm s) (init_paging v1)).
  { constructor; [done|done|]. intros va Hva. rewrite Htr by (unfold is_u32; lia). by replace (va <? _) with true by lia. }
  pose proof (valid_map_low map_fuel _ _ mbd es Hseen Hlow Hv) as Hv2.
  apply wp_zoom, wp_bind, wp_get. cbv beta. cbn [sh_vm put_vm]. change (set_pmm p (sh_vm s)) with v1.
  destruct (init_pmm_outcome map_fuel (init_paging v1) mbd (vm_pmm (init_paging v1)) es Hv2) as (p2 & Ep & Hfp & Hus); [lia|].
  apply wp_bind, (wp_lift p2); [exact Ep|]. apply wp_put. apply HQ.
  assert (Htb : tables_ok (set_pmm p2 (init_paging v1))).
  { apply (init_paging_tables_ok map_fuel (init_paging v1) mbd v1 es); cbn [vm_pmm v1 set_pmm];
      [lia|done|lia|lia| |done|exact Ep]. intros e He Hue. specialize (Hreg e He Hue). lia. }
  constructor; [exact Htb| | | | |exact Hsame|].
  - split; [|cbn [cr3 page_direc set_pmm]; by rewrite Hc3, Hd]. cbn [cr0 set_pmm]. rewrite Hc0.
    rewrite bit_lor. change (bit 0x80000000 31) with true. apply orb_true_r.
  - intros va Hva. change (translate (set_pmm p2 (init_paging v1)) va) with (translate (init_paging v1) va).
    rewrite Htr by done. unfold mapped_frames. rewrite <- Htot.
    by replace (required_pdes (total_memory p) * 1024 * 4096) with (required_pdes (total_memory p) * 0x400000) by lia.
  - intros f Hf. cbn [vm_pmm set_pmm]. rewrite Hfp. apply Hus. exact Hf.
  - cbn [vm_pmm set_pmm]. apply (init_pmm_in_array map_fuel (init_paging v1) mbd (vm_pmm (init_paging v1)) es p2 Hv2); [| |exact Ep|].
    + apply Ha2; [unfold table_at; lia|exact Harr].
    + unfold kernel_frames. rewrite Hf2. unfold table_at. rewrite u32_small by (unfold is_u32; lia). word.
    + intros e He Hue _. specialize (Hreg e He Hue). lia.
  - cbn [vm_pmm set_pmm]. rewrite Hfp, Hf2. change (vm_pmm v1) with p. apply table_at_page; [done|lia|].
    unfold table_at. lia.
Qed.

(** The kernel still finds what GRUB left. *)
Lemma ready_shows_low v0 v es : bit (cr0 v0) 31 = false -> memory_ready v0 v es -> within_reach es -> shows_low v0 v.
Proof.
  intros Hpg R [Hn _]. constructor; [done|apply R|]. intros va Hva. rewrite (mr_identity _ _ _ R) by (unfold is_u32; lia).
  unfold mapped_frames in *. by replace (va <? _) with true by lia.
Qed.

(** A property of the last events needs only the last step's. *)
Lemma wp_bind_suffix {S A B} (m : M S A) (f : A -> M S B) s (Q : B -> S -> list event -> Prop) :
  (forall o1 b s' o, Q b s' o -> Q b s' (o1 ++ o)) ->
  wp m s (fun a s1 _ => wp (f a) s1 Q) -> wp (m ≫= f) s Q.
Proof.
  intros HQ Hm. apply wp_bind. eapply wp_mono; [exact Hm|]. cbv beta. intros a s1 o1 Hf.
  eapply wp_mono; [exact Hf|]. cbv beta. intros b s2 o2. apply HQ.
Qed.

(** Where the archive is, when GRUB loaded one. *)
Definition module_start (m : mem) (mbd old : Z) : Z :=
  let mb := read_multiboot_info m mbd in
  if bool_decide (mods_count mb > 0) then rd32 m (mods_addr mb) else old.

Lemma setup_files_wp v0 mbd (s : shell D H) Q :
  shows_low v0 (sh_vm s) -> info_low (vm_mem v0) mbd ->
  (forall o, Q tt (put_initrd (module_start (vm_mem v0) mbd (sh_initrd s)) s) o) ->
  wp (setup_files mbd) s Q.
Proof.
  intros R [[Hi0 Hi1] _ Hmods] HQ. unfold setup_files, on_vm, module_start in *. cbv zeta in HQ.
  unfold read_multiboot_info in *. cbn [mods_count mods_addr] in *.
  apply wp_bind, wp_zoom, (reads_wp _ _ (rd32 (vm_mem v0) (mbd + 20))); [apply (ld32_low _ _ _ R); unfold mods_count_offset, mods_addr_offset in *; lia|].
  destruct (decide (rd32 (vm_mem v0) (mbd + 20) > 0)) as [Hc|Hc].
  - rewrite bool_decide_true in HQ |- * by done.
    apply wp_bind, wp_zoom, (reads_wp _ _ (rd32 (vm_mem v0) (mbd + 24))); [apply (ld32_low _ _ _ R); unfold mods_count_offset, mods_addr_offset in *; lia|].
    pose proof (rd32_range (vm_mem v0) (mbd + 24)) as Hu. unfold is_u32 in Hu.
    apply wp_bind, wp_zoom, (reads_wp _ _ (rd32 (vm_mem v0) (rd32 (vm_mem v0) (mbd + 24)))); [apply (ld32_low _ _ _ R); unfold mods_count_offset, mods_addr_offset in *; lia|].
    unfold on_initrd, init_fs. apply wp_zoom, wp_bind, wp_modify, wp_bind, wp_emit, wp_bind, wp_emit, wp_emit.
    destruct s. apply HQ.
  - rewrite bool_decide_false in HQ |- * by done. unfold say_line. apply wp_emit.
    destruct s. apply HQ.
Qed.

Context (isr : Z -> Z) (idt_addr tss_addr stack_top : Z).

(** C1: the kernel boots into a consistent state.  At entry paging is off and the
    allocators' globals are as the image has them; GRUB passed its magic number
    and a well-formed memory map, all below the heap; every usable region of the
    map ends inside the first 1 GiB (what the frame bitmap describes) and inside
    the identity map, whose size is the sum of the lengths of the usable regions
    rounded up to 4 MiB and is not 0; a supported FAT16 volume is on the disk.
    Then kernel_main terminates at its idle loop with interrupts enabled and the
    prompt as its last output.  The identity map is exactly that range; the page
    tables are well formed, in frames marked used, and they and every frame the
    allocator can hand out are mapped to themselves; no store has left the frame
    bitmap; a frame is free exactly when it lies in usable memory beyond
    everything allocated so far; the volume is mounted and the disk unchanged,
    the ready queue is empty, and the RAM disk is the module GRUB loaded. *)
Theorem kernel_boots (m : machine D H) (f0 : fat D) d dk magic mbd es :
  vm_pmm (sh_vm (m_shell m)) = pmm0 -> bit (cr0 (sh_vm (m_shell m))) 31 = false -> magic = MULTIBOOT_MAGIC ->
  info_low (vm_mem (sh_vm (m_shell m))) mbd -> valid_map map_fuel (sh_vm (m_shell m)) mbd es ->
  within_reach es ->
  sh_fat (m_shell m) = set_dev d f0 -> holds d dk -> supported (read_bpb (dk 0)) dev_limit ->
  wp (kernel_main isr idt_addr tss_addr stack_top map_fuel magic mbd) m (fun _ m' o =>
    let s' := m_shell m' in
    m_interrupts m' = true /\
    memory_ready (sh_vm (m_shell m)) (sh_vm s') es /\
    (exists d' v, mount (dk 0) f0 = Done v /\ sh_fat s' = set_dev d' v /\ volume (sh_fat s') /\ holds d' dk) /\
    queue_is (sh_procs s') [] /\ curr_proc (sh_procs s') = 0 /\
    sh_initrd s' = module_start (vm_mem (sh_vm (m_shell m))) mbd (sh_initrd (m_shell m)) /\
    m_gdt m' = gdt_init_tss tss_addr stack_top (m_gdt m) /\
    exists o1, o = o1 ++ [PrintColored (10 :: str "[CIndy-OS]> ") 0x0B]).
Proof.
  intros Hp Hpg Hmagic Hlow Hv Hn Hf Hd Hs. set (Q := fun _ _ _ => _).
  assert (HQ : forall o1 b m' o, Q b m' o -> Q b m' (o1 ++ o)).
  { intros o1 b m' o (A1 & A2 & A3 & A4 & A5 & A6 & A7 & o2 & ->). split_and!; [done..|].
    exists (o1 ++ o2). by rewrite app_assoc. }
  unfold kernel_main. do 3 (apply (wp_bind_suffix _ _ _ _ HQ), wp_emit).
  apply (wp_bind_suffix _ _ _ _ HQ). unfold greet, out, out_line, emit_all.
  apply wp_bind. unfold wp at 1. do 12 (apply wp_bind, wp_emit). apply wp_emit.
  apply (wp_bind_suffix _ _ _ _ HQ), setup_interrupts_wp. intros m1 o1 E1 Ei Eirq Eg.
  apply (wp_bind_suffix _ _ _ _ HQ), wp_zoom. rewrite E1.
  apply (setup_memory_wp magic mbd es); [exact Hp|exact Hpg|done|exact Hlow|exact Hv|exact Hn|]. cbn [put_hw sh_vm]. intros v o2 R.
  apply (wp_bind_suffix _ _ _ _ HQ), wp_modify.
  apply (wp_bind_suffix _ _ _ _ HQ), wp_zoom. cbn [m_shell put_shell put_gdt].
  eapply setup_files_wp; [exact (ready_shows_low _ _ _ Hpg R Hn)|exact Hlow|]. intros o3.
  apply (wp_bind_suffix _ _ _ _ HQ), wp_zoom. cbn [m_shell put_shell put_gdt]. unfold on_fat. apply wp_zoom.
  cbn [put_initrd put_vm put_hw sh_fat]. rewrite Hf. apply (fat16_init_wp f0 d dk); [done|done|]. intros d' o4 V' Hd'.
  apply (wp_bind_suffix _ _ _ _ HQ), wp_zoom. cbn [m_shell put_shell put_gdt]. unfold on_procs. apply wp_zoom, wp_modify.
  unfold start_init_proc, out_line. do 3 (apply (wp_bind_suffix _ _ _ _ HQ), wp_emit). apply wp_emit.
  subst Q. cbn. split_and!; [exact Eirq|exact R| | |done|done|by rewrite Eg|by exists []].
  { exists d', (mounted (dk 0) f0). split_and!; [|done|exact V'|exact Hd']. apply mount_mounted. by rewrite (sp_bps _ _ Hs). }
  constructor; [done|done|constructor].
Qed.
End Boot.

(** ** The keyboard interrupt *)
Section Handler.
Context {D H : Type} {BD : BlockDev D} {PT : Ports H}.
Context (user_mode : Z -> Z -> M (shell D H) unit) (junk : list Z) (tar_chars tar_fuel : nat).

(** a keyboard interrupt takes one scan code from the controller, edits the line as the abstract editor does, echoes it, and acknowledges the interrupt last; nothing else of the machine changes. *)
Theorem keyboard_handler_edits (m : machine D H) e :
  let '(c, h) := inb 0x60 (sh_hw (m_shell m)) in
  holds_line (sh_kb (m_shell m)) e -> decode e c <> Enter ->
  wp (keyboard_handler user_mode junk tar_chars tar_fuel) m (fun f m' o => f = Back /\
    o = snd (edit e (decode e c)) /\
    exists k, holds_line k (fst (edit e (decode e c))) /\
      m' = put_shell (put_hw (outb 0x20 0x20 h) (put_kb k (m_shell m))) m).
Proof.
  destruct (inb 0x60 (sh_hw (m_shell m))) as [c h] eqn:Ec. intros Hk He. unfold keyboard_handler.
  apply wp_bind, wp_get. cbv beta. rewrite Ec. apply wp_bind, wp_zoom, wp_modify. apply wp_bind, wp_zoom.
  apply (key_edits (KB := shell_keyboard) _ e); [exact Hk|exact He|]. intros k Hk'.
  apply wp_bind. unfold port_writes, on_shell. apply wp_zoom, wp_modify, wp_ret. cbn [app]. rewrite ?app_nil_r.
  split; [done|]. split; [done|]. exists k. split; [exact Hk'|]. reflexivity.
Qed.
End Handler.
