(* ===== verification/KernelExamples.v ===== *)
(** * A concrete machine that boots

    One region of memory, the empty RAM disk, and the interrupt chips of
    [DevicesSpec]. *)
From Stdlib Require Import ZArith Lia ZifyBool String.
From stdpp Require Import base numbers list gmap.
From S2P Require Import Prelude Mem Memory MemoryFacts MemorySpec Paging PagingFacts PagingSpec Process ProcessSpec BlockDev Ports Fat16 Fat16Facts Fat16Dir Fat16Spec Fat16Mount Fat16Examples TarFs Descriptors Devices DevicesSpec Elf ElfSpec Keyboard KeyboardSpec Shell ShellExamples Kernel KernelSpec.

(** The stub of vector [v]. *)
Definition demo_isr (v : Z) : Z := 0x100000 + 16 * v.

Definition boot_vm : vm := {| vm_mem := one_region_mem; vm_pmm := pmm0; page_direc := 0; cr3 := 0; cr0 := 1 |}.

Definition idt0 : idt_state := {|
  idt := replicate 256 idt_entry0; idtp := {| idtp_limit := 0; idtp_base := 0 |};
  idtr := {| idtp_limit := 0; idtp_base := 0 |} |}.

Definition gdt0 : gdt_state := {| tss := memset_tss; gdt_tss := replicate 16 0; task_register := 0 |}.

Definition reset_machine : machine ramdisk irq_chips := {|
  m_shell := {| sh_kb := keyboard0; sh_vm := boot_vm; sh_procs := procs0; sh_fat := unmounted empty_disk; sh_initrd := 0;
                sh_ticks := 0; sh_hw := chips0 |};
  m_gdt := gdt0; m_idt := idt0; m_interrupts := false; m_yield_flag := 0 |}.

Lemma idt0_gate v : gate idt0 v = idt_entry0.
Proof.
  unfold gate, idt0. cbn [idt]. destruct (replicate 256 idt_entry0 !! Z.to_nat v) eqn:E; [|done].
  by apply lookup_replicate in E as [-> _].
Qed.

Lemma demo_isr_u32 v : is_u8 v -> is_u32 (demo_isr v).
Proof. unfold is_u8, is_u32, demo_isr. lia. Qed.

Lemma boot_interrupts_witness :
  exists m' o, setup_interrupts (PT := chips_ports) demo_isr 0x110000 reset_machine = Done (tt, m', o) /\
    gate_offset (gate (m_idt m') 14) = 0x1000E0 /\ gate_dpl (gate (m_idt m') 0x80) = 3.
Proof.
  destruct (wp_inv _ _ _ (boot_interrupts (HW := chips_hw) demo_isr 0x110000 reset_machine
    (length_replicate 256 idt_entry0) idt0_gate demo_isr_u32)) as ([] & m' & o & E & _ & _ & _ & _ & He & Hs & _).
  exists m', o. split; [exact E|]. split; [exact (gr_offset _ _ _ _ (He 14 ltac:(lia)))|exact (gr_dpl _ _ _ _ Hs)].
Defined.

Lemma one_region_low : info_low one_region_mem 64.
Proof. constructor; [split|..]; vm_compute; congruence. Qed.

Lemma boot_map : valid_map 2 boot_vm 64 [one_region].
Proof.
  exists 0x40, 16, 24. split_and!; try reflexivity; [|cbn; lia].
  split; [reflexivity|]. split; [|vm_compute; discriminate].
  split; [exact (wf_read_entry one_region_mem 16)|]. split_and!; reflexivity.
Qed.

Lemma one_region_reach : within_reach [one_region].
Proof. split; [reflexivity|]. intros e He _. apply list_elem_of_singleton in He as ->. vm_compute. discriminate. Qed.

Lemma kernel_boots_witness :
  exists m' o, kernel_main (PT := chips_ports) demo_isr 0x110000 0x120000 0x130000 2 MULTIBOOT_MAGIC 64 reset_machine
      = Done (tt, m', o) /\
    translate (sh_vm (m_shell m')) 0x123456 = Some 0x123456 /\ translate (sh_vm (m_shell m')) 0x400000 = None /\
    bitmap_escaped (vm_pmm (sh_vm (m_shell m'))) = false /\
    curr_proc (sh_procs (m_shell m')) = 0.
Proof.
  destruct (wp_inv _ _ _ (kernel_boots (PT := chips_ports) 2 demo_isr 0x110000 0x120000 0x130000 reset_machine
    (unmounted empty_disk) empty_disk (rd_sector empty_disk) MULTIBOOT_MAGIC 64 [one_region]
    eq_refl eq_refl eq_refl one_region_low boot_map one_region_reach eq_refl empty_holds boot_supported))
    as ([] & m' & o & E & _ & R & _ & _ & Hc & _).
  exists m', o. split; [exact E|]. split_and!; [| |exact (mr_array _ _ _ R)|exact Hc].
  - rewrite (mr_identity _ _ _ R) by (vm_compute; split; congruence). reflexivity.
  - rewrite (mr_identity _ _ _ R) by (vm_compute; split; congruence). reflexivity.
Defined.

(** The scan code 0x1E is the key A. *)
#[local] Instance key_ports : Ports unit := {
  in_al _ h := (0x1E, h); out_al _ _ h := h; in_ax _ h := (0, h); out_ax _ _ h := h }.

Definition typing_machine : machine ramdisk unit := {|
  m_shell := demo_shell boot_vm (unmounted empty_disk); m_gdt := gdt0; m_idt := idt0; m_interrupts := true; m_yield_flag := 0 |}.

Lemma keyboard_handler_edits_witness :
  exists m', keyboard_handler hello_program stack_junk 100 100 typing_machine = Done (Back, m', [Print (str "a")]) /\
    buffer_index (sh_kb (m_shell m')) = 1.
Proof.
  destruct (wp_inv _ _ _ (keyboard_handler_edits (PT := key_ports) hello_program stack_junk 100 100 typing_machine editor0
    keyboard0_line ltac:(vm_compute; discriminate))) as (f & m' & o & E & -> & -> & k & Hk & ->).
  eexists. split; [exact E|]. exact (hl_index _ _ Hk).
Defined.
