(* ===== verification/SpawnSpec.v ===== *)
(** * Creating a process

    What task_create_from_elf's last step leaves for the scheduler, and which
    process spawn then enters. *)
From Stdlib Require Import ZArith Lia ZifyBool String.
From stdpp Require Import base numbers list gmap.
From S2P Require Import Prelude Mem Memory MemoryFacts MemorySpec Paging PagingSpec Process ProcessSpec Syscall BlockDev Ports Fat16 Fat16Examples TarFs Elf ElfSpec Keyboard KeyboardSpec Shell ShellExamples.

Lemma deref_enqueue_other s p q : q <> p -> same_but_next (deref (proc_enqueue p s) q) (deref s q).
Proof.
  intros Hne. unfold proc_enqueue. case_bool_decide; [done|]. rewrite (queue_push_same _ _ q).
  by rewrite deref_update_ne.
Qed.

Lemma deref_enqueue_self s p : p <> 0 -> same_but_next (deref (proc_enqueue p s) p) (set_state PROC_READY (deref s p)).
Proof. intros Hp. unfold proc_enqueue. rewrite bool_decide_false by done. rewrite (queue_push_same _ _ p). by rewrite deref_update_eq. Qed.

Lemma next_pid_push p s : next_pid (queue_push p s) = next_pid s.
Proof. unfold queue_push. by repeat case_bool_decide. Qed.

Lemma next_pid_enqueue p s : next_pid (proc_enqueue p s) = next_pid s.
Proof. unfold proc_enqueue. case_bool_decide; [done|]. by rewrite next_pid_push. Qed.

(** Filling in a structure that is in no queue. *)
Lemma sched_rel_new s a p n q :
  sched_rel s a -> p ∉ order a -> sched_rel (set_next_pid n (update p (fun _ => q) s)) a.
Proof.
  intros [Hq Hc Hnd Hnz Hr Hrun] Hp. unfold order in *. rewrite elem_of_app in Hp.
  assert (Hd : forall x, x <> p -> deref (set_next_pid n (update p (fun _ => q) s)) x = deref s x).
  { intros x Hx. change (deref (set_next_pid n ?t) x) with (deref t x). by apply deref_update_ne. }
  constructor; [|done|done|done| |].
  - destruct Hq as [Hl Ht Hn]. constructor; [|done|done].
    apply (linked_ext s); [|exact Hl]. intros x Hx. rewrite Hd; [done|]. intros ->. tauto.
  - intros x Hx. rewrite Hd by (intros ->; tauto). by apply Hr.
  - intros x Hx. rewrite Hd; [by apply Hrun|]. intros ->. apply Hp. left. rewrite Hx. by apply list_elem_of_here.
Qed.

(** The fields of a structure that differs from a filled-in one by its link. *)
Lemma filled_in q n entry_ :
  same_but_next q (set_state PROC_READY (new_process n entry_)) ->
  pid q = n /\ state q = PROC_READY /\ p_entry q = entry_ /\ esp q = 0x80000FFC /\ user_stack_top q = 0x80000FFC /\
  p_regs q = regs0 /\ saved_eip q = 0 /\ kernel_stack q = 0 /\ page_dir q = 0 /\
  fds q = replicate 8 {| fd_type := FD_TYPE_NONE; fd_name8 := replicate 9 0; fd_ext3 := replicate 4 0; fd_offset := 0 |}.
Proof.
  destruct q. intros E. injection E as -> -> -> -> -> -> -> -> -> ->. by split_and!.
Qed.

Section Spawn.
Context {D H : Type} {BD : BlockDev D} {PT : Ports H}.
Context (user_mode : Z -> Z -> M (shell D H) unit).

(** C20: a created process is ready to run.  When the allocator gives an address
    that is not 0 and belongs to no process the scheduler knows, and the
    structure's bytes can be written, task_create_from_elf's last part prints the
    creation line and returns 0 with the next process number; the process has
    that number, the program's entry point, both stack fields 0x80000FFC, every
    register, the saved return address, the kernel stack and the page directory
    0 and eight closed descriptors; it is READY behind every process already waiting; of the
    other processes nothing changes but, for the one that was last, the link to
    it. *)
Theorem create_process_spec entry_ (s : shell D H) a p pm :
  sched_rel (sh_procs s) a -> kmalloc_a sizeof_process (vm_pmm (sh_vm s)) = (p, pm) -> p <> 0 -> p ∉ order a ->
  (exists v, CString.memset p 0 sizeof_process (set_pmm pm (sh_vm s)) = Done v) ->
  wp (create_process entry_) s (fun r s' o =>
    let n := next_pid (sh_procs s) in
    let proc := deref (sh_procs s') p in
    r = (0, n) /\ next_pid (sh_procs s') = u32 (n + 1) /\
    o = [Print (str "[process] created pid="); PrintInt (i32 n); Print (str " entry=0x"); PrintHex entry_;
         Print (str " state=READY" ++ [10])] /\
    sched_rel (sh_procs s') {| running := running a; ready := ready a ++ [p] |} /\
    (pid proc = n /\ state proc = PROC_READY /\ p_entry proc = entry_ /\
     esp proc = 0x80000FFC /\ user_stack_top proc = 0x80000FFC /\
     p_regs proc = {| r_edi := 0; r_esi := 0; r_ebp := 0; r_esp := 0; r_ebx := 0; r_edx := 0; r_ecx := 0; r_eax := 0 |} /\
     saved_eip proc = 0 /\ kernel_stack proc = 0 /\ page_dir proc = 0 /\
     fds proc = replicate 8 {| fd_type := FD_TYPE_NONE; fd_name8 := replicate 9 0; fd_ext3 := replicate 4 0; fd_offset := 0 |}) /\
    forall q, q <> p -> same_but_next (deref (sh_procs s') q) (deref (sh_procs s) q)).
Proof.
  intros Hrel Hk Hp Hin (v & Hv). unfold create_process. apply wp_bind, wp_zoom. unfold vm_kmalloc_a.
  apply wp_bind, wp_get. cbv beta. rewrite Hk. apply wp_bind, wp_put, wp_ret. rewrite bool_decide_false by done.
  apply wp_bind, wp_zoom. unfold stores. apply wp_bind, wp_get. cbv beta. apply wp_bind, (wp_lift v); [exact Hv|]. apply wp_put.
  apply wp_bind, wp_get. cbv beta zeta. cbn [sh_procs put_vm]. set (n := next_pid (sh_procs s)).
  apply wp_bind, wp_zoom, wp_modify, wp_bind, wp_zoom, wp_modify. unfold say, say_line.
  do 5 (apply wp_bind, wp_emit). apply wp_ret. cbn [sh_procs put_vm put_procs].
  set (s1 := set_next_pid (n + 1) (update p (fun _ => new_process n entry_) (sh_procs s))).
  assert (Hd : forall x, deref s1 x = if decide (x = p) then new_process n entry_ else deref (sh_procs s) x).
  { intros x. unfold s1. change (deref (set_next_pid ?k ?t) x) with (deref t x). by rewrite deref_update. }
  split; [done|]. split; [by rewrite next_pid_enqueue|]. split; [done|]. split; [|split].
  - apply (proc_enqueue_rel _ a); [by apply sched_rel_new|done|done].
  - apply filled_in. rewrite (deref_enqueue_self s1 p Hp), Hd. by rewrite decide_True.
  - intros q Hq. rewrite (deref_enqueue_other s1 p q Hq), Hd. by rewrite decide_False.
Qed.

(** spawn enters the process that has waited longest, which is the new one only when none was waiting. *)
Theorem spawn_enters_oldest x rest n a q l (s : shell D H) out Q :
  ready a = q :: l ->
  wp (task_create_from_elf x) s (fun r s1 o => r = (0, n) /\ sched_rel (sh_procs s1) a /\ o = out) ->
  (forall s2, sched_rel (sh_procs s2) {| running := Some q; ready := l |} ->
     wp (user_mode (user_stack_top (deref (sh_procs s2) q)) (p_entry (deref (sh_procs s2) q))) s2 (fun _ s3 o =>
       Q tt s3 (out ++ [Print (str "spawn: pid="); PrintInt (i32 n); Print (str " created, running..." ++ [10])]
                ++ o ++ [Print (str "spawn: process exited." ++ [10])]))) ->
  wp (cmd_spawn user_mode (x :: rest)) s Q.
Proof.
  intros Hready Hcreate Hrun. cbn [cmd_spawn]. apply wp_bind. eapply wp_mono; [exact Hcreate|]. cbv beta.
  intros r s1 o (-> & Hrel & ->). rewrite bool_decide_false by lia. unfold say, say_line.
  do 3 (apply wp_bind, wp_emit). apply wp_bind, wp_zoom, wp_bind, wp_get. cbv beta.
  destruct a as [ra rd]. cbn [ready] in Hready. subst rd.
  destruct (proc_dequeue_rel _ _ Hrel) as [Hf Hs]. destruct (proc_dequeue (sh_procs s1)) as [p q2]. cbn [fst snd sched_dequeue ready default] in Hf, Hs.
  subst p. apply wp_bind, wp_put, wp_ret.
  assert (Hq : q <> 0) by (apply (sr_nonzero _ _ Hs); unfold order; cbn [running option_list]; by apply list_elem_of_here).
  rewrite bool_decide_false by done. apply wp_bind, wp_get. cbv beta. cbn [sh_procs put_procs].
  apply wp_bind. eapply wp_mono; [by apply (Hrun (put_procs q2 s1))|]. cbv beta. intros _ s3 o3 HQ.
  apply wp_emit. cbn [app]. by rewrite <- ?app_assoc.
Qed.
End Spawn.

(** ** The first process *)
Lemma memset_unpaged n p val (t : vm) : bit (cr0 t) 31 = false -> exists v, CString.memset_loop n p val t = Done v.
Proof.
  revert p t. induction n as [|n IH]; intros p t Ht; cbn [CString.memset_loop]; [by eexists|].
  unfold st8. cbn [vm_space]. unfold translate. rewrite Ht. cbn [mbind outcome_bind]. by apply IH.
Qed.

Definition unpaged_vm : vm := {| vm_mem := ∅; vm_pmm := pmm0; page_direc := 0; cr3 := 0; cr0 := 0 |}.

Lemma create_process_spec_witness :
  exists s' o, create_process 0x08048000 (demo_shell unpaged_vm s0) = Done ((0, 1), s', o) /\
    ready_head (sh_procs s') = 0x200000 /\ pid (deref (sh_procs s') 0x200000) = 1 /\
    esp (deref (sh_procs s') 0x200000) = 0x80000FFC.
Proof.
  destruct (wp_inv _ _ _ (create_process_spec 0x08048000 (demo_shell unpaged_vm s0)
    {| running := None; ready := [] |} 0x200000 (snd (kmalloc_a sizeof_process pmm0)) (sched_rel_init procs0)
    ltac:(vm_compute; reflexivity) ltac:(discriminate) ltac:(apply not_elem_of_nil) (memset_unpaged (Z.to_nat sizeof_process) 0x200000 0 (set_pmm (snd (kmalloc_a sizeof_process pmm0)) unpaged_vm) eq_refl)))
    as (r & s' & o & E & -> & _ & _ & Hrel & (Hpid & _ & _ & Hesp & _) & _).
  exists s', o. split; [exact E|]. split; [|split].
  - pose proof (q_linked _ _ (sr_queue _ _ Hrel)) as Hl. cbn in Hl. apply Hl.
  - exact Hpid.
  - exact Hesp.
Defined.

