(* ===== verification/FirstSpawn.v ===== *)
(** * The first process spawned after booting

    [task_create_from_elf] in the state [kernel_main] leaves: the structure of
    the new process is allocated on the frame the program was just loaded to. *)
From Stdlib Require Import ZArith Lia ZifyBool String.
From stdpp Require Import base numbers list gmap.
From S2P Require Import Prelude Mem Memory MemoryFacts MemorySpec Paging PagingFacts PagingSpec Process Syscall BlockDev Ports Fat16 Fat16Facts Fat16Dir Fat16Spec Fat16Mount Fat16Examples TarFs UserMem Elf ElfSpec Keyboard KeyboardSpec Shell ShellSpec ShellFiles RunSpec ShellExamples Kernel KernelSpec KernelExamples.

(** ** A structure laid over a mapped page *)

(** Clearing [n] bytes at [p], mapped to itself, clears them in every page
    that is mapped to the same frame. *)
Lemma memset_alias (t : vm) R q p n :
  cells R t -> is_page p -> 0 <= n <= 4096 -> p + n <= 0x100000000 ->
  (forall a, p <= a < p + n -> is_u32 a /\ translate t a = Some a) ->
  R (q * 4096) -> is_u32 (q * 4096) -> translate t (q * 4096) = Some p ->
  exists t', CString.memset p 0 n t = Done t' /\ forall i, 0 <= i < n -> vread t' (q * 4096 + i) = 0.
Proof.
  intros C [Hp Hpm] Hn Hpn Hid HR Hq Eq. destruct (c_dom R t C _ HR) as (_ & pa & E & _ & Hus & Hnt).
  rewrite Eq in E. injection E as <-.
  assert (Hfr : forall a, p <= a < p + n -> a / 4096 = p / 4096) by (intros; word).
  assert (C2 : cells (fun a => p <= a < p + n) t).
  { constructor; [apply C|apply C| |].
    - intros a Ha. destruct (Hid a Ha) as [Hu E]. split; [done|]. exists a. by rewrite Hfr.
    - intros a b Ha Hb. destruct (Hid a Ha) as [_ ->], (Hid b Hb) as [_ ->]. by intros [=]. }
  destruct (memset_cells _ t C2 p 0 n) as (t' & Et & C' & [_ Hpte] & Hin & _); [lia|lia|lia|done|].
  exists t'. split; [exact Et|]. intros i Hi. transitivity (vread t' (p + i)); [|by rewrite Hin by lia].
  assert (Hqi : is_u32 (q * 4096 + i)) by (unfold is_u32 in *; word).
  assert (Htr : forall a, is_u32 a -> translate t' a = translate t a).
  { intros a Ha. rewrite (translate_pte t'), (translate_pte t); [by rewrite Hpte|apply C|apply (c_tables _ _ C)|apply C'|apply (c_tables _ _ C')]. }
  unfold vread. destruct (Hid (p + i)) as [Hu Ei]; [lia|]. rewrite !Htr, Ei by done.
  assert (Hw : forall a, translate t a = if present (pte_entry t a) then Some (table_of (pte_entry t a) + a mod 4096) else None).
  { intros a. apply translate_pte; [apply C|apply (c_tables _ _ C)]. }
  rewrite Hw in Eq |- *.
  rewrite (pte_entry_page t (q * 4096 + i) (q * 4096)) by word.
  destruct (present (pte_entry t (q * 4096))); [|done]. injection Eq as Eq.
  replace (table_of (pte_entry t (q * 4096)) + (q * 4096 + i) mod 4096) with (p + i) by word. done.
Qed.

(** ** task_create_from_elf *)
Section Create.
Context {D H : Type} {BD : BlockDev D} {PT : Ports H}.

(** The bytes of the structure that creating a process leaves 0: the registers,
    the saved instruction pointer, the pointers and the descriptors. *)
Definition cleared (t : vm) (q : Z) : Prop := forall i, 20 <= i < sizeof_process -> vread t (q * 4096 + i) = 0.

Lemma create_process_overwrites R p q entry_ (s : shell D H) :
  cells R (sh_vm s) -> is_page p -> p <> 0 -> free_mem_addr (vm_pmm (sh_vm s)) = p -> p + 8192 <= 0xFFFFF000 ->
  (forall a, p <= a < p + sizeof_process -> is_u32 a /\ translate (sh_vm s) a = Some a) ->
  R (q * 4096) -> is_u32 (q * 4096) -> translate (sh_vm s) (q * 4096) = Some p ->
  wp (create_process entry_) s (fun r s' _ => fst r = 0 /\ cleared (sh_vm s') q).
Proof.
  intros C Hp Hp0 Hfree Hhi Hid HR Hq Eq. unfold create_process. apply wp_bind, wp_zoom. unfold vm_kmalloc_a.
  apply wp_bind, wp_get. cbv beta. pose proof (kmalloc_a_cases sizeof_process (vm_pmm (sh_vm s))) as Hk.
  pose proof (kmalloc_a_max sizeof_process (vm_pmm (sh_vm s))) as Hmx.
  destruct (kmalloc_a sizeof_process (vm_pmm (sh_vm s))) as [p' pm]. destruct Hk as (Hm & Hr & _ & _ & _ & Hus).
  { rewrite Hfree. unfold is_page, is_u32 in *. lia. } { vm_compute. reflexivity. } { rewrite Hfree. change sizeof_process with 260. lia. }
  assert (p' = p) as -> by (rewrite Hfree in Hr; destruct Hp as [_ Hpm]; word).
  apply wp_bind, wp_put, wp_ret. rewrite bool_decide_false by done. cbn [app].
  destruct (memset_alias (set_pmm pm (sh_vm s)) R q p sizeof_process) as (t' & Et & Hz);
    [|done|change sizeof_process with 260; lia|change sizeof_process with 260; lia|exact Hid|done|done|done|].
  { apply cells_set_pmm; [|exact Hmx|exact C]. intros g Hg. apply Hus. by right. }
  apply wp_bind, wp_zoom. unfold stores. apply wp_bind, wp_get. cbv beta. apply wp_bind, (wp_lift t'); [exact Et|]. apply wp_put.
  apply wp_bind, wp_get. cbv beta zeta. apply wp_bind, wp_zoom, wp_modify, wp_bind, wp_zoom, wp_modify. unfold say, say_line.
  do 5 (apply wp_bind, wp_emit). apply wp_ret. split; [done|]. intros i Hi. apply Hz. lia.
Qed.
End Create.

Section Task.
Context {D H : Type} `{BlockDevSpec D} {PT : Ports H}.

(** A program with a loadable segment covers a page. *)
Lemma page_of_first img : valid_elf img -> segments img <> [] -> exists p, page_of (segments img) p.
Proof.
  intros V Hne. destruct (segments img) as [|sg l] eqn:E; [done|]. exists (sg_first sg), sg. split; [by left|].
  assert (Hsg : sg ∈ segments img) by (rewrite E; by left). unfold segments, phdrs in Hsg.
  apply list_elem_of_filter in Hsg as [[_ Hm] Hsg]. apply list_elem_of_fmap in Hsg as (k & Ek & _).
  pose proof (get32_u32 img (phdr_offset img k + p_memsz) (ve_bytes _ V)) as Hu.
  assert (Hs : 0 < sg_msz sg) by (rewrite Ek in Hm |- *; cbn [sg_msz seg_at] in *; unfold is_u32 in Hu; lia).
  unfold sg_first, sg_stop. word.
Qed.

(** A loaded page, the stack in place, and the translations of the pages not
    touched by either. *)
Lemma loaded_first s0 buf img ps t :
  loading s0 buf img ps t -> ps <> [] -> is_page (fst (pmm_alloc_block (vm_pmm s0))) ->
  exists q, q ∈ ps /\ is_u32 (q * 4096) /\ translate t (q * 4096) = Some (fst (pmm_alloc_block (vm_pmm s0))).
Proof.
  intros L Hne Hp. destruct (ld_first _ _ _ _ _ L) as [_ Hf]. destruct (Hf Hne) as (q & Hin & Hq & E).
  pose proof (ld_cells _ _ _ _ _ L) as C. assert (Hu : is_u32 (q * 4096)) by (unfold is_u32; lia).
  exists q. split_and!; [done|done|]. rewrite translate_pte by (apply C || apply (c_tables _ _ C)).
  rewrite E, present_lor, table_of_flags by (done || lia). f_equal. rewrite Z.mod_mul; lia.
Qed.

Lemma loaded_rest s0 buf img ps t a :
  mmu_on s0 -> is_page (page_direc s0) -> loading s0 buf img ps t -> is_u32 a -> translate s0 a = Some a -> translate t a = Some a.
Proof.
  intros Hm Hd L Ha E. pose proof (ld_cells _ _ _ _ _ L) as C. rewrite <- E.
  rewrite (translate_pte s0) in E by done. rewrite (translate_pte s0) by done.
  rewrite (translate_pte t) by (apply C || apply (c_tables _ _ C)).
  rewrite (ld_rest _ _ _ _ _ L); [done|done|]. intros Hin. by rewrite (ld_fresh _ _ _ _ _ L) in E.
Qed.

Lemma task_create_overwrites x n8 e3 img buf pm (s : shell D H) :
  fat16_format_83 x = (n8, e3) -> kmalloc_a 4096 (vm_pmm (sh_vm s)) = (buf, pm) ->
  page_buffer (set_pmm pm (sh_vm s)) buf -> runnable (set_pmm pm (sh_vm s)) img pm ->
  wp (fat16_read_file n8 e3 4096) (sh_fat s) (fun r _ o => o = [] /\ r = (Z.of_nat (length img), img)) ->
  segments img <> [] -> is_page buf -> buf + 0x3000 <= 0xFFFFF000 ->
  fst (pmm_alloc_block pm) = buf + 4096 -> free_mem_addr pm = buf + 4096 ->
  (forall a, buf + 4096 <= a < buf + 8192 -> translate (sh_vm s) a = Some a) ->
  wp (task_create_from_elf x) s (fun r s' _ => fst r = 0 /\ exists q, page_of (segments img) q /\ cleared (sh_vm s') q).
Proof.
  intros Ex Ek B R Hread Hsegs Hbp Hhi Hfirst Hheap Hid. unfold task_create_from_elf. rewrite Ex.
  apply wp_bind, wp_zoom. unfold vm_kmalloc_a. apply wp_bind, wp_get. cbv beta. rewrite Ek. apply wp_bind, wp_put, wp_ret. cbn [app].
  destruct (pb_range _ _ B) as [Hb0 Hb1]. rewrite bool_decide_false by lia.
  pose proof (ru_valid _ _ _ R) as V. pose proof (ve_header _ V) as Hhd. apply wp_bind.
  apply (read_into_wp n8 e3 img); [exact B|apply V|apply R|exact Hread|]. intros f t B1 Hsm.
  cbn [sh_vm put_vm] in Hsm. rewrite !bool_decide_false by lia.
  assert (R2 : runnable t img (vm_pmm t)) by (eapply runnable_same; [exact Hsm|exact R]).
  destruct R2 as [_ Hsz Hrdy [Hst Hnst] He]. pose proof (loading_start _ _ _ B1) as L0.
  apply wp_bind, wp_zoom. cbn [sh_vm put_vm put_fat]. apply (reads_wp _ _ true).
  { rewrite <- (Z.add_0_r buf), (starts_with_ok t buf img [] t elf_magic 0); [by rewrite (ve_magic _ V)|done|done|lia|].
    unfold elf_magic. cbn [length]. lia. }
  cbn [negb]. apply wp_bind, wp_zoom. cbn [sh_vm put_vm put_fat]. rewrite u32_small by (unfold is_u32; lia).
  apply (load_elf_ok t buf img 0 2); [done|done|done|done|].
  intros ps t1 L1 Hps _ [Hne He1]. rewrite bool_decide_false by lia.
  apply wp_bind, wp_zoom. unfold vm_alloc_block. apply wp_bind, wp_get. cbv beta. cbn [sh_vm put_vm put_fat].
  destruct (pmm_alloc_block (vm_pmm t1)) as [pa p1] eqn:Ea. cbn [fst snd] in Hne, He1.
  apply wp_bind, wp_put, wp_ret. rewrite bool_decide_false by done. cbn [app].
  apply wp_bind, wp_zoom. cbn [sh_vm put_vm put_fat].
  eapply wp_mono; [by apply (user_stack_ok t buf img 0 ps t1 pa p1); [| |rewrite Hps| | | |]|]. cbv beta. intros _ t2 o (-> & Hset).
  apply wp_bind, wp_zoom. cbn [sh_vm put_vm put_fat]. eapply wp_mono; [exact Hset|]. cbv beta. intros _ t3 o (-> & L3 & _ & _ & Hpte).
  pose proof (ld_cells _ _ _ _ _ L1) as C1. pose proof (ld_cells _ _ _ _ _ L3) as C3.
  assert (Hpm : vm_pmm t = pm) by (destruct Hsm as [-> _]; done).
  assert (Hbp2 : is_page (buf + 4096)) by (unfold is_page in *; split; [lia|word]).
  destruct (loaded_first _ _ _ _ _ L1) as (q & Hq & Hqu & Eq).
  { destruct (page_of_first img V Hsegs) as (p & Hp). intros ->. by apply Hps, not_elem_of_nil in Hp. }
  { by rewrite Hpm, Hfirst. }
  rewrite Hpm, Hfirst in Eq. assert (Hqs : q <> stack_page) by (intros ->; by apply Hnst, Hps).
  assert (Hqq : q * 4096 / 4096 = q) by (apply Z.div_mul; lia).
  eapply wp_mono; [apply (create_process_overwrites (dom buf img (stack_page :: ps)) (buf + 4096) q)|];
    cbn [sh_vm put_vm put_fat]; [exact C3|done|lia| |lia| | |done| |].
  - rewrite (ld_heap _ _ _ _ _ L3), Hpm. done.
  - intros a Ha. change sizeof_process with 260 in Ha. assert (Hu : is_u32 a) by (unfold is_u32; lia). split; [done|].
    apply (loaded_rest t buf img (stack_page :: ps)); [apply (bo_cells _ _ _ B1)|apply (c_tables _ _ (bo_cells _ _ _ B1))|done|done|].
    pose proof (pb_cells _ _ B) as Cb. rewrite <- (Hid a) by lia. change (translate (sh_vm s) a) with (translate (set_pmm pm (sh_vm s)) a).
    rewrite (translate_pte t), (translate_pte (set_pmm pm (sh_vm s)));
      [by destruct Hsm as [_ ->]|apply Cb|apply (c_tables _ _ Cb)|apply (bo_cells _ _ _ B1)|apply (c_tables _ _ (bo_cells _ _ _ B1))].
  - right. split; [done|]. rewrite Hqq. by right.
  - rewrite <- Eq, (translate_pte t3), (translate_pte t1);
      [|apply C1|apply (c_tables _ _ C1)|apply C3|apply (c_tables _ _ C3)]. rewrite Hpte; [done|done|by rewrite Hqq].
  - cbv beta. intros r s' o (Hr & Hc). split; [done|]. exists q. split; [by apply Hps|done].
Qed.
End Task.

(** ** After booting *)
Definition usable_frame (es : list multiboot_mmap_entry) (f : Z) : Prop :=
  exists e, e ∈ es /\ usable e /\ first_frame e <= f < first_frame e + num_frames e.

(** The first page the heap gives out after booting, and the allocator then. *)
Lemma first_buffer v0 v es f :
  memory_ready v0 v es -> free_mem_addr (vm_pmm v) = f * 4096 -> 0 < f -> tracked (f + 1) ->
  usable_frame es f -> usable_frame es (f + 1) -> f + 2 <= mapped_frames es ->
  exists pm, kmalloc_a 4096 (vm_pmm v) = (f * 4096, pm) /\ page_buffer (set_pmm pm v) (f * 4096) /\
    free_mem_addr pm = (f + 1) * 4096 /\
    (fst (pmm_alloc_block pm) <> 0 -> fst (pmm_alloc_block pm) = (f + 1) * 4096).
Proof.
  intros M Hh Hf0 Ht Hu0 Hu1 Hlim. unfold tracked in Ht.
  pose proof (kmalloc_a_cases 4096 (vm_pmm v)) as Hk. pose proof (kmalloc_a_max 4096 (vm_pmm v)) as Hmx. destruct (kmalloc_a 4096 (vm_pmm v)) as [buf pm].
  destruct Hk as (Hm & Hr & Hfree & _ & _ & Hus); [rewrite Hh; unfold is_u32; lia|lia|rewrite Hh; lia|].
  assert (buf = f * 4096) as -> by (rewrite Hh in Hr; word). exists pm. split; [done|].
  assert (Hfr : forall g, tracked g -> used (vm_pmm v) g = false <-> g <> 0 /\ f <= g /\ usable_frame es g).
  { intros g Hg. rewrite (mr_frames _ _ _ M g Hg), Hh, u32_small by (unfold is_u32; lia).
    replace ((f * 4096 + 4095) / 4096) with f by word. done. }
  assert (Hov : forall g, overlaps (f * 4096) 4096 g <-> g = f) by (intros g; unfold overlaps; word).
  assert (Hff : used (vm_pmm v) f = false) by (apply Hfr; [unfold tracked; lia|]; split_and!; [lia|lia|done]).
  split; [|split; [lia|]].
  - constructor; [lia|].
    assert (Hid : forall a, f * 4096 <= a < f * 4096 + 4096 -> is_u32 a /\ translate v a = Some a /\ a / 4096 = f).
    { intros a Ha. assert (Hu : is_u32 a) by (unfold is_u32; lia). rewrite (mr_identity _ _ _ M a Hu).
      replace (a <? _) with true by lia. split_and!; [done|done|word]. }
    constructor; [apply tables_ok_set_pmm; [apply M|intros g Hg; apply Hus; by right|exact Hmx]|apply M| |].
    + intros a Ha. destruct (Hid a Ha) as (Hu & E & Hfa). split; [done|]. exists a. rewrite Hfa. split_and!; [done|done| |].
      * apply Hus. left. by apply Hov.
      * change (~ table_frame v f). intros Htf%table_frame_used; [congruence|apply M].
    + intros a b Ha Hb. destruct (Hid a Ha) as (_ & E1 & _), (Hid b Hb) as (_ & E2 & _).
      change (translate v a = translate v b -> a = b). rewrite E1, E2. by intros [=].
  - intros Hne. pose proof (alloc_block_cases pm) as Ha. destruct (pmm_alloc_block pm) as [pa p]. cbn [fst snd] in *.
    destruct Ha as [(g & -> & Hg & _ & Hgf & Hlow & _)|(-> & _)]; [|done].
    assert (Hn1 : used pm (f + 1) = false).
    { destruct (used pm (f + 1)) eqn:E; [|done]. apply Hus in E as [E|E]; [apply Hov in E; lia|].
      rewrite (proj2 (Hfr (f + 1) ltac:(done))) in E; [done|]. split_and!; [lia|lia|done]. }
    assert (Hgv : used (vm_pmm v) g = false).
    { destruct (used (vm_pmm v) g) eqn:E; [|done]. assert (used pm g = true) by (apply Hus; by right). congruence. }
    destruct (proj1 (Hfr g Hg) Hgv) as (_ & Hge & _).
    assert (g <> f). { intros ->. assert (used pm f = true) by (apply Hus; left; by apply Hov). congruence. }
    destruct (decide (f + 1 < g)) as [Hlt|]; [|f_equal; lia]. rewrite Hlow in Hn1 by lia. done.
Qed.

Section Boot.
Context {D H : Type} `{BlockDevSpec D} {PT : Ports H}.

(** C3: the first spawn after booting destroys the program it has just loaded.
    In the state the boot sequence leaves (so with the frame [f] at the heap's
    end and the frame behind it usable, the identity map reaching over both but
    not above 2 GB), take a well-formed executable of at most 4096 bytes, with
    at least one loadable segment, on a consistent volume, such that no page of
    its segments is mapped yet (they lie above the identity map), none is the
    stack page, and the allocator has a frame and a page table for every page to
    come.  Then task_create_from_elf reports success, but the structure of the
    new process lies in the frame of a page of the program: bytes 20 to 259 of
    that page, whatever the file holds for them, have become 0.  (Where the
    segments are already identity mapped, the loader takes no frame and the
    statement says nothing.) *)
Theorem first_spawn_overwrites (v : fat D) (V : volume v) d dk (s : shell D H) v0 es f x n8 e3 ent cs img :
  memory_ready v0 (sh_vm s) es -> free_mem_addr (vm_pmm (sh_vm s)) = f * 4096 -> 0 < f -> tracked (f + 1) ->
  usable_frame es f -> usable_frame es (f + 1) -> f + 2 <= mapped_frames es <= 0x80000 ->
  sh_fat s = set_dev d v -> holds d dk -> fat16_format_83 x = (n8, e3) ->
  dir_find v dk n8 e3 = Some ent -> file_at v dk ent cs -> file_size ent = Z.of_nat (length img) ->
  img = take (length img) (file_bytes v dk cs) -> valid_elf img -> (length img <= 4096)%nat ->
  segments img <> [] -> Forall (seg_ready (sh_vm s) img) (segments img) -> ~ page_of (segments img) stack_page ->
  enough (2 * sum_list (pages_of <$> phdrs img) + 2) (snd (kmalloc_a 4096 (vm_pmm (sh_vm s)))) ->
  wp (task_create_from_elf x) s (fun r s' _ =>
    fst r = 0 /\ exists q, page_of (segments img) q /\ forall i, 20 <= i < 260 -> vread (sh_vm s') (q * 4096 + i) = 0).
Proof.
  intros M Hh Hf0 Ht Hu0 Hu1 [Hlo Hhi] Hfs Hd Ex Hfind Hat Hsz Himg Vi Hlen Hne Hrdy Hstk He.
  destruct (first_buffer _ _ _ _ M Hh Hf0 Ht Hu0 Hu1 Hlo) as (pm & Ek & B & Hheap & Hfirst). rewrite Ek in He. cbn [snd] in He.
  assert (Hpos : fst (pmm_alloc_block pm) <> 0) by (rewrite Nat.add_succ_r in He; apply He).
  unfold tracked in Ht.
  apply (task_create_overwrites x n8 e3 img (f * 4096) pm); [done|done|done| | |done| |lia| |lia|].
  - constructor; [done|done| | |done].
    + apply Forall_forall. intros sg Hsg. rewrite Forall_forall in Hrdy. exact (Hrdy sg Hsg).
    + split; [|done]. pose proof (mr_identity _ _ _ M 0x80000000) as E. 
      rewrite translate_pte in E by apply M. change (pte_entry (set_pmm pm (sh_vm s)) 0x80000000) with (pte_entry (sh_vm s) 0x80000000).
      destruct (present (pte_entry (sh_vm s) 0x80000000)); [|done]. replace (0x80000000 <? _) with false in E by lia. discriminate E. unfold is_u32. lia.
  - rewrite Hfs. apply (read_file_wp v V _ _ _ _ dk); [done|lia|]. rewrite Hfind. exists cs.
    split; [done|]. intros d' _. split; [done|]. rewrite Hsz. f_equal.
    + unfold i32. rewrite u32_small by (unfold is_u32; lia). cbv zeta. by rewrite bool_decide_true by lia.
    + rewrite Z.min_r, Nat2Z.id by lia. by symmetry.
  - unfold is_page. split; [lia|by rewrite Z.mod_mul].
  - rewrite Hfirst by done. lia.
  - intros a Ha. rewrite (mr_identity _ _ _ M) by (unfold is_u32; lia). 
    by replace (a <? _) with true by lia.
Qed.
End Boot.

(** ** A machine that boots and spawns

    Forty bytes of code at 0x08048000, in the file RUN.ELF. *)
Definition code_elf : list Z :=
  elf_magic ++ replicate 12 0 ++ [2; 0; 3; 0; 1; 0; 0; 0]
  ++ [0x00; 0x80; 0x04; 0x08] ++ [52; 0; 0; 0] ++ replicate 8 0 ++ [52; 0; 32; 0; 1; 0] ++ replicate 6 0
  ++ [1; 0; 0; 0] ++ [84; 0; 0; 0] ++ [0x00; 0x80; 0x04; 0x08] ++ [0x00; 0x80; 0x04; 0x08]
  ++ [40; 0; 0; 0] ++ [40; 0; 0; 0] ++ [7; 0; 0; 0] ++ [0; 0x10; 0; 0] ++ replicate 40 0x90.

Definition code_seg : seg := {| sg_type := 1; sg_off := 84; sg_va := 0x08048000; sg_fsz := 40; sg_msz := 40 |}.

Lemma code_segments : segments code_elf = [code_seg].
Proof. reflexivity. Qed.

Lemma code_valid : valid_elf code_elf.
Proof.
  constructor.
  - apply (bool_decide_unpack _). vm_compute. exact I.
  - change (length code_elf) with 124%nat. lia.
  - vm_compute. reflexivity.
  - vm_compute. reflexivity.
  - vm_compute. congruence.
  - vm_compute. congruence.
  - vm_compute. congruence.
  - rewrite code_segments. constructor; [|done]. split; vm_compute; congruence.
  - rewrite code_segments. constructor; [done|]. constructor.
Qed.

Definition code_disk : ramdisk :=
  <[1 := put16 4 0xFFFF (replicate 512 0)]> (<[2 := put16 4 0xFFFF (replicate 512 0)]>
    (<[3 := fill_entry (replicate 512 0) 0 (str "RUN     ") (str "ELF") 2 124]>
      (<[4 := splice 0 code_elf (replicate 512 0)]> empty_disk))).

Lemma code_disk_holds : holds code_disk (rd_sector code_disk).
Proof.
  split; [|done]. apply disk_ok.
  repeat (apply map_Forall_insert_2; [by vm_compute|]). apply map_Forall_empty.
Qed.

Definition code_entry : fat16_dir_entry := new_entry (str "RUN     ") (str "ELF") 2 124.

Abbreviation code_fs := (set_dev code_disk fs0).

Lemma code_found : dir_find code_fs (rd_sector code_disk) (str "RUN     ") (str "ELF") = Some code_entry.
Proof. vm_compute. reflexivity. Qed.

Lemma code_file : file_at code_fs (rd_sector code_disk) code_entry [2].
Proof.
  split_and!; [intros c ->%list_elem_of_singleton; vm_compute; split; congruence| | |vm_compute; congruence].
  - vm_compute. split; [congruence|done].
  - vm_compute. reflexivity.
Qed.

(** The memory system after booting. *)
Definition booted : shell ramdisk unit :=
  match setup_memory 2 MULTIBOOT_MAGIC 64 (demo_shell boot_vm code_fs) with Done (_, s, _) => s | _ => demo_shell boot_vm code_fs end.

Lemma booted_ready : memory_ready boot_vm (sh_vm booted) [one_region] /\ sh_fat booted = code_fs.
Proof.
  assert (W : wp (setup_memory 2 MULTIBOOT_MAGIC 64) (demo_shell boot_vm code_fs)
    (fun _ s _ => memory_ready boot_vm (sh_vm s) [one_region] /\ sh_fat s = code_fs)).
  { apply (setup_memory_wp 2 _ _ [one_region]); [reflexivity|reflexivity|done|exact one_region_low|exact boot_map|exact one_region_reach|]. done. }
  destruct (wp_inv _ _ _ W) as ([] & s' & o & E & HQ). unfold booted. by rewrite E.
Qed.

Lemma booted_heap : free_mem_addr (vm_pmm (sh_vm booted)) = 0x203 * 4096.
Proof. vm_compute. reflexivity. Qed.

Lemma booted_segments : Forall (seg_ready (sh_vm booted) code_elf) (segments code_elf).
Proof.
  rewrite code_segments. constructor; [|done]. split; [split; vm_compute; congruence|].
  intros p Hp. unfold sg_first, sg_stop in Hp. cbn [sg_va sg_msz code_seg] in Hp.
  assert (p = 0x8048) as -> by word. vm_compute. reflexivity.
Qed.

Lemma booted_enough : enough (2 * sum_list (pages_of <$> phdrs code_elf) + 2) (snd (kmalloc_a 4096 (vm_pmm (sh_vm booted)))).
Proof.
  assert (E : (2 * sum_list (pages_of <$> phdrs code_elf) + 2)%nat = 4%nat) by (vm_compute; reflexivity). rewrite E. vm_compute. repeat split; discriminate.
Qed.

Lemma usable_behind_heap f : 0x203 <= f <= 0x204 -> usable_frame [one_region] f.
Proof.
  intros Hf. exists one_region. split; [apply list_elem_of_here|]. split; [done|].
  change (first_frame one_region) with 0x100. change (num_frames one_region) with 0x300. lia.
Qed.

Lemma usable_first : usable_frame [one_region] 0x203.
Proof. apply usable_behind_heap. lia. Qed.

Lemma usable_second : usable_frame [one_region] (0x203 + 1).
Proof. apply usable_behind_heap. lia. Qed.

Lemma code_stack : ~ page_of (segments code_elf) stack_page.
Proof.
  intros (sg & Hsg & Hp). rewrite code_segments in Hsg. apply list_elem_of_singleton in Hsg as ->. vm_compute in Hp.
  destruct Hp as [_ Hp]. discriminate Hp.
Qed.

Lemma code_page q : page_of (segments code_elf) q -> q = 0x8048.
Proof.
  intros (sg & Hsg & Hq). rewrite code_segments in Hsg. apply list_elem_of_singleton in Hsg as ->.
  unfold sg_first, sg_stop in Hq. cbn [sg_va sg_msz code_seg] in Hq. word.
Qed.

#[local] Opaque booted.

Lemma first_spawn_overwrites_witness :
  exists r s' o, task_create_from_elf (str "run.elf") booted = Done (r, s', o) /\ fst r = 0 /\
    seg_byte code_elf code_seg 24 = 0x90 /\ vread (sh_vm s') (sg_va code_seg + 24) = 0.
Proof.
  destruct booted_ready as [M Hfs].
  assert (Hsz : file_size code_entry = Z.of_nat (length code_elf)) by (vm_compute; reflexivity).
  assert (Himg : code_elf = take (length code_elf) (file_bytes code_fs (rd_sector code_disk) [2])) by (vm_compute; reflexivity).
  assert (E83 : fat16_format_83 (str "run.elf") = (str "RUN     ", str "ELF")) by (vm_compute; reflexivity).
  assert (Ht : tracked (0x203 + 1)) by (split; [discriminate|reflexivity]).
  assert (Hlim : 0x203 + 2 <= mapped_frames [one_region] <= 0x80000) by (vm_compute; split; congruence).
  assert (Hlen : (length code_elf <= 4096)%nat) by (apply Nat.leb_le; vm_compute; reflexivity).
  assert (Hsegs : segments code_elf <> []) by (rewrite code_segments; discriminate).
  destruct (wp_inv _ _ _ (first_spawn_overwrites code_fs (fs0_volume code_disk) code_disk (rd_sector code_disk) booted boot_vm
    [one_region] 0x203 (str "run.elf") (str "RUN     ") (str "ELF") code_entry [2] code_elf
    M booted_heap eq_refl Ht usable_first usable_second Hlim Hfs code_disk_holds E83
    code_found code_file Hsz Himg code_valid Hlen Hsegs booted_segments code_stack booted_enough))
    as (r & s' & o & E & Hr & q & Hq & Hz).
  exists r, s', o. split; [exact E|]. split; [exact Hr|]. split; [reflexivity|].
  apply code_page in Hq as ->. apply (Hz 24). split; [discriminate|reflexivity].
Defined.
